(* ===== verification/_CoqProject ===== *)
-Q . S2P
Prelude.v
Bitops.v
BitScan.v
Mem.v
DList.v
Sort.v
CString.v
Ctype.v
Hexdump.v
Vsprintf.v
VsprintfSpec.v
VsprintfFormat.v
VsprintfText.v
Vmcs.v
Machine.v
Tsc.v
Console.v
ConsoleSpec.v
LogSpec.v
Cpu.v
Features.v
PerCpu.v
Apic.v
Acpi.v
AcpiSpec.v
Madt.v
MadtSpec.v
Ept.v
Types.v
Kvm.v
Vmx.v
VmxState.v
VmxExit.v
Syscall.v
Hypervisor.v
LoopEnds.v
E820.v
E820Map.v
E820Update.v
Boot.v
BootSpec.v
Firmware.v
FirmwareSpec.v
Traps.v
TrapsSpec.v
Panic.v
Main.v
MainSpec.v
MainEnds.v
TablesApart.v
Capable.v
MainStarts.v
FirmwareMain.v
