(* ===== verification/Prelude.v ===== *)
(** * lvisor: a verification development

    lvisor is a small x86-64 hypervisor on VT-x: it boots from a multiboot loader, sets up
    the processor, the memory map, the interrupt tables, ACPI and the local APIC, and then
    runs one guest (a firmware of its own, which loads the guest kernel), mapping the
    guest's memory with extended page tables and emulating what exits.  This library models
    the C sources function by function and proves the properties that make them correct.

    ** How the code is modelled

    A C function becomes a Gallina function of the same name.  An unsigned integer of [w]
    bits is a [Z] in [[0, 2^w)] and every arithmetic result that can leave that range is wrapped with
    [wrap w] ([u8], [u16], [u32], [u64]); the build has [-fwrapv].  The address space is the
    identity map the program runs in, so [__va] and [__pa] are not written.  A function with state is a
    computation of the monad [M S A] below: it ends with a value and a state, in a panic
    ([panic], [BUG_ON], [assert]), or out of fuel.  A loop is structural where it counts,
    and otherwise a [loop] with 2^64 rounds of fuel, more than the program can run; every
    theorem about such a loop shows that it ends, so that the fuel does not matter.  Where
    a function takes fuel as an argument (the string searches) its theorem says how much is
    enough.  Processor, devices and the guest are parameters, type classes such as
    [Hardware]; the classes of laws ([LawfulGuest], [Ticking], [WritableVmcs], ...) state the documented behaviour that
    theorems rely on, and each theorem that uses one has a concrete instance in its witness.
    Addresses the linker chooses are the fields of [Layout], [BootLayout],
    [FirmwareLayout], [TrapLayout] and [ConsoleLayout].  [printk] itself, from its format to the ports of the
    consoles, is in Console, and what [panic] does in Panic.  The components that only report
    something record it instead, as a format with its arguments, without the trailing newline
    and without the prefix of [pr_fmt]; where they panic, the computation ends with the format.

    ** The files

    - Prelude: integers, the monad and its reasoning rules, loops, arrays.  Mem: memory as
      bytes, little-endian integers.  DList: the intrusive lists of [include/sys/list.h].
    - Library: Bitops ([lib/find_bit.c], [asm/bitops.h]), BitScan (the loops over bits of
      [sys/bitops.h]), Types (the macros of [sys/types.h], byte order, paging indices), Sort ([lib/sort.c]), CString
      ([lib/string.c]), Ctype ([lib/ctype.c]), Hexdump ([lib/hexdump.c]), Vsprintf
      ([lib/vsprintf.c]).  VsprintfSpec proves the conversion of numbers, VsprintfFormat the
      decoding of directives, VsprintfText the whole formatter against the inductive relation
      [formats].
    - The machine: Vmcs (the fields of the VMCS and the accessor checks), Machine (the state
      [machine] of the hypervisor over a parameter [hw], registers and MSRs).
    - Kernel: Tsc ([kernel/tsc.c]), Cpu ([kernel/cpu.c]), Features ([kernel/capflags.c],
      [asm/cpufeatures.h]), PerCpu ([kernel/threads.c], [sys/percpu.h]), Apic ([kernel/apic.c],
      [xapic.c], [x2apic.c]), Acpi ([kernel/acpi.c], [acpica/tbxfroot.c], [tbprint.c]) with AcpiSpec,
      Madt (the MADT handlers of [acpi.c] and [apic.c]) with MadtSpec, Traps ([kernel/idt.c], [traps.c],
      [i8259.c]) with TrapsSpec, E820 ([kernel/e820.c]) with E820Map and E820Update.
    - Output: Console ([lib/printk.c], [kernel/vgacon.c], [uart8250.c], [porte9.c] and the spin
      lock of the log), ConsoleSpec (the drivers against what a user sees: a terminal, a
      serial line, a debug port), LogSpec (the invariant of the log and what a message shows),
      Panic ([lib/panic.c], [kernel/dumpstack.c], the handlers of [idt.c] that print and stop).
    - The hypervisor: Ept (the page tables of [vmm/kvm.c] and the walks of [vmm/vmx.c]), Kvm
      ([vmm/kvm.c]: registers, CPUID), Vmx ([vmm/vmx.c]: configuration, guest state) with
      VmxState, VmxExit (the exit handlers and the entry) with Syscall, Hypervisor (the life
      of the virtual machine as a step relation), LoopEnds (every iteration of [kvm_loop] ends).
    - Booting the guest: Boot ([vmm/multiboot.c] and the second half of [kvm_init]) with
      BootSpec, Firmware ([firmware/multiboot.c], [elfload.h]) with FirmwareSpec.
    - The programs: Main ([vmm/main.c], [kvm_init] and [kvm_bsp_run] of [kvm.c]) with MainSpec
      and MainEnds, Capable (the processors that can run it, and the components on them), TablesApart
      (the firmware's tables while it starts) with MainStarts, FirmwareMain ([firmware/main.c], [linux.c]).

    ** How they meet

    [kvm_loop] of Hypervisor is the program's main loop: a step is a guest entry
    ([vmx_vcpu_run], where the class [GuestExecution] stands for the guest) and the handler
    of the exit.  The handlers reach memory through Ept and the VMCS through Vmcs; the interface
    between [kvm.c] and [vmx.c] is the pair of classes [KvmGuestOps] and [KvmSkipOp], which
    Vmx instantiates.  Boot uses E820 for the memory map, and the map it hands over is the one
    Firmware reads; the multiboot structures are the same bytes at both ends.  [sort] is used
    by E820 through the class [SortOps], which both memory arrays and arrays of pointers
    satisfy.  The walk of Acpi over subtables takes the handlers of Madt, which register
    processors in Apic.  The task-state descriptor Traps writes is the one [get_tr_base] of Vmx reads.

    Each of these files has the part of the state its code works on.  Main puts the parts
    together: one byte memory under the consoles, the descriptor tables, the ACPI tables, the boot
    loader's data and the guest's parameters, the machine, the E820 tables.  Before the
    guest starts, the memory becomes the words on which the virtual machine works.
    Consoles reach the list of their kind through DList, the clock through Tsc and the
    formatter through Vsprintf; what the theorems need of the devices is the class
    [ConsolePorts], and what the failing paths read of the processor is [StopState].

    ** What the theorems show

    - The whole program: started by a multiboot loader, [main] hands the guest its modules and
      a memory map without the hypervisor, and from then on the guest, whatever it does,
      cannot change the hypervisor's memory ([main_isolates_guest]).  It does get that far or
      panics, and then every iteration of [kvm_loop] ends: no loop of the program runs for
      ever, whatever the tables of the firmware hold and whatever the guest does ([main_ends]).
      On a processor with what the program asks for (the record [capable]) that keeps its
      configuration (the class [SteadyProcessor]), and with firmware tables that describe it, no
      check stops it ([main_starts]).
    - Isolation: whatever the guest does, the hypervisor's memory keeps its contents, and
      [syscall] and [sysret] always reach the emulation ([hypervisor_isolated],
      [syscalls_trapped], invariants of [kvm_loop]; [lazy_ept_correct],
      [lazy_refines_eager], [msr_interception_policy]).
    - The virtual processor: reset state, control registers, segments, CPUID, instruction
      skipping, and the round trip of [syscall] and [sysret].
    - The memory map and the hand-over: sanitizing, retyping and querying the E820 map; the
      parameters of the guest; the ELF loaders; the multiboot information of the guest kernel.
    - The kernel: the ACPI tables found, the processors registered, every interrupt vector's
      gate, the local APIC, calibration and delays that end.
    - Output: every registered console shows a message as it was formatted ([vprintk_correct]),
      the screen as a terminal ([vgacon_write_refines]); a panic and an unhandled exception print
      the registers and the whole stack and stop ([panic_correct], [do_error_correct]), and so
      does the firmware without a kernel ([firmware_unknown_kernel]).
    - The library: linked lists against mathematical lists, loops over the bits of a bitmap
      against iteration over a list, the names of processor features against the rule for them,
      sorting in memory, formatted output (with its bound on the buffer), strings, hexadecimal text
      and bitmap searches.

    ** Not modelled

    The assembly ([kernel/entry.S], [vmm/head.S], [firmware/head.S]) and the linker scripts; the guest
    operating systems and scripts under [tests/]; the branches of [include/sys/percpu.h] for more
    than one CPU, which are not compiled; headers of constants and of structures the modelled code
    does not use (most of the ACPI tables, MSR numbers, the registers of other UARTs, boot
    parameters of Linux).  The two views of the hypervisor's memory, bytes and words, are joined
    once, in Main; a write of the virtual machine is not seen by the byte memory, which nothing
    reads any more. *)

From stdpp Require Export base numbers list gmap strings.
From Stdlib Require Export Lia.

#[global] Set Warnings "-notation-overridden".

#[local] Open Scope Z_scope.

(** ** Machine integers

    A [w]-bit C unsigned integer is a [Z] in [[0, 2^w)].  The code is compiled
    with [-fwrapv], so every arithmetic result is taken modulo [2^w]; the
    wrap-around is written out with [wrap]. *)

Definition wrap (w x : Z) : Z := x mod 2 ^ w.

Abbreviation u8 := (wrap 8).
Abbreviation u16 := (wrap 16).
Abbreviation u32 := (wrap 32).
Abbreviation u64 := (wrap 64).

(** A [w]-bit two's complement reading of the low bits of [x]. *)
Definition swrap (w x : Z) : Z := (x + 2 ^ (w - 1)) mod 2 ^ w - 2 ^ (w - 1).

Abbreviation s8 := (swrap 8).
Abbreviation s16 := (swrap 16).
Abbreviation s32 := (swrap 32).
Abbreviation s64 := (swrap 64).

Declare Scope cint_scope.
Delimit Scope cint_scope with cint.

Notation "a &&& b" := (Z.land a b) (at level 40, left associativity) : cint_scope.
Notation "a ||| b" := (Z.lor a b) (at level 50, left associativity) : cint_scope.
Notation "a ^^^ b" := (Z.lxor a b) (at level 40, left associativity) : cint_scope.
Notation "a >>> n" := (Z.shiftr a n) (at level 39, left associativity) : cint_scope.
Notation "a <<< n" := (Z.shiftl a n) (at level 39, left associativity) : cint_scope.

(** [~x] at width [w] on a value already below [2^w]. *)
Definition cnot (w x : Z) : Z := wrap w (Z.lnot x).
Abbreviation not32 := (cnot 32).
Abbreviation not64 := (cnot 64).

(** [if (x)] on an integer. *)
Definition truthy (x : Z) : bool := negb (x =? 0).

(** [BIT_32(nr)], [BIT_64(nr)] and [1 << nr] for a [nr] inside the width. *)
Definition BIT (nr : Z) : Z := Z.shiftl 1 nr.

Definition b2z (b : bool) : Z := if b then 1 else 0.

Create HintDb cint.

Lemma wrap_small w x : 0 ≤ x < 2 ^ w → wrap w x = x.
Proof. intros. by apply Z.mod_small. Qed.

Lemma wrap_bound w x : 0 ≤ w → 0 ≤ wrap w x < 2 ^ w.
Proof. intros. apply Z.mod_pos_bound. apply Z.pow_pos_nonneg; lia. Qed.

Lemma wrap_nonneg w x : 0 ≤ w → 0 ≤ wrap w x.
Proof. intros. by apply wrap_bound. Qed.

Lemma wrap_wrap w x : 0 ≤ w → wrap w (wrap w x) = wrap w x.
Proof. intros. apply wrap_small, wrap_bound; done. Qed.

Lemma swrap_small w x : - 2 ^ (w - 1) ≤ x < 2 ^ (w - 1) → 1 ≤ w → swrap w x = x.
Proof.
  intros Hx Hw. unfold swrap. rewrite Z.mod_small; [lia|].
  replace (2 ^ w) with (2 * 2 ^ (w - 1)) by (rewrite <- Z.pow_succ_r by lia; f_equal; lia). lia.
Qed.

Lemma s32_small x : - 2 ^ 31 ≤ x < 2 ^ 31 → s32 x = x.
Proof. intros. apply swrap_small; lia. Qed.

Lemma s32_u64 x : s32 (u64 x) = s32 x.
Proof. unfold swrap, wrap. f_equal. change (2 ^ 64) with (2 ^ 32 * 2 ^ 32); Z.div_mod_to_equations; lia. Qed.

Lemma wrap_add_l w x y : wrap w (wrap w x + y) = wrap w (x + y).
Proof. apply Zplus_mod_idemp_l. Qed.

Lemma wrap_add_r w x y : wrap w (x + wrap w y) = wrap w (x + y).
Proof. apply Zplus_mod_idemp_r. Qed.

Lemma wrap_land w x : 0 ≤ w → wrap w x = Z.land x (Z.ones w).
Proof. intros. by rewrite Z.land_ones. Qed.

Lemma testbit_wrap w x i :
  0 ≤ w → Z.testbit (wrap w x) i = Z.testbit x i && (0 <=? i) && (i <? w).
Proof.
  intros Hw. rewrite wrap_land, Z.land_spec by done.
  destruct (Z.ltb_spec i w).
  - destruct (Z.leb_spec 0 i).
    + rewrite Z.ones_spec_low by lia. by rewrite !andb_true_r.
    + rewrite (Z.testbit_neg_r _ i) by lia. by rewrite andb_false_r.
  - rewrite Z.ones_spec_high by lia. by rewrite !andb_false_r.
Qed.

Lemma testbit_high w x i : 0 ≤ x < 2 ^ w → 0 ≤ w ≤ i → Z.testbit x i = false.
Proof.
  intros Hx Hi. rewrite <- (wrap_small w x) by done.
  rewrite testbit_wrap by lia.
  destruct (Z.ltb_spec i w); [lia|]. by rewrite !andb_false_r.
Qed.

Lemma testbit_cnot w x i :
  0 ≤ w → Z.testbit (cnot w x) i = negb (Z.testbit x i) && (0 <=? i) && (i <? w).
Proof.
  intros Hw. unfold cnot. rewrite testbit_wrap by done.
  destruct (Z.leb_spec 0 i); [|by rewrite !andb_false_r].
  by rewrite Z.lnot_spec by done.
Qed.

Lemma cnot_bound w x : 0 ≤ w → 0 ≤ cnot w x < 2 ^ w.
Proof. apply wrap_bound. Qed.

Lemma testbit_BIT n i : 0 ≤ n → Z.testbit (BIT n) i = (i =? n).
Proof.
  intros. unfold BIT. rewrite Z.shiftl_1_l.
  destruct (Z.eqb_spec i n) as [->|]; [by apply Z.pow2_bits_true|].
  by apply Z.pow2_bits_false.
Qed.


Lemma bits_bound w x :
  0 ≤ w → 0 ≤ x → (∀ i, w ≤ i → Z.testbit x i = false) → x < 2 ^ w.
Proof.
  intros Hw Hx Hb.
  assert (wrap w x = x) as <-; [|by apply wrap_bound].
  apply Z.bits_inj'. intros i Hi. rewrite testbit_wrap by done.
  destruct (Z.ltb_spec i w); destruct (Z.leb_spec 0 i); try lia.
  - by rewrite !andb_true_r.
  - rewrite Hb by lia. done.
Qed.

Lemma lor_bound w x y :
  0 ≤ w → 0 ≤ x < 2 ^ w → 0 ≤ y < 2 ^ w → 0 ≤ Z.lor x y < 2 ^ w.
Proof.
  intros Hw Hx Hy. split; [apply Z.lor_nonneg; lia|].
  apply bits_bound; [done|apply Z.lor_nonneg; lia|].
  intros i Hi. rewrite Z.lor_spec, !(testbit_high w); (done || lia).
Qed.

Lemma land_bound_r w x y : 0 ≤ w → 0 ≤ y < 2 ^ w → 0 ≤ Z.land x y < 2 ^ w.
Proof.
  intros Hw Hy. split; [apply Z.land_nonneg; lia|].
  apply bits_bound; [done|apply Z.land_nonneg; lia|].
  intros i Hi. rewrite Z.land_spec, (testbit_high w y) by (done || lia).
  by rewrite andb_false_r.
Qed.

Lemma land_bound_l w x y : 0 ≤ w → 0 ≤ x < 2 ^ w → 0 ≤ Z.land x y < 2 ^ w.
Proof. rewrite Z.land_comm. apply land_bound_r. Qed.

#[export] Hint Resolve wrap_bound wrap_nonneg cnot_bound lor_bound land_bound_r
  land_bound_l : cint.

Create HintDb bits.
#[export] Hint Rewrite Z.land_spec Z.lor_spec Z.lxor_spec Z.ldiff_spec : bits.
#[export] Hint Rewrite testbit_wrap testbit_cnot testbit_BIT Z.testbit_0_l using lia : bits.
#[export] Hint Rewrite Z.shiftr_spec Z.shiftl_spec using lia : bits.

(** [bitwise] proves an equality of integers bit by bit; [bits] leaves the bits. *)
Ltac bits_at H i Hi := apply Z.bits_inj'; intros i Hi; autorewrite with bits.
Tactic Notation "bitwise" ident(i) := let Hi := fresh "Hi" in apply Z.bits_inj'; intros i Hi; autorewrite with bits.

(** Decides every comparison of integers left in a goal about bits. *)
Ltac zbool :=
  repeat match goal with
  | |- context [Z.leb ?a ?b] => destruct (Z.leb_spec a b); try lia
  | |- context [Z.ltb ?a ?b] => destruct (Z.ltb_spec a b); try lia
  | |- context [Z.eqb ?a ?b] => destruct (Z.eqb_spec a b); try lia
  end;
  rewrite ?andb_true_r, ?andb_false_r, ?orb_false_r, ?orb_true_r; simpl; try done.

(** *** Aligned values

    The masks of the code split an integer into a multiple of a power of two and a
    remainder; these lemmas turn them into arithmetic. *)

Lemma lor_low n a b : 0 ≤ n → a mod 2 ^ n = 0 → 0 ≤ b < 2 ^ n → Z.lor a b = a + b.
Proof.
  intros Hn Ha Hb. rewrite <- Z.lxor_lor, <- Z.add_nocarry_lxor; [done|..].
  all: apply Z.bits_inj'; intros i Hi; rewrite Z.land_spec, Z.testbit_0_l.
  all: destruct (Z.ltb_spec i n).
  1,3: rewrite <- (Z.mod_pow2_bits_low a n) by lia; by rewrite Ha, Z.testbit_0_l.
  all: rewrite (testbit_high n b) by lia; by rewrite andb_false_r.
Qed.

Lemma land_mask n x : 0 ≤ n → Z.land x (2 ^ n - 1) = x mod 2 ^ n.
Proof. intros. rewrite <- Z.land_ones by done. by rewrite Z.ones_equiv, Z.sub_1_r. Qed.

Lemma land_cnot_mask w n x :
  0 ≤ n ≤ w → 0 ≤ x < 2 ^ w → Z.land x (cnot w (2 ^ n - 1)) = 2 ^ n * (x / 2 ^ n).
Proof.
  intros Hn Hx.
  assert (0 < 2 ^ n) as Hp by (apply Z.pow_pos_nonneg; lia).
  replace (2 ^ n * (x / 2 ^ n)) with (Z.ldiff x (Z.ones n)).
  - bitwise i.
    replace (2 ^ n - 1) with (Z.ones n) by (rewrite Z.ones_equiv; lia).
    destruct (Z.ltb_spec i w); destruct (Z.leb_spec 0 i); try lia.
    + by rewrite !andb_true_r.
    + rewrite (testbit_high w x) by lia. done.
  - rewrite Z.ldiff_ones_r, Z.shiftl_mul_pow2, Z.shiftr_div_pow2 by lia. lia.
Qed.

Lemma land_cnot_not_mask w n x :
  0 ≤ n ≤ w → 0 ≤ x < 2 ^ w → Z.land x (cnot w (cnot w (2 ^ n - 1))) = x mod 2 ^ n.
Proof.
  intros Hn Hx. rewrite <- Z.land_ones by lia. bitwise i.
  replace (2 ^ n - 1) with (Z.ones n) by (rewrite Z.ones_equiv; lia).
  destruct (Z.ltb_spec i w); destruct (Z.leb_spec 0 i); try lia.
  - by rewrite !andb_true_r, negb_involutive.
  - rewrite (testbit_high w x) by lia. done.
Qed.

Lemma shiftr_land_mask x n k :
  0 ≤ n → 0 ≤ k → Z.land (Z.shiftr x n) (2 ^ k - 1) = (x / 2 ^ n) mod 2 ^ k.
Proof. intros. by rewrite land_mask, Z.shiftr_div_pow2. Qed.

(** [if (x & (1 << n))] *)
Lemma truthy_land_BIT x n : 0 ≤ n → truthy (Z.land x (BIT n)) = Z.testbit x n.
Proof.
  intros Hn. unfold truthy. destruct (Z.testbit x n) eqn:E.
  - apply negb_true_iff, Z.eqb_neq. intros Hz.
    assert (Z.testbit (Z.land x (BIT n)) n = true) as Ht.
    { rewrite Z.land_spec, testbit_BIT, E, Z.eqb_refl by done. done. }
    by rewrite Hz, Z.testbit_0_l in Ht.
  - apply negb_false_iff, Z.eqb_eq. bitwise i. destruct (Z.eqb_spec i n) as [->|]; [by rewrite E|].
    apply andb_false_r.
Qed.

(** *** Checking a finite range by evaluation *)

Lemma forallb_elem {A} (f : A → bool) l x : forallb f l = true → x ∈ l → f x = true.
Proof. rewrite forallb_forall. intros H Hx. apply H. by apply list_elem_of_In. Qed.

Lemma forallb_seqZ (f : Z → bool) lo n i :
  forallb f (seqZ lo n) = true → lo ≤ i < lo + n → f i = true.
Proof. intros H Hi. apply (forallb_elem _ _ _ H), elem_of_seqZ. lia. Qed.

(** [lia] with division and modulus by constants. *)
Ltac divlia := Z.div_mod_to_equations; lia.

(** ** Computations

    Every stateful routine is a computation [M S A]: it ends with a value and a
    state, or in [panic()] ([BUG_ON], [assert]) with the message and the state the
    machine is left in.  [panic] is [noreturn]: nothing after it runs.  [OutOfFuel]
    is the end of a loop that has not ended after 2^64 iterations; the theorems on
    termination show that it is not reached. *)

Inductive outcome (S A : Type) : Type :=
  | Done (a : A) (s : S)
  | Panicked (msg : string) (s : S)
  | OutOfFuel (s : S).
Arguments Done {S A} a s.
Arguments Panicked {S A} msg s.
Arguments OutOfFuel {S A} s.

Definition M (S A : Type) : Type := S → outcome S A.

#[export] Instance M_ret S : MRet (M S) := λ A a s, Done a s.
#[export] Instance M_bind S : MBind (M S) := λ A B f m s,
  match m s with
  | Done a s' => f a s'
  | Panicked msg s' => Panicked msg s'
  | OutOfFuel s' => OutOfFuel s'
  end.

Definition get {S} : M S S := λ s, Done s s.
Definition gets {S A} (f : S → A) : M S A := λ s, Done (f s) s.
Definition modify {S} (f : S → S) : M S unit := λ s, Done tt (f s).
Definition panic {S A} (msg : string) : M S A := λ s, Panicked msg s.

(** [BUG_ON(condition)] and [assert(condition)] of [include/sys/bug.h]. *)
Definition BUG_ON {S} (c : bool) : M S unit := if c then panic "BUG" else mret tt.
Definition assert {S} (c : bool) : M S unit := BUG_ON (negb c).

(** [if (c) m] *)
Definition when {S} (c : bool) (m : M S unit) : M S unit := if c then m else mret tt.

(** [for (x in l) f(x)] *)
Fixpoint for_each {S A} (l : list A) (f : A → M S unit) : M S unit :=
  match l with
  | [] => mret tt
  | x :: l => f x ;; for_each l f
  end.

Lemma bind_ret_l {S A B} (a : A) (f : A → M S B) s : (mret a ≫= f) s = f a s.
Proof. done. Qed.

Lemma bind_done {S A B} (m : M S A) (f : A → M S B) s a s' :
  m s = Done a s' → (m ≫= f) s = f a s'.
Proof. intros H. unfold mbind, M_bind. by rewrite H. Qed.

Lemma bind_panicked {S A B} (m : M S A) (f : A → M S B) s e s' :
  m s = Panicked e s' → (m ≫= f) s = Panicked e s'.
Proof. intros H. unfold mbind, M_bind. by rewrite H. Qed.

Lemma bind_assoc {S A B C} (m : M S A) (f : A → M S B) (g : B → M S C) s :
  ((m ≫= f) ≫= g) s = (m ≫= λ a, f a ≫= g) s.
Proof. unfold mbind, M_bind. by destruct (m s). Qed.

Lemma bind_done_inv {S A B} (m : M S A) (f : A → M S B) s b s'' :
  (m ≫= f) s = Done b s'' → ∃ a s', m s = Done a s' ∧ f a s' = Done b s''.
Proof. unfold mbind, M_bind. destruct (m s); naive_solver. Qed.

Lemma done_inj {S A} (a a' : A) (s s' : S) : Done a s = Done a' s' → a = a' ∧ s = s'.
Proof. by intros [= -> ->]. Qed.

Lemma gets_inv {S A} (f : S → A) s a s' : gets f s = Done a s' → a = f s ∧ s' = s.
Proof. unfold gets. by intros [= <- <-]. Qed.

Lemma check_inv {S} (c : bool) msg (s : S) a s' :
  (if c then panic msg else mret tt) s = Done a s' → c = false ∧ s' = s.
Proof. destruct c; [done|]. by intros [= _ <-]. Qed.

(** Decomposes [H : m s = Done a s'] along the first bind of [m]. *)
Tactic Notation "bind_inv" hyp(H) "as" simple_intropattern(a) simple_intropattern(s)
    simple_intropattern(H1) :=
  apply bind_done_inv in H; destruct H as (a & s & H1 & H).

(** *** Loops

    [loop step a] repeats [step] until it answers [inr].  The fuel is a binary number,
    so that a loop which ends early is evaluated in the steps it takes. *)

Fixpoint loop_pos {S A B} (p : positive) (step : A → M S (A + B)) (a : A) : M S (A + B) :=
  match p with
  | xH => step a
  | xO p =>
      r ← loop_pos p step a;
      match r with inl a => loop_pos p step a | inr b => mret (inr b) end
  | xI p =>
      r ← step a;
      match r with
      | inl a =>
          r ← loop_pos p step a;
          match r with inl a => loop_pos p step a | inr b => mret (inr b) end
      | inr b => mret (inr b)
      end
  end.

Definition out_of_fuel {S A} : M S A := λ s, OutOfFuel s.

Definition loop {S A B} (step : A → M S (A + B)) (a : A) : M S B :=
  r ← loop_pos (2 ^ 64) step a;
  match r with inl _ => out_of_fuel | inr b => mret b end.

(** The state a computation ends in. *)
Definition final_state {S A} (o : outcome S A) : S :=
  match o with Done _ s => s | Panicked _ s => s | OutOfFuel s => s end.

(** The predicate [I] survives [m]: it holds of the state [m] ends in, whether
    [m] returns or panics. *)
Definition preserves {S A} (I : S → Prop) (m : M S A) : Prop :=
  ∀ s, I s → I (final_state (m s)).

Section preserves.
Context {S : Type} (I : S → Prop).

Lemma preserves_ret {A} (a : A) : preserves I (mret a : M S A).
Proof. by intros s Hs. Qed.

Lemma preserves_bind {A B} (m : M S A) (f : A → M S B) :
  preserves I m → (∀ a, preserves I (f a)) → preserves I (m ≫= f).
Proof.
  intros Hm Hf s Hs. unfold mbind, M_bind. specialize (Hm s Hs).
  destruct (m s); [by apply Hf|done..].
Qed.

Lemma preserves_panic {A} msg : preserves I (panic msg : M S A).
Proof. by intros s Hs. Qed.

Lemma preserves_gets {A} (f : S → A) : preserves I (gets f).
Proof. by intros s Hs. Qed.

Lemma preserves_modify (f : S → S) :
  (∀ s, I s → I (f s)) → preserves I (modify f).
Proof. intros H s Hs. by apply H. Qed.

Lemma preserves_if {A} (b : bool) (m n : M S A) :
  preserves I m → preserves I n → preserves I (if b then m else n).
Proof. by destruct b. Qed.

Lemma preserves_BUG_ON b : preserves I (BUG_ON b).
Proof. by destruct b; intros s Hs. Qed.

Lemma preserves_assert b : preserves I (assert b).
Proof. apply preserves_BUG_ON. Qed.

Lemma preserves_when b m : preserves I m → preserves I (when b m).
Proof. destruct b; [done|]. by intros _ s Hs. Qed.

Lemma preserves_for_each {A} (l : list A) f :
  (∀ x, x ∈ l → preserves I (f x)) → preserves I (for_each l f).
Proof.
  induction l as [|x l IH]; intros H; [apply preserves_ret|]; simpl.
  apply preserves_bind; [apply H; by left|]. intros _. apply IH.
  intros y Hy. apply H. by right.
Qed.

Lemma preserves_loop_pos {A B} (step : A → M S (A + B)) p a :
  (∀ a, preserves I (step a)) → preserves I (loop_pos p step a).
Proof.
  intros Hs. revert a. induction p as [p IH|p IH|]; intros a; cbn [loop_pos]; [| |done].
  all: apply preserves_bind; [done|]; intros [a'|b]; [|apply preserves_ret].
  - apply preserves_bind; [apply IH|]. intros [a''|b]; [apply IH|apply preserves_ret].
  - apply IH.
Qed.

Lemma preserves_loop {A B} (step : A → M S (A + B)) a :
  (∀ a, preserves I (step a)) → preserves I (loop step a).
Proof.
  intros Hs. apply preserves_bind; [by apply preserves_loop_pos|].
  intros [a'|b]; [by intros s|apply preserves_ret].
Qed.
End preserves.

(** Every outcome of a loop: an invariant of the loop's argument and the state, a measure
    below the fuel that each iteration decreases, and what the outcome is to be. *)
Section loop_outcome.
Context {S A B : Type} (step : A → M S (A + B)).
Context (I : A → S → Prop) (P : A → S → outcome S B → Prop) (mu : A → S → Z).

Definition loop_step_to (a : A) (s : S) (o : outcome S (A + B)) : Prop :=
  match o with
  | Done (inl a') s' => I a' s' ∧ 0 ≤ mu a' s' < mu a s ∧ ∀ r, P a' s' r → P a s r
  | Done (inr b) s' => P a s (Done b s')
  | Panicked msg s' => P a s (Panicked msg s')
  | OutOfFuel _ => False
  end.

Context (Hstep : ∀ a s, I a s → loop_step_to a s (step a s)).

Lemma loop_pos_outcome p a s :
  I a s → match loop_pos p step a s with
          | Done (inl a') s' =>
              I a' s' ∧ 0 ≤ mu a' s' ∧ mu a' s' + Z.pos p ≤ mu a s ∧ ∀ r, P a' s' r → P a s r
          | Done (inr b) s' => P a s (Done b s')
          | Panicked msg s' => P a s (Panicked msg s')
          | OutOfFuel _ => False
          end.
Proof.
  revert a s. induction p as [p IH|p IH|]; intros a s HI; cbn [loop_pos].
  - pose proof (Hstep a s HI) as H1. unfold loop_step_to in H1. unfold mbind, M_bind, mret, M_ret.
    destruct (step a s) as [[a1|b] s1| |]; try (by auto). destruct H1 as (HI1 & Hm1 & HP1).
    pose proof (IH a1 s1 HI1) as H2. destruct (loop_pos p step a1 s1) as [[a2|b] s2| |]; try (by auto).
    destruct H2 as (HI2 & ? & ? & HP2). pose proof (IH a2 s2 HI2) as H3.
    destruct (loop_pos p step a2 s2) as [[a3|b] s3| |]; try (by auto). destruct H3 as (? & ? & ? & HP3).
    split_and!; [done|lia|lia|auto].
  - unfold mbind, M_bind, mret, M_ret.
    pose proof (IH a s HI) as H2. destruct (loop_pos p step a s) as [[a2|b] s2| |]; try done.
    destruct H2 as (HI2 & ? & ? & HP2). pose proof (IH a2 s2 HI2) as H3.
    destruct (loop_pos p step a2 s2) as [[a3|b] s3| |]; try (by auto). destruct H3 as (? & ? & ? & HP3).
    split_and!; [done|lia|lia|auto].
  - pose proof (Hstep a s HI) as H1. unfold loop_step_to in H1.
    destruct (step a s) as [[a1|b] s1| |]; try done. destruct H1 as (? & ? & ?). split_and!; (done || lia).
Qed.

Lemma loop_outcome a s : I a s → mu a s < 2 ^ 64 → P a s (loop step a s).
Proof.
  intros HI Hm. pose proof (loop_pos_outcome (2 ^ 64) a s HI) as H.
  unfold loop, mbind, M_bind. destruct (loop_pos _ _ _ _) as [[a'|b] s'| |]; try done.
  change (Z.pos (2 ^ 64)) with (2 ^ 64) in H. lia.
Qed.
End loop_outcome.

(** Total correctness: the loop returns, in a state of [Q]. *)
Section loop_total.
Context {S A B : Type} (step : A → M S (A + B)).
Context (I : A → S → Prop) (Q : B → S → Prop) (mu : A → S → Z).

Definition loop_step_ok (a : A) (s : S) (o : outcome S (A + B)) : Prop :=
  match o with
  | Done (inl a') s' => I a' s' ∧ 0 ≤ mu a' s' < mu a s
  | Done (inr b) s' => Q b s'
  | _ => False
  end.

Context (Hstep : ∀ a s, I a s → loop_step_ok a s (step a s)).

Lemma loop_total a s :
  I a s → mu a s < 2 ^ 64 → ∃ b s', loop step a s = Done b s' ∧ Q b s'.
Proof.
  intros HI Hm.
  apply (loop_outcome step I (λ _ _ o, ∃ b s', o = Done b s' ∧ Q b s') mu); [|done..].
  intros a' s0 HI'. pose proof (Hstep a' s0 HI') as Hs. unfold loop_step_ok, loop_step_to in *.
  destruct (step a' s0) as [[a''|b] s1| |]; try done; [|eauto]. destruct Hs. split_and!; (done || lia || auto).
Qed.
End loop_total.

(** A loop whose first iteration ends it, and one that never ends. *)
Lemma loop_done {S A B} (step : A → M S (A + B)) a s b s' : step a s = Done (inr b) s' → loop step a s = Done b s'.
Proof.
  intros Hs. assert (∀ p, loop_pos p step a s = Done (inr b) s') as Hp.
  { induction p as [p IH|p IH|]; cbn [loop_pos]; unfold mbind, M_bind; by rewrite ?Hs, ?IH. }
  unfold loop, mbind, M_bind. by rewrite Hp.
Qed.

Lemma loop_stuck {S A B} (step : A → M S (A + B)) (I : A → S → Prop) a s :
  (∀ a s, I a s → ∃ a' s', step a s = Done (inl a') s' ∧ I a' s') → I a s →
  ∃ a' s', loop step a s = OutOfFuel s' ∧ I a' s'.
Proof.
  intros Hs Ha. assert (∀ p a s, I a s → ∃ a' s', loop_pos p step a s = Done (inl a') s' ∧ I a' s') as Hp.
  { induction p as [p IH|p IH|]; intros b t Hb; cbn [loop_pos]; unfold mbind, M_bind; [| |by apply Hs].
    - destruct (Hs b t Hb) as (b1 & t1 & -> & H1). destruct (IH b1 t1 H1) as (b2 & t2 & -> & H2). by apply IH.
    - destruct (IH b t Hb) as (b1 & t1 & -> & H1). by apply IH. }
  destruct (Hp (2 ^ 64)%positive a s Ha) as (a' & s' & Hr & HI). exists a', s'. unfold loop, mbind, M_bind. by rewrite Hr.
Qed.

(** A loop that keeps [I] as long as its argument is in [R]. *)
Lemma preserves_loop_arg {S A B} (I : S → Prop) (R : A → Prop) (step : A → M S (A + B)) a :
  (∀ a s, R a → I s → match step a s with Done (inl a') s' => R a' ∧ I s' | o => I (final_state o) end) →
  R a → preserves I (loop step a).
Proof.
  intros Hs Ha s HI.
  assert (∀ p a s, R a → I s →
    match loop_pos p step a s with Done (inl a') s' => R a' ∧ I s' | o => I (final_state o) end) as Hp.
  { induction p as [p IH|p IH|]; intros b t Hb Ht; cbn [loop_pos]; [| |by apply Hs].
    - unfold mbind, M_bind. specialize (Hs b t Hb Ht). destruct (step b t) as [[b1|x] t1| |]; try done.
      destruct Hs as [Hb1 Ht1]. pose proof (IH b1 t1 Hb1 Ht1) as H1.
      destruct (loop_pos p step b1 t1) as [[b2|x] t2| |]; try done. destruct H1. by apply IH.
    - unfold mbind, M_bind. pose proof (IH b t Hb Ht) as H1.
      destruct (loop_pos p step b t) as [[b2|x] t2| |]; try done. destruct H1. by apply IH. }
  unfold loop, mbind, M_bind. specialize (Hp (2 ^ 64)%positive a s Ha HI).
  destruct (loop_pos _ step a s) as [[a'|b] s'| |]; try done. by destruct Hp.
Qed.

Create HintDb preserves.
#[export] Hint Resolve preserves_ret preserves_panic preserves_gets preserves_BUG_ON
  preserves_assert : preserves.

Lemma preserves_done {S A} (I : S → Prop) (m : M S A) s a s' :
  preserves I m → I s → m s = Done a s' → I s'.
Proof. intros Hm Hs Hr. specialize (Hm s Hs). by rewrite Hr in Hm. Qed.

(** Unfolds a computation into the primitive updates that [I] has to survive; the
    hint database holds the lemmas on routines already treated. *)
Ltac preserving_step :=
  lazymatch goal with
  | |- preserves _ (mbind _ _) => apply preserves_bind; [|intros ?]; cbv beta
  | |- preserves _ (mret _) => apply preserves_ret
  | |- preserves _ (panic _) => apply preserves_panic
  | |- preserves _ (gets _) => apply preserves_gets
  | |- preserves _ (BUG_ON _) => apply preserves_BUG_ON
  | |- preserves _ (assert _) => apply preserves_assert
  | |- preserves _ (when _ _) => apply preserves_when
  | |- preserves _ (for_each _ _) => apply preserves_for_each; intros ? _; cbv beta
  | |- preserves _ (loop _ _) => apply preserves_loop; intros ?; cbv beta
  | |- preserves _ (modify _) =>
      first [solve [eauto 3 with preserves nocore] | apply preserves_modify; intros ? ?; (assumption || done)]
  | |- preserves _ _ => first [solve [eauto 3 with preserves nocore] | progress case_match]
  end.

Ltac preserving := intros; repeat preserving_step.

(** Total correctness: from a state in [P], [m] returns (it neither panics nor runs out
    of fuel) and [Q] holds of its value and of the state it ends in. *)
Definition triple {S A} (P : S → Prop) (m : M S A) (Q : A → S → Prop) : Prop :=
  ∀ s, P s → ∃ a s', m s = Done a s' ∧ Q a s'.

(** [m] returns and maintains [I]. *)
Definition keeps {S A} (I : S → Prop) (m : M S A) : Prop := triple I m (λ _, I).

Section triple.
Context {S : Type}.
Implicit Types (P I : S → Prop).

Lemma triple_ret {A} (a : A) P (Q : A → S → Prop) :
  (∀ s, P s → Q a s) → triple P (mret a) Q.
Proof. intros H s Hs. exists a, s. auto. Qed.

Lemma triple_bind {A B} (m : M S A) (f : A → M S B) P Q R :
  triple P m Q → (∀ a, triple (Q a) (f a) R) → triple P (m ≫= f) R.
Proof.
  intros Hm Hf s Hs. destruct (Hm s Hs) as (a & s' & Hr & Hq).
  rewrite (bind_done _ _ _ _ _ Hr). by apply Hf.
Qed.

Lemma triple_gets {A} (f : S → A) P (Q : A → S → Prop) :
  (∀ s, P s → Q (f s) s) → triple P (gets f) Q.
Proof. intros H s Hs. exists (f s), s. auto. Qed.

Lemma triple_modify (f : S → S) P (Q : unit → S → Prop) :
  (∀ s, P s → Q tt (f s)) → triple P (modify f) Q.
Proof. intros H s Hs. exists tt, (f s). auto. Qed.

Lemma triple_conseq {A} (m : M S A) P P' (Q Q' : A → S → Prop) :
  triple P m Q → (∀ s, P' s → P s) → (∀ a s, Q a s → Q' a s) → triple P' m Q'.
Proof.
  intros Hm HP HQ s Hs. destruct (Hm s (HP s Hs)) as (a & s' & Hr & Hq). exists a, s'. auto.
Qed.

Lemma keeps_ret {A} (a : A) I : keeps I (mret a : M S A).
Proof. by apply triple_ret. Qed.

Lemma keeps_bind {A B} (m : M S A) (f : A → M S B) I :
  keeps I m → (∀ a, keeps I (f a)) → keeps I (m ≫= f).
Proof. intros Hm Hf. by eapply triple_bind; [apply Hm|]. Qed.

Lemma keeps_bind_assoc {A B C} (m : M S A) (g : A → M S B) (f : B → M S C) I :
  keeps I (m ≫= λ a, g a ≫= f) → keeps I ((m ≫= g) ≫= f).
Proof.
  intros H s Hs. destruct (H s Hs) as (c & s' & Hr & Hq). exists c, s'. split; [|done].
  unfold mbind, M_bind in *. by destruct (m s).
Qed.

Lemma keeps_ret_bind {A B} (a : A) (f : A → M S B) I : keeps I (f a) → keeps I (mret a ≫= f).
Proof. done. Qed.

Lemma keeps_gets {A} (f : S → A) I : keeps I (gets f).
Proof. by apply triple_gets. Qed.

Lemma keeps_modify (f : S → S) I : (∀ s, I s → I (f s)) → keeps I (modify f).
Proof. intros. by apply triple_modify. Qed.

Lemma keeps_when (c : bool) (m : M S unit) I : (c = true → keeps I m) → keeps I (when c m).
Proof. destruct c; [auto|]. intros _. apply keeps_ret. Qed.

Lemma keeps_if {A} (c : bool) (m n : M S A) I :
  (c = true → keeps I m) → (c = false → keeps I n) → keeps I (if c then m else n).
Proof. destruct c; auto. Qed.

Lemma keeps_for_each {A} (l : list A) (f : A → M S unit) I :
  (∀ x, x ∈ l → keeps I (f x)) → keeps I (for_each l f).
Proof.
  induction l as [|x l IH]; intros H; [apply keeps_ret|]; simpl.
  apply keeps_bind; [apply H; by left|]. intros _. apply IH. intros y Hy. apply H. by right.
Qed.
End triple.

(** Unfolds a computation made of binds into the obligations of its parts. *)
Ltac keeping :=
  repeat first
    [ apply keeps_ret
    | apply keeps_gets
    | apply keeps_when; intros ?
    | apply keeps_bind; [|intros ?]
    | progress case_match ].

(** [m] always returns, with a value that satisfies [Q]. *)
Definition returns {S A} (m : M S A) (Q : A → Prop) : Prop :=
  ∀ s, ∃ a s', m s = Done a s' ∧ Q a.

Section returns.
Context {S : Type}.

Lemma returns_ret {A} (a : A) (Q : A → Prop) : Q a → returns (mret a : M S A) Q.
Proof. intros H s. by exists a, s. Qed.

Lemma returns_bind {A B} (m : M S A) (f : A → M S B) Q R :
  returns m Q → (∀ a, Q a → returns (f a) R) → returns (m ≫= f) R.
Proof.
  intros Hm Hf s. destruct (Hm s) as (a & s' & Hs & Ha). rewrite (bind_done _ _ _ _ _ Hs).
  by apply Hf.
Qed.

Lemma returns_weaken {A} (m : M S A) (Q R : A → Prop) :
  returns m Q → (∀ a, Q a → R a) → returns m R.
Proof. intros Hm HQR s. destruct (Hm s) as (a & s' & ? & ?). exists a, s'. auto. Qed.

Lemma returns_gets {A} (f : S → A) : returns (gets f) (λ _, True).
Proof. intros s. by exists (f s), s. Qed.

Lemma returns_modify (f : S → S) : returns (modify f) (λ _, True).
Proof. intros s. by exists tt, (f s). Qed.

Lemma returns_loop {A B} (step : A → M S (A + B)) (I : A → Prop) (Q : B → Prop) (mu : A → Z) a :
  (∀ a, I a → returns (step a) (λ r, match r with
                                     | inl a' => I a' ∧ 0 ≤ mu a' < mu a
                                     | inr b => Q b
                                     end)) →
  I a → mu a < 2 ^ 64 → returns (loop step a) Q.
Proof.
  intros Hstep HI Hmu s.
  apply (loop_total step (λ a _, I a) (λ b _, Q b) (λ a _, mu a)); [|done..].
  intros a' s' HI'. destruct (Hstep a' HI' s') as ([a''|b] & s'' & Hs & Hr);
    unfold loop_step_ok; by rewrite Hs.
Qed.

Lemma returns_for_each {A} (l : list A) (f : A → M S unit) :
  (∀ x, x ∈ l → returns (f x) (λ _, True)) → returns (for_each l f) (λ _, True).
Proof.
  induction l as [|x l IH]; intros H; [by apply returns_ret|]; simpl.
  eapply returns_bind; [apply H; by left|]. intros _ _. apply IH. intros y Hy. apply H. by right.
Qed.
End returns.

Create HintDb returns.
#[export] Hint Resolve returns_gets returns_modify returns_for_each : returns.
#[export] Hint Extern 1 (returns (mret _) _) => apply returns_ret : returns.

(** [m] settles: from a state in [I] it returns in such a state, or panics; it does not run
    out of fuel. *)
Definition settled {S A} (I : S → Prop) (o : outcome S A) : Prop :=
  match o with Done _ s' => I s' | Panicked _ _ => True | OutOfFuel _ => False end.
Definition settles {S A} (I : S → Prop) (m : M S A) : Prop := ∀ s, I s → settled I (m s).

Section settles.
Context {S : Type} (I : S → Prop).

Lemma settles_ret {A} (a : A) : settles I (mret a : M S A).
Proof. by intros s Hs. Qed.

Lemma settles_bind {A B} (m : M S A) (f : A → M S B) :
  settles I m → (∀ a, settles I (f a)) → settles I (m ≫= f).
Proof.
  intros Hm Hf s Hs. specialize (Hm s Hs). unfold mbind, M_bind.
  destruct (m s) as [a s'| |]; [by apply Hf|done..].
Qed.

Lemma settled_bind {A B} J (m : M S A) (f : A → M S B) s :
  settled J (m s) → (∀ a s', m s = Done a s' → J s' → settled I (f a s')) → settled I ((m ≫= f) s).
Proof. intros Hm Hf. unfold mbind, M_bind. destruct (m s) as [a s'| |]; [by apply Hf|done..]. Qed.

Lemma settled_mono {A} (J : S → Prop) (o : outcome S A) : (∀ s, J s → I s) → settled J o → settled I o.
Proof. intros HJ. destruct o; [apply HJ|done..]. Qed.

Lemma settled_ends (o : outcome S unit) : settled I o → (∃ s', o = Done tt s') ∨ ∃ msg s', o = Panicked msg s'.
Proof. destruct o as [[] s'|msg s'|]; [by eauto|by eauto|done]. Qed.

Lemma settles_panic {A} msg : settles I (panic msg : M S A).
Proof. by intros s Hs. Qed.

Lemma settles_gets {A} (f : S → A) : settles I (gets f).
Proof. by intros s Hs. Qed.

Lemma settles_modify (f : S → S) : (∀ s, I s → I (f s)) → settles I (modify f).
Proof. intros Hf s Hs. by apply Hf. Qed.

Lemma settles_BUG_ON b : settles I (BUG_ON b).
Proof. by destruct b; intros s Hs. Qed.

Lemma settles_when b m : settles I m → settles I (when b m).
Proof. destruct b; [done|]. by intros _ s Hs. Qed.

Lemma settles_for_each {A} (l : list A) f : (∀ x, settles I (f x)) → settles I (for_each l f).
Proof.
  intros Hf. induction l as [|x l IH]; [apply settles_ret|]; simpl. by apply settles_bind.
Qed.

(** A loop whose argument stays in [R] and decreases in the measure [mu]. *)
Lemma settles_loop {A B} (step : A → M S (A + B)) (R : A → Prop) (mu : A → Z) a :
  (∀ a s, R a → I s → match step a s with
                      | Done (inl a') s' => R a' ∧ I s' ∧ 0 ≤ mu a' < mu a
                      | o => settled I o
                      end) →
  R a → mu a < 2 ^ 64 → settles I (loop step a).
Proof.
  intros Hstep Ha Hmu s Hs.
  apply (loop_outcome step (λ a s, R a ∧ I s) (λ _ _ o, settled I o) (λ a _, mu a)); [|done..].
  intros b t [Hb Ht]. specialize (Hstep b t Hb Ht). unfold loop_step_to.
  destruct (step b t) as [[b'|x] t'| |]; try exact Hstep. destruct Hstep as (? & ? & ? & ?). by split_and!.
Qed.
End settles.

Create HintDb settles.

Ltac settling_step :=
  lazymatch goal with
  | |- settles _ (mbind _ _) => apply settles_bind; [|intros ?]; cbv beta
  | |- settles _ (mret _) => apply settles_ret
  | |- settles _ (panic _) => apply settles_panic
  | |- settles _ (gets _) => apply settles_gets
  | |- settles _ (BUG_ON _) => apply settles_BUG_ON
  | |- settles _ (assert _) => apply settles_BUG_ON
  | |- settles _ (when _ _) => apply settles_when
  | |- settles _ (for_each _ _) => apply settles_for_each; intros ?; cbv beta
  | |- settles _ (modify _) => apply settles_modify; intros ? ?; (assumption || done)
  | |- settles _ _ => first [solve [eauto 3 with settles nocore] | progress case_match]
  end.

Ltac settling := intros; repeat settling_step.

(** ** Arrays

    A C array is a list read and written by an integer index.  Every access the
    code makes is in range; an index out of range reads 0 and stores nothing, and
    the theorems on bounds say it does not happen. *)

Definition aget (l : list Z) (i : Z) : Z :=
  if i <? 0 then 0 else default 0 (l !! Z.to_nat i).

Definition aset {A} (l : list A) (i : Z) (v : A) : list A :=
  if i <? 0 then l else <[Z.to_nat i := v]> l.

Lemma aset_length {A} (l : list A) i v : length (aset l i v) = length l.
Proof. unfold aset. case_match; [done|]. apply length_insert. Qed.

Lemma aget_aset_eq l i v :
  0 ≤ i < Z.of_nat (length l) → aget (aset l i v) i = v.
Proof.
  intros Hi. unfold aget, aset. destruct (Z.ltb_spec i 0); [lia|].
  by rewrite list_lookup_insert_eq by lia.
Qed.

Lemma aget_aset_ne l i j v : i ≠ j → 0 ≤ i → aget (aset l i v) j = aget l j.
Proof.
  intros Hij Hi. unfold aget, aset. destruct (Z.ltb_spec i 0); [lia|].
  destruct (Z.ltb_spec j 0); [done|]. by rewrite list_lookup_insert_ne by lia.
Qed.

Lemma aget_nil i : aget [] i = 0.
Proof. unfold aget. by case_match. Qed.

Lemma aget_cons_0 x l : aget (x :: l) 0 = x.
Proof. done. Qed.

Lemma aget_cons x l i : 0 < i → aget (x :: l) i = aget l (i - 1).
Proof.
  intros. unfold aget. destruct (Z.ltb_spec i 0), (Z.ltb_spec (i - 1) 0); try lia.
  by replace (Z.to_nat i) with (S (Z.to_nat (i - 1))) by lia.
Qed.

Lemma aget_lookup l i x : l !! Z.to_nat i = Some x → 0 ≤ i → aget l i = x.
Proof. intros Hl Hi. unfold aget. destruct (Z.ltb_spec i 0); [lia|]. by rewrite Hl. Qed.

Lemma fmap_aget_take ol n : 0 ≤ n ≤ Z.of_nat (length ol) → aget ol <$> seqZ 0 n = take (Z.to_nat n) ol.
Proof.
  intros Hn. apply list_eq_same_length with (Z.to_nat n).
  { rewrite length_take. lia. }
  { by rewrite length_fmap, length_seqZ. }
  intros i x y Hi Hx Hy. apply list_lookup_fmap_Some in Hx as (z & -> & Hz); apply lookup_seqZ in Hz; destruct Hz as [-> _].
  rewrite lookup_take_lt in Hy by done. apply aget_lookup; [|lia]. by rewrite Z.add_0_l, Nat2Z.id.
Qed.

Lemma take_insert_last {A} (l : list A) k p e z :
  l !! p = Some e → l !! k = Some z → (p ≤ k)%nat →
  take (S k) l ≡ₚ e :: take k (<[p := z]> l).
Proof.
  intros Hp Hk Hle. rewrite (take_S_r _ _ _ Hk). destruct (decide (p = k)) as [->|Hne].
  - simplify_eq. rewrite take_insert_ge by done. symmetry; apply Permutation_cons_append.
  - rewrite take_insert_lt by lia.
    assert (take k l !! p = Some e) as Ht by (by rewrite lookup_take_lt by lia).
    rewrite (insert_take_drop (take k l)) by (apply lookup_lt_Some in Ht; done).
    rewrite <- (take_drop_middle (take k l) p e) at 1 by done.
    transitivity ((e :: take p (take k l) ++ drop (S p) (take k l)) ++ [z]).
    { by rewrite Permutation_middle. }
    cbn. constructor. rewrite <- app_assoc.
    apply Permutation_app_head. symmetry; apply Permutation_cons_append.
Qed.

Lemma take_aset {A} (l : list A) n e : take (Z.to_nat n) (aset l n e) = take (Z.to_nat n) l.
Proof. unfold aset. destruct (Z.ltb_spec n 0); [done|]. by rewrite take_insert_ge. Qed.

Lemma take_aset_S {A} (l : list A) n e :
  0 ≤ n < Z.of_nat (length l) → take (Z.to_nat (n + 1)) (aset l n e) = take (Z.to_nat n) l ++ [e].
Proof.
  intros Hn. unfold aset. destruct (Z.ltb_spec n 0); [lia|].
  replace (Z.to_nat (n + 1)) with (S (Z.to_nat n)) by lia.
  rewrite (take_S_r _ _ e) by (apply list_lookup_insert_eq; lia). by rewrite take_insert_ge.
Qed.

Lemma fmap_total_take {A} `{!Inhabited A} (l : list A) n :
  0 ≤ n ≤ Z.of_nat (length l) → (λ i, l !!! Z.to_nat i) <$> seqZ 0 n = take (Z.to_nat n) l.
Proof.
  intros Hn. apply list_eq_same_length with (Z.to_nat n).
  { rewrite length_take. lia. }
  { by rewrite length_fmap, length_seqZ. }
  intros i x y Hi Hx Hy. apply list_lookup_fmap_Some in Hx as (z & -> & Hz).
  apply lookup_seqZ in Hz as [-> _]. rewrite lookup_take_lt in Hy by done.
  rewrite Z.add_0_l, Nat2Z.id. by apply list_lookup_total_correct.
Qed.

Create HintDb arrays.
#[export] Hint Rewrite @aset_length : arrays.
