(* ===== verification/Bitops.v ===== *)
(** Bit operations and bitmap searches: [include/asm/bitops.h],
    [include/sys/bitops.h] and [lib/find_bit.c].

    A bitmap is an array of 64-bit words; [bitmap_bit] is its abstract view, the
    [n]-th bit of the bit string at its address.  The searches are proved to return
    the least (last) bit of the abstract view, and to terminate: each loop runs on
    fuel and the theorems show the fuel given is enough. *)

From S2P Require Import Prelude.
#[local] Open Scope Z_scope.
#[local] Open Scope cint_scope.

Definition BITS_PER_LONG : Z := 64.

Definition words_ok (l : list Z) : Prop := Forall (λ w, 0 ≤ w < 2 ^ 64) l.

(** Bit [i] of the bit string stored in the words [l]. *)
Definition bitmap_bit (l : list Z) (i : Z) : bool :=
  Z.testbit (aget l (i / 64)) (i mod 64).

(** [bts]/[btr] with a memory operand: the bit [nr] of the bit string that starts
    at word [base] of the array. *)
Definition set_bit (nr base : Z) (l : list Z) : list Z :=
  let i := base + (nr >>> 6) in
  aset l i (aget l i ||| BIT (nr &&& (BITS_PER_LONG - 1))).

Definition clear_bit (nr base : Z) (l : list Z) : list Z :=
  let i := base + (nr >>> 6) in
  aset l i (aget l i &&& not64 (BIT (nr &&& (BITS_PER_LONG - 1)))).

Definition constant_test_bit (nr : Z) (l : list Z) : bool :=
  truthy (BIT (nr &&& (BITS_PER_LONG - 1)) &&& aget l (nr >>> 6)).

Definition variable_test_bit (nr : Z) (l : list Z) : bool :=
  Z.testbit (aget l (nr >>> 6)) (nr &&& (BITS_PER_LONG - 1)).

(** [bsf]: the index of the lowest set bit, scanning up from [i]. *)
Fixpoint bsf_from (fuel : nat) (w i : Z) : Z :=
  match fuel with
  | O => i
  | S fuel => if Z.testbit w i then i else bsf_from fuel w (i + 1)
  end.

(** [bsr]: the index of the highest set bit, scanning down from [i]. *)
Fixpoint bsr_from (fuel : nat) (w i : Z) : Z :=
  match fuel with
  | O => i
  | S fuel => if Z.testbit w i then i else bsr_from fuel w (i - 1)
  end.

Definition __ffs (word : Z) : Z := bsf_from 64 word 0.
Definition ffz (word : Z) : Z := bsf_from 64 (not64 word) 0.
Definition __fls (word : Z) : Z := bsr_from 64 word 63.

(** [word >> shift | word << (32 - shift)] on 32 bits. *)
Definition ror32 (word shift : Z) : Z :=
  (word >>> shift) ||| u32 (word <<< (32 - shift)).

Definition BITMAP_FIRST_WORD_MASK (start : Z) : Z :=
  u64 ((2 ^ 64 - 1) <<< (start &&& (BITS_PER_LONG - 1))).

Definition BITMAP_LAST_WORD_MASK (nbits : Z) : Z :=
  (2 ^ 64 - 1) >>> (u64 (- nbits) &&& (BITS_PER_LONG - 1)).

(** The [while (!tmp)] loop of [_find_next_bit]. *)
Fixpoint find_next_bit_loop (fuel : nat) (addr : list Z) (nbits invert tmp start : Z) : option Z :=
  match fuel with
  | O => None
  | S fuel =>
      if tmp =? 0 then
        let start := u64 (start + BITS_PER_LONG) in
        if nbits <=? start then Some nbits
        else find_next_bit_loop fuel addr nbits invert
               (aget addr (start / BITS_PER_LONG) ^^^ invert) start
      else Some (Z.min (u64 (start + __ffs tmp)) nbits)
  end.

Definition _find_next_bit (addr : list Z) (nbits start invert : Z) : option Z :=
  if nbits <=? start then Some nbits
  else
    let tmp := aget addr (start / BITS_PER_LONG) ^^^ invert in
    let tmp := tmp &&& BITMAP_FIRST_WORD_MASK start in
    let start := start - start mod BITS_PER_LONG in
    find_next_bit_loop (S (length addr)) addr nbits invert tmp start.

Definition find_next_bit (addr : list Z) (size offset : Z) : option Z :=
  _find_next_bit addr size offset 0.

Definition find_next_zero_bit (addr : list Z) (size offset : Z) : option Z :=
  _find_next_bit addr size offset (2 ^ 64 - 1).

(** The [for] loop of [find_first_bit]. *)
Fixpoint find_first_bit_loop (fuel : nat) (addr : list Z) (size idx : Z) : option Z :=
  match fuel with
  | O => None
  | S fuel =>
      if u64 (idx * BITS_PER_LONG) <? size then
        if aget addr idx =? 0 then find_first_bit_loop fuel addr size (u64 (idx + 1))
        else Some (Z.min (u64 (u64 (idx * BITS_PER_LONG) + __ffs (aget addr idx))) size)
      else Some size
  end.

Definition find_first_bit (addr : list Z) (size : Z) : option Z :=
  find_first_bit_loop (S (length addr)) addr size 0.

Fixpoint find_first_zero_bit_loop (fuel : nat) (addr : list Z) (size idx : Z) : option Z :=
  match fuel with
  | O => None
  | S fuel =>
      if u64 (idx * BITS_PER_LONG) <? size then
        if aget addr idx =? 2 ^ 64 - 1
        then find_first_zero_bit_loop fuel addr size (u64 (idx + 1))
        else Some (Z.min (u64 (u64 (idx * BITS_PER_LONG) + ffz (aget addr idx))) size)
      else Some size
  end.

Definition find_first_zero_bit (addr : list Z) (size : Z) : option Z :=
  find_first_zero_bit_loop (S (length addr)) addr size 0.

(** The [do ... while (idx--)] loop of [find_last_bit]. *)
Fixpoint find_last_bit_loop (fuel : nat) (addr : list Z) (size val idx : Z) : option Z :=
  match fuel with
  | O => None
  | S fuel =>
      let val := val &&& aget addr idx in
      if val =? 0 then
        if idx =? 0 then Some size
        else find_last_bit_loop fuel addr size (2 ^ 64 - 1) (u64 (idx - 1))
      else Some (u64 (u64 (idx * BITS_PER_LONG) + __fls val))
  end.

Definition find_last_bit (addr : list Z) (size : Z) : option Z :=
  if size =? 0 then Some size
  else find_last_bit_loop (S (length addr)) addr size
         (BITMAP_LAST_WORD_MASK size) (u64 (size - 1) / BITS_PER_LONG).

(** ** The abstract view *)

Lemma land_63 n : 0 ≤ n → n &&& (BITS_PER_LONG - 1) = n mod 64.
Proof. intros. change (BITS_PER_LONG - 1) with (Z.ones 6). by rewrite Z.land_ones. Qed.

Lemma shiftr_6 n : n >>> 6 = n / 64.
Proof. by rewrite Z.shiftr_div_pow2. Qed.

Lemma words_ok_aget l i : words_ok l → 0 ≤ aget l i < 2 ^ 64.
Proof.
  intros Hl. unfold aget. case_match; [lia|].
  destruct (l !! Z.to_nat i) eqn:E; simpl; [|lia].
  by eapply (Forall_lookup_1 _ _ _ _ Hl).
Qed.

Lemma words_ok_aset l i v : words_ok l → 0 ≤ v < 2 ^ 64 → words_ok (aset l i v).
Proof. intros. unfold aset. case_match; [done|]. by apply Forall_insert. Qed.

Lemma constant_test_bit_spec nr l : 0 ≤ nr → constant_test_bit nr l = bitmap_bit l nr.
Proof.
  intros Hnr. unfold constant_test_bit, bitmap_bit, truthy.
  rewrite land_63, shiftr_6 by done.
  pose proof (Z.mod_pos_bound nr 64 eq_refl) as Hb.
  destruct (Z.testbit (aget l (nr / 64)) (nr mod 64)) eqn:E.
  - apply negb_true_iff, Z.eqb_neq. intros H0.
    assert (Z.testbit 0 (nr mod 64) = true) as H; [|by rewrite Z.testbit_0_l in H].
    rewrite <- H0, Z.land_spec, E, testbit_BIT, Z.eqb_refl by lia. done.
  - apply negb_false_iff, Z.eqb_eq. bitwise i.
    destruct (Z.eqb_spec i (nr mod 64)) as [->|]; [by rewrite E|done].
Qed.

Lemma variable_test_bit_spec nr l : 0 ≤ nr → variable_test_bit nr l = bitmap_bit l nr.
Proof.
  intros. unfold variable_test_bit, bitmap_bit. by rewrite land_63, shiftr_6.
Qed.

(** Setting or clearing the bit [nr] at word [base] changes that bit and no other. *)
Section update.
Context (l : list Z) (nr base : Z).
Context (Hnr : 0 ≤ nr) (Hbase : 0 ≤ base).
Context (Hin : base + nr / 64 < Z.of_nat (length l)).

Lemma bitmap_bit_update w i :
  0 ≤ i →
  bitmap_bit (aset l (base + nr / 64) w) i =
    if decide (i / 64 = base + nr / 64)
    then Z.testbit w (i mod 64) else bitmap_bit l i.
Proof.
  intros Hi. unfold bitmap_bit. pose proof (Z.div_pos nr 64 Hnr eq_refl).
  case_decide as E.
  - rewrite E, aget_aset_eq by lia. done.
  - rewrite aget_aset_ne by lia. done.
Qed.

Lemma same_bit i : 0 ≤ i → i = base * 64 + nr ↔ i / 64 = base + nr / 64 ∧ i mod 64 = nr mod 64.
Proof. intros. split; intros; divlia. Qed.

Lemma set_bit_spec i :
  0 ≤ i →
  bitmap_bit (set_bit nr base l) i = (i =? base * 64 + nr) || bitmap_bit l i.
Proof.
  intros Hi. unfold set_bit. rewrite land_63, shiftr_6, bitmap_bit_update by done.
  pose proof (same_bit i Hi) as Hs.
  case_decide as E; [|zbool].
  rewrite Z.lor_spec, testbit_BIT by divlia. unfold bitmap_bit. rewrite E.
  rewrite orb_comm. f_equal. zbool.
Qed.

Lemma clear_bit_spec i :
  0 ≤ i →
  bitmap_bit (clear_bit nr base l) i = negb (i =? base * 64 + nr) && bitmap_bit l i.
Proof.
  intros Hi. unfold clear_bit. rewrite land_63, shiftr_6, bitmap_bit_update by done.
  pose proof (same_bit i Hi) as Hs.
  case_decide as E; [|zbool].
  rewrite Z.land_spec, testbit_cnot, testbit_BIT by divlia. unfold bitmap_bit. rewrite E.
  pose proof (Z.mod_pos_bound i 64 eq_refl).
  rewrite andb_comm. f_equal. zbool.
Qed.
End update.

Lemma set_bit_length nr base l : length (set_bit nr base l) = length l.
Proof. apply aset_length. Qed.

Lemma clear_bit_length nr base l : length (clear_bit nr base l) = length l.
Proof. apply aset_length. Qed.

Lemma set_bit_ok nr base l : 0 ≤ nr → words_ok l → words_ok (set_bit nr base l).
Proof.
  intros Hnr Hl. unfold set_bit. rewrite land_63 by done.
  apply words_ok_aset; [done|]. apply lor_bound; [lia|by apply words_ok_aget|].
  pose proof (Z.mod_pos_bound nr 64 eq_refl).
  unfold BIT. rewrite Z.shiftl_1_l. split; [apply Z.pow_nonneg; lia|].
  apply Z.pow_lt_mono_r; lia.
Qed.

Lemma clear_bit_ok nr base l : words_ok l → words_ok (clear_bit nr base l).
Proof.
  intros Hl. apply words_ok_aset; [done|]. apply land_bound_l; [lia|]. by apply words_ok_aget.
Qed.

(** ** Searching a word *)

Lemma bsf_from_spec fuel w i :
  0 ≤ i → i ≤ bsf_from fuel w i ≤ i + Z.of_nat fuel ∧
  (bsf_from fuel w i < i + Z.of_nat fuel → Z.testbit w (bsf_from fuel w i) = true) ∧
  (∀ j, i ≤ j < bsf_from fuel w i → Z.testbit w j = false).
Proof.
  revert i. induction fuel as [|fuel IH]; intros i Hi; cbn [bsf_from]; [split_and!; lia|].
  destruct (Z.testbit w i) eqn:E; [split_and!; [lia..|done|lia]|].
  destruct (IH (i + 1)) as (Hb & Ht & Hf); [lia|]. split_and!; [lia..| |].
  - intros. apply Ht. lia.
  - intros j Hj. destruct (decide (j = i)) as [->|]; [done|]. apply Hf. lia.
Qed.

Lemma bsr_from_spec fuel w i :
  Z.of_nat fuel = i + 1 →
  -1 ≤ bsr_from fuel w i ≤ i ∧
  (0 ≤ bsr_from fuel w i → Z.testbit w (bsr_from fuel w i) = true) ∧
  (∀ j, bsr_from fuel w i < j ≤ i → Z.testbit w j = false).
Proof.
  revert i. induction fuel as [|fuel IH]; intros i Hi; cbn [bsr_from]; [split_and!; lia|].
  destruct (Z.testbit w i) eqn:E; [split_and!; [lia..|done|lia]|].
  destruct (IH (i - 1)) as (Hb & Ht & Hf); [lia|]. split_and!; [lia..|done|].
  intros j Hj. destruct (decide (j = i)) as [->|]; [done|]. apply Hf. lia.
Qed.

(** A non-zero word has a set bit below 64. *)
Lemma nonzero_has_bit w : 0 ≤ w < 2 ^ 64 → w ≠ 0 → ∃ j, 0 ≤ j < 64 ∧ Z.testbit w j = true.
Proof.
  intros Hw Hnz. exists (Z.log2 w). split; [|apply Z.bit_log2; lia].
  split; [apply Z.log2_nonneg|]. apply Z.log2_lt_pow2; lia.
Qed.

Lemma __ffs_spec w :
  0 ≤ w < 2 ^ 64 → w ≠ 0 →
  0 ≤ __ffs w < 64 ∧ Z.testbit w (__ffs w) = true ∧
  ∀ j, 0 ≤ j < __ffs w → Z.testbit w j = false.
Proof.
  intros Hw Hnz. unfold __ffs.
  destruct (bsf_from_spec 64 w 0) as (Hb & Ht & Hf); [lia|].
  assert (bsf_from 64 w 0 < 64); [|split_and!; [lia..| |done]; by apply Ht].
  apply Z.nle_gt. intros Hge. destruct (nonzero_has_bit w Hw Hnz) as (j & Hj & Hjt).
  rewrite (Hf j) in Hjt by lia. done.
Qed.

Lemma __fls_spec w :
  0 ≤ w < 2 ^ 64 → w ≠ 0 →
  0 ≤ __fls w < 64 ∧ Z.testbit w (__fls w) = true ∧
  ∀ j, __fls w < j < 64 → Z.testbit w j = false.
Proof.
  intros Hw Hnz. unfold __fls.
  destruct (bsr_from_spec 64 w 63) as (Hb & Ht & Hf); [done|].
  assert (0 ≤ bsr_from 64 w 63); [|split_and!; [lia..|by apply Ht|intros; apply Hf; lia]].
  apply Z.nlt_ge. intros Hlt. destruct (nonzero_has_bit w Hw Hnz) as (j & Hj & Hjt).
  rewrite (Hf j) in Hjt by lia. done.
Qed.

Lemma ffz_ffs w : ffz w = __ffs (not64 w).
Proof. done. Qed.

Lemma not64_nonzero w : 0 ≤ w < 2 ^ 64 → w ≠ 2 ^ 64 - 1 → not64 w ≠ 0.
Proof. unfold cnot, wrap, Z.lnot. intros Hw Hne. divlia. Qed.

(** ** Searching a bitmap *)

(** [r] is the least index of [[lo, size)] that satisfies [P], or [size]. *)
Definition least_from (P : Z → bool) (lo size r : Z) : Prop :=
  if size <=? lo then r = size
  else lo ≤ r ≤ size ∧ (r < size → P r = true) ∧ ∀ i, lo ≤ i < r → P i = false.

(** [r] is the greatest index of [[0, size)] that satisfies [P], or [size]. *)
Definition greatest_below (P : Z → bool) (size r : Z) : Prop :=
  (r = size ∧ ∀ i, 0 ≤ i < size → P i = false) ∨
  (0 ≤ r < size ∧ P r = true ∧ ∀ i, r < i < size → P i = false).

Lemma least_from_unique P lo size r r' :
  least_from P lo size r → least_from P lo size r' → r = r'.
Proof.
  unfold least_from. destruct (Z.leb_spec size lo); [lia|].
  intros (H1 & H2 & H3) (H1' & H2' & H3').
  destruct (Z.lt_trichotomy r r') as [Hl|[?|Hl]]; [|done|].
  - rewrite H3' in H2 by lia. discriminate H2. lia.
  - rewrite H3 in H2' by lia. discriminate H2'. lia.
Qed.

(** The answer is in the word at [start], whose bits below [lo] are known to be
    clear in [w]. *)
Lemma least_from_word P lo size start w :
  lo < size → 0 ≤ w < 2 ^ 64 → w ≠ 0 →
  (∀ i, lo ≤ i < start → P i = false) →
  (∀ j, 0 ≤ j < 64 → Z.testbit w j = P (start + j) && (lo <=? start + j)) →
  least_from P lo size (Z.min (start + __ffs w) size).
Proof.
  intros Hlo Hw Hnz Hclr Hbits. unfold least_from.
  destruct (Z.leb_spec size lo); [lia|].
  destruct (__ffs_spec w Hw Hnz) as (Hb & Ht & Hf).
  rewrite Hbits in Ht by lia. apply andb_true_iff in Ht as [Ht Hge%Z.leb_le].
  split_and!; [lia..| |].
  - intros Hlt. by replace (Z.min _ _) with (start + __ffs w) by lia.
  - intros i Hi. destruct (decide (i < start)); [apply Hclr; lia|].
    specialize (Hf (i - start) ltac:(lia)). rewrite Hbits in Hf by lia.
    replace (start + (i - start)) with i in Hf by lia.
    destruct (Z.leb_spec lo i); [by rewrite andb_true_r in Hf|lia].
Qed.

Section find.
Context (l : list Z) (Hl : words_ok l) (size : Z).
Context (Hsize : size ≤ 64 * Z.of_nat (length l)) (Hlen : Z.of_nat (length l) < 2 ^ 57).

Definition xbit (invert i : Z) : bool := xorb (bitmap_bit l i) (truthy invert).

Lemma invert_word invert start j :
  invert = 0 ∨ invert = 2 ^ 64 - 1 → start mod 64 = 0 → 0 ≤ j < 64 →
  Z.testbit (aget l (start / 64) ^^^ invert) j = xbit invert (start + j).
Proof.
  intros Hinv Hst Hj. rewrite Z.lxor_spec. unfold xbit, bitmap_bit. f_equal.
  - f_equal; [f_equal|]; divlia.
  - destruct Hinv as [->| ->]; [by rewrite Z.testbit_0_l|].
    change (2 ^ 64 - 1) with (Z.ones 64). by rewrite Z.ones_spec_low.
Qed.

Lemma invert_word_bound invert i :
  invert = 0 ∨ invert = 2 ^ 64 - 1 → 0 ≤ aget l i ^^^ invert < 2 ^ 64.
Proof.
  intros Hinv. pose proof (words_ok_aget l i Hl) as Hw.
  assert (0 ≤ invert < 2 ^ 64) as Hi by lia. clear Hinv. split.
  - apply Z.lxor_nonneg. lia.
  - apply bits_bound; [lia|apply Z.lxor_nonneg; lia|]. intros k Hk.
    by rewrite Z.lxor_spec, !(testbit_high 64) by lia.
Qed.

Lemma find_next_bit_loop_spec fuel invert tmp start lo :
  invert = 0 ∨ invert = 2 ^ 64 - 1 →
  start mod 64 = 0 → 0 ≤ start → 0 ≤ lo < size → start < size → lo < start + 64 →
  0 ≤ tmp < 2 ^ 64 →
  (∀ i, lo ≤ i < start → xbit invert i = false) →
  (∀ j, 0 ≤ j < 64 → Z.testbit tmp j = xbit invert (start + j) && (lo <=? start + j)) →
  size - start < 64 * Z.of_nat fuel →
  ∃ r, find_next_bit_loop fuel l size invert tmp start = Some r ∧
       least_from (xbit invert) lo size r.
Proof.
  intros Hinv. revert tmp start.
  induction fuel as [|fuel IH]; intros tmp start Hal Hst Hlo Hss Hw Htmp Hclr Hbits Hfuel;
    cbn [find_next_bit_loop]; [lia|].
  unfold BITS_PER_LONG. rewrite (wrap_small 64 (start + 64)) by lia.
  destruct (Z.eqb_spec tmp 0) as [->|Hnz].
  - assert (∀ i, lo ≤ i < start + 64 → xbit invert i = false) as Hclr'.
    { intros i Hi. destruct (decide (i < start)); [apply Hclr; lia|].
      specialize (Hbits (i - start) ltac:(lia)). rewrite Z.testbit_0_l in Hbits.
      replace (start + (i - start)) with i in Hbits by lia.
      destruct (Z.leb_spec lo i); [by rewrite andb_true_r in Hbits|lia]. }
    destruct (Z.leb_spec size (start + 64)).
    + eexists; split; [done|]. unfold least_from. destruct (Z.leb_spec size lo); [lia|].
      split_and!; [lia..|]. intros i Hi. apply Hclr'. lia.
    + apply IH; try done; try lia; [divlia|by apply invert_word_bound|].
      intros j Hj. rewrite invert_word by (done || divlia).
      destruct (Z.leb_spec lo (start + 64 + j)); [by rewrite andb_true_r|lia].
  - pose proof (__ffs_spec tmp Htmp Hnz) as [Hb _].
    rewrite (wrap_small 64 (start + __ffs tmp)) by lia.
    eexists; split; [done|]. apply least_from_word; try done; try lia.
Qed.

Lemma _find_next_bit_spec invert offset :
  invert = 0 ∨ invert = 2 ^ 64 - 1 → 0 ≤ offset →
  ∃ r, _find_next_bit l size offset invert = Some r ∧
       least_from (xbit invert) offset size r.
Proof.
  intros Hinv Hoff. unfold _find_next_bit, BITS_PER_LONG.
  destruct (Z.leb_spec size offset) as [Hge|Hlt].
  { eexists; split; [done|]. unfold least_from. by destruct (Z.leb_spec size offset); [|lia]. }
  pose proof (Z.mod_pos_bound offset 64 eq_refl) as Hm.
  assert (Hw := invert_word_bound invert (offset / 64) Hinv).
  apply find_next_bit_loop_spec; [done|divlia..|by apply land_bound_l|divlia| |divlia].
  intros j Hj. rewrite Z.land_spec.
  replace (aget l (offset / 64)) with (aget l ((offset - offset mod 64) / 64))
    by (f_equal; divlia).
  rewrite invert_word by (done || divlia). f_equal.
  unfold BITMAP_FIRST_WORD_MASK. rewrite land_63, testbit_wrap, Z.shiftl_spec by lia.
  change (2 ^ 64 - 1) with (Z.ones 64).
  destruct (Z.leb_spec offset (offset - offset mod 64 + j)).
  - rewrite Z.ones_spec_low by lia. zbool.
  - rewrite Z.testbit_neg_r by lia. done.
Qed.

Lemma find_first_bit_loop_spec fuel idx :
  0 ≤ idx → 0 < Z.of_nat fuel → size ≤ 64 * (idx + Z.of_nat fuel - 1) → 64 * idx < size + 64 →
  (∀ i, 0 ≤ i < 64 * idx → bitmap_bit l i = false) → 0 < size →
  ∃ r, find_first_bit_loop fuel l size idx = Some r ∧ least_from (bitmap_bit l) 0 size r.
Proof.
  revert idx. induction fuel as [|fuel IH]; intros idx Hidx Hf0 Hfuel Hub Hclr Hpos;
    cbn [find_first_bit_loop]; [lia|].
  unfold BITS_PER_LONG. rewrite (wrap_small 64 (idx * 64)), (wrap_small 64 (idx + 1)) by lia.
  pose proof (words_ok_aget l idx Hl) as Hw.
  assert (∀ j, 0 ≤ j < 64 → bitmap_bit l (idx * 64 + j) = Z.testbit (aget l idx) j) as Hbit.
  { intros j Hj. unfold bitmap_bit. f_equal; [f_equal|]; divlia. }
  destruct (Z.ltb_spec (idx * 64) size).
  - destruct (Z.eqb_spec (aget l idx) 0) as [Hz|Hnz].
    + apply IH; [lia..| |done]. intros i Hi.
      destruct (decide (i < 64 * idx)); [apply Hclr; lia|].
      replace i with (idx * 64 + (i - 64 * idx)) by lia.
      by rewrite Hbit, Hz, Z.testbit_0_l by lia.
    + pose proof (__ffs_spec _ Hw Hnz) as [Hb _].
      rewrite (wrap_small 64 (_ + _)) by lia. eexists; split; [done|].
      apply least_from_word; try done; [intros; apply Hclr; lia|].
      intros j Hj. rewrite Hbit by done.
      by destruct (Z.leb_spec 0 (idx * 64 + j)); [rewrite andb_true_r|lia].
  - eexists; split; [done|]. unfold least_from. destruct (Z.leb_spec size 0); [lia|].
    split_and!; [lia..|]. intros i Hi. apply Hclr. lia.
Qed.
End find.

Lemma xbit_0 l i : xbit l 0 i = bitmap_bit l i.
Proof. apply xorb_false_r. Qed.

Lemma xbit_ones l i : xbit l (2 ^ 64 - 1) i = negb (bitmap_bit l i).
Proof. apply xorb_true_r. Qed.

Lemma least_from_ext P Q lo size r :
  (∀ i, lo ≤ i < size → P i = Q i) → least_from P lo size r → least_from Q lo size r.
Proof.
  intros HPQ. unfold least_from. destruct (Z.leb_spec size lo); [done|].
  intros (H1 & H2 & H3). split_and!; [lia..| |].
  - intros Hr. rewrite <- HPQ by lia. by apply H2.
  - intros i Hi. rewrite <- HPQ by lia. by apply H3.
Qed.

(** Searching zeros is searching ones in the complemented words. *)
Definition complement (l : list Z) : list Z := not64 <$> l.

Lemma complement_ok l : words_ok (complement l).
Proof. apply Forall_fmap, Forall_true. intros w. simpl. by apply cnot_bound. Qed.

Lemma aget_complement l i :
  0 ≤ i < Z.of_nat (length l) → aget (complement l) i = not64 (aget l i).
Proof.
  intros Hi. unfold aget, complement. destruct (Z.ltb_spec i 0); [lia|].
  rewrite list_lookup_fmap. destruct (lookup_lt_is_Some_2 l (Z.to_nat i)) as [w ->]; [lia|done].
Qed.

Lemma bitmap_bit_complement l i :
  0 ≤ i < 64 * Z.of_nat (length l) → bitmap_bit (complement l) i = negb (bitmap_bit l i).
Proof.
  intros Hi. unfold bitmap_bit. rewrite aget_complement by divlia.
  rewrite testbit_cnot by lia. pose proof (Z.mod_pos_bound i 64 eq_refl). zbool.
Qed.

Lemma find_first_zero_bit_loop_complement fuel l size idx :
  words_ok l → 0 ≤ idx → size ≤ 64 * Z.of_nat (length l) → Z.of_nat (length l) < 2 ^ 57 →
  64 * idx < size + 64 →
  find_first_zero_bit_loop fuel l size idx = find_first_bit_loop fuel (complement l) size idx.
Proof.
  intros Hl. revert idx. induction fuel as [|fuel IH]; intros idx Hidx Hs Hlen Hub; [done|].
  cbn [find_first_zero_bit_loop find_first_bit_loop]. unfold BITS_PER_LONG.
  pose proof (words_ok_aget l idx Hl) as Hw.
  destruct (decide (size ≤ 0)).
  { destruct (Z.ltb_spec (u64 (idx * 64)) size); [|done].
    pose proof (wrap_nonneg 64 (idx * 64)). lia. }
  rewrite (wrap_small 64 (idx * 64)), (wrap_small 64 (idx + 1)) by lia.
  destruct (Z.ltb_spec (idx * 64) size); [|done].
  rewrite aget_complement by lia. rewrite IH by lia.
  destruct (Z.eqb_spec (aget l idx) (2 ^ 64 - 1)) as [->|Hne]; [done|].
  destruct (Z.eqb_spec (not64 (aget l idx)) 0) as [Hz|]; [|done].
  by apply not64_nonzero in Hne.
Qed.

Lemma find_first_bit_spec l size :
  words_ok l → size ≤ 64 * Z.of_nat (length l) → Z.of_nat (length l) < 2 ^ 57 → 0 ≤ size →
  ∃ r, find_first_bit l size = Some r ∧ least_from (bitmap_bit l) 0 size r.
Proof.
  intros Hl Hs Hlen H0. unfold find_first_bit.
  destruct (decide (size = 0)) as [->|]; [by exists 0|].
  apply find_first_bit_loop_spec; try done; lia.
Qed.

Lemma find_next_zero_bit_spec l size offset :
  words_ok l → Z.of_nat (length l) < 2 ^ 57 → 0 ≤ size ≤ 64 * Z.of_nat (length l) → 0 ≤ offset →
  ∃ r, find_next_zero_bit l size offset = Some r ∧ least_from (λ i, negb (bitmap_bit l i)) offset size r.
Proof.
  intros Hl Hlen Hs Hoff.
  destruct (_find_next_bit_spec l Hl size ltac:(lia) Hlen (2 ^ 64 - 1) offset) as (r & Hr & Hlf); [by right|done|].
  exists r. split; [done|]. eapply least_from_ext; [|done]. intros. apply xbit_ones.
Qed.

Lemma find_next_bit_spec l size offset :
  words_ok l → Z.of_nat (length l) < 2 ^ 57 → 0 ≤ size ≤ 64 * Z.of_nat (length l) → 0 ≤ offset →
  ∃ r, find_next_bit l size offset = Some r ∧ least_from (bitmap_bit l) offset size r.
Proof.
  intros Hl Hlen Hs Hoff.
  destruct (_find_next_bit_spec l Hl size ltac:(lia) Hlen 0 offset) as (r & Hr & Hlf); [by left|done|].
  exists r. split; [done|]. eapply least_from_ext; [|done]. intros. apply xbit_0.
Qed.

Lemma find_first_zero_bit_spec l size :
  words_ok l → Z.of_nat (length l) < 2 ^ 57 → 0 ≤ size ≤ 64 * Z.of_nat (length l) →
  ∃ r, find_first_zero_bit l size = Some r ∧ least_from (λ i, negb (bitmap_bit l i)) 0 size r.
Proof.
  intros Hl Hlen Hs. destruct (find_first_bit_spec (complement l) size) as (r & Hr & Hlf);
    [apply complement_ok|unfold complement; rewrite ?length_fmap; lia..|].
  exists r. unfold find_first_zero_bit.
  rewrite find_first_zero_bit_loop_complement by (done || lia).
  unfold find_first_bit, complement in Hr. rewrite length_fmap in Hr. split; [done|].
  eapply least_from_ext; [|done]. intros. apply bitmap_bit_complement. lia.
Qed.

(** C37: The four upward searches, on a bitmap of less than 2^57 words that holds at
    least [size] bits, find the least set (clear) bit at or above the offset and below
    [size], and answer [size] when there is none; the word loops terminate. *)
Theorem find_bit_correct l size offset :
  words_ok l → Z.of_nat (length l) < 2 ^ 57 → 0 ≤ size ≤ 64 * Z.of_nat (length l) → 0 ≤ offset →
  (∃ r, find_first_bit l size = Some r ∧ least_from (bitmap_bit l) 0 size r) ∧
  (∃ r, find_next_bit l size offset = Some r ∧ least_from (bitmap_bit l) offset size r) ∧
  (∃ r, find_first_zero_bit l size = Some r ∧
        least_from (λ i, negb (bitmap_bit l i)) 0 size r) ∧
  (∃ r, find_next_zero_bit l size offset = Some r ∧
        least_from (λ i, negb (bitmap_bit l i)) offset size r).
Proof.
  intros Hl Hlen Hs Hoff. split_and!.
  - apply find_first_bit_spec; try done; lia.
  - by apply find_next_bit_spec.
  - by apply find_first_zero_bit_spec.
  - by apply find_next_zero_bit_spec.
Qed.

(** The loop of [find_last_bit] going down from the word [idx]: [val] masks the
    bits at and above [size]. *)
Lemma find_last_bit_loop_spec l size fuel val idx :
  words_ok l → Z.of_nat (length l) < 2 ^ 57 → 0 < size ≤ 64 * Z.of_nat (length l) →
  0 ≤ idx < Z.of_nat fuel → 64 * idx < size → 0 ≤ val < 2 ^ 64 →
  (∀ j, 0 ≤ j < 64 → Z.testbit val j = (64 * idx + j <? size)) →
  (∀ i, 64 * idx + 64 ≤ i < size → bitmap_bit l i = false) →
  ∃ r, find_last_bit_loop fuel l size val idx = Some r ∧ greatest_below (bitmap_bit l) size r.
Proof.
  intros Hl Hlen Hs. revert val idx.
  induction fuel as [|fuel IH]; intros val idx Hidx Hss Hval Hbits Hclr; [lia|].
  cbn [find_last_bit_loop].
  assert (0 ≤ val &&& aget l idx < 2 ^ 64) as Hv by (apply land_bound_l; lia).
  assert (∀ j, 0 ≤ j < 64 → Z.testbit (val &&& aget l idx) j =
            (64 * idx + j <? size) && bitmap_bit l (64 * idx + j)) as Hvb.
  { intros j Hj. rewrite Z.land_spec, Hbits by done. f_equal.
    unfold bitmap_bit. f_equal; [f_equal|]; divlia. }
  destruct (Z.eqb_spec (val &&& aget l idx) 0) as [Hz|Hnz].
  - assert (∀ i, 64 * idx ≤ i < size → bitmap_bit l i = false) as Hclr'.
    { intros i Hi. destruct (decide (64 * idx + 64 ≤ i)); [apply Hclr; lia|].
      specialize (Hvb (i - 64 * idx) ltac:(lia)). rewrite Hz, Z.testbit_0_l in Hvb.
      replace (64 * idx + (i - 64 * idx)) with i in Hvb by lia.
      by destruct (Z.ltb_spec i size); [|lia]. }
    destruct (Z.eqb_spec idx 0) as [->|].
    + eexists; split; [done|]. left. split; [done|]. intros i Hi. apply Hclr'. lia.
    + rewrite (wrap_small 64 (idx - 1)) by lia. apply IH; [lia..| |].
      * intros j Hj. change (2 ^ 64 - 1) with (Z.ones 64). rewrite Z.ones_spec_low by lia. zbool.
      * intros i Hi. apply Hclr'. lia.
  - destruct (__fls_spec _ Hv Hnz) as (Hb & Ht & Hf).
    unfold BITS_PER_LONG. rewrite (wrap_small 64 (idx * 64)), (wrap_small 64 (_ + _)) by lia.
    eexists; split; [done|]. right.
    rewrite Hvb in Ht by lia. apply andb_true_iff in Ht as [Hlt%Z.ltb_lt Ht].
    split_and!; [lia..|by replace (idx * 64) with (64 * idx) by lia|].
    intros i Hi. destruct (decide (64 * idx + 64 ≤ i)); [apply Hclr; lia|].
    specialize (Hf (i - 64 * idx) ltac:(lia)). rewrite Hvb in Hf by lia.
    replace (64 * idx + (i - 64 * idx)) with i in Hf by lia.
    by destruct (Z.ltb_spec i size); [|lia].
Qed.

(** [find_last_bit] finds the greatest set bit below [size], and answers [size] when
    there is none; the downward word loop terminates. *)
Theorem find_last_bit_correct l size :
  words_ok l → Z.of_nat (length l) < 2 ^ 57 → 0 < size ≤ 64 * Z.of_nat (length l) →
  ∃ r, find_last_bit l size = Some r ∧ greatest_below (bitmap_bit l) size r.
Proof.
  intros Hl Hlen Hs. unfold find_last_bit. destruct (Z.eqb_spec size 0); [lia|].
  unfold BITS_PER_LONG, BITMAP_LAST_WORD_MASK. rewrite (wrap_small 64 (size - 1)) by lia.
  rewrite land_63 by (by apply wrap_nonneg).
  replace (u64 (- size) mod 64) with ((- size) mod 64) by (unfold wrap; divlia).
  pose proof (Z.mod_pos_bound (- size) 64 eq_refl).
  assert (∀ j, 0 ≤ j < 64 → Z.testbit ((2 ^ 64 - 1) >>> ((- size) mod 64)) j =
            (64 * ((size - 1) / 64) + j <? size)) as Hbits.
  { intros j Hj. rewrite Z.shiftr_spec by lia. change (2 ^ 64 - 1) with (Z.ones 64).
    rewrite Z.testbit_ones_nonneg by lia.
    destruct (Z.ltb_spec (j + (- size) mod 64) 64), (Z.ltb_spec (64 * ((size - 1) / 64) + j) size);
      done || divlia. }
  apply find_last_bit_loop_spec; try done; [divlia|divlia| |intros; divlia].
  rewrite Z.shiftr_div_pow2 by lia. split; [apply Z.div_pos; lia|].
  apply Z.le_lt_trans with (2 ^ 64 - 1); [|lia].
  apply Z.div_le_upper_bound; [lia|]. nia.
Qed.

(** Bits 3 and 70 of a bitmap of two words. *)
Lemma find_bit_correct_witness :
  let l := [0x8; 0x40] in
  words_ok l ∧
  (∃ r, find_first_bit l 128 = Some r ∧ least_from (bitmap_bit l) 0 128 r) ∧
  (∃ r, find_next_bit l 128 4 = Some r ∧ least_from (bitmap_bit l) 4 128 r) ∧
  (∃ r, find_first_zero_bit l 128 = Some r ∧
        least_from (λ i, negb (bitmap_bit l i)) 0 128 r) ∧
  (∃ r, find_next_zero_bit l 128 4 = Some r ∧
        least_from (λ i, negb (bitmap_bit l i)) 4 128 r).
Proof.
  assert (words_ok [0x8; 0x40]) as Hl by (repeat constructor; lia).
  split; [exact Hl|]. apply (find_bit_correct [0x8; 0x40] 128 4); [exact Hl|cbn; lia..].
Defined.

Lemma find_last_bit_correct_witness :
  let l := [0x8; 0x40] in
  words_ok l ∧
  ∃ r, find_last_bit l 128 = Some r ∧ greatest_below (bitmap_bit l) 128 r.
Proof.
  assert (words_ok [0x8; 0x40]) as Hl by (repeat constructor; lia).
  split; [exact Hl|]. apply (find_last_bit_correct [0x8; 0x40] 128); [exact Hl|cbn; lia..].
Defined.
