(* ===== verification/BitScan.v ===== *)
(** The iterations over the bits of a bitmap of [include/sys/bitops.h].

    Each of the macros is a [for] loop around its body.  A bitmap that the body leaves alone is scanned
    from its lowest bit up, and the body runs on exactly the bits that are set (or clear). *)

From S2P Require Import Prelude Bitops.
#[local] Open Scope Z_scope.
#[local] Open Scope cint_scope.

(** One round of such a loop: [next] is the search of its third part. *)
Definition scan_step {S} (next : Z → option Z) (size : Z) (body : Z → M S unit) (bit : Z) : M S (Z + unit) :=
  if bit <? size then
    body bit ;;
    match next (bit + 1) with Some bit => mret (inl bit) | None => out_of_fuel end
  else mret (inr tt).

Definition scan {S} (first : option Z) (next : Z → option Z) (size : Z) (body : Z → M S unit) : M S unit :=
  match first with Some bit => loop (scan_step next size body) bit | None => out_of_fuel end.

Definition for_each_set_bit {S} (addr : list Z) (size : Z) (body : Z → M S unit) : M S unit :=
  scan (find_first_bit addr size) (find_next_bit addr size) size body.
Definition for_each_set_bit_from {S} (bit : Z) (addr : list Z) (size : Z) (body : Z → M S unit) : M S unit :=
  scan (find_next_bit addr size bit) (find_next_bit addr size) size body.
Definition for_each_clear_bit {S} (addr : list Z) (size : Z) (body : Z → M S unit) : M S unit :=
  scan (find_first_zero_bit addr size) (find_next_zero_bit addr size) size body.
Definition for_each_clear_bit_from {S} (bit : Z) (addr : list Z) (size : Z) (body : Z → M S unit) : M S unit :=
  scan (find_next_zero_bit addr size bit) (find_next_zero_bit addr size) size body.

(** The bits of [[lo, size)] with [P], in order. *)
Definition bits_from (P : Z → bool) (lo size : Z) : list Z := filter (λ i, P i = true) (seqZ lo (size - lo)).

Lemma bits_from_none P lo size : (∀ i, lo ≤ i < size → P i = false) → bits_from P lo size = [].
Proof.
  intros HP. unfold bits_from. assert (∀ i, i ∈ seqZ lo (size - lo) → P i = false) as Hall.
  { intros i Hi%elem_of_seqZ. apply HP. lia. }
  clear HP. induction (seqZ lo (size - lo)) as [|i l IH]; [done|].
  rewrite filter_cons, decide_False by (rewrite Hall; [done|left]). apply IH. intros j Hj. apply Hall. by right.
Qed.

Lemma bits_from_skip P lo size r :
  lo ≤ r ≤ size → (∀ i, lo ≤ i < r → P i = false) → bits_from P lo size = bits_from P r size.
Proof.
  intros Hr HP. unfold bits_from. replace (size - lo) with ((r - lo) + (size - r)) by lia.
  rewrite seqZ_app, filter_app by lia. replace (lo + (r - lo)) with r by lia.
  fold (bits_from P lo r). by rewrite (bits_from_none P lo r HP).
Qed.

Lemma bits_from_cons P r size : r < size → P r = true → bits_from P r size = r :: bits_from P (r + 1) size.
Proof.
  intros Hr HP. unfold bits_from. rewrite seqZ_cons, filter_cons, decide_True by (done || lia).
  by replace (Z.pred (size - r)) with (size - (r + 1)) by lia; rewrite <- Z.add_1_r.
Qed.

(** What a search finds, and where it goes on. *)
Lemma bits_from_least P lo size r : lo ≤ size → least_from P lo size r →
  lo ≤ r ≤ size ∧ (r < size → P r = true) ∧ bits_from P lo size = bits_from P r size.
Proof.
  unfold least_from. destruct (Z.leb_spec size lo).
  - intros ? ->. split; [lia|]. split; [lia|]. by replace lo with size by lia.
  - intros _ (H1 & H2 & H3). split; [done|]. split; [done|]. by apply bits_from_skip.
Qed.

Section scan.
Context {S : Type} (P : Z → bool) (next : Z → option Z) (size : Z) (body : Z → M S unit).
Context (Hnext : ∀ off, 0 ≤ off → ∃ r, next off = Some r ∧ least_from P off size r).
Context (Hbody : ∀ b s, 0 ≤ b < size → P b = true → settled (λ _, True) (body b s)).
Context (Hsize : 0 ≤ size < 2 ^ 63).

(** The loop ends, and is the iteration over the bits. *)
Lemma scan_visits first lo s : 0 ≤ lo ≤ size → (∃ r, first = Some r ∧ least_from P lo size r) →
  scan first next size body s = for_each (bits_from P lo size) body s.
Proof.
  intros Hlo (r & -> & Hr). apply bits_from_least in Hr as (Hr & HP & ->); [|lia]. unfold scan.
  apply (loop_outcome (scan_step next size body) (λ b _, 0 ≤ b ≤ size ∧ (b < size → P b = true))
    (λ b s o, o = for_each (bits_from P b size) body s) (λ b _, size - b)); [|split; [lia|done]|lia].
  clear s. intros b s [Hb Hset]. unfold scan_step, loop_step_to. destruct (Z.ltb_spec b size) as [Hlt|Hge].
  - rewrite bits_from_cons by auto. cbn [for_each]. pose proof (Hbody b s ltac:(lia) (Hset Hlt)) as Hs.
    unfold mbind, M_bind. destruct (body b s) as [[] s'| |]; [|done..]. cbn [settled] in *.
    destruct (Hnext (b + 1) ltac:(lia)) as (r' & -> & Hr'). apply bits_from_least in Hr' as (Hr' & HP' & ->); [|lia].
    split; [split; [lia|done]|]. split; [lia|]. by intros o ->.
  - cbn. rewrite (bits_from_none P b size); [done|]. lia.
Qed.
End scan.

(** The four loops, over a bitmap that holds the bits and is not too large for the searches:
    they end, and they do to the state what running the body on each set (clear) bit does, in
    order, whether the body returns or panics. *)
Theorem bit_loops_visit {S} (l : list Z) (size off : Z) (body : Z → M S unit) s :
  words_ok l → Z.of_nat (length l) < 2 ^ 57 → 0 ≤ size ≤ 64 * Z.of_nat (length l) → 0 ≤ off ≤ size →
  (∀ b s, 0 ≤ b < size → settled (λ _, True) (body b s)) →
  for_each_set_bit l size body s = for_each (bits_from (bitmap_bit l) 0 size) body s ∧
  for_each_set_bit_from off l size body s = for_each (bits_from (bitmap_bit l) off size) body s ∧
  for_each_clear_bit l size body s = for_each (bits_from (λ i, negb (bitmap_bit l i)) 0 size) body s ∧
  for_each_clear_bit_from off l size body s = for_each (bits_from (λ i, negb (bitmap_bit l i)) off size) body s.
Proof.
  intros Hl Hlen Hs Hoff Hb. split_and!; apply scan_visits; try lia; try (intros; by apply Hb).
  - intros o ?. by apply find_next_bit_spec.
  - apply find_first_bit_spec; (done || lia).
  - intros o ?. by apply find_next_bit_spec.
  - apply find_next_bit_spec; (done || lia).
  - intros o ?. by apply find_next_zero_bit_spec.
  - apply find_first_zero_bit_spec; (done || lia).
  - intros o ?. by apply find_next_zero_bit_spec.
  - apply find_next_zero_bit_spec; (done || lia).
Qed.

(** Bits 3 and 70 of a bitmap of two words, noted down. *)
Definition note_bit (b : Z) : M (list Z) unit := modify (λ s, s ++ [b]).

Lemma bit_loops_visit_witness :
  words_ok [0x8; 0x40] ∧
  for_each_set_bit [0x8; 0x40] 128 note_bit [] = for_each (bits_from (bitmap_bit [0x8; 0x40]) 0 128) note_bit [] ∧
  for_each_set_bit [0x8; 0x40] 128 note_bit [] = Done tt [3; 70].
Proof.
  assert (words_ok [0x8; 0x40]) as Hl by (repeat constructor; lia).
  split; [exact Hl|]. split; [|vm_compute; reflexivity].
  exact (proj1 (bit_loops_visit [0x8; 0x40] 128 0 note_bit [] Hl ltac:(cbn; lia) ltac:(cbn; lia) ltac:(lia) (λ _ _ _, I))).
Defined.
