(* ===== verification/Mem.v ===== *)
(** Byte-addressed memory, for the routines of [lib/] and the tables of
    [kernel/acpi.c], which work on bytes through pointers.

    A memory maps an address to a byte; an address is a [Z], and an object never wraps
    around the address space, so the additions on pointers are plain. *)

From S2P Require Import Prelude.
#[local] Open Scope Z_scope.
#[local] Open Scope cint_scope.

Abbreviation bmem := (gmap Z Z).

Definition rd8 (m : bmem) (a : Z) : Z := u8 (default 0 (m !! a)).
Definition wr8 (m : bmem) (a v : Z) : bmem := <[a := u8 v]> m.

(** [n] bytes from [a] on. *)
Fixpoint rd_bytes (m : bmem) (a : Z) (n : nat) : list Z :=
  match n with O => [] | S n => rd8 m a :: rd_bytes m (a + 1) n end.

Fixpoint wr_bytes (m : bmem) (a : Z) (l : list Z) : bmem :=
  match l with [] => m | b :: l => wr_bytes (wr8 m a b) (a + 1) l end.

(** Little-endian integers. *)
Fixpoint le_combine (l : list Z) : Z :=
  match l with [] => 0 | b :: l => b + 256 * le_combine l end.

Fixpoint le_split (n : nat) (v : Z) : list Z :=
  match n with O => [] | S n => v mod 256 :: le_split n (v / 256) end.

Definition rd_le (m : bmem) (a : Z) (n : nat) : Z := le_combine (rd_bytes m a n).
Definition rd16 (m : bmem) (a : Z) : Z := rd_le m a 2.
Definition rd32 (m : bmem) (a : Z) : Z := rd_le m a 4.
Definition rd64 (m : bmem) (a : Z) : Z := rd_le m a 8.

Definition wr_le (m : bmem) (a : Z) (n : nat) (v : Z) : bmem := wr_bytes m a (le_split n v).
Definition wr16 (m : bmem) (a v : Z) : bmem := wr_le m a 2 v.
Definition wr32 (m : bmem) (a v : Z) : bmem := wr_le m a 4 v.
Definition wr64 (m : bmem) (a v : Z) : bmem := wr_le m a 8 v.

(** An array as a memory. *)
Definition mem_of (a : Z) (l : list Z) : bmem := wr_bytes ∅ a l.

Lemma rd8_bound m a : 0 ≤ rd8 m a < 256.
Proof. apply (wrap_bound 8). lia. Qed.

Lemma rd8_wr8_eq m a v : rd8 (wr8 m a v) a = u8 v.
Proof. unfold rd8, wr8. rewrite lookup_insert_eq. by apply wrap_wrap. Qed.

Lemma rd8_wr8_ne m a b v : a ≠ b → rd8 (wr8 m a v) b = rd8 m b.
Proof. intros. unfold rd8, wr8. by rewrite lookup_insert_ne. Qed.

Lemma rd8_wr8 m a b v : rd8 (wr8 m a v) b = if decide (b = a) then u8 v else rd8 m b.
Proof. case_decide; subst; [apply rd8_wr8_eq|by apply rd8_wr8_ne]. Qed.

Lemma rd_bytes_length m a n : length (rd_bytes m a n) = n.
Proof. revert a; induction n; intros; simpl; auto. Qed.

Lemma rd_bytes_lookup m a n i :
  (i < n)%nat → rd_bytes m a n !! i = Some (rd8 m (a + Z.of_nat i)).
Proof.
  revert a i. induction n as [|n IH]; intros a i Hi; [lia|].
  destruct i as [|i]; simpl; [do 2 f_equal; lia|].
  rewrite IH by lia. do 2 f_equal. lia.
Qed.

Lemma rd_bytes_app m a n k : rd_bytes m a (n + k) = rd_bytes m a n ++ rd_bytes m (a + Z.of_nat n) k.
Proof.
  revert a. induction n as [|n IH]; intros a; cbn [rd_bytes Nat.add app]; [by rewrite Z.add_0_r|].
  rewrite IH. do 3 f_equal. lia.
Qed.

Lemma le_split_length n v : length (le_split n v) = n.
Proof. revert v; induction n; intros; simpl; auto. Qed.

Lemma le_combine_bound l :
  Forall (λ b, 0 ≤ b < 256) l → 0 ≤ le_combine l < 256 ^ Z.of_nat (length l).
Proof.
  induction 1 as [|b l Hb _ IH]; [done|].
  cbn [le_combine length]. rewrite Nat2Z.inj_succ, Z.pow_succ_r by lia. lia.
Qed.

Lemma rd_bytes_bytes m a n : Forall (λ b, 0 ≤ b < 256) (rd_bytes m a n).
Proof. revert a; induction n; intros; simpl; constructor; auto using rd8_bound. Qed.

Lemma rd_le_bound m a n : 0 ≤ rd_le m a n < 256 ^ Z.of_nat n.
Proof.
  unfold rd_le. rewrite <- (rd_bytes_length m a n) at 3.
  apply le_combine_bound, rd_bytes_bytes.
Qed.

Lemma rd64_bound m a : 0 ≤ rd64 m a < 2 ^ 64.
Proof. apply (rd_le_bound m a 8). Qed.

(** Byte [i] of a little-endian integer in memory. *)
Lemma rd_le_byte m a n i :
  (i < n)%nat → rd_le m a n / 256 ^ Z.of_nat i mod 256 = rd8 m (a + Z.of_nat i).
Proof.
  unfold rd_le. revert a n. induction i as [|i IH]; intros a [|n] Hi; try lia.
  - cbn [rd_bytes le_combine]. rewrite Z.pow_0_r, Z.div_1_r, Z.add_0_r.
    pose proof (rd8_bound m a). divlia.
  - cbn [rd_bytes le_combine]. rewrite Nat2Z.inj_succ, Z.pow_succ_r by lia.
    rewrite <- Z.div_div by lia. pose proof (rd8_bound m a).
    replace ((rd8 m a + 256 * le_combine (rd_bytes m (a + 1) n)) / 256)
      with (le_combine (rd_bytes m (a + 1) n)) by divlia.
    rewrite IH by lia. f_equal. lia.
Qed.

Lemma wr_bytes_out m a l b :
  b < a ∨ a + Z.of_nat (length l) ≤ b → rd8 (wr_bytes m a l) b = rd8 m b.
Proof.
  revert m a. induction l as [|x l IH]; intros m a Hb; [done|].
  cbn [wr_bytes]. cbn [length] in Hb. rewrite IH by lia. apply rd8_wr8_ne. lia.
Qed.

Lemma wr_bytes_in m a l b x :
  a ≤ b → l !! Z.to_nat (b - a) = Some x → rd8 (wr_bytes m a l) b = u8 x.
Proof.
  revert m a. induction l as [|y l IH]; intros m a Hab Hx; [done|].
  cbn [wr_bytes]. destruct (decide (b = a)) as [->|Hne].
  - rewrite Z.sub_diag in Hx. injection Hx as ->.
    rewrite wr_bytes_out by lia. apply rd8_wr8_eq.
  - apply IH; [lia|]. replace (Z.to_nat (b - a)) with (S (Z.to_nat (b - (a + 1)))) in Hx by lia.
    done.
Qed.

Lemma le_split_lookup n v i :
  (i < n)%nat → le_split n v !! i = Some (v / 256 ^ Z.of_nat i mod 256).
Proof.
  revert v i. induction n as [|n IH]; intros v [|i] Hi; try lia; cbn [le_split lookup list_lookup].
  - by rewrite Z.pow_0_r, Z.div_1_r.
  - change (list_lookup i (le_split n (v / 256))) with (le_split n (v / 256) !! i).
    rewrite IH, Nat2Z.inj_succ, Z.pow_succ_r, Z.div_div by lia. done.
Qed.

(** A little-endian store, byte by byte. *)
Lemma rd8_wr_le m a n v b :
  rd8 (wr_le m a n v) b =
    if decide (a ≤ b < a + Z.of_nat n) then v / 256 ^ (b - a) mod 256 else rd8 m b.
Proof.
  unfold wr_le. case_decide.
  - rewrite (wr_bytes_in _ _ _ _ (v / 256 ^ (b - a) mod 256)); [|lia|].
    + apply wrap_small. apply Z.mod_pos_bound. lia.
    + rewrite le_split_lookup by lia. by rewrite Z2Nat.id by lia.
  - apply wr_bytes_out. rewrite le_split_length. lia.
Qed.

(** An integer read depends only on its bytes. *)
Lemma rd_le_ext m m' a b n :
  (∀ i, 0 ≤ i < Z.of_nat n → rd8 m (a + i) = rd8 m' (b + i)) → rd_le m a n = rd_le m' b n.
Proof.
  unfold rd_le. revert a b. induction n as [|n IH]; intros a b H; [done|]. cbn [rd_bytes le_combine]. f_equal.
  - rewrite <- (Z.add_0_r a), <- (Z.add_0_r b). apply H. lia.
  - f_equal. apply IH. intros i Hi. rewrite <- !Z.add_assoc. apply H. lia.
Qed.

Lemma rd_bytes_ext m m' a b n :
  (∀ i, 0 ≤ i < Z.of_nat n → rd8 m (a + i) = rd8 m' (b + i)) → rd_bytes m a n = rd_bytes m' b n.
Proof.
  intros H. apply list_eq_same_length with n; [apply rd_bytes_length..|].
  intros i x y Hi. rewrite !rd_bytes_lookup by done. intros [= <-] [= <-]. apply H. lia.
Qed.

Lemma rd_bytes_is m a l :
  (∀ i, (i < length l)%nat → l !! i = Some (rd8 m (a + Z.of_nat i))) → rd_bytes m a (length l) = l.
Proof.
  intros H. apply list_eq. intros i. destruct (decide (i < length l)%nat) as [Hi|Hi].
  - by rewrite rd_bytes_lookup, H.
  - rewrite !lookup_ge_None_2 by (rewrite ?rd_bytes_length; lia). done.
Qed.

Lemma le_combine_split n v : le_combine (le_split n v) = v mod 256 ^ Z.of_nat n.
Proof.
  revert v. induction n as [|n IH]; intros v; cbn [le_split le_combine]; [by rewrite Z.mod_1_r|].
  rewrite IH, Nat2Z.inj_succ, Z.pow_succ_r, Z.rem_mul_r by lia. lia.
Qed.

(** Reading back what was stored. *)
Lemma rd_le_wr_le m a n v : rd_le (wr_le m a n v) a n = v mod 256 ^ Z.of_nat n.
Proof.
  unfold rd_le. rewrite <- le_combine_split. f_equal.
  rewrite <- (le_split_length n v) at 2. apply rd_bytes_is. rewrite le_split_length. intros i Hi.
  rewrite le_split_lookup, rd8_wr_le, decide_True by lia. by replace (a + Z.of_nat i - a) with (Z.of_nat i) by lia.
Qed.

Lemma rd_le_wr_le_apart m a n v b k :
  a + Z.of_nat n ≤ b ∨ b + Z.of_nat k ≤ a → rd_le (wr_le m a n v) b k = rd_le m b k.
Proof. intros H. apply rd_le_ext. intros i Hi. rewrite rd8_wr_le. by rewrite decide_False by lia. Qed.
