(* ===== verification/DList.v ===== *)
(** Linked lists: [include/sys/list.h].

    A [struct list_head] is two pointers in memory, [next] at its address and [prev]
    eight bytes further; a list is a ring of them through its head.  [ring m h l] is the
    representation of the entries [l] (their addresses, in order) behind the head [h].
    The operations are the stores the code makes; they refine the operations on [l], and
    [list_for_each] is the iteration over [l]. *)

From S2P Require Import Prelude Mem.
#[local] Open Scope Z_scope.
#[local] Open Scope cint_scope.

(** ** The operations *)

Definition LIST_POISON1 : Z := 0x100.
Definition LIST_POISON2 : Z := 0x200.

Definition next (m : bmem) (p : Z) : Z := rd64 m p.
Definition prev (m : bmem) (p : Z) : Z := rd64 m (p + 8).
Definition set_next (m : bmem) (p v : Z) : bmem := wr64 m p v.
Definition set_prev (m : bmem) (p v : Z) : bmem := wr64 m (p + 8) v.

Definition INIT_LIST_HEAD (m : bmem) (list : Z) : bmem := set_prev (set_next m list list) list list.

Definition __list_add (m : bmem) (new prev next : Z) : bmem :=
  let m := set_prev m next new in
  let m := set_next m new next in
  let m := set_prev m new prev in
  set_next m prev new.

Definition list_add (m : bmem) (new head : Z) : bmem := __list_add m new head (next m head).
Definition list_add_tail (m : bmem) (new head : Z) : bmem := __list_add m new (prev m head) head.

Definition __list_del (m : bmem) (prev next : Z) : bmem := set_next (set_prev m next prev) prev next.
Definition __list_del_entry (m : bmem) (entry : Z) : bmem := __list_del m (prev m entry) (next m entry).

Definition list_del (m : bmem) (entry : Z) : bmem :=
  let m := __list_del_entry m entry in
  let m := set_next m entry LIST_POISON1 in
  set_prev m entry LIST_POISON2.

Definition list_move (m : bmem) (list head : Z) : bmem := list_add (__list_del_entry m list) list head.
Definition list_move_tail (m : bmem) (list head : Z) : bmem := list_add_tail (__list_del_entry m list) list head.

Definition list_empty (m : bmem) (head : Z) : bool := next m head =? head.

(** [list_entry], with the offset of the member; [None] is [NULL]. *)
Definition list_entry (ptr offset : Z) : Z := u64 (ptr - offset).
Definition list_first_entry (m : bmem) (ptr offset : Z) : Z := list_entry (next m ptr) offset.
Definition list_first_entry_or_null (m : bmem) (head offset : Z) : option Z :=
  let pos := next m head in
  if negb (pos =? head) then Some (list_entry pos offset) else None.
Definition list_next_entry (m : bmem) (pos offset : Z) : Z := list_entry (next m (u64 (pos + offset))) offset.

(** [list_for_each_entry(pos, head, member) body]: the cursor is the structure around
    the list head, [offset] bytes before it. *)
Definition list_for_each_entry {S} (mem : S → bmem) (head offset : Z) (body : Z → M S unit) : M S unit :=
  first ← gets (λ s, list_first_entry (mem s) head offset);
  loop (λ pos,
    if u64 (pos + offset) =? head then mret (inr tt)
    else body pos ;; nxt ← gets (λ s, list_next_entry (mem s) pos offset); mret (inl nxt)) first.

(** ** Representation *)

(** Consecutive nodes point at each other. *)
Fixpoint linked (m : bmem) (c : list Z) : Prop :=
  match c with
  | p :: ((q :: _) as c) => next m p = q ∧ prev m q = p ∧ linked m c
  | _ => True
  end.

(** Nodes are apart from each other, inside the address space. *)
Record nodes (N : list Z) : Prop := {
  nodes_distinct : NoDup N;
  nodes_inside p : p ∈ N → 0 ≤ p ∧ p + 16 ≤ 2 ^ 64;
  nodes_apart p q : p ∈ N → q ∈ N → p ≠ q → p + 16 ≤ q ∨ q + 16 ≤ p;
}.

Definition ring (m : bmem) (h : Z) (l : list Z) : Prop := linked m (h :: l ++ [h]) ∧ nodes (h :: l).

(** ** Fields *)

Lemma rd64_wr64 m a v : 0 ≤ v < 2 ^ 64 → rd64 (wr64 m a v) a = v.
Proof. intros. unfold rd64, wr64. rewrite rd_le_wr_le. apply Z.mod_small. by change (256 ^ Z.of_nat 8) with (2 ^ 64). Qed.

Lemma rd64_wr64_apart m a v b : a + 8 ≤ b ∨ b + 8 ≤ a → rd64 (wr64 m a v) b = rd64 m b.
Proof. intros. unfold rd64, wr64. apply rd_le_wr_le_apart. lia. Qed.

Section fields.
Context (N : list Z) (HN : nodes N).

Lemma next_set_next m a v p : a ∈ N → p ∈ N → 0 ≤ v < 2 ^ 64 →
  next (set_next m a v) p = if decide (p = a) then v else next m p.
Proof.
  intros Ha Hp Hv. unfold next, set_next. case_decide; [subst; by apply rd64_wr64|].
  apply rd64_wr64_apart. destruct (nodes_apart N HN a p); auto; lia.
Qed.

Lemma prev_set_prev m a v p : a ∈ N → p ∈ N → 0 ≤ v < 2 ^ 64 →
  prev (set_prev m a v) p = if decide (p = a) then v else prev m p.
Proof.
  intros Ha Hp Hv. unfold prev, set_prev. case_decide; [subst; by apply rd64_wr64|].
  apply rd64_wr64_apart. destruct (nodes_apart N HN a p); auto; lia.
Qed.

Lemma next_set_prev m a v p : a ∈ N → p ∈ N → next (set_prev m a v) p = next m p.
Proof.
  intros Ha Hp. unfold next, set_prev. apply rd64_wr64_apart.
  destruct (decide (p = a)) as [->|]; [lia|]. destruct (nodes_apart N HN a p); auto; lia.
Qed.

Lemma prev_set_next m a v p : a ∈ N → p ∈ N → prev (set_next m a v) p = prev m p.
Proof.
  intros Ha Hp. unfold prev, set_next. apply rd64_wr64_apart.
  destruct (decide (p = a)) as [->|]; [lia|]. destruct (nodes_apart N HN a p); auto; lia.
Qed.
End fields.

Lemma nodes_bound N p : nodes N → p ∈ N → 0 ≤ p < 2 ^ 64.
Proof. intros HN Hp. pose proof (nodes_inside N HN p Hp). lia. Qed.

Lemma nodes_subset N N' : nodes N → NoDup N' → (∀ p, p ∈ N' → p ∈ N) → nodes N'.
Proof. intros HN Hd Hs. split; [done|eauto using nodes_inside..|]. intros; apply (nodes_apart N HN); auto. Qed.

(** ** Chains *)

Lemma linked_cons m p q c : linked m (p :: q :: c) ↔ next m p = q ∧ prev m q = p ∧ linked m (q :: c).
Proof. done. Qed.

Lemma linked_app m xs p ys : linked m (xs ++ p :: ys) ↔ linked m (xs ++ [p]) ∧ linked m (p :: ys).
Proof.
  induction xs as [|x xs IH]; [by destruct ys; cbn; tauto|].
  destruct xs as [|y xs]; cbn [app linked] in *; tauto.
Qed.

(** The chain only looks at the successors of all nodes but the last, and at the
    predecessors of all but the first. *)
Lemma linked_ext m m' c :
  (∀ p, p ∈ removelast c → next m' p = next m p) → (∀ p, p ∈ tail c → prev m' p = prev m p) →
  linked m c → linked m' c.
Proof.
  induction c as [|p [|q c] IH]; [done..|]. intros Hn Hp (Hn1 & Hp1 & Hl).
  change (removelast (p :: q :: c)) with (p :: removelast (q :: c)) in Hn. cbn [tail] in *.
  split_and!; [rewrite Hn; [done|left]|rewrite Hp; [done|left]|].
  apply IH; [|cbn [tail]|done]; intros; [apply Hn|apply Hp]; by right.
Qed.

(** In a ring cut open at the head, only the head occurs twice, at both ends. *)
Definition cycle (c : list Z) : Prop := NoDup (removelast c) ∧ NoDup (tail c).

Lemma cycle_split us a b vs : cycle (us ++ a :: b :: vs) →
  a ∉ us ∧ a ∉ removelast (b :: vs) ∧ b ∉ tail (us ++ [a]) ∧ b ∉ vs.
Proof.
  intros [H1 H2]. rewrite removelast_app in H1 by done.
  change (removelast (a :: b :: vs)) with (a :: removelast (b :: vs)) in H1.
  assert (tail (us ++ a :: b :: vs) = tail (us ++ [a]) ++ b :: vs) as Ht.
  { destruct us; [done|]. cbn. by rewrite <- app_assoc. }
  rewrite Ht in H2. apply NoDup_app in H1 as (_ & H1 & H3). apply NoDup_app in H2 as (_ & H2 & H4).
  apply NoDup_cons in H3 as [H3 _]. apply NoDup_cons in H4 as [H4 _].
  split_and!; [|done| |done]; intros Hin; [apply (H1 a Hin)|apply (H2 b Hin)]; left.
Qed.

Lemma cycle_ring h l : nodes (h :: l) → cycle (h :: l ++ [h]).
Proof.
  intros HN. pose proof (nodes_distinct _ HN) as Hd. unfold cycle. cbn [tail].
  replace (removelast (h :: l ++ [h])) with (h :: l).
  - split; [done|]. rewrite Permutation_app_comm. done.
  - change (h :: l ++ [h]) with ((h :: l) ++ [h]). by rewrite removelast_last.
Qed.

Lemma removelast_in {A} (l : list A) x : x ∈ removelast l → x ∈ l.
Proof. induction l as [|y [|z l] IH]; [done|cbn; set_solver|]. cbn [removelast] in *. set_solver. Qed.

Lemma tail_in {A} (l : list A) x : x ∈ tail l → x ∈ l.
Proof. destruct l; [done|]. cbn. set_solver. Qed.

Section splice.
Context (N : list Z) (HN : nodes N).
Implicit Types (m : bmem) (us vs : list Z).

#[local] Ltac fields :=
  repeat first [rewrite (next_set_next N) by eauto using nodes_bound | rewrite (next_set_prev N) by eauto
    | rewrite (prev_set_next N) by eauto | rewrite (prev_set_prev N) by eauto using nodes_bound];
  done.

Lemma list_add_next m new a b : new ∈ N → a ∈ N → b ∈ N →
  ∀ p, p ∈ N → next (__list_add m new a b) p = if decide (p = a) then new else if decide (p = new) then b else next m p.
Proof. unfold __list_add. intros. fields. Qed.

Lemma list_add_prev m new a b : new ∈ N → a ∈ N → b ∈ N →
  ∀ p, p ∈ N → prev (__list_add m new a b) p = if decide (p = new) then a else if decide (p = b) then new else prev m p.
Proof. unfold __list_add. intros. fields. Qed.

Lemma list_del_next m a b : a ∈ N → b ∈ N →
  ∀ p, p ∈ N → next (__list_del m a b) p = if decide (p = a) then b else next m p.
Proof. unfold __list_del. intros. fields. Qed.

Lemma list_del_prev m a b : a ∈ N → b ∈ N →
  ∀ p, p ∈ N → prev (__list_del m a b) p = if decide (p = b) then a else prev m p.
Proof. unfold __list_del. intros. fields. Qed.

(** Inserting [new] between the neighbours [a] and [b] of a cycle, and taking the node
    between them out. *)
Lemma linked_insert m us a new b vs :
  linked m (us ++ a :: b :: vs) → cycle (us ++ a :: b :: vs) → (∀ p, p ∈ us ++ a :: b :: vs → p ∈ N) →
  new ∈ N → new ∉ us ++ a :: b :: vs → linked (__list_add m new a b) (us ++ a :: new :: b :: vs).
Proof.
  intros Hl Hc Hsub Hnew Hfresh. destruct (cycle_split _ _ _ _ Hc) as (Ha1 & Ha2 & Hb1 & Hb2).
  assert (a ∈ N ∧ b ∈ N) as [Ha Hb] by (split; apply Hsub; set_solver).
  pose proof (list_add_next m new a b Hnew Ha Hb) as Hn. pose proof (list_add_prev m new a b Hnew Ha Hb) as Hp.
  assert (new ≠ a ∧ new ≠ b) as [? ?] by set_solver.
  rewrite linked_app in Hl |- *. destruct Hl as [Hl (Hab & Hba & Hr)]. split; [|rewrite !linked_cons; split_and!].
  - revert Hl. apply linked_ext.
    + intros p Hin. rewrite removelast_last in Hin. rewrite Hn, !decide_False by (set_solver). done.
    + intros p Hin. pose proof (tail_in _ _ Hin). rewrite Hp, !decide_False by set_solver. done.
  - by rewrite Hn, decide_True.
  - by rewrite Hp, decide_True.
  - by rewrite Hn, decide_False, decide_True.
  - by rewrite Hp, decide_False, decide_True.
  - revert Hr. apply linked_ext.
    + intros p Hin. pose proof (removelast_in _ _ Hin). rewrite Hn, !decide_False by set_solver. done.
    + cbn [tail]. intros p Hin. rewrite Hp, !decide_False by set_solver. done.
Qed.

Lemma linked_remove m us a e b vs :
  linked m (us ++ a :: e :: b :: vs) → cycle (us ++ a :: b :: vs) → (∀ p, p ∈ us ++ a :: b :: vs → p ∈ N) →
  linked (__list_del m a b) (us ++ a :: b :: vs).
Proof.
  intros Hl Hc Hsub. destruct (cycle_split _ _ _ _ Hc) as (Ha1 & Ha2 & Hb1 & Hb2).
  assert (a ∈ N ∧ b ∈ N) as [Ha Hb] by (split; apply Hsub; set_solver).
  pose proof (list_del_next m a b Ha Hb) as Hn. pose proof (list_del_prev m a b Ha Hb) as Hp.
  rewrite linked_app in Hl |- *. destruct Hl as [Hl (_ & _ & _ & _ & Hr)]. split; [|rewrite !linked_cons; split_and!].
  - revert Hl. apply linked_ext.
    + intros p Hin. rewrite removelast_last in Hin. rewrite Hn, !decide_False by (set_solver). done.
    + intros p Hin. pose proof (tail_in _ _ Hin). rewrite Hp, !decide_False by set_solver. done.
  - by rewrite Hn, decide_True.
  - by rewrite Hp, decide_True.
  - revert Hr. apply linked_ext.
    + intros p Hin. pose proof (removelast_in _ _ Hin). rewrite Hn, !decide_False by set_solver. done.
    + cbn [tail]. intros p Hin. rewrite Hp, !decide_False by set_solver. done.
Qed.
End splice.

(** ** Refinement

    The abstract state is the lists of the program: each head with its entries in order.
    [N] are all the nodes it uses, in a list or not. *)

Definition lists : Type := list (Z * list Z).
Definition all (G : lists) : list Z := G ≫= λ hl, hl.1 :: hl.2.

Record rings (N : list Z) (m : bmem) (G : lists) : Prop := {
  rings_disjoint : NoDup (all G);
  rings_nodes p : p ∈ all G → p ∈ N;
  rings_linked h l : (h, l) ∈ G → linked m (h :: l ++ [h]);
}.

Inductive list_op : Type :=
  | OpInit (h : Z) | OpAdd (new h : Z) | OpAddTail (new h : Z) | OpDel (e : Z) | OpMove (e h : Z) | OpMoveTail (e h : Z).

Definition run_op (m : bmem) (o : list_op) : bmem :=
  match o with
  | OpInit h => INIT_LIST_HEAD m h
  | OpAdd new h => list_add m new h
  | OpAddTail new h => list_add_tail m new h
  | OpDel e => list_del m e
  | OpMove e h => list_move m e h
  | OpMoveTail e h => list_move_tail m e h
  end.

Definition on_list (h : Z) (f : list Z → list Z) (G : lists) : lists :=
  (λ hl : Z * list Z, if decide (hl.1 = h) then (hl.1, f hl.2) else hl) <$> G.
Definition remove (e : Z) (G : lists) : lists := (λ hl : Z * list Z, (hl.1, filter (λ x, x ≠ e) hl.2)) <$> G.

Definition spec_op (G : lists) (o : list_op) : lists :=
  match o with
  | OpInit h => (h, []) :: G
  | OpAdd new h => on_list h (cons new) G
  | OpAddTail new h => on_list h (λ l, l ++ [new]) G
  | OpDel e => remove e G
  | OpMove e h => on_list h (cons e) (remove e G)
  | OpMoveTail e h => on_list h (λ l, l ++ [e]) (remove e G)
  end.

Definition is_head (G : lists) (h : Z) : Prop := h ∈ G.*1.
Definition is_entry (G : lists) (e : Z) : Prop := e ∈ G ≫= snd.

(** What a caller owes: a node enters a list only when it is in none, and is removed
    from the list it is in. *)
Definition op_ok (N : list Z) (G : lists) (o : list_op) : Prop :=
  match o with
  | OpInit h => h ∈ N ∧ h ∉ all G
  | OpAdd new h | OpAddTail new h => new ∈ N ∧ new ∉ all G ∧ is_head G h
  | OpDel e => is_entry G e
  | OpMove e h | OpMoveTail e h => is_entry G e ∧ is_head G h
  end.

#[export] Instance op_ok_dec N G o : Decision (op_ok N G o).
Proof. destruct o; cbn [op_ok]; unfold is_head, is_entry; solve_decision. Defined.

Lemma is_head_list G h : is_head G h → ∃ l, (h, l) ∈ G.
Proof. unfold is_head. intros ([h' l] & -> & Hin)%list_elem_of_fmap. eauto. Qed.

Lemma is_entry_list G e : is_entry G e → ∃ h l, (h, l) ∈ G ∧ e ∈ l.
Proof. unfold is_entry. intros ([h l] & He & Hin)%list_elem_of_bind. eauto. Qed.

Lemma all_app G1 G2 : all (G1 ++ G2) = all G1 ++ all G2.
Proof. apply bind_app. Qed.

Lemma all_cons h l G : all ((h, l) :: G) = h :: l ++ all G.
Proof. done. Qed.

Lemma elem_of_all G p : p ∈ all G ↔ ∃ h l, (h, l) ∈ G ∧ p ∈ h :: l.
Proof.
  unfold all. rewrite list_elem_of_bind. split.
  - intros ([h l] & Hp & Hin). eauto.
  - intros (h & l & Hin & Hp). by exists (h, l).
Qed.

Lemma on_list_split h f G l : NoDup (all G) → (h, l) ∈ G →
  ∃ G1 G2, G = G1 ++ (h, l) :: G2 ∧ on_list h f G = G1 ++ (h, f l) :: G2.
Proof.
  intros Hd (G1 & G2 & ->)%list_elem_of_split. exists G1, G2. split; [done|].
  assert (∀ G, h ∉ all G → on_list h f G = G) as Hid.
  { intros G Hh. unfold on_list. induction G as [|[h' l'] G IH]; [done|].
    rewrite all_cons in Hh. cbn [fmap list_fmap fst snd]. rewrite decide_False by set_solver. f_equal. apply IH. set_solver. }
  rewrite all_app, all_cons in Hd. apply NoDup_app in Hd as (_ & H1 & H2). apply NoDup_cons in H2 as [H2 _].
  unfold on_list. rewrite fmap_app, fmap_cons. cbn [fst snd]. rewrite decide_True by done.
  f_equal; [|f_equal]; apply Hid; set_solver.
Qed.

Lemma filter_absent (e : Z) (l : list Z) : e ∉ l → filter (λ x, x ≠ e) l = l.
Proof.
  induction l as [|x l IH]; intros He; [done|]. rewrite filter_cons_True by set_solver. f_equal. apply IH. set_solver.
Qed.

Lemma remove_split e G h l : NoDup (all G) → (h, l) ∈ G → e ∈ l →
  ∃ G1 G2 xs ys, G = G1 ++ (h, xs ++ e :: ys) :: G2 ∧ l = xs ++ e :: ys ∧ remove e G = G1 ++ (h, xs ++ ys) :: G2.
Proof.
  intros Hd (G1 & G2 & ->)%list_elem_of_split (xs & ys & ->)%list_elem_of_split. exists G1, G2, xs, ys.
  split; [done|]. split; [done|].
  assert (∀ G, e ∉ all G → remove e G = G) as Hid.
  { intros G He. unfold remove. induction G as [|[h' l'] G IH]; [done|].
    rewrite all_cons in He. cbn [fmap list_fmap fst snd]. rewrite filter_absent by set_solver. f_equal. apply IH. set_solver. }
  rewrite all_app, all_cons, <- app_assoc in Hd.
  apply NoDup_app in Hd as (_ & H1 & H2). apply NoDup_cons in H2 as [_ H2].
  apply NoDup_app in H2 as (_ & H3 & H4). cbn [app] in H4. apply NoDup_cons in H4 as [H4 _].
  assert (e ∉ xs) by (intros Hin; apply (H3 e Hin); left).
  unfold remove. rewrite fmap_app, fmap_cons. cbn [fst snd].
  rewrite filter_app, filter_cons_False, !filter_absent by (try set_solver; auto).
  f_equal; [|f_equal]; apply Hid; set_solver.
Qed.

Section refinement.
Context (N : list Z) (HN : nodes N).
Implicit Types (m : bmem) (G : lists).

Lemma rings_nodup m G1 h l G2 : rings N m (G1 ++ (h, l) :: G2) →
  NoDup (h :: l) ∧ ∀ p, p ∈ h :: l → p ∈ N ∧ p ∉ all G1 ∧ p ∉ all G2.
Proof.
  intros [Hd Hs _]. rewrite all_app, all_cons, app_comm_cons in *.
  apply NoDup_app in Hd as (_ & H1 & Hd). apply NoDup_app in Hd as (H2 & H3 & _).
  split; [done|]. intros p Hp. split; [apply Hs; set_solver|]. split; [|by apply H3].
  intros H4. apply (H1 p H4). set_solver.
Qed.

Lemma rings_replace m m' G1 h l l' G2 :
  rings N m (G1 ++ (h, l) :: G2) → linked m' (h :: l' ++ [h]) → NoDup (h :: l') →
  (∀ p, p ∈ l' → p ∈ N ∧ p ∉ all G1 ∧ p ∉ all G2) →
  (∀ p, p ∈ N → p ∉ h :: l ∧ p ∉ l' → next m' p = next m p ∧ prev m' p = prev m p) →
  rings N m' (G1 ++ (h, l') :: G2).
Proof.
  intros HR Hl Hd Hnew Hsame. destruct (rings_nodup _ _ _ _ _ HR) as [_ Hh]. destruct HR as [Hd0 Hs0 Hl0].
  rewrite all_app, all_cons, app_comm_cons in Hd0, Hs0.
  apply NoDup_app in Hd0 as (Hd1 & H1 & Hd2). apply NoDup_app in Hd2 as (_ & H2 & Hd2).
  assert (∀ p, p ∈ h :: l' → p ∈ N ∧ p ∉ all G1 ∧ p ∉ all G2) as Hnew'.
  { intros p [->|Hp]%elem_of_cons; [apply Hh; left|by apply Hnew]. }
  split.
  - rewrite all_app, all_cons, app_comm_cons. apply NoDup_app. split; [done|]. split.
    + intros p Hp [Hin|Hin]%elem_of_app; [by apply Hnew' in Hin as (_ & ? & _)|]. apply (H1 p Hp), elem_of_app. by right.
    + apply NoDup_app. split; [done|]. split; [|done]. intros p Hp. by apply Hnew'.
  - rewrite all_app, all_cons, app_comm_cons. intros p [?|[?|?]%elem_of_app]%elem_of_app;
      [apply Hs0, elem_of_app; by left|by apply Hnew'|apply Hs0; rewrite !elem_of_app; by auto].
  - intros h2 l2 Hin. assert ((h2, l2) = (h, l') ∨ (h2, l2) ∈ G1 ++ G2) as [[= -> ->]|Hin'] by set_solver + Hin; [done|].
    assert (∀ p, p ∈ h2 :: l2 ++ [h2] → p ∈ all G1 ∨ p ∈ all G2) as Hp2.
    { intros p Hp. rewrite <- elem_of_app, <- all_app. apply elem_of_all. exists h2, l2. set_solver + Hin' Hp. }
    assert (∀ p, p ∈ h2 :: l2 ++ [h2] → next m' p = next m p ∧ prev m' p = prev m p) as Hsame2.
    { intros p Hp. specialize (Hp2 p Hp). apply Hsame; [apply Hs0; rewrite !elem_of_app; tauto|].
      split; [intros Hin2; destruct (Hh p Hin2)|intros Hin2; destruct (Hnew p Hin2)]; tauto. }
    apply (linked_ext m); [..|apply Hl0; set_solver + Hin']; intros p Hp; apply Hsame2; [by apply removelast_in|by apply tail_in].
Qed.

Lemma cycle_list h l : NoDup (h :: l) → cycle (h :: l ++ [h]).
Proof.
  intros Hd. unfold cycle. cbn [tail]. rewrite app_comm_cons, removelast_last.
  split; [done|]. by rewrite Permutation_app_comm.
Qed.

Lemma rings_insert m G1 h l l' G2 us a new b vs :
  rings N m (G1 ++ (h, l) :: G2) → new ∈ N → new ∉ all (G1 ++ (h, l) :: G2) →
  h :: l ++ [h] = us ++ a :: b :: vs → h :: l' ++ [h] = us ++ a :: new :: b :: vs → l' ≡ₚ new :: l →
  rings N (__list_add m new a b) (G1 ++ (h, l') :: G2).
Proof.
  intros HR Hnew Hfresh Hc Hc' HP. destruct (rings_nodup _ _ _ _ _ HR) as [Hd Hh].
  rewrite all_app, all_cons in Hfresh.
  assert (∀ p, p ∈ us ++ a :: b :: vs → p ∈ h :: l) as Hsub by (rewrite <- Hc; set_solver).
  assert (a ∈ N ∧ b ∈ N) as [Ha Hb] by (split; apply Hh, Hsub; set_solver).
  assert (a ∈ h :: l ∧ b ∈ h :: l) as [Ha' Hb'] by (split; apply Hsub; set_solver).
  apply (rings_replace m _ _ _ l); [done|..].
  - rewrite Hc'. apply (linked_insert N HN); [..|done|].
    + rewrite <- Hc. apply (rings_linked _ _ _ HR). set_solver.
    + rewrite <- Hc. by apply cycle_list.
    + intros p Hp. by apply Hh, Hsub.
    + intros Hin. apply Hsub in Hin. set_solver.
  - apply NoDup_cons in Hd as [Hd1 Hd2]. rewrite HP. apply NoDup_cons. split; [set_solver|].
    apply NoDup_cons. split; [set_solver|done].
  - intros p. rewrite HP. intros [->|Hp]%elem_of_cons; [set_solver + Hnew Hfresh|]. apply Hh. by right.
  - intros p Hp [H1 H2]. rewrite HP in H2.
    rewrite (list_add_next N HN _ _ _ _ Hnew Ha Hb p Hp), (list_add_prev N HN _ _ _ _ Hnew Ha Hb p Hp).
    rewrite !decide_False by set_solver. done.
Qed.

Lemma rings_delete m G1 h xs e ys G2 us a b vs :
  rings N m (G1 ++ (h, xs ++ e :: ys) :: G2) →
  h :: (xs ++ e :: ys) ++ [h] = us ++ a :: e :: b :: vs → h :: (xs ++ ys) ++ [h] = us ++ a :: b :: vs →
  rings N (__list_del m a b) (G1 ++ (h, xs ++ ys) :: G2).
Proof.
  intros HR Hc Hc'. destruct (rings_nodup _ _ _ _ _ HR) as [Hd Hh].
  assert (∀ p, p ∈ us ++ a :: b :: vs → p ∈ h :: xs ++ e :: ys) as Hsub by (rewrite <- Hc'; set_solver).
  assert (a ∈ h :: xs ++ e :: ys ∧ b ∈ h :: xs ++ e :: ys) as [Ha' Hb'] by (split; apply Hsub; set_solver).
  assert (a ∈ N ∧ b ∈ N) as [Ha Hb] by (split; by apply Hh).
  assert (NoDup (h :: xs ++ ys)) as Hd'.
  { rewrite <- Permutation_middle in Hd. apply NoDup_cons in Hd as [Hd1 Hd2]. apply NoDup_cons in Hd2 as [_ Hd2].
    apply NoDup_cons. split; [set_solver|done]. }
  apply (rings_replace m _ _ _ (xs ++ e :: ys)); [done|..|done| |].
  - rewrite Hc'. apply (linked_remove N HN m us a e b vs).
    + rewrite <- Hc. apply (rings_linked _ _ _ HR). set_solver.
    + rewrite <- Hc'. by apply cycle_list.
    + intros p Hp. by apply Hh, Hsub.
  - intros p Hp. apply Hh. set_solver.
  - intros p Hp [H1 _].
    rewrite (list_del_next N HN _ _ _ Ha Hb p Hp), (list_del_prev N HN _ _ _ Ha Hb p Hp), !decide_False by set_solver.
    done.
Qed.
(** The neighbours of a node of a list are nodes of it. *)
Lemma entry_neighbours m h xs e ys : linked m (h :: (xs ++ e :: ys) ++ [h]) →
  ∃ us b vs, h :: (xs ++ e :: ys) ++ [h] = us ++ prev m e :: e :: b :: vs ∧ next m e = b ∧
    h :: (xs ++ ys) ++ [h] = us ++ prev m e :: b :: vs.
Proof.
  intros Hl. destruct (exists_last (l := h :: xs)) as (us & a & Hus); [done|].
  assert (∃ b vs, ys ++ [h] = b :: vs) as (b & vs & Hys) by (destruct ys; eauto).
  assert (h :: (xs ++ e :: ys) ++ [h] = us ++ a :: e :: b :: vs) as Hc.
  { rewrite app_comm_cons, app_comm_cons, Hus, <- !app_assoc. cbn [app]. by rewrite Hys. }
  rewrite Hc in Hl |- *. apply linked_app in Hl as [_ (_ & Hp & Hn & _)]. subst a.
  exists us, b, vs. split; [done|]. split; [done|]. by rewrite app_comm_cons, app_comm_cons, Hus, <- !app_assoc, Hys.
Qed.

(** [m'] is [m] outside of the nodes. *)
Definition outside_same m m' : Prop := ∀ a, (∀ p, p ∈ N → a < p ∨ p + 16 ≤ a) → rd8 m' a = rd8 m a.

Lemma wr64_out m p v a : a < p ∨ p + 8 ≤ a → rd8 (wr64 m p v) a = rd8 m a.
Proof. intros Ha. unfold wr64. rewrite rd8_wr_le, decide_False by lia. done. Qed.

Lemma outside_next m m0 p v : p ∈ N → outside_same m0 m → outside_same m0 (set_next m p v).
Proof. intros Hp Hs a Ha. specialize (Ha p Hp) as Hap. unfold set_next. rewrite wr64_out by lia. by apply Hs. Qed.

Lemma outside_prev m m0 p v : p ∈ N → outside_same m0 m → outside_same m0 (set_prev m p v).
Proof. intros Hp Hs a Ha. specialize (Ha p Hp) as Hap. unfold set_prev. rewrite wr64_out by lia. by apply Hs. Qed.

Lemma outside_add m m0 new a b : new ∈ N → a ∈ N → b ∈ N → outside_same m0 m → outside_same m0 (__list_add m new a b).
Proof. intros. unfold __list_add. auto using outside_next, outside_prev. Qed.

Lemma outside_del m m0 a b : a ∈ N → b ∈ N → outside_same m0 m → outside_same m0 (__list_del m a b).
Proof. intros. unfold __list_del. auto using outside_next, outside_prev. Qed.

Lemma rings_ext m m' G : (∀ p, p ∈ all G → next m' p = next m p ∧ prev m' p = prev m p) → rings N m G → rings N m' G.
Proof.
  intros Hsame [Hd Hs Hl]. split; [done..|]. intros h l Hin.
  assert (∀ p, p ∈ h :: l ++ [h] → p ∈ all G) as Hp.
  { intros p Hp. apply elem_of_all. exists h, l. set_solver + Hin Hp. }
  apply (linked_ext m); [..|by apply Hl]; intros p Hin'; apply Hsame, Hp; [by apply removelast_in|by apply tail_in].
Qed.

Lemma init_correct m m0 G h : rings N m G → outside_same m0 m → h ∈ N → h ∉ all G →
  rings N (INIT_LIST_HEAD m h) ((h, []) :: G) ∧ outside_same m0 (INIT_LIST_HEAD m h).
Proof.
  intros HR Ho Hh Hfresh. split; [|unfold INIT_LIST_HEAD; auto using outside_next, outside_prev].
  assert (∀ p, p ∈ N → next (INIT_LIST_HEAD m h) p = (if decide (p = h) then h else next m p) ∧
    prev (INIT_LIST_HEAD m h) p = if decide (p = h) then h else prev m p) as Hf.
  { intros p Hp. unfold INIT_LIST_HEAD.
    rewrite (next_set_prev N HN), (next_set_next N HN), (prev_set_prev N HN), (prev_set_next N HN) by eauto using nodes_bound.
    done. }
  destruct (rings_ext m (INIT_LIST_HEAD m h) G) as [Hd Hs Hl]; [|done|].
  { intros p Hp. destruct (Hf p) as [-> ->]; [by apply (rings_nodes _ _ _ HR)|]. by rewrite !decide_False by set_solver. }
  split.
  - rewrite all_cons. by apply NoDup_cons.
  - rewrite all_cons. intros p [->|Hp]%elem_of_cons; auto.
  - intros h' l [[= -> ->]|Hin]%elem_of_cons; [|by apply Hl]. cbn [app]. rewrite linked_cons.
    destruct (Hf h Hh) as [-> ->]. by rewrite !decide_True.
Qed.

Lemma add_correct m m0 G new h : rings N m G → outside_same m0 m → new ∈ N → new ∉ all G → is_head G h →
  rings N (list_add m new h) (on_list h (cons new) G) ∧ outside_same m0 (list_add m new h).
Proof.
  intros HR Ho Hnew Hfresh [l Hin]%is_head_list. pose proof (rings_linked _ _ _ HR _ _ Hin) as Hl.
  assert (∃ vs, h :: l ++ [h] = [] ++ h :: next m h :: vs) as [vs Hc].
  { destruct l as [|b vs]; cbn [app] in *; apply linked_cons in Hl as [-> _]; eauto. }
  destruct (on_list_split h (cons new) G l) as (G1 & G2 & HG & ->); [apply HR|done|].
  assert (h ∈ N ∧ next m h ∈ N) as [Hh Hb].
  { split; apply (rings_nodes _ _ _ HR), elem_of_all; exists h, l; (split; [done|]); [left|].
    assert (next m h ∈ h :: l ++ [h]) as Hx by (rewrite Hc; set_solver +). set_solver + Hx. }
  unfold list_add. split; [|by apply outside_add]. subst G.
  apply (rings_insert m G1 h l (new :: l) G2 [] h new (next m h) vs); [done..| |done].
  cbn [app] in *. injection Hc as Hc. by rewrite Hc.
Qed.

Lemma add_tail_correct m m0 G new h : rings N m G → outside_same m0 m → new ∈ N → new ∉ all G → is_head G h →
  rings N (list_add_tail m new h) (on_list h (λ l, l ++ [new]) G) ∧ outside_same m0 (list_add_tail m new h).
Proof.
  intros HR Ho Hnew Hfresh [l Hin]%is_head_list. pose proof (rings_linked _ _ _ HR _ _ Hin) as Hl.
  assert (∃ us, h :: l = us ++ [prev m h]) as [us Hc].
  { destruct (exists_last (l := h :: l)) as (us & a & Hus); [done|]. exists us.
    rewrite app_comm_cons, Hus, <- app_assoc in Hl. apply linked_app in Hl as [_ (_ & -> & _)]. done. }
  destruct (on_list_split h (λ l, l ++ [new]) G l) as (G1 & G2 & HG & ->); [apply HR|done|].
  assert (h ∈ N ∧ prev m h ∈ N) as [Hh Hb].
  { split; apply (rings_nodes _ _ _ HR), elem_of_all; exists h, l; (split; [done|]); [left|rewrite Hc; set_solver +]. }
  unfold list_add_tail. split; [|by apply outside_add]. subst G.
  apply (rings_insert m G1 h l (l ++ [new]) G2 us (prev m h) new h []); [done..| | |by rewrite Permutation_app_comm].
  - by rewrite app_comm_cons, Hc, <- app_assoc.
  - by rewrite <- app_assoc, app_comm_cons, Hc, <- app_assoc.
Qed.

(** The node is out of its list, and in none. *)
Lemma del_entry_correct m m0 G e : rings N m G → outside_same m0 m → is_entry G e →
  rings N (__list_del_entry m e) (remove e G) ∧ outside_same m0 (__list_del_entry m e) ∧
  e ∈ N ∧ e ∉ all (remove e G).
Proof.
  intros HR Ho (h & l & Hin & He)%is_entry_list. pose proof (rings_linked _ _ _ HR _ _ Hin) as Hl.
  destruct (remove_split e G h l) as (G1 & G2 & xs & ys & HG & -> & ->); [apply HR|done..|].
  destruct (entry_neighbours m h xs e ys Hl) as (us & b & vs & Hc & Hb & Hc').
  assert (∀ p, p ∈ h :: (xs ++ e :: ys) ++ [h] → p ∈ N) as Hsub.
  { intros p Hp. apply (rings_nodes _ _ _ HR), elem_of_all. exists h, (xs ++ e :: ys). set_solver + Hin Hp. }
  assert (prev m e ∈ N ∧ b ∈ N) as [Hpe Hbe] by (split; apply Hsub; rewrite Hc; set_solver +).
  unfold __list_del_entry. rewrite Hb. split; [|split; [by apply outside_del|]].
  - subst G. by apply (rings_delete m G1 h xs e ys G2 us (prev m e) b vs).
  - split; [apply Hsub; set_solver +|]. subst G. destruct (rings_nodup _ _ _ _ _ HR) as [Hd Hh].
    destruct (Hh e) as (_ & H1 & H2); [set_solver +|]. rewrite <- Permutation_middle in Hd.
    apply NoDup_cons in Hd as [Hd1 Hd2]. apply NoDup_cons in Hd2 as [Hd2 _].
    rewrite all_app, all_cons. set_solver + H1 H2 Hd1 Hd2.
Qed.

Lemma del_correct m m0 G e : rings N m G → outside_same m0 m → is_entry G e →
  rings N (list_del m e) (remove e G) ∧ outside_same m0 (list_del m e).
Proof.
  intros HR Ho He. destruct (del_entry_correct m m0 G e) as (HR' & Ho' & HeN & Hfresh); [done..|].
  unfold list_del. split; [|auto using outside_next, outside_prev].
  revert HR'. apply rings_ext. intros p Hp.
  assert (p ≠ e) by (intros ->; done). assert (p ∈ N).
  { destruct (del_entry_correct m m0 G e) as (HR' & _); [done..|]. by apply (rings_nodes _ _ _ HR'). }
  rewrite (next_set_prev N HN), (next_set_next N HN), (prev_set_prev N HN), (prev_set_next N HN) by (done || vm_compute; done).
  by rewrite !decide_False.
Qed.

Lemma is_head_remove G e h : is_head G h → is_head (remove e G) h.
Proof. unfold is_head, remove. by rewrite <- list_fmap_compose. Qed.

Lemma run_op_correct m m0 G o : rings N m G → outside_same m0 m → op_ok N G o →
  rings N (run_op m o) (spec_op G o) ∧ outside_same m0 (run_op m o).
Proof.
  intros HR Ho Hok. destruct o as [h|new h|new h|e|e h|e h]; cbn [run_op spec_op op_ok] in *.
  - destruct Hok. by apply init_correct.
  - destruct Hok as (? & ? & ?). by apply add_correct.
  - destruct Hok as (? & ? & ?). by apply add_tail_correct.
  - by apply del_correct.
  - destruct Hok as [He Hh]. destruct (del_entry_correct m m0 G e) as (HR' & Ho' & HeN & Hfresh); [done..|].
    apply add_correct; auto using is_head_remove.
  - destruct Hok as [He Hh]. destruct (del_entry_correct m m0 G e) as (HR' & Ho' & HeN & Hfresh); [done..|].
    apply add_tail_correct; auto using is_head_remove.
Qed.
End refinement.

(** Each operation of a program is allowed when its turn comes. *)
Fixpoint ops_ok (N : list Z) (G : lists) (ops : list list_op) : Prop :=
  match ops with [] => True | o :: ops => op_ok N G o ∧ ops_ok N (spec_op G o) ops end.

Lemma list_empty_ring N m G h l : rings N m G → (h, l) ∈ G → list_empty m h = bool_decide (l = []).
Proof.
  intros HR Hin. pose proof (rings_linked _ _ _ HR _ _ Hin) as Hl. unfold list_empty.
  destruct l as [|b l]; cbn [app] in Hl; apply linked_cons in Hl as [-> _]; [by rewrite Z.eqb_refl|].
  rewrite bool_decide_false by done. apply Z.eqb_neq. intros ->.
  pose proof (rings_disjoint _ _ _ HR) as Hd. apply list_elem_of_split in Hin as (G1 & G2 & ->).
  rewrite all_app in Hd. apply NoDup_app in Hd as (_ & _ & Hd). cbn in Hd. apply NoDup_cons in Hd as [Hd _]. apply Hd. left.
Qed.

Lemma list_first_ring N m G h l off : rings N m G → (h, l) ∈ G →
  list_first_entry_or_null m h off = (λ e, list_entry e off) <$> head l.
Proof.
  intros HR Hin. unfold list_first_entry_or_null.
  change (next m h =? h) with (list_empty m h). rewrite (list_empty_ring N m G h l HR Hin).
  pose proof (rings_linked _ _ _ HR _ _ Hin) as Hl.
  destruct l as [|b l]; [done|]. cbn [app] in Hl. apply linked_cons in Hl as [-> _]. by rewrite bool_decide_false.
Qed.

Lemma run_ops_correct N m m0 G ops : nodes N → rings N m G → outside_same N m0 m → ops_ok N G ops →
  rings N (foldl run_op m ops) (foldl spec_op G ops) ∧ outside_same N m0 (foldl run_op m ops).
Proof.
  intros HN. revert m G. induction ops as [|o ops IH]; intros m G HR Ho Hok; [done|]. destruct Hok as [Ho1 Hok].
  destruct (run_op_correct N HN m m0 G o) as [HR' Ho']; [done..|]. by apply IH.
Qed.

#[export] Instance ops_ok_dec N G ops : Decision (ops_ok N G ops).
Proof. revert G. induction ops; intros G; cbn [ops_ok]; apply _. Defined.

(** C27: The linked lists refine lists: whatever sequence of operations a program performs on its
    lists, each on a node that is in no list or in the list it is taken from, the rings in
    memory hold the entries, in the order, that the operations on lists give, the tests
    for emptiness and the first entries are those of the lists, and no byte outside of the
    nodes changes. *)
Theorem list_refines N m G ops : nodes N → rings N m G → ops_ok N G ops →
  let m' := foldl run_op m ops in
  let G' := foldl spec_op G ops in
  rings N m' G' ∧ outside_same N m m' ∧
  ∀ h l, (h, l) ∈ G' → list_empty m' h = bool_decide (l = []) ∧
    ∀ off, list_first_entry_or_null m' h off = (λ e, list_entry e off) <$> head l.
Proof.
  intros HN HR Hok m' G'. destruct (run_ops_correct N m m G ops HN HR) as [HR' Ho]; [by intros a _|done|].
  split; [done|]. split; [done|]. intros h l Hin.
  split; [by apply (list_empty_ring N _ G')|]. intros off. by apply (list_first_ring N _ G' h l off).
Qed.

(** ** Iteration *)

(** The entries of [l] from [p] on; none from the head. *)
Fixpoint from (p : Z) (l : list Z) : list Z :=
  match l with [] => [] | x :: l' => if decide (x = p) then x :: l' else from p l' end.

Lemma from_entry xs p ys : p ∉ xs → from p (xs ++ p :: ys) = p :: ys.
Proof.
  induction xs as [|x xs IH]; intros Hp; cbn [app from]; [by rewrite decide_True|].
  rewrite decide_False by set_solver. apply IH. set_solver.
Qed.

Lemma from_none p l : p ∉ l → from p l = [].
Proof.
  induction l as [|x l IH]; intros Hp; cbn [from]; [done|]. rewrite decide_False by set_solver. apply IH. set_solver.
Qed.

Lemma nodes_length N : nodes N → Z.of_nat (length N) < 2 ^ 64.
Proof.
  intros HN. assert (length N ≤ length (seqZ 0 (2 ^ 64 - 15)))%nat as Hl.
  { apply submseteq_length, NoDup_submseteq; [apply nodes_distinct, HN|].
    intros p Hp. apply elem_of_seqZ. pose proof (nodes_inside N HN p Hp). lia. }
  rewrite length_seqZ in Hl. lia.
Qed.

Section iteration.
Context {S : Type} (mem : S → bmem) (h : Z) (l : list Z) (off : Z) (body : Z → M S unit).
Implicit Types s : S.

Definition chain s : Prop := linked (mem s) (h :: l ++ [h]).

Context (HN : nodes (h :: l)) (I : S → Prop) (HI : ∀ s, I s → chain s).
Context (Hbody : ∀ p s, p ∈ l → I s →
  match body (list_entry p off) s with Done _ s' => I s' | Panicked _ _ => True | OutOfFuel _ => False end).

Lemma entry_node p : 0 ≤ p < 2 ^ 64 → u64 (list_entry p off + off) = p.
Proof.
  intros Hp. unfold list_entry. rewrite wrap_add_l. replace (p - off + off) with p by lia. by apply wrap_small.
Qed.

Lemma chain_next s xs p ys : chain s → l = xs ++ p :: ys → next (mem s) p = hd h ys ∧ from (hd h ys) l = ys.
Proof.
  unfold chain. intros Hl ->. rewrite <- app_assoc, app_comm_cons in Hl. apply linked_app in Hl as [_ Hl].
  pose proof (nodes_distinct _ HN) as [Hh Hd]%NoDup_cons.
  destruct ys as [|y ys]; cbn [app hd] in *; apply linked_cons in Hl as [-> _]; split; [done| |done|].
  - by apply from_none.
  - change (xs ++ p :: y :: ys) with (xs ++ [p] ++ y :: ys) in *. rewrite app_assoc in *. apply from_entry.
    apply NoDup_app in Hd as (_ & Hd & _). intros Hin. apply (Hd y Hin). left.
Qed.

Lemma for_each_entry_from s p : I s → p ∈ h :: l →
  loop (λ pos, if u64 (pos + off) =? h then mret (inr tt)
               else body pos ;; nxt ← gets (λ s, list_next_entry (mem s) pos off); mret (inl nxt))
    (list_entry p off) s = for_each ((λ e, list_entry e off) <$> from p l) body s.
Proof.
  intros Hs Hp. assert (∀ p, p ∈ h :: l → u64 (list_entry p off + off) = p) as Hnode.
  { intros q Hq. apply entry_node. by apply (nodes_bound (h :: l)). }
  pose proof (nodes_distinct _ HN) as [Hh Hd]%NoDup_cons.
  pose proof (nodes_length _ HN) as Hlen. cbn [length] in Hlen.
  rewrite <- (Hnode p Hp) at 2.
  refine (loop_outcome _ (λ a s, I s ∧ ∃ q, q ∈ h :: l ∧ a = list_entry q off)
    (λ a s o, o = for_each ((λ e, list_entry e off) <$> from (u64 (a + off)) l) body s)
    (λ a _, Z.of_nat (length (from (u64 (a + off)) l))) _ _ _ _ _); [|by eauto|].
  - clear s p Hs Hp. intros a s (Hs & q & Hq & ->). unfold loop_step_to. rewrite (Hnode q Hq).
    destruct (Z.eqb_spec q h) as [->|Hne]; [by rewrite from_none|].
    apply elem_of_cons in Hq as [?|Hq]; [done|]. apply list_elem_of_split in Hq as (xs & ys & Hl).
    assert (q ∈ l) as Hql by (rewrite Hl; set_solver +).
    assert (from q l = q :: ys) as Hfrom.
    { rewrite Hl. apply from_entry. rewrite Hl in Hd. apply NoDup_app in Hd as (_ & Hd & _).
      intros Hin. apply (Hd q Hin). left. }
    rewrite Hfrom. cbn [fmap list_fmap for_each length]. pose proof (Hbody q s Hql Hs) as Hb.
    unfold mbind, M_bind. destruct (body (list_entry q off) s) as [[] s'| |]; [|done..].
    unfold gets, mret, M_ret, list_next_entry. rewrite (Hnode q) by (by right).
    destruct (chain_next s' xs q ys (HI _ Hb) Hl) as [-> Hys].
    assert (hd h ys ∈ h :: l) as Hin by (rewrite Hl; destruct ys; set_solver +).
    rewrite (Hnode _ Hin), Hys. split; [eauto|]. split; [lia|]. by intros r ->.
  - assert (length (from (u64 (list_entry p off + off)) l) ≤ length l)%nat; [|lia].
    generalize (u64 (list_entry p off + off)). intros q. clear. induction l as [|x l' IH]; cbn [from]; [done|].
    case_decide; cbn [length]; lia.
Qed.

Lemma list_for_each_spec s : I s →
  list_for_each_entry mem h off body s = for_each ((λ e, list_entry e off) <$> l) body s.
Proof.
  intros Hs. unfold list_for_each_entry. erewrite bind_done by reflexivity. unfold list_first_entry.
  assert (next (mem s) h = hd h l ∧ from (hd h l) l = l ∧ hd h l ∈ h :: l) as (Hn & Hf & Hin).
  { pose proof (HI s Hs) as Hc. unfold chain in Hc. pose proof (nodes_distinct _ HN) as [Hh Hd]%NoDup_cons.
    destruct l as [|x l']; cbn [app hd] in *; apply linked_cons in Hc as [-> _].
    - split_and!; [done..|left].
    - split_and!; [done| |set_solver +]. cbn [from]. by rewrite decide_True. }
  rewrite Hn, for_each_entry_from by done. by rewrite Hf.
Qed.
End iteration.

(** C28: [list_for_each_entry] is the iteration over the entries of the list, in order, as
    long as the body leaves the list as it is: it ends, and it does to the state what
    running the body on each entry does, whether the body returns or panics. *)
Theorem list_for_each_visits {S} (mem : S → bmem) h l off (body : Z → M S unit) (I : S → Prop) s :
  nodes (h :: l) → (∀ s, I s → chain mem h l s) →
  (∀ p s, p ∈ l → I s →
    match body (list_entry p off) s with
    | Done _ s' => I s' | Panicked _ _ => True | OutOfFuel _ => False end) →
  I s → list_for_each_entry mem h off body s = for_each ((λ e, list_entry e off) <$> l) body s.
Proof. intros HN HI Hb Hs. by apply (list_for_each_spec mem h l off body HN I). Qed.

(** ** A program with two lists *)

Module ListDemo.
Definition program : list list_op := [OpInit 64; OpInit 96; OpAddTail 128 64; OpAdd 160 64; OpAdd 192 96; OpMoveTail 128 96; OpDel 160].

Lemma demo_nodes : nodes [64; 96; 128; 160; 192].
Proof.
  split; [by repeat (constructor; [set_solver|]); constructor|..];
    intros *; rewrite !elem_of_cons, !elem_of_nil; lia.
Qed.

Lemma list_refines_witness :
  nodes [64; 96; 128; 160; 192] ∧ rings [64; 96; 128; 160; 192] ∅ [] ∧ ops_ok [64; 96; 128; 160; 192] [] program ∧
  (let m' := foldl run_op ∅ program in
   let G' := foldl spec_op [] program in
   rings [64; 96; 128; 160; 192] m' G' ∧ outside_same [64; 96; 128; 160; 192] ∅ m' ∧
   ∀ h l, (h, l) ∈ G' → list_empty m' h = bool_decide (l = []) ∧
     ∀ off, list_first_entry_or_null m' h off = (λ e, list_entry e off) <$> head l) ∧
  foldl spec_op [] program = [(96, [192; 128]); (64, [])].
Proof.
  assert (rings [64; 96; 128; 160; 192] ∅ []) as HR.
  { split; [apply NoDup_nil_2|intros p Hp; by apply not_elem_of_nil in Hp|intros h l Hp; by apply not_elem_of_nil in Hp]. }
  assert (ops_ok [64; 96; 128; 160; 192] [] program) as Hok.
  { by apply (bool_decide_eq_true_1 _). }
  split; [exact demo_nodes|]. split; [exact HR|]. split; [exact Hok|]. split; [|reflexivity].
  by apply (list_refines _ ∅ [] program demo_nodes).
Defined.

Definition note (p : Z) : M (bmem * list Z) unit := modify (λ s, (s.1, s.2 ++ [p])).

Lemma list_for_each_visits_witness :
  list_for_each_entry fst 96 8 note (foldl run_op ∅ program, []) =
    for_each ((λ e, list_entry e 8) <$> [192; 128]) note (foldl run_op ∅ program, []) ∧
  list_for_each_entry fst 96 8 note (foldl run_op ∅ program, []) = Done tt (foldl run_op ∅ program, [184; 120]).
Proof.
  split.
  - apply (list_for_each_visits fst 96 [192; 128] 8 note (chain fst 96 [192; 128])).
    + apply (nodes_subset _ _ demo_nodes); [by apply (bool_decide_eq_true_1 _)|]. set_solver +.
    + done.
    + intros p s _ Hs. exact Hs.
    + vm_compute. done.
  - vm_compute. reflexivity.
Defined.
End ListDemo.
