(* ===== verification/Sort.v ===== *)
(** [lib/sort.c]: the heap sort.

    The array is whatever the comparison and the swap see: [sort] takes them as functions
    of byte offsets from [base] and of the state they act on, as the C function takes
    pointers.  [SortOps] is the interface its correctness is proved against: the state
    holds a list of elements, [cmp_func] compares two of them, [swap_func] exchanges two.
    Byte memory with the three swap functions of the file implements it, and so does the
    array of change points of file E820. *)

From stdpp Require Import sorting.
From S2P Require Import Prelude Mem.
#[local] Open Scope Z_scope.
#[local] Open Scope cint_scope.

(** ** The code *)

Section code.
Context {S : Type} (cmp_func : Z → Z → S → Z) (swap_func : Z → Z → S → S) (size : Z).

(** A test whose right operand reads the state, [b && f(...)]. *)
#[local] Notation "b '&&?' f" := (if b then gets f else mret false) (at level 40).

(** One iteration of the inner loop, [for (r = ...; r * 2 + size < lim; r = c)]; the
    counters are [int]s, [size] a [size_t]. *)
Definition sift_step (lim r : Z) : M S (Z + unit) :=
  if u64 (s32 (r * 2) + size) <? u64 lim then
    let c := s32 (s32 (r * 2) + size) in
    right ← (u64 c <? u64 (lim - size)) &&? (λ s, cmp_func c (c + size) s <? 0);
    let c := if right : bool then s32 (c + size) else c in
    v ← gets (cmp_func r c);
    if 0 <=? v then mret (inr tt)
    else modify (swap_func r c) ;; mret (inl c)
  else mret (inr tt).

Definition sift (lim r : Z) : M S unit := loop (sift_step lim) r.

Definition heapify_step (n i : Z) : M S (Z + unit) :=
  if 0 <=? i then sift n i ;; mret (inl (s32 (i - size))) else mret (inr tt).

Definition extract_step (i : Z) : M S (Z + unit) :=
  if 0 <? i then modify (swap_func 0 i) ;; sift i 0 ;; mret (inl (s32 (i - size)))
  else mret (inr tt).

Definition sort (num : Z) : M S unit :=
  let i := s32 (u64 ((num / 2 - 1) * size)) in
  let n := s32 (u64 (num * size)) in
  loop (heapify_step n) i ;;
  loop extract_step (s32 (n - size)).
End code.

(** ** The swap functions, on byte memory *)

Definition u32_swap (a b : Z) (m : bmem) : bmem :=
  let t := rd32 m a in wr_le (wr_le m a 4 (rd32 m b)) b 4 t.

Definition u64_swap (a b : Z) (m : bmem) : bmem :=
  let t := rd64 m a in wr64 (wr64 m a (rd64 m b)) b t.

(** [do { ... } while (--size > 0)]: [size] iterations when [size] is positive. *)
Fixpoint generic_swap_loop (n : nat) (a b : Z) (m : bmem) : bmem :=
  match n with
  | O => m
  | S n =>
      let t := rd8 m a in
      let m := wr8 m a (rd8 m b) in
      let m := wr8 m b t in
      generic_swap_loop n (a + 1) (b + 1) m
  end.
Definition generic_swap (a b size : Z) (m : bmem) : bmem :=
  generic_swap_loop (Z.to_nat (Z.max 1 size)) a b m.

Definition alignment_ok (base align : Z) : bool := (base &&& (align - 1)) =? 0.

(** The swap function [sort] chooses when it is given none. *)
Definition default_swap (base size a b : Z) (m : bmem) : bmem :=
  if (size =? 4) && alignment_ok base 4 then u32_swap (base + a) (base + b) m
  else if (size =? 8) && alignment_ok base 8 then u64_swap (base + a) (base + b) m
  else generic_swap (base + a) (base + b) size m.

(** ** Heaps on lists *)

Section heap.
Context {A : Type} (le : relation A) `{!PreOrder le}.
Implicit Types (l : list A) (i j p c r k n : nat).
#[local] Open Scope nat_scope.

Definition swapped i j l : list A :=
  match l !! i, l !! j with Some x, Some y => <[i := y]> (<[j := x]> l) | _, _ => l end.

Definition child p c : Prop := c = 2 * p + 1 ∨ c = 2 * p + 2.

Definition dominates l p c : Prop := ∀ x y, l !! p = Some x → l !! c = Some y → le y x.

(** The nodes from [k] on dominate their children below [n], [r] perhaps excepted. *)
Definition heap_but l k n r : Prop :=
  ∀ p c, k ≤ p → p ≠ r → child p c → c < n → dominates l p c.
Definition heap l k n : Prop := ∀ p c, k ≤ p → child p c → c < n → dominates l p c.

(** The parent of [r] dominates the children of [r]. *)
Definition bridges l k n r : Prop :=
  ∀ q c, k ≤ q → child q r → child r c → c < n → dominates l q c.

Lemma swapped_length i j l : length (swapped i j l) = length l.
Proof. unfold swapped. by repeat case_match; rewrite ?length_insert. Qed.

Lemma swapped_lookup i j l m :
  i < length l → j < length l → i ≠ j →
  swapped i j l !! m = if decide (m = i) then l !! j else if decide (m = j) then l !! i else l !! m.
Proof.
  intros Hi Hj Hne. unfold swapped.
  destruct (lookup_lt_is_Some_2 l i Hi) as [x Hx], (lookup_lt_is_Some_2 l j Hj) as [y Hy].
  rewrite Hx, Hy. repeat case_decide; subst.
  - by rewrite list_lookup_insert_eq by (rewrite length_insert; lia).
  - by rewrite list_lookup_insert_ne, list_lookup_insert_eq by lia.
  - by rewrite !list_lookup_insert_ne by lia.
Qed.

Lemma swapped_lookup' i j l m :
  i < length l → j < length l →
  swapped i j l !! m = if decide (m = i) then l !! j else if decide (m = j) then l !! i else l !! m.
Proof.
  intros Hi Hj. destruct (decide (i = j)) as [->|]; [|by apply swapped_lookup].
  destruct (lookup_lt_is_Some_2 l j Hj) as [x Hx]. unfold swapped. rewrite Hx.
  rewrite list_insert_insert_eq, list_insert_id by done. by repeat case_decide; subst.
Qed.

Lemma swapped_perm i j l : swapped i j l ≡ₚ l.
Proof.
  unfold swapped. destruct (l !! i) as [x|] eqn:Hi; [|done]. destruct (l !! j) as [y|] eqn:Hj; [|done].
  destruct (decide (i = j)) as [->|Hne].
  { simplify_eq. by rewrite list_insert_insert_eq, list_insert_id. }
  rewrite list_insert_insert_ne by done. by apply Permutation_insert_swap.
Qed.

Lemma swapped_drop i j n l : i < n → j < n → drop n (swapped i j l) = drop n l.
Proof. intros Hi Hj. unfold swapped. repeat case_match; by rewrite ?drop_insert_lt by done. Qed.

Definition largest_child l n r c : Prop :=
  child r c ∧ c < n ∧
  ∀ c' x y, child r c' → c' < n → l !! c' = Some x → l !! c = Some y → le x y.

Lemma heap_leaf l k n r : heap_but l k n r → n ≤ 2 * r + 1 → heap l k n.
Proof.
  intros Hh Hn p c Hp Hc Hcn. destruct (decide (p = r)) as [->|]; [unfold child in *; lia|].
  by apply Hh.
Qed.

Lemma heap_settled l k n r c x y :
  heap_but l k n r → largest_child l n r c → l !! r = Some x → l !! c = Some y → le y x → heap l k n.
Proof.
  intros Hh (_ & _ & Hmax) Hx Hy Hle p c' Hp Hc Hcn.
  destruct (decide (p = r)) as [->|]; [|by apply Hh].
  intros x' y' Hx' Hy'. simplify_eq. transitivity y; [|done]. by eapply Hmax.
Qed.

Lemma heap_sink l k n r c x y :
  n ≤ length l → k ≤ r → heap_but l k n r → bridges l k n r → largest_child l n r c →
  l !! r = Some x → l !! c = Some y → le x y →
  heap_but (swapped r c l) k n c ∧ bridges (swapped r c l) k n c.
Proof.
  intros Hn Hk Hh Hb (Hc & Hcn & Hmax) Hx Hy Hle. pose proof Hc as Hc'. unfold child in Hc'.
  split; intros p d Hp; [intros Hpc Hd Hdn|intros Hcp Hd Hdn]; intros a b;
    rewrite !swapped_lookup by lia.
  - pose proof Hd as Hd'. unfold child in Hd'.
    destruct (decide (p = r)) as [->|Hpr].
    + rewrite (decide_False (P := d = r)) by lia. intros Ha. simplify_eq.
      case_decide; intros Hb'; simplify_eq; [done|]. by eapply Hmax.
    + rewrite (decide_False (P := p = c)) by done.
      destruct (decide (d = r)) as [->|Hdr].
      * intros Ha Hb'. simplify_eq. by eapply (Hb p c).
      * destruct (decide (d = c)) as [->|]; [lia|]. intros. by eapply (Hh p d).
  - pose proof Hd as Hd'. unfold child in Hd', Hcp. assert (p = r) as -> by lia.
    rewrite (decide_True (P := r = r)) by done.
    rewrite (decide_False (P := d = r)), (decide_False (P := d = c)) by lia.
    intros Ha Hb'. simplify_eq. eapply (Hh c d); eauto; lia.
Qed.

(** Making room for one more node, and removing the root. *)
Lemma heap_extend l k n : heap l (S k) n → heap_but l k n k ∧ bridges l k n k.
Proof.
  intros Hh. split.
  - intros p c Hp Hpk. apply Hh. lia.
  - intros q c Hq Hc. unfold child in Hc. lia.
Qed.

Lemma heap_root l n m : heap l 0 n → m < n → n ≤ length l →
  heap_but (swapped 0 m l) 0 m 0 ∧ bridges (swapped 0 m l) 0 m 0.
Proof.
  intros Hh Hm Hn. split.
  - intros p c _ Hp Hc Hcm x y. unfold child in Hc. rewrite !swapped_lookup' by lia.
    rewrite !decide_False by lia. apply Hh; [lia| |lia]. exact Hc.
  - intros q c _ Hq. unfold child in Hq. lia.
Qed.

Lemma heap_max l n j x y : heap l 0 n → j < n → n ≤ length l → l !! 0 = Some x → l !! j = Some y → le y x.
Proof.
  intros Hh. revert y. induction j as [j IH] using lt_wf_ind. intros y Hj Hn Hx Hy.
  destruct (decide (j = 0)) as [->|]; [by simplify_eq|].
  set (p := (j - 1) / 2). assert (child p j) as Hp.
  { unfold child, p. pose proof (Nat.div_mod (j - 1) 2). pose proof (Nat.mod_upper_bound (j - 1) 2). lia. }
  assert (p < j) by (unfold child in Hp; lia).
  destruct (lookup_lt_is_Some_2 l p) as [z Hz]; [lia|].
  transitivity z; [by eapply (Hh p j); eauto; lia|]. eapply (IH p); eauto; lia.
Qed.

(** Sorted lists, and the invariant of the second loop: what is above [m] is sorted
    and above what is below. *)
Definition ordered l : Prop :=
  ∀ i j x y, i < j → l !! i = Some x → l !! j = Some y → le x y.

Definition ordered_from l m : Prop :=
  ∀ i j x y, i < j → m ≤ j → l !! i = Some x → l !! j = Some y → le x y.

(** A permutation of the part below [m] keeps what is above it. *)
Lemma ordered_from_perm l l' m :
  ordered_from l m → l' ≡ₚ l → drop m l' = drop m l → ordered_from l' m.
Proof.
  intros Ho Hp Hd i j x y Hij Hj Hx Hy.
  assert (∀ i, m ≤ i → l' !! i = l !! i) as Hup.
  { intros i' Hi'. replace i' with (m + (i' - m)) by lia. by rewrite <- !lookup_drop, Hd. }
  rewrite Hup in Hy by done. destruct (decide (m ≤ i)) as [Hi|Hi].
  - rewrite Hup in Hx by done. by eapply (Ho i j).
  - assert (take m l' ≡ₚ take m l) as Ht.
    { apply (Permutation_app_inv_r (drop m l)). rewrite take_drop, <- Hd, take_drop. done. }
    assert (x ∈ take m l) as Hin.
    { rewrite <- Ht. apply list_elem_of_lookup. exists i. by rewrite lookup_take_lt by lia. }
    apply list_elem_of_lookup in Hin as [i' Hi']. apply lookup_take_Some in Hi' as [Hi' Hlt].
    eapply (Ho i' j); eauto. lia.
Qed.

Lemma ordered_from_root l n m : heap l 0 n → n = S m → n ≤ length l → ordered_from l n →
  ordered_from (swapped 0 m l) m.
Proof.
  intros Hh -> Hn Ho i j x y Hij Hj. rewrite !swapped_lookup' by lia.
  destruct (decide (j = m)) as [->|Hjm].
  - rewrite (decide_False (P := i = m)) by lia.
    intros Hx Hy. rewrite (decide_False (P := m = 0)) in Hy by lia.
    destruct (decide (i = 0)); subst; [eapply (heap_max _ _ m)|eapply (heap_max _ _ i)]; eauto; lia.
  - rewrite (decide_False (P := j = 0)) by lia. intros Hx Hy.
    repeat case_decide; subst; try lia;
      (match goal with Hx : l !! ?i' = Some x |- _ => apply (Ho i' j x y) end); (done || lia).
Qed.
End heap.

(** ** Correctness

    The interface of [sort]: the state holds an array of [num] elements of [size] bytes,
    which [cmp_func] compares and [swap_func] permutes. *)

Class SortOps {S A : Type} (cmp_func : Z → Z → S → Z) (swap_func : Z → Z → S → S)
    (size num : Z) (holds : S → list A → Prop) (le : relation A) : Prop := {
  sort_size : 0 < size < 2 ^ 30;
  sort_num : 0 ≤ num ∧ num * size < 2 ^ 30;
  sort_preorder :: PreOrder le;
  holds_length s l : holds s l → Z.of_nat (length l) = num;
  cmp_spec s l (i j : nat) x y :
    holds s l → l !! i = Some x → l !! j = Some y →
    if cmp_func (Z.of_nat i * size) (Z.of_nat j * size) s <? 0 then le x y else le y x;
  swap_spec s l (i j : nat) :
    holds s l → (i < length l)%nat → (j < length l)%nat → i ≠ j →
    holds (swap_func (Z.of_nat i * size) (Z.of_nat j * size) s) (swapped i j l);
}.

Section correct.
Context {S A : Type} {cmp_func : Z → Z → S → Z} {swap_func : Z → Z → S → S} {size num : Z}.
Context {holds : S → list A → Prop} {le : relation A}.
Context `{!SortOps cmp_func swap_func size num holds le}.
Implicit Types (l : list A) (n r k c : nat).

#[local] Notation ofs n := (Z.of_nat n * size).

Lemma ofs_bound l s n : holds s l → (n ≤ length l)%nat → 0 ≤ ofs n < 2 ^ 30.
Proof.
  intros Hl Hn. pose proof (holds_length _ _ Hl). pose proof sort_size. pose proof sort_num.
  assert (ofs n ≤ num * size); [apply Z.mul_le_mono_nonneg_r; lia|]. nia.
Qed.

Lemma ofs_lt n m : ofs n <? ofs m = (Z.of_nat n <? Z.of_nat m).
Proof.
  pose proof sort_size. destruct (Z.ltb_spec (Z.of_nat n) (Z.of_nat m)).
  - apply Z.ltb_lt, Z.mul_lt_mono_pos_r; lia.
  - apply Z.ltb_ge. apply Z.mul_le_mono_nonneg_r; lia.
Qed.

Lemma if_gets {B} (b : bool) (f : S → B) v (s : S) :
  (if b then gets f else mret v : M S B) s = Done (if b then f s else v) s.
Proof. by destruct b. Qed.

(** What the sift has kept of the list [l0] it started from. *)
Definition sifting (l0 : list A) k n (a : Z) (s : S) : Prop :=
  ∃ r l, a = ofs r ∧ holds s l ∧ (k ≤ r ≤ length l)%nat ∧ (n ≤ length l)%nat ∧
    l ≡ₚ l0 ∧ drop n l = drop n l0 ∧ heap_but le l k n r ∧ bridges le l k n r.

Definition sifted (l0 : list A) k n (s : S) : Prop :=
  ∃ l, holds s l ∧ l ≡ₚ l0 ∧ drop n l = drop n l0 ∧ heap le l k n.

(** The child the loop goes to. *)
Lemma larger_child s l n r :
  holds s l → (n ≤ length l)%nat → (2 * r + 1 < n)%nat →
  ∃ c, largest_child le l n r c ∧
    (if (if u64 (ofs (2 * r + 1)) <? u64 (ofs n - size)
         then cmp_func (ofs (2 * r + 1)) (ofs (2 * r + 1) + size) s <? 0 else false)
     then s32 (ofs (2 * r + 1) + size) else ofs (2 * r + 1)) = ofs c.
Proof.
  intros Hl Hn Hr. pose proof sort_size as Hsz.
  pose proof (ofs_bound l s (2 * r + 1) Hl ltac:(lia)). pose proof (ofs_bound l s n Hl Hn).
  replace (ofs n - size) with (ofs (n - 1)) by (rewrite Nat2Z.inj_sub by lia; ring).
  pose proof (ofs_bound l s (n - 1) Hl ltac:(lia)).
  rewrite !wrap_small, ofs_lt by lia.
  replace (ofs (2 * r + 1) + size) with (ofs (2 * r + 2)) by lia.
  assert (∀ c, child r c → (c < n)%nat → (∀ c' x y, child r c' → (c' < n)%nat → c' ≠ c →
    l !! c' = Some x → l !! c = Some y → le x y) → largest_child le l n r c) as Hbuild.
  { intros c Hc Hcn Hm. split; [done|]. split; [done|]. intros c' x y ?? Hx Hy.
    destruct (decide (c' = c)) as [->|]; [by simplify_eq|]. by eapply Hm. }
  destruct (Z.ltb_spec (Z.of_nat (2 * r + 1)) (Z.of_nat (n - 1))).
  - pose proof (ofs_bound l s (2 * r + 2) Hl ltac:(lia)).
    destruct (lookup_lt_is_Some_2 l (2 * r + 1)) as [x Hx]; [lia|].
    destruct (lookup_lt_is_Some_2 l (2 * r + 2)) as [y Hy]; [lia|].
    pose proof (cmp_spec s l _ _ _ _ Hl Hx Hy) as Hcmp. case_match.
    + exists (2 * r + 2)%nat. rewrite s32_small by lia. split; [|done].
      apply Hbuild; [by right|lia|]. intros c' x' y' Hc' ?? Hx' Hy'.
      assert (c' = (2 * r + 1)%nat) as -> by (unfold child in Hc'; lia). by simplify_eq.
    + exists (2 * r + 1)%nat. split; [|done]. apply Hbuild; [by left|lia|].
      intros c' x' y' Hc' ?? Hx' Hy'.
      assert (c' = (2 * r + 2)%nat) as -> by (unfold child in Hc'; lia). by simplify_eq.
  - exists (2 * r + 1)%nat. split; [|done]. apply Hbuild; [by left|lia|].
    intros c' x' y' Hc' ???. unfold child in Hc'. lia.
Qed.

Lemma sift_correct l0 k n a s :
  sifting l0 k n a s → ∃ s', sift cmp_func swap_func size (ofs n) a s = Done tt s' ∧ sifted l0 k n s'.
Proof.
  intros Hs. pose proof sort_size as Hsz.
  destruct (loop_total (sift_step cmp_func swap_func size (ofs n)) (sifting l0 k n)
    (λ _, sifted l0 k n) (λ a _, 2 ^ 31 - a)) with (a := a) (s := s) as ([] & s' & ? & ?);
    [|done| |by exists s'].
  2: { destruct Hs as (r & l & -> & Hl & ? & _). pose proof (ofs_bound l s r Hl). lia. }
  clear a s Hs. intros a s (r & l & -> & Hl & Hkr & Hn & Hp & Hd & Hh & Hb).
  pose proof (ofs_bound l s r Hl ltac:(lia)) as Hbr. pose proof (ofs_bound l s n Hl Hn) as Hbn.
  unfold loop_step_ok, sift_step.
  rewrite (s32_small (ofs r * 2)) by lia.
  replace (ofs r * 2 + size) with (ofs (2 * r + 1)) by lia.
  rewrite !wrap_small, ofs_lt by lia.
  destruct (Z.ltb_spec (Z.of_nat (2 * r + 1)) (Z.of_nat n)); cycle 1.
  { exists l. split_and!; try done. apply (heap_leaf _ _ _ _ r); [done|lia]. }
  rewrite (s32_small (ofs (2 * r + 1))) by (pose proof (ofs_bound l s (2 * r + 1) Hl); lia).
  destruct (larger_child s l n r Hl Hn ltac:(lia)) as (c & Hc & Hce).
  pose proof Hc as (Hchild & Hcn & _). pose proof Hchild as Hcr. unfold child in Hcr.
  destruct (lookup_lt_is_Some_2 l r) as [x Hx]; [lia|].
  destruct (lookup_lt_is_Some_2 l c) as [y Hy]; [lia|].
  rewrite (bind_done _ _ _ _ _ (if_gets _ _ _ s)). cbv zeta. rewrite Hce.
  rewrite (bind_done _ _ s (cmp_func (ofs r) (ofs c) s) s) by done.
  pose proof (cmp_spec s l _ _ _ _ Hl Hx Hy) as Hcmp.
  rewrite Z.leb_antisym. case_match; cbn [negb].
  - rewrite (bind_done _ _ s tt (swap_func (ofs r) (ofs c) s)) by done. cbv beta.
    unfold mret, M_ret.
    pose proof (ofs_bound l s c Hl ltac:(lia)). split; [|nia].
    destruct (heap_sink le l k n r c x y) as [Hh' Hb']; [(done || lia)..|].
    exists c, (swapped r c l). split_and!; rewrite ?swapped_length; try (done || lia).
    + apply swap_spec; (done || lia).
    + by rewrite swapped_perm.
    + rewrite swapped_drop by lia. done.
  - exists l. split_and!; try done. by apply (heap_settled le l k n r c x y).
Qed.

(** What the first loop has built before node [i], counted down from -1 onwards. *)
Definition heapifying (l0 : list A) n (a : Z) (s : S) : Prop :=
  ∃ i : Z, a = i * size ∧ -1 ≤ i < Z.of_nat n ∧ sifted l0 (Z.to_nat (i + 1)) n s.

Lemma sifted_sifting l0 n i s :
  Z.of_nat n = num → (i < n)%nat → sifted l0 (i + 1) n s → sifting l0 i n (ofs i) s.
Proof.
  rewrite Nat.add_1_r. intros Hn Hi (l & Hl & Hp & Hd & Hh). pose proof (holds_length _ _ Hl).
  apply heap_extend in Hh as [Hh Hb]. exists i, l. split_and!; (done || lia).
Qed.

Lemma heapify_correct l s n :
  holds s l → n = length l →
  ∃ s', loop (heapify_step cmp_func swap_func size (ofs n)) ((num / 2 - 1) * size) s = Done tt s' ∧
    sifted l 0 n s'.
Proof.
  intros Hl ->. pose proof sort_size. pose proof sort_num as [].
  pose proof (holds_length _ _ Hl) as Hlen. pose proof (ofs_bound l s _ Hl (Nat.le_refl _)).
  destruct (loop_total (heapify_step cmp_func swap_func size (ofs (length l)))
    (heapifying l (length l)) (λ _, sifted l 0 (length l)) (λ a _, a + size))
    with (a := (num / 2 - 1) * size) (s := s) as ([] & s' & ? & ?); [|..|by exists s'].
  - intros a s1 (i & -> & Hi & Hs). unfold loop_step_ok, heapify_step.
    destruct (Z.leb_spec 0 (i * size)).
    + assert (0 ≤ i) by nia. replace (i * size) with (ofs (Z.to_nat i)) by lia.
      replace (Z.to_nat (i + 1)) with (Z.to_nat i + 1)%nat in Hs by lia.
      destruct (sift_correct l (Z.to_nat i) (length l) (ofs (Z.to_nat i)) s1) as (s2 & Hr & Hs2).
      { apply sifted_sifting; (done || lia). }
      rewrite (bind_done _ _ _ _ _ Hr). cbv beta. unfold mret, M_ret.
      assert (ofs (Z.to_nat i) ≤ ofs (length l)) by nia.
      rewrite s32_small by lia. split; [|nia].
      exists (i - 1). split; [nia|]. split; [lia|]. by replace (i - 1 + 1) with i by lia.
    + assert (i = -1) as -> by nia. done.
  - exists (num / 2 - 1). split; [done|]. split; [divlia|].
    exists l. split_and!; try done. intros p c Hp Hc Hcn. unfold child in Hc. exfalso. divlia.
  - assert (0 ≤ num / 2 ≤ num) by divlia.
    assert (num / 2 * size ≤ num * size) by (apply Z.mul_le_mono_nonneg_r; lia). lia.
Qed.

(** The invariant of the second loop, before it extracts node [n - 1]. *)
Definition extracting (l0 : list A) (a : Z) (s : S) : Prop :=
  ∃ n l, a = (Z.of_nat n - 1) * size ∧ holds s l ∧ (n ≤ length l)%nat ∧ l ≡ₚ l0 ∧
    heap le l 0 n ∧ ordered_from le l n.

Lemma extract_correct l0 a s :
  extracting l0 a s →
  ∃ s' l, loop (extract_step cmp_func swap_func size) a s = Done tt s' ∧
    holds s' l ∧ l ≡ₚ l0 ∧ ordered le l.
Proof.
  intros Hs. pose proof sort_size.
  destruct (loop_total (extract_step cmp_func swap_func size) (extracting l0)
    (λ _ s, ∃ l, holds s l ∧ l ≡ₚ l0 ∧ ordered le l) (λ a _, a + size))
    with (a := a) (s := s) as ([] & s' & ? & l & ?); [|done| |by exists s', l].
  - clear a s Hs. intros a s (n & l & -> & Hl & Hn & Hp & Hh & Ho).
    unfold loop_step_ok, extract_step.
    destruct (Z.ltb_spec 0 ((Z.of_nat n - 1) * size)).
    + assert (2 ≤ n)%nat by nia. replace ((Z.of_nat n - 1) * size) with (ofs (n - 1)) by lia.
      rewrite (bind_done _ _ s tt (swap_func 0 (ofs (n - 1)) s)) by done. cbv beta.
      pose proof (swap_spec s l 0 (n - 1) Hl ltac:(lia) ltac:(lia) ltac:(lia)) as Hl'.
      change (ofs 0) with 0 in Hl'. destruct (heap_root le l n (n - 1) Hh) as [Hh' Hb']; [lia..|].
      pose proof (ordered_from_root le l n (n - 1) Hh ltac:(lia) Hn Ho) as Ho'.
      destruct (sift_correct (swapped 0 (n - 1) l) 0 (n - 1) 0 (swap_func 0 (ofs (n - 1)) s))
        as (s2 & Hr & l2 & Hl2 & Hp2 & Hd2 & Hh2).
      { exists 0%nat, (swapped 0 (n - 1) l). rewrite swapped_length. split_and!; (done || lia). }
      rewrite (bind_done _ _ _ _ _ Hr). cbv beta. unfold mret, M_ret.
      pose proof (ofs_bound l s n Hl Hn). rewrite s32_small by nia. split; [|nia].
      exists (n - 1)%nat, l2. rewrite (Permutation_length Hp2), swapped_length.
      split_and!; try (done || lia). 
      * by rewrite Hp2, swapped_perm.
      * by eapply ordered_from_perm.
    + assert (n ≤ 1)%nat by nia. exists l. split_and!; try done.
      intros i j x y Hij. apply Ho; lia.
  - destruct Hs as (n & l & -> & Hl & Hn & _). pose proof (ofs_bound l s n Hl Hn). nia.
Qed.

(** [sort] returns with the array permuted into the order of [cmp_func], whatever the
    array is and wherever it is kept. *)
Lemma sort_sorts (s : S) (l : list A) :
  holds s l →
  ∃ s' l', sort cmp_func swap_func size num s = Done tt s' ∧
    holds s' l' ∧ l' ≡ₚ l ∧ ordered le l'.
Proof.
  intros Hl. pose proof sort_size. pose proof sort_num. pose proof (holds_length _ _ Hl) as Hlen.
  assert (0 ≤ num / 2 ≤ num) by divlia.
  assert (num / 2 * size ≤ num * size) by (apply Z.mul_le_mono_nonneg_r; lia).
  assert (0 ≤ num / 2 * size) by nia.
  unfold sort. rewrite !s32_u64, (s32_small ((num / 2 - 1) * size)), (s32_small (num * size)) by lia.
  rewrite s32_small by lia. replace (num * size) with (ofs (length l)) by lia.
  destruct (heapify_correct l s _ Hl eq_refl) as (s1 & Hr & l1 & Hl1 & Hp & _ & Hh).
  rewrite (bind_done _ _ _ _ _ Hr).
  destruct (extract_correct l (ofs (length l) - size) s1) as (s2 & l2 & ? & ?); [|by exists s2, l2].
  exists (length l), l1. rewrite (Permutation_length Hp). split_and!; try done; [lia|].
  intros i j x y Hij Hj _ Hy. apply lookup_lt_Some in Hy. rewrite (Permutation_length Hp) in Hy. lia.
Qed.
End correct.

(** ** The array in memory *)

(** [m'] is [m] with the [n] bytes at [a] and at [b] exchanged. *)
Definition exchanged (m m' : bmem) (a b n : Z) : Prop :=
  ∀ x, rd8 m' x = if decide (a ≤ x < a + n) then rd8 m (b + (x - a))
                  else if decide (b ≤ x < b + n) then rd8 m (a + (x - b)) else rd8 m x.

Lemma wr_le_exchanged m a b n :
  a + Z.of_nat n ≤ b ∨ b + Z.of_nat n ≤ a →
  exchanged m (wr_le (wr_le m a n (rd_le m b n)) b n (rd_le m a n)) a b (Z.of_nat n).
Proof.
  intros Hab x. rewrite !rd8_wr_le.
  assert (∀ c, c ≤ x < c + Z.of_nat n → ∀ d, rd_le m d n / 256 ^ (x - c) mod 256 = rd8 m (d + (x - c)))
    as Hbyte.
  { intros c Hc d. pose proof (rd_le_byte m d n (Z.to_nat (x - c)) ltac:(lia)) as H.
    by rewrite Z2Nat.id in H by lia. }
  repeat case_decide; try lia; auto.
Qed.

Lemma generic_swap_exchanged n a b m :
  a + Z.of_nat n ≤ b ∨ b + Z.of_nat n ≤ a →
  exchanged m (generic_swap_loop n a b m) a b (Z.of_nat n).
Proof.
  revert a b m. induction n as [|n IH]; intros a b m Hab x.
  { repeat case_decide; (done || lia). }
  cbn [generic_swap_loop]. rewrite IH by lia. rewrite !rd8_wr8.
  assert (∀ y, u8 (rd8 m y) = rd8 m y) as Hu8 by (intros; apply wrap_small, rd8_bound).
  repeat case_decide; rewrite ?Hu8; try lia; f_equal; lia.
Qed.

Lemma default_swap_exchanged base size a b m :
  0 < size → a + size ≤ b ∨ b + size ≤ a →
  exchanged m (default_swap base size a b m) (base + a) (base + b) size.
Proof.
  intros Hs Hab. unfold default_swap. repeat case_match.
  - apply andb_prop in H as [->%Z.eqb_eq _]. apply (wr_le_exchanged m _ _ 4). lia.
  - apply andb_prop in H0 as [->%Z.eqb_eq _]. apply (wr_le_exchanged m _ _ 8). lia.
  - unfold generic_swap. rewrite Z.max_r by lia.
    pose proof (generic_swap_exchanged (Z.to_nat size) (base + a) (base + b) m) as He.
    rewrite Z2Nat.id in He by lia. apply He. lia.
Qed.

Section memory.
Context (base size num : Z) (m0 : bmem).

Definition element (m : bmem) (i : Z) : list Z := rd_bytes m (base + i * size) (Z.to_nat size).
Definition elements (m : bmem) : list (list Z) := element m <$> seqZ 0 num.

(** The memory holds the array [l], and is [m0] outside the array. *)
Definition memory_array (m : bmem) (l : list (list Z)) : Prop :=
  l = elements m ∧ ∀ x, x < base ∨ base + num * size ≤ x → rd8 m x = rd8 m0 x.

Lemma elements_length m : length (elements m) = Z.to_nat num.
Proof. unfold elements. by rewrite length_fmap, length_seqZ. Qed.

Lemma elements_lookup m (i : nat) x :
  elements m !! i = Some x ↔ Z.of_nat i < num ∧ x = element m (Z.of_nat i).
Proof.
  unfold elements. rewrite list_lookup_fmap_Some. split.
  - intros (z & -> & Hz). apply lookup_seqZ in Hz as [-> ?]. split; [lia|done].
  - intros [Hi ->]. exists (Z.of_nat i). split; [done|]. apply lookup_seqZ. lia.
Qed.

Lemma slot_below i j : 0 < size → i < j → i * size + size ≤ j * size.
Proof. intros. transitivity ((i + 1) * size); [lia|]. apply Z.mul_le_mono_nonneg_r; lia. Qed.

Lemma slots_disjoint i j : 0 < size → i ≠ j → i * size + size ≤ j * size ∨ j * size + size ≤ i * size.
Proof. intros. destruct (Z.lt_total i j) as [|[|]]; [left|done|right]; by apply slot_below. Qed.

Lemma element_swap m i j k :
  0 < size → 0 ≤ i → 0 ≤ j → 0 ≤ k → i ≠ j →
  element (default_swap base size (i * size) (j * size) m) k =
    if decide (k = i) then element m j else if decide (k = j) then element m i else element m k.
Proof.
  intros Hs Hi Hj Hk Hij.
  pose proof (default_swap_exchanged base size _ _ m Hs (slots_disjoint i j Hs Hij)) as Hx.
  unfold element. repeat case_decide; subst; apply rd_bytes_ext; intros d Hd;
    rewrite Z2Nat.id in Hd by lia; rewrite Hx.
  - rewrite decide_True by lia. f_equal. lia.
  - destruct (slots_disjoint i j Hs Hij); (rewrite decide_False, decide_True by lia; f_equal; lia).
  - pose proof (slots_disjoint k i Hs ltac:(done)). pose proof (slots_disjoint k j Hs ltac:(done)).
    by rewrite !decide_False by lia.
Qed.

#[global] Instance memory_sort_ops (f : list Z → list Z → Z) (le : relation (list Z)) :
  0 < size < 2 ^ 30 → 0 ≤ num ∧ num * size < 2 ^ 30 → PreOrder le →
  (∀ x y, if f x y <? 0 then le x y else le y x) →
  SortOps (λ a b m, f (rd_bytes m (base + a) (Z.to_nat size)) (rd_bytes m (base + b) (Z.to_nat size)))
    (default_swap base size) size num memory_array le.
Proof.
  intros Hs Hn Hle Hf. split; try done.
  - intros m l [-> _]. rewrite elements_length. lia.
  - intros m l i j x y [-> _] [_ ->]%elements_lookup [_ ->]%elements_lookup. apply Hf.
  - intros m l i j [-> Hm]. rewrite !elements_length. intros Hi Hj Hij. split.
    + apply list_eq. intros k. apply option_eq. intros x.
      rewrite swapped_lookup, elements_lookup, element_swap by (rewrite ?elements_length; lia).
      repeat case_decide; try lia; rewrite elements_lookup; naive_solver lia.
    + intros x Hx. rewrite <- Hm by done. pose proof (slot_below (Z.of_nat i) num). pose proof (slot_below (Z.of_nat j) num).
      rewrite default_swap_exchanged; [|lia|apply slots_disjoint; lia].
      rewrite !decide_False by nia. done.
Qed.
End memory.

(** C22: [sort] with the swap function it picks itself: it returns, the array is a
    permutation of what it was, in the order of the comparison, and no byte outside the
    array has changed. *)
Theorem sort_memory_correct (f : list Z → list Z → Z) (le : relation (list Z)) base size num m :
  PreOrder le → (∀ x y, if f x y <? 0 then le x y else le y x) →
  0 < size < 2 ^ 30 → 0 ≤ num ∧ num * size < 2 ^ 30 →
  ∃ m',
    sort (λ a b m, f (rd_bytes m (base + a) (Z.to_nat size)) (rd_bytes m (base + b) (Z.to_nat size)))
      (default_swap base size) size num m = Done tt m' ∧
    elements base size num m' ≡ₚ elements base size num m ∧
    ordered le (elements base size num m') ∧
    ∀ x, x < base ∨ base + num * size ≤ x → rd8 m' x = rd8 m x.
Proof.
  intros Hle Hf Hs Hn. pose proof (memory_sort_ops base size num m f le Hs Hn Hle Hf) as Hops.
  destruct (sort_sorts m (elements base size num m)) as (m' & l' & Hr & [-> Hout] & Hp & Ho);
    [by split|]. by exists m'.
Qed.

(** An array of four 32-bit integers at an aligned address, in ascending order. *)
Definition le_ints (x y : list Z) : Prop := le_combine x ≤ le_combine y.

Lemma sort_memory_correct_witness :
  ∃ m', elements 16 4 4 m' = [[1;0;0;0]; [2;0;0;0]; [0;1;0;0]; [3;1;0;0]] ∧
    ordered le_ints (elements 16 4 4 m').
Proof.
  set (m := wr_bytes ∅ 16 [3;1;0;0; 2;0;0;0; 0;1;0;0; 1;0;0;0]).
  set (f := λ x y, le_combine x - le_combine y).
  destruct (sort_memory_correct f le_ints 16 4 4 m) as (m' & Hr & Hp & Ho & Hout).
  - unfold le_ints. split; intros ?; [lia|]. intros ? ?. lia.
  - intros x y. unfold f, le_ints. destruct (Z.ltb_spec (le_combine x - le_combine y) 0); lia.
  - lia.
  - lia.
  - exists m'. split; [|exact Ho].
    vm_compute in Hr. injection Hr as <-. vm_compute. reflexivity.
Defined.

(** ** An array of pointers

    The array of 8-byte elements that file E820 sorts, as a list. *)

Definition list_swap {A} (a b : Z) (l : list A) : list A :=
  swapped (Z.to_nat (a / 8)) (Z.to_nat (b / 8)) l.
