(* ===== verification/CString.v ===== *)
(** Memory areas and C strings: [lib/string.c] and the word-at-a-time tests of
    [include/asm/word-at-a-time.h].

    A routine takes the memory and addresses; one that writes returns the memory.
    The loops on a count are structural on the count; the loops that look for a NUL run
    on fuel and answer [None] when it runs out, and the theorems give the fuel that
    is enough (one more than the length). *)

From S2P Require Import Prelude Mem.
#[local] Open Scope Z_scope.
#[local] Open Scope cint_scope.

Definition E2BIG : Z := 7.

(** ** [mem*] *)

(** The loop of [memcmp]: [res] is the last difference. *)
Fixpoint memcmp_loop (n : nat) (m : bmem) (su1 su2 : Z) : Z :=
  match n with
  | O => 0
  | S n =>
      let res := rd8 m su1 - rd8 m su2 in
      if negb (res =? 0) then res else memcmp_loop n m (su1 + 1) (su2 + 1)
  end.

Definition memcmp (m : bmem) (cs ct count : Z) : Z := memcmp_loop (Z.to_nat count) m cs ct.

(** [while (count--) *tmp++ = *s++] *)
Fixpoint copy_up (n : nat) (m : bmem) (tmp s : Z) : bmem :=
  match n with
  | O => m
  | S n => copy_up n (wr8 m tmp (rd8 m s)) (tmp + 1) (s + 1)
  end.

(** [while (count--) *--tmp = *--s] *)
Fixpoint copy_down (n : nat) (m : bmem) (tmp s : Z) : bmem :=
  match n with
  | O => m
  | S n => copy_down n (wr8 m (tmp - 1) (rd8 m (s - 1))) (tmp - 1) (s - 1)
  end.

Definition memcpy (m : bmem) (dest src count : Z) : bmem :=
  copy_up (Z.to_nat count) m dest src.

Definition memmove (m : bmem) (dest src count : Z) : bmem :=
  if dest <=? src then copy_up (Z.to_nat count) m dest src
  else copy_down (Z.to_nat count) m (dest + count) (src + count).

Fixpoint memset_loop (n : nat) (m : bmem) (xs c : Z) : bmem :=
  match n with O => m | S n => memset_loop n (wr8 m xs c) (xs + 1) c end.

Definition memset (m : bmem) (s c count : Z) : bmem := memset_loop (Z.to_nat count) m s c.

Definition memzero_explicit (m : bmem) (s count : Z) : bmem := memset m s 0 count.

(** [rep stosq] *)
Fixpoint stosq (n : nat) (m : bmem) (s v : Z) : bmem :=
  match n with O => m | S n => stosq n (wr64 m s v) (s + 8) v end.

Definition memset64 (m : bmem) (s v n : Z) : bmem := stosq (Z.to_nat n) m s v.

Fixpoint memfind64_loop (fuel : nat) (m : bmem) (s v i n : Z) : Z :=
  match fuel with
  | O => i
  | S fuel => if i <? n then
                if rd64 m (s + 8 * i) =? v then i else memfind64_loop fuel m s v (i + 1) n
              else i
  end.

Definition memfind64 (m : bmem) (s v n : Z) : Z := memfind64_loop (Z.to_nat n) m s v 0 n.

(** ** [str*] *)

(** The address, or the null pointer. *)
Fixpoint strchr (fuel : nat) (m : bmem) (s c : Z) : option (option Z) :=
  match fuel with
  | O => None
  | S fuel =>
      if rd8 m s =? u8 c then Some (Some s)
      else if rd8 m s =? 0 then Some None
      else strchr fuel m (s + 1) c
  end.

Fixpoint strcmp (fuel : nat) (m : bmem) (cs ct : Z) : option Z :=
  match fuel with
  | O => None
  | S fuel =>
      let c1 := rd8 m cs in
      let c2 := rd8 m ct in
      if negb (c1 =? c2) then Some (if c1 <? c2 then -1 else 1)
      else if c1 =? 0 then Some 0
      else strcmp fuel m (cs + 1) (ct + 1)
  end.

Fixpoint strncmp_loop (count : nat) (m : bmem) (cs ct : Z) : Z :=
  match count with
  | O => 0
  | S count =>
      let c1 := rd8 m cs in
      let c2 := rd8 m ct in
      if negb (c1 =? c2) then (if c1 <? c2 then -1 else 1)
      else if c1 =? 0 then 0
      else strncmp_loop count m (cs + 1) (ct + 1)
  end.

Definition strncmp (m : bmem) (cs ct count : Z) : Z := strncmp_loop (Z.to_nat count) m cs ct.

Fixpoint strlen_loop (fuel : nat) (m : bmem) (s sc : Z) : option Z :=
  match fuel with
  | O => None
  | S fuel => if rd8 m sc =? 0 then Some (sc - s) else strlen_loop fuel m s (sc + 1)
  end.

Definition strlen (fuel : nat) (m : bmem) (s : Z) : option Z := strlen_loop fuel m s s.

Fixpoint strnlen_loop (count : nat) (m : bmem) (s sc : Z) : Z :=
  match count with
  | O => sc - s
  | S count => if rd8 m sc =? 0 then sc - s else strnlen_loop count m s (sc + 1)
  end.

Definition strnlen (m : bmem) (s count : Z) : Z := strnlen_loop (Z.to_nat count) m s s.

Fixpoint strrchr_loop (fuel : nat) (m : bmem) (s c : Z) (last : option Z) : option (option Z) :=
  match fuel with
  | O => None
  | S fuel =>
      let last := if rd8 m s =? u8 c then Some s else last in
      if rd8 m s =? 0 then Some last else strrchr_loop fuel m (s + 1) c last
  end.

Definition strrchr (fuel : nat) (m : bmem) (s c : Z) : option (option Z) :=
  strrchr_loop fuel m s c None.

Fixpoint strstr_loop (fuel : nat) (m : bmem) (s1 s2 l1 l2 : Z) : option Z :=
  match fuel with
  | O => None
  | S fuel =>
      if l2 <=? l1 then
        if memcmp m s1 s2 l2 =? 0 then Some s1
        else strstr_loop fuel m (s1 + 1) s2 (l1 - 1) l2
      else None
  end.

(** [None]: out of fuel; the loop itself runs at most [l1 + 1] times. *)
Definition strstr (fuel : nat) (m : bmem) (s1 s2 : Z) : option (option Z) :=
  l2 ← strlen fuel m s2;
  if l2 =? 0 then Some (Some s1)
  else
    l1 ← strlen fuel m s1;
    Some (strstr_loop (S (Z.to_nat l1)) m s1 s2 l1 l2).

(** ** Word at a time *)

Definition REPEAT_BYTE (x : Z) : Z := u64 (((2 ^ 64 - 1) / 0xff) * x).
Definition one_bits : Z := REPEAT_BYTE 0x01.
Definition high_bits : Z := REPEAT_BYTE 0x80.

Definition count_masked_bytes (mask : Z) : Z := u64 (mask * 0x0001020304050608) >>> 56.

Definition has_zero (a : Z) : Z := (u64 (a - one_bits) &&& not64 a) &&& high_bits.
Definition prep_zero_mask (a bits : Z) : Z := bits.
Definition create_zero_mask (bits : Z) : Z := (u64 (bits - 1) &&& not64 bits) >>> 7.
Definition zero_bytemask (mask : Z) : Z := mask.
Definition find_zero (mask : Z) : Z := count_masked_bytes mask.

(** The loop of [strscpy] on words; [inr]: the string ended inside. *)
Fixpoint strscpy_words (fuel : nat) (m : bmem) (dest src count max res : Z)
    : bmem * Z * Z + bmem * Z :=
  match fuel with
  | O => inl (m, count, res)
  | S fuel =>
      if 8 <=? max then
        let c := rd64 m (src + res) in
        let data := has_zero c in
        if truthy data then
          let data := prep_zero_mask c data in
          let data := create_zero_mask data in
          inr (wr64 m (dest + res) (c &&& zero_bytemask data), res + find_zero data)
        else
          strscpy_words fuel (wr64 m (dest + res) c) dest src (count - 8) (max - 8) (res + 8)
      else inl (m, count, res)
  end.

(** The loop of [strscpy] on bytes. *)
Fixpoint strscpy_bytes (count : nat) (m : bmem) (dest src res : Z) : bmem * Z :=
  match count with
  | O => (if truthy res then wr8 m (dest + res - 1) 0 else m, - E2BIG)
  | S count =>
      let c := rd8 m (src + res) in
      let m := wr8 m (dest + res) c in
      if c =? 0 then (m, res) else strscpy_bytes count m dest src (res + 1)
  end.

Definition strscpy (m : bmem) (dest src count : Z) : bmem * Z :=
  if count =? 0 then (m, - E2BIG)
  else
    let max := if truthy ((dest ||| src) &&& 7) then 0 else count in
    match strscpy_words (Z.to_nat (count / 8)) m dest src count max 0 with
    | inr r => r
    | inl (m, count, res) => strscpy_bytes (Z.to_nat count) m dest src res
    end.

(** ** Words *)

(** Byte [i] of an integer, possibly negative. *)
Definition byte_of (x i : Z) : Z := x / 256 ^ i mod 256.

Lemma pow256 i : 0 ≤ i → 256 ^ i = 2 ^ (8 * i).
Proof. intros. by rewrite Z.pow_mul_r by lia. Qed.

Lemma byte_of_bound x i : 0 ≤ byte_of x i < 256.
Proof. apply Z.mod_pos_bound. lia. Qed.

(** The top bit of a byte. *)
Lemma testbit_byte x i : 0 ≤ i → Z.testbit x (8 * i + 7) = (128 <=? byte_of x i).
Proof.
  intros Hi. unfold byte_of. rewrite pow256 by done.
  rewrite <- Z.shiftr_div_pow2 by lia. rewrite Z.add_comm, <- Z.shiftr_spec by lia.
  set (y := x ≫ (8 * i)). rewrite <- (Z.mod_pow2_bits_low y 8) by lia. change (2 ^ 8) with 256.
  rewrite Z.testbit_eqb by lia. change (2 ^ 7) with 128.
  assert (0 ≤ y mod 256 < 256) by (apply Z.mod_pos_bound; lia).
  destruct (Z.leb_spec 128 (y mod 256)), (Z.eqb_spec (y mod 256 / 128 mod 2) 1); done || divlia.
Qed.

Lemma sub_div a b n : 0 < n → b mod n ≤ a mod n → (a - b) / n = a / n - b / n.
Proof.
  intros Hn Hle. pose proof (Z.mod_pos_bound a n Hn). pose proof (Z.mod_pos_bound b n Hn).
  symmetry. apply (Z.div_unique _ _ _ (a mod n - b mod n)); [lia|].
  pose proof (Z.div_mod a n ltac:(lia)). pose proof (Z.div_mod b n ltac:(lia)). lia.
Qed.

Lemma one_bits_byte i : 0 ≤ i < 8 → byte_of one_bits i = 1.
Proof.
  intros Hi. assert (forallb (λ i, byte_of one_bits i =? 1) (seqZ 0 8) = true) as H
    by (vm_compute; reflexivity).
  apply Z.eqb_eq, (forallb_seqZ _ _ _ i H). lia.
Qed.

Lemma testbit_high_bits j : 0 ≤ j < 64 → Z.testbit high_bits j = (j mod 8 =? 7).
Proof.
  intros Hj. assert (forallb (λ j, eqb (Z.testbit high_bits j) (j mod 8 =? 7)) (seqZ 0 64) = true)
    as H by (vm_compute; reflexivity).
  apply eqb_prop, (forallb_seqZ _ _ _ j H). lia.
Qed.

Lemma mod256_succ x i :
  0 ≤ i → x mod 256 ^ (i + 1) = x mod 256 ^ i + 256 ^ i * byte_of x i.
Proof. intros. rewrite Z.add_1_r, Z.pow_succ_r, Z.mul_comm, Z.rem_mul_r by lia. done. Qed.

(** No borrow reaches byte [k] when the bytes below it are not zero. *)
Lemma no_borrow c (k : nat) :
  (k ≤ 8)%nat → (∀ j, 0 ≤ j < Z.of_nat k → byte_of c j ≠ 0) →
  one_bits mod 256 ^ Z.of_nat k ≤ c mod 256 ^ Z.of_nat k.
Proof.
  induction k as [|k IH]; intros Hk Hnz; [by rewrite !Z.mod_1_r|].
  rewrite Nat2Z.inj_succ, <- Z.add_1_r, !mod256_succ, one_bits_byte by lia.
  specialize (IH ltac:(lia)). assert (1 ≤ byte_of c (Z.of_nat k)) as Hb.
  { pose proof (byte_of_bound c (Z.of_nat k)). specialize (Hnz (Z.of_nat k) ltac:(lia)). lia. }
  assert (0 < 256 ^ Z.of_nat k) by (apply Z.pow_pos_nonneg; lia).
  assert (256 ^ Z.of_nat k * 1 ≤ 256 ^ Z.of_nat k * byte_of c (Z.of_nat k))
    by (apply Z.mul_le_mono_nonneg_l; lia).
  enough (one_bits mod 256 ^ Z.of_nat k ≤ c mod 256 ^ Z.of_nat k) by lia.
  apply IH. intros j Hj. apply Hnz. lia.
Qed.

Lemma diff_byte c i :
  0 ≤ i < 8 → (∀ j, 0 ≤ j < i → byte_of c j ≠ 0) →
  byte_of (c - one_bits) i = (byte_of c i - 1) mod 256.
Proof.
  intros Hi Hnz. unfold byte_of at 1. rewrite sub_div.
  - rewrite Zminus_mod. fold (byte_of c i). fold (byte_of one_bits i).
    by rewrite one_bits_byte by done.
  - apply Z.pow_pos_nonneg; lia.
  - rewrite <- (Z2Nat.id i) by lia. apply no_borrow; [lia|]. by rewrite Z2Nat.id by lia.
Qed.

(** The marker of [has_zero] at byte [i] is exact as long as no byte below is zero. *)
Lemma has_zero_bit c j :
  0 ≤ j < 64 → (∀ i, 0 ≤ i < j / 8 → byte_of c i ≠ 0) →
  Z.testbit (has_zero c) j = (j mod 8 =? 7) && (byte_of c (j / 8) =? 0).
Proof.
  intros Hj Hnz. unfold has_zero. autorewrite with bits. rewrite testbit_high_bits by done.
  destruct (Z.eqb_spec (j mod 8) 7) as [H7|]; [|by rewrite andb_false_r].
  assert (j = 8 * (j / 8) + 7) as Hj8 by divlia. set (i := j / 8) in *.
  rewrite Hj8, !testbit_byte, diff_byte by (lia || done). rewrite <- Hj8.
  pose proof (byte_of_bound c i) as Hb.
  replace (0 <=? j) with true by lia. replace (j <? 64) with true by lia. rewrite !andb_true_r.
  destruct (Z.eqb_spec (byte_of c i) 0) as [->|]; [done|].
  rewrite Z.mod_small by lia.
  destruct (Z.leb_spec 128 (byte_of c i - 1)), (Z.leb_spec 128 (byte_of c i)); done || lia.
Qed.

Lemma has_zero_bound c : 0 ≤ has_zero c < 2 ^ 64.
Proof. by apply land_bound_r. Qed.

Lemma has_zero_none c :
  (∀ i, 0 ≤ i < 8 → byte_of c i ≠ 0) → has_zero c = 0.
Proof.
  intros Hnz. apply Z.bits_inj_0. intros j.
  destruct (decide (0 ≤ j < 64)) as [Hj|Hj].
  - rewrite has_zero_bit by (done || (intros; apply Hnz; divlia)).
    destruct (Z.eqb_spec (byte_of c (j / 8)) 0) as [E|]; [|by rewrite andb_false_r].
    exfalso. revert E. apply Hnz. divlia.
  - destruct (decide (j < 0)); [by apply Z.testbit_neg_r|].
    apply (testbit_high 64); [apply has_zero_bound|lia].
Qed.

Lemma lowest_bit_mask bits p :
  0 ≤ p < 64 → 0 ≤ bits < 2 ^ 64 → Z.testbit bits p = true →
  (∀ j, 0 ≤ j < p → Z.testbit bits j = false) →
  u64 (bits - 1) &&& not64 bits = 2 ^ p - 1.
Proof.
  intros Hp Hb Ht Hf. set (h := bits / 2 ^ (p + 1)).
  assert (0 < 2 ^ p) by (apply Z.pow_pos_nonneg; lia).
  assert (2 ^ (p + 1) = 2 * 2 ^ p) as Hpow by (rewrite Z.pow_add_r by lia; lia).
  assert (bits mod 2 ^ (p + 1) = 2 ^ p) as Hlow.
  { apply Z.bits_inj'. intros i Hi. destruct (decide (i < p + 1)).
    - rewrite Z.mod_pow2_bits_low by lia. destruct (decide (i = p)) as [->|].
      + by rewrite Ht, Z.pow2_bits_true.
      + rewrite Hf, Z.pow2_bits_false by lia. done.
    - rewrite Z.mod_pow2_bits_high, Z.pow2_bits_false by lia. done. }
  assert (bits = 2 ^ (p + 1) * h + 2 ^ p) as Hbits.
  { unfold h. pose proof (Z.div_mod bits (2 ^ (p + 1)) ltac:(lia)). lia. }
  assert (0 ≤ h) by (apply Z.div_pos; lia).
  assert (bits - 1 = 2 ^ (p + 1) * h ||| (2 ^ p - 1)) as Hm1.
  { rewrite (lor_low (p + 1)); [lia|lia| |lia]. by rewrite Z.mul_comm, Z.mod_mul by lia. }
  assert (bits = 2 ^ (p + 1) * h ||| 2 ^ p) as Hbo.
  { rewrite (lor_low (p + 1)); [lia|lia| |lia]. by rewrite Z.mul_comm, Z.mod_mul by lia. }
  replace (2 ^ p - 1) with (Z.ones p) in * by (rewrite Z.ones_equiv; lia).
  rewrite wrap_small by lia. bitwise i. rewrite Hm1, Hbo at 1. autorewrite with bits.
  rewrite Z.testbit_ones_nonneg by lia. rewrite (Z.mul_comm _ h), Z.mul_pow2_bits by lia.
  destruct (Z.ltb_spec i p).
  - rewrite Z.pow2_bits_false by lia. rewrite Z.testbit_neg_r by lia.
    destruct (Z.leb_spec 0 i), (Z.ltb_spec i 64); lia || done.
  - rewrite orb_false_r, negb_orb. by destruct (Z.testbit h (i - (p + 1))).
Qed.

Lemma has_zero_first c k :
  0 ≤ k < 8 → (∀ i, 0 ≤ i < k → byte_of c i ≠ 0) → byte_of c k = 0 →
  truthy (has_zero c) = true ∧ create_zero_mask (has_zero c) = 2 ^ (8 * k) - 1.
Proof.
  intros Hk Hnz Hz.
  assert (Z.testbit (has_zero c) (8 * k + 7) = true) as Ht.
  { rewrite has_zero_bit; [|lia|intros; apply Hnz; divlia].
    replace ((8 * k + 7) / 8) with k by divlia. rewrite Hz.
    by replace ((8 * k + 7) mod 8) with 7 by divlia. }
  split.
  - unfold truthy. destruct (Z.eqb_spec (has_zero c) 0) as [E|]; [|done].
    by rewrite E, Z.testbit_0_l in Ht.
  - unfold create_zero_mask. rewrite (lowest_bit_mask _ (8 * k + 7)).
    + rewrite Z.shiftr_div_pow2, Z.pow_add_r by lia. divlia.
    + lia.
    + apply has_zero_bound.
    + done.
    + intros j Hj. rewrite has_zero_bit; [|lia|intros; apply Hnz; divlia].
      destruct (Z.eqb_spec (j mod 8) 7); [|done].
      destruct (Z.eqb_spec (byte_of c (j / 8)) 0) as [E|]; [|done].
      exfalso. revert E. apply Hnz. divlia.
Qed.

Lemma find_zero_ones k : 0 ≤ k < 8 → find_zero (2 ^ (8 * k) - 1) = k.
Proof.
  intros Hk. assert (forallb (λ k, find_zero (2 ^ (8 * k) - 1) =? k) (seqZ 0 8) = true) as H
    by (vm_compute; reflexivity).
  apply Z.eqb_eq, (forallb_seqZ _ _ _ k H). lia.
Qed.

(** ** Strings *)

(** The NUL-terminated string at [a] has length [n]. *)
Definition cstr (m : bmem) (a n : Z) : Prop :=
  0 ≤ n ∧ (∀ i, 0 ≤ i < n → rd8 m (a + i) ≠ 0) ∧ rd8 m (a + n) = 0.

Lemma cstr_unique m a n n' : cstr m a n → cstr m a n' → n = n'.
Proof.
  intros (H1 & H2 & H3) (H1' & H2' & H3').
  destruct (Z.lt_trichotomy n n') as [?|[?|?]]; [|done|].
  - by destruct (H2' n ltac:(lia)).
  - by destruct (H2 n' ltac:(lia)).
Qed.

(** The bytes at [a] in [m'] are those at [b] in [m], for [n] bytes. *)
Definition same_bytes (m' : bmem) (a : Z) (m : bmem) (b n : Z) : Prop :=
  ∀ i, 0 ≤ i < n → rd8 m' (a + i) = rd8 m (b + i).

Lemma rd_bytes_same m m' a b n : rd_bytes m a n = rd_bytes m' b n ↔ same_bytes m a m' b (Z.of_nat n).
Proof.
  split; [|apply rd_bytes_ext]. intros Hr i Hi.
  pose proof (rd_bytes_lookup m a n (Z.to_nat i) ltac:(lia)) as H1.
  rewrite Hr, rd_bytes_lookup, Z2Nat.id in H1 by lia. by injection H1.
Qed.

Definition unchanged_outside (m m' : bmem) (a n : Z) : Prop :=
  ∀ b, b < a ∨ a + n ≤ b → rd8 m' b = rd8 m b.

Lemma unchanged_outside_trans m1 m2 m3 a n :
  unchanged_outside m1 m2 a n → unchanged_outside m2 m3 a n → unchanged_outside m1 m3 a n.
Proof. intros H12 H23 b Hb. by rewrite H23, H12. Qed.

(** What [strscpy] promises, for source and destination that do not overlap. *)
Definition strscpy_post (m : bmem) (dest src count : Z) (r : bmem * Z) : Prop :=
  unchanged_outside m r.1 dest count ∧
  ((∃ n, n < count ∧ cstr m src n ∧ r.2 = n ∧ same_bytes r.1 dest m src (n + 1)) ∨
   ((∀ i, 0 ≤ i < count → rd8 m (src + i) ≠ 0) ∧ r.2 = - E2BIG ∧
    same_bytes r.1 dest m src (count - 1) ∧ (0 < count → rd8 r.1 (dest + count - 1) = 0))).

Section strscpy.
Context (m : bmem) (dest src count : Z).
Context (Hc : 0 < count) (Hdisj : dest + count ≤ src ∨ src + count ≤ dest).

(** [res] bytes, none of them NUL, have been copied. *)
Definition copying (m' : bmem) (res : Z) : Prop :=
  0 ≤ res ≤ count ∧ unchanged_outside m m' dest count ∧ same_bytes m' dest m src res ∧
  (∀ i, 0 ≤ i < res → rd8 m (src + i) ≠ 0).

Lemma copying_src m' res i : copying m' res → 0 ≤ i < count → rd8 m' (src + i) = rd8 m (src + i).
Proof. intros (? & Hu & _ & _) Hi. apply Hu. lia. Qed.

Lemma strscpy_bytes_post k m' res :
  copying m' res → count - res = Z.of_nat k →
  strscpy_post m dest src count (strscpy_bytes k m' dest src res).
Proof.
  revert m' res. induction k as [|k IH]; intros m' res Hcp Hk; cbn [strscpy_bytes].
  - destruct Hcp as (Hr & Hu & Hs & Hnz). assert (res = count) as -> by lia.
    unfold truthy. destruct (Z.eqb_spec count 0); [lia|]. cbn [negb fst snd].
    split; cbn [fst snd].
    + intros b Hb. rewrite rd8_wr8_ne by lia. by apply Hu.
    + right. split; [done|]. split; [done|]. split.
      * intros i Hi. rewrite rd8_wr8_ne by lia. apply Hs. lia.
      * intros _. by rewrite rd8_wr8_eq.
  - assert (0 ≤ res) by (destruct Hcp; lia). rewrite (copying_src m' res) by (done || lia).
    assert (u8 (rd8 m (src + res)) = rd8 m (src + res)) as Hw
      by (apply wrap_small, rd8_bound).
    destruct Hcp as (Hr & Hu & Hs & Hnz).
    assert (unchanged_outside m (wr8 m' (dest + res) (rd8 m (src + res))) dest count) as Hu'.
    { intros b Hb. rewrite rd8_wr8_ne by lia. by apply Hu. }
    assert (same_bytes (wr8 m' (dest + res) (rd8 m (src + res))) dest m src (res + 1)) as Hs'.
    { intros i Hi. rewrite rd8_wr8. case_decide; [rewrite Hw; f_equal; lia|]. apply Hs. lia. }
    destruct (Z.eqb_spec (rd8 m (src + res)) 0) as [Hz|Hz].
    + split; [done|]. left. exists res. split; [lia|]. split; [|done]. by split; [lia|].
    + apply IH; [|lia]. split_and!; [lia|lia|done|done|].
      intros i Hi. destruct (decide (i = res)) as [->|]; [done|]. apply Hnz. lia.
Qed.

(** A whole word is copied, or cut after its first NUL. *)
Lemma word_byte m' res i :
  0 ≤ i < 8 → byte_of (rd64 m' (src + res)) i = rd8 m' (src + res + i).
Proof.
  intros Hi. unfold byte_of, rd64. rewrite <- (Z2Nat.id i) by lia. apply rd_le_byte. lia.
Qed.

Lemma first_nul w : (∀ i, 0 ≤ i < 8 → byte_of w i ≠ 0) ∨
  ∃ k, 0 ≤ k < 8 ∧ byte_of w k = 0 ∧ ∀ i, 0 ≤ i < k → byte_of w i ≠ 0.
Proof.
  assert (∀ n : nat, (∀ i, 0 ≤ i < Z.of_nat n → byte_of w i ≠ 0) ∨
    ∃ k, 0 ≤ k < Z.of_nat n ∧ byte_of w k = 0 ∧ ∀ i, 0 ≤ i < k → byte_of w i ≠ 0) as H.
  { induction n as [|n IH]; [left; lia|]. destruct IH as [IH|(k & ? & ? & ?)].
    - destruct (decide (byte_of w (Z.of_nat n) = 0)) as [E|E].
      + right. exists (Z.of_nat n). split_and!; [lia|lia|done|done].
      + left. intros i Hi. destruct (decide (i = Z.of_nat n)) as [->|]; [done|]. apply IH. lia.
    - right. exists k. split_and!; [lia|lia|done|done]. }
  apply (H 8%nat).
Qed.

Lemma strscpy_words_post fuel m' res cnt max :
  copying m' res → cnt = count - res → 0 ≤ max ≤ cnt →
  match strscpy_words fuel m' dest src cnt max res with
  | inl (m', cnt, res) => copying m' res ∧ cnt = count - res
  | inr r => strscpy_post m dest src count r
  end.
Proof.
  revert m' res cnt max. induction fuel as [|fuel IH]; intros m' res cnt max Hcp -> Hmax;
    cbn [strscpy_words]; [done|].
  destruct (Z.leb_spec 8 max) as [H8|]; [|done].
  set (w := rd64 m' (src + res)).
  assert (∀ i, 0 ≤ i < 8 → byte_of w i = rd8 m (src + res + i)) as Hw.
  { intros i Hi. unfold w. rewrite word_byte by done. rewrite <- Z.add_assoc.
    apply (copying_src m' res); [done|]. destruct Hcp. lia. }
  destruct Hcp as (Hr & Hu & Hs & Hnz).
  destruct (first_nul w) as [Hall|(k & Hk & Hkz & Hkn)].
  - rewrite has_zero_none by done. cbn [truthy negb Z.eqb].
    apply IH; [|lia..]. split_and!; [lia|lia| | |].
    + intros b Hb. unfold wr64. rewrite rd8_wr_le, decide_False by lia. by apply Hu.
    + intros i Hi. unfold wr64. rewrite rd8_wr_le. case_decide.
      * replace (dest + i - (dest + res)) with (i - res) by lia. fold (byte_of w (i - res)).
        rewrite Hw by lia. f_equal. lia.
      * apply Hs. lia.
    + intros i Hi. destruct (decide (i < res)); [apply Hnz; lia|].
      replace (src + i) with (src + res + (i - res)) by lia. rewrite <- Hw by lia. apply Hall. lia.
  - destruct (has_zero_first w k) as [Ht Hmask]; [done..|]. rewrite Ht.
    unfold prep_zero_mask, zero_bytemask. rewrite Hmask, find_zero_ones by done.
    rewrite land_mask by lia. split; cbn [fst snd].
    + intros b Hb. unfold wr64. rewrite rd8_wr_le, decide_False by lia. by apply Hu.
    + left. exists (res + k). split; [lia|]. split; [split; [lia|split]|split; [done|]].
      * intros i Hi. destruct (decide (i < res)); [apply Hnz; lia|].
        replace (src + i) with (src + res + (i - res)) by lia. rewrite <- Hw by lia. apply Hkn. lia.
      * rewrite Z.add_assoc, <- Hw by done. done.
      * intros i Hi. unfold wr64. rewrite rd8_wr_le. case_decide.
        -- replace (dest + i - (dest + res)) with (i - res) by lia.
           replace (src + i) with (src + res + (i - res)) by lia. rewrite <- Hw by lia.
           rewrite <- pow256 by lia. destruct (decide (i - res = k)) as [->|].
           ++ rewrite Hkz, Z.div_small; [done|]. apply Z.mod_pos_bound, Z.pow_pos_nonneg; lia.
           ++ unfold byte_of. replace (256 ^ k) with (256 ^ (i - res) * (256 * 256 ^ (k - (i - res) - 1))).
              2: { rewrite <- Z.pow_succ_r, <- Z.pow_add_r by lia. f_equal. lia. }
              assert (0 < 256 ^ (i - res)) by (apply Z.pow_pos_nonneg; lia).
              assert (0 < 256 ^ (k - (i - res) - 1)) by (apply Z.pow_pos_nonneg; lia).
              rewrite Z.rem_mul_r by lia. rewrite (Z.mul_comm (256 ^ (i - res))), Z.div_add by lia.
              rewrite Z.div_small by (apply Z.mod_pos_bound; lia). rewrite Z.add_0_l.
              rewrite Z.rem_mul_r by lia. rewrite Z.mul_comm, Z.mod_add by lia.
              apply Z.mod_mod. lia.
        -- apply Hs. lia.
Qed.
End strscpy.

Lemma strscpy_spec m dest src count :
  0 ≤ count → dest + count ≤ src ∨ src + count ≤ dest →
  strscpy_post m dest src count (strscpy m dest src count).
Proof.
  intros Hc Hd. unfold strscpy. destruct (Z.eqb_spec count 0) as [->|].
  - split; [done|]. right. cbn [snd fst]. split_and!; [lia|done|intros i; lia|lia].
  - set (max := if truthy _ then 0 else count).
    pose proof (strscpy_words_post m dest src count Hd (Z.to_nat (count / 8)) m 0 count max)
      as Hw. assert (0 ≤ max ≤ count) by (unfold max; destruct (truthy _); lia).
    assert (copying m dest src count m 0) as H0
      by (split_and!; [lia|lia|done|intros i; lia|lia]).
    specialize (Hw H0 ltac:(lia) ltac:(lia)).
    destruct (strscpy_words _ _ _ _ _ _ _) as [[[m' cnt] res]|r]; [|done].
    destruct Hw as [Hcp ->]. apply strscpy_bytes_post; [lia|done|done|].
    destruct Hcp. lia.
Qed.

(** C36: [strscpy] copies the string when it fits (with its NUL, and returns its length),
    and otherwise fills the buffer, ends it with a NUL and returns [-E2BIG]; it never
    writes outside the destination.  This holds of the word-at-a-time path and of the
    byte path alike, whatever the alignment. *)
Theorem strscpy_correct m dest src count :
  0 ≤ count → dest + count ≤ src ∨ src + count ≤ dest →
  strscpy_post m dest src count (strscpy m dest src count).
Proof.
  apply strscpy_spec.
Qed.

Lemma strscpy_correct_witness :
  let m := mem_of 64 [104; 101; 108; 108; 111; 0] in
  strscpy_post m 0 64 16 (strscpy m 0 64 16) ∧ strscpy_post m 1 64 4 (strscpy m 1 64 4).
Proof.
  split; [apply (strscpy_correct _ 0 64 16); lia|apply (strscpy_correct _ 1 64 4); lia].
Defined.

(** ** Copies *)

Lemma copy_up_spec n m tmp s b :
  tmp ≤ s ∨ s + Z.of_nat n ≤ tmp →
  rd8 (copy_up n m tmp s) b =
    if decide (tmp ≤ b < tmp + Z.of_nat n) then rd8 m (s + (b - tmp)) else rd8 m b.
Proof.
  revert m tmp s. induction n as [|n IH]; intros m tmp s Ho; cbn [copy_up].
  - rewrite decide_False by lia. done.
  - rewrite IH by lia. rewrite !rd8_wr8. rewrite (wrap_small 8) by apply rd8_bound.
    repeat case_decide; try lia; try done; f_equal; lia.
Qed.

Lemma copy_down_spec n m tmp s b :
  s ≤ tmp →
  rd8 (copy_down n m tmp s) b =
    if decide (tmp - Z.of_nat n ≤ b < tmp) then rd8 m (s + (b - tmp)) else rd8 m b.
Proof.
  revert m tmp s. induction n as [|n IH]; intros m tmp s Ho; cbn [copy_down].
  - rewrite decide_False by lia. done.
  - rewrite IH by lia. rewrite !rd8_wr8. rewrite (wrap_small 8) by apply rd8_bound.
    repeat case_decide; try lia; try done; f_equal; lia.
Qed.

Lemma memset_loop_spec n m s c b :
  rd8 (memset_loop n m s c) b = if decide (s ≤ b < s + Z.of_nat n) then u8 c else rd8 m b.
Proof.
  revert m s. induction n as [|n IH]; intros m s; cbn [memset_loop].
  - rewrite decide_False by lia. done.
  - rewrite IH, rd8_wr8. repeat case_decide; try lia; done.
Qed.

(** The three routines, byte by byte. *)
Lemma rd8_memmove m d s n b : 0 ≤ n →
  rd8 (memmove m d s n) b = if decide (d ≤ b < d + n) then rd8 m (s + (b - d)) else rd8 m b.
Proof.
  intros Hn. unfold memmove. destruct (Z.leb_spec d s).
  - rewrite copy_up_spec, Z2Nat.id by lia. done.
  - rewrite copy_down_spec, Z2Nat.id by lia. repeat case_decide; try lia; try done; f_equal; lia.
Qed.

Lemma rd8_memcpy m d s n b : 0 ≤ n → d ≤ s ∨ s + n ≤ d →
  rd8 (memcpy m d s n) b = if decide (d ≤ b < d + n) then rd8 m (s + (b - d)) else rd8 m b.
Proof. intros Hn Ho. unfold memcpy. rewrite copy_up_spec, Z2Nat.id by lia. done. Qed.

Lemma rd8_memset m s c n b : 0 ≤ n →
  rd8 (memset m s c n) b = if decide (s ≤ b < s + n) then u8 c else rd8 m b.
Proof. intros Hn. unfold memset. by rewrite memset_loop_spec, Z2Nat.id. Qed.

(** [memmove] leaves at the destination the bytes the source held before the call,
    whether the areas overlap or not, and changes nothing else; [memcpy] does the same
    when the destination does not start inside the source; [memset] fills its area and
    changes nothing else. *)
Theorem memmove_correct m dest src c count :
  0 ≤ count →
  (unchanged_outside m (memmove m dest src count) dest count ∧
   same_bytes (memmove m dest src count) dest m src count) ∧
  (dest ≤ src ∨ src + count ≤ dest →
   unchanged_outside m (memcpy m dest src count) dest count ∧
   same_bytes (memcpy m dest src count) dest m src count) ∧
  unchanged_outside m (memset m src c count) src count ∧
  (∀ i, 0 ≤ i < count → rd8 (memset m src c count) (src + i) = u8 c).
Proof.
  intros Hc. unfold unchanged_outside, same_bytes. split_and!; intros b.
  - intros Hb. rewrite rd8_memmove by lia. by rewrite decide_False by lia.
  - intros Hb. rewrite rd8_memmove, decide_True by lia. f_equal. lia.
  - split; intros i Hi; rewrite rd8_memcpy by lia; case_decide; try lia; f_equal; lia.
  - intros Hb. rewrite rd8_memset by lia. by rewrite decide_False by lia.
  - intros Hb. rewrite rd8_memset by lia. by rewrite decide_True by lia.
Qed.

(** An overlapping move by one byte. *)
Lemma memmove_correct_witness :
  let m := mem_of 64 [1; 2; 3; 4] in
  (unchanged_outside m (memmove m 65 64 3) 65 3 ∧ same_bytes (memmove m 65 64 3) 65 m 64 3) ∧
  (65 ≤ 64 ∨ 64 + 3 ≤ 65 →
   unchanged_outside m (memcpy m 65 64 3) 65 3 ∧ same_bytes (memcpy m 65 64 3) 65 m 64 3) ∧
  unchanged_outside m (memset m 64 7 3) 64 3 ∧
  (∀ i, 0 ≤ i < 3 → rd8 (memset m 64 7 3) (64 + i) = u8 7).
Proof. apply (memmove_correct _ 65 64 7 3). lia. Defined.

(** ** Comparisons *)

(** The string of length [n] at [a]. *)
Definition bytes_at (m : bmem) (a n : Z) : list Z := rd_bytes m a (Z.to_nat n).

(** Lexicographic order on byte strings. *)
Fixpoint lex (s t : list Z) : Z :=
  match s, t with
  | [], [] => 0
  | [], _ => -1
  | _, [] => 1
  | x :: s, y :: t => if x =? y then lex s t else if x <? y then -1 else 1
  end.

Lemma lex_0 s t : lex s t = 0 ↔ s = t.
Proof.
  revert t. induction s as [|x s IH]; intros [|y t]; cbn [lex]; try done.
  destruct (Z.eqb_spec x y) as [->|Hne].
  - rewrite IH. split; [by intros ->|congruence].
  - split; [by destruct (x <? y)|congruence].
Qed.

Lemma bytes_at_cons m a n : 0 < n → bytes_at m a n = rd8 m a :: bytes_at m (a + 1) (n - 1).
Proof.
  intros. unfold bytes_at. replace (Z.to_nat n) with (S (Z.to_nat (n - 1))) by lia. done.
Qed.

Lemma cstr_nil m a n : cstr m a n → rd8 m a = 0 → n = 0.
Proof.
  intros (Hn & Hnz & Hz) H0. destruct (decide (n = 0)); [done|].
  destruct (Hnz 0); [lia|]. by rewrite Z.add_0_r.
Qed.

Lemma cstr_tail m a n : cstr m a n → rd8 m a ≠ 0 → 0 < n ∧ cstr m (a + 1) (n - 1).
Proof.
  intros (Hn & Hnz & Hz) H0. destruct (decide (n = 0)) as [->|].
  { by rewrite Z.add_0_r in Hz. }
  split; [lia|]. split_and!; [lia| |].
  - intros i Hi. replace (a + 1 + i) with (a + (i + 1)) by lia. apply Hnz. lia.
  - by replace (a + 1 + (n - 1)) with (a + n) by lia.
Qed.

Lemma bytes_at_nil m a : bytes_at m a 0 = [].
Proof. done. Qed.

Lemma strcmp_lex fuel m cs ct n1 n2 :
  cstr m cs n1 → cstr m ct n2 → n1 < Z.of_nat fuel →
  strcmp fuel m cs ct = Some (lex (bytes_at m cs n1) (bytes_at m ct n2)).
Proof.
  revert cs ct n1 n2. induction fuel as [|fuel IH]; intros cs ct n1 n2 H1 H2 Hf.
  { destruct H1; lia. }
  pose proof (rd8_bound m cs). pose proof (rd8_bound m ct).
  cbn [strcmp]. destruct (decide (rd8 m cs = 0)) as [Z1|Z1], (decide (rd8 m ct = 0)) as [Z2|Z2].
  - rewrite (cstr_nil _ _ _ H1 Z1), (cstr_nil _ _ _ H2 Z2), Z1, Z2. done.
  - rewrite (cstr_nil _ _ _ H1 Z1), Z1. destruct (cstr_tail _ _ _ H2 Z2) as [? _].
    rewrite bytes_at_nil, (bytes_at_cons m ct) by done. cbn [lex].
    destruct (Z.eqb_spec 0 (rd8 m ct)), (Z.ltb_spec 0 (rd8 m ct)); done || lia.
  - rewrite (cstr_nil _ _ _ H2 Z2), Z2. destruct (cstr_tail _ _ _ H1 Z1) as [? _].
    rewrite bytes_at_nil, (bytes_at_cons m cs) by done. cbn [lex].
    destruct (Z.eqb_spec (rd8 m cs) 0), (Z.ltb_spec (rd8 m cs) 0); done || lia.
  - destruct (cstr_tail _ _ _ H1 Z1) as [? H1'], (cstr_tail _ _ _ H2 Z2) as [? H2'].
    rewrite (bytes_at_cons m cs), (bytes_at_cons m ct) by done. cbn [lex].
    destruct (Z.eqb_spec (rd8 m cs) (rd8 m ct)); cbn [negb]; [|done].
    destruct (Z.eqb_spec (rd8 m cs) 0); [done|]. apply IH; [done|done|lia].
Qed.

Lemma strncmp_lex count m cs ct n1 n2 :
  cstr m cs n1 → cstr m ct n2 →
  strncmp_loop count m cs ct = lex (take count (bytes_at m cs n1)) (take count (bytes_at m ct n2)).
Proof.
  revert cs ct n1 n2. induction count as [|count IH]; intros cs ct n1 n2 H1 H2; [done|].
  pose proof (rd8_bound m cs). pose proof (rd8_bound m ct).
  cbn [strncmp_loop].
  destruct (decide (rd8 m cs = 0)) as [Z1|Z1], (decide (rd8 m ct = 0)) as [Z2|Z2].
  - rewrite (cstr_nil _ _ _ H1 Z1), (cstr_nil _ _ _ H2 Z2), Z1, Z2. done.
  - rewrite (cstr_nil _ _ _ H1 Z1), Z1. destruct (cstr_tail _ _ _ H2 Z2) as [? _].
    rewrite bytes_at_nil, (bytes_at_cons m ct) by done. cbn [lex take].
    destruct (Z.eqb_spec 0 (rd8 m ct)), (Z.ltb_spec 0 (rd8 m ct)); done || lia.
  - rewrite (cstr_nil _ _ _ H2 Z2), Z2. destruct (cstr_tail _ _ _ H1 Z1) as [? _].
    rewrite bytes_at_nil, (bytes_at_cons m cs) by done. cbn [lex take].
    destruct (Z.eqb_spec (rd8 m cs) 0), (Z.ltb_spec (rd8 m cs) 0); done || lia.
  - destruct (cstr_tail _ _ _ H1 Z1) as [? H1'], (cstr_tail _ _ _ H2 Z2) as [? H2'].
    rewrite (bytes_at_cons m cs), (bytes_at_cons m ct) by done. cbn [lex take].
    destruct (Z.eqb_spec (rd8 m cs) (rd8 m ct)); cbn [negb]; [|done].
    destruct (Z.eqb_spec (rd8 m cs) 0); [done|]. by apply IH.
Qed.

Lemma memcmp_loop_zero n m a b :
  memcmp_loop n m a b = 0 ↔ same_bytes m a m b (Z.of_nat n).
Proof.
  revert a b. induction n as [|n IH]; intros a b; cbn [memcmp_loop].
  - split; [|done]. intros _ i Hi. lia.
  - destruct (Z.eqb_spec (rd8 m a - rd8 m b) 0) as [E|E]; cbn [negb].
    + rewrite IH. split; intros H i Hi.
      * destruct (decide (i = 0)) as [->|]; [rewrite !Z.add_0_r; lia|].
        specialize (H (i - 1) ltac:(lia)).
        by replace (a + 1 + (i - 1)) with (a + i) in H by lia;
           replace (b + 1 + (i - 1)) with (b + i) in H by lia.
      * replace (a + 1 + i) with (a + (i + 1)) by lia. replace (b + 1 + i) with (b + (i + 1)) by lia.
        apply H. lia.
    + split; [by intros ?|]. intros H. specialize (H 0 ltac:(lia)). rewrite !Z.add_0_r in H. lia.
Qed.

Lemma memcmp_zero m a b n : 0 ≤ n → memcmp m a b n = 0 ↔ same_bytes m a m b n.
Proof. intros. unfold memcmp. rewrite memcmp_loop_zero. by rewrite Z2Nat.id. Qed.

(** [strcmp] and [strncmp] compare by the lexicographic order of the strings
    (of their first [count] bytes), and answer 0 exactly on equal ones; [memcmp] answers 0
    exactly on equal areas.  [strcmp] stops within the first string. *)
Theorem strcmp_correct fuel m cs ct n1 n2 count :
  cstr m cs n1 → cstr m ct n2 → n1 < Z.of_nat fuel → 0 ≤ count →
  let s := bytes_at m cs n1 in
  let t := bytes_at m ct n2 in
  strcmp fuel m cs ct = Some (lex s t) ∧ (lex s t = 0 ↔ s = t) ∧
  strncmp m cs ct count = lex (take (Z.to_nat count) s) (take (Z.to_nat count) t) ∧
  (memcmp m cs ct count = 0 ↔ same_bytes m cs m ct count).
Proof.
  intros H1 H2 Hf Hc s t. split_and!.
  - by apply strcmp_lex.
  - apply lex_0.
  - by apply strncmp_lex.
  - by apply memcmp_zero.
Qed.

Lemma cstr_by_eval m a n :
  (0 <=? n) && forallb (λ i, negb (rd8 m (a + i) =? 0)) (seqZ 0 n) && (rd8 m (a + n) =? 0) = true →
  cstr m a n.
Proof.
  rewrite !andb_true_iff. intros [[Hn H] Hz]. split_and!; [lia| |lia].
  intros i Hi. apply (forallb_seqZ _ _ _ i) in H; [|lia]. by apply negb_true_iff, Z.eqb_neq in H.
Qed.

(** "abc" and "abd". *)
Lemma strcmp_correct_witness :
  let m := mem_of 64 [97; 98; 99; 0; 97; 98; 100; 0] in
  strcmp 4 m 64 68 = Some (lex [97; 98; 99] [97; 98; 100]) ∧
  (lex [97; 98; 99] [97; 98; 100] = 0 ↔ [97; 98; 99] = [97; 98; 100]) ∧
  strncmp m 64 68 2 = lex [97; 98] [97; 98] ∧
  (memcmp m 64 68 2 = 0 ↔ same_bytes m 64 m 68 2).
Proof.
  apply (strcmp_correct 4 (mem_of 64 [97; 98; 99; 0; 97; 98; 100; 0]) 64 68 3 3 2);
    [apply cstr_by_eval; vm_compute; reflexivity..|lia|lia].
Defined.

(** ** Searches *)

Lemma strlen_loop_spec fuel m s sc n :
  cstr m sc n → n < Z.of_nat fuel → strlen_loop fuel m s sc = Some (sc + n - s).
Proof.
  revert sc n. induction fuel as [|fuel IH]; intros sc n H Hf; [destruct H; lia|].
  cbn [strlen_loop]. destruct (Z.eqb_spec (rd8 m sc) 0) as [Z0|Z0].
  - rewrite (cstr_nil _ _ _ H Z0). f_equal. lia.
  - destruct (cstr_tail _ _ _ H Z0) as [? H']. rewrite (IH _ _ H') by lia. f_equal. lia.
Qed.

Lemma strlen_spec fuel m s n : cstr m s n → n < Z.of_nat fuel → strlen fuel m s = Some n.
Proof. intros H Hf. unfold strlen. rewrite (strlen_loop_spec _ _ _ _ n) by done. f_equal. lia. Qed.

Lemma strnlen_loop_spec count m s sc n :
  cstr m sc n → strnlen_loop count m s sc = sc - s + Z.min n (Z.of_nat count).
Proof.
  revert sc n. induction count as [|count IH]; intros sc n H; cbn [strnlen_loop].
  { destruct H; lia. }
  destruct (Z.eqb_spec (rd8 m sc) 0) as [Z0|Z0].
  - rewrite (cstr_nil _ _ _ H Z0). lia.
  - destruct (cstr_tail _ _ _ H Z0) as [? H']. rewrite (IH _ _ H') by lia. lia.
Qed.

(** The first (last) occurrence of [c] among the bytes of the string at [s], its NUL
    included. *)
Definition occurs_first (m : bmem) (s n c : Z) (r : option Z) : Prop :=
  match r with
  | Some p => s ≤ p ≤ s + n ∧ rd8 m p = u8 c ∧ ∀ q, s ≤ q < p → rd8 m q ≠ u8 c
  | None => ∀ q, s ≤ q ≤ s + n → rd8 m q ≠ u8 c
  end.

Definition occurs_last (m : bmem) (s n c : Z) (r : option Z) : Prop :=
  match r with
  | Some p => s ≤ p ≤ s + n ∧ rd8 m p = u8 c ∧ ∀ q, p < q ≤ s + n → rd8 m q ≠ u8 c
  | None => ∀ q, s ≤ q ≤ s + n → rd8 m q ≠ u8 c
  end.

Lemma strchr_spec fuel m s n c :
  cstr m s n → n < Z.of_nat fuel →
  ∃ r, strchr fuel m s c = Some r ∧ occurs_first m s n c r.
Proof.
  revert s n. induction fuel as [|fuel IH]; intros s n H Hf; [destruct H; lia|].
  cbn [strchr]. destruct (Z.eqb_spec (rd8 m s) (u8 c)) as [E|E].
  { eexists; split; [done|]. destruct H. split; [lia|]. split; [done|lia]. }
  destruct (Z.eqb_spec (rd8 m s) 0) as [Z0|Z0].
  - rewrite (cstr_nil _ _ _ H Z0). eexists; split; [done|]. intros q Hq.
    by replace q with s by lia.
  - destruct (cstr_tail _ _ _ H Z0) as [? H'].
    destruct (IH _ _ H') as (r & Hr & Ho); [lia|]. exists r. split; [done|].
    destruct r as [p|]; simpl in *.
    + destruct Ho as (Hp & Hc & Hq). split; [lia|]. split; [done|]. intros q ?.
      destruct (decide (q = s)) as [->|]; [done|]. apply Hq. lia.
    + intros q ?. destruct (decide (q = s)) as [->|]; [done|]. apply Ho. lia.
Qed.

Lemma strrchr_loop_spec fuel m s n c last :
  cstr m s n → n < Z.of_nat fuel →
  ∃ r, strrchr_loop fuel m s c last = Some (match r with Some p => Some p | None => last end) ∧
       occurs_last m s n c r.
Proof.
  revert s n last. induction fuel as [|fuel IH]; intros s n last H Hf; [destruct H; lia|].
  cbn [strrchr_loop]. destruct (Z.eqb_spec (rd8 m s) 0) as [Z0|Z0].
  - rewrite (cstr_nil _ _ _ H Z0). destruct (Z.eqb_spec (rd8 m s) (u8 c)) as [E|E].
    + exists (Some s). split; [done|]. split; [lia|]. split; [done|lia].
    + exists None. split; [done|]. intros q Hq. by replace q with s by lia.
  - destruct (cstr_tail _ _ _ H Z0) as [? H'].
    destruct (IH _ _ (if rd8 m s =? u8 c then Some s else last) H') as (r & Hr & Ho); [lia|].
    rewrite Hr. destruct r as [p|]; simpl in *.
    + exists (Some p). split; [done|]. destruct Ho as (Hp & Hc & Hq). split; [lia|]. split; [done|].
      intros q ?. apply Hq. lia.
    + destruct (Z.eqb_spec (rd8 m s) (u8 c)) as [E|E].
      * exists (Some s). split; [done|]. split; [lia|]. split; [done|]. intros q ?. apply Ho. lia.
      * exists None. split; [done|]. intros q ?.
        destruct (decide (q = s)) as [->|]; [done|]. apply Ho. lia.
Qed.

Lemma memfind64_loop_spec fuel m s v i n :
  0 ≤ i ≤ n → n - i = Z.of_nat fuel →
  let r := memfind64_loop fuel m s v i n in
  i ≤ r ≤ n ∧ (∀ j, i ≤ j < r → rd64 m (s + 8 * j) ≠ v) ∧ (r < n → rd64 m (s + 8 * r) = v).
Proof.
  revert i. induction fuel as [|fuel IH]; intros i Hi Hf; cbn [memfind64_loop].
  { split_and!; lia. }
  destruct (Z.ltb_spec i n); [|lia].
  destruct (Z.eqb_spec (rd64 m (s + 8 * i)) v); [split_and!; lia || done|].
  destruct (IH (i + 1)) as (H1 & H2 & H3); [lia..|]. split_and!; [lia|lia| |done].
  intros j Hj. destruct (decide (j = i)) as [->|]; [done|]. apply H2. lia.
Qed.

(** The searches find what they say on a string of length [n]: [strlen] and
    [strnlen] the length (cut to the count), [strchr] the first and [strrchr] the last
    occurrence of the character, the NUL included; [memfind64] the first word equal to [v],
    or [n].  Fuel above the length is enough for each. *)
Theorem string_searches_correct fuel m s n c count v k :
  cstr m s n → n < Z.of_nat fuel → 0 ≤ count → 0 ≤ k →
  strlen fuel m s = Some n ∧
  strnlen m s count = Z.min n count ∧
  (∃ r, strchr fuel m s c = Some r ∧ occurs_first m s n c r) ∧
  (∃ r, strrchr fuel m s c = Some r ∧ occurs_last m s n c r) ∧
  (let r := memfind64 m s v k in
   0 ≤ r ≤ k ∧ (∀ j, 0 ≤ j < r → rd64 m (s + 8 * j) ≠ v) ∧ (r < k → rd64 m (s + 8 * r) = v)).
Proof.
  intros H Hf Hc Hk. split_and?.
  - by apply strlen_spec.
  - unfold strnlen. rewrite (strnlen_loop_spec _ _ _ _ n) by done. lia.
  - by apply strchr_spec.
  - destruct (strrchr_loop_spec fuel m s n c None H Hf) as (r & Hr & Ho).
    exists r. split; [|done]. unfold strrchr. rewrite Hr. by destruct r.
  - apply memfind64_loop_spec; lia.
Qed.

(** "hello", looking for [l]. *)
Lemma string_searches_correct_witness :
  let m := mem_of 64 [104; 101; 108; 108; 111; 0] in
  strlen 6 m 64 = Some 5 ∧ strnlen m 64 3 = 3 ∧
  (∃ r, strchr 6 m 64 108 = Some r ∧ occurs_first m 64 5 108 r) ∧
  (∃ r, strrchr 6 m 64 108 = Some r ∧ occurs_last m 64 5 108 r) ∧
  (let r := memfind64 m 64 7 0 in
   0 ≤ r ≤ 0 ∧ (∀ j, 0 ≤ j < r → rd64 m (64 + 8 * j) ≠ 7) ∧ (r < 0 → rd64 m (64 + 8 * r) = 7)).
Proof.
  apply (string_searches_correct 6 (mem_of 64 [104; 101; 108; 108; 111; 0]) 64 5 108 3 7 0);
    [apply cstr_by_eval; vm_compute; reflexivity|lia..].
Defined.

(** The string at [s2] occurs at [p] inside the string of length [l1] at [s1]. *)
Definition occurs_at (m : bmem) (s1 l1 s2 l2 p : Z) : Prop :=
  s1 ≤ p ∧ p + l2 ≤ s1 + l1 ∧ same_bytes m p m s2 l2.

Lemma strstr_loop_spec fuel m s1 s2 l1 l2 :
  0 ≤ l2 → 0 ≤ l1 < Z.of_nat fuel →
  match strstr_loop fuel m s1 s2 l1 l2 with
  | Some p => occurs_at m s1 l1 s2 l2 p ∧ ∀ q, q < p → ¬ occurs_at m s1 l1 s2 l2 q
  | None => ∀ q, ¬ occurs_at m s1 l1 s2 l2 q
  end.
Proof.
  intros H2. revert s1 l1. induction fuel as [|fuel IH]; intros s1 l1 H1; [lia|].
  cbn [strstr_loop]. destruct (Z.leb_spec l2 l1); [|unfold occurs_at; intros q; lia].
  destruct (Z.eqb_spec (memcmp m s1 s2 l2) 0) as [E|E].
  - apply memcmp_zero in E; [|done]. split; [by split_and!; [lia|lia|]|].
    unfold occurs_at. intros q; lia.
  - assert (¬ same_bytes m s1 m s2 l2) as Hne by (intros ?; apply E; by apply memcmp_zero).
    assert (∀ q, occurs_at m s1 l1 s2 l2 q → occurs_at m (s1 + 1) (l1 - 1) s2 l2 q) as Hup.
    { intros q (? & ? & ?). destruct (decide (q = s1)) as [->|]; [done|].
      split_and!; [lia|lia|done]. }
    assert (∀ q, occurs_at m (s1 + 1) (l1 - 1) s2 l2 q → occurs_at m s1 l1 s2 l2 q) as Hdn.
    { intros q (? & ? & ?). split_and!; [lia|lia|done]. }
    destruct (decide (l1 = 0)) as [->|].
    { exfalso. apply Hne. intros i Hi. lia. }
    specialize (IH (s1 + 1) (l1 - 1) ltac:(lia)). destruct (strstr_loop _ _ _ _ _ _) as [p|].
    + destruct IH as [Hp Hq]. split; [auto|]. intros q ? Ho. by apply (Hq q), Hup.
    + intros q Ho. by apply (IH q), Hup.
Qed.

(** [strstr] returns the first place where the second string occurs inside the
    first, and the null pointer when there is none; it always returns. *)
Theorem strstr_correct fuel m s1 s2 l1 l2 :
  cstr m s1 l1 → cstr m s2 l2 → l1 < Z.of_nat fuel → l2 < Z.of_nat fuel →
  ∃ r, strstr fuel m s1 s2 = Some r ∧
    match r with
    | Some p => occurs_at m s1 l1 s2 l2 p ∧ ∀ q, q < p → ¬ occurs_at m s1 l1 s2 l2 q
    | None => ∀ q, ¬ occurs_at m s1 l1 s2 l2 q
    end.
Proof.
  intros H1 H2 Hf1 Hf2. unfold strstr. rewrite (strlen_spec _ _ _ _ H2 Hf2). cbn [mbind option_bind].
  destruct (Z.eqb_spec l2 0) as [->|].
  - eexists; split; [done|]. split.
    + destruct H1. split_and!; [lia|lia|intros i; lia].
    + unfold occurs_at. intros q; lia.
  - rewrite (strlen_spec _ _ _ _ H1 Hf1). cbn [mbind option_bind]. eexists; split; [done|].
    apply strstr_loop_spec; destruct H1, H2; lia.
Qed.

(** "lo" in "hello". *)
Lemma strstr_correct_witness :
  let m := mem_of 64 [104; 101; 108; 108; 111; 0; 108; 111; 0] in
  ∃ r, strstr 6 m 64 70 = Some r ∧
    match r with
    | Some p => occurs_at m 64 5 70 2 p ∧ ∀ q, q < p → ¬ occurs_at m 64 5 70 2 q
    | None => ∀ q, ¬ occurs_at m 64 5 70 2 q
    end.
Proof.
  apply (strstr_correct 6 (mem_of 64 [104; 101; 108; 108; 111; 0; 108; 111; 0]) 64 70 5 2);
    [apply cstr_by_eval; vm_compute; reflexivity..|lia|lia].
Defined.
