(* ===== verification/Ctype.v ===== *)
(** Character classes: the table of [lib/ctype.c] and the macros of
    [include/sys/ctype.h]. *)

From S2P Require Import Prelude.
#[local] Open Scope Z_scope.
#[local] Open Scope cint_scope.

Definition _U : Z := 0x01.
Definition _L : Z := 0x02.
Definition _D : Z := 0x04.
Definition _C : Z := 0x08.
Definition _P : Z := 0x10.
Definition _S : Z := 0x20.
Definition _X : Z := 0x40.
Definition _SP : Z := 0x80.

Definition _ctype : list Z := [
  _C; _C; _C; _C; _C; _C; _C; _C;
  _C; _C ||| _S; _C ||| _S; _C ||| _S; _C ||| _S; _C ||| _S; _C; _C;
  _C; _C; _C; _C; _C; _C; _C; _C;
  _C; _C; _C; _C; _C; _C; _C; _C;
  _S ||| _SP; _P; _P; _P; _P; _P; _P; _P;
  _P; _P; _P; _P; _P; _P; _P; _P;
  _D; _D; _D; _D; _D; _D; _D; _D;
  _D; _D; _P; _P; _P; _P; _P; _P;
  _P; _U ||| _X; _U ||| _X; _U ||| _X; _U ||| _X; _U ||| _X; _U ||| _X; _U;
  _U; _U; _U; _U; _U; _U; _U; _U;
  _U; _U; _U; _U; _U; _U; _U; _U;
  _U; _U; _U; _P; _P; _P; _P; _P;
  _P; _L ||| _X; _L ||| _X; _L ||| _X; _L ||| _X; _L ||| _X; _L ||| _X; _L;
  _L; _L; _L; _L; _L; _L; _L; _L;
  _L; _L; _L; _L; _L; _L; _L; _L;
  _L; _L; _L; _P; _P; _P; _P; _C;
  0; 0; 0; 0; 0; 0; 0; 0;
  0; 0; 0; 0; 0; 0; 0; 0;
  0; 0; 0; 0; 0; 0; 0; 0;
  0; 0; 0; 0; 0; 0; 0; 0;
  _S ||| _SP; _P; _P; _P; _P; _P; _P; _P;
  _P; _P; _P; _P; _P; _P; _P; _P;
  _P; _P; _P; _P; _P; _P; _P; _P;
  _P; _P; _P; _P; _P; _P; _P; _P;
  _U; _U; _U; _U; _U; _U; _U; _U;
  _U; _U; _U; _U; _U; _U; _U; _U;
  _U; _U; _U; _U; _U; _U; _U; _P;
  _U; _U; _U; _U; _U; _U; _U; _L;
  _L; _L; _L; _L; _L; _L; _L; _L;
  _L; _L; _L; _L; _L; _L; _L; _L;
  _L; _L; _L; _L; _L; _L; _L; _P;
  _L; _L; _L; _L; _L; _L; _L; _L].

(** [_ctype[(int)(unsigned char)(x)]] *)
Definition __ismask (x : Z) : Z := aget _ctype (u8 x).

Definition isalnum (c : Z) : bool := truthy (__ismask c &&& (_U ||| _L ||| _D)).
Definition isalpha (c : Z) : bool := truthy (__ismask c &&& (_U ||| _L)).
Definition iscntrl (c : Z) : bool := truthy (__ismask c &&& _C).
Definition isdigit (c : Z) : bool := (48 <=? c) && (c <=? 57).
Definition isgraph (c : Z) : bool := truthy (__ismask c &&& (_P ||| _U ||| _L ||| _D)).
Definition islower (c : Z) : bool := truthy (__ismask c &&& _L).
Definition isprint (c : Z) : bool := truthy (__ismask c &&& (_P ||| _U ||| _L ||| _D ||| _SP)).
Definition ispunct (c : Z) : bool := truthy (__ismask c &&& _P).
Definition isspace (c : Z) : bool := truthy (__ismask c &&& _S).
Definition isupper (c : Z) : bool := truthy (__ismask c &&& _U).
Definition isxdigit (c : Z) : bool := truthy (__ismask c &&& (_D ||| _X)).
Definition isascii (c : Z) : bool := u8 c <=? 0x7f.
Definition toascii (c : Z) : Z := u8 c &&& 0x7f.

(** The parameter is an [unsigned char], and so is the result. *)
Definition __tolower (c : Z) : Z := if isupper c then u8 (c - (65 - 97)) else c.
Definition __toupper (c : Z) : Z := if islower c then u8 (c - (97 - 65)) else c.
Definition _tolower (c : Z) : Z := c ||| 0x20.
Definition isodigit (c : Z) : bool := (48 <=? c) && (c <=? 55).

(** ** The ASCII classes *)

Definition between (lo hi c : Z) : bool := (lo <=? c) && (c <=? hi).

(** What each class is on ASCII, independently of the table. *)
Definition ascii_class_ok (c : Z) : bool :=
  let upper := between 65 90 c in
  let lower := between 97 122 c in
  let digit := between 48 57 c in
  let cntrl := between 0 31 c || (c =? 127) in
  let punct := between 33 47 c || between 58 64 c || between 91 96 c || between 123 126 c in
  eqb (isupper c) upper && eqb (islower c) lower && eqb (isalpha c) (upper || lower) &&
  eqb (isdigit c) digit && eqb (isalnum c) (upper || lower || digit) &&
  eqb (iscntrl c) cntrl && eqb (ispunct c) punct &&
  eqb (isspace c) (between 9 13 c || (c =? 32)) &&
  eqb (isprint c) (between 32 126 c) && eqb (isgraph c) (between 33 126 c) &&
  eqb (isxdigit c) (digit || between 65 70 c || between 97 102 c) &&
  (__tolower c =? (if upper then c + 32 else c)) &&
  (__toupper c =? (if lower then c - 32 else c)) &&
  (toascii c =? c) && isascii c.

(** The table and the macros give every ASCII character the class the C standard
    gives it, the case conversions move exactly the letters, and are inverse on them. *)
Theorem ctype_ascii c :
  0 ≤ c < 128 →
  ascii_class_ok c = true ∧
  (isupper c = true → __toupper (__tolower c) = c) ∧
  (islower c = true → __tolower (__toupper c) = c).
Proof.
  intros Hc.
  assert (forallb (λ c, ascii_class_ok c &&
    implb (isupper c) (__toupper (__tolower c) =? c) &&
    implb (islower c) (__tolower (__toupper c) =? c)) (seqZ 0 128) = true) as H
    by (vm_compute; reflexivity).
  apply (forallb_seqZ _ _ _ c) in H; [|lia].
  rewrite !andb_true_iff, !implb_true_iff, !Z.eqb_eq in H. tauto.
Qed.

Lemma ctype_ascii_witness :
  ascii_class_ok 71 = true ∧ (isupper 71 = true → __toupper (__tolower 71) = 71) ∧
  (islower 71 = true → __tolower (__toupper 71) = 71).
Proof. apply (ctype_ascii 71). lia. Defined.
