(* ===== verification/Hexdump.v ===== *)
(** [lib/hexdump.c] and the hexadecimal helpers of [include/sys/types.h]: bytes to
    hexadecimal text and back. *)

From S2P Require Import Prelude Mem Ctype.
#[local] Open Scope Z_scope.
#[local] Open Scope cint_scope.

(** ** The code *)

Definition EINVAL : Z := 22.

(** ["0123456789abcdef"] and its upper-case form. *)
Definition hex_asc : list Z := [48; 49; 50; 51; 52; 53; 54; 55; 56; 57; 97; 98; 99; 100; 101; 102].
Definition hex_asc_upper : list Z := [48; 49; 50; 51; 52; 53; 54; 55; 56; 57; 65; 66; 67; 68; 69; 70].

Definition hex_asc_lo (x : Z) : Z := aget hex_asc (x &&& 0x0f).
Definition hex_asc_hi (x : Z) : Z := aget hex_asc ((x &&& 0xf0) >>> 4).
Definition hex_asc_upper_lo (x : Z) : Z := aget hex_asc_upper (x &&& 0x0f).
Definition hex_asc_upper_hi (x : Z) : Z := aget hex_asc_upper ((x &&& 0xf0) >>> 4).

(** They answer the memory and the next position. *)
Definition hex_byte_pack (m : bmem) (buf byte : Z) : bmem * Z :=
  (wr8 (wr8 m buf (hex_asc_hi byte)) (buf + 1) (hex_asc_lo byte), buf + 2).
Definition hex_byte_pack_upper (m : bmem) (buf byte : Z) : bmem * Z :=
  (wr8 (wr8 m buf (hex_asc_upper_hi byte)) (buf + 1) (hex_asc_upper_lo byte), buf + 2).

Definition hex_to_bin (ch : Z) : Z :=
  if (48 <=? ch) && (ch <=? 57) then ch - 48
  else
    let ch := __tolower ch in
    if (97 <=? ch) && (ch <=? 102) then ch - 97 + 10 else -1.

Fixpoint hex2bin_loop (count : nat) (m : bmem) (dst src : Z) : Z * bmem :=
  match count with
  | O => (0, m)
  | S count =>
      let hi := hex_to_bin (rd8 m src) in
      let lo := hex_to_bin (rd8 m (src + 1)) in
      if (hi <? 0) || (lo <? 0) then (- EINVAL, m)
      else hex2bin_loop count (wr8 m dst ((hi <<< 4) ||| lo)) (dst + 1) (src + 2)
  end.
Definition hex2bin (m : bmem) (dst src count : Z) : Z * bmem := hex2bin_loop (Z.to_nat count) m dst src.

Fixpoint bin2hex_loop (count : nat) (m : bmem) (dst src : Z) : bmem * Z :=
  match count with
  | O => (m, dst)
  | S count =>
      let '(m, dst) := hex_byte_pack m dst (rd8 m src) in
      bin2hex_loop count m dst (src + 1)
  end.
Definition bin2hex (m : bmem) (dst src count : Z) : bmem * Z := bin2hex_loop (Z.to_nat count) m dst src.

(** ** Digits *)

(** The digit [hex_to_bin] accepts, and its value. *)
Definition hex_digit (ch : Z) : option Z :=
  if (48 <=? ch) && (ch <=? 57) then Some (ch - 48)
  else if (65 <=? ch) && (ch <=? 70) then Some (ch - 55)
  else if (97 <=? ch) && (ch <=? 102) then Some (ch - 87)
  else None.

(** Two digits, as a byte. *)
Definition hex_pair (hi lo : Z) : option Z :=
  h ← hex_digit hi; l ← hex_digit lo; Some (16 * h + l).

Lemma hex_to_bin_digit ch : 0 ≤ ch < 256 → hex_to_bin ch = default (-1) (hex_digit ch).
Proof.
  intros Hch. apply Z.eqb_eq. revert ch Hch.
  assert (forallb (λ ch, hex_to_bin ch =? default (-1) (hex_digit ch)) (seqZ 0 256) = true) as H
    by (vm_compute; reflexivity).
  intros ch Hch. apply (forallb_seqZ _ _ _ ch H). lia.
Qed.

Lemma hex_digit_bound ch v : hex_digit ch = Some v → 0 ≤ v < 16.
Proof.
  unfold hex_digit.
  destruct (Z.leb_spec 48 ch), (Z.leb_spec ch 57), (Z.leb_spec 65 ch), (Z.leb_spec ch 70),
    (Z.leb_spec 97 ch), (Z.leb_spec ch 102); cbn; intros [= <-]; lia.
Qed.

Lemma isxdigit_digit ch : 0 ≤ ch < 128 → isxdigit ch = bool_decide (is_Some (hex_digit ch)).
Proof.
  intros Hch. apply eqb_true_iff. revert ch Hch.
  assert (forallb (λ ch, eqb (isxdigit ch) (bool_decide (is_Some (hex_digit ch)))) (seqZ 0 128) = true) as H
    by (vm_compute; reflexivity).
  intros ch Hch. apply (forallb_seqZ _ _ _ ch H). lia.
Qed.

(** Packing a byte and reading the digits back. *)
Lemma hex_pair_packed b : 0 ≤ b < 256 → hex_pair (hex_asc_hi b) (hex_asc_lo b) = Some b.
Proof.
  intros Hb. cut (bool_decide (hex_pair (hex_asc_hi b) (hex_asc_lo b) = Some b) = true).
  { apply bool_decide_eq_true. }
  assert (forallb (λ b, bool_decide (hex_pair (hex_asc_hi b) (hex_asc_lo b) = Some b)) (seqZ 0 256) = true) as H
    by (vm_compute; reflexivity).
  apply (forallb_seqZ _ _ _ b H). lia.
Qed.

Lemma hex_asc_byte b : 0 ≤ b < 256 → u8 (hex_asc_hi b) = hex_asc_hi b ∧ u8 (hex_asc_lo b) = hex_asc_lo b.
Proof.
  intros Hb. cut ((u8 (hex_asc_hi b) =? hex_asc_hi b) && (u8 (hex_asc_lo b) =? hex_asc_lo b) = true).
  { intros [?%Z.eqb_eq ?%Z.eqb_eq]%andb_prop. done. }
  assert (forallb (λ b, (u8 (hex_asc_hi b) =? hex_asc_hi b) && (u8 (hex_asc_lo b) =? hex_asc_lo b))
    (seqZ 0 256) = true) as H by (vm_compute; reflexivity).
  apply (forallb_seqZ _ _ _ b H). lia.
Qed.

(** ** Decoding *)

(** Pair [i] of the text at [src]. *)
Definition pair_at (m : bmem) (src i : Z) : option Z :=
  hex_pair (rd8 m (src + 2 * i)) (rd8 m (src + 2 * i + 1)).

Definition apart (a n b k : Z) : Prop := a + n ≤ b ∨ b + k ≤ a.

(** [k] pairs of the text are decoded at [dst], and nothing else is written. *)
Definition decoded (m m' : bmem) (dst src k : Z) : Prop :=
  (∀ i, 0 ≤ i < k → pair_at m src i = Some (rd8 m' (dst + i))) ∧
  ∀ a, a < dst ∨ dst + k ≤ a → rd8 m' a = rd8 m a.

Lemma hex_pair_none hi lo : 0 ≤ hi < 256 → 0 ≤ lo < 256 →
  ((hex_to_bin hi <? 0) || (hex_to_bin lo <? 0)) = bool_decide (hex_pair hi lo = None).
Proof.
  intros Hhi Hlo. rewrite !hex_to_bin_digit by done. unfold hex_pair.
  destruct (hex_digit hi) as [h|] eqn:Eh; [|done]. destruct (hex_digit lo) as [l|] eqn:El; cbn.
  - apply hex_digit_bound in Eh, El. destruct (Z.ltb_spec h 0), (Z.ltb_spec l 0); (done || lia).
  - apply hex_digit_bound in Eh. destruct (Z.ltb_spec h 0); (done || lia).
Qed.

Lemma hex_pair_value hi lo b : 0 ≤ hi < 256 → 0 ≤ lo < 256 → hex_pair hi lo = Some b →
  u8 ((hex_to_bin hi <<< 4) ||| hex_to_bin lo) = b.
Proof.
  intros Hhi Hlo Hp. rewrite !hex_to_bin_digit by done. unfold hex_pair in Hp.
  destruct (hex_digit hi) as [h|] eqn:Eh; [|done]. destruct (hex_digit lo) as [l|] eqn:El; [|done].
  injection Hp as <-. apply hex_digit_bound in Eh, El. unfold default, id.
  rewrite Z.shiftl_mul_pow2, (lor_low 4) by (lia || apply Z_mod_mult).
  rewrite wrap_small; lia.
Qed.

Lemma pair_at_shift m src i : pair_at m (src + 2) i = pair_at m src (i + 1).
Proof. unfold pair_at. do 2 f_equal; lia. Qed.

Lemma hex2bin_loop_ok n m dst src :
  apart dst (Z.of_nat n) src (2 * Z.of_nat n) →
  let '(r, m') := hex2bin_loop n m dst src in
  ∃ k, 0 ≤ k ≤ Z.of_nat n ∧ decoded m m' dst src k ∧
    ((r = 0 ∧ k = Z.of_nat n) ∨ (r = - EINVAL ∧ k < Z.of_nat n ∧ pair_at m src k = None)).
Proof.
  revert m dst src. induction n as [|n IH]; intros m dst src Hap; cbn [hex2bin_loop].
  { exists 0. split; [lia|]. split; [split; [lia|done]|]. by left. }
  rewrite hex_pair_none by apply rd8_bound. case_bool_decide as Hnone.
  { exists 0. split; [lia|]. split; [split; [lia|done]|]. right. split_and!; [done|lia|].
    unfold pair_at. by rewrite Z.mul_0_r, Z.add_0_r. }
  destruct (hex_pair (rd8 m src) (rd8 m (src + 1))) as [b|] eqn:Hb; [|done].
  apply hex_pair_value in Hb as Hv; [|apply rd8_bound..]. unfold apart in *.
  specialize (IH (wr8 m dst ((hex_to_bin (rd8 m src) <<< 4) ||| hex_to_bin (rd8 m (src + 1)))) (dst + 1) (src + 2)
    ltac:(lia)).
  destruct (hex2bin_loop _ _ _ _) as [r m']. destruct IH as (k & Hk & [Hd Ho] & Hr).
  assert (∀ i, 0 ≤ i ≤ Z.of_nat n →
    pair_at (wr8 m dst ((hex_to_bin (rd8 m src) <<< 4) ||| hex_to_bin (rd8 m (src + 1)))) (src + 2) i =
    pair_at m src (i + 1) ∨ i = Z.of_nat n) as Hpair.
  { intros i Hi. destruct (decide (i = Z.of_nat n)); [by right|left].
    rewrite pair_at_shift. unfold pair_at. by rewrite !rd8_wr8_ne by lia. }
  exists (k + 1). split; [lia|]. split; [split|].
  - intros i Hi. destruct (decide (i = 0)) as [->|].
    + rewrite Ho by lia. rewrite Z.add_0_r, rd8_wr8_eq, Hv. unfold pair_at. by rewrite Z.mul_0_r, Z.add_0_r.
    + specialize (Hd (i - 1) ltac:(lia)). destruct (Hpair (i - 1)) as [Hp|]; [lia| |lia].
      rewrite Hp in Hd. rewrite Z.sub_add in Hd. rewrite Hd. do 2 f_equal. lia.
  - intros a Ha. rewrite Ho by lia. apply rd8_wr8_ne. lia.
  - destruct Hr as [[-> ->]|(-> & Hlt & Hn)]; [left; lia|right]. split_and!; [done|lia|].
    destruct (Hpair k) as [Hp|]; [lia| |lia]. by rewrite <- Hp.
Qed.

(** C34: [hex2bin] decodes a text of pairs of hexadecimal digits, upper or lower case, and
    writes nothing else.  It fails exactly on a text with another character: the pairs
    before the first bad one are written then, and no more. *)
Theorem hex2bin_correct m dst src count :
  0 ≤ count → apart dst count src (2 * count) →
  let '(r, m') := hex2bin m dst src count in
  (r = 0 ∧ decoded m m' dst src count) ∨
  (r = - EINVAL ∧ ∃ k, 0 ≤ k < count ∧ pair_at m src k = None ∧ decoded m m' dst src k).
Proof.
  intros Hc Hap. unfold hex2bin. pose proof (hex2bin_loop_ok (Z.to_nat count) m dst src) as H.
  rewrite Z2Nat.id in H by done. specialize (H Hap).
  destruct (hex2bin_loop _ _ _ _) as [r m']. destruct H as (k & Hk & Hd & [[-> ->]|(-> & Hlt & Hn)]).
  - by left.
  - right. split; [done|]. exists k. split_and!; (done || lia).
Qed.

(** ** Encoding *)

Lemma bin2hex_loop_ok n m dst src :
  apart dst (2 * Z.of_nat n) src (Z.of_nat n) →
  let '(m', p) := bin2hex_loop n m dst src in
  p = dst + 2 * Z.of_nat n ∧
  (∀ i, 0 ≤ i < Z.of_nat n → pair_at m' dst i = Some (rd8 m (src + i))) ∧
  ∀ a, a < dst ∨ dst + 2 * Z.of_nat n ≤ a → rd8 m' a = rd8 m a.
Proof.
  revert m dst src. induction n as [|n IH]; intros m dst src Hap; cbn [bin2hex_loop].
  { split_and!; [lia|lia|done]. }
  unfold hex_byte_pack, apart in *. pose proof (rd8_bound m src) as Hb.
  specialize (IH (wr8 (wr8 m dst (hex_asc_hi (rd8 m src))) (dst + 1) (hex_asc_lo (rd8 m src))) (dst + 2) (src + 1)
    ltac:(lia)).
  destruct (bin2hex_loop _ _ _ _) as [m' p]. destruct IH as (-> & Hd & Ho).
  destruct (hex_asc_byte _ Hb) as [Hu1 Hu2]. split_and!; [lia| |].
  - intros i Hi. destruct (decide (i = 0)) as [->|].
    + unfold pair_at. rewrite Z.mul_0_r, !Z.add_0_r, !Ho by lia.
      rewrite rd8_wr8_eq, rd8_wr8_ne, rd8_wr8_eq, Hu1, Hu2 by lia. by apply hex_pair_packed.
    + specialize (Hd (i - 1) ltac:(lia)). rewrite pair_at_shift, Z.sub_add in Hd. rewrite Hd.
      rewrite !rd8_wr8_ne by lia. do 2 f_equal. lia.
  - intros a Ha. rewrite Ho by lia. by rewrite !rd8_wr8_ne by lia.
Qed.

(** What [bin2hex] writes, [hex2bin] reads back: it succeeds and yields the bytes. *)
Theorem hex_roundtrip m text src dst count :
  0 ≤ count → apart text (2 * count) src count → apart dst count text (2 * count) →
  let '(m1, end_) := bin2hex m text src count in
  let '(r, m2) := hex2bin m1 dst text count in
  end_ = text + 2 * count ∧ r = 0 ∧ ∀ i, 0 ≤ i < count → rd8 m2 (dst + i) = rd8 m (src + i).
Proof.
  intros Hc Hap1 Hap2. unfold bin2hex, hex2bin.
  pose proof (bin2hex_loop_ok (Z.to_nat count) m text src) as H1. rewrite Z2Nat.id in H1 by done.
  specialize (H1 Hap1). destruct (bin2hex_loop _ _ _ _) as [m1 e]. destruct H1 as (-> & Hd1 & _).
  pose proof (hex2bin_loop_ok (Z.to_nat count) m1 dst text) as H2. rewrite Z2Nat.id in H2 by done.
  specialize (H2 Hap2). destruct (hex2bin_loop _ _ _ _) as [r m2].
  destruct H2 as (k & Hk & [Hd2 _] & [[-> ->]|(-> & Hlt & Hn)]).
  - split_and!; [done..|]. intros i Hi. specialize (Hd1 i Hi). rewrite (Hd2 i Hi) in Hd1. by injection Hd1.
  - rewrite Hd1 in Hn by lia. done.
Qed.

Lemma hex2bin_correct_witness :
  hex2bin (mem_of 0 [70; 52; 51; 49]) 8 0 2 = (0, wr8 (wr8 (mem_of 0 [70; 52; 51; 49]) 8 0xf4) 9 0x31) ∧
  ∃ k, 0 ≤ k < 2 ∧ pair_at (mem_of 0 [70; 52; 51; 103]) 0 k = None.
Proof.
  split; [vm_compute; reflexivity|].
  pose proof (hex2bin_correct (mem_of 0 [70; 52; 51; 103]) 8 0 2 ltac:(lia) ltac:(right; lia)) as H.
  destruct (hex2bin _ _ _ _) as [r m'] eqn:E.
  destruct H as [[-> _]|(_ & k & Hk & Hn & _)]; [vm_compute in E; discriminate|]. by exists k.
Defined.

Lemma hex_roundtrip_witness :
  ∃ m2, ∀ i, 0 ≤ i < 2 → rd8 m2 (16 + i) = rd8 (mem_of 0 [0xf4; 0x31]) (0 + i).
Proof.
  pose proof (hex_roundtrip (mem_of 0 [0xf4; 0x31]) 8 0 16 2 ltac:(lia) ltac:(right; lia) ltac:(right; lia)) as H.
  destruct (bin2hex _ _ _ _) as [m1 e]. destruct (hex2bin _ _ _ _) as [r m2].
  exists m2. apply H.
Defined.
