(* ===== verification/Vsprintf.v ===== *)
(** [lib/vsprintf.c]: formatted output into a buffer.

    The output is a memory and a position in it; characters are stored only below [end_],
    the position advances in any case.  The format is the list of its bytes (every caller
    passes a literal), an argument is a 64-bit value, a string or buffer argument the
    address of its bytes. *)

From S2P Require Import Prelude Mem CString Ctype Hexdump.
#[local] Open Scope Z_scope.
#[local] Open Scope cint_scope.

(** ** Decimal conversion *)

Definition decpair : list Z :=
  (λ x, u16 (((x mod 10) ||| ((x / 10) <<< 8)) + 0x3030)) <$> seqZ 0 100.

(** The store of a [uint16_t] at [tmp[i]], and of its successor. *)
Definition store16 (tmp : list Z) (i v : Z) : list Z := aset (aset tmp i (u8 v)) (i + 1) (u8 (v >>> 8)).

(** [*((uint16_t * )buf) = decpair[x]; buf += 2;] *)
Definition put_pair (b : list Z * Z) (x : Z) : list Z * Z := (store16 b.1 b.2 (aget decpair x), b.2 + 2).

Definition div100_8 (r : Z) : Z := u32 (u64 (r * 0x28f5c29) >>> 32).
Definition div100_4 (r : Z) : Z := u32 (r * 0x147b) >>> 19.

(** [b] is the array [tmp] and the index of [buf] in it. *)
Definition put_dec_trunc8 (b : list Z * Z) (r : Z) : list Z * Z :=
  let out_r (b : list Z * Z) r := ((put_pair b r).1, b.2 + (if r <? 10 then 1 else 2)) in
  if r <? 100 then out_r b r
  else
    let q := div100_8 r in
    let b := put_pair b (u32 (r - 100 * q)) in
    if q <? 100 then out_r b q
    else
      let r := div100_8 q in
      let b := put_pair b (u32 (q - 100 * r)) in
      if r <? 100 then out_r b r
      else
        let q := div100_4 r in
        let b := put_pair b (u32 (r - 100 * q)) in
        out_r b q.

Definition put_dec_full8 (b : list Z * Z) (r : Z) : list Z * Z :=
  let q := div100_8 r in
  let b := put_pair b (u32 (r - 100 * q)) in
  let r := div100_8 q in
  let b := put_pair b (u32 (q - 100 * r)) in
  let q := div100_4 r in
  let b := put_pair b (u32 (r - 100 * q)) in
  put_pair b q.

(** [do_div(n, base)]: the remainder and the quotient. *)
Definition do_div (n base : Z) : Z * Z := (u32 (n mod base), n / base).

Definition put_dec (b : list Z * Z) (n : Z) : list Z * Z :=
  let step (bn : (list Z * Z) * Z) :=
    if 100 * 1000 * 1000 <=? bn.2 then
      let '(rem, n) := do_div bn.2 (100 * 1000 * 1000) in (put_dec_full8 bn.1 rem, n)
    else bn in
  let '(b, n) := step (step (b, n)) in
  put_dec_trunc8 b (u32 n).

(** ** Specifications *)

Definition SIGN : Z := 1.
Definition LEFT : Z := 2.
Definition PLUS : Z := 4.
Definition SPACE : Z := 8.
Definition ZEROPAD : Z := 16.
Definition SMALL : Z := 32.
Definition SPECIAL : Z := 64.

(** [enum format_type]; the code adds [SIGN] to the unsigned members. *)
Definition FORMAT_TYPE_NONE : Z := 0.
Definition FORMAT_TYPE_WIDTH : Z := 1.
Definition FORMAT_TYPE_PRECISION : Z := 2.
Definition FORMAT_TYPE_CHAR : Z := 3.
Definition FORMAT_TYPE_STR : Z := 4.
Definition FORMAT_TYPE_PTR : Z := 5.
Definition FORMAT_TYPE_PERCENT_CHAR : Z := 6.
Definition FORMAT_TYPE_INVALID : Z := 7.
Definition FORMAT_TYPE_LONG_LONG : Z := 8.
Definition FORMAT_TYPE_ULONG : Z := 9.
Definition FORMAT_TYPE_LONG : Z := 10.
Definition FORMAT_TYPE_UBYTE : Z := 11.
Definition FORMAT_TYPE_BYTE : Z := 12.
Definition FORMAT_TYPE_USHORT : Z := 13.
Definition FORMAT_TYPE_SHORT : Z := 14.
Definition FORMAT_TYPE_UINT : Z := 15.
Definition FORMAT_TYPE_INT : Z := 16.
Definition FORMAT_TYPE_SIZE_T : Z := 17.
Definition FORMAT_TYPE_PTRDIFF : Z := 18.

(** [struct printf_spec]; the setters cut a value to the width of its bit field. *)
Record printf_spec : Type := mk_spec {
  ps_type : Z; field_width : Z; ps_flags : Z; base : Z; precision : Z;
}.

Definition spec0 : printf_spec := mk_spec 0 0 0 0 0.
Definition set_type (x : Z) (s : printf_spec) : printf_spec :=
  mk_spec (u8 x) (field_width s) (ps_flags s) (base s) (precision s).
Definition set_field_width (x : Z) (s : printf_spec) : printf_spec :=
  mk_spec (ps_type s) (swrap 24 x) (ps_flags s) (base s) (precision s).
Definition set_flags (x : Z) (s : printf_spec) : printf_spec :=
  mk_spec (ps_type s) (field_width s) (u8 x) (base s) (precision s).
Definition set_base (x : Z) (s : printf_spec) : printf_spec :=
  mk_spec (ps_type s) (field_width s) (ps_flags s) (u8 x) (precision s).
Definition set_precision (x : Z) (s : printf_spec) : printf_spec :=
  mk_spec (ps_type s) (field_width s) (ps_flags s) (base s) (swrap 16 x).

(** [spec.flags & f] *)
Definition has_flag (s : printf_spec) (f : Z) : bool := truthy (ps_flags s &&& f).

(** ** Output *)

Record vout : Type := mk_out { v_mem : bmem; v_str : Z }.

Section output.
Context (end_ : Z).

(** [if (buf < end) *buf = c; ++buf;] *)
Definition put (c : Z) (o : vout) : vout :=
  mk_out (if v_str o <? end_ then wr8 (v_mem o) (v_str o) c else v_mem o) (v_str o + 1).

(** [n] times the same character, and the characters of a list. *)
Definition put_n (n c : Z) (o : vout) : vout := Nat.iter (Z.to_nat n) (put c) o.
Definition put_list (l : list Z) (o : vout) : vout := foldl (λ o c, put c o) o l.

(** ** Numbers *)

(** The [do] loop for bases 8 and 16; 24 digits are more than a number has. *)
Fixpoint hex_digits (fuel : nat) (num mask shift locase : Z) : list Z :=
  match fuel with
  | O => []
  | S fuel =>
      (aget hex_asc_upper (u8 num &&& mask) ||| locase) ::
      (let num := num >>> shift in
       if truthy num then hex_digits fuel num mask shift locase else [])
  end.

(** The array [tmp], the digits in reverse order, and [i], their number. *)
Definition number_digits (num base locase : Z) : list Z * Z :=
  let tmp := replicate 24 0 in
  if num <? base then (aset tmp 0 (aget hex_asc_upper num ||| locase), 1)
  else if negb (base =? 10) then
    let l := hex_digits 24 num (base - 1) (if base =? 16 then 4 else 3) locase in
    (l ++ drop (length l) tmp, Z.of_nat (length l))
  else put_dec (tmp, 0) num.

(** [while (--field_width >= 0)]: the characters, and the width after the loop. *)
Definition pad (c : Z) (w : Z) (o : vout) : vout * Z := (put_n w c o, Z.min (w - 1) (-1)).

(** The sign, the number without it and the field width it leaves. *)
Definition number_sign (num width : Z) (spec : printf_spec) : Z * Z * Z :=
  if has_flag spec SIGN then
    if s64 num <? 0 then (45, u64 (- s64 num), width - 1)
    else if has_flag spec PLUS then (43, num, width - 1)
    else if has_flag spec SPACE then (32, num, width - 1)
    else (0, num, width)
  else (0, num, width).

Definition number (num : Z) (spec : printf_spec) (o : vout) : vout :=
  let need_pfx := has_flag spec SPECIAL && negb (base spec =? 10) in
  let is_zero := num =? 0 in
  let field_width := field_width spec in
  let precision := precision spec in
  let locase := ps_flags spec &&& SMALL in
  let spec := if has_flag spec LEFT then set_flags (ps_flags spec &&& not32 ZEROPAD) spec else spec in
  let '(sign, num, field_width) := number_sign num field_width spec in
  let field_width :=
    if need_pfx then
      if base spec =? 16 then field_width - 2 else if negb is_zero then field_width - 1 else field_width
    else field_width in
  let '(tmp, i) := number_digits num (base spec) locase in
  let precision := if precision <? i then i else precision in
  let field_width := field_width - precision in
  let '(o, field_width) :=
    if negb (has_flag spec (ZEROPAD ||| LEFT)) then pad 32 field_width o else (o, field_width) in
  let o := if truthy sign then put sign o else o in
  let o :=
    if need_pfx then
      let o := if (base spec =? 16) || negb is_zero then put 48 o else o in
      if base spec =? 16 then put (88 ||| locase) o else o
    else o in
  let '(o, field_width) :=
    if negb (has_flag spec LEFT) then pad (32 + (ps_flags spec &&& ZEROPAD)) field_width o
    else (o, field_width) in
  let o := put_n (precision - i) 48 o in
  let o := put_list (rev (take (Z.to_nat i) tmp)) o in
  (pad 32 field_width o).1.

Definition special_hex_number (num size : Z) (o : vout) : vout :=
  number num (mk_spec FORMAT_TYPE_PTR (swrap 24 (2 + 2 * size)) (SPECIAL ||| SMALL ||| ZEROPAD) 16 (-1)) o.

(** ** Strings *)

(** A string: in memory, or a literal or local array of the code, with its null. *)
Inductive cstring : Type := InMemory (a : Z) | Literal (l : list Z).

Definition char_at (m : bmem) (s : cstring) (i : Z) : Z :=
  match s with InMemory a => rd8 m (a + i) | Literal l => aget l i end.

(** ["(null)"] *)
Definition null_text : cstring := Literal [40; 110; 117; 108; 108; 41; 0].

Definition move_right (buf len spaces : Z) (m : bmem) : bmem :=
  if end_ <=? buf then m
  else
    let size := end_ - buf in
    if size <=? spaces then memset m buf 32 size
    else
      let m :=
        if truthy len then
          memmove m (buf + spaces) buf (if size - spaces <? len then size - spaces else len)
        else m in
      memset m buf 32 spaces.

Definition widen_string (n : Z) (spec : printf_spec) (o : vout) : vout :=
  if field_width spec <=? n then o
  else
    let spaces := u32 (field_width spec - n) in
    if negb (has_flag spec LEFT) then
      mk_out (move_right (v_str o - n) n spaces (v_mem o)) (v_str o + spaces)
    else put_n spaces 32 o.

(** One iteration of [while (lim--)]; [lim] is a [size_t]. *)
Definition string_step (s : cstring) (a : Z * Z) : M vout (Z * Z + Z) :=
  let '(lim, len) := a in
  if lim =? 0 then mret (inr len)
  else
    c ← gets (λ o, char_at (v_mem o) s len);
    if c =? 0 then mret (inr len)
    else modify (put c) ;; mret (inl (lim - 1, len + 1)).

(** [len] is an [int], which a string does not exceed. *)
Definition put_string (s : cstring) (spec : printf_spec) : M vout unit :=
  let s := match s with InMemory a => if a =? 0 then null_text else s | Literal _ => s end in
  len ← loop (string_step s) (u64 (precision spec), 0);
  modify (widen_string len spec).

(** [fmt] is what follows the [%p]. *)
Definition fmt_char (fmt : list Z) (i : nat) : Z := default 0 (fmt !! i).

(** [__builtin_extract_return_addr] is the identity on x86. *)
Definition symbol_string (ptr : Z) (fmt : list Z) : M vout unit := modify (special_hex_number ptr 8).

Definition hex_separator (c : Z) : Z :=
  if c =? 67 then 58 else if c =? 68 then 45 else if c =? 78 then 0 else 32.

Definition hex_string (addr : Z) (spec : printf_spec) (fmt : list Z) : M vout unit :=
  if field_width spec =? 0 then mret tt
  else if addr =? 0 then put_string (InMemory 0) spec
  else
    let separator := hex_separator (fmt_char fmt 1) in
    let len := if 0 <? field_width spec then Z.min (field_width spec) 64 else 1 in
    for_each (seqZ 0 len) (λ i,
      b ← gets (λ o, rd8 (v_mem o) (addr + i));
      modify (put (hex_asc_hi b)) ;;
      b ← gets (λ o, rd8 (v_mem o) (addr + i));
      modify (put (hex_asc_lo b)) ;;
      when (truthy separator && negb (i =? len - 1)) (modify (put separator))).

(** The text of a MAC address, in the local array. *)
Definition mac_text (m : bmem) (addr : Z) (fmt : list Z) : list Z :=
  let separator := if fmt_char fmt 1 =? 70 then 45 else 58 in
  let reversed := fmt_char fmt 1 =? 82 in
  (seqZ 0 6 ≫= λ i,
    let b := rd8 m (addr + (if reversed : bool then 5 - i else i)) in
    [hex_asc_hi b; hex_asc_lo b] ++
    (if (fmt_char fmt 0 =? 77) && negb (i =? 5) then [separator] else [])) ++ [0].

Definition mac_address_string (addr : Z) (spec : printf_spec) (fmt : list Z) : M vout unit :=
  m ← gets v_mem;
  put_string (Literal (mac_text m addr fmt)) spec.

Definition pointer_string (ptr : Z) (spec : printf_spec) : M vout unit :=
  let spec := set_base 16 spec in
  let spec := set_flags (ps_flags spec ||| SMALL) spec in
  let spec :=
    if field_width spec =? -1 then
      let spec := set_field_width (2 * 8) spec in set_flags (ps_flags spec ||| ZEROPAD) spec
    else spec in
  modify (number ptr spec).

Definition pointer (fmt : list Z) (ptr : Z) (spec : printf_spec) : M vout unit :=
  if ptr =? 0 then
    let spec := if field_width spec =? -1 then set_field_width (2 * 8) spec else spec in
    put_string null_text spec
  else
    let c := fmt_char fmt 0 in
    if (c =? 70) || (c =? 102) || (c =? 83) || (c =? 115) || (c =? 66) then symbol_string ptr fmt
    else if c =? 104 then hex_string ptr spec fmt
    else if (c =? 77) || (c =? 109) then mac_address_string ptr spec fmt
    else pointer_string ptr spec.
End output.

(** ** Decoding a format *)

(** [skip_atoi]: the number and the rest of the text. *)
Fixpoint skip_atoi_loop (i : Z) (fmt : list Z) : Z * list Z :=
  match fmt with
  | [] => (i, [])
  | c :: fmt => if isdigit c then skip_atoi_loop (s32 (i * 10 + c - 48)) fmt else (i, c :: fmt)
  end.
(** The first iteration of the [do] loop does not test the character. *)
Definition skip_atoi (fmt : list Z) : Z * list Z :=
  match fmt with
  | [] => (0, [])
  | c :: fmt => skip_atoi_loop (s32 (0 * 10 + c - 48)) fmt
  end.

(** [*fmt]: 0 at the end of the format. *)
Definition fmt_head (fmt : list Z) : Z := default 0 (head fmt).

(** What [format_decode] answers: the specification and the format behind the token
    (the C function returns the distance). *)
Abbreviation decoded := (printf_spec * list Z)%type.

Definition decode_conversion (qualifier : Z) (fmt : list Z) (spec : printf_spec) : decoded :=
  let spec := set_base 10 spec in
  let next := tail fmt in
  let c := fmt_head fmt in
  let integer (spec : printf_spec) : decoded :=
    let sign := ps_flags spec &&& SIGN in
    (if qualifier =? 76 then set_type FORMAT_TYPE_LONG_LONG spec
     else if qualifier =? 108 then set_type (FORMAT_TYPE_ULONG + sign) spec
     else if qualifier =? 122 then set_type FORMAT_TYPE_SIZE_T spec
     else if qualifier =? 116 then set_type FORMAT_TYPE_PTRDIFF spec
     else if qualifier =? 72 then set_type (FORMAT_TYPE_UBYTE + sign) spec
     else if qualifier =? 104 then set_type (FORMAT_TYPE_USHORT + sign) spec
     else set_type (FORMAT_TYPE_UINT + sign) spec, next) in
  if c =? 99 then (set_type FORMAT_TYPE_CHAR spec, next)
  else if c =? 115 then (set_type FORMAT_TYPE_STR spec, next)
  else if c =? 112 then (set_type FORMAT_TYPE_PTR spec, next)
  else if c =? 37 then (set_type FORMAT_TYPE_PERCENT_CHAR spec, next)
  else if c =? 111 then integer (set_base 8 spec)
  else if c =? 120 then integer (set_base 16 (set_flags (ps_flags spec ||| SMALL) spec))
  else if c =? 88 then integer (set_base 16 spec)
  else if (c =? 100) || (c =? 105) then integer (set_flags (ps_flags spec ||| SIGN) spec)
  else if c =? 117 then integer spec
  else (set_type FORMAT_TYPE_INVALID spec, fmt).

(** From the label [qualifier] on. *)
Definition decode_qualifier (fmt : list Z) (spec : printf_spec) : decoded :=
  let c := fmt_head fmt in
  if (c =? 104) || (_tolower c =? 108) || (c =? 122) || (c =? 116) then
    let fmt := tail fmt in
    if c =? fmt_head fmt then
      if c =? 108 then decode_conversion 76 (tail fmt) spec
      else if c =? 104 then decode_conversion 72 (tail fmt) spec
      else decode_conversion c fmt spec
    else decode_conversion c fmt spec
  else decode_conversion 0 fmt spec.

(** From the label [precision] on. *)
Definition decode_precision (fmt : list Z) (spec : printf_spec) : decoded :=
  let spec := set_precision (-1) spec in
  if fmt_head fmt =? 46 then
    let fmt := tail fmt in
    if isdigit (fmt_head fmt) then
      let '(n, fmt) := skip_atoi fmt in
      let spec := set_precision n spec in
      let spec := if precision spec <? 0 then set_precision 0 spec else spec in
      decode_qualifier fmt spec
    else if fmt_head fmt =? 42 then (set_type FORMAT_TYPE_PRECISION spec, tail fmt)
    else decode_qualifier fmt spec
  else decode_qualifier fmt spec.

Definition decode_width (fmt : list Z) (spec : printf_spec) : decoded :=
  let spec := set_field_width (-1) spec in
  if isdigit (fmt_head fmt) then
    let '(n, fmt) := skip_atoi fmt in decode_precision fmt (set_field_width n spec)
  else if fmt_head fmt =? 42 then (set_type FORMAT_TYPE_WIDTH spec, tail fmt)
  else decode_precision fmt spec.

Definition flag_of (c : Z) : option Z :=
  if c =? 45 then Some LEFT else if c =? 43 then Some PLUS else if c =? 32 then Some SPACE
  else if c =? 35 then Some SPECIAL else if c =? 48 then Some ZEROPAD else None.

(** The flags, from behind the [%] on. *)
Fixpoint decode_flags (fmt : list Z) (spec : printf_spec) : decoded :=
  match fmt with
  | c :: rest =>
      match flag_of c with
      | Some f => decode_flags rest (set_flags (ps_flags spec ||| f) spec)
      | None => decode_width fmt spec
      end
  | [] => decode_width [] spec
  end.

(** The text before the next [%]. *)
Fixpoint plain_text (fmt : list Z) : list Z :=
  match fmt with
  | [] => []
  | c :: fmt => if c =? 37 then [] else c :: plain_text fmt
  end.

Definition format_decode (fmt : list Z) (spec : printf_spec) : decoded :=
  if ps_type spec =? FORMAT_TYPE_WIDTH then
    let spec :=
      if field_width spec <? 0 then
        let spec := set_field_width (- field_width spec) spec in set_flags (ps_flags spec ||| LEFT) spec
      else spec in
    decode_precision fmt (set_type FORMAT_TYPE_NONE spec)
  else if ps_type spec =? FORMAT_TYPE_PRECISION then
    let spec := if precision spec <? 0 then set_precision 0 spec else spec in
    decode_qualifier fmt (set_type FORMAT_TYPE_NONE spec)
  else
    let spec := set_type FORMAT_TYPE_NONE spec in
    let text := plain_text fmt in
    match text, fmt with
    | [], _ :: rest => decode_flags rest (set_flags 0 spec)
    | _, _ => (spec, drop (length text) fmt)
    end.

(** ** [vsnprintf] *)

(** [va_arg]: the next argument; there are as many as the format asks for. *)
Definition va_arg (args : list Z) : Z * list Z :=
  match args with a :: args => (a, args) | [] => (0, []) end.

(** The argument of an integer conversion, as an [unsigned long long]. *)
Definition integer_arg (type a : Z) : Z :=
  if (type =? FORMAT_TYPE_LONG_LONG) || (type =? FORMAT_TYPE_ULONG) || (type =? FORMAT_TYPE_LONG) ||
     (type =? FORMAT_TYPE_SIZE_T) || (type =? FORMAT_TYPE_PTRDIFF) then u64 a
  else if type =? FORMAT_TYPE_UBYTE then u8 a
  else if type =? FORMAT_TYPE_BYTE then u64 (s8 a)
  else if type =? FORMAT_TYPE_USHORT then u16 a
  else if type =? FORMAT_TYPE_SHORT then u64 (s16 a)
  else if type =? FORMAT_TYPE_INT then u64 (s32 a)
  else u32 a.

(** [while (--spec.field_width > 0)]: how often, and the width after the loop.  The
    decrement is that of a 24-bit field. *)
Definition char_pad (w : Z) : Z * Z :=
  let w := swrap 24 (w - 1) in if 0 <? w then (w, 0) else (0, w).

(** [while (isalnum( *fmt)) fmt++;] *)
Fixpoint skip_alnum (fmt : list Z) : list Z :=
  match fmt with
  | c :: rest => if isalnum c then skip_alnum rest else fmt
  | [] => []
  end.

Definition INT_MAX : Z := 2 ^ 31 - 1.

(** One character of the format's own text is copied as the others are put. *)
Definition copy_text (end_ : Z) (text : list Z) (o : vout) : vout :=
  let read := Z.of_nat (length text) in
  mk_out
    (if v_str o <? end_ then
       wr_bytes (v_mem o) (v_str o)
         (take (Z.to_nat (if end_ - v_str o <? read then end_ - v_str o else read)) text)
     else v_mem o)
    (v_str o + read).

(** The [%c] conversion: the output and the field width it leaves in [spec]. *)
Definition put_char (end_ : Z) (c : Z) (spec : printf_spec) (o : vout) : vout * Z :=
  let '(o, w) :=
    if negb (has_flag spec LEFT) then
      let '(n, w) := char_pad (field_width spec) in (put_n end_ n 32 o, w)
    else (o, field_width spec) in
  let o := put end_ (u8 c) o in
  let '(n, w) := char_pad w in
  (put_n end_ n 32 o, w).

(** The variables of the loop: the rest of the format, [spec] and the arguments. *)
Definition vsn_state : Type := list Z * printf_spec * list Z.

Definition vsn_step (end_ : Z) (a : vsn_state) : M vout (vsn_state + unit) :=
  let '(fmt, spec, args) := a in
  match fmt with
  | [] => mret (inr tt)
  | _ :: _ =>
      let old_fmt := fmt in
      let '(spec, fmt) := format_decode fmt spec in
      let type := ps_type spec in
      if type =? FORMAT_TYPE_NONE then
        let read := (length old_fmt - length fmt)%nat in
        modify (copy_text end_ (take read old_fmt)) ;;
        mret (inl (fmt, spec, args))
      else if type =? FORMAT_TYPE_WIDTH then
        let '(w, args) := va_arg args in
        mret (inl (fmt, set_field_width (s32 w) spec, args))
      else if type =? FORMAT_TYPE_PRECISION then
        let '(p, args) := va_arg args in
        mret (inl (fmt, set_precision (s32 p) spec, args))
      else if type =? FORMAT_TYPE_CHAR then
        let '(c, args) := va_arg args in
        w ← (λ o, let '(o, w) := put_char end_ c spec o in Done w o);
        mret (inl (fmt, set_field_width w spec, args))
      else if type =? FORMAT_TYPE_STR then
        let '(s, args) := va_arg args in
        put_string end_ (InMemory (u64 s)) spec ;;
        mret (inl (fmt, spec, args))
      else if type =? FORMAT_TYPE_PTR then
        let '(p, args) := va_arg args in
        pointer end_ fmt (u64 p) spec ;;
        mret (inl (skip_alnum fmt, spec, args))
      else if type =? FORMAT_TYPE_PERCENT_CHAR then
        modify (put end_ 37) ;;
        mret (inl (fmt, spec, args))
      else if type =? FORMAT_TYPE_INVALID then mret (inr tt)
      else
        let '(n, args) := va_arg args in
        modify (number end_ (integer_arg type n) spec) ;;
        mret (inl (fmt, spec, args))
  end.

(** The bytes of memory after the call, and the length it answers. *)
Definition vsnprintf (buf size : Z) (fmt args : list Z) : M bmem Z := λ m,
  if INT_MAX <? size then Done 0 m
  else
    let end_ := u64 (buf + size) in
    let '(end_, size) := if end_ <? buf then (2 ^ 64 - 1, 2 ^ 64 - 1 - buf) else (end_, size) in
    match loop (vsn_step end_) (fmt, spec0, args) (mk_out m buf) with
    | Done _ o =>
        let m :=
          if 0 <? size then
            if v_str o <? end_ then wr8 (v_mem o) (v_str o) 0 else wr8 (v_mem o) (end_ - 1) 0
          else v_mem o in
        Done (s32 (v_str o - buf)) m
    | Panicked msg o => Panicked msg (v_mem o)
    | OutOfFuel o => OutOfFuel (v_mem o)
    end.

Definition vscnprintf (buf size : Z) (fmt args : list Z) : M bmem Z :=
  i ← vsnprintf buf size fmt args;
  mret (if u64 i <? size then i else if negb (size =? 0) then s32 (u64 (size - 1)) else 0).

Definition scnprintf (buf size : Z) (fmt args : list Z) : M bmem Z := vscnprintf buf size fmt args.
