(* ===== verification/VsprintfSpec.v ===== *)
(** What [lib/vsprintf.c] writes: decimal conversion is conversion to base 10, every
    routine emits a text that does not depend on the size of the buffer, and
    [vsnprintf] leaves in the buffer as much of the text as fits. *)

From S2P Require Import Prelude Mem CString Ctype Hexdump Vsprintf.
#[local] Open Scope Z_scope.
#[local] Open Scope cint_scope.

(** ** Digits *)

(** The digits of [n] in base [b], the least significant first. *)
Fixpoint rdigits (fuel : nat) (b n : Z) : list Z :=
  match fuel with
  | O => []
  | S fuel => if n <? b then [n] else n mod b :: rdigits fuel b (n / b)
  end.
Definition digits (b n : Z) : list Z := rdigits 64 b n.

Definition undigits (b : Z) (l : list Z) : Z := foldr (λ d v, d + b * v) 0 l.

Lemma rdigits_enough f f' b n : 2 ≤ b → 0 ≤ n < b ^ Z.of_nat f → (f ≤ f')%nat → (0 < f)%nat →
  rdigits f' b n = rdigits f b n.
Proof.
  revert f' n. induction f as [|f IH]; intros f' n Hb Hn Hle Hf; [lia|].
  destruct f' as [|f']; [lia|]. cbn [rdigits]. destruct (Z.ltb_spec n b); [done|]. f_equal.
  rewrite Nat2Z.inj_succ, Z.pow_succ_r in Hn by lia.
  destruct f as [|f]; [change (b ^ Z.of_nat 0) with 1 in Hn; lia|].
  apply IH; try lia. split; [apply Z.div_pos; lia|]. apply Z.div_lt_upper_bound; lia.
Qed.

Lemma digits_step b n : 2 ≤ b → 0 ≤ n < 2 ^ 64 →
  digits b n = if n <? b then [n] else n mod b :: digits b (n / b).
Proof.
  intros Hb Hn. unfold digits.
  change (rdigits 64 b n) with (if n <? b then [n] else n mod b :: rdigits 63 b (n / b)).
  destruct (Z.ltb_spec n b); [reflexivity|].
  rewrite (rdigits_enough 63 64 b (n / b)); [reflexivity|lia| |lia..].
  split; [apply Z.div_pos; lia|].
  assert (2 ^ Z.of_nat 63 ≤ b ^ Z.of_nat 63) by (apply Z.pow_le_mono_l; lia).
  apply Z.lt_le_trans with (2 ^ Z.of_nat 63); [|done].
  apply Z.div_lt_upper_bound; [lia|]. change (2 ^ Z.of_nat 63) with 9223372036854775808. lia.
Qed.

Lemma digits_induction b (P : Z → list Z → Prop) :
  2 ≤ b →
  (∀ n, 0 ≤ n < b → P n [n]) →
  (∀ n l, b ≤ n < 2 ^ 64 → P (n / b) l → P n (n mod b :: l)) →
  ∀ n, 0 ≤ n < 2 ^ 64 → P n (digits b n).
Proof.
  intros Hb Hbase Hstep n Hn.
  induction n as [n IH] using (well_founded_induction (Z.lt_wf 0)).
  rewrite digits_step by done. destruct (Z.ltb_spec n b) as [|Hge]; [apply Hbase; lia|].
  assert (0 ≤ n / b) by (apply Z.div_pos; lia).
  assert (n / b < n) by (apply Z.div_lt; lia).
  apply Hstep; [lia|]. apply IH; lia.
Qed.

Lemma digits_value b n : 2 ≤ b → 0 ≤ n < 2 ^ 64 → undigits b (digits b n) = n.
Proof.
  intros Hb Hn. apply (digits_induction b (λ n l, undigits b l = n)); try done.
  - intros k Hk. cbn. lia.
  - intros k l Hk Hl. unfold undigits in *. cbn [foldr]. rewrite Hl. pose proof (Z.div_mod k b). lia.
Qed.

Lemma digits_range b n : 2 ≤ b → 0 ≤ n < 2 ^ 64 → Forall (λ d, 0 ≤ d < b) (digits b n).
Proof.
  intros Hb Hn. apply (digits_induction b (λ n l, Forall (λ d, 0 ≤ d < b) l)); try done.
  - intros k Hk. by constructor.
  - intros k l Hk Hl. constructor; [|done]. apply Z.mod_pos_bound. lia.
Qed.

Lemma digits_length b n k : 2 ≤ b → 0 ≤ n < b ^ Z.of_nat k → b ^ Z.of_nat k ≤ 2 ^ 64 → (0 < k)%nat →
  (0 < length (digits b n) ≤ k)%nat.
Proof.
  intros Hb. revert n. induction k as [|k IH]; intros n Hn Hk Hpos; [lia|].
  rewrite Nat2Z.inj_succ, Z.pow_succ_r in Hn, Hk by lia.
  assert (0 < b ^ Z.of_nat k) by (apply Z.pow_pos_nonneg; lia).
  rewrite digits_step by lia. destruct (Z.ltb_spec n b); [cbn; lia|].
  destruct k as [|k]; [change (b ^ Z.of_nat 0) with 1 in Hn; lia|].
  destruct (IH (n / b)); [|nia|lia|cbn [length]; lia].
  split; [apply Z.div_pos; lia|]. apply Z.div_lt_upper_bound; lia.
Qed.

(** ** Decimal conversion *)

Definition ascii_digits (l : list Z) : list Z := (λ d, d + 48) <$> l.

(** The array holds the digits [l], and [buf] is behind them. *)
Definition holds_digits (b : list Z * Z) (l : list Z) : Prop :=
  length b.1 = 24%nat ∧ b.2 = Z.of_nat (length l) ∧ take (length l) b.1 = ascii_digits l.

Lemma decpair_spec x : 0 ≤ x < 100 →
  u8 (aget decpair x) = x mod 10 + 48 ∧ u8 (aget decpair x >>> 8) = x / 10 + 48.
Proof.
  intros Hx. cut ((u8 (aget decpair x) =? x mod 10 + 48) && (u8 (aget decpair x >>> 8) =? x / 10 + 48) = true).
  { intros [?%Z.eqb_eq ?%Z.eqb_eq]%andb_prop. done. }
  assert (forallb (λ x, (u8 (aget decpair x) =? x mod 10 + 48) && (u8 (aget decpair x >>> 8) =? x / 10 + 48))
    (seqZ 0 100) = true) as H by (vm_compute; reflexivity).
  apply (forallb_seqZ _ _ _ x H). lia.
Qed.

Lemma put_pair_ok b l x :
  holds_digits b l → 0 ≤ x < 100 → (length l + 2 ≤ 24)%nat →
  holds_digits (put_pair b x) (l ++ [x mod 10; x / 10]).
Proof.
  intros (Hl & Hi & Ht) Hx Hroom. destruct (decpair_spec x Hx) as [H1 H2].
  unfold put_pair, store16, holds_digits. cbn [fst snd]. rewrite H1, H2, Hi, !aset_length, length_app. cbn [length].
  split_and!; [done|lia|].
  pose proof (take_aset_S (aset b.1 (Z.of_nat (length l)) (x mod 10 + 48)) (Z.of_nat (length l) + 1) (x / 10 + 48)) as Hb.
  pose proof (take_aset_S b.1 (Z.of_nat (length l)) (x mod 10 + 48)) as Ha.
  rewrite aset_length in Hb. replace (Z.to_nat (Z.of_nat (length l) + 1 + 1)) with (length l + 2)%nat in Hb by lia.
  rewrite Nat2Z.id in Ha. rewrite Hb, Ha, Ht by lia. unfold ascii_digits. by rewrite fmap_app, <- app_assoc.
Qed.

(** The last pair, of which one digit counts when the number is below 10. *)
Lemma put_last_ok b l r :
  holds_digits b l → 0 ≤ r < 100 → (length l + 2 ≤ 24)%nat →
  holds_digits ((put_pair b r).1, b.2 + (if r <? 10 then 1 else 2)) (l ++ digits 10 r).
Proof.
  intros Hb Hr Hroom. pose proof (put_pair_ok b l r Hb Hr Hroom) as (H1 & H2 & H3).
  destruct Hb as (_ & Hi & _). rewrite digits_step by lia. unfold holds_digits. cbn [fst snd].
  destruct (Z.ltb_spec r 10).
  - rewrite length_app. cbn [length]. split_and!; [done|lia|].
    rewrite Z.mod_small in H3 by lia. rewrite length_app in H3. cbn [length] in H3.
    replace (length l + 1)%nat with (Nat.min (length l + 1) (length l + 2)) by lia.
    rewrite <- take_take, H3. unfold ascii_digits. rewrite !fmap_app. cbn.
    rewrite take_app_ge by (rewrite length_fmap; lia). rewrite length_fmap.
    by replace (length l + 1 - length l)%nat with 1%nat by lia.
  - rewrite digits_step by divlia. destruct (Z.ltb_spec (r / 10) 10); [|divlia].
    rewrite length_app in *. cbn [length] in *. split_and!; [done|lia|done].
Qed.

Lemma div100_8_ok r : 0 ≤ r < 100000000 → div100_8 r = r / 100.
Proof.
  intros Hr. unfold div100_8. rewrite (wrap_small 64), Z.shiftr_div_pow2 by lia.
  rewrite wrap_small; divlia.
Qed.

Lemma div100_4_ok r : 0 ≤ r < 10000 → div100_4 r = r / 100.
Proof.
  intros Hr. unfold div100_4. rewrite (wrap_small 32), Z.shiftr_div_pow2 by lia. divlia.
Qed.

Lemma rem100 r : 0 ≤ r < 2 ^ 32 → u32 (r - 100 * (r / 100)) = r mod 100.
Proof. intros Hr. rewrite wrap_small; divlia. Qed.

Lemma digits_pair n : 100 ≤ n < 2 ^ 64 → digits 10 n = (n mod 100) mod 10 :: (n mod 100) / 10 :: digits 10 (n / 100).
Proof.
  intros Hn. rewrite digits_step by lia. destruct (Z.ltb_spec n 10); [lia|].
  rewrite digits_step by divlia. destruct (Z.ltb_spec (n / 10) 10); [divlia|].
  rewrite Z.div_div by lia. apply (f_equal2 cons); [divlia|]. apply (f_equal2 cons); [divlia|done].
Qed.

Lemma app_two {A} (l : list A) x y k : l ++ x :: y :: k = (l ++ [x; y]) ++ k.
Proof. by rewrite <- app_assoc. Qed.

Lemma put_dec_trunc8_ok b l r :
  holds_digits b l → 0 ≤ r < 100000000 → (length l ≤ 16)%nat →
  holds_digits (put_dec_trunc8 b r) (l ++ digits 10 r).
Proof.
  intros Hb Hr Hroom. unfold put_dec_trunc8.
  destruct (Z.ltb_spec r 100); [apply put_last_ok; (done || lia)|].
  rewrite digits_pair, div100_8_ok, rem100 by lia. cbv zeta.
  pose proof (put_pair_ok b l (r mod 100) Hb ltac:(divlia) ltac:(lia)) as Hd1.
  rewrite (app_two l). set (l1 := l ++ _) in *. set (b1 := put_pair b _) in *.
  assert (length l1 = length l + 2)%nat as Hl1 by (unfold l1; rewrite length_app; done).
  destruct (Z.ltb_spec (r / 100) 100); [apply put_last_ok; (divlia || lia || done)|].
  rewrite digits_pair, (div100_8_ok (r / 100)), rem100 by divlia.
  pose proof (put_pair_ok b1 l1 (r / 100 mod 100) Hd1 ltac:(divlia) ltac:(lia)) as Hd2.
  rewrite (app_two l1). set (l2 := l1 ++ _) in *. set (b2 := put_pair b1 _) in *.
  assert (length l2 = length l1 + 2)%nat as Hl2 by (unfold l2; rewrite length_app; done).
  destruct (Z.ltb_spec (r / 100 / 100) 100); [apply put_last_ok; (divlia || lia || done)|].
  rewrite digits_pair, (div100_4_ok (r / 100 / 100)), rem100 by divlia.
  pose proof (put_pair_ok b2 l2 (r / 100 / 100 mod 100) Hd2 ltac:(divlia) ltac:(lia)) as Hd3.
  rewrite (app_two l2). apply put_last_ok; [done|divlia|]. rewrite length_app. cbn. lia.
Qed.

(** The eight low digits of a number with more. *)
Lemma put_dec_full8_ok b l n :
  holds_digits b l → 100000000 ≤ n < 2 ^ 64 → (length l ≤ 8)%nat →
  ∃ l', length l' = 8%nat ∧ digits 10 n = l' ++ digits 10 (n / 100000000) ∧
    holds_digits (put_dec_full8 b (n mod 100000000)) (l ++ l').
Proof.
  intros Hb Hn Hroom. set (r := n mod 100000000). assert (0 ≤ r < 100000000) by (unfold r; divlia).
  exists [r mod 100 mod 10; r mod 100 / 10; r / 100 mod 100 mod 10; r / 100 mod 100 / 10;
    r / 100 / 100 mod 100 mod 10; r / 100 / 100 mod 100 / 10; r / 100 / 100 / 100 mod 10; r / 100 / 100 / 100 / 10].
  split; [done|]. split.
  - rewrite digits_pair, (digits_pair (n / 100)), (digits_pair (n / 100 / 100)), (digits_pair (n / 100 / 100 / 100))
      by divlia.
    rewrite !Z.div_div by lia. cbn [app]. unfold r.
    repeat (apply (f_equal2 cons); [divlia|]). done.
  - unfold put_dec_full8. rewrite div100_8_ok, rem100, (div100_8_ok (r / 100)), rem100,
      (div100_4_ok (r / 100 / 100)), rem100 by divlia. cbv zeta.
    assert (∀ b l x, holds_digits b l → 0 ≤ x < 100 → (length l ≤ 22)%nat →
      holds_digits (put_pair b x) (l ++ [x mod 10; x / 10]) ∧ length (l ++ [x mod 10; x / 10]) = (length l + 2)%nat) as Hp.
    { intros b0 l0 x H0 Hx Hl0. split; [apply put_pair_ok; (done || lia)|]. by rewrite length_app. }
    destruct (Hp b l (r mod 100)) as [H1 L1]; [done|divlia|lia|].
    destruct (Hp _ _ (r / 100 mod 100) H1) as [H2 L2]; [divlia|lia|].
    destruct (Hp _ _ (r / 100 / 100 mod 100) H2) as [H3 L3]; [divlia|lia|].
    destruct (Hp _ _ (r / 100 / 100 / 100) H3) as [H4 L4]; [divlia|lia|].
    rewrite <- !app_assoc in H4. exact H4.
Qed.

Lemma put_dec_ok tmp n :
  length tmp = 24%nat → 0 ≤ n < 2 ^ 64 → holds_digits (put_dec (tmp, 0) n) (digits 10 n).
Proof.
  intros Hl Hn. assert (holds_digits (tmp, 0) []) as H0 by done.
  unfold put_dec, do_div. cbn [fst snd]. change (100 * 1000 * 1000) with 100000000.
  destruct (Z.leb_spec 100000000 n) as [Hge|Hlt]; cbn [fst snd].
  - rewrite (wrap_small 32) by divlia.
    destruct (put_dec_full8_ok _ _ n H0 ltac:(lia) ltac:(cbn; lia)) as (l1 & Hl1 & Hd1 & Hp1).
    rewrite app_nil_l in Hp1. rewrite Hd1. set (b1 := put_dec_full8 _ _) in *. set (n1 := n / 100000000) in *.
    assert (0 ≤ n1 < 2 ^ 38) as Hn1 by (unfold n1; divlia).
    destruct (Z.leb_spec 100000000 n1); cbn [fst snd].
    + rewrite !(wrap_small 32) by divlia.
      destruct (put_dec_full8_ok b1 l1 n1 Hp1 ltac:(lia) ltac:(lia)) as (l2 & Hl2 & Hd2 & Hp2).
      rewrite Hd2, app_assoc. apply put_dec_trunc8_ok; [done|divlia|]. rewrite length_app. lia.
    + rewrite !(wrap_small 32) by divlia. apply put_dec_trunc8_ok; [done|lia|lia].
  - destruct (Z.leb_spec 100000000 n); [lia|]. cbn [fst snd]. rewrite wrap_small by lia.
    apply (put_dec_trunc8_ok _ []); [done|lia|cbn; lia].
Qed.

(** The first digit is 0 only for 0. *)
Lemma digits_top n : 0 ≤ n < 2 ^ 64 →
  (n = 0 → digits 10 n = [0]) ∧ (n ≠ 0 → digits 10 n ≠ [] ∧ last (digits 10 n) ≠ Some 0).
Proof.
  intros Hn.
  apply (digits_induction 10 (λ n l, (n = 0 → l = [0]) ∧ (n ≠ 0 → l ≠ [] ∧ last l ≠ Some 0))); [lia| | |done].
  - intros k Hk. split; [by intros ->|]. intros Hne. split; [done|]. by intros [= ->].
  - intros k l Hk [_ Hl']. split; [lia|]. intros _. split; [done|].
    destruct Hl' as [Hne Hlast]; [divlia|]. destruct l as [|d l]; [done|]. done.
Qed.

(** The conversion with a table of pairs and multiplications instead of divisions is
    conversion to base 10: it writes the digits of the number, the least significant
    first, without a leading zero. *)
Theorem put_dec_correct tmp n :
  length tmp = 24%nat → 0 ≤ n < 2 ^ 64 →
  let '(tmp', i) := put_dec (tmp, 0) n in
  let l := digits 10 n in
  i = Z.of_nat (length l) ∧ take (Z.to_nat i) tmp' = ascii_digits l ∧
  undigits 10 l = n ∧ (l = [0] ∨ last l ≠ Some 0).
Proof.
  intros Hl Hn. pose proof (put_dec_ok tmp n Hl Hn) as (H1 & H2 & H3).
  destruct (put_dec (tmp, 0) n) as [tmp' i]. cbn [fst snd] in *. subst i. rewrite Nat2Z.id.
  split_and!; [done|done|by apply digits_value|].
  destruct (digits_top n Hn) as [Hz Hnz].
  destruct (decide (n = 0)); [left; auto|right; by apply Hnz].
Qed.

Lemma put_dec_correct_witness :
  let '(tmp', i) := put_dec (replicate 24 0, 0) (2 ^ 64 - 1) in
  let l := digits 10 (2 ^ 64 - 1) in
  i = Z.of_nat (length l) ∧ take (Z.to_nat i) tmp' = ascii_digits l ∧
  undigits 10 l = 2 ^ 64 - 1 ∧ (l = [0] ∨ last l ≠ Some 0).
Proof. apply (put_dec_correct (replicate 24 0) (2 ^ 64 - 1)); [reflexivity|lia]. Defined.

(** ** Reading a number back *)

Lemma skip_atoi_loop_digits l rest i :
  Forall (λ d, 0 ≤ d < 10) l → isdigit (fmt_head rest) = false →
  0 ≤ i → foldl (λ i d, i * 10 + d) i l < 2 ^ 31 →
  skip_atoi_loop i (ascii_digits l ++ rest) = (foldl (λ i d, i * 10 + d) i l, rest).
Proof.
  intros Hl Hrest. revert i. induction Hl as [|d l Hd Hl IH]; intros i Hi Hb.
  - cbn. destruct rest as [|c rest]; [done|]. cbn in *. by rewrite Hrest.
  - cbn [ascii_digits fmap list_fmap app skip_atoi_loop foldl] in *.
    assert (isdigit (d + 48) = true) as ->.
    { unfold isdigit. apply andb_true_intro. rewrite !Z.leb_le. lia. }
    assert (∀ l i, Forall (λ d, 0 ≤ d < 10) l → 0 ≤ i → i ≤ foldl (λ i d, i * 10 + d) i l) as Hmono.
    { clear. intros l i Hl. revert i. induction Hl as [|d l Hd Hl IH]; intros i Hi; cbn; [lia|].
      specialize (IH (i * 10 + d) ltac:(lia)). lia. }
    pose proof (Hmono l (i * 10 + d) Hl ltac:(lia)).
    replace (i * 10 + (d + 48) - 48) with (i * 10 + d) by lia. rewrite s32_small by lia. apply IH; lia.
Qed.

Lemma foldl_undigits l : foldl (λ i d, i * 10 + d) 0 (rev l) = undigits 10 l.
Proof.
  induction l as [|d l IH]; [done|]. cbn [rev]. rewrite foldl_app, IH. unfold undigits. cbn. lia.
Qed.

Lemma rev_fmap {A B} (f : A → B) l : rev (f <$> l) = f <$> rev l.
Proof. symmetry. apply map_rev. Qed.

Definition decimal (n : Z) : list Z := rev (ascii_digits (digits 10 n)).

(** [skip_atoi] reads back the decimal text of a number, whatever non-digit follows. *)
Lemma skip_atoi_decimal n rest :
  0 ≤ n < 2 ^ 31 → isdigit (fmt_head rest) = false → skip_atoi (decimal n ++ rest) = (n, rest).
Proof.
  intros Hn Hrest. unfold decimal.
  pose proof (digits_range 10 n ltac:(lia) ltac:(lia)) as Hr.
  pose proof (digits_value 10 n ltac:(lia) ltac:(lia)) as Hv.
  pose proof (digits_length 10 n 19 ltac:(lia) ltac:(lia) ltac:(lia) ltac:(lia)) as Hlen.
  rewrite <- foldl_undigits in Hv. unfold ascii_digits. rewrite rev_fmap.
  apply Forall_rev in Hr. rewrite <- length_rev in Hlen.
  destruct (rev (digits 10 n)) as [|d l]; [cbn in Hlen; lia|].
  apply Forall_cons in Hr as [Hd Hr]. cbn [foldl] in Hv.
  cbn [fmap list_fmap app skip_atoi]. rewrite s32_small by lia.
  fold (ascii_digits l). replace (0 * 10 + (d + 48) - 48) with (0 * 10 + d) by lia.
  rewrite <- Hv. apply skip_atoi_loop_digits; (done || lia).
Qed.

Lemma decimal_head n : 0 ≤ n < 2 ^ 64 →
  ∃ d l, decimal n = d :: l ∧ isdigit d = true ∧ (n ≠ 0 → d ≠ 48).
Proof.
  intros Hn. destruct (digits_top n Hn) as [Hz Hnz]. pose proof (digits_range 10 n ltac:(lia) Hn) as Hr.
  assert (last (digits 10 n) ≠ None) as Hl.
  { destruct (decide (n = 0)); [by rewrite Hz|]. rewrite last_None. by apply Hnz. }
  destruct (last (digits 10 n)) as [d|] eqn:E; [|done]. apply last_Some in E as [l E].
  rewrite E in Hr. apply Forall_app in Hr as [_ Hr]. apply Forall_cons in Hr as [Hr _].
  unfold decimal, ascii_digits. rewrite E, fmap_app, rev_app_distr. cbn. eexists _, _. split; [done|]. split.
  - unfold isdigit. rewrite andb_true_iff, !Z.leb_le. lia.
  - intros Hn0. apply Hnz in Hn0 as [_ Hd]. intros ?. apply Hd. f_equal. lia.
Qed.

(** ** Texts *)

Section emits.
Context (end_ : Z).

(** [m'] is [m] with the characters [t] from [s] on, as far as they are below [end_]. *)
Definition writes (s : Z) (t : list Z) (m m' : bmem) : Prop :=
  ∀ a, rd8 m' a =
    if decide (s ≤ a < Z.min (s + Z.of_nat (length t)) end_) then u8 (aget t (a - s)) else rd8 m a.

(** From [o] to [o'] the text [t] was put out. *)
Definition emits (t : list Z) (o o' : vout) : Prop :=
  v_str o' = v_str o + Z.of_nat (length t) ∧ writes (v_str o) t (v_mem o) (v_mem o').

Lemma aget_app_l l k i : i < Z.of_nat (length l) → aget (l ++ k) i = aget l i.
Proof.
  intros Hi. unfold aget. destruct (Z.ltb_spec i 0); [done|]. by rewrite lookup_app_l by lia.
Qed.

Lemma aget_app_r l k i : Z.of_nat (length l) ≤ i → aget (l ++ k) i = aget k (i - Z.of_nat (length l)).
Proof.
  intros Hi. unfold aget. destruct (Z.ltb_spec i 0), (Z.ltb_spec (i - Z.of_nat (length l)) 0); try lia.
  rewrite lookup_app_r by lia. do 2 f_equal. lia.
Qed.

Lemma aget_replicate n x i : 0 ≤ i < Z.of_nat n → aget (replicate n x) i = x.
Proof.
  intros Hi. unfold aget. destruct (Z.ltb_spec i 0); [lia|]. by rewrite lookup_replicate_2 by lia.
Qed.

Lemma emits_nil o : emits [] o o.
Proof. split; [cbn; lia|]. intros a. cbn. rewrite decide_False; [done|lia]. Qed.

Lemma emits_app t1 t2 o o1 o2 : emits t1 o o1 → emits t2 o1 o2 → emits (t1 ++ t2) o o2.
Proof.
  intros [Hs1 Hm1] [Hs2 Hm2]. split; [rewrite length_app; lia|].
  intros a. rewrite Hm2, Hm1, Hs1, length_app. repeat case_decide; try lia.
  - rewrite aget_app_r by lia. do 2 f_equal. lia.
  - rewrite aget_app_l by lia. done.
Qed.

Lemma emits_put c o : emits [c] o (put end_ c o).
Proof.
  split; [done|]. intros a. unfold put. cbn. destruct (Z.ltb_spec (v_str o) end_).
  - rewrite rd8_wr8. destruct (decide (a = v_str o)) as [->|].
    + rewrite decide_True by lia. by rewrite Z.sub_diag.
    + by rewrite decide_False by lia.
  - rewrite decide_False by lia. done.
Qed.

Lemma emits_put_n n c o : emits (replicate (Z.to_nat n) c) o (put_n end_ n c o).
Proof.
  unfold put_n. induction (Z.to_nat n) as [|k IH]; [apply emits_nil|].
  replace (S k) with (k + 1)%nat by lia. rewrite replicate_add.
  eapply emits_app; [exact IH|]. rewrite Nat.add_1_r. apply emits_put.
Qed.

Lemma emits_put_list l o : emits l o (put_list end_ l o).
Proof.
  revert o. induction l as [|c l IH]; intros o; [apply emits_nil|].
  apply (emits_app [c] l o (put end_ c o)); [apply emits_put|apply IH].
Qed.

(** ** Numbers *)

Definition digit_char (small : bool) (d : Z) : Z :=
  if d <? 10 then d + 48 else if small then d + 87 else d + 55.

Definition negative (num : Z) (spec : printf_spec) : bool := has_flag spec SIGN && (s64 num <? 0).

Definition magnitude (num : Z) (spec : printf_spec) : Z := if negative num spec then - s64 num else num.

Definition sign_text (num : Z) (spec : printf_spec) : list Z :=
  if negative num spec then [45]
  else if has_flag spec SIGN && has_flag spec PLUS then [43]
  else if has_flag spec SIGN && has_flag spec SPACE then [32] else [].

Definition prefix_text (num : Z) (spec : printf_spec) : list Z :=
  if has_flag spec SPECIAL && negb (base spec =? 10) then
    if base spec =? 16 then [48; if has_flag spec SMALL then 120 else 88]
    else if num =? 0 then [] else [48]
  else [].

(** The text of a number, as C99 has it: sign and prefix, at least [precision] digits,
    and the width filled with spaces on either side or with zeros behind the prefix. *)
Definition number_text (num : Z) (spec : printf_spec) : list Z :=
  let lead := sign_text num spec ++ prefix_text num spec in
  let ds := digit_char (has_flag spec SMALL) <$> rev (digits (base spec) (magnitude num spec)) in
  let ds := replicate (Z.to_nat (precision spec - Z.of_nat (length ds))) 48 ++ ds in
  let fill := Z.to_nat (field_width spec - Z.of_nat (length lead + length ds)) in
  if has_flag spec LEFT then lead ++ ds ++ replicate fill 32
  else if has_flag spec ZEROPAD then lead ++ replicate fill 48 ++ ds
  else replicate fill 32 ++ lead ++ ds.

Lemma hex_digit_char d (small : bool) : 0 ≤ d < 16 →
  aget hex_asc_upper d ||| (if small then 32 else 0) = digit_char small d.
Proof.
  intros Hd. apply Z.eqb_eq.
  assert (∀ small : bool, forallb (λ d : Z, (aget hex_asc_upper d ||| (if small then 32 else 0)) =? digit_char small d)
    (seqZ 0 16) = true) as H by (by intros []).
  apply (forallb_seqZ _ _ _ d (H small)). lia.
Qed.

Lemma hex_digits_ok fuel num b shift (small : bool) :
  (b = 8 ∧ shift = 3 ∨ b = 16 ∧ shift = 4) → 0 ≤ num →
  hex_digits fuel num (b - 1) shift (if small then 32 else 0) = digit_char small <$> rdigits fuel b num.
Proof.
  intros Hb. revert num. induction fuel as [|fuel IH]; intros num Hnum; [done|].
  cbn [hex_digits rdigits].
  assert (u8 num &&& (b - 1) = num mod b) as ->.
  { destruct Hb as [[-> _]|[-> _]]; [change (8 - 1) with (2 ^ 3 - 1)|change (16 - 1) with (2 ^ 4 - 1)];
      rewrite land_mask by lia; unfold wrap; change (2 ^ 8) with 256; divlia. }
  assert (num >>> shift = num / b) as ->.
  { destruct Hb as [[-> ->]|[-> ->]]; by rewrite Z.shiftr_div_pow2 by lia. }
  rewrite hex_digit_char by (pose proof (Z.mod_pos_bound num b); lia). cbv zeta.
  destruct (Z.ltb_spec num b) as [Hlt|Hge].
  - rewrite Z.div_small, Z.mod_small by lia. done.
  - assert (0 < num / b) by (apply Z.div_str_pos; lia).
    unfold truthy. rewrite (proj2 (Z.eqb_neq _ _)) by lia. cbn [negb]. rewrite IH by lia. done.
Qed.

Lemma number_digits_ok num b (small : bool) :
  b = 8 ∨ b = 10 ∨ b = 16 → 0 ≤ num < 2 ^ 64 →
  let '(tmp, i) := number_digits num b (if small then 32 else 0) in
  i = Z.of_nat (length (digits b num)) ∧
  take (Z.to_nat i) tmp = digit_char small <$> digits b num.
Proof.
  intros Hb Hn. unfold number_digits. destruct (Z.ltb_spec num b) as [Hlt|Hge].
  - rewrite digits_step by lia. rewrite (proj2 (Z.ltb_lt _ _)) by done. split; [done|].
    cbn. by rewrite hex_digit_char by lia.
  - destruct (Z.eqb_spec b 10) as [->|Hne]; cbn [negb].
    + pose proof (put_dec_ok (replicate 24 0) num eq_refl Hn) as (H1 & H2 & H3).
      destruct (put_dec _ num) as [tmp i]. cbn [fst snd] in *. subst i. rewrite Nat2Z.id, H3.
      split; [done|]. apply list_fmap_ext. intros k d Hk.
      pose proof (digits_range 10 num ltac:(lia) Hn) as Hr. eapply Forall_lookup_1 in Hr; [|done].
      unfold digit_char. destruct (Z.ltb_spec d 10); [done|lia].
    + rewrite hex_digits_ok; [|destruct (Z.eqb_spec b 16); lia|lia].
      rewrite <- (rdigits_enough 24 64) by (destruct Hb as [-> |[-> | ->]]; lia). fold (digits b num).
      rewrite length_fmap, Nat2Z.id. split; [done|]. rewrite take_app_length' by by rewrite length_fmap. done.
Qed.

Lemma s64_bound num : - 2 ^ 63 ≤ s64 num < 2 ^ 63.
Proof.
  unfold swrap. change (64 - 1) with 63. pose proof (Z.mod_pos_bound (num + 2 ^ 63) (2 ^ 64) ltac:(lia)).
  change (2 ^ 64) with (2 ^ 63 + 2 ^ 63) in *. lia.
Qed.

Lemma magnitude_bound num spec : 0 ≤ num < 2 ^ 64 → 0 ≤ magnitude num spec < 2 ^ 64.
Proof.
  intros Hn. unfold magnitude, negative. pose proof (s64_bound num).
  destruct (has_flag spec SIGN), (Z.ltb_spec (s64 num) 0); cbn; lia.
Qed.

Lemma number_sign_ok num w spec :
  0 ≤ num < 2 ^ 64 →
  ∃ sign, number_sign num w spec = (sign, magnitude num spec, w - Z.of_nat (length (sign_text num spec))) ∧
    sign_text num spec = if truthy sign then [sign] else [].
Proof.
  intros Hn. unfold number_sign, sign_text, magnitude, negative. pose proof (s64_bound num).
  destruct (has_flag spec SIGN); cbn [andb].
  2: { exists 0. rewrite Z.sub_0_r. done. }
  destruct (Z.ltb_spec (s64 num) 0).
  - exists 45. rewrite wrap_small by lia. done.
  - destruct (has_flag spec PLUS); [by exists 43|]. destruct (has_flag spec SPACE); [by exists 32|].
    exists 0. rewrite Z.sub_0_r. done.
Qed.

(** [LEFT] overrides [ZEROPAD]; the other flags stay as they are. *)
Lemma left_flags spec :
  0 ≤ ps_flags spec < 256 →
  let spec' := if has_flag spec LEFT then set_flags (ps_flags spec &&& not32 ZEROPAD) spec else spec in
  has_flag spec' LEFT = has_flag spec LEFT ∧ has_flag spec' SIGN = has_flag spec SIGN ∧
  has_flag spec' PLUS = has_flag spec PLUS ∧ has_flag spec' SPACE = has_flag spec SPACE ∧
  has_flag spec' (ZEROPAD ||| LEFT) = has_flag spec LEFT || has_flag spec ZEROPAD ∧
  (has_flag spec LEFT = false → ps_flags spec' &&& ZEROPAD = if has_flag spec ZEROPAD then 16 else 0) ∧
  ps_flags spec &&& SMALL = if has_flag spec SMALL then 32 else 0.
Proof.
  intros Hf. destruct spec as [t w f b p]. cbn [ps_flags] in Hf. unfold has_flag, set_flags. cbn [ps_flags].
  assert (forallb (λ f,
    let f' := if truthy (f &&& LEFT) then u8 (f &&& not32 ZEROPAD) else f in
    eqb (truthy (f' &&& LEFT)) (truthy (f &&& LEFT)) && eqb (truthy (f' &&& SIGN)) (truthy (f &&& SIGN)) &&
    eqb (truthy (f' &&& PLUS)) (truthy (f &&& PLUS)) && eqb (truthy (f' &&& SPACE)) (truthy (f &&& SPACE)) &&
    eqb (truthy (f' &&& (ZEROPAD ||| LEFT))) (truthy (f &&& LEFT) || truthy (f &&& ZEROPAD)) &&
    (truthy (f &&& LEFT) || (f' &&& ZEROPAD =? if truthy (f &&& ZEROPAD) then 16 else 0)) &&
    (f &&& SMALL =? if truthy (f &&& SMALL) then 32 else 0)) (seqZ 0 256) = true) as H by (vm_compute; reflexivity).
  apply (forallb_seqZ _ _ _ f) in H; [|lia]. cbv zeta in *.
  repeat (apply andb_prop in H; let H' := fresh in destruct H as [H H']).
  repeat match goal with
  | H : eqb _ _ = true |- _ => apply eqb_prop in H
  end.
  destruct (truthy (f &&& LEFT)) eqn:HL; cbn [ps_flags orb] in *; rewrite ?HL in *;
    repeat match goal with H : (_ =? _) = true |- _ => apply Z.eqb_eq in H end;
    split_and!; (assumption || done || (by intros)).
Qed.

(** A padding loop that comes after another has nothing to do. *)
Lemma put_n_none c w o : w < 0 → put_n end_ w c o = o.
Proof. intros. unfold put_n. by rewrite Z2Nat.nonpos by lia. Qed.

Lemma emits_prefix num spec o :
  emits (prefix_text num spec) o
    (if has_flag spec SPECIAL && negb (base spec =? 10) then
       let o := if (base spec =? 16) || negb (num =? 0) then put end_ 48 o else o in
       if base spec =? 16 then put end_ (88 ||| (if has_flag spec SMALL then 32 else 0)) o else o
     else o).
Proof.
  unfold prefix_text. destruct (has_flag spec SPECIAL && negb (base spec =? 10)); [|apply emits_nil].
  destruct (base spec =? 16); cbn [orb].
  - apply (emits_app [48] [_] o (put end_ 48 o)); [apply emits_put|].
    replace (88 ||| (if has_flag spec SMALL then 32 else 0)) with (if has_flag spec SMALL then 120 else 88)
      by by destruct (has_flag spec SMALL).
    apply emits_put.
  - destruct (num =? 0); [apply emits_nil|apply emits_put].
Qed.

Lemma prefix_width num spec w :
  (if has_flag spec SPECIAL && negb (base spec =? 10) then
     if base spec =? 16 then w - 2 else if negb (num =? 0) then w - 1 else w
   else w) = w - Z.of_nat (length (prefix_text num spec)).
Proof. unfold prefix_text. repeat case_match; cbn; lia. Qed.

Lemma emits_sign sign o :
  emits (if truthy sign then [sign] else []) o (if truthy sign then put end_ sign o else o).
Proof. destruct (truthy sign); [apply emits_put|apply emits_nil]. Qed.

Lemma emits_digits ds p o :
  emits (replicate (Z.to_nat (p - Z.of_nat (length ds))) 48 ++ ds) o
    (put_list end_ ds (put_n end_ ((if p <? Z.of_nat (length ds) then Z.of_nat (length ds) else p) - Z.of_nat (length ds)) 48 o)).
Proof.
  eapply emits_app; [|apply emits_put_list].
  replace (Z.to_nat (p - _)) with
    (Z.to_nat ((if p <? Z.of_nat (length ds) then Z.of_nat (length ds) else p) - Z.of_nat (length ds))).
  - apply emits_put_n.
  - destruct (Z.ltb_spec p (Z.of_nat (length ds))); lia.
Qed.

Lemma digits_width ds p w :
  Z.to_nat (w - (if p <? Z.of_nat (length ds) then Z.of_nat (length ds) else p)) =
  Z.to_nat (w - Z.of_nat (length (replicate (Z.to_nat (p - Z.of_nat (length ds))) 48 ++ ds))).
Proof.
  rewrite length_app, length_replicate. destruct (Z.ltb_spec p (Z.of_nat (length ds))); f_equal; lia.
Qed.

Lemma number_emits num spec o :
  0 ≤ num < 2 ^ 64 → 0 ≤ ps_flags spec < 256 → base spec = 8 ∨ base spec = 10 ∨ base spec = 16 →
  emits (number_text num spec) o (number end_ num spec o).
Proof.
  intros Hn Hf Hb. unfold number.
  destruct (left_flags spec Hf) as (HL & HS & HP & HSp & HZL & HZ & Hsmall). cbv zeta in *.
  set (spec' := if has_flag spec LEFT then _ else spec) in *.
  assert (base spec' = base spec) as Hbase by (unfold spec'; by destruct (has_flag spec LEFT)).
  assert (sign_text num spec' = sign_text num spec) as Hst by (unfold sign_text, negative; by rewrite HS, HP, HSp).
  assert (magnitude num spec' = magnitude num spec) as Hmag by (unfold magnitude, negative; by rewrite HS).
  destruct (number_sign_ok num (field_width spec) spec' Hn) as (sign & Hsign & Hsign'). rewrite Hsign, Hst, Hmag in *.
  rewrite Hbase, Hsmall. clear Hsign.
  pose proof (number_digits_ok (magnitude num spec) (base spec) (has_flag spec SMALL) Hb (magnitude_bound _ _ Hn)) as Hd.
  destruct (number_digits _ _ _) as [tmp i]. destruct Hd as [Hi Htmp].
  rewrite prefix_width, HL, HZL. unfold number_text. set (ds := digit_char _ <$> rev _).
  assert (rev (take (Z.to_nat i) tmp) = ds) as -> by (rewrite Htmp; apply rev_fmap).
  assert (i = Z.of_nat (length ds)) as -> by (unfold ds; rewrite length_fmap, length_rev; done).
  set (p := if precision spec <? _ then _ else _).
  set (w := field_width spec - Z.of_nat (length (sign_text num spec)) - Z.of_nat (length (prefix_text num spec))).
  assert (Z.to_nat (w - p) = Z.to_nat (field_width spec - Z.of_nat (length (sign_text num spec ++ prefix_text num spec) +
    length (replicate (Z.to_nat (precision spec - Z.of_nat (length ds))) 48 ++ ds)))) as <-.
  { unfold p. rewrite digits_width. f_equal. unfold w. rewrite (length_app (sign_text num spec)). lia. }
  pose proof (emits_digits ds (precision spec)) as Hds. fold p in Hds. rewrite Hsign'.
  destruct (has_flag spec LEFT) eqn:EL; cbn [negb orb]; cbv zeta.
  - eapply emits_app; [eapply emits_app; [apply emits_sign|apply emits_prefix]|].
    eapply emits_app; [apply Hds|]. apply emits_put_n.
  - rewrite (HZ eq_refl). destruct (has_flag spec ZEROPAD); cbn [negb].
    + unfold pad. cbn [fst snd]. rewrite !(put_n_none _ (Z.min _ _)) by lia.
      eapply emits_app; [eapply emits_app; [apply emits_sign|apply emits_prefix]|].
      eapply emits_app; [apply emits_put_n|apply Hds].
    + unfold pad. cbn [fst snd]. rewrite !(put_n_none _ (Z.min _ _)) by lia.
      eapply emits_app; [apply emits_put_n|].
      eapply emits_app; [eapply emits_app; [apply emits_sign|apply emits_prefix]|apply Hds].
Qed.


(** ** Strings *)

(** A text in a field of the width of [spec]. *)
Definition widened (spec : printf_spec) (l : list Z) : list Z :=
  let fill := replicate (Z.to_nat (field_width spec - Z.of_nat (length l))) 32 in
  if has_flag spec LEFT then l ++ fill else fill ++ l.

Definition spec_ok (spec : printf_spec) : Prop :=
  - 2 ^ 23 ≤ field_width spec < 2 ^ 23 ∧ 0 ≤ ps_flags spec < 256 ∧ - 2 ^ 15 ≤ precision spec < 2 ^ 15.

Lemma move_right_writes s l spaces m m1 :
  writes s l m m1 → 0 < spaces →
  writes s (replicate (Z.to_nat spaces) 32 ++ l) m (move_right end_ s (Z.of_nat (length l)) spaces m1).
Proof.
  intros Hm Hsp a. rewrite length_app, length_replicate.
  assert (∀ b, s ≤ b < s + spaces → aget (replicate (Z.to_nat spaces) 32 ++ l) (b - s) = 32) as Hfill.
  { intros b Hb. rewrite aget_app_l by (rewrite length_replicate; lia). apply aget_replicate. lia. }
  assert (∀ b, s + spaces ≤ b → aget (replicate (Z.to_nat spaces) 32 ++ l) (b - s) = aget l (b - s - spaces)) as Htext.
  { intros b Hb. rewrite aget_app_r by (rewrite length_replicate; lia). rewrite length_replicate, Z2Nat.id by lia. done. }
  unfold move_right. destruct (Z.leb_spec end_ s).
  { rewrite Hm. by rewrite !decide_False by lia. }
  destruct (Z.leb_spec (end_ - s) spaces).
  { rewrite rd8_memset, Hm by lia. repeat case_decide; try lia; try done. by rewrite Hfill by lia. }
  assert (truthy (Z.of_nat (length l)) = bool_decide (0 < length l)%nat) as ->.
  { unfold truthy. case_bool_decide; destruct (Z.eqb_spec (Z.of_nat (length l)) 0); (done || lia). }
  rewrite rd8_memset by lia. destruct (decide (s ≤ a < s + spaces)).
  { rewrite decide_True, Hfill by lia. done. }
  case_bool_decide as Hl.
  - rewrite rd8_memmove by (case_match; lia). rewrite !Hm.
    destruct (Z.ltb_spec (end_ - s - spaces) (Z.of_nat (length l))).
    + repeat case_decide; try lia; try done. rewrite Htext by lia. do 2 f_equal. lia.
    + repeat case_decide; try lia; try done. rewrite Htext by lia. do 2 f_equal. lia.
  - rewrite Hm. by rewrite !decide_False by lia.
Qed.

Lemma widen_string_emits spec l o o1 :
  spec_ok spec → emits l o o1 →
  emits (widened spec l) o (widen_string end_ (Z.of_nat (length l)) spec o1).
Proof.
  intros (Hw & _) Hl. unfold widened, widen_string. destruct (Z.leb_spec (field_width spec) (Z.of_nat (length l))).
  { rewrite Z2Nat.nonpos by lia. cbn [replicate]. rewrite app_nil_r. by destruct (has_flag spec LEFT). }
  rewrite wrap_small by lia. destruct (has_flag spec LEFT); cbn [negb].
  - eapply emits_app; [exact Hl|apply emits_put_n].
  - destruct Hl as [Hs Hm]. split; cbn.
    + rewrite length_app, length_replicate. lia.
    + rewrite Hs. replace (v_str o + Z.of_nat (length l) - Z.of_nat (length l)) with (v_str o) by lia.
      apply move_right_writes; [done|lia].
Qed.

(** The characters of a string, up to the null or to [lim] of them. *)
Record chars_of (m : bmem) (s : cstring) (lim : Z) (l : list Z) : Prop := {
  chars_lim : Z.of_nat (length l) ≤ lim;
  chars_at i : 0 ≤ i < Z.of_nat (length l) → char_at m s i = aget l i ∧ aget l i ≠ 0;
  chars_end : Z.of_nat (length l) < lim → char_at m s (Z.of_nat (length l)) = 0;
}.

(** The string is not where the output goes. *)
Definition string_apart (s : cstring) (lo n : Z) : Prop :=
  match s with InMemory a => a + n < lo ∨ end_ ≤ a | Literal _ => True end.

Lemma char_at_apart m m1 s lo l i n :
  writes lo l m m1 → string_apart s lo n → i ≤ n → 0 ≤ i → char_at m1 s i = char_at m s i.
Proof.
  intros Hm Ha Hi H0. destruct s as [a|t]; [|done]. cbn in *. rewrite Hm. by rewrite decide_False by lia.
Qed.

(** [string] puts out the characters of the string in its field. *)
Lemma put_string_emits s spec o :
  spec_ok spec →
  let s' := match s with InMemory a => if a =? 0 then null_text else s | Literal _ => s end in
  ∃ l o', put_string end_ s spec o = Done tt o' ∧ emits (widened spec l) o o' ∧
    (string_apart s' (v_str o) (Z.of_nat (length l)) → chars_of (v_mem o) s' (u64 (precision spec)) l).
Proof.
  intros Hspec s'. unfold put_string. fold s'. set (lim0 := u64 (precision spec)).
  assert (0 ≤ lim0 < 2 ^ 64) as Hlim0 by (apply wrap_bound; lia).
  destruct (loop_total (string_step end_ s')
    (λ a o', ∃ l, a.2 = Z.of_nat (length l) ∧ 0 ≤ a.1 ∧ a.1 + a.2 = lim0 ∧ emits l o o' ∧
      (string_apart s' (v_str o) (Z.of_nat (length l)) →
       ∀ i, 0 ≤ i < Z.of_nat (length l) → char_at (v_mem o) s' i = aget l i ∧ aget l i ≠ 0))
    (λ n o', ∃ l, n = Z.of_nat (length l) ∧ emits l o o' ∧
      (string_apart s' (v_str o) (Z.of_nat (length l)) → chars_of (v_mem o) s' lim0 l))
    (λ a _, a.1)) with (a := (lim0, 0)) (s := o) as (n & o1 & Hr & l & -> & Hl & Hc).
  - intros [lim len] o1 (l & Hlen & Hlim & Hsum & Hl & Hc). cbn [fst snd] in *. subst len.
    unfold loop_step_ok, string_step. destruct (Z.eqb_spec lim 0) as [->|Hne].
    { exists l. split_and!; [done..|]. intros Ha. split; [lia|by apply Hc|lia]. }
    rewrite (bind_done _ _ o1 (char_at (v_mem o1) s' (Z.of_nat (length l))) o1) by done.
    set (c := char_at (v_mem o1) s' _). assert (string_apart s' (v_str o) (Z.of_nat (length l)) →
      c = char_at (v_mem o) s' (Z.of_nat (length l))) as Hc'.
    { intros Ha. destruct Hl as [_ Hm]. eapply char_at_apart; eauto; lia. }
    destruct (Z.eqb_spec c 0) as [Hz|Hnz].
    { exists l. split_and!; [done..|]. intros Ha. split; [lia|by apply Hc|]. intros _. by rewrite <- Hc'. }
    rewrite (bind_done _ _ o1 tt (put end_ c o1)) by done. unfold mret, M_ret. cbn [fst snd]. split; [|lia].
    exists (l ++ [c]). rewrite length_app. cbn [length]. split_and!; [lia|lia|lia| |].
    + eapply emits_app; [exact Hl|apply emits_put].
    + intros Ha i Hi. assert (string_apart s' (v_str o) (Z.of_nat (length l))) as Ha'.
      { destruct s'; [|done]. cbn in *. lia. }
      destruct (decide (i < Z.of_nat (length l))).
      * rewrite aget_app_l by lia. apply Hc; [done|lia].
      * assert (i = Z.of_nat (length l)) as -> by lia. rewrite aget_app_r, Z.sub_diag by lia.
        rewrite <- Hc' by done. done.
  - exists []. cbn. split_and!; [lia|lia|lia|apply emits_nil|lia].
  - cbn. lia.
  - rewrite (bind_done _ _ _ _ _ Hr). eexists l, _. split; [reflexivity|].
    split; [by apply widen_string_emits|done].
Qed.
End emits.

