(* ===== verification/VsprintfFormat.v ===== *)
(** [format_decode] of [lib/vsprintf.c] against the conversions as C99 describes them: a
    directive is printed and decoded back. *)

From S2P Require Import Prelude Ctype Vsprintf VsprintfSpec.
#[local] Open Scope Z_scope.
#[local] Open Scope cint_scope.

(** A conversion as C99 describes it: flags, field width, precision, length modifier and
    conversion character; the modifiers [hh] and [ll] are 72 and 76. *)
Record directive : Type := mk_directive {
  d_flags : list Z; d_width : option Z; d_precision : option Z; d_qualifier : Z; d_conversion : Z;
}.

Definition directive_ok (d : directive) : Prop :=
  Forall (λ c, flag_of c ≠ None) (d_flags d) ∧
  (∀ w, d_width d = Some w → 0 < w < 2 ^ 23) ∧ (∀ p, d_precision d = Some p → 0 ≤ p < 2 ^ 15) ∧
  d_qualifier d ∈ [0; 72; 76; 104; 108; 116; 122] ∧
  d_conversion d ∈ [99; 115; 112; 37; 111; 120; 88; 100; 105; 117].

Definition qualifier_text (q : Z) : list Z :=
  if q =? 72 then [104; 104] else if q =? 76 then [108; 108] else if q =? 0 then [] else [q].

(** How it is written. *)
Definition directive_text (d : directive) : list Z :=
  37 :: d_flags d ++ from_option decimal [] (d_width d) ++
  from_option (λ p, 46 :: decimal p) [] (d_precision d) ++ qualifier_text (d_qualifier d) ++ [d_conversion d].

Definition flag_bits (l : list Z) (f : Z) : Z := foldl (λ f c, f ||| default 0 (flag_of c)) f l.

Definition signed_conversion (c : Z) : bool := (c =? 100) || (c =? 105).

(** What it means. *)
Definition directive_type (q c : Z) : Z :=
  let s := b2z (signed_conversion c) in
  if c =? 99 then FORMAT_TYPE_CHAR else if c =? 115 then FORMAT_TYPE_STR
  else if c =? 112 then FORMAT_TYPE_PTR else if c =? 37 then FORMAT_TYPE_PERCENT_CHAR
  else if q =? 72 then FORMAT_TYPE_UBYTE + s else if q =? 76 then FORMAT_TYPE_LONG_LONG
  else if q =? 104 then FORMAT_TYPE_USHORT + s else if q =? 108 then FORMAT_TYPE_ULONG + s
  else if q =? 116 then FORMAT_TYPE_PTRDIFF else if q =? 122 then FORMAT_TYPE_SIZE_T
  else FORMAT_TYPE_UINT + s.

Definition directive_spec (d : directive) : printf_spec :=
  let c := d_conversion d in
  mk_spec (directive_type (d_qualifier d) c) (default (-1) (d_width d))
    (flag_bits (d_flags d) 0 ||| (if c =? 120 then SMALL else if signed_conversion c then SIGN else 0))
    (if c =? 111 then 8 else if (c =? 120) || (c =? 88) then 16 else 10)
    (default (-1) (d_precision d)).

Lemma decode_directive_qualifier q c t w f b p rest :
  q ∈ [0; 72; 76; 104; 108; 116; 122] → c ∈ [99; 115; 112; 37; 111; 120; 88; 100; 105; 117] →
  0 ≤ f < 256 → f &&& SIGN = 0 →
  decode_qualifier (qualifier_text q ++ [c] ++ rest) (mk_spec t w f b p) =
  (mk_spec (directive_type q c) w
     (f ||| (if c =? 120 then SMALL else if signed_conversion c then SIGN else 0))
     (if c =? 111 then 8 else if (c =? 120) || (c =? 88) then 16 else 10) p, rest).
Proof.
  intros Hq Hc Hf Hs.
  assert (u8 (f ||| SMALL) = f ||| SMALL) as H1 by (apply wrap_small, lor_bound; (done || lia)).
  assert (u8 (f ||| SIGN) = f ||| SIGN) as H2 by (apply wrap_small, lor_bound; (done || lia)).
  assert ((f ||| SMALL) &&& SIGN = 0) as H3 by (rewrite Z.land_lor_distr_l, Hs; done).
  assert ((f ||| SIGN) &&& SIGN = 1) as H4 by (rewrite Z.land_lor_distr_l, Hs; done).
  set (fsm := f ||| SMALL) in *. set (fsi := f ||| SIGN) in *.
  set_unfold in Hq. set_unfold in Hc.
  destruct_or! Hq; destruct_or! Hc; subst q c; unfold decode_qualifier; cbn;
    unfold decode_conversion, set_type, set_base, set_flags; cbn; fold fsm; fold fsi;
    rewrite ?H1, ?H2, ?H3, ?H4, ?Hs, ?Z.lor_0_r; try reflexivity.
Qed.

Lemma flag_bits_ok l f :
  Forall (λ c, flag_of c ≠ None) l → 0 ≤ f < 256 → f &&& SIGN = 0 →
  0 ≤ flag_bits l f < 256 ∧ flag_bits l f &&& SIGN = 0.
Proof.
  intros Hl. revert f. induction Hl as [|c l Hc Hl IH]; intros f Hf Hs; [done|]. apply IH.
  - apply (lor_bound 8); [lia|done|]. unfold flag_of. repeat case_match; done.
  - rewrite Z.land_lor_distr_l, Hs. unfold flag_of. repeat case_match; done.
Qed.

Lemma decode_flags_bits l rest spec :
  Forall (λ c, flag_of c ≠ None) l → 0 ≤ ps_flags spec < 256 → ps_flags spec &&& SIGN = 0 →
  flag_of (fmt_head rest) = None →
  decode_flags (l ++ rest) spec = decode_width rest (set_flags (flag_bits l (ps_flags spec)) spec).
Proof.
  intros Hl. revert spec. induction Hl as [|c l Hc Hl IH]; intros spec Hf Hs Hr.
  - unfold set_flags. cbn [flag_bits foldl app]. rewrite wrap_small by done. destruct spec as [t w f b p]. cbn [ps_flags].
    destruct rest as [|c rest]; [done|]. cbn [decode_flags fmt_head head default] in *. cbn in Hr. by rewrite Hr.
  - cbn [app decode_flags]. pose proof (flag_bits_ok [c] (ps_flags spec) ltac:(by repeat constructor) Hf Hs) as [H1 H2].
    cbn [flag_bits foldl] in *. destruct (flag_of c) as [b|]; [|done]. cbn [default] in *.
    rewrite IH; cbn [set_flags ps_flags]; rewrite ?wrap_small by done; try done.
Qed.

Lemma head_no_digit q c rest :
  q ∈ [0; 72; 76; 104; 108; 116; 122] → c ∈ [99; 115; 112; 37; 111; 120; 88; 100; 105; 117] →
  let h := fmt_head (qualifier_text q ++ [c] ++ rest) in
  isdigit h = false ∧ h ≠ 46 ∧ h ≠ 42 ∧ flag_of h = None.
Proof.
  intros Hq Hc. set_unfold in Hq. set_unfold in Hc. by destruct_or! Hq; destruct_or! Hc; subst.
Qed.

Lemma decode_directive_precision q c t w f b p0 p rest :
  q ∈ [0; 72; 76; 104; 108; 116; 122] → c ∈ [99; 115; 112; 37; 111; 120; 88; 100; 105; 117] →
  (∀ x, p = Some x → 0 ≤ x < 2 ^ 15) →
  decode_precision (from_option (λ p, 46 :: decimal p) [] p ++ qualifier_text q ++ [c] ++ rest) (mk_spec t w f b p0) =
  decode_qualifier (qualifier_text q ++ [c] ++ rest) (mk_spec t w f b (default (-1) p)).
Proof.
  intros Hq Hc Hp. destruct (head_no_digit q c rest Hq Hc) as (Hd & H46 & _).
  unfold decode_precision. destruct p as [x|]; cbn [from_option app default fmt_head head].
  - destruct (decimal_head x) as (d & l & Hx & Hdig & _); [specialize (Hp x eq_refl); lia|].
    cbn [tail]. rewrite skip_atoi_decimal by (try done; specialize (Hp x eq_refl); lia).
    match goal with |- context [isdigit ?e] => replace (isdigit e) with true by (by rewrite Hx) end.
    unfold set_precision. cbn.
    rewrite (swrap_small 16) by (specialize (Hp x eq_refl); lia).
    destruct (Z.ltb_spec x 0); [specialize (Hp x eq_refl); lia|done].
  - change (qualifier_text q ++ c :: rest) with (qualifier_text q ++ [c] ++ rest).
    fold (fmt_head (qualifier_text q ++ [c] ++ rest)). by rewrite (proj2 (Z.eqb_neq _ _) H46).
Qed.

Lemma decode_directive_width r t w0 f b p w :
  isdigit (fmt_head r) = false → fmt_head r ≠ 42 → (∀ x, w = Some x → 0 < x < 2 ^ 23) →
  decode_width (from_option decimal [] w ++ r) (mk_spec t w0 f b p) =
  decode_precision r (mk_spec t (default (-1) w) f b p).
Proof.
  intros Hd H42 Hw. unfold decode_width. destruct w as [x|]; cbn [from_option default].
  - specialize (Hw x eq_refl). destruct (decimal_head x) as (d & l & Hx & Hdig & _); [lia|].
    assert (isdigit (fmt_head (decimal x ++ r)) = true) as -> by by rewrite Hx.
    rewrite skip_atoi_decimal by (done || lia). unfold set_field_width. cbn [ps_type ps_flags base precision].
    by rewrite (swrap_small 24) by lia.
  - rewrite app_nil_l, Hd. by rewrite (proj2 (Z.eqb_neq _ _) H42).
Qed.

Lemma format_decode_percent l spec :
  ps_type spec ≠ FORMAT_TYPE_WIDTH → ps_type spec ≠ FORMAT_TYPE_PRECISION →
  format_decode (37 :: l) spec = decode_flags l (set_flags 0 (set_type FORMAT_TYPE_NONE spec)).
Proof. intros H1 H2. unfold format_decode. by rewrite !(proj2 (Z.eqb_neq _ _)) by done. Qed.

(** Whatever is left of the directive behind the flags, it does not start like a flag. *)
Lemma flags_end w r :
  (∀ x, w = Some x → 0 < x < 2 ^ 23) → flag_of (fmt_head r) = None →
  flag_of (fmt_head (from_option decimal [] w ++ r)) = None.
Proof.
  intros Hw Hr. destruct w as [x|]; [|done]. specialize (Hw x eq_refl).
  destruct (decimal_head x) as (d & l & Hx & Hdig & Hd); [lia|]. cbn [from_option]. rewrite Hx. cbn.
  specialize (Hd ltac:(lia)). unfold isdigit in Hdig. rewrite andb_true_iff, !Z.leb_le in Hdig.
  unfold flag_of. by rewrite !(proj2 (Z.eqb_neq d _)) by lia.
Qed.


