(* ===== verification/VsprintfText.v ===== *)
(** What [vsnprintf] of [lib/vsprintf.c] puts out for a format: the texts of the
    conversions, the decoding of a format, and the loop over it. *)

From S2P Require Import Prelude Mem CString Ctype Hexdump Vsprintf VsprintfSpec.
#[local] Open Scope Z_scope.
#[local] Open Scope cint_scope.

(** ** Specifications stay in the ranges of their bit fields *)

Lemma swrap_bound w x : 1 ≤ w → - 2 ^ (w - 1) ≤ swrap w x < 2 ^ (w - 1).
Proof.
  intros Hw. unfold swrap. assert (2 ^ w = 2 * 2 ^ (w - 1)) as ->.
  { rewrite <- Z.pow_succ_r by lia. f_equal. lia. }
  assert (0 < 2 ^ (w - 1)) by (apply Z.pow_pos_nonneg; lia).
  pose proof (Z.mod_pos_bound (x + 2 ^ (w - 1)) (2 * 2 ^ (w - 1)) ltac:(lia)). lia.
Qed.

Lemma spec_ok_type x spec : spec_ok spec → spec_ok (set_type x spec).
Proof. done. Qed.
Lemma spec_ok_base x spec : spec_ok spec → spec_ok (set_base x spec).
Proof. done. Qed.
Lemma spec_ok_width x spec : spec_ok spec → spec_ok (set_field_width x spec).
Proof. intros (_ & Hs). split; [apply (swrap_bound 24); lia|done]. Qed.
Lemma spec_ok_flags x spec : spec_ok spec → spec_ok (set_flags x spec).
Proof. intros (H1 & _ & H2). split; [done|]. split; [apply (wrap_bound 8); lia|done]. Qed.
Lemma spec_ok_precision x spec : spec_ok spec → spec_ok (set_precision x spec).
Proof. intros (H1 & H2 & _). split; [done|]. split; [done|apply (swrap_bound 16); lia]. Qed.
#[export] Hint Resolve spec_ok_type spec_ok_base spec_ok_width spec_ok_flags spec_ok_precision : core.

(** ** The texts *)

(** The bytes at [addr] in hexadecimal, separated by [sep]. *)
Definition hex_text (m : bmem) (addr n sep : Z) : list Z :=
  seqZ 0 n ≫= λ i,
    [hex_asc_hi (rd8 m (addr + i)); hex_asc_lo (rd8 m (addr + i))] ++
    (if truthy sep && negb (i =? n - 1) then [sep] else []).

Section texts.
(** The end of the output, its start, and the memory before the call. *)
Context (end_ buf : Z) (m : bmem).

(** [n] bytes from [a] on are not where the output goes. *)
Definition apart (a n : Z) : Prop := a + n ≤ buf ∨ end_ ≤ a.

(** The text of a string that is not overwritten by the output. *)
Definition string_text (s : cstring) (spec : printf_spec) (t : list Z) : Prop :=
  ∃ l, t = widened spec l ∧
    (string_apart end_ s buf (Z.of_nat (length l)) → chars_of m s (u64 (precision spec)) l).

(** The text of the pointer [ptr] when [fmt] follows the [%p]. *)
Definition pointer_text (fmt : list Z) (ptr : Z) (spec : printf_spec) (t : list Z) : Prop :=
  let c := fmt_char fmt 0 in
  if ptr =? 0 then
    string_text null_text (if field_width spec =? -1 then set_field_width 16 spec else spec) t
  else if (c =? 70) || (c =? 102) || (c =? 83) || (c =? 115) || (c =? 66) then
    t = number_text ptr (mk_spec FORMAT_TYPE_PTR 18 (SPECIAL ||| SMALL ||| ZEROPAD) 16 (-1))
  else if c =? 104 then
    let n := if field_width spec =? 0 then 0 else if 0 <? field_width spec then Z.min (field_width spec) 64 else 1 in
    apart ptr n → t = hex_text m ptr n (hex_separator (fmt_char fmt 1))
  else if (c =? 77) || (c =? 109) then
    apart ptr 6 → string_text (Literal (mac_text m ptr fmt)) spec t
  else
    let spec := mk_spec (ps_type spec) (field_width spec) (ps_flags spec ||| SMALL) 16 (precision spec) in
    t = number_text ptr
      (if field_width spec =? -1 then
         mk_spec (ps_type spec) 16 (ps_flags spec ||| ZEROPAD) 16 (precision spec) else spec).

(** The text of the argument [a] under the conversion [spec]; the width of a [%c] is
    counted down in its 24 bits. *)
Definition converts (spec : printf_spec) (fmt : list Z) (a : Z) (t : list Z) : Prop :=
  if ps_type spec =? FORMAT_TYPE_CHAR then
    - 2 ^ 23 + 2 ≤ field_width spec → t = widened spec [u8 a]
  else if ps_type spec =? FORMAT_TYPE_STR then
    string_text (if u64 a =? 0 then null_text else InMemory (u64 a)) spec t
  else if ps_type spec =? FORMAT_TYPE_PTR then pointer_text fmt (u64 a) spec t
  else t = number_text (integer_arg (ps_type spec) a) spec.

(** [formats fmt spec args t]: [t] is the text of the rest [fmt] of a format. *)
Inductive formats : list Z → printf_spec → list Z → list Z → Prop :=
  | formats_end spec args : formats [] spec args []
  | formats_text fmt spec args spec' fmt' t :
      fmt ≠ [] → format_decode fmt spec = (spec', fmt') → ps_type spec' = FORMAT_TYPE_NONE →
      formats fmt' spec' args t → formats fmt spec args (plain_text fmt ++ t)
  | formats_width fmt spec args spec' fmt' t :
      fmt ≠ [] → format_decode fmt spec = (spec', fmt') → ps_type spec' = FORMAT_TYPE_WIDTH →
      formats fmt' (set_field_width (s32 (va_arg args).1) spec') (va_arg args).2 t → formats fmt spec args t
  | formats_precision fmt spec args spec' fmt' t :
      fmt ≠ [] → format_decode fmt spec = (spec', fmt') → ps_type spec' = FORMAT_TYPE_PRECISION →
      formats fmt' (set_precision (s32 (va_arg args).1) spec') (va_arg args).2 t → formats fmt spec args t
  | formats_percent fmt spec args spec' fmt' t :
      fmt ≠ [] → format_decode fmt spec = (spec', fmt') → ps_type spec' = FORMAT_TYPE_PERCENT_CHAR →
      formats fmt' spec' args t → formats fmt spec args (37 :: t)
  | formats_invalid fmt spec args spec' fmt' :
      fmt ≠ [] → format_decode fmt spec = (spec', fmt') → ps_type spec' = FORMAT_TYPE_INVALID →
      formats fmt spec args []
  | formats_convert fmt spec args spec' fmt' w t1 t :
      fmt ≠ [] → format_decode fmt spec = (spec', fmt') →
      ps_type spec' ∉ [FORMAT_TYPE_NONE; FORMAT_TYPE_WIDTH; FORMAT_TYPE_PRECISION;
                       FORMAT_TYPE_PERCENT_CHAR; FORMAT_TYPE_INVALID] →
      converts spec' fmt' (va_arg args).1 t1 →
      formats (if ps_type spec' =? FORMAT_TYPE_PTR then skip_alnum fmt' else fmt')
        (if ps_type spec' =? FORMAT_TYPE_CHAR then set_field_width w spec' else spec')
        (va_arg args).2 t →
      formats fmt spec args (t1 ++ t).

(** ** The routines put out their texts *)

(** Before [o] only the output was written. *)
Definition output_only (o : vout) : Prop :=
  buf ≤ v_str o ∧ ∀ a, a < buf ∨ end_ ≤ a → rd8 (v_mem o) a = rd8 m a.

Lemma emits_output_only t o o' : emits end_ t o o' → output_only o → output_only o'.
Proof.
  intros [Hs Hm] [Hb Ho]. split; [lia|]. intros a Ha. rewrite Hm, decide_False by lia. by apply Ho.
Qed.

Lemma chars_of_apart o s lim l :
  output_only o → string_apart end_ s buf (Z.of_nat (length l)) → chars_of (v_mem o) s lim l → chars_of m s lim l.
Proof.
  intros [_ Ho] Ha [H1 H2 H3].
  assert (∀ i, 0 ≤ i ≤ Z.of_nat (length l) → char_at (v_mem o) s i = char_at m s i) as He.
  { intros i Hi. destruct s as [a|t]; [|done]. cbn in *. apply Ho. lia. }
  split; [done| |].
  - intros i Hi. rewrite <- He by lia. by apply H2.
  - intros Hl. rewrite <- He by lia. by apply H3.
Qed.

Lemma put_string_text s spec o :
  spec_ok spec → output_only o →
  ∃ t o', put_string end_ s spec o = Done tt o' ∧ emits end_ t o o' ∧
    string_text (match s with InMemory a => if a =? 0 then null_text else s | Literal _ => s end) spec t.
Proof.
  intros Hspec Ho. destruct (put_string_emits end_ s spec o Hspec) as (l & o' & Hr & He & Hc). cbv zeta in *.
  eexists _, o'. split; [exact Hr|]. split; [exact He|]. exists l. split; [done|].
  intros Ha. eapply chars_of_apart; [exact Ho|exact Ha|]. apply Hc.
  destruct (match s with InMemory _ => _ | Literal _ => _ end); [|done]. destruct Ho as [Hb _]. cbn in *. lia.
Qed.

Lemma for_each_emits {A} (l : list A) (f : A → M vout unit) (P : Prop) (text : A → list Z) o :
  output_only o →
  (∀ x o, x ∈ l → output_only o → ∃ t o', f x o = Done tt o' ∧ emits end_ t o o' ∧ (P → t = text x)) →
  ∃ t o', for_each l f o = Done tt o' ∧ emits end_ t o o' ∧ (P → t = l ≫= text).
Proof.
  revert o. induction l as [|x l IH]; intros o Ho Hf.
  - exists [], o. split; [done|]. split; [apply emits_nil|done].
  - destruct (Hf x o) as (t1 & o1 & Hr & He & Ht); [by left|done|].
    destruct (IH o1) as (t & o' & Hr' & He' & Ht').
    { by eapply emits_output_only. } { intros y o2 Hy. apply Hf. by right. }
    exists (t1 ++ t), o'. cbn [for_each]. rewrite (bind_done _ _ _ _ _ Hr). split; [done|].
    split; [by eapply emits_app|]. intros HP. by rewrite (Ht HP), (Ht' HP).
Qed.

(** The two digits and the separator of one byte. *)
Lemma hex_string_byte addr n sep i o :
  output_only o → 0 ≤ i < n →
  ∃ t o', (b ← gets (λ o, rd8 (v_mem o) (addr + i));
      modify (put end_ (hex_asc_hi b)) ;;
      b ← gets (λ o, rd8 (v_mem o) (addr + i));
      modify (put end_ (hex_asc_lo b)) ;;
      when (truthy sep && negb (i =? n - 1)) (modify (put end_ sep))) o = Done tt o' ∧
    emits end_ t o o' ∧
    (apart addr n → t = [hex_asc_hi (rd8 m (addr + i)); hex_asc_lo (rd8 m (addr + i))] ++
      (if truthy sep && negb (i =? n - 1) then [sep] else [])).
Proof.
  intros Ho Hi. set (b := rd8 (v_mem o) (addr + i)). set (o1 := put end_ (hex_asc_hi b) o).
  set (b1 := rd8 (v_mem o1) (addr + i)). set (o2 := put end_ (hex_asc_lo b1) o1).
  pose proof (emits_put end_ (hex_asc_hi b) o : emits end_ _ o o1) as He1.
  pose proof (emits_put end_ (hex_asc_lo b1) o1 : emits end_ _ o1 o2) as He2.
  set (more := truthy sep && negb (i =? n - 1)).
  exists ([hex_asc_hi b; hex_asc_lo b1] ++ (if more then [sep] else [])), (if more then put end_ sep o2 else o2).
  split; [|split].
  - unfold mbind, M_bind, gets, modify, when. fold b. fold o1. fold b1. fold o2. by destruct more.
  - apply emits_app with o2; [exact (emits_app end_ [_] [_] _ _ _ He1 He2)|].
    destruct more; [apply emits_put|apply emits_nil].
  - unfold apart. intros Ha. pose proof (emits_output_only _ _ _ He1 Ho) as [_ Ho1]. destruct Ho as [_ Ho].
    unfold b1, b. rewrite Ho1, Ho by lia. done.
Qed.

Lemma hex_string_text addr spec fmt o :
  output_only o → addr ≠ 0 →
  let n := if field_width spec =? 0 then 0 else if 0 <? field_width spec then Z.min (field_width spec) 64 else 1 in
  ∃ t o', hex_string end_ addr spec fmt o = Done tt o' ∧ emits end_ t o o' ∧
    (apart addr n → t = hex_text m addr n (hex_separator (fmt_char fmt 1))).
Proof.
  intros Ho Hne n. unfold hex_string. destruct (Z.eqb_spec (field_width spec) 0) as [Hz|Hw].
  { exists [], o. split; [done|]. split; [apply emits_nil|done]. }
  destruct (Z.eqb_spec addr 0) as [|_]; [done|]. fold n.
  apply for_each_emits; [done|]. intros i o1 Hi Ho1. apply elem_of_seqZ in Hi.
  apply hex_string_byte; [done|lia].
Qed.

Lemma mac_text_apart o addr fmt : output_only o → apart addr 6 → mac_text (v_mem o) addr fmt = mac_text m addr fmt.
Proof.
  intros [_ Ho] Ha. unfold apart in Ha. unfold mac_text. f_equal.
  assert (Forall (λ i, 0 ≤ i < 6) (seqZ 0 6)) as Hi by (apply Forall_forall; intros i Hi; apply elem_of_seqZ in Hi; lia).
  induction Hi as [|i l Hi Hl IH]; [done|]. cbn [mbind list_bind]. f_equal; [|exact IH].
  rewrite Ho by (destruct (_ =? 82); lia). done.
Qed.

Lemma pointer_emits fmt ptr spec o :
  spec_ok spec → output_only o → 0 ≤ ptr < 2 ^ 64 →
  ∃ t o', pointer end_ fmt ptr spec o = Done tt o' ∧ emits end_ t o o' ∧ pointer_text fmt ptr spec t.
Proof.
  intros Hs Ho Hp. unfold pointer, pointer_text. destruct (Z.eqb_spec ptr 0) as [->|Hne].
  { destruct (put_string_text null_text (if field_width spec =? -1 then set_field_width 16 spec else spec) o)
      as (t & o' & Hr & He & Ht); [|done|by eexists _, _].
    destruct (field_width spec =? -1); auto. }
  match goal with |- context [if ?c then _ else _] => destruct c end.
  { eexists _, _. split; [done|]. split; [|done]. apply number_emits; [done|by vm_compute|by right; right]. }
  destruct (_ =? 104).
  { exact (hex_string_text ptr spec fmt o Ho Hne). }
  match goal with |- context [if ?c then _ else _] => destruct c end.
  - unfold mac_address_string. erewrite bind_done by reflexivity.
    destruct (put_string_text (Literal (mac_text (v_mem o) ptr fmt)) spec o) as (t & o' & Hr & He & Ht); [done..|].
    exists t, o'. split; [done|]. split; [done|]. intros Ha. by rewrite mac_text_apart in Ht by done.
  - eexists _, _. split; [reflexivity|]. split; [|done]. destruct Hs as (_ & Hf & _).
    assert (∀ f, 0 ≤ f < 256 → u8 f = f) as Hu by (intros; by apply wrap_small).
    assert (0 ≤ ps_flags spec ||| SMALL < 256) as Hf1 by (apply (lor_bound 8); unfold SMALL; lia).
    assert (0 ≤ (ps_flags spec ||| SMALL) ||| ZEROPAD < 256) as Hf2 by (apply (lor_bound 8); unfold ZEROPAD; lia).
    unfold pointer_string, set_flags, set_field_width, set_base. cbn [field_width ps_flags ps_type base precision].
    rewrite (Hu (ps_flags spec ||| SMALL)) by done. cbn [field_width].
    destruct (_ =? -1); cbn [ps_type field_width ps_flags base precision]; rewrite ?Hu by done;
      (apply number_emits; [done|cbn; lia|by right; right]).
Qed.

Lemma put_char_emits c spec o :
  spec_ok spec →
  ∃ t, emits end_ t o (put_char end_ c spec o).1 ∧ (- 2 ^ 23 + 2 ≤ field_width spec → t = widened spec [u8 c]).
Proof.
  intros ([Hw1 Hw2] & _). unfold put_char, widened. set (w := field_width spec) in *.
  assert (∀ x, - 2 ^ 23 + 1 ≤ x < 2 ^ 23 → char_pad x = if 0 <? x - 1 then (x - 1, 0) else (0, x - 1)) as Hpad.
  { intros x Hx. unfold char_pad. by rewrite swrap_small by lia. }
  destruct (has_flag spec LEFT); cbn [negb].
  - destruct (char_pad w) as [n w'] eqn:E. exists ([u8 c] ++ replicate (Z.to_nat n) 32). cbn [fst]. split.
    + eapply emits_app; [apply emits_put|apply emits_put_n].
    + intros Hw. rewrite Hpad in E by lia. do 2 f_equal. cbn [length].
      destruct (Z.ltb_spec 0 (w - 1)); injection E; lia.
  - destruct (char_pad w) as [n w1] eqn:E. destruct (char_pad w1) as [n' w'] eqn:E'.
    exists (replicate (Z.to_nat n) 32 ++ [u8 c] ++ replicate (Z.to_nat n') 32). cbn [fst]. split.
    + eapply emits_app; [apply emits_put_n|]. eapply emits_app; [apply emits_put|apply emits_put_n].
    + intros Hw. rewrite Hpad in E by lia. cbn [length].
      assert (- 2 ^ 23 + 1 ≤ w1 ≤ 0 ∧ n = Z.max 0 (w - 1)) as [Hw1' ->].
      { destruct (Z.ltb_spec 0 (w - 1)); injection E; lia. }
      assert (n' = 0) as ->. { rewrite Hpad in E' by lia. destruct (Z.ltb_spec 0 (w1 - 1)); injection E'; lia. }
      replace (Z.to_nat (Z.max 0 (w - 1))) with (Z.to_nat (w - Z.of_nat 1)) by lia. done.
Qed.

Lemma aget_some l i : 0 ≤ i < Z.of_nat (length l) → l !! Z.to_nat i = Some (aget l i).
Proof.
  intros Hi. destruct (lookup_lt_is_Some_2 l (Z.to_nat i)) as [x Hx]; [lia|].
  by rewrite Hx, (aget_lookup l i x) by (done || lia).
Qed.

Lemma copy_text_emits text o : emits end_ text o (copy_text end_ text o).
Proof.
  split; [done|]. intros a. unfold copy_text. cbn [v_mem].
  destruct (Z.ltb_spec (v_str o) end_).
  - set (k := if _ <? _ then _ else _).
    assert (k = Z.min (end_ - v_str o) (Z.of_nat (length text))) as Hk.
    { unfold k. destruct (Z.ltb_spec (end_ - v_str o) (Z.of_nat (length text))); lia. }
    case_decide.
    + apply wr_bytes_in; [lia|]. rewrite lookup_take_lt by lia. apply aget_some. lia.
    + apply wr_bytes_out. rewrite length_take. lia.
  - by rewrite decide_False by lia.
Qed.
End texts.

(** ** Decoding *)

(** A decoded specification is in range, and a step on valid input consumes some of the
    format. *)
Record decoded_ok (n : nat) (d : decoded) : Prop := {
  decoded_spec : spec_ok d.1;
  decoded_type : FORMAT_TYPE_NONE < ps_type d.1 ≤ FORMAT_TYPE_PTRDIFF;
  decoded_base : FORMAT_TYPE_LONG_LONG ≤ ps_type d.1 → base d.1 = 8 ∨ base d.1 = 10 ∨ base d.1 = 16;
  decoded_rest : (length d.2 < n)%nat ∨ ps_type d.1 = FORMAT_TYPE_INVALID;
}.

Lemma decoded_ok_mono n n' d : (n ≤ n')%nat → decoded_ok n d → decoded_ok n' d.
Proof. intros Hn [H1 H2 H3 [H4|H4]]; split; try done; [left; lia|by right]. Qed.

Lemma fmt_head_tail fmt c : fmt_head fmt = c → c ≠ 0 → (length (tail fmt) < length fmt)%nat.
Proof. destruct fmt as [|x fmt]; cbn; [congruence|lia]. Qed.

Lemma length_tail {A} (l : list A) : (length (tail l) ≤ length l)%nat.
Proof. destruct l; cbn; lia. Qed.

Lemma decoded_ok_simple t fmt c spec :
  fmt_head fmt = c → c ≠ 0 → FORMAT_TYPE_NONE < t < FORMAT_TYPE_LONG_LONG → spec_ok spec →
  decoded_ok (length fmt) (set_type t spec, tail fmt).
Proof.
  intros Hc Hc0 Ht Hs. cbn in Ht. unfold FORMAT_TYPE_NONE, FORMAT_TYPE_LONG_LONG in *.
  assert (u8 t = t) as Hu by (apply wrap_small; lia).
  split; cbn [fst snd ps_type base set_type]; rewrite ?Hu; unfold FORMAT_TYPE_NONE, FORMAT_TYPE_PTRDIFF, FORMAT_TYPE_LONG_LONG;
    [by apply spec_ok_type|lia|lia|left; by eapply fmt_head_tail].
Qed.

Lemma decoded_ok_integer t fmt c spec :
  fmt_head fmt = c → c ≠ 0 → FORMAT_TYPE_LONG_LONG ≤ t ≤ FORMAT_TYPE_PTRDIFF → spec_ok spec →
  base spec = 8 ∨ base spec = 10 ∨ base spec = 16 → decoded_ok (length fmt) (set_type t spec, tail fmt).
Proof.
  intros Hc Hc0 Ht Hs Hb. unfold FORMAT_TYPE_LONG_LONG, FORMAT_TYPE_PTRDIFF in *.
  assert (u8 t = t) as Hu by (apply wrap_small; lia).
  split; cbn [fst snd ps_type base set_type]; rewrite ?Hu; unfold FORMAT_TYPE_NONE, FORMAT_TYPE_PTRDIFF;
    [by apply spec_ok_type|lia|done|left; by eapply fmt_head_tail].
Qed.

Lemma sign_flag spec : ps_flags spec &&& SIGN = 0 ∨ ps_flags spec &&& SIGN = 1.
Proof.
  pose proof (land_bound_r 1 (ps_flags spec) SIGN ltac:(lia) ltac:(done)). lia.
Qed.

Lemma decode_conversion_ok q fmt spec : spec_ok spec → decoded_ok (length fmt) (decode_conversion q fmt spec).
Proof.
  intros Hs. unfold decode_conversion. cbv zeta. set (c := fmt_head fmt).
  assert (∀ spec', spec_ok spec' → base spec' = 8 ∨ base spec' = 10 ∨ base spec' = 16 → c ≠ 0 →
    decoded_ok (length fmt)
      (if q =? 76 then set_type FORMAT_TYPE_LONG_LONG spec'
       else if q =? 108 then set_type (FORMAT_TYPE_ULONG + (ps_flags spec' &&& SIGN)) spec'
       else if q =? 122 then set_type FORMAT_TYPE_SIZE_T spec'
       else if q =? 116 then set_type FORMAT_TYPE_PTRDIFF spec'
       else if q =? 72 then set_type (FORMAT_TYPE_UBYTE + (ps_flags spec' &&& SIGN)) spec'
       else if q =? 104 then set_type (FORMAT_TYPE_USHORT + (ps_flags spec' &&& SIGN)) spec'
       else set_type (FORMAT_TYPE_UINT + (ps_flags spec' &&& SIGN)) spec', tail fmt)) as Hint.
  { intros spec' Hs' Hb Hc0. pose proof (sign_flag spec') as Hsg.
    repeat case_match; apply (decoded_ok_integer _ fmt c); try done; destruct Hsg as [-> | ->]; done. }
  assert (spec_ok (set_base 10 spec)) as Hs' by auto.
  destruct (Z.eqb_spec c 99); [apply (decoded_ok_simple _ fmt c); (done || lia)|].
  destruct (Z.eqb_spec c 115); [apply (decoded_ok_simple _ fmt c); (done || lia)|].
  destruct (Z.eqb_spec c 112); [apply (decoded_ok_simple _ fmt c); (done || lia)|].
  destruct (Z.eqb_spec c 37); [apply (decoded_ok_simple _ fmt c); (done || lia)|].
  destruct (Z.eqb_spec c 111); [apply Hint; [auto|by left|lia]|].
  destruct (Z.eqb_spec c 120); [apply Hint; [auto|by right; right|lia]|].
  destruct (Z.eqb_spec c 88); [apply Hint; [auto|by right; right|lia]|].
  destruct (Z.eqb_spec c 100); [apply Hint; [auto|by right; left|lia]|].
  destruct (Z.eqb_spec c 105); [apply Hint; [auto|by right; left|lia]|]. cbn [orb].
  destruct (Z.eqb_spec c 117); [apply Hint; [auto|by right; left|lia]|].
  split; cbn; [done|done|done|by right].
Qed.

Lemma decode_qualifier_ok fmt spec : spec_ok spec → decoded_ok (length fmt) (decode_qualifier fmt spec).
Proof.
  intros Hs. unfold decode_qualifier. cbv zeta. pose proof (length_tail fmt). pose proof (length_tail (tail fmt)).
  repeat case_match; (eapply decoded_ok_mono; [|by apply decode_conversion_ok]); lia.
Qed.

Lemma skip_atoi_loop_length i fmt : (length (skip_atoi_loop i fmt).2 ≤ length fmt)%nat.
Proof.
  revert i. induction fmt as [|c fmt IH]; intros i; cbn [skip_atoi_loop]; [done|].
  destruct (isdigit c); [|done]. specialize (IH (s32 (i * 10 + c - 48))). cbn. lia.
Qed.

Lemma skip_atoi_length fmt : (length (skip_atoi fmt).2 ≤ length fmt)%nat.
Proof.
  destruct fmt as [|c fmt]; [done|]. cbn [skip_atoi length].
  pose proof (skip_atoi_loop_length (s32 (0 * 10 + c - 48)) fmt). lia.
Qed.

Lemma decode_precision_ok fmt spec : spec_ok spec → decoded_ok (length fmt) (decode_precision fmt spec).
Proof.
  intros Hs. unfold decode_precision. cbv zeta. assert (spec_ok (set_precision (-1) spec)) as Hs' by auto.
  pose proof (length_tail fmt). destruct (Z.eqb_spec (fmt_head fmt) 46) as [Hc|]; [|by apply decode_qualifier_ok].
  pose proof (fmt_head_tail fmt 46 Hc ltac:(lia)). destruct (isdigit _).
  - pose proof (skip_atoi_length (tail fmt)). destruct (skip_atoi (tail fmt)) as [n rest]. cbn [snd] in *.
    eapply decoded_ok_mono; [|apply decode_qualifier_ok]; [lia|]. destruct (_ <? 0); auto.
  - destruct (Z.eqb_spec (fmt_head (tail fmt)) 42) as [Hc'|].
    + eapply decoded_ok_mono; [|apply (decoded_ok_simple _ (tail fmt) 42)]; (done || lia).
    + eapply decoded_ok_mono; [|by apply decode_qualifier_ok]. lia.
Qed.

Lemma decode_width_ok fmt spec : spec_ok spec → decoded_ok (length fmt) (decode_width fmt spec).
Proof.
  intros Hs. unfold decode_width. cbv zeta. assert (spec_ok (set_field_width (-1) spec)) as Hs' by auto.
  destruct (isdigit _).
  - pose proof (skip_atoi_length fmt). destruct (skip_atoi fmt) as [n rest]. cbn [snd] in *.
    eapply decoded_ok_mono; [|apply decode_precision_ok]; [lia|auto].
  - destruct (Z.eqb_spec (fmt_head fmt) 42) as [Hc|]; [by apply (decoded_ok_simple _ fmt 42)|].
    by apply decode_precision_ok.
Qed.

Lemma decode_flags_ok fmt spec : spec_ok spec → decoded_ok (length fmt) (decode_flags fmt spec).
Proof.
  revert spec. induction fmt as [|c fmt IH]; intros spec Hs; cbn [decode_flags]; [by apply (decode_width_ok [])|].
  destruct (flag_of c); [|by apply decode_width_ok]. eapply decoded_ok_mono; [|by apply IH; auto]. cbn. lia.
Qed.

(** The plain text of a format and what follows it. *)
Lemma plain_text_app fmt : ∃ rest, fmt = plain_text fmt ++ rest.
Proof.
  induction fmt as [|c fmt [rest IH]]; [by exists []|]. cbn [plain_text].
  destruct (c =? 37); [by exists (c :: fmt)|]. exists rest. cbn. by rewrite <- IH.
Qed.

(** Either the text up to the next [%], or a conversion. *)
Lemma format_decode_ok fmt spec :
  spec_ok spec → fmt ≠ [] →
  let d := format_decode fmt spec in
  decoded_ok (length fmt) d ∨
  (spec_ok d.1 ∧ ps_type d.1 = FORMAT_TYPE_NONE ∧ plain_text fmt ≠ [] ∧ fmt = plain_text fmt ++ d.2).
Proof.
  intros Hs Hne. unfold format_decode. cbv zeta. destruct (_ =? FORMAT_TYPE_WIDTH).
  { left. apply decode_precision_ok. destruct (_ <? 0); auto 6. }
  destruct (_ =? FORMAT_TYPE_PRECISION).
  { left. apply decode_qualifier_ok. destruct (_ <? 0); auto. }
  destruct (plain_text fmt) as [|c text] eqn:Ht.
  - left. destruct fmt as [|c fmt]; [done|]. eapply decoded_ok_mono; [|apply decode_flags_ok; auto]. cbn. lia.
  - right. cbn [fst snd]. split; [auto|]. split; [done|]. split; [done|].
    destruct (plain_text_app fmt) as [rest Hr]. rewrite Ht in Hr. rewrite Hr at 1. f_equal.
    by rewrite Hr, drop_app_length.
Qed.

(** ** The loop *)

Section vsnprintf_loop.
Context (end_ buf : Z) (m : bmem).

(** What one iteration of the loop has to do. *)
Definition step_puts (a : vsn_state) (o : vout) (r : outcome vout (vsn_state + unit)) : Prop :=
  let '(fmt, spec, args) := a in
  match r with
  | Done (inl (fmt', spec', args')) o' =>
      spec_ok spec' ∧ (length fmt' < length fmt)%nat ∧
      ∃ t, emits end_ t o o' ∧
        ∀ T, formats end_ buf m fmt' spec' args' T → formats end_ buf m fmt spec args (t ++ T)
  | Done (inr _) o' => o' = o ∧ formats end_ buf m fmt spec args []
  | _ => False
  end.

Lemma integer_arg_bound t a : 0 ≤ integer_arg t a < 2 ^ 64.
Proof.
  unfold integer_arg.
  assert (∀ w x, 0 ≤ w ≤ 64 → 0 ≤ wrap w x < 2 ^ 64) as Hw.
  { intros w x Hw. pose proof (wrap_bound w x ltac:(lia)). pose proof (Z.pow_le_mono_r 2 w 64). lia. }
  repeat case_match; apply Hw; lia.
Qed.

Lemma skip_alnum_length fmt : (length (skip_alnum fmt) ≤ length fmt)%nat.
Proof.
  induction fmt as [|c fmt IH]; cbn [skip_alnum]; [done|]. destruct (isalnum c); cbn in *; lia.
Qed.

Lemma vsn_step_puts fmt spec args o :
  spec_ok spec → output_only end_ buf m o → step_puts (fmt, spec, args) o (vsn_step end_ (fmt, spec, args) o).
Proof.
  intros Hs Ho. destruct fmt as [|c rest]; [split; [done|constructor]|].
  assert (c :: rest ≠ []) as Hne by done. unfold vsn_step. set (fmt := c :: rest) in *. clearbody fmt. clear c rest.
  destruct (format_decode_ok fmt spec Hs Hne) as [[Hs' Hty Hb Hr]|(Hs' & Hty & Htext & Hfmt)];
    destruct (format_decode fmt spec) as [spec' fmt'] eqn:Hd; cbn [fst snd] in *.
  2: { rewrite Hty. cbn [Z.eqb FORMAT_TYPE_NONE]. unfold modify. erewrite bind_done by reflexivity.
    assert (length fmt = length (plain_text fmt) + length fmt')%nat as Hlen by (rewrite Hfmt at 1; by rewrite length_app).
    replace (take (length fmt - length fmt') fmt) with (plain_text fmt).
    2: { rewrite Hfmt at 3. rewrite take_app_length'; [done|lia]. }
    split; [done|]. split; [destruct (plain_text fmt); cbn in *; [done|lia]|].
    eexists. split; [apply copy_text_emits|]. intros T HT. by econstructor. }
  destruct (Z.eqb_spec (ps_type spec') FORMAT_TYPE_NONE) as [E0|N0]; [unfold FORMAT_TYPE_NONE in *; lia|].
  destruct (va_arg args) as [a args'] eqn:Ha.
  destruct (Z.eqb_spec (ps_type spec') FORMAT_TYPE_WIDTH) as [E1|N1].
  { destruct Hr as [Hr|Hr]; [|by rewrite E1 in Hr].
    split; [auto|]. split; [done|]. exists []. split; [apply emits_nil|]. intros T HT.
    eapply formats_width; [done..|]. by rewrite Ha. }
  destruct (Z.eqb_spec (ps_type spec') FORMAT_TYPE_PRECISION) as [E2|N2].
  { destruct Hr as [Hr|Hr]; [|by rewrite E2 in Hr].
    split; [auto|]. split; [done|]. exists []. split; [apply emits_nil|]. intros T HT.
    eapply formats_precision; [done..|]. by rewrite Ha. }
  assert (∀ w t T, converts end_ buf m spec' fmt' a t →
    ps_type spec' ≠ FORMAT_TYPE_PERCENT_CHAR → ps_type spec' ≠ FORMAT_TYPE_INVALID →
    formats end_ buf m (if ps_type spec' =? FORMAT_TYPE_PTR then skip_alnum fmt' else fmt')
      (if ps_type spec' =? FORMAT_TYPE_CHAR then set_field_width w spec' else spec') args' T →
    formats end_ buf m fmt spec args (t ++ T)) as Hconv.
  { intros w t T Hc Hp Hi HT. eapply formats_convert; [done..| | |]; rewrite ?Ha; [|done|done].
    by rewrite !not_elem_of_cons; split_and!; [..|apply not_elem_of_nil]. }
  unfold converts in Hconv.
  destruct (Z.eqb_spec (ps_type spec') FORMAT_TYPE_CHAR) as [E3|N3].
  { destruct Hr as [Hr|Hr]; [|by rewrite E3 in Hr].
    destruct (put_char_emits end_ a spec' o Hs') as (t & He & Ht). destruct (put_char end_ a spec' o) as [o' w] eqn:Hp.
    unfold mbind, M_bind. rewrite Hp. split; [auto|]. split; [done|]. exists t. split; [done|].
    intros T HT. apply (Hconv w); try done; by rewrite E3. }
  destruct (Z.eqb_spec (ps_type spec') FORMAT_TYPE_STR) as [E4|N4].
  { destruct Hr as [Hr|Hr]; [|by rewrite E4 in Hr].
    destruct (put_string_text end_ buf m (InMemory (u64 a)) spec' o Hs' Ho) as (t & o' & Hp & He & Ht).
    rewrite (bind_done _ _ _ _ _ Hp). split; [auto|]. split; [done|]. exists t. split; [done|].
    intros T HT. apply (Hconv 0); try done; by rewrite E4. }
  destruct (Z.eqb_spec (ps_type spec') FORMAT_TYPE_PTR) as [E5|N5].
  { destruct Hr as [Hr|Hr]; [|by rewrite E5 in Hr].
    destruct (pointer_emits end_ buf m fmt' (u64 a) spec' o Hs' Ho) as (t & o' & Hp & He & Ht);
      [apply (wrap_bound 64); lia|].
    rewrite (bind_done _ _ _ _ _ Hp). pose proof (skip_alnum_length fmt'). split; [auto|]. split; [lia|].
    exists t. split; [done|]. intros T HT. apply (Hconv 0); try done; by rewrite E5. }
  destruct (Z.eqb_spec (ps_type spec') FORMAT_TYPE_PERCENT_CHAR) as [E6|N6].
  { destruct Hr as [Hr|Hr]; [|by rewrite E6 in Hr]. unfold modify. erewrite bind_done by reflexivity.
    split; [auto|]. split; [done|]. exists [37]. split; [apply emits_put|]. intros T HT. by eapply formats_percent. }
  destruct (Z.eqb_spec (ps_type spec') FORMAT_TYPE_INVALID) as [E7|N7].
  { split; [done|]. by eapply formats_invalid. }
  destruct Hr as [Hr|Hr]; [|done]. unfold modify. erewrite bind_done by reflexivity.
  split; [auto|]. split; [done|]. eexists. split.
  - apply number_emits; [apply integer_arg_bound|apply Hs'|apply Hb].
    unfold FORMAT_TYPE_NONE, FORMAT_TYPE_WIDTH, FORMAT_TYPE_PRECISION, FORMAT_TYPE_CHAR, FORMAT_TYPE_STR,
      FORMAT_TYPE_PTR, FORMAT_TYPE_PERCENT_CHAR, FORMAT_TYPE_INVALID, FORMAT_TYPE_LONG_LONG in *. lia.
  - intros T HT. by apply (Hconv 0).
Qed.

(** The loop ends, with the text of the format. *)
Lemma vsn_loop_emits fmt args :
  Z.of_nat (length fmt) < 2 ^ 64 →
  ∃ T o, loop (vsn_step end_) (fmt, spec0, args) (mk_out m buf) = Done tt o ∧
    emits end_ T (mk_out m buf) o ∧ formats end_ buf m fmt spec0 args T.
Proof.
  intros Hlen. set (o0 := mk_out m buf).
  assert (output_only end_ buf m o0) as Hout by (split; [done|by intros]).
  destruct (loop_total (vsn_step end_)
    (λ a o, let '(f, spec, args') := a in spec_ok spec ∧ ∃ T0, emits end_ T0 o0 o ∧
       ∀ T, formats end_ buf m f spec args' T → formats end_ buf m fmt spec0 args (T0 ++ T))
    (λ _ o, ∃ T, emits end_ T o0 o ∧ formats end_ buf m fmt spec0 args T)
    (λ a _, Z.of_nat (length a.1.1))) with (a := (fmt, spec0, args)) (s := o0) as ([] & o & Hr & T & HT).
  - intros [[f spec] args'] o (Hs & T0 & He & HT).
    pose proof (vsn_step_puts f spec args' o Hs (emits_output_only _ _ _ _ _ _ He Hout)) as Hstep.
    unfold loop_step_ok, step_puts in *. destruct (vsn_step _ _ o) as [[[[f' spec'] args'']|[]] o'| |]; try done.
    + destruct Hstep as (Hs' & Hl & t & He' & Ht). cbn [fst]. split; [|lia]. split; [done|].
      exists (T0 ++ t). split; [by eapply emits_app|]. intros T H'. rewrite <- app_assoc. by apply HT, Ht.
    + destruct Hstep as [-> Hend]. exists T0. split; [done|]. rewrite <- (app_nil_r T0). by apply HT.
  - split; [done|]. exists []. split; [apply emits_nil|done].
  - done.
  - by exists T, o.
Qed.
End vsnprintf_loop.

(** The end of the output that [vsnprintf] uses. *)
Definition output_end (buf size : Z) : Z := Z.min (buf + size) (2 ^ 64 - 1).

(** [m'] is [m] with as much of [t] in the buffer as fits, and a null. *)
Definition holds_text (m m' : bmem) (buf size : Z) (t : list Z) : Prop :=
  let n := Z.min (Z.of_nat (length t)) (size - 1) in
  ∀ a, rd8 m' a =
    if decide (buf ≤ a < buf + n) then u8 (aget t (a - buf))
    else if decide (0 < size ∧ a = buf + n) then 0 else rd8 m a.

Lemma vsnprintf_runs buf size fmt args m :
  0 ≤ buf < 2 ^ 64 → 0 ≤ size ≤ INT_MAX → Z.of_nat (length fmt) < 2 ^ 64 →
  ∃ T m', vsnprintf buf size fmt args m = Done (s32 (Z.of_nat (length T))) m' ∧
    formats (output_end buf size) buf m fmt spec0 args T ∧
    holds_text m m' buf (output_end buf size - buf) T.
Proof.
  intros Hbuf Hsize Hlen. unfold vsnprintf. destruct (Z.ltb_spec INT_MAX size); [lia|].
  unfold INT_MAX in *. set (e := output_end buf size).
  assert ((if u64 (buf + size) <? buf then (2 ^ 64 - 1, 2 ^ 64 - 1 - buf) else (u64 (buf + size), size)) = (e, e - buf)) as ->.
  { unfold e, output_end. destruct (Z.ltb_spec (buf + size) (2 ^ 64)).
    - rewrite wrap_small by lia. destruct (Z.ltb_spec (buf + size) buf); [lia|]. f_equal; lia.
    - replace (u64 (buf + size)) with (buf + size - 2 ^ 64).
      2: { unfold wrap. rewrite <- (Z.mod_small (buf + size - 2 ^ 64) (2 ^ 64)) at 1 by lia.
           rewrite Zminus_mod, Z_mod_same_full, Z.sub_0_r. by rewrite Zmod_mod. }
      destruct (Z.ltb_spec (buf + size - 2 ^ 64) buf); [|lia]. f_equal; lia. }
  assert (buf ≤ e) by (unfold e, output_end; lia).
  destruct (vsn_loop_emits e buf m fmt args Hlen) as (T & o & Hr & [Hstr Hm] & HT). rewrite Hr. cbn [v_str v_mem] in *.
  eexists T, _. rewrite Hstr. split; [do 2 f_equal; lia|]. split; [done|].
  intros a. destruct (Z.ltb_spec 0 (e - buf)).
  - destruct (Z.ltb_spec (buf + Z.of_nat (length T)) e); rewrite rd8_wr8, Hm; repeat case_decide; (done || lia).
  - rewrite Hm. repeat case_decide; (done || lia).
Qed.

Lemma vscnprintf_answer buf size fmt args m n m' :
  vsnprintf buf size fmt args m = Done n m' → - 2 ^ 31 ≤ n < 2 ^ 31 → 0 ≤ size ≤ INT_MAX →
  ∃ r, vscnprintf buf size fmt args m = Done r m' ∧ 0 ≤ r ∧ (r < size ∨ size = 0 ∧ r = 0).
Proof.
  intros Hr Hn Hs. unfold vscnprintf, INT_MAX in *. rewrite (bind_done _ _ _ _ _ Hr).
  eexists. split; [reflexivity|]. destruct (Z.ltb_spec (u64 n) size) as [Hlt|_].
  - destruct (Z.lt_ge_cases n 0); [|rewrite wrap_small in Hlt by lia; lia].
    replace (u64 n) with (n + 2 ^ 64) in Hlt; [lia|].
    unfold wrap. rewrite <- (Z.mod_small (n + 2 ^ 64) (2 ^ 64)) by lia.
    replace (n + 2 ^ 64) with (n + 1 * 2 ^ 64) by lia. apply Z_mod_plus_full.
  - destruct (Z.eqb_spec size 0) as [->|]; cbn [negb]; [lia|].
    rewrite s32_u64, s32_small by lia. lia.
Qed.



(** C31: Whatever the format and the arguments, [vsnprintf] returns, writes nothing outside the
    buffer and terminates what it writes; [vscnprintf] answers less than the size. *)
Theorem vsnprintf_bounded buf size fmt args m :
  0 ≤ buf → 0 ≤ size → buf + size < 2 ^ 64 → Z.of_nat (length fmt) < 2 ^ 64 →
  ∃ n r m', vsnprintf buf size fmt args m = Done n m' ∧ vscnprintf buf size fmt args m = Done r m' ∧
    unchanged_outside m m' buf size ∧
    (0 < size ≤ INT_MAX → ∃ i, 0 ≤ i < size ∧ rd8 m' (buf + i) = 0) ∧
    (INT_MAX < size → n = 0 ∧ m' = m) ∧
    0 ≤ r ∧ (r < size ∨ size = 0 ∧ r = 0).
Proof.
  intros Hb Hs Hbs Hf. destruct (Z.le_gt_cases size INT_MAX).
  - destruct (vsnprintf_runs buf size fmt args m) as (T & m' & Hr & HT & Hm); [lia..|].
    assert (output_end buf size - buf = size) as He by (unfold output_end; lia). rewrite He in Hm.
    destruct (vscnprintf_answer buf size fmt args m _ m' Hr) as (r & Hr' & Hr0); [apply (swrap_bound 32); lia|lia|].
    eexists _, r, m'. split; [exact Hr|]. split; [done|]. split_and!; try lia.
    + intros a Ha. rewrite Hm. repeat case_decide; (done || lia).
    + intros Hs1. exists (Z.min (Z.of_nat (length T)) (size - 1)). split; [lia|]. rewrite Hm.
      rewrite decide_False, decide_True by lia. done.
  - assert (vsnprintf buf size fmt args m = Done 0 m) as Hr.
    { unfold vsnprintf. by rewrite (proj2 (Z.ltb_lt _ _)) by lia. }
    exists 0, 0, m. split; [done|]. unfold vscnprintf. rewrite (bind_done _ _ _ _ _ Hr). unfold INT_MAX in *.
    rewrite (proj2 (Z.ltb_lt (u64 0) size)) by (change (u64 0) with 0; lia). split_and!; (done || lia).
Qed.

Lemma vsnprintf_bounded_witness :
  ∃ n r m', vsnprintf 64 4 [60; 37; 115] [80] ∅ = Done n m' ∧ vscnprintf 64 4 [60; 37; 115] [80] ∅ = Done r m' ∧
    unchanged_outside ∅ m' 64 4 ∧
    (0 < 4 ≤ INT_MAX → ∃ i, 0 ≤ i < 4 ∧ rd8 m' (64 + i) = 0) ∧
    (INT_MAX < 4 → n = 0 ∧ m' = ∅) ∧ 0 ≤ r ∧ (r < 4 ∨ 4 = 0 ∧ r = 0).
Proof. apply (vsnprintf_bounded 64 4 [60; 37; 115] [80] ∅); vm_compute; done. Defined.
