(* ===== verification/Vmcs.v ===== *)
(** The VMCS: control bits, field encodings and accessors of [include/asm/vmx.h]
    and the accessor macros of [vmm/vmx.c].

    A VMCS is a map from field encodings to values.  The width of a field is in
    bits 14:13 of its encoding (0: 16 bits, 1: 64, 2: 32, 3: natural), which is what
    the [vmcs_check*] macros of [vmm/vmx.c] test at compile time; [vmwrite] stores the
    value cut to that width. *)

From S2P Require Import Prelude.
#[local] Open Scope Z_scope.
#[local] Open Scope cint_scope.

(** ** Execution, exit and entry controls *)

Definition CPU_BASED_INVLPG_EXITING : Z := 0x00000200.
Definition CPU_BASED_RDTSC_EXITING : Z := 0x00001000.
Definition CPU_BASED_CR3_LOAD_EXITING : Z := 0x00008000.
Definition CPU_BASED_CR3_STORE_EXITING : Z := 0x00010000.
Definition CPU_BASED_TPR_SHADOW : Z := 0x00200000.
Definition CPU_BASED_USE_MSR_BITMAPS : Z := 0x10000000.
Definition CPU_BASED_ACTIVATE_SECONDARY_CONTROLS : Z := 0x80000000.
Definition SECONDARY_EXEC_ENABLE_EPT : Z := 0x00000002.
Definition SECONDARY_EXEC_RDTSCP : Z := 0x00000008.
Definition SECONDARY_EXEC_ENABLE_VPID : Z := 0x00000020.
Definition SECONDARY_EXEC_UNRESTRICTED_GUEST : Z := 0x00000080.
Definition SECONDARY_EXEC_VIRTUAL_INTR_DELIVERY : Z := 0x00000200.
Definition SECONDARY_EXEC_PAUSE_LOOP_EXITING : Z := 0x00000400.
Definition SECONDARY_EXEC_ENABLE_INVPCID : Z := 0x00001000.
Definition SECONDARY_EXEC_TSC_SCALING : Z := 0x02000000.
Definition PIN_BASED_POSTED_INTR : Z := 0x00000080.
Definition VM_EXIT_SAVE_DEBUG_CONTROLS : Z := 0x00000004.
Definition VM_EXIT_HOST_ADDR_SPACE_SIZE : Z := 0x00000200.
Definition VM_EXIT_LOAD_IA32_PERF_GLOBAL_CTRL : Z := 0x00001000.
Definition VM_EXIT_SAVE_IA32_PAT : Z := 0x00040000.
Definition VM_EXIT_LOAD_IA32_PAT : Z := 0x00080000.
Definition VM_EXIT_SAVE_IA32_EFER : Z := 0x00100000.
Definition VM_EXIT_LOAD_IA32_EFER : Z := 0x00200000.
Definition VM_EXIT_CLEAR_BNDCFGS : Z := 0x00800000.
Definition VM_ENTRY_LOAD_DEBUG_CONTROLS : Z := 0x00000004.
Definition VM_ENTRY_IA32E_MODE : Z := 0x00000200.
Definition VM_ENTRY_LOAD_IA32_PERF_GLOBAL_CTRL : Z := 0x00002000.
Definition VM_ENTRY_LOAD_IA32_PAT : Z := 0x00004000.
Definition VM_ENTRY_LOAD_IA32_EFER : Z := 0x00008000.
Definition VM_ENTRY_LOAD_BNDCFGS : Z := 0x00010000.

(** ** [enum vmcs_field] *)

Definition VIRTUAL_PROCESSOR_ID : Z := 0x00000000.
Definition POSTED_INTR_NV : Z := 0x00000002.
Definition GUEST_ES_SELECTOR : Z := 0x00000800.
Definition GUEST_CS_SELECTOR : Z := 0x00000802.
Definition GUEST_SS_SELECTOR : Z := 0x00000804.
Definition GUEST_DS_SELECTOR : Z := 0x00000806.
Definition GUEST_FS_SELECTOR : Z := 0x00000808.
Definition GUEST_GS_SELECTOR : Z := 0x0000080a.
Definition GUEST_LDTR_SELECTOR : Z := 0x0000080c.
Definition GUEST_TR_SELECTOR : Z := 0x0000080e.
Definition GUEST_INTR_STATUS : Z := 0x00000810.
Definition GUEST_PML_INDEX : Z := 0x00000812.
Definition HOST_ES_SELECTOR : Z := 0x00000c00.
Definition HOST_CS_SELECTOR : Z := 0x00000c02.
Definition HOST_SS_SELECTOR : Z := 0x00000c04.
Definition HOST_DS_SELECTOR : Z := 0x00000c06.
Definition HOST_FS_SELECTOR : Z := 0x00000c08.
Definition HOST_GS_SELECTOR : Z := 0x00000c0a.
Definition HOST_TR_SELECTOR : Z := 0x00000c0c.
Definition IO_BITMAP_A : Z := 0x00002000.
Definition IO_BITMAP_A_HIGH : Z := 0x00002001.
Definition IO_BITMAP_B : Z := 0x00002002.
Definition IO_BITMAP_B_HIGH : Z := 0x00002003.
Definition MSR_BITMAP : Z := 0x00002004.
Definition MSR_BITMAP_HIGH : Z := 0x00002005.
Definition VM_EXIT_MSR_STORE_ADDR : Z := 0x00002006.
Definition VM_EXIT_MSR_STORE_ADDR_HIGH : Z := 0x00002007.
Definition VM_EXIT_MSR_LOAD_ADDR : Z := 0x00002008.
Definition VM_EXIT_MSR_LOAD_ADDR_HIGH : Z := 0x00002009.
Definition VM_ENTRY_MSR_LOAD_ADDR : Z := 0x0000200a.
Definition VM_ENTRY_MSR_LOAD_ADDR_HIGH : Z := 0x0000200b.
Definition PML_ADDRESS : Z := 0x0000200e.
Definition PML_ADDRESS_HIGH : Z := 0x0000200f.
Definition TSC_OFFSET : Z := 0x00002010.
Definition TSC_OFFSET_HIGH : Z := 0x00002011.
Definition VIRTUAL_APIC_PAGE_ADDR : Z := 0x00002012.
Definition VIRTUAL_APIC_PAGE_ADDR_HIGH : Z := 0x00002013.
Definition APIC_ACCESS_ADDR : Z := 0x00002014.
Definition APIC_ACCESS_ADDR_HIGH : Z := 0x00002015.
Definition POSTED_INTR_DESC_ADDR : Z := 0x00002016.
Definition POSTED_INTR_DESC_ADDR_HIGH : Z := 0x00002017.
Definition EPT_POINTER : Z := 0x0000201a.
Definition EPT_POINTER_HIGH : Z := 0x0000201b.
Definition EOI_EXIT_BITMAP0 : Z := 0x0000201c.
Definition EOI_EXIT_BITMAP0_HIGH : Z := 0x0000201d.
Definition EOI_EXIT_BITMAP1 : Z := 0x0000201e.
Definition EOI_EXIT_BITMAP1_HIGH : Z := 0x0000201f.
Definition EOI_EXIT_BITMAP2 : Z := 0x00002020.
Definition EOI_EXIT_BITMAP2_HIGH : Z := 0x00002021.
Definition EOI_EXIT_BITMAP3 : Z := 0x00002022.
Definition EOI_EXIT_BITMAP3_HIGH : Z := 0x00002023.
Definition VMREAD_BITMAP : Z := 0x00002026.
Definition VMWRITE_BITMAP : Z := 0x00002028.
Definition XSS_EXIT_BITMAP : Z := 0x0000202c.
Definition XSS_EXIT_BITMAP_HIGH : Z := 0x0000202d.
Definition TSC_MULTIPLIER : Z := 0x00002032.
Definition TSC_MULTIPLIER_HIGH : Z := 0x00002033.
Definition GUEST_PHYSICAL_ADDRESS : Z := 0x00002400.
Definition GUEST_PHYSICAL_ADDRESS_HIGH : Z := 0x00002401.
Definition VMCS_LINK_POINTER : Z := 0x00002800.
Definition VMCS_LINK_POINTER_HIGH : Z := 0x00002801.
Definition GUEST_IA32_DEBUGCTL : Z := 0x00002802.
Definition GUEST_IA32_DEBUGCTL_HIGH : Z := 0x00002803.
Definition GUEST_IA32_PAT : Z := 0x00002804.
Definition GUEST_IA32_PAT_HIGH : Z := 0x00002805.
Definition GUEST_IA32_EFER : Z := 0x00002806.
Definition GUEST_IA32_EFER_HIGH : Z := 0x00002807.
Definition GUEST_IA32_PERF_GLOBAL_CTRL : Z := 0x00002808.
Definition GUEST_IA32_PERF_GLOBAL_CTRL_HIGH : Z := 0x00002809.
Definition GUEST_PDPTR0 : Z := 0x0000280a.
Definition GUEST_PDPTR0_HIGH : Z := 0x0000280b.
Definition GUEST_PDPTR1 : Z := 0x0000280c.
Definition GUEST_PDPTR1_HIGH : Z := 0x0000280d.
Definition GUEST_PDPTR2 : Z := 0x0000280e.
Definition GUEST_PDPTR2_HIGH : Z := 0x0000280f.
Definition GUEST_PDPTR3 : Z := 0x00002810.
Definition GUEST_PDPTR3_HIGH : Z := 0x00002811.
Definition GUEST_BNDCFGS : Z := 0x00002812.
Definition GUEST_BNDCFGS_HIGH : Z := 0x00002813.
Definition HOST_IA32_PAT : Z := 0x00002c00.
Definition HOST_IA32_PAT_HIGH : Z := 0x00002c01.
Definition HOST_IA32_EFER : Z := 0x00002c02.
Definition HOST_IA32_EFER_HIGH : Z := 0x00002c03.
Definition HOST_IA32_PERF_GLOBAL_CTRL : Z := 0x00002c04.
Definition HOST_IA32_PERF_GLOBAL_CTRL_HIGH : Z := 0x00002c05.
Definition PIN_BASED_VM_EXEC_CONTROL : Z := 0x00004000.
Definition CPU_BASED_VM_EXEC_CONTROL : Z := 0x00004002.
Definition EXCEPTION_BITMAP : Z := 0x00004004.
Definition PAGE_FAULT_ERROR_CODE_MASK : Z := 0x00004006.
Definition PAGE_FAULT_ERROR_CODE_MATCH : Z := 0x00004008.
Definition CR3_TARGET_COUNT : Z := 0x0000400a.
Definition VM_EXIT_CONTROLS : Z := 0x0000400c.
Definition VM_EXIT_MSR_STORE_COUNT : Z := 0x0000400e.
Definition VM_EXIT_MSR_LOAD_COUNT : Z := 0x00004010.
Definition VM_ENTRY_CONTROLS : Z := 0x00004012.
Definition VM_ENTRY_MSR_LOAD_COUNT : Z := 0x00004014.
Definition VM_ENTRY_INTR_INFO_FIELD : Z := 0x00004016.
Definition VM_ENTRY_EXCEPTION_ERROR_CODE : Z := 0x00004018.
Definition VM_ENTRY_INSTRUCTION_LEN : Z := 0x0000401a.
Definition TPR_THRESHOLD : Z := 0x0000401c.
Definition SECONDARY_VM_EXEC_CONTROL : Z := 0x0000401e.
Definition PLE_GAP : Z := 0x00004020.
Definition PLE_WINDOW : Z := 0x00004022.
Definition VM_INSTRUCTION_ERROR : Z := 0x00004400.
Definition VM_EXIT_REASON : Z := 0x00004402.
Definition VM_EXIT_INTR_INFO : Z := 0x00004404.
Definition VM_EXIT_INTR_ERROR_CODE : Z := 0x00004406.
Definition IDT_VECTORING_INFO_FIELD : Z := 0x00004408.
Definition IDT_VECTORING_ERROR_CODE : Z := 0x0000440a.
Definition VM_EXIT_INSTRUCTION_LEN : Z := 0x0000440c.
Definition VMX_INSTRUCTION_INFO : Z := 0x0000440e.
Definition GUEST_ES_LIMIT : Z := 0x00004800.
Definition GUEST_CS_LIMIT : Z := 0x00004802.
Definition GUEST_SS_LIMIT : Z := 0x00004804.
Definition GUEST_DS_LIMIT : Z := 0x00004806.
Definition GUEST_FS_LIMIT : Z := 0x00004808.
Definition GUEST_GS_LIMIT : Z := 0x0000480a.
Definition GUEST_LDTR_LIMIT : Z := 0x0000480c.
Definition GUEST_TR_LIMIT : Z := 0x0000480e.
Definition GUEST_GDTR_LIMIT : Z := 0x00004810.
Definition GUEST_IDTR_LIMIT : Z := 0x00004812.
Definition GUEST_ES_AR_BYTES : Z := 0x00004814.
Definition GUEST_CS_AR_BYTES : Z := 0x00004816.
Definition GUEST_SS_AR_BYTES : Z := 0x00004818.
Definition GUEST_DS_AR_BYTES : Z := 0x0000481a.
Definition GUEST_FS_AR_BYTES : Z := 0x0000481c.
Definition GUEST_GS_AR_BYTES : Z := 0x0000481e.
Definition GUEST_LDTR_AR_BYTES : Z := 0x00004820.
Definition GUEST_TR_AR_BYTES : Z := 0x00004822.
Definition GUEST_INTERRUPTIBILITY_INFO : Z := 0x00004824.
Definition GUEST_ACTIVITY_STATE : Z := 0x00004826.
Definition GUEST_SYSENTER_CS : Z := 0x0000482a.
Definition VMX_PREEMPTION_TIMER_VALUE : Z := 0x0000482e.
Definition HOST_IA32_SYSENTER_CS : Z := 0x00004c00.
Definition CR0_GUEST_HOST_MASK : Z := 0x00006000.
Definition CR4_GUEST_HOST_MASK : Z := 0x00006002.
Definition CR0_READ_SHADOW : Z := 0x00006004.
Definition CR4_READ_SHADOW : Z := 0x00006006.
Definition CR3_TARGET_VALUE0 : Z := 0x00006008.
Definition CR3_TARGET_VALUE1 : Z := 0x0000600a.
Definition CR3_TARGET_VALUE2 : Z := 0x0000600c.
Definition CR3_TARGET_VALUE3 : Z := 0x0000600e.
Definition EXIT_QUALIFICATION : Z := 0x00006400.
Definition GUEST_LINEAR_ADDRESS : Z := 0x0000640a.
Definition GUEST_CR0 : Z := 0x00006800.
Definition GUEST_CR3 : Z := 0x00006802.
Definition GUEST_CR4 : Z := 0x00006804.
Definition GUEST_ES_BASE : Z := 0x00006806.
Definition GUEST_CS_BASE : Z := 0x00006808.
Definition GUEST_SS_BASE : Z := 0x0000680a.
Definition GUEST_DS_BASE : Z := 0x0000680c.
Definition GUEST_FS_BASE : Z := 0x0000680e.
Definition GUEST_GS_BASE : Z := 0x00006810.
Definition GUEST_LDTR_BASE : Z := 0x00006812.
Definition GUEST_TR_BASE : Z := 0x00006814.
Definition GUEST_GDTR_BASE : Z := 0x00006816.
Definition GUEST_IDTR_BASE : Z := 0x00006818.
Definition GUEST_DR7 : Z := 0x0000681a.
Definition GUEST_RSP : Z := 0x0000681c.
Definition GUEST_RIP : Z := 0x0000681e.
Definition GUEST_RFLAGS : Z := 0x00006820.
Definition GUEST_PENDING_DBG_EXCEPTIONS : Z := 0x00006822.
Definition GUEST_SYSENTER_ESP : Z := 0x00006824.
Definition GUEST_SYSENTER_EIP : Z := 0x00006826.
Definition HOST_CR0 : Z := 0x00006c00.
Definition HOST_CR3 : Z := 0x00006c02.
Definition HOST_CR4 : Z := 0x00006c04.
Definition HOST_FS_BASE : Z := 0x00006c06.
Definition HOST_GS_BASE : Z := 0x00006c08.
Definition HOST_TR_BASE : Z := 0x00006c0a.
Definition HOST_GDTR_BASE : Z := 0x00006c0c.
Definition HOST_IDTR_BASE : Z := 0x00006c0e.
Definition HOST_IA32_SYSENTER_ESP : Z := 0x00006c10.
Definition HOST_IA32_SYSENTER_EIP : Z := 0x00006c12.
Definition HOST_RSP : Z := 0x00006c14.
Definition HOST_RIP : Z := 0x00006c16.

(** Every field of the enumeration, in its order. *)
Definition vmcs_fields : list Z :=
  [ VIRTUAL_PROCESSOR_ID; POSTED_INTR_NV; GUEST_ES_SELECTOR; GUEST_CS_SELECTOR;
    GUEST_SS_SELECTOR; GUEST_DS_SELECTOR; GUEST_FS_SELECTOR; GUEST_GS_SELECTOR;
    GUEST_LDTR_SELECTOR; GUEST_TR_SELECTOR; GUEST_INTR_STATUS; GUEST_PML_INDEX;
    HOST_ES_SELECTOR; HOST_CS_SELECTOR; HOST_SS_SELECTOR; HOST_DS_SELECTOR;
    HOST_FS_SELECTOR; HOST_GS_SELECTOR; HOST_TR_SELECTOR; IO_BITMAP_A;
    IO_BITMAP_A_HIGH; IO_BITMAP_B; IO_BITMAP_B_HIGH; MSR_BITMAP;
    MSR_BITMAP_HIGH; VM_EXIT_MSR_STORE_ADDR; VM_EXIT_MSR_STORE_ADDR_HIGH; VM_EXIT_MSR_LOAD_ADDR;
    VM_EXIT_MSR_LOAD_ADDR_HIGH; VM_ENTRY_MSR_LOAD_ADDR; VM_ENTRY_MSR_LOAD_ADDR_HIGH; PML_ADDRESS;
    PML_ADDRESS_HIGH; TSC_OFFSET; TSC_OFFSET_HIGH; VIRTUAL_APIC_PAGE_ADDR;
    VIRTUAL_APIC_PAGE_ADDR_HIGH; APIC_ACCESS_ADDR; APIC_ACCESS_ADDR_HIGH; POSTED_INTR_DESC_ADDR;
    POSTED_INTR_DESC_ADDR_HIGH; EPT_POINTER; EPT_POINTER_HIGH; EOI_EXIT_BITMAP0;
    EOI_EXIT_BITMAP0_HIGH; EOI_EXIT_BITMAP1; EOI_EXIT_BITMAP1_HIGH; EOI_EXIT_BITMAP2;
    EOI_EXIT_BITMAP2_HIGH; EOI_EXIT_BITMAP3; EOI_EXIT_BITMAP3_HIGH; VMREAD_BITMAP;
    VMWRITE_BITMAP; XSS_EXIT_BITMAP; XSS_EXIT_BITMAP_HIGH; TSC_MULTIPLIER;
    TSC_MULTIPLIER_HIGH; GUEST_PHYSICAL_ADDRESS; GUEST_PHYSICAL_ADDRESS_HIGH; VMCS_LINK_POINTER;
    VMCS_LINK_POINTER_HIGH; GUEST_IA32_DEBUGCTL; GUEST_IA32_DEBUGCTL_HIGH; GUEST_IA32_PAT;
    GUEST_IA32_PAT_HIGH; GUEST_IA32_EFER; GUEST_IA32_EFER_HIGH; GUEST_IA32_PERF_GLOBAL_CTRL;
    GUEST_IA32_PERF_GLOBAL_CTRL_HIGH; GUEST_PDPTR0; GUEST_PDPTR0_HIGH; GUEST_PDPTR1;
    GUEST_PDPTR1_HIGH; GUEST_PDPTR2; GUEST_PDPTR2_HIGH; GUEST_PDPTR3;
    GUEST_PDPTR3_HIGH; GUEST_BNDCFGS; GUEST_BNDCFGS_HIGH; HOST_IA32_PAT;
    HOST_IA32_PAT_HIGH; HOST_IA32_EFER; HOST_IA32_EFER_HIGH; HOST_IA32_PERF_GLOBAL_CTRL;
    HOST_IA32_PERF_GLOBAL_CTRL_HIGH; PIN_BASED_VM_EXEC_CONTROL; CPU_BASED_VM_EXEC_CONTROL; EXCEPTION_BITMAP;
    PAGE_FAULT_ERROR_CODE_MASK; PAGE_FAULT_ERROR_CODE_MATCH; CR3_TARGET_COUNT; VM_EXIT_CONTROLS;
    VM_EXIT_MSR_STORE_COUNT; VM_EXIT_MSR_LOAD_COUNT; VM_ENTRY_CONTROLS; VM_ENTRY_MSR_LOAD_COUNT;
    VM_ENTRY_INTR_INFO_FIELD; VM_ENTRY_EXCEPTION_ERROR_CODE; VM_ENTRY_INSTRUCTION_LEN; TPR_THRESHOLD;
    SECONDARY_VM_EXEC_CONTROL; PLE_GAP; PLE_WINDOW; VM_INSTRUCTION_ERROR;
    VM_EXIT_REASON; VM_EXIT_INTR_INFO; VM_EXIT_INTR_ERROR_CODE; IDT_VECTORING_INFO_FIELD;
    IDT_VECTORING_ERROR_CODE; VM_EXIT_INSTRUCTION_LEN; VMX_INSTRUCTION_INFO; GUEST_ES_LIMIT;
    GUEST_CS_LIMIT; GUEST_SS_LIMIT; GUEST_DS_LIMIT; GUEST_FS_LIMIT;
    GUEST_GS_LIMIT; GUEST_LDTR_LIMIT; GUEST_TR_LIMIT; GUEST_GDTR_LIMIT;
    GUEST_IDTR_LIMIT; GUEST_ES_AR_BYTES; GUEST_CS_AR_BYTES; GUEST_SS_AR_BYTES;
    GUEST_DS_AR_BYTES; GUEST_FS_AR_BYTES; GUEST_GS_AR_BYTES; GUEST_LDTR_AR_BYTES;
    GUEST_TR_AR_BYTES; GUEST_INTERRUPTIBILITY_INFO; GUEST_ACTIVITY_STATE; GUEST_SYSENTER_CS;
    VMX_PREEMPTION_TIMER_VALUE; HOST_IA32_SYSENTER_CS; CR0_GUEST_HOST_MASK; CR4_GUEST_HOST_MASK;
    CR0_READ_SHADOW; CR4_READ_SHADOW; CR3_TARGET_VALUE0; CR3_TARGET_VALUE1;
    CR3_TARGET_VALUE2; CR3_TARGET_VALUE3; EXIT_QUALIFICATION; GUEST_LINEAR_ADDRESS;
    GUEST_CR0; GUEST_CR3; GUEST_CR4; GUEST_ES_BASE;
    GUEST_CS_BASE; GUEST_SS_BASE; GUEST_DS_BASE; GUEST_FS_BASE;
    GUEST_GS_BASE; GUEST_LDTR_BASE; GUEST_TR_BASE; GUEST_GDTR_BASE;
    GUEST_IDTR_BASE; GUEST_DR7; GUEST_RSP; GUEST_RIP;
    GUEST_RFLAGS; GUEST_PENDING_DBG_EXCEPTIONS; GUEST_SYSENTER_ESP; GUEST_SYSENTER_EIP;
    HOST_CR0; HOST_CR3; HOST_CR4; HOST_FS_BASE;
    HOST_GS_BASE; HOST_TR_BASE; HOST_GDTR_BASE; HOST_IDTR_BASE;
    HOST_IA32_SYSENTER_ESP; HOST_IA32_SYSENTER_EIP; HOST_RSP; HOST_RIP ].

(** ** Flags and access rights *)

Definition GUEST_INTR_STATE_STI : Z := 0x00000001.
Definition GUEST_INTR_STATE_MOV_SS : Z := 0x00000002.
Definition GUEST_ACTIVITY_ACTIVE : Z := 0.
Definition VMX_AR_TYPE_MASK : Z := 0x0f.
Definition VMX_AR_TYPE_BUSY_64_TSS : Z := 11.
Definition VMX_EPT_PAGE_WALK_4_BIT : Z := Z.shiftl 1 6.
Definition VMX_EPT_2MB_PAGE_BIT : Z := Z.shiftl 1 16.
Definition VMX_EPT_DEFAULT_GAW : Z := 3.
Definition VMX_EPT_GAW_EPTP_SHIFT : Z := 3.
Definition VMX_EPT_DEFAULT_MT : Z := 0x6.
Definition EXIT_REASON_EXCEPTION_NMI : Z := 0.
Definition EXIT_REASON_CPUID : Z := 10.
Definition EXIT_REASON_RDTSC : Z := 16.
Definition EXIT_REASON_CR_ACCESS : Z := 28.
Definition EXIT_REASON_MSR_READ : Z := 31.
Definition EXIT_REASON_MSR_WRITE : Z := 32.
Definition EXIT_REASON_EPT_VIOLATION : Z := 48.
Definition VMX_AR_DPL_SHIFT : Z := 5.
Definition VMX_AR_DPL (ar : Z) : Z := (ar >>> VMX_AR_DPL_SHIFT) &&& 3.

(** ** Field widths and the accessor checks *)

(** The [BUILD_BUG_ON_MSG] conditions of the four checks: [true] when the accessor
    may be used on the field. *)
Definition vmcs_check16 (field : Z) : bool :=
  negb ((field &&& 0x6001) =? 0x2000) && negb ((field &&& 0x6001) =? 0x2001) &&
  negb ((field &&& 0x6000) =? 0x4000) && negb ((field &&& 0x6000) =? 0x6000).

Definition vmcs_check32 (field : Z) : bool :=
  negb ((field &&& 0x6000) =? 0) && negb ((field &&& 0x6000) =? 0x6000).

Definition vmcs_check64 (field : Z) : bool :=
  negb ((field &&& 0x6000) =? 0) && negb ((field &&& 0x6001) =? 0x2001) &&
  negb ((field &&& 0x6000) =? 0x4000) && negb ((field &&& 0x6000) =? 0x6000).

Definition vmcs_checkl (field : Z) : bool :=
  negb ((field &&& 0x6000) =? 0) && negb ((field &&& 0x6001) =? 0x2000) &&
  negb ((field &&& 0x6001) =? 0x2001) && negb ((field &&& 0x6000) =? 0x4000).

(** Bits stored by a field, from bits 14:13 of its encoding; the high half of a
    64-bit field (bit 0 set) holds 32. *)
Definition vmcs_width (field : Z) : Z :=
  if (field &&& 0x6000) =? 0 then 16
  else if (field &&& 0x6001) =? 0x2000 then 64
  else if (field &&& 0x6001) =? 0x2001 then 32
  else if (field &&& 0x6000) =? 0x4000 then 32
  else 64.

(** ** Reading and writing *)

(** The current VMCS is a page of [.bss], so a field never written reads 0. *)
Definition vmread (vmcs : gmap Z Z) (field : Z) : Z := default 0 (vmcs !! field).

Definition vmwrite (vmcs : gmap Z Z) (field value : Z) : gmap Z Z :=
  <[field := wrap (vmcs_width field) value]> vmcs.

Lemma vmread_vmwrite_eq vmcs f v : vmread (vmwrite vmcs f v) f = wrap (vmcs_width f) v.
Proof. unfold vmread, vmwrite. by rewrite lookup_insert_eq. Qed.

Lemma vmread_vmwrite_ne vmcs f g v : f ≠ g → vmread (vmwrite vmcs f v) g = vmread vmcs g.
Proof. intros. unfold vmread, vmwrite. by rewrite lookup_insert_ne. Qed.

Lemma vmcs_width_cases f : vmcs_width f = 16 ∨ vmcs_width f = 32 ∨ vmcs_width f = 64.
Proof. unfold vmcs_width. repeat case_match; auto. Qed.

Lemma vmcs_width_nonneg f : 0 ≤ vmcs_width f.
Proof. destruct (vmcs_width_cases f) as [->|[->| ->]]; lia. Qed.
#[export] Hint Resolve vmcs_width_nonneg : cint.

(** Every value in the VMCS fits its field. *)
Definition vmcs_ok (vmcs : gmap Z Z) : Prop :=
  map_Forall (λ f v, 0 ≤ v < 2 ^ vmcs_width f) vmcs.

Lemma vmcs_ok_vmwrite vmcs f v : vmcs_ok vmcs → vmcs_ok (vmwrite vmcs f v).
Proof. intros H. apply map_Forall_insert_2; [|done]. apply wrap_bound, vmcs_width_nonneg. Qed.

Lemma vmread_bound vmcs f : vmcs_ok vmcs → 0 ≤ vmread vmcs f < 2 ^ vmcs_width f.
Proof.
  intros H. unfold vmread. destruct (vmcs !! f) eqn:E; simpl; [by apply (H f)|].
  split; [done|]. apply Z.pow_pos_nonneg; [done|apply vmcs_width_nonneg].
Qed.

Lemma vmcs_ok_empty : vmcs_ok ∅.
Proof. apply map_Forall_empty. Qed.

(** Two fields named by closed encodings are told apart by computation. *)
Ltac field_ne := (let H := fresh in intros H; vm_compute in H; discriminate H).

(** Reads through a sequence of writes to closed fields. *)
Ltac vmcs_simpl :=
  repeat first
    [ rewrite vmread_vmwrite_eq
    | rewrite vmread_vmwrite_ne by field_ne ].

Lemma vmcs_fields_distinct : NoDup vmcs_fields.
Proof. apply (bool_decide_unpack _). vm_compute. exact I. Qed.


