(* ===== verification/Machine.v ===== *)
(** The machine the hypervisor runs on, and the state of the hypervisor itself.

    The processor, its MSRs and its memory-mapped devices are not code of the
    repository: they are a parameter, the class [Hardware], whose operations are the
    instructions the inline assembly uses.  The program state is the record
    [machine]: the current VMCS, the [struct vcpu_vmx] of the (only) CPU, the static
    objects of [vmm/vmx.c], [vmm/kvm.c] and [kernel/apic.c], physical memory, and the
    console log.  [NR_CPUS] is 1 in the build ([Makefile]), so each per-CPU object is
    a single one. *)

From S2P Require Import Prelude Vmcs.
#[local] Open Scope Z_scope.
#[local] Open Scope cint_scope.

(** ** Model-specific registers and processor flags *)

(** [include/asm/msr-index.h] *)

Definition MSR_EFER : Z := 0xc0000080.
Definition MSR_STAR : Z := 0xc0000081.
Definition MSR_LSTAR : Z := 0xc0000082.
Definition MSR_CSTAR : Z := 0xc0000083.
Definition MSR_SYSCALL_MASK : Z := 0xc0000084.
Definition MSR_FS_BASE : Z := 0xc0000100.
Definition MSR_GS_BASE : Z := 0xc0000101.
Definition MSR_KERNEL_GS_BASE : Z := 0xc0000102.
Definition MSR_TSC_AUX : Z := 0xc0000103.
Definition EFER_SCE : Z := BIT 0.
Definition EFER_LME : Z := BIT 8.
Definition EFER_LMA : Z := BIT 10.
Definition MSR_IA32_SYSENTER_CS : Z := 0x00000174.
Definition MSR_IA32_SYSENTER_ESP : Z := 0x00000175.
Definition MSR_IA32_SYSENTER_EIP : Z := 0x00000176.
Definition MSR_IA32_CR_PAT : Z := 0x00000277.
Definition MSR_IA32_FEATURE_CONTROL : Z := 0x0000003a.
Definition FEATURE_CONTROL_LOCKED : Z := Z.shiftl 1 0.
Definition FEATURE_CONTROL_VMXON_ENABLED_INSIDE_SMX : Z := Z.shiftl 1 1.
Definition FEATURE_CONTROL_VMXON_ENABLED_OUTSIDE_SMX : Z := Z.shiftl 1 2.
Definition MSR_IA32_APICBASE : Z := 0x0000001b.
Definition MSR_IA32_APICBASE_X2APIC_ENABLE : Z := Z.shiftl 1 10.
Definition MSR_IA32_APICBASE_ENABLE : Z := Z.shiftl 1 11.
Definition MSR_IA32_VMX_BASIC : Z := 0x00000480.
Definition MSR_IA32_VMX_PINBASED_CTLS : Z := 0x00000481.
Definition MSR_IA32_VMX_PROCBASED_CTLS : Z := 0x00000482.
Definition MSR_IA32_VMX_EXIT_CTLS : Z := 0x00000483.
Definition MSR_IA32_VMX_ENTRY_CTLS : Z := 0x00000484.
Definition MSR_IA32_VMX_PROCBASED_CTLS2 : Z := 0x0000048b.
Definition MSR_IA32_VMX_EPT_VPID_CAP : Z := 0x0000048c.
Definition MSR_IA32_VMX_VMFUNC : Z := 0x00000491.

(** [include/asm/processor-flags.h] *)

Definition X86_RFLAGS_TF : Z := BIT 8.
Definition X86_RFLAGS_IF : Z := BIT 9.
Definition X86_RFLAGS_DF : Z := BIT 10.
Definition X86_RFLAGS_NT : Z := BIT 14.
Definition X86_RFLAGS_AC : Z := BIT 18.
Definition X86_CR0_PE : Z := BIT 0.
Definition X86_CR0_ET : Z := BIT 4.
Definition X86_CR0_NE : Z := BIT 5.
Definition X86_CR0_WP : Z := BIT 16.
Definition X86_CR0_NW : Z := BIT 29.
Definition X86_CR0_CD : Z := BIT 30.
Definition X86_CR0_PG : Z := BIT 31.
Definition X86_CR4_PAE : Z := BIT 5.
Definition X86_CR4_VMXE : Z := BIT 13.
Definition X86_CR4_SMEP : Z := BIT 20.
Definition X86_CR4_SMAP : Z := BIT 21.
Definition X86_RFLAGS_IOPL : Z := Z.shiftl 3 12.

Definition PAGE_SHIFT : Z := 12.
Definition PAGE_SIZE : Z := BIT 12.
Definition SZ_1K : Z := 0x400.
Definition SZ_4K : Z := 0x1000.
Definition SZ_1M : Z := 0x100000.
Definition SZ_2M : Z := 0x200000.
Definition SZ_4G : Z := 0x100000000.

(** ** Hardware *)

(** The instructions the inline assembly of [include/asm] and [vmm/vmx.c] issues.
    [hw] is everything the processor and the devices remember. *)
Class Hardware (hw : Type) : Type := {
  hw_rdmsr : hw → Z → Z;
  hw_wrmsr : hw → Z → Z → hw;
  (** [cpuid] with its inputs [eax] and [ecx]: [eax], [ebx], [ecx], [edx]. *)
  hw_cpuid : hw → Z → Z → Z * Z * Z * Z;
  hw_rdtsc : hw → Z * hw;
  (** 32-bit memory-mapped registers, outside the memory of [machine]. *)
  hw_mmio_read32 : hw → Z → Z * hw;
  hw_mmio_write32 : hw → Z → Z → hw;
  (** [inb(port)] and [outb(value, port)]. *)
  hw_inb : hw → Z → Z * hw;
  hw_outb : hw → Z → Z → hw;
  hw_read_cr0 : hw → Z;
  hw_read_cr3 : hw → Z;
  hw_read_cr4 : hw → Z;
  hw_write_cr4 : hw → Z → hw;
  (** [sgdt], [sidt] (the base address) and [str]. *)
  hw_store_gdt : hw → Z;
  hw_store_idt : hw → Z;
  hw_store_tr : hw → Z;
  (** [vmxon], and [vmptrld] with its failure flag. *)
  hw_vmxon : hw → Z → hw;
  hw_vmptrld : hw → Z → bool * hw;
  (** The fields [vmwrite] refuses: read-only or not supported. *)
  hw_vmwrite_fails : Z → bool;
}.

(** ** Addresses chosen by the linker ([vmm/vmm.lds.S]) *)

Class Layout : Type := {
  _start : Z;
  _end : Z;
  ept_pml4 : Z;
  ept_pdpt_0_512g : Z;
  ept_pd_0_4g : Z;
  msr_bitmap_pa : Z;
  vmxarea_pa : Z;
  current_vmcs_pa : Z;
  autoload_guest_pa : Z;
  autoload_host_pa : Z;
  vmx_return : Z;
}.

(** ** Data *)

(** [enum kvm_reg] *)
Definition VCPU_REGS_RAX : Z := 0.
Definition VCPU_REGS_RCX : Z := 1.
Definition VCPU_REGS_RDX : Z := 2.
Definition VCPU_REGS_RBX : Z := 3.
Definition VCPU_REGS_R11 : Z := 11.
Definition NR_VCPU_REGS : Z := 16.

(** The only EPT-violation handler of the program, [handle_ept_violation] of
    [vmm/kvm.c]; the [ept_handler] pointer is [None] when null. *)
Inductive ept_violation_handler : Type := kvm_handle_ept_violation.

Record kvm_vcpu : Type := {
  regs : list Z;
  cr2 : Z;
  activity_state : Z;
  sipi_vector : Z;
  ept_handler : option ept_violation_handler;
}.

Record kvm_segment : Type := {
  sg_base : Z;
  sg_limit : Z;
  sg_selector : Z;
  sg_type : Z;
  sg_present : Z;
  sg_dpl : Z;
  sg_db : Z;
  sg_s : Z;
  sg_l : Z;
  sg_g : Z;
  sg_avl : Z;
  sg_unusable : Z;
}.

Record vmx_msr_entry : Type := { msr_index : Z; msr_value : Z }.

Record vcpu_vmx : Type := {
  vcpu : kvm_vcpu;
  host_rsp : Z;
  fail : Z;
  launched : Z;
  autoload_guest : list vmx_msr_entry;
  autoload_host : list vmx_msr_entry;
}.

Record vmcs_config : Type := {
  cfg_size : Z;
  cfg_basic_cap : Z;
  cfg_revision_id : Z;
  pin_based_exec_ctrl : Z;
  cpu_based_exec_ctrl : Z;
  cpu_based_2nd_exec_ctrl : Z;
  vmexit_ctrl : Z;
  vmentry_ctrl : Z;
}.

Record vmx_capability : Type := { cap_ept : Z; cap_vpid : Z }.

(** The driver [apic] points to: null until [verify_apic]. *)
Inductive apic_driver : Type := xapic | x2apic.

#[export] Instance apic_driver_eq_dec : EqDecision apic_driver.
Proof. solve_decision. Defined.

(** One call of [printk]: its format and its arguments. *)
Inductive logarg : Type := Num (n : Z) | Str (s : string) | Buf (bytes : list Z).
#[global] Coercion Num : Z >-> logarg.
#[global] Coercion Str : string >-> logarg.
Definition logrec : Type := string * list logarg.

(** [struct cpuinfo_x86] of [include/asm/processor.h]; [cpu_index] and [microcode]
    are never used. *)
Record cpuinfo_x86 : Type := {
  x86 : Z;
  x86_vendor : Z;
  x86_model : Z;
  x86_mask : Z;
  extended_cpuid_level : Z;
  cpuid_level : Z;
  x86_capability : list Z;
  x86_vendor_id : list Z;
  x86_model_id : list Z;
}.

Record machine (hw : Type) : Type := {
  m_vmcs : gmap Z Z;
  m_vmx : vcpu_vmx;
  m_config : vmcs_config;
  m_cap : vmx_capability;
  (** [static unsigned long msr_bitmap[PAGE_SIZE / sizeof(unsigned long)]] *)
  m_msr_bitmap : list Z;
  (** Physical memory as 64-bit words, by word index (address / 8). *)
  m_mem : gmap Z Z;
  (** [static int pml4_0_512g_initialized] *)
  m_ept_init : Z;
  m_apic : option apic_driver;
  m_lapic_addr : Z;
  (** [cpu_info], the boot CPU's. *)
  m_cpu : cpuinfo_x86;
  (** [boot_cpu_physical_apicid], [nr_logical_cpuids] and [cpuid_to_apicid] of
      [kernel/apic.c]. *)
  m_boot_apicid : Z;
  m_nr_cpuids : Z;
  m_apicids : list Z;
  m_tsc_khz : Z;
  (** [current_vcpu] points to the vCPU (false: null). *)
  m_current_vcpu : bool;
  (** [initial_tables] of [kernel/acpi.c]: addresses of tables, 0 for null. *)
  m_acpi_tables : list Z;
  m_hw : hw;
  m_log : list logrec;
}.
Arguments m_vmcs {hw}. Arguments m_vmx {hw}. Arguments m_config {hw}.
Arguments m_cap {hw}. Arguments m_msr_bitmap {hw}. Arguments m_mem {hw}.
Arguments m_ept_init {hw}. Arguments m_apic {hw}. Arguments m_lapic_addr {hw}.
Arguments m_cpu {hw}. Arguments m_boot_apicid {hw}.
Arguments m_nr_cpuids {hw}. Arguments m_apicids {hw}. Arguments m_tsc_khz {hw}. Arguments m_current_vcpu {hw}.
Arguments m_acpi_tables {hw}. Arguments m_hw {hw}. Arguments m_log {hw}.
Arguments Build_machine {hw}.

(** Field updates. *)
Definition set_vmcs {hw} (x : gmap Z Z) (s : machine hw) : machine hw :=
  {| m_vmcs := x; m_vmx := m_vmx s; m_config := m_config s; m_cap := m_cap s; m_msr_bitmap :=
     m_msr_bitmap s; m_mem := m_mem s; m_ept_init := m_ept_init s; m_apic := m_apic s;
     m_lapic_addr := m_lapic_addr s; m_cpu := m_cpu s; m_boot_apicid := m_boot_apicid s;
     m_nr_cpuids := m_nr_cpuids s; m_apicids := m_apicids s; m_tsc_khz := m_tsc_khz s;
     m_current_vcpu := m_current_vcpu s; m_acpi_tables := m_acpi_tables s; m_hw := m_hw s; m_log := m_log s |}.
Definition set_vmx {hw} (x : vcpu_vmx) (s : machine hw) : machine hw :=
  {| m_vmcs := m_vmcs s; m_vmx := x; m_config := m_config s; m_cap := m_cap s; m_msr_bitmap :=
     m_msr_bitmap s; m_mem := m_mem s; m_ept_init := m_ept_init s; m_apic := m_apic s;
     m_lapic_addr := m_lapic_addr s; m_cpu := m_cpu s; m_boot_apicid := m_boot_apicid s;
     m_nr_cpuids := m_nr_cpuids s; m_apicids := m_apicids s; m_tsc_khz := m_tsc_khz s;
     m_current_vcpu := m_current_vcpu s; m_acpi_tables := m_acpi_tables s; m_hw := m_hw s; m_log := m_log s |}.
Definition set_config {hw} (x : vmcs_config) (s : machine hw) : machine hw :=
  {| m_vmcs := m_vmcs s; m_vmx := m_vmx s; m_config := x; m_cap := m_cap s; m_msr_bitmap :=
     m_msr_bitmap s; m_mem := m_mem s; m_ept_init := m_ept_init s; m_apic := m_apic s;
     m_lapic_addr := m_lapic_addr s; m_cpu := m_cpu s; m_boot_apicid := m_boot_apicid s;
     m_nr_cpuids := m_nr_cpuids s; m_apicids := m_apicids s; m_tsc_khz := m_tsc_khz s;
     m_current_vcpu := m_current_vcpu s; m_acpi_tables := m_acpi_tables s; m_hw := m_hw s; m_log := m_log s |}.
Definition set_cap {hw} (x : vmx_capability) (s : machine hw) : machine hw :=
  {| m_vmcs := m_vmcs s; m_vmx := m_vmx s; m_config := m_config s; m_cap := x; m_msr_bitmap :=
     m_msr_bitmap s; m_mem := m_mem s; m_ept_init := m_ept_init s; m_apic := m_apic s;
     m_lapic_addr := m_lapic_addr s; m_cpu := m_cpu s; m_boot_apicid := m_boot_apicid s;
     m_nr_cpuids := m_nr_cpuids s; m_apicids := m_apicids s; m_tsc_khz := m_tsc_khz s;
     m_current_vcpu := m_current_vcpu s; m_acpi_tables := m_acpi_tables s; m_hw := m_hw s; m_log := m_log s |}.
Definition set_msr_bitmap {hw} (x : list Z) (s : machine hw) : machine hw :=
  {| m_vmcs := m_vmcs s; m_vmx := m_vmx s; m_config := m_config s; m_cap := m_cap s;
     m_msr_bitmap := x; m_mem := m_mem s; m_ept_init := m_ept_init s; m_apic := m_apic s;
     m_lapic_addr := m_lapic_addr s; m_cpu := m_cpu s; m_boot_apicid := m_boot_apicid s;
     m_nr_cpuids := m_nr_cpuids s; m_apicids := m_apicids s; m_tsc_khz := m_tsc_khz s;
     m_current_vcpu := m_current_vcpu s; m_acpi_tables := m_acpi_tables s; m_hw := m_hw s; m_log := m_log s |}.
Definition set_mem {hw} (x : gmap Z Z) (s : machine hw) : machine hw :=
  {| m_vmcs := m_vmcs s; m_vmx := m_vmx s; m_config := m_config s; m_cap := m_cap s;
     m_msr_bitmap := m_msr_bitmap s; m_mem := x; m_ept_init := m_ept_init s; m_apic := m_apic s;
     m_lapic_addr := m_lapic_addr s; m_cpu := m_cpu s; m_boot_apicid := m_boot_apicid s;
     m_nr_cpuids := m_nr_cpuids s; m_apicids := m_apicids s; m_tsc_khz := m_tsc_khz s;
     m_current_vcpu := m_current_vcpu s; m_acpi_tables := m_acpi_tables s; m_hw := m_hw s; m_log := m_log s |}.
Definition set_ept_init {hw} (x : Z) (s : machine hw) : machine hw :=
  {| m_vmcs := m_vmcs s; m_vmx := m_vmx s; m_config := m_config s; m_cap := m_cap s;
     m_msr_bitmap := m_msr_bitmap s; m_mem := m_mem s; m_ept_init := x; m_apic := m_apic s;
     m_lapic_addr := m_lapic_addr s; m_cpu := m_cpu s; m_boot_apicid := m_boot_apicid s;
     m_nr_cpuids := m_nr_cpuids s; m_apicids := m_apicids s; m_tsc_khz := m_tsc_khz s;
     m_current_vcpu := m_current_vcpu s; m_acpi_tables := m_acpi_tables s; m_hw := m_hw s; m_log := m_log s |}.
Definition set_apic {hw} (x : option apic_driver) (s : machine hw) : machine hw :=
  {| m_vmcs := m_vmcs s; m_vmx := m_vmx s; m_config := m_config s; m_cap := m_cap s;
     m_msr_bitmap := m_msr_bitmap s; m_mem := m_mem s; m_ept_init := m_ept_init s; m_apic := x;
     m_lapic_addr := m_lapic_addr s; m_cpu := m_cpu s; m_boot_apicid := m_boot_apicid s;
     m_nr_cpuids := m_nr_cpuids s; m_apicids := m_apicids s; m_tsc_khz := m_tsc_khz s;
     m_current_vcpu := m_current_vcpu s; m_acpi_tables := m_acpi_tables s; m_hw := m_hw s; m_log := m_log s |}.
Definition set_lapic_addr {hw} (x : Z) (s : machine hw) : machine hw :=
  {| m_vmcs := m_vmcs s; m_vmx := m_vmx s; m_config := m_config s; m_cap := m_cap s;
     m_msr_bitmap := m_msr_bitmap s; m_mem := m_mem s; m_ept_init := m_ept_init s; m_apic :=
     m_apic s; m_lapic_addr := x; m_cpu := m_cpu s; m_boot_apicid := m_boot_apicid s;
     m_nr_cpuids := m_nr_cpuids s; m_apicids := m_apicids s; m_tsc_khz := m_tsc_khz s;
     m_current_vcpu := m_current_vcpu s; m_acpi_tables := m_acpi_tables s; m_hw := m_hw s; m_log := m_log s |}.
Definition set_cpu {hw} (x : cpuinfo_x86) (s : machine hw) : machine hw :=
  {| m_vmcs := m_vmcs s; m_vmx := m_vmx s; m_config := m_config s; m_cap := m_cap s;
     m_msr_bitmap := m_msr_bitmap s; m_mem := m_mem s; m_ept_init := m_ept_init s; m_apic :=
     m_apic s; m_lapic_addr := m_lapic_addr s; m_cpu := x; m_boot_apicid := m_boot_apicid s;
     m_nr_cpuids := m_nr_cpuids s; m_apicids := m_apicids s; m_tsc_khz := m_tsc_khz s;
     m_current_vcpu := m_current_vcpu s; m_acpi_tables := m_acpi_tables s; m_hw := m_hw s; m_log := m_log s |}.
Definition set_boot_apicid {hw} (x : Z) (s : machine hw) : machine hw :=
  {| m_vmcs := m_vmcs s; m_vmx := m_vmx s; m_config := m_config s; m_cap := m_cap s;
     m_msr_bitmap := m_msr_bitmap s; m_mem := m_mem s; m_ept_init := m_ept_init s; m_apic :=
     m_apic s; m_lapic_addr := m_lapic_addr s; m_cpu := m_cpu s; m_boot_apicid := x; m_nr_cpuids
     := m_nr_cpuids s; m_apicids := m_apicids s; m_tsc_khz := m_tsc_khz s; m_current_vcpu :=
     m_current_vcpu s; m_acpi_tables := m_acpi_tables s; m_hw := m_hw s; m_log := m_log s |}.
Definition set_nr_cpuids {hw} (x : Z) (s : machine hw) : machine hw :=
  {| m_vmcs := m_vmcs s; m_vmx := m_vmx s; m_config := m_config s; m_cap := m_cap s;
     m_msr_bitmap := m_msr_bitmap s; m_mem := m_mem s; m_ept_init := m_ept_init s; m_apic :=
     m_apic s; m_lapic_addr := m_lapic_addr s; m_cpu := m_cpu s; m_boot_apicid := m_boot_apicid
     s; m_nr_cpuids := x; m_apicids := m_apicids s; m_tsc_khz := m_tsc_khz s; m_current_vcpu :=
     m_current_vcpu s; m_acpi_tables := m_acpi_tables s; m_hw := m_hw s; m_log := m_log s |}.
Definition set_apicids {hw} (x : list Z) (s : machine hw) : machine hw :=
  {| m_vmcs := m_vmcs s; m_vmx := m_vmx s; m_config := m_config s; m_cap := m_cap s;
     m_msr_bitmap := m_msr_bitmap s; m_mem := m_mem s; m_ept_init := m_ept_init s; m_apic :=
     m_apic s; m_lapic_addr := m_lapic_addr s; m_cpu := m_cpu s; m_boot_apicid := m_boot_apicid
     s; m_nr_cpuids := m_nr_cpuids s; m_apicids := x; m_tsc_khz := m_tsc_khz s; m_current_vcpu
     := m_current_vcpu s; m_acpi_tables := m_acpi_tables s; m_hw := m_hw s; m_log := m_log s |}.
Definition set_tsc_khz {hw} (x : Z) (s : machine hw) : machine hw :=
  {| m_vmcs := m_vmcs s; m_vmx := m_vmx s; m_config := m_config s; m_cap := m_cap s;
     m_msr_bitmap := m_msr_bitmap s; m_mem := m_mem s; m_ept_init := m_ept_init s; m_apic :=
     m_apic s; m_lapic_addr := m_lapic_addr s; m_cpu := m_cpu s; m_boot_apicid := m_boot_apicid
     s; m_nr_cpuids := m_nr_cpuids s; m_apicids := m_apicids s; m_tsc_khz := x; m_current_vcpu
     := m_current_vcpu s; m_acpi_tables := m_acpi_tables s; m_hw := m_hw s; m_log := m_log s |}.
Definition set_current_vcpu {hw} (x : bool) (s : machine hw) : machine hw :=
  {| m_vmcs := m_vmcs s; m_vmx := m_vmx s; m_config := m_config s; m_cap := m_cap s;
     m_msr_bitmap := m_msr_bitmap s; m_mem := m_mem s; m_ept_init := m_ept_init s; m_apic :=
     m_apic s; m_lapic_addr := m_lapic_addr s; m_cpu := m_cpu s; m_boot_apicid := m_boot_apicid
     s; m_nr_cpuids := m_nr_cpuids s; m_apicids := m_apicids s; m_tsc_khz := m_tsc_khz s;
     m_current_vcpu := x; m_acpi_tables := m_acpi_tables s; m_hw := m_hw s; m_log := m_log s |}.
Definition set_acpi_tables {hw} (x : list Z) (s : machine hw) : machine hw :=
  {| m_vmcs := m_vmcs s; m_vmx := m_vmx s; m_config := m_config s; m_cap := m_cap s;
     m_msr_bitmap := m_msr_bitmap s; m_mem := m_mem s; m_ept_init := m_ept_init s; m_apic :=
     m_apic s; m_lapic_addr := m_lapic_addr s; m_cpu := m_cpu s; m_boot_apicid := m_boot_apicid
     s; m_nr_cpuids := m_nr_cpuids s; m_apicids := m_apicids s; m_tsc_khz := m_tsc_khz s;
     m_current_vcpu := m_current_vcpu s; m_acpi_tables := x; m_hw := m_hw s; m_log := m_log s |}.
Definition set_hw {hw} (x : hw) (s : machine hw) : machine hw :=
  {| m_vmcs := m_vmcs s; m_vmx := m_vmx s; m_config := m_config s; m_cap := m_cap s;
     m_msr_bitmap := m_msr_bitmap s; m_mem := m_mem s; m_ept_init := m_ept_init s; m_apic :=
     m_apic s; m_lapic_addr := m_lapic_addr s; m_cpu := m_cpu s; m_boot_apicid := m_boot_apicid
     s; m_nr_cpuids := m_nr_cpuids s; m_apicids := m_apicids s; m_tsc_khz := m_tsc_khz s;
     m_current_vcpu := m_current_vcpu s; m_acpi_tables := m_acpi_tables s; m_hw := x; m_log := m_log s |}.
Definition set_log {hw} (x : list logrec) (s : machine hw) : machine hw :=
  {| m_vmcs := m_vmcs s; m_vmx := m_vmx s; m_config := m_config s; m_cap := m_cap s;
     m_msr_bitmap := m_msr_bitmap s; m_mem := m_mem s; m_ept_init := m_ept_init s; m_apic :=
     m_apic s; m_lapic_addr := m_lapic_addr s; m_cpu := m_cpu s; m_boot_apicid := m_boot_apicid
     s; m_nr_cpuids := m_nr_cpuids s; m_apicids := m_apicids s; m_tsc_khz := m_tsc_khz s;
     m_current_vcpu := m_current_vcpu s; m_acpi_tables := m_acpi_tables s; m_hw := m_hw s; m_log := x |}.


Definition set_regs (x : list Z) (v : kvm_vcpu) : kvm_vcpu :=
  {| regs := x; cr2 := cr2 v; activity_state := activity_state v;
     sipi_vector := sipi_vector v; ept_handler := ept_handler v |}.
Definition set_cr2 (x : Z) (v : kvm_vcpu) : kvm_vcpu :=
  {| regs := regs v; cr2 := x; activity_state := activity_state v;
     sipi_vector := sipi_vector v; ept_handler := ept_handler v |}.
Definition set_ept_handler (x : option ept_violation_handler) (v : kvm_vcpu) : kvm_vcpu :=
  {| regs := regs v; cr2 := cr2 v; activity_state := activity_state v;
     sipi_vector := sipi_vector v; ept_handler := x |}.
Definition set_vcpu (x : kvm_vcpu) (v : vcpu_vmx) : vcpu_vmx :=
  {| vcpu := x; host_rsp := host_rsp v; fail := fail v; launched := launched v;
     autoload_guest := autoload_guest v; autoload_host := autoload_host v |}.
Definition set_autoload (g h : list vmx_msr_entry) (v : vcpu_vmx) : vcpu_vmx :=
  {| vcpu := vcpu v; host_rsp := host_rsp v; fail := fail v; launched := launched v;
     autoload_guest := g; autoload_host := h |}.

(** ** Physical memory *)

(** A 64-bit load; the loads the program makes of page-table entries are aligned,
    and an unaligned one joins the two words it straddles. *)
Definition read_word (mem : gmap Z Z) (i : Z) : Z := default 0 (mem !! i).

Definition read64 (mem : gmap Z Z) (addr : Z) : Z :=
  let sh := 8 * (addr mod 8) in
  if sh =? 0 then read_word mem (addr / 8)
  else (read_word mem (addr / 8) >>> sh) |||
       u64 (read_word mem (addr / 8 + 1) <<< (64 - sh)).

Definition read8 (mem : gmap Z Z) (addr : Z) : Z :=
  u8 (read_word mem (addr / 8) >>> (8 * (addr mod 8))).

(** A 64-bit store at an 8-aligned address: every store the program makes to
    physical memory is to an element of a [uint64_t] array. *)
Definition write64 (mem : gmap Z Z) (addr v : Z) : gmap Z Z := <[addr / 8 := u64 v]> mem.

Lemma read64_aligned mem a : a mod 8 = 0 → read64 mem a = read_word mem (a / 8).
Proof. intros H. unfold read64. by rewrite H. Qed.

Lemma read64_write64_eq mem a v : a mod 8 = 0 → read64 (write64 mem a v) a = u64 v.
Proof.
  intros H. rewrite read64_aligned by done. unfold read_word, write64.
  by rewrite lookup_insert_eq.
Qed.

Lemma read64_write64_ne mem a b v :
  a mod 8 = 0 → b mod 8 = 0 → a ≠ b → read64 (write64 mem a v) b = read64 mem b.
Proof.
  intros Ha Hb Hne. rewrite !read64_aligned by done. unfold read_word, write64.
  rewrite lookup_insert_ne; [done|]. divlia.
Qed.

(** ** Primitive computations *)

Section primitives.
Context {hw : Type} `{Hardware hw}.

Definition printk (fmt : string) (args : list logarg) : M (machine hw) unit :=
  modify (λ s, set_log (m_log s ++ [(fmt, args)]) s).

Definition pr_info (fmt : string) (args : list logarg) : M (machine hw) unit := printk fmt args.
Definition pr_err (fmt : string) (args : list logarg) : M (machine hw) unit := printk fmt args.
Definition pr_cont (fmt : string) (args : list logarg) : M (machine hw) unit := printk fmt args.

Definition rdmsrl (msr : Z) : M (machine hw) Z := gets (λ s, u64 (hw_rdmsr (m_hw s) (u32 msr))).

(** [rdmsr(msr, &low, &high)] *)
Definition rdmsr (msr : Z) : M (machine hw) (Z * Z) :=
  v ← rdmsrl msr; mret (u32 v, v >>> 32).

Definition wrmsrl (msr val : Z) : M (machine hw) unit :=
  modify (λ s, set_hw (hw_wrmsr (m_hw s) (u32 msr) (u64 val)) s).

Definition wrmsr (msr low high : Z) : M (machine hw) unit :=
  wrmsrl msr (u32 low ||| (u32 high <<< 32)).

Definition native_cpuid (eax ecx : Z) : M (machine hw) (Z * Z * Z * Z) :=
  gets (λ s, let '(a, b, c, d) := hw_cpuid (m_hw s) (u32 eax) (u32 ecx) in
             (u32 a, u32 b, u32 c, u32 d)).

Definition rdtsc : M (machine hw) Z := λ s,
  let '(t, h) := hw_rdtsc (m_hw s) in Done (u64 t) (set_hw h s).

(** [inb], [outb], [readl] and [writel] of [include/asm/io.h]. *)
Definition inb (port : Z) : M (machine hw) Z := λ s,
  let '(v, h) := hw_inb (m_hw s) (u16 port) in Done (u8 v) (set_hw h s).
Definition outb (value port : Z) : M (machine hw) unit :=
  modify (λ s, set_hw (hw_outb (m_hw s) (u8 value) (u16 port)) s).
Definition readl (addr : Z) : M (machine hw) Z := λ s,
  let '(v, h) := hw_mmio_read32 (m_hw s) (u64 addr) in Done (u32 v) (set_hw h s).
Definition writel (val addr : Z) : M (machine hw) unit :=
  modify (λ s, set_hw (hw_mmio_write32 (m_hw s) (u64 addr) (u32 val)) s).

Definition read_cr4 : M (machine hw) Z := gets (λ s, u64 (hw_read_cr4 (m_hw s))).

Definition cr4_set_bits (mask : Z) : M (machine hw) unit :=
  cr4 ← read_cr4;
  when (negb ((cr4 ||| mask) =? cr4))
    (modify (λ s, set_hw (hw_write_cr4 (m_hw s) (cr4 ||| mask)) s)).

(** *** VMCS accessors ([vmm/vmx.c]) *)

Definition __vmcs_read (field : Z) : M (machine hw) Z := gets (λ s, vmread (m_vmcs s) field).

Definition vmcs_read16 (field : Z) : M (machine hw) Z := v ← __vmcs_read field; mret (u16 v).
Definition vmcs_read32 (field : Z) : M (machine hw) Z := v ← __vmcs_read field; mret (u32 v).
Definition vmcs_read64 (field : Z) : M (machine hw) Z := v ← __vmcs_read field; mret (u64 v).
Definition vmcs_readl (field : Z) : M (machine hw) Z := __vmcs_read field.

Definition __vmcs_write (field value : Z) : M (machine hw) unit :=
  if hw_vmwrite_fails field then
    (e ← vmcs_read32 VM_INSTRUCTION_ERROR;
     panic "vmx: vmwrite error")
  else modify (λ s, set_vmcs (vmwrite (m_vmcs s) field (u64 value)) s).

Definition vmcs_write16 (field value : Z) : M (machine hw) unit := __vmcs_write field value.
Definition vmcs_write32 (field value : Z) : M (machine hw) unit := __vmcs_write field value.
Definition vmcs_write64 (field value : Z) : M (machine hw) unit := __vmcs_write field value.
Definition vmcs_writel (field value : Z) : M (machine hw) unit := __vmcs_write field value.

(** *** The vCPU ([include/asm/kvm_host.h]) *)

Definition update_vcpu (f : kvm_vcpu → kvm_vcpu) : M (machine hw) unit :=
  modify (λ s, set_vmx (set_vcpu (f (vcpu (m_vmx s))) (m_vmx s)) s).

Definition kvm_register_read (reg : Z) : M (machine hw) Z :=
  gets (λ s, aget (regs (vcpu (m_vmx s))) reg).

Definition kvm_register_write (reg val : Z) : M (machine hw) unit :=
  update_vcpu (λ v, set_regs (aset (regs v) reg (u64 val)) v).

Definition kvm_read_edx_eax : M (machine hw) Z :=
  a ← kvm_register_read VCPU_REGS_RAX;
  d ← kvm_register_read VCPU_REGS_RDX;
  mret (u32 a ||| (u32 d <<< 32)).

Definition kvm_write_edx_eax (val : Z) : M (machine hw) unit :=
  kvm_register_write VCPU_REGS_RAX (u32 val) ;;
  kvm_register_write VCPU_REGS_RDX (u32 (val >>> 32)).

Definition kvm_set_ept_violation_handler (h : ept_violation_handler) : M (machine hw) unit :=
  update_vcpu (set_ept_handler (Some h)).

(** Reads preserve every property of the machine. *)
Section reads.
Context (I : machine hw → Prop).

Lemma preserves_vmread f : preserves I (__vmcs_read f).
Proof. apply preserves_gets. Qed.
Lemma preserves_vmcs_read16 f : preserves I (vmcs_read16 f).
Proof. unfold vmcs_read16, __vmcs_read. preserving. Qed.
Lemma preserves_vmcs_read32 f : preserves I (vmcs_read32 f).
Proof. unfold vmcs_read32, __vmcs_read. preserving. Qed.
Lemma preserves_vmcs_read64 f : preserves I (vmcs_read64 f).
Proof. unfold vmcs_read64, __vmcs_read. preserving. Qed.
Lemma preserves_vmcs_readl f : preserves I (vmcs_readl f).
Proof. apply preserves_gets. Qed.
Lemma preserves_register_read r : preserves I (kvm_register_read r).
Proof. apply preserves_gets. Qed.
Lemma preserves_read_edx_eax : preserves I kvm_read_edx_eax.
Proof. unfold kvm_read_edx_eax, kvm_register_read. preserving. Qed.
Lemma preserves_rdmsrl m : preserves I (rdmsrl m).
Proof. apply preserves_gets. Qed.
Lemma preserves_cpuid a c : preserves I (native_cpuid a c).
Proof. apply preserves_gets. Qed.
End reads.
End primitives.

#[export] Hint Resolve preserves_vmread preserves_vmcs_read16 preserves_vmcs_read32
  preserves_vmcs_read64 preserves_vmcs_readl preserves_register_read preserves_read_edx_eax
  preserves_rdmsrl preserves_cpuid : preserves.

(** ** A concrete machine

    The instances the witnesses run on: a processor whose MSRs and memory-mapped
    registers are plain storage, a [cpuid] that answers zero, a time-stamp counter that
    ticks, no device on the ports, and the image linked at
    [VMM_START] with 4 MB. *)

Module Concrete.
Record cpu : Type := { cpu_msrs : gmap Z Z; cpu_mmio : gmap Z Z; cpu_tsc : Z; cpu_cr4 : Z }.

Definition cpu_rdmsr (c : cpu) (i : Z) : Z := default 0 (cpu_msrs c !! i).
Definition cpu_wrmsr (c : cpu) (i v : Z) : cpu :=
  {| cpu_msrs := <[i := v]> (cpu_msrs c); cpu_mmio := cpu_mmio c; cpu_tsc := cpu_tsc c;
     cpu_cr4 := cpu_cr4 c |}.
Definition cpu_mmio_write (c : cpu) (a v : Z) : cpu :=
  {| cpu_msrs := cpu_msrs c; cpu_mmio := <[a := v]> (cpu_mmio c); cpu_tsc := cpu_tsc c;
     cpu_cr4 := cpu_cr4 c |}.
Definition cpu_tick (c : cpu) : cpu :=
  {| cpu_msrs := cpu_msrs c; cpu_mmio := cpu_mmio c; cpu_tsc := cpu_tsc c + 1;
     cpu_cr4 := cpu_cr4 c |}.
Definition cpu_set_cr4 (c : cpu) (v : Z) : cpu :=
  {| cpu_msrs := cpu_msrs c; cpu_mmio := cpu_mmio c; cpu_tsc := cpu_tsc c; cpu_cr4 := v |}.

Definition cpu_hardware : Hardware cpu := {|
  hw_rdmsr := cpu_rdmsr;
  hw_wrmsr := cpu_wrmsr;
  hw_cpuid := λ _ _ _, (0, 0, 0, 0);
  hw_rdtsc := λ c, (cpu_tsc c, cpu_tick c);
  hw_mmio_read32 := λ c a, (default 0 (cpu_mmio c !! a), c);
  hw_mmio_write32 := cpu_mmio_write;
  hw_inb := λ c _, (0xff, c);
  hw_outb := λ c _ _, c;
  hw_read_cr0 := λ _, 0x80050033;
  hw_read_cr3 := λ _, 0x10001000;
  hw_read_cr4 := cpu_cr4;
  hw_write_cr4 := cpu_set_cr4;
  hw_store_gdt := λ _, 0xffff800010002000;
  hw_store_idt := λ _, 0xffff800010003000;
  hw_store_tr := λ _, 64;
  hw_vmxon := λ c _, c;
  hw_vmptrld := λ c _, (false, c);
  hw_vmwrite_fails := λ f, (Z.land f 0xc00) =? 0x400;
|}.

Definition layout : Layout := {|
  _start := 0x10000000;
  _end := 0x10400000;
  ept_pml4 := 0x10200000;
  ept_pdpt_0_512g := 0x10201000;
  ept_pd_0_4g := 0x10202000;
  msr_bitmap_pa := 0x10206000;
  vmxarea_pa := 0x10207000;
  current_vmcs_pa := 0x10208000;
  autoload_guest_pa := 0x10209000;
  autoload_host_pa := 0x10209080;
  vmx_return := 0x10100000;
|}.

Definition vcpu0 : kvm_vcpu := {|
  regs := replicate 16 0; cr2 := 0; activity_state := 0; sipi_vector := 0;
  ept_handler := None |}.

Definition vmx0 : vcpu_vmx := {|
  vcpu := vcpu0; host_rsp := 0; fail := 0; launched := 0;
  autoload_guest := replicate 8 {| msr_index := 0; msr_value := 0 |};
  autoload_host := replicate 8 {| msr_index := 0; msr_value := 0 |} |}.

(** The state at boot: every static object is zero ([.bss]). *)
Definition boot : machine cpu := {|
  m_vmcs := ∅; m_vmx := vmx0;
  m_config := {| cfg_size := 0; cfg_basic_cap := 0; cfg_revision_id := 0;
                 pin_based_exec_ctrl := 0; cpu_based_exec_ctrl := 0;
                 cpu_based_2nd_exec_ctrl := 0; vmexit_ctrl := 0; vmentry_ctrl := 0 |};
  m_cap := {| cap_ept := 0; cap_vpid := 0 |};
  m_msr_bitmap := replicate 512 0;
  m_mem := ∅; m_ept_init := 0; m_apic := None; m_lapic_addr := 0xfee00000;
  m_cpu := {| x86 := 0; x86_vendor := 0; x86_model := 0; x86_mask := 0;
              extended_cpuid_level := 0; cpuid_level := 0;
              x86_capability := replicate 19 0; x86_vendor_id := replicate 16 0;
              x86_model_id := replicate 64 0 |};
  m_boot_apicid := 0xffff; m_nr_cpuids := 1; m_apicids := [0xffff]; m_tsc_khz := 0;
  m_current_vcpu := false;
  m_acpi_tables := replicate 128 0; m_hw := {| cpu_msrs := ∅; cpu_mmio := ∅; cpu_tsc := 1; cpu_cr4 := 0 |};
  m_log := [] |}.
End Concrete.

#[export] Existing Instance Concrete.cpu_hardware.
