(* ===== verification/Tsc.v ===== *)
(** Time: the TSC calibration and the delays of [kernel/tsc.c] and
    [include/sys/delay.h].

    The TSC and the PIT are devices of the [Hardware] parameter.  The busy loops are
    [loop]s; [udelay] is proved to end, and to have waited, on a counter that advances. *)

From S2P Require Import Prelude Vmcs Machine.
#[local] Open Scope Z_scope.
#[local] Open Scope cint_scope.

Definition X86_VENDOR_INTEL : Z := 0.
Definition X86_VENDOR_AMD : Z := 2.
Definition X86_VENDOR_UNKNOWN : Z := 0xff.

(** [include/asm/intel-family.h] *)
Definition INTEL_FAM6_SKYLAKE_MOBILE : Z := 0x4e.
Definition INTEL_FAM6_SKYLAKE_DESKTOP : Z := 0x5e.
Definition INTEL_FAM6_SKYLAKE_X : Z := 0x55.
Definition INTEL_FAM6_KABYLAKE_MOBILE : Z := 0x8e.
Definition INTEL_FAM6_KABYLAKE_DESKTOP : Z := 0x9e.
Definition INTEL_FAM6_ATOM_GOLDMONT : Z := 0x5c.
Definition INTEL_FAM6_ATOM_DENVERTON : Z := 0x5f.

(** The clock frequency of the PIT, and the bounds of the quick calibration. *)
Definition PIT_TICK_RATE : Z := 1193182.
Definition MAX_QUICK_PIT_MS : Z := 500.
Definition MAX_QUICK_PIT_ITERATIONS : Z := MAX_QUICK_PIT_MS * PIT_TICK_RATE / 1000 / 256.

(** How the loop of [quick_pit_calibrate] ends: [goto success] with [i] and [delta],
    [break], or [return 0] from inside. *)
Inductive pit_result : Type := PitSuccess (i delta : Z) | PitBreak | PitGiveUp.

Section tsc.
Context {hw : Type} `{Hardware hw}.
Implicit Types s : machine hw.

Definition get_cycles : M (machine hw) Z := rdtsc.

Definition cpuid (op : Z) : M (machine hw) (Z * Z * Z * Z) := native_cpuid op 0.
Definition cpuid_count (op count : Z) : M (machine hw) (Z * Z * Z * Z) := native_cpuid op count.

(** The [switch (boot_cpu_data.x86_model)] on a processor that reports no crystal. *)
Definition crystal_of_model (model : Z) : Z :=
  if (model =? INTEL_FAM6_SKYLAKE_MOBILE) || (model =? INTEL_FAM6_SKYLAKE_DESKTOP)
     || (model =? INTEL_FAM6_KABYLAKE_MOBILE) || (model =? INTEL_FAM6_KABYLAKE_DESKTOP) then 24000
  else if (model =? INTEL_FAM6_SKYLAKE_X) || (model =? INTEL_FAM6_ATOM_DENVERTON) then 25000
  else if model =? INTEL_FAM6_ATOM_GOLDMONT then 19200
  else 0.

Definition native_calibrate_tsc : M (machine hw) Z :=
  c ← gets m_cpu;
  if negb (x86_vendor c =? X86_VENDOR_INTEL) then mret 0
  else if s32 (cpuid_level c) <? 0x15 then mret 0
  else
    '(eax_denominator, ebx_numerator, ecx_hz, edx) ← cpuid 0x15;
    if (ebx_numerator =? 0) || (eax_denominator =? 0) then mret 0
    else
      let crystal_khz := ecx_hz / 1000 in
      let crystal_khz :=
        if crystal_khz =? 0 then crystal_of_model (x86_model c) else crystal_khz in
      mret (u32 (crystal_khz * ebx_numerator) / eax_denominator).

(** *** The PIT *)

Definition pit_verify_msb (val : Z) : M (machine hw) bool :=
  _ ← inb 0x42;
  v ← inb 0x42;
  mret (v =? u8 val).

(** One iteration of the [for] loop of [pit_expect_msb], on [count], [tsc], [prev_tsc]. *)
Definition pit_expect_step (val : Z) (a : Z * Z * Z) : M (machine hw) (Z * Z * Z + Z * Z * Z) :=
  let '(count, tsc, prev_tsc) := a in
  if count <? 50000 then
    ok ← pit_verify_msb val;
    if ok : bool then
      tsc' ← get_cycles;
      mret (inl (count + 1, tsc', tsc))
    else mret (inr a)
  else mret (inr a).

(** The answer, [*tscp] and [*deltap]. *)
Definition pit_expect_msb (val : Z) : M (machine hw) (bool * Z * Z) :=
  '(count, tsc, prev_tsc) ← loop (pit_expect_step val) (0, 0, 0);
  now ← get_cycles;
  mret (1 <? count, tsc, u64 (now - prev_tsc)).

(** One iteration of the [for] loop of [quick_pit_calibrate]. *)
Definition quick_pit_step (tsc d1 : Z) (i : Z) : M (machine hw) (Z + pit_result) :=
  if i <=? MAX_QUICK_PIT_ITERATIONS then
    '(ok, delta, d2) ← pit_expect_msb (0xff - i);
    if negb ok then mret (inr PitBreak)
    else
      let delta := u64 (delta - tsc) in
      if (i =? 1) && (u64 (delta * MAX_QUICK_PIT_ITERATIONS) >>> 11 <=? u64 (d1 + d2))
      then mret (inr PitGiveUp)
      else if delta >>> 11 <=? u64 (d1 + d2) then mret (inl (i + 1))
      else
        stable ← pit_verify_msb (0xfe - i);
        if negb stable then mret (inr PitBreak) else mret (inr (PitSuccess i delta))
  else mret (inr PitBreak).

Definition quick_pit_calibrate : M (machine hw) Z :=
  gate ← inb 0x61;
  outb ((gate &&& not32 0x02) ||| 0x01) 0x61 ;;
  outb 0xb0 0x43 ;;
  outb 0xff 0x42 ;;
  outb 0xff 0x42 ;;
  _ ← pit_verify_msb 0;
  '(ok, tsc, d1) ← pit_expect_msb 0xff;
  r ← (if ok : bool then loop (quick_pit_step tsc d1) 1 else mret PitBreak);
  match r with
  | PitGiveUp => mret 0
  | PitBreak => pr_info "fast TSC calibration failed" [] ;; mret 0
  | PitSuccess i delta =>
      let delta := u64 (delta * PIT_TICK_RATE) in
      let delta := delta / u32 (i * 256 * 1000) in
      pr_info "fast TSC calibration using PIT" [] ;;
      mret delta
  end.

Definition tsc_init : M (machine hw) unit :=
  t ← native_calibrate_tsc;
  modify (set_tsc_khz t) ;;
  t ← (if t =? 0 then t ← quick_pit_calibrate; modify (set_tsc_khz t) ;; mret t else mret t);
  verb ← (if t =? 0 then modify (set_tsc_khz 2000000) ;; mret "assume "%string
          else mret EmptyString);
  khz ← gets m_tsc_khz;
  pr_info "%s%lu.%03lu MHz" [Str verb; Num (khz / 1000); Num (khz mod 1000)].

(** *** Delays *)

Definition uptime : M (machine hw) Z :=
  khz ← gets m_tsc_khz;
  if khz =? 0 then mret 0
  else
    c ← get_cycles;
    mret (u64 (c * 1000) / khz).

Definition udelay_step (t0 usecs : Z) (_ : unit) : M (machine hw) (unit + unit) :=
  t ← uptime;
  if u64 (t - t0) <? usecs then mret (inl tt) else mret (inr tt).

Definition udelay (usecs : Z) : M (machine hw) unit :=
  t0 ← uptime;
  if t0 =? 0 then mret tt else loop (udelay_step t0 usecs) tt.

Definition ndelay (nsecs : Z) : M (machine hw) unit := udelay (u64 (nsecs + 999) / 1000).
Definition mdelay (msecs : Z) : M (machine hw) unit := udelay (u64 (msecs * 1000)).
End tsc.

(** ** [udelay] *)

(** A time-stamp counter that advances: [now] is its value, and reading it takes it
    forward by at least 1 and at most [tick]. *)
Class Ticking (hw : Type) `{Hardware hw} (now : hw → Z) (tick : Z) : Prop :=
  ticking : ∀ h, ∃ h', hw_rdtsc h = (now h, h') ∧ now h + 1 ≤ now h' ≤ now h + tick.

Lemma set_hw_set_hw {hw} (x y : hw) (s : machine hw) : set_hw x (set_hw y s) = set_hw x s.
Proof. done. Qed.

Section udelay.
Context {hw : Type} `{Hardware hw} {now : hw → Z} {tick : Z} `{!Ticking hw now tick}.
Implicit Types s : machine hw.

Lemma uptime_reads s :
  0 ≤ now (m_hw s) → now (m_hw s) * 1000 < 2 ^ 64 → 0 < m_tsc_khz s →
  ∃ h', now (m_hw s) + 1 ≤ now h' ≤ now (m_hw s) + tick ∧
    uptime s = Done (now (m_hw s) * 1000 / m_tsc_khz s) (set_hw h' s).
Proof.
  intros H0 Hb Hk. destruct (ticking (m_hw s)) as (h' & Hr & Ht). exists h'. split; [done|].
  assert (get_cycles s = Done (now (m_hw s)) (set_hw h' s)) as Hc.
  { unfold get_cycles, rdtsc. rewrite Hr. by rewrite wrap_small by lia. }
  unfold uptime. erewrite bind_done by reflexivity.
  destruct (Z.eqb_spec (m_tsc_khz s) 0); [lia|].
  rewrite (bind_done _ _ _ _ _ Hc), wrap_small by lia. done.
Qed.

Lemma udelay_waits s usecs :
  let khz := m_tsc_khz s in
  let t0 := now (m_hw s) in
  0 < khz → 0 ≤ usecs → khz ≤ t0 * 1000 →
  (t0 + 2 * tick + 1) * 1000 + (usecs + 1) * khz < 2 ^ 64 →
  ∃ h', udelay usecs s = Done tt (set_hw h' s) ∧ (usecs - 1) * khz < (now h' - t0) * 1000.
Proof.
  intros khz t0 Hk Hu Ht0 Hb.
  assert (1 ≤ tick) by (destruct (ticking (m_hw s)) as (? & _ & ?); lia).
  assert (0 ≤ usecs * khz) by nia.
  destruct (uptime_reads s) as (h1 & Hh1 & Hup); [nia..|].
  set (u0 := t0 * 1000 / khz). assert (u0 * khz ≤ t0 * 1000 < (u0 + 1) * khz) as Hu0.
  { unfold u0. pose proof (Z.div_mod (t0 * 1000) khz ltac:(lia)).
    pose proof (Z.mod_pos_bound (t0 * 1000) khz Hk). lia. }
  assert (0 < u0) by nia. fold t0 khz in Hup, Hh1. fold u0 in Hup.
  set (top := ((u0 + usecs + 1) * khz) / 1000 + 1 + tick).
  assert ((u0 + usecs + 1) * khz < (top - tick) * 1000 ≤ (u0 + usecs + 1) * khz + 1000) as Htop
    by (unfold top; divlia).
  unfold udelay. rewrite (bind_done _ _ _ _ _ Hup).
  destruct (Z.eqb_spec u0 0); [lia|].
  destruct (loop_total (udelay_step u0 usecs)
    (λ _ st, ∃ h, st = set_hw h s ∧ t0 < now h ≤ top)
    (λ _ st, ∃ h, st = set_hw h s ∧ (usecs - 1) * khz < (now h - t0) * 1000)
    (λ _ st, top + 1 - now (m_hw st))) with (a := tt) (s := set_hw h1 s) as ([] & s' & Hl & h & -> & Hq).
  - intros [] st (h & -> & Hh).
    destruct (uptime_reads (set_hw h s)) as (h' & Hh' & Hup'); cbn [m_hw m_tsc_khz set_hw] in *;
      [lia|lia|done|].
    unfold udelay_step. rewrite (bind_done _ _ _ _ _ Hup'). fold khz.
    pose proof (Z.div_mod (now h * 1000) khz ltac:(lia)).
    pose proof (Z.mod_pos_bound (now h * 1000) khz Hk).
    set (u := now h * 1000 / khz) in H3, H4 |- *. assert (u0 ≤ u) by (unfold u, u0; apply Z.div_le_mono; lia).
    assert (u ≤ now h * 1000) by nia.
    rewrite wrap_small by lia. rewrite set_hw_set_hw.
    destruct (Z.ltb_spec (u - u0) usecs).
    + assert (khz * (u + 1) ≤ khz * (u0 + usecs)) by nia.
      assert (now h * 1000 < (u0 + usecs + 1) * khz) by lia. assert (now h < top - tick) by lia.
      split; [|cbn [m_hw set_hw]; lia]. exists h'. split; [done|]. lia.
    + exists h'. split; [done|]. nia.
  - exists h1. split; [done|]. lia.
  - cbn [m_hw set_hw]. lia.
  - exists h. done.
Qed.

(** The clock at the count [c] of cycles, whatever has wrapped around. *)
Definition clock_at (khz c : Z) : Z := u64 (u64 c * 1000) / khz.

Lemma uptime_clock s :
  0 < m_tsc_khz s →
  ∃ h', now (m_hw s) + 1 ≤ now h' ≤ now (m_hw s) + tick ∧
    uptime s = Done (clock_at (m_tsc_khz s) (now (m_hw s))) (set_hw h' s).
Proof.
  intros Hk. destruct (ticking (m_hw s)) as (h' & Hr & Ht). exists h'. split; [done|].
  unfold uptime. erewrite bind_done by reflexivity. destruct (Z.eqb_spec (m_tsc_khz s) 0); [lia|].
  unfold get_cycles, rdtsc, mbind, M_bind. by rewrite Hr.
Qed.

(** How far the product is past the one at which [udelay] started. *)
Definition passed (x0 c : Z) : Z := (c * 1000 - x0) mod 2 ^ 64.

Lemma clock_passed khz t0 usecs c :
  0 < khz → 0 ≤ t0 → t0 * khz < 2 ^ 64 → 0 ≤ usecs → usecs * khz < 2 ^ 64 →
  u64 (clock_at khz c - t0) < usecs → passed (t0 * khz) c < usecs * khz.
Proof.
  intros Hk Ht Ht' Hu Hu'. unfold clock_at, passed, wrap. rewrite Z.mul_mod_idemp_l by lia.
  set (x := c * 1000). assert (0 ≤ x mod 2 ^ 64 < 2 ^ 64) as Hx by (apply Z.mod_pos_bound; lia).
  assert ((x - t0 * khz) mod 2 ^ 64 = (x mod 2 ^ 64 - t0 * khz) mod 2 ^ 64) as ->.
  { by rewrite Zminus_mod_idemp_l. }
  set (y := x mod 2 ^ 64) in *. pose proof (Z.div_mod y khz ltac:(lia)) as Hy.
  pose proof (Z.mod_pos_bound y khz Hk) as Hr. set (q := y / khz) in *. clearbody q.
  intros Hlt. destruct (Z.le_gt_cases t0 q) as [Hq|Hq].
  - rewrite Z.mod_small in Hlt by nia. rewrite Z.mod_small by nia. nia.
  - replace ((q - t0) mod 2 ^ 64) with (q - t0 + 2 ^ 64) in Hlt by (rewrite <- (Z.mod_add _ 1) by lia; symmetry; apply Z.mod_small; nia).
    rewrite <- (Z.mod_add (y - t0 * khz) 1) by lia. rewrite Z.mod_small by nia. nia.
Qed.

(** Whatever the counter holds, [udelay] ends, if one reading of it cannot pass the part of
    the clock's period that is outside the delay. *)
Lemma udelay_ends s usecs :
  0 ≤ usecs → 0 ≤ m_tsc_khz s → tick * 1000 + usecs * m_tsc_khz s ≤ 2 ^ 64 →
  ∃ h, udelay usecs s = Done tt (set_hw h s).
Proof.
  intros Hu Hk0 Hb. assert (1 ≤ tick) by (destruct (ticking (m_hw s)) as (? & _ & ?); lia).
  set (khz := m_tsc_khz s) in *. destruct (decide (khz = 0)) as [Hz|Hz].
  { exists (m_hw s). unfold udelay. rewrite (bind_done _ _ s 0 s); [by destruct s|].
    unfold uptime. erewrite bind_done by reflexivity. fold khz. by rewrite Hz. }
  assert (0 < khz) as Hk by lia. destruct (uptime_clock s Hk) as (h1 & Hh1 & Hup). fold khz in Hup.
  unfold udelay. rewrite (bind_done _ _ _ _ _ Hup). set (t0 := clock_at khz _).
  assert (0 ≤ u64 (u64 (now (m_hw s)) * 1000) < 2 ^ 64) as Hx by (apply wrap_bound; lia).
  assert (0 ≤ t0 ∧ t0 * khz < 2 ^ 64) as [Ht0 Ht0k].
  { unfold t0, clock_at. pose proof (Z.div_mod (u64 (u64 (now (m_hw s)) * 1000)) khz ltac:(lia)).
    pose proof (Z.mod_pos_bound (u64 (u64 (now (m_hw s)) * 1000)) khz Hk). split; [apply Z.div_pos; lia|lia]. }
  destruct (Z.eqb_spec t0 0); [by exists h1|].
  destruct (loop_total (udelay_step t0 usecs) (λ _ st, ∃ h, st = set_hw h s) (λ _ st, ∃ h, st = set_hw h s)
    (λ _ st, 2 ^ 64 - 1 - passed (t0 * khz) (now (m_hw st)))) with (a := tt) (s := set_hw h1 s)
    as ([] & s' & Hl & h & ->); [|by exists h1| |by exists h].
  2: { unfold passed. pose proof (Z.mod_pos_bound (now (m_hw (set_hw h1 s)) * 1000 - t0 * khz) (2 ^ 64) ltac:(lia)). lia. }
  intros [] st (h & ->). destruct (uptime_clock (set_hw h s)) as (h' & Hh' & Hup'); [exact Hk|].
  cbn [m_hw m_tsc_khz set_hw] in *. fold khz in Hup'. unfold udelay_step. rewrite (bind_done _ _ _ _ _ Hup').
  rewrite set_hw_set_hw. destruct (Z.ltb_spec (u64 (clock_at khz (now h) - t0)) usecs) as [Hlt|]; [|by exists h'].
  apply (clock_passed khz) in Hlt; [|done|done|done|done|nia]. split; [by exists h'|]. cbn [m_hw set_hw].
  unfold passed in *. pose proof (Z.mod_pos_bound (now h * 1000 - t0 * khz) (2 ^ 64) ltac:(lia)) as Hp.
  set (P := (now h * 1000 - t0 * khz) mod 2 ^ 64) in *.
  assert ((now h' * 1000 - t0 * khz) mod 2 ^ 64 = P + (now h' - now h) * 1000) as ->; [|lia].
  replace (now h' * 1000 - t0 * khz) with ((now h * 1000 - t0 * khz) + (now h' - now h) * 1000) by lia.
  rewrite <- Z.add_mod_idemp_l by lia. fold P. apply Z.mod_small. lia.
Qed.

End udelay.

#[export] Instance concrete_ticking : @Ticking _ Concrete.cpu_hardware Concrete.cpu_tsc 1.
Proof. intros h. eexists. split; [reflexivity|]. cbn. lia. Qed.


(** ** Calibration *)

Section calibrate.
Context {hw : Type} `{Hardware hw}.
Implicit Types s : machine hw.

Lemma returns_inb port : returns (inb port) (λ v, 0 ≤ v < 2 ^ 8).
Proof.
  intros s. unfold inb. destruct (hw_inb _ _) as [v h].
  eexists _, _. split; [done|]. by apply wrap_bound.
Qed.

Lemma returns_outb v port : returns (outb v port) (λ _, True).
Proof. apply returns_modify. Qed.

Lemma returns_get_cycles : returns get_cycles (λ v, 0 ≤ v < 2 ^ 64).
Proof.
  intros s. unfold get_cycles, rdtsc. destruct (hw_rdtsc _) as [t h].
  eexists _, _. split; [done|]. by apply wrap_bound.
Qed.

Lemma returns_pit_verify_msb v : returns (pit_verify_msb v) (λ _, True).
Proof.
  eapply returns_bind; [apply returns_inb|]. intros _ _.
  eapply returns_bind; [apply returns_inb|]. intros. by apply returns_ret.
Qed.

Lemma returns_pit_expect_msb v : returns (pit_expect_msb v) (λ r, 0 ≤ r.2 < 2 ^ 64).
Proof.
  eapply returns_bind.
  - eapply (returns_loop _ (λ a, 0 ≤ a.1.1 ≤ 50000) (λ _, True) (λ a, 50000 - a.1.1)); [|done..].
    intros [[count t] p] Hc. simpl in *.
    destruct (Z.ltb_spec count 50000); [|by apply returns_ret].
    eapply returns_bind; [apply returns_pit_verify_msb|]. intros [] _; [|by apply returns_ret].
    eapply returns_bind; [apply returns_get_cycles|]. intros t' _. apply returns_ret. simpl. lia.
  - intros [[count t] p] _.
    eapply returns_bind; [apply returns_get_cycles|]. intros t' _. apply returns_ret.
    by apply wrap_bound.
Qed.

Lemma returns_quick_pit_calibrate : returns quick_pit_calibrate (λ v, 0 ≤ v < 2 ^ 47).
Proof.
  unfold quick_pit_calibrate.
  eapply returns_bind; [apply returns_inb|]. intros gate _.
  do 4 (eapply returns_bind; [apply returns_outb|]; intros _ _).
  eapply returns_bind; [apply returns_pit_verify_msb|]. intros _ _.
  eapply returns_bind; [apply returns_pit_expect_msb|]. intros [[ok t] d1] _.
  eapply (returns_bind _ _ (λ r, match r with PitSuccess i _ => 1 ≤ i ≤ 2330 | _ => True end)).
  - destruct ok; [|by apply returns_ret].
    apply (returns_loop _ (λ i, 1 ≤ i ≤ 2331) _ (λ i, 2331 - i)); [|done..].
    intros i Hi. unfold quick_pit_step. change MAX_QUICK_PIT_ITERATIONS with 2330.
    destruct (Z.leb_spec i 2330); [|by apply returns_ret].
    eapply returns_bind; [apply returns_pit_expect_msb|]. intros [[ok' delta] d2] _.
    destruct (negb ok'); [by apply returns_ret|].
    destruct (_ && _); [by apply returns_ret|].
    destruct (_ <=? _); [apply returns_ret; lia|].
    eapply returns_bind; [apply returns_pit_verify_msb|]. intros [] _; apply returns_ret; [lia|done].
  - intros [i delta| |] Hi.
    + eapply returns_bind; [apply returns_modify|]. intros _ _. apply returns_ret.
      rewrite (wrap_small 32) by lia. pose proof (wrap_bound 64 (delta * PIT_TICK_RATE) ltac:(lia)).
      split; [apply Z.div_pos; lia|]. apply Z.div_lt_upper_bound; [lia|]. nia.
    + eapply returns_bind; [apply returns_modify|]. intros _ _. by apply returns_ret.
    + by apply returns_ret.
Qed.

Lemma returns_native_calibrate_tsc : returns native_calibrate_tsc (λ v, 0 ≤ v < 2 ^ 32).
Proof.
  eapply returns_bind; [apply returns_gets|]. intros c _.
  destruct (negb _); [by apply returns_ret|]. destruct (_ <? _); [by apply returns_ret|].
  eapply (returns_bind _ _ (λ r, 0 ≤ r.1.1.1)).
  { intros s. unfold cpuid, native_cpuid, gets. destruct (hw_cpuid _ _ _) as [[[a b] c'] d].
    eexists _, _. split; [done|]. by apply wrap_nonneg. }
  intros [[[a b] e] d] Ha. simpl in Ha. destruct (_ || _) eqn:E; [by apply returns_ret|].
  apply orb_false_elim in E as [_ Hnz%Z.eqb_neq]. apply returns_ret.
  match goal with |- context [u32 ?x / a] => pose proof (wrap_bound 32 x ltac:(lia)) end.
  split; [apply Z.div_pos; lia|]. apply Z.div_lt_upper_bound; nia.
Qed.

(** The calibration always comes to an end, whatever the PIT and the processor answer (the
    polling loops are bounded), never panics, and leaves a frequency that is not 0, so that
    [uptime] never divides by zero after it, and below 2^47. *)
Lemma tsc_init_frequency s : ∃ s', tsc_init s = Done tt s' ∧ 0 < m_tsc_khz s' < 2 ^ 47.
Proof.
  unfold tsc_init. destruct (returns_native_calibrate_tsc s) as (t & s1 & H1 & Ht).
  rewrite (bind_done _ _ _ _ _ H1). erewrite bind_done by reflexivity.
  destruct (Z.eqb_spec t 0) as [->|Hnz].
  - destruct (returns_quick_pit_calibrate (set_tsc_khz 0 s1)) as (q & s2 & H2 & Hq).
    erewrite bind_done.
    2: { rewrite (bind_done _ _ _ _ _ H2). by erewrite bind_done by reflexivity. }
    destruct (Z.eqb_spec q 0) as [->|Hnz]; eexists; (split; [reflexivity|]); cbn; lia.
  - erewrite bind_done by reflexivity. destruct (Z.eqb_spec t 0); [done|].
    eexists; (split; [reflexivity|]); cbn; lia.
Qed.
End calibrate.
