(* ===== verification/Console.v ===== *)
(** The log and its consoles: [lib/printk.c], [lib/panic.c], [kernel/vgacon.c],
    [kernel/uart8250.c], [kernel/porte9.c] and the lock of [include/sys/spinlock.h].

    The other files log structured records ([Machine.printk]); this one is the real path
    of a message: the text is formatted into the static buffer, under the lock, and given
    to every registered console through its function pointer.  The consoles are entries
    of a linked list in memory; the screen is memory at 0xb8000; the ports are operations
    of [Hardware].  [NR_CPUS] is 1: a lock that is held is never released while it is
    waited for. *)

From S2P Require Import Prelude Mem CString DList Vsprintf Vmcs Machine Tsc.
#[local] Open Scope Z_scope.
#[local] Open Scope cint_scope.

(** The bytes of a string literal. *)
Definition text (s : string) : list Z := (λ a, Z.of_N (Ascii.N_of_ascii a)) <$> String.list_ascii_of_string s.

(** The loop [for (i = 0; i < n; ++i) b = f(b, x_i)]. *)
Fixpoint for_fold {S A B} (l : list A) (f : B → A → M S B) (b : B) : M S B :=
  match l with [] => mret b | x :: l => b ← f b x; for_fold l f b end.

(** ** State *)

(** Addresses of the static objects and of the code the function pointers point to. *)
Class ConsoleLayout : Type := {
  console_drivers : Z;
  printk_buf : Z;
  vgacon_con : Z;
  porte9_con : Z;
  uart_ports : Z;
  vgacon_write_fn : Z;
  porte9_write_fn : Z;
  uart8250_write_fn : Z;
}.

(** [prefix] is the one of [porte9.c], 0 for null. *)
Record kstate (hw : Type) : Type := mk_kstate {
  k_mem : bmem;
  k_mach : machine hw;
  k_lock : bool;
  loglevel : Z;
  curlevel : Z;
  prefix : Z;
}.
Arguments mk_kstate {hw}. Arguments k_mem {hw}. Arguments k_mach {hw}. Arguments k_lock {hw}.
Arguments loglevel {hw}. Arguments curlevel {hw}. Arguments prefix {hw}.

Definition with_mem {hw} (m : bmem) (s : kstate hw) : kstate hw :=
  mk_kstate m (k_mach s) (k_lock s) (loglevel s) (curlevel s) (prefix s).
Definition with_mach {hw} (x : machine hw) (s : kstate hw) : kstate hw :=
  mk_kstate (k_mem s) x (k_lock s) (loglevel s) (curlevel s) (prefix s).
Definition with_lock {hw} (b : bool) (s : kstate hw) : kstate hw :=
  mk_kstate (k_mem s) (k_mach s) b (loglevel s) (curlevel s) (prefix s).
Definition with_prefix {hw} (p : Z) (s : kstate hw) : kstate hw :=
  mk_kstate (k_mem s) (k_mach s) (k_lock s) (loglevel s) (curlevel s) p.

(** The end of a computation on a part of the state. *)
Definition lift_outcome {S T A} (put : S → T) (o : outcome S A) : outcome T A :=
  match o with Done a x => Done a (put x) | Panicked msg x => Panicked msg (put x) | OutOfFuel x => OutOfFuel (put x) end.

Definition on_mach {hw A} (f : M (machine hw) A) : M (kstate hw) A := λ s,
  lift_outcome (λ x, with_mach x s) (f (k_mach s)).
Definition on_mem {hw A} (f : M bmem A) : M (kstate hw) A := λ s, lift_outcome (λ m, with_mem m s) (f (k_mem s)).

(** ** Structures *)

(** [struct console]: [write] and then [list]; [struct uart_port]: [iobase], then at
    offset 8 the console. *)
Definition con_list_offset : Z := 8.
Definition con_write (m : bmem) (con : Z) : Z := rd64 m con.
Definition port_iobase (m : bmem) (port : Z) : Z := rd32 m port.
Definition port_console (port : Z) : Z := port + 8.

Definition LOG_LINE_MAX : Z := 1024.
Definition LOGLEVEL_EMERG : Z := 0.
Definition LOGLEVEL_ERR : Z := 3.
Definition LOGLEVEL_WARNING : Z := 4.
Definition LOGLEVEL_INFO : Z := 6.
Definition LOGLEVEL_DEBUG : Z := 7.
Definition LOGLEVEL_CONT : Z := -1.
Definition LOGLEVEL_DEFAULT : Z := LOGLEVEL_INFO.

Definition END_COLOR : list Z := 27 :: text "[0m".
Definition BRIGHT_YELLOW : list Z := 27 :: text "[33;1m".
Definition BRIGHT_PURPLE : list Z := 27 :: text "[35;1m".

(** ** The text screen *)

Definition VGA_CRT_IC : Z := 0x3D4.
Definition VGA_CRT_DC : Z := 0x3D5.
Definition VGA_CRTC_CURSOR_HI : Z := 0x0E.
Definition VGA_CRTC_CURSOR_LO : Z := 0x0F.
Definition vga_vram_base : Z := 0xb8000.
Definition vga_video_num_columns : Z := 80.
Definition vga_video_num_lines : Z := 25 - 1.

Definition vgacon_putc (m : bmem) (cur c : Z) : bmem * Z :=
  let size := u16 (vga_video_num_columns * vga_video_num_lines) in
  let p := vga_vram_base in
  let '(m, cur) :=
    if c =? 10 then (m, u16 (cur + (vga_video_num_columns - cur mod vga_video_num_columns)))
    else (wr16 m (p + 2 * cur) (c ||| 0x0700), u16 (cur + 1)) in
  if size <=? cur then
    let m := memmove m p (p + 2 * vga_video_num_columns) (2 * (size - vga_video_num_columns)) in
    let m := memset m (p + 2 * (size - vga_video_num_columns)) 0 (2 * vga_video_num_columns) in
    (m, u16 (cur - vga_video_num_columns))
  else (m, cur).

(** ** The serial port *)

Definition UART_TX : Z := 0.
Definition UART_DLL : Z := 0.
Definition UART_IER : Z := 1.
Definition UART_DLM : Z := 1.
Definition UART_FCR : Z := 2.
Definition UART_LCR : Z := 3.
Definition UART_MCR : Z := 4.
Definition UART_LSR : Z := 5.
Definition UART_LCR_DLAB : Z := 0x80.
Definition UART_LSR_TEMT : Z := 0x40.
Definition UART_LSR_THRE : Z := 0x20.
Definition UART_IER_UUE : Z := 0x40.
Definition UART_CLK : Z := 115200.
Definition UART_BAUD : Z := 19200.

Section console.
Context {hw : Type} `{Hardware hw} `{ConsoleLayout}.
Implicit Types s : kstate hw.

Definition k_outb (value port : Z) : M (kstate hw) unit := on_mach (outb value port).
Definition k_inb (port : Z) : M (kstate hw) Z := on_mach (inb port).

(** [rep outsb] of the bytes in memory, and of a literal. *)
Definition outs_list (port : Z) (l : list Z) : M (kstate hw) unit := for_each l (λ b, k_outb b port).
Definition outsb (port addr count : Z) : M (kstate hw) unit :=
  m ← gets k_mem;
  outs_list port (rd_bytes m addr (Z.to_nat count)).

(** *** [lib/string.c]: [for (sc = s; *sc != 0; ++sc)] *)
Definition k_strlen (s : Z) : M (kstate hw) Z :=
  loop (λ sc, m ← gets k_mem; mret (if rd8 m sc =? 0 then inr (sc - s) else inl (sc + 1))) s.

(** *** [kernel/vgacon.c] *)

Definition vga_rcrt (reg : Z) : M (kstate hw) Z := k_outb reg VGA_CRT_IC ;; k_inb VGA_CRT_DC.
Definition vga_wcrt (reg val : Z) : M (kstate hw) unit := k_outb reg VGA_CRT_IC ;; k_outb val VGA_CRT_DC.

(** [cur = vgacon_putc(cur, s[i])] *)
Definition vgacon_step (str cur i : Z) : M (kstate hw) Z := λ s,
  let '(m, cur) := vgacon_putc (k_mem s) cur (rd8 (k_mem s) (str + i)) in Done cur (with_mem m s).

Definition vgacon_write (con str n : Z) : M (kstate hw) unit :=
  hi ← vga_rcrt VGA_CRTC_CURSOR_HI;
  let cur := u16 (hi <<< 8) in
  lo ← vga_rcrt VGA_CRTC_CURSOR_LO;
  let cur := cur ||| lo in
  cur ← for_fold (seqZ 0 n) (vgacon_step str) cur;
  vga_wcrt VGA_CRTC_CURSOR_HI (cur >>> 8) ;;
  vga_wcrt VGA_CRTC_CURSOR_LO (cur &&& 0xff).

(** *** [kernel/uart8250.c] *)

Definition uart8250_in (port offset : Z) : M (kstate hw) Z :=
  m ← gets k_mem; k_inb (port_iobase m port + offset).
Definition uart8250_out (port offset value : Z) : M (kstate hw) unit :=
  m ← gets k_mem; k_outb value (port_iobase m port + offset).

Definition uart8250_poll (port : Z) (_ : unit) : M (kstate hw) (unit + unit) :=
  let both_empty := UART_LSR_TEMT ||| UART_LSR_THRE in
  status ← uart8250_in port UART_LSR;
  mret (if (status &&& both_empty) =? both_empty then inr tt else inl tt).

Definition uart8250_putc (port c : Z) : M (kstate hw) unit :=
  uart8250_out port UART_TX c ;;
  loop (uart8250_poll port) tt.

Definition uart8250_write (con str n : Z) : M (kstate hw) unit :=
  let port := u64 (con - 8) in
  for_each (seqZ 0 n) (λ i, m ← gets k_mem; uart8250_putc port (rd8 m (str + i))).

Definition init_port (port : Z) : M (kstate hw) unit :=
  uart8250_out port UART_LCR 0x3 ;;
  ier ← uart8250_in port UART_IER;
  uart8250_out port UART_IER (ier &&& UART_IER_UUE) ;;
  uart8250_out port UART_FCR 0 ;;
  uart8250_out port UART_MCR 0x3 ;;
  let divisor := UART_CLK / UART_BAUD in
  c ← uart8250_in port UART_LCR;
  uart8250_out port UART_LCR (c ||| UART_LCR_DLAB) ;;
  uart8250_out port UART_DLL (divisor &&& 0xff) ;;
  uart8250_out port UART_DLM ((divisor >>> 8) &&& 0xff) ;;
  uart8250_out port UART_LCR (c &&& not32 UART_LCR_DLAB).

(** *** [kernel/porte9.c] *)

Definition porte9_write (con str n : Z) : M (kstate hw) unit :=
  p ← gets prefix;
  when (negb (p =? 0)) (len ← k_strlen p; outsb 0xe9 p len) ;;
  outsb 0xe9 str n ;;
  outs_list 0xe9 END_COLOR.

(** *** [lib/printk.c] *)

Definition register_console (newcon : Z) : M (kstate hw) unit :=
  modify (λ s, with_mem (list_add_tail (k_mem s) (newcon + con_list_offset) console_drivers) s).

Definition vgacon_init : M (kstate hw) unit := register_console vgacon_con.
Definition porte9_init (str : Z) : M (kstate hw) unit := modify (with_prefix str) ;; register_console porte9_con.

(** The only port. *)
Definition uart8250_init : M (kstate hw) unit :=
  for_each [uart_ports] (λ port,
    init_port port ;;
    lsr ← uart8250_in port UART_LSR;
    if lsr =? 0xff then mret tt
    else
      modify (λ s, with_mem (wr64 (k_mem s) (port_console port) uart8250_write_fn) s) ;;
      register_console (port_console port)).

(** [con->write(con, buf, len)]; every function the pointer can point to. *)
Definition console_write (w con buf len : Z) : M (kstate hw) unit :=
  if w =? vgacon_write_fn then vgacon_write con buf len
  else if w =? porte9_write_fn then porte9_write con buf len
  else if w =? uart8250_write_fn then uart8250_write con buf len
  else panic "call of a pointer to no function".

Definition spin_trylock : M (kstate hw) bool := λ s, Done (negb (k_lock s)) (with_lock true s).
Definition spin_lock : M (kstate hw) unit :=
  loop (λ _ : unit, b ← spin_trylock; mret (if b : bool then inr tt else inl tt)) tt.
Definition spin_unlock : M (kstate hw) unit := modify (with_lock false).

(** [pr_prefix] of [lib/printk.c], and the one that [firmware/main.c] puts in its place. *)
Inductive image : Type := Hypervisor | GuestFirmware.

Definition pr_prefix (img : image) (buf size : Z) : M (kstate hw) Z :=
  match img with
  | Hypervisor =>
      s ← on_mach uptime;
      let '(us, s) := do_div s 1000000 in
      on_mem (scnprintf buf size (text "[%5lu.%06lu] ") [s; us])
  | GuestFirmware => on_mem (scnprintf buf size (text "[  FIRMWARE  ] ") [])
  end.

Definition for_each_console (body : Z → M (kstate hw) unit) : M (kstate hw) unit :=
  list_for_each_entry k_mem console_drivers con_list_offset body.

Definition vprintk (img : image) (level : Z) (fmt args : list Z) : M (kstate hw) Z :=
  spin_lock ;;
  cl ← gets curlevel;
  ll ← gets loglevel;
  let thislevel := if level =? LOGLEVEL_CONT then cl else level in
  len ←
    (if ll <? thislevel then mret 0
     else
       len ← (if level =? LOGLEVEL_CONT then mret 0 else pr_prefix img printk_buf LOG_LINE_MAX);
       n ← on_mem (vscnprintf (printk_buf + len) (LOG_LINE_MAX - len) fmt args);
       let len := u64 (len + n) in
       for_each_console (λ con,
         w ← gets (λ s, con_write (k_mem s) con);
         when (truthy w) (console_write w con printk_buf len)) ;;
       mret len);
  spin_unlock ;;
  mret (s32 len).

Definition printk (img : image) (level : Z) (fmt args : list Z) : M (kstate hw) Z := vprintk img level fmt args.
End console.
