(* ===== verification/ConsoleSpec.v ===== *)
(** The consoles as devices: a terminal, the debug port and the serial line.

    [terminal] is the abstract screen: a grid of cells and a cursor.  [vgacon_write] is
    shown to be a refinement of it over the video memory and the cursor registers; the
    debug port and the serial line are the lists of the bytes sent.  [vprintk] gives the
    line it formats to every registered console, in the order of registration. *)

From S2P Require Import Prelude Mem CString DList Vsprintf VsprintfSpec VsprintfText Vmcs Machine Tsc Console.
#[local] Open Scope Z_scope.
#[local] Open Scope cint_scope.

(** ** The screen *)

(** 25 rows of 80 cells; a character of the code is an attribute and a byte.  The driver
    scrolls the first 24 rows. *)
Record terminal : Type := mk_term { cells : list Z; cursor : Z }.

Definition scroll (t : terminal) : terminal :=
  mk_term (drop 80 (take 1920 (cells t)) ++ replicate 80 0 ++ drop 1920 (cells t)) (cursor t - 80).

Definition term_putc (t : terminal) (c : Z) : terminal :=
  let t :=
    if c =? 10 then mk_term (cells t) (80 * (cursor t / 80 + 1))
    else mk_term (aset (cells t) (cursor t) (0x700 + c)) (cursor t + 1) in
  if 1920 <=? cursor t then scroll t else t.

Definition term_ok (t : terminal) : Prop := length (cells t) = 2000%nat ∧ 0 ≤ cursor t < 2000.

(** The video memory shows the cells. *)
Definition shows (m : bmem) (l : list Z) : Prop := ∀ i, 0 ≤ i < 2000 → rd16 m (vga_vram_base + 2 * i) = aget l i.

Lemma rd16_wr16 m a v b : a mod 2 = b mod 2 → 0 ≤ v < 2 ^ 16 →
  rd16 (wr16 m a v) b = if decide (b = a) then v else rd16 m b.
Proof.
  intros Hp Hv. unfold rd16, wr16. case_decide as E; [subst|].
  - rewrite rd_le_wr_le. apply Z.mod_small. by change (256 ^ Z.of_nat 2) with (2 ^ 16).
  - apply rd_le_wr_le_apart. assert (a ≠ b + 1) by divlia. assert (b ≠ a + 1) by divlia. lia.
Qed.

Lemma aget_scrolled l i : length l = 2000%nat → 0 ≤ i < 2000 →
  aget (drop 80 (take 1920 l) ++ replicate 80 0 ++ drop 1920 l) i =
    if i <? 1840 then aget l (i + 80) else if i <? 1920 then 0 else aget l i.
Proof.
  intros Hl Hi. assert (length (drop 80 (take 1920 l)) = 1840%nat) as H1 by (rewrite length_drop, length_take; lia).
  destruct (Z.ltb_spec i 1840).
  - rewrite aget_app_l by lia. unfold aget. rewrite (proj2 (Z.ltb_ge i 0)), (proj2 (Z.ltb_ge (i + 80) 0)) by lia.
    rewrite lookup_drop, lookup_take_lt by lia. do 2 f_equal. lia.
  - rewrite aget_app_r, H1 by lia. destruct (Z.ltb_spec i 1920).
    + rewrite aget_app_l by (rewrite length_replicate; lia). apply aget_replicate. lia.
    + rewrite aget_app_r by (rewrite length_replicate; lia). rewrite length_replicate.
      unfold aget. rewrite (proj2 (Z.ltb_ge i 0)), (proj2 (Z.ltb_ge (i - _ - _) 0)) by lia.
      rewrite lookup_drop. do 2 f_equal. lia.
Qed.

Lemma scroll_shows m l : length l = 2000%nat → shows m l →
  let p := vga_vram_base in
  shows (memset (memmove m p (p + 160) 3680) (p + 3680) 0 160) (cells (scroll (mk_term l 0))).
Proof.
  intros Hl Hs p i Hi. subst p. cbn [scroll cells]. rewrite aget_scrolled by done.
  destruct (Z.ltb_spec i 1840); [|destruct (Z.ltb_spec i 1920)].
  - rewrite <- Hs by lia. apply rd_le_ext. intros k Hk.
    rewrite rd8_memset, decide_False by lia. rewrite rd8_memmove, decide_True by lia. f_equal. lia.
  - change 0 with (le_combine (replicate 2 0)) at 2. unfold rd16, rd_le. f_equal.
    apply (rd_bytes_is _ _ (replicate 2 0)). rewrite length_replicate. intros k Hk.
    rewrite rd8_memset, decide_True by lia. by apply lookup_replicate_2.
  - rewrite <- Hs by lia. apply rd_le_ext. intros k Hk.
    rewrite rd8_memset, decide_False by lia. by rewrite rd8_memmove, decide_False by lia.
Qed.

Lemma putc_shows m t c : term_ok t → shows m (cells t) → 0 ≤ c < 256 →
  let '(m', cur) := vgacon_putc m (cursor t) c in
  cur = cursor (term_putc t c) ∧ term_ok (term_putc t c) ∧ shows m' (cells (term_putc t c)) ∧
  unchanged_outside m m' vga_vram_base 4000.
Proof.
  intros [Hl Hc] Hs Hb. unfold vgacon_putc, term_putc.
  change (u16 (vga_video_num_columns * vga_video_num_lines)) with 1920.
  change (2 * vga_video_num_columns) with 160. change vga_video_num_columns with 80.
  change (2 * (1920 - 80)) with 3680.
  set (m1 := if c =? 10 then m else wr16 m (vga_vram_base + 2 * cursor t) (c ||| 0x0700)).
  set (t1 := if c =? 10 then mk_term (cells t) (80 * (cursor t / 80 + 1))
             else mk_term (aset (cells t) (cursor t) (0x700 + c)) (cursor t + 1)).
  assert ((if c =? 10 then (m, u16 (cursor t + (80 - cursor t mod 80)))
           else (wr16 m (vga_vram_base + 2 * cursor t) (c ||| 0x0700), u16 (cursor t + 1))) = (m1, cursor t1)) as ->.
  { unfold m1, t1. destruct (c =? 10); cbn [cursor]; f_equal; rewrite wrap_small; divlia. }
  assert (length (cells t1) = 2000%nat ∧ 0 ≤ cursor t1 ≤ 2000) as [Hl1 Hc1].
  { unfold t1. destruct (c =? 10); cbn [cells cursor]; [split; [done|divlia]|]. rewrite aset_length. lia. }
  assert (shows m1 (cells t1)) as Hs1.
  { unfold m1, t1. destruct (c =? 10); cbn [cells]; [done|]. intros i Hi.
    rewrite Z.lor_comm, (lor_low 8) by (done || lia).
    rewrite rd16_wr16 by (lia || divlia). case_decide.
    - replace i with (cursor t) by lia. by rewrite aget_aset_eq by lia.
    - rewrite aget_aset_ne by lia. by apply Hs. }
  assert (unchanged_outside m m1 vga_vram_base 4000) as Ho1.
  { unfold m1. destruct (c =? 10); [by intros a _|]. intros a Ha. unfold wr16.
    rewrite rd8_wr_le, decide_False by lia. done. }
  destruct (Z.leb_spec 1920 (cursor t1)).
  - split; [cbn; rewrite wrap_small; lia|]. split; [|split].
    + split; [|cbn; lia]. cbn [scroll cells]. rewrite !length_app, length_drop, length_take, length_replicate, length_drop. lia.
    + destruct t1 as [l1 c1]. by apply scroll_shows.
    + apply (unchanged_outside_trans _ m1); [done|]. intros a Ha.
      rewrite rd8_memset, decide_False by lia. by rewrite rd8_memmove, decide_False by lia.
  - split; [done|]. split; [split; [done|lia]|]. done.
Qed.

(** ** The ports *)

(** What the devices on the ports remember: the CRT controller's index and its two cursor
    registers, the bytes the debug port got, and of the UART the line control register,
    the divisor latch and the bytes it sent. *)
Record ports : Type := mk_ports {
  p_index : Z; p_hi : Z; p_lo : Z; p_e9 : list Z; p_lcr : Z; p_dll : Z; p_dlm : Z; p_uart : list Z;
}.

Definition dlab (p : ports) : bool := Z.testbit (p_lcr p) 7.

(** A byte [v] put out on a port. *)
Definition out_port (port v : Z) (p : ports) : ports :=
  let 'mk_ports ix hi lo e9 lcr dll dlm tx := p in
  if port =? 0x3D4 then mk_ports v hi lo e9 lcr dll dlm tx
  else if port =? 0x3D5 then
    mk_ports ix (if ix =? 14 then v else hi) (if ix =? 15 then v else lo) e9 lcr dll dlm tx
  else if port =? 0xE9 then mk_ports ix hi lo (e9 ++ [v]) lcr dll dlm tx
  else if port =? 0x3F8 then
    if dlab p then mk_ports ix hi lo e9 lcr v dlm tx else mk_ports ix hi lo e9 lcr dll dlm (tx ++ [v])
  else if port =? 0x3F9 then if dlab p then mk_ports ix hi lo e9 lcr dll v tx else p
  else if port =? 0x3FB then mk_ports ix hi lo e9 v dll dlm tx
  else p.

(** The documented behaviour of the devices.  [pv] is what they remember; [busy] bounds
    how often the line status register can still be read before the transmitter is
    empty. *)
Class ConsolePorts (hw : Type) `{Hardware hw} (pv : hw → ports) (busy : hw → Z) : Prop := {
  outb_ports h port v : 0 ≤ v < 256 →
    port ∈ [0x3D4; 0x3D5; 0xE9; 0x3F8; 0x3F9; 0x3FA; 0x3FB; 0x3FC; 0x501; 0x8900] → pv (hw_outb h v port) = out_port port v (pv h);
  inb_ports h port : port ∈ [0x3D5; 0x3F9; 0x3FB; 0x3FD] → pv (hw_inb h port).2 = pv h;
  inb_cursor_hi h : p_index (pv h) = 14 → (hw_inb h 0x3D5).1 = p_hi (pv h);
  inb_cursor_lo h : p_index (pv h) = 15 → (hw_inb h 0x3D5).1 = p_lo (pv h);
  inb_lcr h : (hw_inb h 0x3FB).1 = p_lcr (pv h);
  inb_lsr h : Z.land (hw_inb h 0x3FD).1 0x60 = 0x60 ∨ 0 ≤ busy (hw_inb h 0x3FD).2 < busy h;
  busy_bound h : 0 ≤ busy h < 2 ^ 63;
  ports_bytes h : 0 ≤ p_hi (pv h) < 256 ∧ 0 ≤ p_lo (pv h) < 256 ∧ 0 ≤ p_lcr (pv h) < 256;
  rdtsc_ports h : pv (hw_rdtsc h).2 = pv h;
}.

(** What a user of the consoles sees. *)
Record view : Type := mk_view { v_term : terminal; v_e9 : list Z; v_uart : list Z }.

Section drivers.
Context {hw : Type} `{Hardware hw} `{ConsoleLayout} {pv : hw → ports} {busy : hw → Z} `{!ConsolePorts hw pv busy}.
Implicit Types (s : kstate hw) (p : ports).

(** The ports' part of the state. *)
Definition s_ports s : ports := pv (m_hw (k_mach s)).

(** [s'] is [s] but for the devices behind the ports, and for memory. *)
Definition with_hw (h : hw) s : kstate hw := with_mach (set_hw h (k_mach s)) s.

(** A computation that only works on the devices: it returns [a], and they end as [p]. *)
Definition ends {A} (o : outcome (kstate hw) A) (s : kstate hw) (a : A) (p : ports) : Prop :=
  ∃ h, o = Done a (with_hw h s) ∧ pv h = p.

Lemma ends_bind {A B} (f : M (kstate hw) A) (g : A → M (kstate hw) B) s a p b q :
  ends (f s) s a p → (∀ h, pv h = p → ends (g a (with_hw h s)) (with_hw h s) b q) → ends ((f ≫= g) s) s b q.
Proof.
  intros (h & Hf & Hp) Hg. destruct (Hg h Hp) as (h' & Hr & Hq). exists h'. split; [|done].
  by rewrite (bind_done _ _ _ _ _ Hf).
Qed.

Lemma ends_outb s v port : 0 ≤ v < 256 → port ∈ [0x3D4; 0x3D5; 0xE9; 0x3F8; 0x3F9; 0x3FA; 0x3FB; 0x3FC; 0x501; 0x8900] →
  ends (k_outb v port s) s tt (out_port port v (s_ports s)).
Proof.
  intros Hv Hp. eexists. split; [reflexivity|]. rewrite (wrap_small 8 v) by done.
  assert (u16 port = port) as ->.
  { rewrite !elem_of_cons, elem_of_nil in Hp. apply wrap_small. lia. }
  unfold s_ports. by apply outb_ports.
Qed.

Lemma ends_inb s port : port ∈ [0x3D5; 0x3F9; 0x3FB; 0x3FD] →
  ends (k_inb port s) s (u8 (hw_inb (m_hw (k_mach s)) port).1) (s_ports s).
Proof.
  intros Hp. unfold k_inb, on_mach, inb.
  assert (u16 port = port) as -> by (rewrite !elem_of_cons, elem_of_nil in Hp; apply wrap_small; lia).
  destruct (hw_inb (m_hw (k_mach s)) port) as [v h] eqn:E. exists h. split; [done|].
  pose proof (inb_ports (m_hw (k_mach s)) port Hp) as Hq. by rewrite E in Hq.
Qed.

(** *** The debug port *)

Lemma ends_outs_e9 s l : Forall (λ b, 0 ≤ b < 256) l →
  ends (outs_list 0xe9 l s) s tt
    (let 'mk_ports ix hi lo e9 lcr dll dlm tx := s_ports s in mk_ports ix hi lo (e9 ++ l) lcr dll dlm tx).
Proof.
  intros Hl. revert s. induction Hl as [|b l Hb _ IH]; intros s.
  - exists (m_hw (k_mach s)). split; [by destruct s as [? []]|]. unfold s_ports.
    destruct (pv _); by rewrite app_nil_r.
  - apply (ends_bind (k_outb b 0xe9) (λ _, outs_list 0xe9 l) s tt (out_port 0xe9 b (s_ports s))).
    + apply ends_outb; [done|set_solver +].
    + intros h Hh. pose proof (IH (with_hw h s)) as Hi. unfold s_ports in Hi at 1. cbn in Hi. rewrite Hh in Hi.
      destruct (s_ports s). cbn in *. by rewrite <- app_assoc in Hi.
Qed.
(** *** The screen *)

(** [n] bytes from [a] on are outside of the [k] bytes at [b]. *)
Definition off (a n b k : Z) : Prop := a + n ≤ b ∨ b + k ≤ a.

Lemma rd_bytes_outside m m' a k b n : unchanged_outside m m' a k → off b (Z.of_nat n) a k →
  rd_bytes m' b n = rd_bytes m b n.
Proof. intros Hu Ho. apply rd_bytes_ext. intros i Hi. apply Hu. unfold off in Ho. lia. Qed.

Lemma for_fold_putc str n i t s :
  term_ok t → shows (k_mem s) (cells t) → off (str + i) (Z.of_nat n) vga_vram_base 4000 →
  let t' := foldl term_putc t (rd_bytes (k_mem s) (str + i) n) in
  ∃ m', for_fold (seqZ i (Z.of_nat n)) (vgacon_step str) (cursor t) s = Done (cursor t') (with_mem m' s) ∧
    term_ok t' ∧ shows m' (cells t') ∧ unchanged_outside (k_mem s) m' vga_vram_base 4000.
Proof.
  revert i t s. induction n as [|n IH]; intros i t s Ht Hs Ho t'.
  - exists (k_mem s). split; [by destruct s|]. split; [done|]. split; [done|]. by intros a _.
  - subst t'. rewrite seqZ_cons by lia. cbn [for_fold rd_bytes foldl].
    replace (Z.pred (Z.of_nat (S n))) with (Z.of_nat n) by lia. replace (Z.succ i) with (i + 1) by lia.
    pose proof (putc_shows (k_mem s) t (rd8 (k_mem s) (str + i)) Ht Hs (rd8_bound _ _)) as Hp.
    assert (vgacon_step str (cursor t) i s =
      let '(m, cur) := vgacon_putc (k_mem s) (cursor t) (rd8 (k_mem s) (str + i)) in Done cur (with_mem m s)) as Hstep by done.
    destruct (vgacon_putc _ _ _) as [m1 cur1]. destruct Hp as (-> & Ht1 & Hs1 & Hu1).
    rewrite (bind_done _ _ _ _ _ Hstep). unfold off in Ho.
    destruct (IH (i + 1) (term_putc t (rd8 (k_mem s) (str + i))) (with_mem m1 s)) as (m2 & Hr & Ht2 & Hs2 & Hu2);
      [done|done|unfold off; lia|]. cbn [k_mem with_mem] in *.
    rewrite Z.add_assoc in Hr, Ht2, Hs2.
    rewrite (rd_bytes_outside _ _ _ _ _ _ Hu1) in Hr, Ht2, Hs2 by (unfold off; lia).
    exists m2. split; [done|]. split; [done|]. split; [done|]. by apply (unchanged_outside_trans _ m1).
Qed.

Lemma ends_rcrt_hi s : ends (vga_rcrt VGA_CRTC_CURSOR_HI s) s (p_hi (s_ports s)) (out_port 0x3D4 14 (s_ports s)).
Proof.
  apply (ends_bind _ _ s tt (out_port 0x3D4 14 (s_ports s))); [apply ends_outb; [done|set_solver +]|].
  intros h Hh. pose proof (ends_inb (with_hw h s) 0x3D5 ltac:(set_solver +)) as He.
  unfold s_ports in He at 1. cbn [m_hw k_mach with_hw with_mach set_hw] in He. rewrite Hh in He.
  rewrite (inb_cursor_hi h) in He by (rewrite Hh; by destruct (s_ports s)).
  rewrite wrap_small in He by apply (ports_bytes h). rewrite Hh in He. by destruct (s_ports s).
Qed.

Lemma ends_rcrt_lo s : ends (vga_rcrt VGA_CRTC_CURSOR_LO s) s (p_lo (s_ports s)) (out_port 0x3D4 15 (s_ports s)).
Proof.
  apply (ends_bind _ _ s tt (out_port 0x3D4 15 (s_ports s))); [apply ends_outb; [done|set_solver +]|].
  intros h Hh. pose proof (ends_inb (with_hw h s) 0x3D5 ltac:(set_solver +)) as He.
  unfold s_ports in He at 1. cbn [m_hw k_mach with_hw with_mach set_hw] in He. rewrite Hh in He.
  rewrite (inb_cursor_lo h) in He by (rewrite Hh; by destruct (s_ports s)).
  rewrite wrap_small in He by apply (ports_bytes h). rewrite Hh in He. by destruct (s_ports s).
Qed.

Lemma ends_wcrt s reg val : 0 ≤ reg < 256 → 0 ≤ val < 256 →
  ends (vga_wcrt reg val s) s tt (out_port 0x3D5 val (out_port 0x3D4 reg (s_ports s))).
Proof.
  intros Hr Hv. apply (ends_bind _ _ s tt (out_port 0x3D4 reg (s_ports s))); [apply ends_outb; [done|set_solver +]|].
  intros h Hh. rewrite <- Hh. apply (ends_outb (with_hw h s) val VGA_CRT_DC); [done|set_solver +].
Qed.

(** The cursor in the controller's registers. *)
Definition cursor_of p : Z := 256 * p_hi p + p_lo p.

(** The effect of a line on the screen. *)
Definition term_write (t : terminal) (l : list Z) : terminal := foldl term_putc t l.

Lemma vgacon_write_spec con str n t s :
  term_ok t → shows (k_mem s) (cells t) → cursor_of (s_ports s) = cursor t →
  off str (Z.of_nat n) vga_vram_base 4000 →
  let t' := term_write t (rd_bytes (k_mem s) str n) in
  ∃ m' h, vgacon_write con str (Z.of_nat n) s = Done tt (with_mem m' (with_hw h s)) ∧
    term_ok t' ∧ shows m' (cells t') ∧ unchanged_outside (k_mem s) m' vga_vram_base 4000 ∧
    pv h = mk_ports 15 (cursor t' / 256) (cursor t' mod 256) (p_e9 (s_ports s)) (p_lcr (s_ports s))
      (p_dll (s_ports s)) (p_dlm (s_ports s)) (p_uart (s_ports s)).
Proof.
  intros Ht Hs Hc Ho t'. unfold vgacon_write.
  destruct (ends_rcrt_hi s) as (h1 & Hr1 & Hp1). rewrite (bind_done _ _ _ _ _ Hr1).
  destruct (ends_rcrt_lo (with_hw h1 s)) as (h2 & Hr2 & Hp2). rewrite (bind_done _ _ _ _ _ Hr2).
  change (s_ports (with_hw h1 s)) with (pv h1) in Hp2. rewrite Hp1 in Hp2.
  assert (u16 (p_hi (s_ports s) <<< 8) ||| p_lo (s_ports (with_hw h1 s)) = cursor t) as ->.
  { change (s_ports (with_hw h1 s)) with (pv h1). rewrite Hp1, <- Hc. unfold cursor_of.
    assert (0 ≤ p_hi (s_ports s) < 256 ∧ 0 ≤ p_lo (s_ports s) < 256) as [? ?]
      by (destruct (ports_bytes (m_hw (k_mach s))) as (? & ? & ?); done).
    replace (p_lo (out_port 980 14 (s_ports s))) with (p_lo (s_ports s)) by (by destruct (s_ports s)).
    rewrite Z.shiftl_mul_pow2, wrap_small, (lor_low 8) by (lia || divlia). lia. }
  replace str with (str + 0) in Ho by lia.
  destruct (for_fold_putc str n 0 t (with_hw h2 (with_hw h1 s)) Ht Hs Ho) as (m' & Hr3 & Ht' & Hs' & Hu).
  rewrite Z.add_0_r in Hr3, Ht', Hs'. rewrite (bind_done _ _ _ _ _ Hr3).
  change (foldl term_putc t (rd_bytes (k_mem (with_hw h2 (with_hw h1 s))) str n)) with t' in *.
  destruct Ht' as [Hl Hcur].
  destruct (ends_wcrt (with_mem m' (with_hw h2 (with_hw h1 s))) VGA_CRTC_CURSOR_HI (cursor t' >>> 8)) as (h3 & Hr4 & Hp3);
    [done|rewrite Z.shiftr_div_pow2 by done; divlia|]. rewrite (bind_done _ _ _ _ _ Hr4).
  destruct (ends_wcrt (with_hw h3 (with_mem m' (with_hw h2 (with_hw h1 s)))) VGA_CRTC_CURSOR_LO (cursor t' &&& 0xff))
    as (h4 & Hr5 & Hp4); [done|change 0xff with (2 ^ 8 - 1); rewrite land_mask by done; divlia|]. rewrite Hr5.
  exists m', h4. split; [done|]. split; [done|]. split; [done|]. split; [done|].
  change (s_ports (with_mem m' (with_hw h2 (with_hw h1 s)))) with (pv h2) in Hp3.
  change (s_ports (with_hw h3 (with_mem m' (with_hw h2 (with_hw h1 s))))) with (pv h3) in Hp4.
  rewrite Hp4, Hp3, Hp2. change 0xff with (2 ^ 8 - 1). rewrite land_mask, Z.shiftr_div_pow2 by done.
  by destruct (s_ports s).
Qed.
(** *** The serial line *)

Lemma with_hw_same s : with_hw (m_hw (k_mach s)) s = s.
Proof. by destruct s as [? []]. Qed.

Lemma ends_ret {A} (a : A) s : ends ((mret a : M (kstate hw) A) s) s a (s_ports s).
Proof. exists (m_hw (k_mach s)). by rewrite with_hw_same. Qed.

Lemma ends_uart_out s port off v : 0 ≤ v < 256 → 0 ≤ off ≤ 4 → port_iobase (k_mem s) port = 0x3F8 →
  ends (uart8250_out port off v s) s tt (out_port (0x3F8 + off) v (s_ports s)).
Proof.
  intros Hv Ho Hb. unfold uart8250_out. erewrite bind_done by reflexivity. rewrite Hb. apply ends_outb; [done|].
  rewrite !elem_of_cons. lia.
Qed.

Lemma uart_poll_step s port : port_iobase (k_mem s) port = 0x3F8 →
  ∃ h r, uart8250_poll port tt s = Done r (with_hw h s) ∧ pv h = s_ports s ∧
    (r = inr tt ∨ r = inl tt ∧ 0 ≤ busy h < busy (m_hw (k_mach s))).
Proof.
  intros Hb. unfold uart8250_poll.
  assert (uart8250_in port UART_LSR s = k_inb 0x3FD s) as Hin.
  { unfold uart8250_in. erewrite bind_done by reflexivity. by rewrite Hb. }
  unfold k_inb, on_mach, inb in Hin. change (u16 0x3FD) with 0x3FD in Hin.
  pose proof (inb_lsr (m_hw (k_mach s))) as Hl. pose proof (inb_ports (m_hw (k_mach s)) 0x3FD ltac:(set_solver +)) as Hp.
  destruct (hw_inb (m_hw (k_mach s)) 0x3FD) as [v h]. cbn [fst snd lift_outcome] in *. exists h.
  rewrite (bind_done _ _ _ _ _ Hin).
  change (UART_LSR_TEMT ||| UART_LSR_THRE) with 0x60.
  assert (u8 v &&& 0x60 = v &&& 0x60) as Hv.
  { rewrite wrap_land, <- Z.land_assoc by done. done. }
  eexists. split; [reflexivity|]. split; [done|]. rewrite Hv.
  destruct (Z.eqb_spec (v &&& 0x60) 0x60); [by left|]. right. split; [done|]. by destruct Hl.
Qed.

Lemma ends_uart_drain s port : port_iobase (k_mem s) port = 0x3F8 →
  ends (loop (uart8250_poll port) tt s) s tt (s_ports s).
Proof.
  intros Hb.
  destruct (loop_total (uart8250_poll port)
    (λ _ s', ∃ h, s' = with_hw h s ∧ pv h = s_ports s) (λ _ s', ∃ h, s' = with_hw h s ∧ pv h = s_ports s)
    (λ _ s', busy (m_hw (k_mach s')))) with (a := tt) (s := s) as ([] & s' & Hr & h & -> & Hp).
  - intros [] s' (h & -> & Hp). destruct (uart_poll_step (with_hw h s) port Hb) as (h' & r & Hr & Hp' & Hc).
    unfold loop_step_ok. rewrite Hr. unfold s_ports in Hp'. cbn in Hp'. rewrite Hp in Hp'.
    destruct Hc as [->|[-> Hc]]; [by exists h'|]. split; [by exists h'|done].
  - exists (m_hw (k_mach s)). by rewrite with_hw_same.
  - pose proof (busy_bound (m_hw (k_mach s))). lia.
  - by exists h.
Qed.

Definition sent p (l : list Z) : ports :=
  mk_ports (p_index p) (p_hi p) (p_lo p) (p_e9 p) (p_lcr p) (p_dll p) (p_dlm p) (p_uart p ++ l).

Lemma ends_uart_putc s port c : 0 ≤ c < 256 → port_iobase (k_mem s) port = 0x3F8 → dlab (s_ports s) = false →
  ends (uart8250_putc port c s) s tt (sent (s_ports s) [c]).
Proof.
  intros Hc Hb Hd. unfold uart8250_putc.
  apply (ends_bind _ _ s tt (sent (s_ports s) [c])).
  - replace (sent (s_ports s) [c]) with (out_port (0x3F8 + UART_TX) c (s_ports s)).
    + by apply ends_uart_out.
    + unfold out_port. destruct (s_ports s) eqn:E. change (0x3F8 + UART_TX) with 0x3F8.
      cbn [Z.eqb Pos.eqb]. by rewrite Hd.
  - intros h Hh. rewrite <- Hh. by apply (ends_uart_drain (with_hw h s)).
Qed.

Lemma uart_write_from port str n i s :
  port_iobase (k_mem s) port = 0x3F8 → dlab (s_ports s) = false →
  ends (for_each (seqZ i (Z.of_nat n)) (λ i, m ← gets k_mem; uart8250_putc port (rd8 m (str + i))) s)
    s tt (sent (s_ports s) (rd_bytes (k_mem s) (str + i) n)).
Proof.
  revert s i. induction n as [|n IH]; intros s i Hb Hd.
  - exists (m_hw (k_mach s)). rewrite with_hw_same. split; [done|]. unfold s_ports, sent.
    destruct (pv _); cbn; by rewrite app_nil_r.
  - rewrite seqZ_cons by lia. cbn [for_each rd_bytes].
    replace (Z.pred (Z.of_nat (S n))) with (Z.of_nat n) by lia. replace (Z.succ i) with (i + 1) by lia.
    apply (ends_bind _ _ s tt (sent (s_ports s) [rd8 (k_mem s) (str + i)])).
    + erewrite bind_done by reflexivity. apply ends_uart_putc; [apply rd8_bound|done..].
    + intros h Hh. pose proof (IH (with_hw h s) (i + 1) Hb) as Hi. change (s_ports (with_hw h s)) with (pv h) in Hi.
      rewrite Hh in Hi. rewrite Z.add_assoc in Hi. cbn [k_mem with_hw with_mach] in Hi.
      unfold sent in Hi at 2. cbn [p_index p_hi p_lo p_e9 p_lcr p_dll p_dlm p_uart sent] in Hi.
      rewrite <- app_assoc in Hi. by apply Hi.
Qed.

Lemma uart8250_write_spec con str n s :
  port_iobase (k_mem s) (u64 (con - 8)) = 0x3F8 → dlab (s_ports s) = false →
  ends (uart8250_write con str (Z.of_nat n) s) s tt (sent (s_ports s) (rd_bytes (k_mem s) str n)).
Proof.
  intros Hb Hd. pose proof (uart_write_from (u64 (con - 8)) str n 0 s Hb Hd) as He. by rewrite Z.add_0_r in He.
Qed.

(** *** The debug port *)

Lemma k_strlen_spec s a n : cstr (k_mem s) a n → n < 2 ^ 64 → k_strlen a s = Done n s.
Proof.
  intros (Hn & Hne & Hend) Hb. unfold k_strlen.
  destruct (loop_total (λ sc, m ← gets (S := kstate hw) k_mem; mret (if rd8 m sc =? 0 then inr (sc - a) else inl (sc + 1)))
    (λ sc s', s' = s ∧ a ≤ sc ≤ a + n) (λ r s', r = n ∧ s' = s) (λ sc _, a + n - sc)) with (a := a) (s := s)
    as (b & s' & Hr & -> & ->); [|split; [done|lia]|lia|done].
  intros sc s' [-> Hsc]. unfold loop_step_ok. erewrite bind_done by reflexivity. unfold mret, M_ret.
  destruct (Z.eqb_spec (rd8 (k_mem s) sc) 0) as [Hz|Hz].
  - split; [|done]. destruct (decide (sc - a < n)); [|lia]. destruct (Hne (sc - a)); [lia|]. by replace (a + (sc - a)) with sc by lia.
  - split; [split; [done|]|]; (assert (sc ≠ a + n) by (intros ->; done); lia).
Qed.

Definition debugged p (l : list Z) : ports :=
  mk_ports (p_index p) (p_hi p) (p_lo p) (p_e9 p ++ l) (p_lcr p) (p_dll p) (p_dlm p) (p_uart p).

Lemma ends_outs_list s l : Forall (λ b, 0 ≤ b < 256) l → ends (outs_list 0xe9 l s) s tt (debugged (s_ports s) l).
Proof. intros Hl. pose proof (ends_outs_e9 s l Hl) as He. unfold debugged. by destruct (s_ports s). Qed.

Lemma ends_outsb s a n : 0 ≤ n →
  ends (outsb 0xe9 a n s) s tt (debugged (s_ports s) (rd_bytes (k_mem s) a (Z.to_nat n))).
Proof. intros Hn. unfold outsb. erewrite bind_done by reflexivity. apply ends_outs_list, rd_bytes_bytes. Qed.

(** The bytes of the prefix. *)
Definition has_prefix (m : bmem) (p : Z) (l : list Z) : Prop :=
  p = 0 ∧ l = [] ∨ p ≠ 0 ∧ Z.of_nat (length l) < 2 ^ 64 ∧ cstr m p (Z.of_nat (length l)) ∧ rd_bytes m p (length l) = l.

Lemma porte9_write_spec con str n s l : has_prefix (k_mem s) (prefix s) l →
  ends (porte9_write con str (Z.of_nat n) s) s tt (debugged (s_ports s) (l ++ rd_bytes (k_mem s) str n ++ END_COLOR)).
Proof.
  intros Hl. unfold porte9_write. erewrite bind_done by reflexivity.
  apply (ends_bind _ _ s tt (debugged (s_ports s) l)).
  - destruct Hl as [[-> ->]|(Hne & Hb & Hc & Hbytes)].
    + rewrite Z.eqb_refl. cbn [negb when]. replace (debugged (s_ports s) []) with (s_ports s); [apply ends_ret|].
      unfold debugged. destruct (s_ports s); cbn. by rewrite app_nil_r.
    + rewrite (proj2 (Z.eqb_neq _ _)) by done. cbn [negb when].
      rewrite (bind_done _ _ _ _ _ (k_strlen_spec s (prefix s) _ Hc Hb)).
      pose proof (ends_outsb s (prefix s) (Z.of_nat (length l)) ltac:(lia)) as He. by rewrite Nat2Z.id, Hbytes in He.
  - intros h Hh. apply (ends_bind _ _ _ tt (debugged (debugged (s_ports s) l) (rd_bytes (k_mem s) str n))).
    + pose proof (ends_outsb (with_hw h s) str (Z.of_nat n) ltac:(lia)) as He. rewrite Nat2Z.id in He.
      change (s_ports (with_hw h s)) with (pv h) in He. by rewrite Hh in He.
    + intros h' Hh'. pose proof (ends_outs_list (with_hw h' (with_hw h s)) END_COLOR) as He.
      change (s_ports (with_hw h' (with_hw h s))) with (pv h') in He. rewrite Hh' in He.
      unfold debugged in *. cbn [p_index p_hi p_lo p_e9 p_lcr p_dll p_dlm p_uart] in *.
      rewrite <- !app_assoc in He. apply He. vm_compute. by repeat constructor.
Qed.
(** *** Setting up the serial port *)

Lemma ends_uart_in s port o : port_iobase (k_mem s) port = 0x3F8 → o ∈ [1; 3; 5] →
  ends (uart8250_in port o s) s (u8 (hw_inb (m_hw (k_mach s)) (0x3F8 + o)).1) (s_ports s).
Proof.
  intros Hb Ho. unfold uart8250_in. erewrite bind_done by reflexivity. rewrite Hb. apply ends_inb.
  rewrite !elem_of_cons, elem_of_nil in *. lia.
Qed.

Definition configured p : ports := mk_ports (p_index p) (p_hi p) (p_lo p) (p_e9 p) 3 6 0 (p_uart p).

Lemma ends_out_bind {B} s port o val (g : M (kstate hw) B) b p q :
  port_iobase (k_mem s) port = 0x3F8 → 0 ≤ val < 256 → 0 ≤ o ≤ 4 → s_ports s = p →
  (∀ h, pv h = out_port (0x3F8 + o) val p → ends (g (with_hw h s)) (with_hw h s) b q) →
  ends ((uart8250_out port o val ;; g) s) s b q.
Proof.
  intros Hb Hv Ho <- Hg. apply (ends_bind _ _ s tt (out_port (0x3F8 + o) val (s_ports s))); [by apply ends_uart_out|done].
Qed.

Lemma init_port_spec port s : port_iobase (k_mem s) port = 0x3F8 →
  ends (init_port port s) s tt (configured (s_ports s)).
Proof.
  intros Hb. unfold init_port.
  apply (ends_out_bind _ _ _ _ _ _ (s_ports s)); [done..|]. intros h1 Hh1.
  eapply ends_bind; [apply ends_uart_in; [done|set_solver +]|]. intros h2 Hh2.
  change (s_ports (with_hw h1 s)) with (pv h1) in Hh2. rewrite Hh1 in Hh2.
  eapply ends_out_bind; [done| |done|exact Hh2|]. { apply (land_bound_l 8); [done|]. apply (wrap_bound 8). lia. }
  intros h3 Hh3. eapply ends_out_bind; [done..|exact Hh3|]. intros h4 Hh4.
  eapply ends_out_bind; [done..|exact Hh4|]. intros h5 Hh5.
  assert (pv h5 = mk_ports (p_index (s_ports s)) (p_hi (s_ports s)) (p_lo (s_ports s)) (p_e9 (s_ports s)) 3
    (p_dll (s_ports s)) (p_dlm (s_ports s)) (p_uart (s_ports s))) as Hp5 by (rewrite Hh5; by destruct (s_ports s)).
  eapply ends_bind; [apply ends_uart_in; [done|set_solver +]|]. intros h6 Hh6.
  change (m_hw _) with h5. change (0x3F8 + UART_LCR) with 0x3FB. rewrite (inb_lcr h5), Hp5.
  change (s_ports _) with (pv h5) in Hh6. rewrite Hp5 in Hh6.
  cbv zeta. eapply ends_out_bind; [done..|exact Hh6|]. intros h7 Hh7.
  eapply ends_out_bind; [done..|exact Hh7|]. intros h8 Hh8.
  eapply ends_out_bind; [done..|exact Hh8|]. intros h9 Hh9.
  replace (configured (s_ports s)) with (out_port (0x3F8 + UART_LCR) 3 (pv h9)) by (rewrite Hh9; by destruct (s_ports s)).
  change (u8 (p_lcr _) &&& not32 UART_LCR_DLAB) with 3.
  match goal with |- ends _ ?x _ _ => change (pv h9) with (s_ports x) end. by apply ends_uart_out.
Qed.
End drivers.

(** C25: [vgacon_write] is the terminal: from the cursor in the controller's registers on,
    each byte goes into its cell with the attribute of grey on black or ends the line, a
    line below the 24th scrolls the screen, the registers end with the new cursor, and
    nothing else of memory changes, whatever the length of the text. *)
Theorem vgacon_write_refines {hw} `{Hardware hw, ConsoleLayout} {pv busy} `{!ConsolePorts hw pv busy}
    con str n t (s : kstate hw) :
  term_ok t → shows (k_mem s) (cells t) → cursor_of (pv (m_hw (k_mach s))) = cursor t →
  off str (Z.of_nat n) vga_vram_base 4000 →
  let t' := term_write t (rd_bytes (k_mem s) str n) in
  ∃ m' h, vgacon_write con str (Z.of_nat n) s = Done tt (with_mem m' (with_hw h s)) ∧
    term_ok t' ∧ shows m' (cells t') ∧ cursor_of (pv h) = cursor t' ∧
    unchanged_outside (k_mem s) m' vga_vram_base 4000.
Proof.
  intros Ht Hs Hc Ho t'.
  destruct (vgacon_write_spec (pv := pv) con str n t s Ht Hs Hc Ho) as (m' & h & Hr & Ht' & Hs' & Hu & Hp).
  exists m', h. split; [done|]. split; [done|]. split; [done|]. split; [|done].
  rewrite Hp. unfold cursor_of. cbn [p_hi p_lo]. symmetry. apply Z.div_mod. lia.
Qed.

(** ** The consoles every image has *)

Section images.
Context `{ConsoleLayout}.

(** The nodes [porte9_init] and [vgacon_init] link. *)
Definition console_nodes : list Z :=
  [vgacon_con + con_list_offset; porte9_con + con_list_offset; console_drivers].

(** No console yet: [LIST_HEAD(console_drivers)]. *)
Definition no_console (m : bmem) : Prop := next m console_drivers = console_drivers ∧ prev m console_drivers = console_drivers.

Lemma consoles_frame {hw} (colour : Z) (k k' : kstate hw) u :
  nodes console_nodes → no_console (k_mem k) → (porte9_init colour ;; vgacon_init) k = Done u k' →
  outside_same console_nodes (k_mem k) (k_mem k') ∧ k_mach k' = k_mach k.
Proof.
  intros HN [Hn Hp] Hr. unfold porte9_init in Hr. injection Hr as _ <-. split; [|done].
  cbn [k_mem with_mem with_prefix]. set (m := k_mem k) in *.
  pose proof (nodes_distinct _ HN) as HdN. unfold console_nodes in HdN.
  apply NoDup_cons in HdN as [Hv HdN]. apply NoDup_cons in HdN as [He _].
  assert (rings console_nodes m [(console_drivers, [])]) as HR.
  { split; [apply NoDup_singleton|..].
    - intros p ->%list_elem_of_singleton. set_solver +.
    - intros h l [= -> ->]%list_elem_of_singleton. cbn [app]. by rewrite linked_cons. }
  destruct (add_tail_correct console_nodes HN m m _ (porte9_con + con_list_offset) console_drivers HR) as [HR1 Ho1].
  { by intros a _. }
  { set_solver +. }
  { intros E%list_elem_of_singleton. apply He. rewrite E. left. }
  { unfold is_head. left. }
  apply (add_tail_correct console_nodes HN _ m _ (vgacon_con + con_list_offset) console_drivers HR1 Ho1).
  { set_solver +. }
  { cbn. rewrite decide_True by done. cbn. set_solver + Hv. }
  { unfold is_head. cbn. rewrite decide_True by done. left. }
Qed.
End images.

(** ** Devices that answer at once *)

Module ConsoleDemo.
(** The value of a register is a byte. *)
Definition pv (p : ports) : ports :=
  mk_ports (p_index p) (u8 (p_hi p)) (u8 (p_lo p)) (p_e9 p) (u8 (p_lcr p)) (p_dll p) (p_dlm p) (p_uart p).

Definition read_port (p : ports) (port : Z) : Z :=
  if port =? 0x3D5 then if p_index p =? 14 then u8 (p_hi p) else u8 (p_lo p)
  else if port =? 0x3FB then u8 (p_lcr p)
  else if port =? 0x3FD then 0x60 else 0.

#[export] Instance hardware : Hardware ports := {|
  hw_rdmsr := λ _ _, 0; hw_wrmsr := λ h _ _, h; hw_cpuid := λ _ _ _, (0, 0, 0, 0);
  hw_rdtsc := λ h, (5000000, h);
  hw_mmio_read32 := λ h _, (0, h); hw_mmio_write32 := λ h _ _, h;
  hw_inb := λ h port, (read_port h port, h);
  hw_outb := λ h v port, out_port port v h;
  hw_read_cr0 := λ _, 0; hw_read_cr3 := λ _, 0; hw_read_cr4 := λ _, 0; hw_write_cr4 := λ h _, h;
  hw_store_gdt := λ _, 0; hw_store_idt := λ _, 0; hw_store_tr := λ _, 0;
  hw_vmxon := λ h _, h; hw_vmptrld := λ h _, (false, h); hw_vmwrite_fails := λ _, false;
|}.

#[export] Instance console_ports : ConsolePorts ports pv (λ _, 0).
Proof.
  split; try done.
  - intros [ix hi lo e9 lcr dll dlm tx] port v Hv _. unfold pv, out_port. cbn [hw_outb hardware out_port].
    assert (u8 v = v) as Hu by (by apply wrap_small).
    assert (dlab (mk_ports ix (u8 hi) (u8 lo) e9 (u8 lcr) dll dlm tx) = dlab (mk_ports ix hi lo e9 lcr dll dlm tx)) as Hd.
    { unfold dlab. cbn [p_lcr]. rewrite testbit_wrap by lia. by rewrite !andb_true_r. }
    cbn [p_index p_hi p_lo p_e9 p_lcr p_dll p_dlm p_uart] in *. unfold out_port. rewrite Hd.
    repeat case_match; cbn [p_index p_hi p_lo p_e9 p_lcr p_dll p_dlm p_uart]; by rewrite ?Hu.
  - intros h Hi. unfold pv in *. cbn in *. unfold read_port. cbn. by rewrite Hi.
  - intros h Hi. unfold pv in *. cbn in *. unfold read_port. cbn. by rewrite Hi.
  - intros h. by left.
  - intros h. unfold pv. cbn [p_hi p_lo p_lcr]. split_and!; apply (wrap_bound 8); lia.
Qed.

#[export] Instance layout : ConsoleLayout := {|
  console_drivers := 0x20000; printk_buf := 0x21000; vgacon_con := 0x22000; porte9_con := 0x22040;
  uart_ports := 0x22080; vgacon_write_fn := 0x10000; porte9_write_fn := 0x10100; uart8250_write_fn := 0x10200;
|}.

(** The state at boot: the list of consoles is empty, the two static consoles have their
    functions, the colour of the debug port is at 0x23000.  The stack has two frames, and
    the registers of an exception are at 0x31000. *)
Definition colour : Z := 0x23000.
Definition frame : Z := 0x30000.
Definition regs : Z := 0x31000.
Definition stack : bmem :=
  wr64 (wr64 (wr64 (wr64 ∅ frame (frame + 32)) (frame + 8) 0x10000123) (frame + 40) 0x10000456) (regs + 32) frame.
Definition memory : bmem :=
  wr_bytes (wr32 (wr64 (wr64 (INIT_LIST_HEAD stack 0x20000) 0x22000 0x10000) 0x22040 0x10100) 0x22080 0x3F8) colour BRIGHT_YELLOW.

Definition start_machine (h : ports) : machine ports :=
  let b := Concrete.boot in
  Build_machine (m_vmcs b) (m_vmx b) (m_config b) (m_cap b) (m_msr_bitmap b) (m_mem b) (m_ept_init b) (m_apic b)
    (m_lapic_addr b) (m_cpu b) (m_boot_apicid b) (m_nr_cpuids b) (m_apicids b) 2500 (m_current_vcpu b)
    (m_acpi_tables b) h (m_log b).

(** The cursor is in the last row of the 24. *)
Definition at_boot : kstate ports :=
  mk_kstate memory (start_machine (mk_ports 0 7 0x7f [] 0 0 0 [])) false LOGLEVEL_DEFAULT LOGLEVEL_DEFAULT 0.

Definition blank : terminal := mk_term (replicate 2000 0) 1919.

Lemma blank_ok : term_ok blank ∧ shows memory (cells blank).
Proof.
  split; [split; [reflexivity|cbn; lia]|]. intros i Hi. apply Z.eqb_eq.
  refine (forallb_seqZ (λ i, rd16 memory (vga_vram_base + 2 * i) =? aget (cells blank) i) 0 2000 i _ _);
    [vm_compute; reflexivity|lia].
Qed.

(** Three bytes at the end of the last line: the screen scrolls after the first. *)
Lemma vgacon_write_refines_witness :
  term_ok blank ∧ shows (k_mem at_boot) (cells blank) ∧
  (let t' := term_write blank (rd_bytes (k_mem at_boot) (colour + 1) 3) in
   ∃ m' h, vgacon_write 0x22000 (colour + 1) (Z.of_nat 3) at_boot = Done tt (with_mem m' (with_hw h at_boot)) ∧
    term_ok t' ∧ shows m' (cells t') ∧ cursor_of (pv h) = cursor t' ∧
    unchanged_outside (k_mem at_boot) m' vga_vram_base 4000) ∧
  cursor (term_write blank (rd_bytes (k_mem at_boot) (colour + 1) 3)) = 1842.
Proof.
  destruct blank_ok as [H1 H2]. split; [exact H1|]. split; [exact H2|]. split; [|vm_compute; reflexivity].
  apply (vgacon_write_refines (pv := pv) 0x22000 (colour + 1) 3 blank at_boot H1 H2); [vm_compute; reflexivity|].
  left. vm_compute. discriminate.
Defined.
End ConsoleDemo.
