(* ===== verification/LogSpec.v ===== *)
(** The log: what [vprintk] prints and who gets it.

    [log_ok] is the invariant of the log: the registered consoles are the entries of the
    list in memory, each with the function of its driver, and nothing of it lies in the
    buffer or on the screen.  [displays] relates the devices to what a user sees of them. *)

From S2P Require Import Prelude Mem CString DList Vsprintf VsprintfSpec VsprintfText VsprintfFormat Vmcs Machine Tsc Console ConsoleSpec.
#[local] Open Scope Z_scope.
#[local] Open Scope cint_scope.

(** ** The text of a line *)

Section inversion.
Context (end_ buf : Z) (m : bmem).

#[local] Ltac formats_inv HT Hd :=
  inversion HT; subst; try done;
  match goal with E : format_decode _ _ = (?a, ?b), E' : format_decode _ _ = _ |- _ =>
    lazymatch E with Hd => fail | _ => rewrite Hd in E; injection E as <- <- end end.

Lemma formats_nil_inv spec args T : formats end_ buf m [] spec args T → T = [].
Proof. inversion 1; done. Qed.

Lemma formats_text_inv fmt spec args T spec' fmt' : fmt ≠ [] → format_decode fmt spec = (spec', fmt') →
  ps_type spec' = FORMAT_TYPE_NONE → formats end_ buf m fmt spec args T →
  ∃ t, T = plain_text fmt ++ t ∧ formats end_ buf m fmt' spec' args t.
Proof.
  intros Hne Hd Ht HT. formats_inv HT Hd; try (rewrite Ht in *; done); [by eauto|]. rewrite Ht in *. set_solver.
Qed.

Lemma formats_number_inv fmt spec args T spec' fmt' : fmt ≠ [] → format_decode fmt spec = (spec', fmt') →
  8 ≤ ps_type spec' → formats end_ buf m fmt spec args T →
  ∃ t, T = number_text (integer_arg (ps_type spec') (va_arg args).1) spec' ++ t ∧
    formats end_ buf m fmt' spec' (va_arg args).2 t.
Proof.
  intros Hne Hd Ht HT. formats_inv HT Hd;
    try (match goal with E : ps_type _ = ?c |- _ => rewrite E in Ht; done end).
  match goal with C : converts _ _ _ _ _ _ _, F : formats _ _ _ (if _ then _ else _) _ _ _ |- _ => rename C into Hc; rename F into Hf end.
  unfold converts in Hc. unfold FORMAT_TYPE_CHAR, FORMAT_TYPE_STR, FORMAT_TYPE_PTR in *.
  rewrite (proj2 (Z.eqb_neq (ps_type spec') 3)), (proj2 (Z.eqb_neq (ps_type spec') 4)), (proj2 (Z.eqb_neq (ps_type spec') 5)) in Hc by lia.
  rewrite (proj2 (Z.eqb_neq (ps_type spec') 3)), (proj2 (Z.eqb_neq (ps_type spec') 5)) in Hf by lia. subst. eauto.
Qed.
End inversion.

Definition pad_left (w c : Z) (l : list Z) : list Z := replicate (Z.to_nat (w - Z.of_nat (length l))) c ++ l.

Lemma number_text_decimal t w f n : 0 ≤ n < 2 ^ 64 → f = 0 ∨ f = ZEROPAD →
  number_text n (mk_spec t w f 10 (-1)) = pad_left w (if f =? 0 then 32 else 48) (decimal n).
Proof.
  intros Hn Hf. pose proof (digits_range 10 n ltac:(lia) Hn) as Hr.
  assert (∀ b, digit_char b <$> rev (digits 10 n) = decimal n) as Hd.
  { intros b. unfold decimal, ascii_digits. rewrite rev_fmap. apply list_fmap_ext. intros i d Hi.
    assert (0 ≤ d < 10) as Hd.
    { apply Forall_rev in Hr. by apply (Forall_lookup_1 _ _ _ _ Hr Hi). }
    unfold digit_char. by rewrite (proj2 (Z.ltb_lt d 10)) by lia. }
  unfold number_text, magnitude, negative, sign_text, prefix_text, negative, has_flag, pad_left.
  cbn [ps_flags base precision field_width].
  destruct Hf as [-> | ->]; cbn [Z.land Pos.land truthy Z.eqb negb andb ZEROPAD SIGN LEFT PLUS SPACE SMALL SPECIAL app];
    rewrite Hd, !(Z2Nat.nonpos (-1 - _)) by lia; cbn [replicate app length]; done.
Qed.

(** [vscnprintf] gives the part of the text that fits. *)
Lemma vscnprintf_text buf size fmt args m :
  0 ≤ buf → 0 < size ≤ INT_MAX → buf + size < 2 ^ 64 → Z.of_nat (length fmt) < 2 ^ 64 →
  ∃ T n m', vscnprintf buf size fmt args m = Done n m' ∧ 0 ≤ n < size ∧
    formats (buf + size) buf m fmt spec0 args T ∧ unchanged_outside m m' buf size ∧
    (Z.of_nat (length T) < 2 ^ 31 → n = Z.min (Z.of_nat (length T)) (size - 1) ∧
     rd_bytes m' buf (Z.to_nat n) = u8 <$> take (Z.to_nat n) T).
Proof.
  intros Hb Hs Hbs Hf. destruct (vsnprintf_runs buf size fmt args m) as (T & m' & Hr & HT & Hm); [lia..|].
  assert (output_end buf size = buf + size) as He by (unfold output_end; lia). rewrite He in *.
  replace (buf + size - buf) with size in Hm by lia.
  destruct (vscnprintf_answer buf size fmt args m _ m' Hr) as (n & Hr' & Hn); [apply (swrap_bound 32); lia|lia|].
  exists T, n, m'. split; [done|]. split; [lia|]. split; [done|]. split.
  - intros a Ha. rewrite Hm. repeat case_decide; (done || lia).
  - intros Hlen. assert (n = Z.min (Z.of_nat (length T)) (size - 1)) as Hmin.
    { unfold vscnprintf in Hr'. rewrite (bind_done _ _ _ _ _ Hr) in Hr'. unfold mret, M_ret in Hr'. injection Hr' as <-.
      unfold INT_MAX in *. rewrite s32_small, wrap_small by lia. destruct (Z.ltb_spec (Z.of_nat (length T)) size); [lia|].
      rewrite (proj2 (Z.eqb_neq size 0)) by lia. cbn [negb]. rewrite s32_u64, s32_small by lia. lia. }
    split; [done|]. assert (length (u8 <$> take (Z.to_nat n) T) = Z.to_nat n) as Hl.
    { rewrite length_fmap, length_take. lia. }
    rewrite <- Hl at 1. apply rd_bytes_is. rewrite Hl. intros i Hi.
    rewrite list_lookup_fmap, lookup_take_lt by lia. rewrite Hm, decide_True by lia.
    replace (buf + Z.of_nat i - buf) with (Z.of_nat i) by lia.
    destruct (lookup_lt_is_Some_2 T i ltac:(lia)) as [x Hx]. rewrite Hx. cbn.
    rewrite (aget_lookup T (Z.of_nat i) x); [done|by rewrite Nat2Z.id|lia].
Qed.

(** The time stamp of a line, from microseconds. *)
Definition stamp (t : Z) : list Z :=
  text "[" ++ pad_left 5 32 (decimal (t / 1000000)) ++ text "." ++ pad_left 6 48 (decimal (t mod 1000000)) ++ text "] ".

Lemma formats_stamp end_ buf m t P : 0 ≤ t < 2 ^ 64 →
  formats end_ buf m (text "[%5lu.%06lu] ") spec0 [t / 1000000; u32 (t mod 1000000)] P → P = stamp t.
Proof.
  intros Ht HP.
  eapply formats_text_inv in HP as (t1 & -> & HP); [|done|vm_compute; reflexivity|reflexivity].
  eapply formats_number_inv in HP as (t2 & -> & HP); [|done|vm_compute; reflexivity|done].
  eapply formats_text_inv in HP as (t3 & -> & HP); [|done|vm_compute; reflexivity|reflexivity].
  eapply formats_number_inv in HP as (t4 & -> & HP); [|done|vm_compute; reflexivity|done].
  eapply formats_text_inv in HP as (t5 & -> & HP); [|done|vm_compute; reflexivity|reflexivity].
  apply formats_nil_inv in HP as ->.
  assert (∀ a, integer_arg 9 a = u64 a) as Hu by done. cbn [va_arg fst snd head tail default ps_type]. rewrite !Hu.
  change (va_arg [t / 1000000; u32 (t mod 1000000)]).1 with (t / 1000000).
  change (va_arg (va_arg [t / 1000000; u32 (t mod 1000000)]).2).1 with (u32 (t mod 1000000)).
  rewrite (wrap_small 32), !(wrap_small 64) by divlia.
  rewrite !number_text_decimal by (first [divlia|by left|by right]).
  reflexivity.
Qed.

(** What the image puts in front of a line. *)
Definition log_prefix (img : image) (t : Z) : list Z :=
  match img with Hypervisor => stamp t | GuestFirmware => text "[  FIRMWARE  ] " end.

Lemma pad_left_length w c l n : (length l ≤ n)%nat → w ≤ Z.of_nat n → (length (pad_left w c l) ≤ n)%nat.
Proof. intros. unfold pad_left. rewrite length_app, length_replicate. lia. Qed.

Lemma decimal_length n : 0 ≤ n < 10 ^ 19 → (length (decimal n) ≤ 19)%nat.
Proof.
  intros Hn. unfold decimal, ascii_digits. rewrite length_rev, length_fmap.
  apply (digits_length 10 n 19); lia.
Qed.

Lemma log_prefix_length img t : 0 ≤ t < 2 ^ 64 → (length (log_prefix img t) ≤ 42)%nat.
Proof.
  intros Ht. destruct img; cbn [log_prefix]; [|vm_compute; lia].
  assert (length (pad_left 5 32 (decimal (t / 1000000))) ≤ 19)%nat by (apply pad_left_length; [apply decimal_length; divlia|lia]).
  assert (length (pad_left 6 48 (decimal (t mod 1000000))) ≤ 19)%nat by (apply pad_left_length; [apply decimal_length; divlia|lia]).
  unfold stamp. rewrite !length_app. change (length (text "[")) with 1%nat. change (length (text ".")) with 1%nat.
  change (length (text "] ")) with 2%nat. lia.
Qed.

(** ** The invariant *)

Inductive driver : Type := NoWrite | Screen | DebugPort | Serial.

#[export] Instance driver_eq_dec : EqDecision driver.
Proof. solve_decision. Defined.

Definition driver_fn `{ConsoleLayout} (d : driver) : Z :=
  match d with NoWrite => 0 | Screen => vgacon_write_fn | DebugPort => porte9_write_fn | Serial => uart8250_write_fn end.

Class ConsoleLayoutOk `{ConsoleLayout} : Prop := {
  functions_distinct : NoDup [0; vgacon_write_fn; porte9_write_fn; uart8250_write_fn];
  functions_range d : 0 ≤ driver_fn d < 2 ^ 64;
  buf_range : 0 ≤ printk_buf ∧ printk_buf + LOG_LINE_MAX < 2 ^ 64;
  buf_off_screen : off printk_buf LOG_LINE_MAX vga_vram_base 4000;
}.

(** The [n] bytes at [a] are neither in the buffer nor on the screen. *)
Definition quiet `{ConsoleLayout} (a n : Z) : Prop := off a n vga_vram_base 4000 ∧ off a n printk_buf LOG_LINE_MAX.

(** The memory changed at most in the buffer and on the screen. *)
Definition quiet_same `{ConsoleLayout} (m m' : bmem) : Prop := ∀ a, quiet a 1 → rd8 m' a = rd8 m a.

Section log.
Context {hw : Type} `{Hardware hw} `{ConsoleLayout} {pv : hw → ports} {busy : hw → Z} `{!ConsolePorts hw pv busy}.
Context `{!ConsoleLayoutOk}.
Implicit Types (s : kstate hw) (cons : list (Z * driver)) (d : driver).

Definition con_nodes cons : list Z := (λ c : Z * driver, c.1 + con_list_offset) <$> cons.

(** The consoles [cons] are registered, [pre] is the colour of the debug port. *)
Record log_ok cons (pre : list Z) s : Prop := {
  lo_chain : chain k_mem console_drivers (con_nodes cons) s;
  lo_nodes : nodes (console_drivers :: con_nodes cons);
  lo_head : quiet console_drivers 16;
  lo_cons c d : (c, d) ∈ cons → 0 ≤ c ∧ quiet c 24 ∧ con_write (k_mem s) c = driver_fn d;
  lo_serial c : (c, Serial) ∈ cons →
    8 ≤ c ∧ quiet (c - 8) 8 ∧ port_iobase (k_mem s) (c - 8) = 0x3F8 ∧ dlab (s_ports (pv := pv) s) = false;
  lo_prefix : has_prefix (k_mem s) (prefix s) pre;
  lo_prefix_quiet : quiet (prefix s) (Z.of_nat (length pre) + 1) ∨ prefix s = 0;
  lo_tsc : 0 ≤ m_tsc_khz (k_mach s);
}.

Record displays s (v : view) : Prop := {
  d_term : term_ok (v_term v);
  d_cells : shows (k_mem s) (cells (v_term v));
  d_cursor : cursor_of (s_ports (pv := pv) s) = cursor (v_term v);
  d_e9 : p_e9 (s_ports (pv := pv) s) = v_e9 v;
  d_uart : p_uart (s_ports (pv := pv) s) = v_uart v;
}.

(** What a console does with a line. *)
Definition driver_shows (pre line : list Z) (v : view) (c : Z * driver) : view :=
  match c.2 with
  | NoWrite => v
  | Screen => mk_view (term_write (v_term v) line) (v_e9 v) (v_uart v)
  | DebugPort => mk_view (v_term v) (v_e9 v ++ pre ++ line ++ END_COLOR) (v_uart v)
  | Serial => mk_view (v_term v) (v_e9 v) (v_uart v ++ line)
  end.

Lemma quiet_sub a n b k : quiet a n → a ≤ b → b + k ≤ a + n → quiet b k.
Proof. unfold quiet, off. lia. Qed.

(** The bytes the invariant is about. *)
Definition footprint cons (pre : list Z) s (a : Z) : Prop :=
  (∃ p, p ∈ console_drivers :: con_nodes cons ∧ p ≤ a < p + 16) ∨
  (∃ c d, (c, d) ∈ cons ∧ (c ≤ a < c + 8 ∨ d = Serial ∧ c - 8 ≤ a < c)) ∨
  (prefix s ≠ 0 ∧ prefix s ≤ a ≤ prefix s + Z.of_nat (length pre)).

Lemma footprint_quiet cons pre s a : log_ok cons pre s → footprint cons pre s a → quiet a 1.
Proof.
  intros [Hc Hn Hh Hcons Hser Hp Hpq Ht] [(p & Hp' & Ha)|[(c & d & Hin & Ha)|[Hne Ha]]].
  - apply elem_of_cons in Hp' as [->|Hp'].
    + apply (quiet_sub console_drivers 16); (done || lia).
    + apply list_elem_of_fmap in Hp' as ([c d] & -> & Hin). cbn [fst] in Ha. unfold con_list_offset in Ha.
      destruct (Hcons c d Hin) as (_ & Hq & _). apply (quiet_sub c 24); (done || lia).
  - destruct Ha as [Ha|[-> Ha]].
    + destruct (Hcons c d Hin) as (_ & Hq & _). apply (quiet_sub c 24); (done || lia).
    + destruct (Hser c Hin) as (_ & Hq & _). apply (quiet_sub (c - 8) 8); (done || lia).
  - destruct Hpq as [Hq|]; [|done]. apply (quiet_sub (prefix s) (Z.of_nat (length pre) + 1)); (done || lia).
Qed.

Lemma has_prefix_same m m' p l : (p ≠ 0 → ∀ i, 0 ≤ i ≤ Z.of_nat (length l) → rd8 m' (p + i) = rd8 m (p + i)) →
  has_prefix m p l → has_prefix m' p l.
Proof.
  intros Hs [[-> ->]|(Hne & Hb & (Hn & Hz & He) & Hl)]; [by left|]. specialize (Hs Hne).
  right. split; [done|]. split; [done|]. split.
  - split; [done|]. split; [|by rewrite Hs by lia]. intros i Hi. rewrite Hs by lia. by apply Hz.
  - rewrite <- Hl at 2. apply rd_bytes_ext. intros i Hi. apply Hs. lia.
Qed.

(** The invariant depends on its footprint only. *)
Lemma log_ok_frame cons pre s m h :
  log_ok cons pre s → (∀ a, footprint cons pre s a → rd8 m a = rd8 (k_mem s) a) →
  p_lcr (pv h) = p_lcr (s_ports (pv := pv) s) ∨ dlab (pv h) = false →
  log_ok cons pre (with_mem m (with_hw h s)).
Proof.
  intros [Hc Hn Hh Hcons Hser Hp Hpq Ht] Hs Hlcr.
  assert (∀ p, p ∈ console_drivers :: con_nodes cons → next m p = next (k_mem s) p ∧ prev m p = prev (k_mem s) p) as Hnode.
  { intros p Hp'. split; (apply rd_le_ext; intros i Hi; apply Hs; left; exists p; split; [done|lia]). }
  split; cbn [k_mem k_mach prefix with_mem with_hw with_mach]; try done.
  - revert Hc. unfold chain. cbn [k_mem with_mem]. apply linked_ext; intros p Hp'; apply Hnode.
    + apply removelast_in in Hp'. set_solver + Hp'.
    + apply tail_in in Hp'. set_solver + Hp'.
  - intros c d Hcd. destruct (Hcons c d Hcd) as (Hc0 & Hqc & Hw). split; [done|]. split; [done|]. rewrite <- Hw.
    apply rd_le_ext. intros i Hi. apply Hs. right. left. exists c, d. split; [done|lia].
  - intros c Hcd. destruct (Hser c Hcd) as (Hc8 & Hqc & Hio & Hd). split; [done|]. split; [done|]. split.
    + rewrite <- Hio. apply rd_le_ext. intros i Hi. apply Hs. right. left. exists c, Serial. split; [done|]. right. split; [done|lia].
    + change (s_ports (with_mem m (with_hw h s))) with (pv h). destruct Hlcr as [Hlcr|]; [|done].
      unfold dlab in *. by rewrite Hlcr.
  - apply (has_prefix_same (k_mem s)); [|done]. intros Hne i Hi. apply Hs. right. right. split; [done|lia].
Qed.

Lemma quiet_footprint cons pre s m : log_ok cons pre s → quiet_same (k_mem s) m →
  ∀ a, footprint cons pre s a → rd8 m a = rd8 (k_mem s) a.
Proof. intros Hok Hs a Ha. by apply Hs, (footprint_quiet cons pre s). Qed.

Lemma screen_quiet m m' : unchanged_outside m m' vga_vram_base 4000 → quiet_same m m'.
Proof. intros Hu a [Ha _]. apply Hu. unfold off in Ha. lia. Qed.

Lemma buf_quiet m m' a n : unchanged_outside m m' a n → printk_buf ≤ a → a + n ≤ printk_buf + LOG_LINE_MAX → quiet_same m m'.
Proof. intros Hu Hl1 Hl2 b [_ Hb]. apply Hu. unfold off in Hb. lia. Qed.
(** *** One console *)

(** The body of the loop of [vprintk]. *)
Definition console_body (len con : Z) : M (kstate hw) unit :=
  w ← gets (λ s, con_write (k_mem s) con);
  when (truthy w) (console_write w con printk_buf len).

(** The lock and the levels are as they were. *)
Definition same_control s s' : Prop :=
  k_lock s' = k_lock s ∧ loglevel s' = loglevel s ∧ curlevel s' = curlevel s ∧ prefix s' = prefix s.

(** What a message leaves as it was: the control state, and the memory but for the buffer
    and the screen. *)
Definition log_step s s' : Prop := same_control s s' ∧ quiet_same (k_mem s) (k_mem s').

Lemma log_step_refl s : log_step s s.
Proof. split; [split; done|]. by intros a _. Qed.

Lemma log_step_trans s1 s2 s3 : log_step s1 s2 → log_step s2 s3 → log_step s1 s3.
Proof.
  intros [(H1' & H2' & H3' & H4') Hq] [(H1'' & H2'' & H3'' & H4'') Hq']. split; [repeat split; congruence|].
  intros a Ha. by rewrite Hq', Hq.
Qed.

Lemma log_step_hw s m h : quiet_same (k_mem s) m → log_step s (with_mem m (with_hw h s)).
Proof. intros Hq. split; [split; done|done]. Qed.

Lemma driver_fn_inj d d' : driver_fn d = driver_fn d' → d = d'.
Proof.
  pose proof functions_distinct as Hd. rewrite !NoDup_cons, !elem_of_cons, !elem_of_nil in Hd.
  destruct d, d'; cbn [driver_fn]; intros E; (done || (exfalso; rewrite ?E in Hd; naive_solver)).
Qed.

Lemma driver_call d con len s : con_write (k_mem s) con = driver_fn d →
  console_body len con s =
    match d with
    | NoWrite => Done tt s | Screen => vgacon_write con printk_buf len s
    | DebugPort => porte9_write con printk_buf len s | Serial => uart8250_write con printk_buf len s
    end.
Proof.
  intros Hw. unfold console_body. erewrite bind_done by reflexivity. rewrite Hw. unfold console_write, truthy.
  assert (∀ d d', (driver_fn d =? driver_fn d') = bool_decide (d = d')) as Heq.
  { intros e e'. case_bool_decide as E; [subst; apply Z.eqb_refl|]. apply Z.eqb_neq. intros E'. by apply driver_fn_inj in E'. }
  change 0 with (driver_fn NoWrite). change vgacon_write_fn with (driver_fn Screen).
  change porte9_write_fn with (driver_fn DebugPort). change uart8250_write_fn with (driver_fn Serial).
  rewrite !Heq. by destruct d.
Qed.
Lemma console_call cons pre s v c d n :
  log_ok cons pre s → displays s v → (c, d) ∈ cons → (n < 1024)%nat →
  let line := rd_bytes (k_mem s) printk_buf n in
  ∃ s', console_body (Z.of_nat n) c s = Done tt s' ∧ log_ok cons pre s' ∧
    displays s' (driver_shows pre line v (c, d)) ∧ rd_bytes (k_mem s') printk_buf n = line ∧ log_step s s'.
Proof.
  intros Hok Hd Hin Hn line. destruct (lo_cons _ _ _ Hok c d Hin) as (_ & _ & Hw).
  pose proof buf_off_screen as Hbuf. unfold LOG_LINE_MAX in Hbuf.
  rewrite (driver_call d) by done. destruct d; unfold driver_shows; cbn [snd].
  - exists s. split_and!; [done..|apply log_step_refl].
  - destruct Hd as [Dt Dc Du De Ds].
    destruct (vgacon_write_spec (pv := pv) c printk_buf n (v_term v) s Dt Dc Du) as (m' & h & Hr & Ht' & Hs' & Hu & Hp);
      [unfold off in *; lia|].
    exists (with_mem m' (with_hw h s)). split; [done|]. split; [|split; [|split; [|by apply log_step_hw, screen_quiet]]].
    + apply log_ok_frame; [done|by apply quiet_footprint, screen_quiet|]. left. by rewrite Hp.
    + assert (s_ports (pv := pv) (with_mem m' (with_hw h s)) = pv h) as Hsp by done.
      split; cbn [v_term v_e9 v_uart]; rewrite ?Hsp, ?Hp; try done.
      unfold cursor_of. cbn [p_hi p_lo]. fold line. symmetry. apply Z.div_mod. lia.
    + apply (rd_bytes_outside _ _ _ _ _ _ Hu). unfold off in *. lia.
  - destruct (porte9_write_spec (pv := pv) c printk_buf n s pre) as (h & Hr & Hp); [by apply Hok|].
    exists (with_hw h s). split; [done|]. split; [|split; [|split; [done|by apply (log_step_hw s (k_mem s))]]].
    + apply (log_ok_frame cons pre s (k_mem s) h); [done|by intros a _|]. left. by rewrite Hp.
    + destruct Hd as [Dt Dc Du De Ds]. assert (s_ports (pv := pv) (with_hw h s) = pv h) as Hsp by done.
      split; cbn [v_term v_e9 v_uart]; rewrite ?Hsp, ?Hp; try done. cbn [debugged p_e9]. by rewrite De.
  - destruct (lo_serial _ _ _ Hok c Hin) as (Hc8 & _ & Hio & Hdl).
    destruct (lo_cons _ _ _ Hok c Serial Hin) as (_ & Hqc & _).
    destruct (uart8250_write_spec (pv := pv) c printk_buf n s) as (h & Hr & Hp); [|done|].
    { rewrite wrap_small; [done|]. pose proof (nodes_bound _ (c + con_list_offset) (lo_nodes _ _ _ Hok)) as Hb.
      unfold con_list_offset in Hb. split; [lia|]. destruct Hb; [|lia]. right. apply list_elem_of_fmap. by exists (c, Serial). }
    exists (with_hw h s). split; [done|]. split; [|split; [|split; [done|by apply (log_step_hw s (k_mem s))]]].
    + apply (log_ok_frame cons pre s (k_mem s) h); [done|by intros a _|]. left. by rewrite Hp.
    + destruct Hd as [Dt Dc Du De Ds]. assert (s_ports (pv := pv) (with_hw h s) = pv h) as Hsp by done.
      split; cbn [v_term v_e9 v_uart]; rewrite ?Hsp, ?Hp; try done. cbn [sent p_uart]. by rewrite Ds.
Qed.

(** Every console in turn. *)
Lemma consoles_call cons pre n todo : (n < 1024)%nat → (∀ x, x ∈ todo → x ∈ cons) → ∀ s v,
  log_ok cons pre s → displays s v →
  let line := rd_bytes (k_mem s) printk_buf n in
  ∃ s', for_each todo.*1 (console_body (Z.of_nat n)) s = Done tt s' ∧ log_ok cons pre s' ∧
    displays s' (foldl (driver_shows pre line) v todo) ∧ log_step s s'.
Proof.
  intros Hn. induction todo as [|[c d] todo IH]; intros Hsub s v Hok Hd line; [exists s; split_and!; [done..|apply log_step_refl]|].
  destruct (console_call cons pre s v c d n Hok Hd) as (s1 & Hr1 & Hok1 & Hd1 & Hl1 & Hstep1); [apply Hsub; left|done|].
  destruct (IH ltac:(intros x Hx; apply Hsub; by right) s1 _ Hok1 Hd1) as (s2 & Hr2 & Hok2 & Hd2 & Hstep2).
  rewrite Hl1 in Hd2. exists s2. cbn [fmap list_fmap for_each fst]. rewrite (bind_done _ _ _ _ _ Hr1).
  split; [done|]. split; [done|]. split; [done|]. by eapply log_step_trans.
Qed.

Lemma for_each_console_spec cons pre n s v : (n < 1024)%nat → log_ok cons pre s → displays s v →
  let line := rd_bytes (k_mem s) printk_buf n in
  ∃ s', for_each_console (console_body (Z.of_nat n)) s = Done tt s' ∧ log_ok cons pre s' ∧
    displays s' (foldl (driver_shows pre line) v cons) ∧ log_step s s'.
Proof.
  intros Hn Hok Hd line. unfold for_each_console.
  assert (∀ c d, (c, d) ∈ cons → list_entry (c + con_list_offset) con_list_offset = c) as Hentry.
  { intros c d Hin. destruct (lo_cons _ _ _ Hok c d Hin) as (Hc & _).
    pose proof (nodes_bound _ (c + con_list_offset) (lo_nodes _ _ _ Hok)) as Hb. unfold list_entry, con_list_offset in *.
    replace (c + 8 - 8) with c by lia. apply wrap_small. split; [done|]. destruct Hb; [|lia].
    right. apply list_elem_of_fmap. by exists (c, d). }
  rewrite (list_for_each_spec k_mem console_drivers (con_nodes cons) con_list_offset (console_body (Z.of_nat n))
    (lo_nodes _ _ _ Hok) (λ s, log_ok cons pre s ∧ ∃ v, displays s v)).
  - assert ((λ e, list_entry e con_list_offset) <$> con_nodes cons = cons.*1) as ->.
    { unfold con_nodes. rewrite <- list_fmap_compose. apply Forall_fmap_ext_1. apply Forall_forall. intros [c d] Hin.
      by apply (Hentry c d). }
    by apply (consoles_call cons).
  - intros s0 [Hok0 _]. apply Hok0.
  - intros p s0 Hin [Hok0 [v0 Hd0]]. apply list_elem_of_fmap in Hin as ([c d] & -> & Hin). cbn [fst].
    rewrite (Hentry c d Hin). destruct (console_call cons pre s0 v0 c d n Hok0 Hd0 Hin Hn) as (s1 & -> & Hok1 & Hd1 & _). eauto.
  - eauto.
Qed.
(** *** [vprintk] *)

Lemma spin_lock_free s : k_lock s = false → spin_lock s = Done tt (with_lock true s).
Proof. intros Hl. apply loop_done. unfold spin_trylock, mbind, M_bind, mret, M_ret. by rewrite Hl. Qed.

Lemma log_ok_lock cons pre b s : log_ok cons pre s → log_ok cons pre (with_lock b s).
Proof. by intros []. Qed.

Lemma displays_lock v b s : displays s v → displays (with_lock b s) v.
Proof. by intros []. Qed.

Lemma displays_frame v s m h : displays s v → unchanged_outside (k_mem s) m printk_buf LOG_LINE_MAX →
  pv h = s_ports (pv := pv) s → displays (with_mem m (with_hw h s)) v.
Proof.
  intros [Dt Dc Du De Ds] Hu Hh. assert (s_ports (pv := pv) (with_mem m (with_hw h s)) = s_ports (pv := pv) s) as Hs by done.
  split; rewrite ?Hs; try done. intros i Hi. cbn [k_mem with_mem]. rewrite <- Dc by done.
  apply rd_le_ext. intros k Hk. apply Hu. pose proof buf_off_screen as Hb. unfold off in Hb. lia.
Qed.

Lemma uptime_k s : 0 ≤ m_tsc_khz (k_mach s) →
  ∃ t h, on_mach uptime s = Done t (with_hw h s) ∧ pv h = s_ports (pv := pv) s ∧ 0 ≤ t < 2 ^ 64.
Proof.
  intros Hk. unfold on_mach, uptime. erewrite bind_done by reflexivity.
  destruct (Z.eqb_spec (m_tsc_khz (k_mach s)) 0) as [Hz|Hz].
  - exists 0, (m_hw (k_mach s)). rewrite with_hw_same. split; [by destruct s|done].
  - pose proof (rdtsc_ports (m_hw (k_mach s))) as Hp. unfold get_cycles, rdtsc, mbind, M_bind, mret, M_ret.
    destruct (hw_rdtsc (m_hw (k_mach s))) as [c h]. eexists _, h. split; [reflexivity|]. split; [done|].
    pose proof (wrap_bound 64 (u64 c * 1000) ltac:(lia)). split; [apply Z.div_pos; lia|].
    apply Z.div_lt_upper_bound; nia.
Qed.

Lemma pr_prefix_spec img s : 0 ≤ m_tsc_khz (k_mach s) →
  ∃ t m h, pr_prefix img printk_buf LOG_LINE_MAX s =
      Done (Z.of_nat (length (log_prefix img t))) (with_mem m (with_hw h s)) ∧
    0 ≤ t < 2 ^ 64 ∧ pv h = s_ports (pv := pv) s ∧ unchanged_outside (k_mem s) m printk_buf LOG_LINE_MAX ∧
    rd_bytes m printk_buf (length (log_prefix img t)) = u8 <$> log_prefix img t.
Proof.
  intros Hk. pose proof buf_range as [Hb1 Hb2]. unfold LOG_LINE_MAX in *.
  assert (∀ t fmt args s0, 0 ≤ t < 2 ^ 64 → Z.of_nat (length fmt) < 2 ^ 64 →
    (∀ m T, formats (printk_buf + 1024) printk_buf m fmt spec0 args T → T = log_prefix img t) →
    ∃ m, on_mem (scnprintf printk_buf 1024 fmt args) s0 =
        Done (Z.of_nat (length (log_prefix img t))) (with_mem m s0) ∧
      unchanged_outside (k_mem s0) m printk_buf 1024 ∧
      rd_bytes m printk_buf (length (log_prefix img t)) = u8 <$> log_prefix img t) as Hput.
  { intros t fmt args s0 Ht Hf HT.
    destruct (vscnprintf_text printk_buf 1024 fmt args (k_mem s0)) as (T & n & m & Hr & Hn & HF & Hu & Hl);
      [done|done|lia|done|]. apply HT in HF as ->. pose proof (log_prefix_length img t Ht) as Hlen.
    destruct Hl as [-> Hl]; [lia|]. rewrite Z.min_l, Nat2Z.id, take_ge in Hl by lia. rewrite Z.min_l in Hr by lia.
    exists m. unfold on_mem, scnprintf. rewrite Hr. done. }
  unfold pr_prefix. destruct img.
  - destruct (uptime_k s Hk) as (t & h & Hr & Hp & Ht). rewrite (bind_done _ _ _ _ _ Hr). unfold do_div.
    destruct (Hput t (text "[%5lu.%06lu] ") [t / 1000000; u32 (t mod 1000000)] (with_hw h s)) as (m & Hr' & Hu & Hl);
      [done|vm_compute; done|intros; by eapply formats_stamp|]. exists t, m, h. done.
  - destruct (Hput 0 (text "[  FIRMWARE  ] ") [] s) as (m & Hr' & Hu & Hl); [done|vm_compute; done| |].
    { intros m T HT. eapply formats_text_inv in HT as (t1 & -> & HT); [|done|vm_compute; reflexivity|reflexivity].
      by apply formats_nil_inv in HT as ->. }
    exists 0, m, (m_hw (k_mach s)). rewrite with_hw_same. done.
Qed.
(** What is in front of the text: nothing in a continuation. *)
Definition line_prefix (img : image) (level t : Z) : list Z := if level =? LOGLEVEL_CONT then [] else log_prefix img t.

(** [line] is the line of the message: the prefix and the formatted text, cut to the
    buffer. *)
Definition line_text (img : image) (level : Z) (fmt args : list Z) (m : bmem) (line : list Z) : Prop :=
  ∃ t T m0, 0 ≤ t < 2 ^ 64 ∧ unchanged_outside m m0 printk_buf LOG_LINE_MAX ∧
    let P := line_prefix img level t in
    formats (printk_buf + LOG_LINE_MAX) (printk_buf + Z.of_nat (length P)) m0 fmt spec0 args T ∧
    (length line < 1024)%nat ∧ (Z.of_nat (length T) < 2 ^ 31 → line = u8 <$> take 1023 (P ++ T)).

Lemma line_prefix_length img level t : 0 ≤ t < 2 ^ 64 → (length (line_prefix img level t) ≤ 42)%nat.
Proof. intros Ht. unfold line_prefix. destruct (level =? _); [cbn; lia|]. by apply log_prefix_length. Qed.

Lemma prefix_done img level s : 0 ≤ m_tsc_khz (k_mach s) →
  ∃ t m h, let P := line_prefix img level t in
    (if level =? LOGLEVEL_CONT then mret 0 else pr_prefix img printk_buf LOG_LINE_MAX) s =
      Done (Z.of_nat (length P)) (with_mem m (with_hw h s)) ∧
    0 ≤ t < 2 ^ 64 ∧ pv h = s_ports (pv := pv) s ∧ unchanged_outside (k_mem s) m printk_buf LOG_LINE_MAX ∧
    rd_bytes m printk_buf (length P) = u8 <$> P.
Proof.
  intros Hk. unfold line_prefix. destruct (level =? LOGLEVEL_CONT); [|by apply pr_prefix_spec].
  exists 0, (k_mem s), (m_hw (k_mach s)). rewrite with_hw_same. split; [by destruct s|].
  split; [done|]. split; [done|]. split; [by intros a _|done].
Qed.

Lemma line_formatted img level fmt args s : 0 ≤ m_tsc_khz (k_mach s) → Z.of_nat (length fmt) < 2 ^ 64 →
  ∃ t m0 h n m, let P := line_prefix img level t in
    (if level =? LOGLEVEL_CONT then mret 0 else pr_prefix img printk_buf LOG_LINE_MAX) s =
      Done (Z.of_nat (length P)) (with_mem m0 (with_hw h s)) ∧
    vscnprintf (printk_buf + Z.of_nat (length P)) (LOG_LINE_MAX - Z.of_nat (length P)) fmt args m0 = Done n m ∧
    pv h = s_ports (pv := pv) s ∧ unchanged_outside (k_mem s) m printk_buf LOG_LINE_MAX ∧
    0 ≤ n ∧ Z.of_nat (length P) + n < 1024 ∧
    line_text img level fmt args (k_mem s) (rd_bytes m printk_buf (length P + Z.to_nat n)).
Proof.
  intros Hk Hf. destruct (prefix_done img level s Hk) as (t & m0 & h & Hr & Ht & Hp & Hu & Hl).
  pose proof (line_prefix_length img level t Ht) as Hlen. pose proof buf_range as [Hb1 Hb2]. unfold LOG_LINE_MAX in *.
  set (P := line_prefix img level t) in *.
  destruct (vscnprintf_text (printk_buf + Z.of_nat (length P)) (1024 - Z.of_nat (length P)) fmt args m0)
    as (T & n & m & Hr' & Hn & HF & Hu' & Hl'); [lia|unfold INT_MAX; lia|lia|done|].
  replace (printk_buf + Z.of_nat (length P) + (1024 - Z.of_nat (length P))) with (printk_buf + 1024) in HF by lia.
  assert (rd_bytes m printk_buf (length P) = u8 <$> P) as HP.
  { rewrite <- Hl. apply rd_bytes_ext. intros i Hi. apply Hu'. lia. }
  exists t, m0, h, n, m. cbv zeta. fold P. split; [done|]. split; [done|]. split; [done|]. split.
  { intros a Ha. rewrite Hu' by lia. by apply Hu. }
  split; [lia|]. split; [lia|]. exists t, T, m0. split; [done|]. split; [done|]. fold P. split; [done|].
  split; [rewrite rd_bytes_length; lia|]. intros HT. destruct (Hl' HT) as [Hmin Htext].
  rewrite rd_bytes_app, HP, Htext, <- fmap_app, take_app_ge by lia. f_equal.
  destruct (Z.le_gt_cases (Z.of_nat (length T)) (1024 - Z.of_nat (length P) - 1)).
  - rewrite !take_ge by lia. done.
  - do 2 f_equal. lia.
Qed.

Lemma vprintk_suppressed img level fmt args s : k_lock s = false →
  loglevel s < (if level =? LOGLEVEL_CONT then curlevel s else level) →
  vprintk img level fmt args s = Done 0 s.
Proof.
  intros Hl Hlev. unfold vprintk. rewrite (bind_done _ _ _ _ _ (spin_lock_free s Hl)).
  do 2 (erewrite bind_done by reflexivity). cbn [loglevel curlevel with_lock].
  rewrite (proj2 (Z.ltb_lt _ _) Hlev). destruct s; cbn in *. by subst.
Qed.

Lemma vprintk_printed cons pre img level fmt args s v :
  log_ok cons pre s → displays s v → k_lock s = false → Z.of_nat (length fmt) < 2 ^ 64 →
  (if level =? LOGLEVEL_CONT then curlevel s else level) ≤ loglevel s →
  ∃ line s', vprintk img level fmt args s = Done (Z.of_nat (length line)) s' ∧
    line_text img level fmt args (k_mem s) line ∧
    log_ok cons pre s' ∧ displays s' (foldl (driver_shows pre line) v cons) ∧ log_step s s'.
Proof.
  intros Hok Hd Hl Hf Hlev. set (s1 := with_lock true s).
  assert (log_ok cons pre s1) as Hok1 by by apply log_ok_lock. assert (displays s1 v) as Hd1 by by apply displays_lock.
  destruct (line_formatted img level fmt args s1 (lo_tsc _ _ _ Hok) Hf)
    as (t & m0 & h & n & m & Hr0 & Hr & Hp & Hu & Hn & Hlen & Hline).
  set (P := line_prefix img level t) in *. set (line := rd_bytes m printk_buf (length P + Z.to_nat n)) in *.
  set (s2 := with_mem m (with_hw h s1)).
  assert (log_ok cons pre s2) as Hok2.
  { apply log_ok_frame; [done|by apply quiet_footprint; [|eapply buf_quiet; [done|lia..]]|left; by rewrite Hp]. }
  assert (displays s2 v) as Hd2 by by apply displays_frame.
  destruct (for_each_console_spec cons pre (length P + Z.to_nat n) s2 v) as (s3 & Hr3 & Hok3 & Hd3 & [(Hc1 & Hc2 & Hc3 & Hc4) Hq3]);
    [lia|done|done|].
  change (rd_bytes (k_mem s2) printk_buf (length P + Z.to_nat n)) with line in Hd3.
  assert (length line = (length P + Z.to_nat n)%nat) as Hll by apply rd_bytes_length.
  assert (u64 (Z.of_nat (length P) + n) = Z.of_nat (length P + Z.to_nat n)) as Hlen64 by (rewrite wrap_small; lia).
  exists line, (with_lock false s3). split; [|split; [done|]].
  - unfold vprintk. rewrite (bind_done _ _ _ _ _ (spin_lock_free s Hl)). do 2 (erewrite bind_done by reflexivity).
    cbn [loglevel curlevel with_lock]. rewrite (proj2 (Z.ltb_ge _ _) Hlev). fold s1.
    assert ((len ← (if level =? LOGLEVEL_CONT then mret 0 else pr_prefix img printk_buf LOG_LINE_MAX);
       n ← on_mem (vscnprintf (printk_buf + len) (LOG_LINE_MAX - len) fmt args);
       for_each_console (console_body (u64 (len + n))) ;; mret (u64 (len + n))) s1 =
       Done (Z.of_nat (length P + Z.to_nat n)) s3) as Hbody.
    { rewrite (bind_done _ _ _ _ _ Hr0).
      assert (on_mem (vscnprintf (printk_buf + Z.of_nat (length P)) (LOG_LINE_MAX - Z.of_nat (length P)) fmt args)
        (with_mem m0 (with_hw h s1)) = Done n s2) as Hfm by (unfold on_mem; cbn [k_mem with_mem]; by rewrite Hr).
      rewrite (bind_done _ _ _ _ _ Hfm), Hlen64, (bind_done _ _ _ _ _ Hr3). done. }
    rewrite (bind_done _ _ _ _ _ Hbody), Hll. unfold spin_unlock, modify, mbind, M_bind, mret, M_ret.
    by rewrite s32_small by lia.
  - split; [by apply log_ok_lock|]. split; [by apply displays_lock|].
    split; [repeat split; cbn in *; congruence|]. intros a Ha. cbn [k_mem with_lock]. rewrite Hq3 by done. cbn [k_mem s2 with_mem].
    apply Hu. destruct Ha as [_ Ha]. unfold off in Ha. lia.
Qed.
(** A lock that is held is waited for for ever: a message from inside [vprintk], as that
    of a fault in it, is never printed. *)
Lemma vprintk_reentered img level fmt args s : k_lock s = true → ∃ s', vprintk img level fmt args s = OutOfFuel s'.
Proof.
  intros Hl. unfold vprintk, spin_lock.
  destruct (loop_stuck (λ _ : unit, b ← spin_trylock (hw := hw); mret (if b : bool then inr tt else inl tt))
    (λ _ s, k_lock s = true) tt s) as (a' & s' & Hr & _); [|done|].
  - intros [] s0 Hl0. unfold spin_trylock, mbind, M_bind, mret, M_ret. rewrite Hl0. by eexists _, _.
  - exists s'. unfold mbind at 1, M_bind at 1. by rewrite Hr.
Qed.

(** *** Registration *)

(** The list node [p] is apart from everything else of the log. *)
Definition node_apart cons (pre : list Z) s (p : Z) : Prop :=
  (∀ c d, (c, d) ∈ cons → off c 8 p 16 ∧ (d = Serial → off (c - 8) 8 p 16)) ∧
  (off (prefix s) (Z.of_nat (length pre) + 1) p 16 ∨ prefix s = 0).

Lemma off_le m m' N a n : outside_same N m m' → (∀ p, p ∈ N → off a (Z.of_nat n) p 16) → rd_le m' a n = rd_le m a n.
Proof. intros Ho Ha. apply rd_le_ext. intros i Hi. apply Ho. intros p Hp. specialize (Ha p Hp). unfold off in Ha. lia. Qed.

Lemma register_ok cons pre s v c d :
  log_ok cons pre s → displays s v → 0 ≤ c → quiet c 24 → con_write (k_mem s) c = driver_fn d →
  (d = Serial → 8 ≤ c ∧ quiet (c - 8) 8 ∧ port_iobase (k_mem s) (c - 8) = 0x3F8 ∧ dlab (s_ports (pv := pv) s) = false) →
  nodes ((c + con_list_offset) :: console_drivers :: con_nodes cons) →
  (∀ p, p ∈ (c + con_list_offset) :: console_drivers :: con_nodes cons → node_apart (cons ++ [(c, d)]) pre s p) →
  ∃ s', register_console c s = Done tt s' ∧ log_ok (cons ++ [(c, d)]) pre s' ∧ displays s' v ∧ same_control s s' ∧
    outside_same ((c + con_list_offset) :: console_drivers :: con_nodes cons) (k_mem s) (k_mem s').
Proof.
  intros Hok Hd Hc Hq Hw Hser HN Ha. set (N := (c + con_list_offset) :: console_drivers :: con_nodes cons) in *.
  pose proof (nodes_distinct _ HN) as [Hfresh _]%NoDup_cons.
  destruct (add_tail_correct N HN (k_mem s) (k_mem s) [(console_drivers, con_nodes cons)] (c + con_list_offset) console_drivers)
    as [HR Ho].
  { split; [unfold all; cbn; rewrite app_nil_r; apply (lo_nodes _ _ _ Hok)| |].
    - intros p Hp. unfold all in Hp. cbn in Hp. rewrite app_nil_r in Hp. by right.
    - intros h l [= -> ->]%list_elem_of_singleton. apply (lo_chain _ _ _ Hok). }
  { by intros a _. }
  { left. }
  { unfold all. cbn. by rewrite app_nil_r. }
  { unfold is_head. left. }
  set (m := list_add_tail (k_mem s) (c + con_list_offset) console_drivers) in *.
  assert (∀ c' d', (c', d') ∈ cons ++ [(c, d)] → 0 ≤ c' ∧ quiet c' 24 ∧ con_write (k_mem s) c' = driver_fn d') as Hcons.
  { intros c' d' [Hin|[= -> ->]%list_elem_of_singleton]%elem_of_app; [by apply Hok|done]. }
  assert (con_nodes (cons ++ [(c, d)]) = con_nodes cons ++ [c + con_list_offset]) as Hcn by (unfold con_nodes; by rewrite fmap_app).
  exists (with_mem m s). split; [done|]. split; [|split; [|split; [by repeat split|done]]].
  - split; [| |apply (lo_head _ _ _ Hok)| | | |apply (lo_prefix_quiet _ _ _ Hok)|apply (lo_tsc _ _ _ Hok)];
      cbn [k_mem with_mem].
    + rewrite Hcn. apply (rings_linked _ _ _ HR). unfold on_list. cbn. rewrite decide_True by done. left.
    + rewrite Hcn. apply (nodes_subset N); [done| |].
      * pose proof (nodes_distinct _ HN) as HdN. unfold N in HdN. rewrite app_comm_cons. by rewrite Permutation_app_comm.
      * intros p Hp. unfold N. set_solver + Hp.
    + intros c' d' Hin. destruct (Hcons c' d' Hin) as (Hc0 & Hqc & Hwc). split; [done|]. split; [done|]. rewrite <- Hwc.
      apply (off_le _ _ N c' 8 Ho). intros p Hp. by apply (Ha p Hp) in Hin as [? _].
    + intros c' Hin. assert (8 ≤ c' ∧ quiet (c' - 8) 8 ∧ port_iobase (k_mem s) (c' - 8) = 0x3F8 ∧ dlab (s_ports (pv := pv) s) = false)
        as (H8 & Hq8 & Hio & Hdl).
      { apply elem_of_app in Hin as [Hin|[= -> <-]%list_elem_of_singleton]; [by apply Hok|by apply Hser]. }
      split; [done|]. split; [done|]. split; [|done]. rewrite <- Hio.
      apply (off_le _ _ N (c' - 8) 4 Ho). intros p Hp. destruct (Ha p Hp) as [Hx _]. destruct (Hx c' Serial Hin) as [_ Hy].
      specialize (Hy eq_refl). unfold off in *. lia.
    + cbn [prefix with_mem]. destruct (lo_prefix _ _ _ Hok) as [?|(Hne & Hb & (Hn & Hz & He) & Hl)]; [by left|].
      assert (∀ i, 0 ≤ i ≤ Z.of_nat (length pre) → rd8 m (prefix s + i) = rd8 (k_mem s) (prefix s + i)) as Hr.
      { intros i Hi. apply Ho. intros p Hp. destruct (Ha p Hp) as [_ [Hx|]]; [unfold off in Hx; lia|done]. }
      right. split; [done|]. split; [done|]. split.
      * split; [done|]. split; [|by rewrite Hr by lia]. intros i Hi. rewrite Hr by lia. by apply Hz.
      * rewrite <- Hl at 2. apply rd_bytes_ext. intros i Hi. apply Hr. lia.
  - destruct Hd as [Dt Dc Du De Ds]. split; try done. intros i Hi. cbn [k_mem with_mem]. rewrite <- Dc by done.
    apply (off_le _ _ N _ 2 Ho). intros p Hp.
    assert (quiet p 16) as [Hqp _].
    { apply elem_of_cons in Hp as [->|[->|Hp]%elem_of_cons].
      - apply (quiet_sub c 24); unfold con_list_offset; (done || lia).
      - apply Hok.
      - apply list_elem_of_fmap in Hp as ([c' d'] & -> & Hin). destruct (lo_cons _ _ _ Hok c' d' Hin) as (_ & Hqc & _).
        apply (quiet_sub c' 24); unfold con_list_offset; cbn; (done || lia). }
    unfold off in *. lia.
Qed.
Lemma displays_same v s m h : displays s v → (∀ a, vga_vram_base ≤ a < vga_vram_base + 4000 → rd8 m a = rd8 (k_mem s) a) →
  (∀ p, s_ports (pv := pv) s = p → cursor_of (pv h) = cursor_of p ∧ p_e9 (pv h) = p_e9 p ∧ p_uart (pv h) = p_uart p) →
  displays (with_mem m (with_hw h s)) v.
Proof.
  intros [Dt Dc Du De Ds] Hm Hp. destruct (Hp _ eq_refl) as (H1' & H2' & H3').
  assert (s_ports (pv := pv) (with_mem m (with_hw h s)) = pv h) as Hs by done.
  split; rewrite ?Hs; [done| |congruence..]. intros i Hi. cbn [k_mem with_mem]. rewrite <- Dc by done.
  apply rd_le_ext. intros k Hk. apply Hm. lia.
Qed.

(** [uart8250_init] programs the line (8n1, 19200 baud), and registers the console unless
    there is no port. *)
Lemma uart8250_init_spec cons pre s v :
  let con := port_console uart_ports in
  log_ok cons pre s → displays s v → 0 ≤ uart_ports → quiet uart_ports 32 →
  port_iobase (k_mem s) uart_ports = 0x3F8 →
  nodes ((con + con_list_offset) :: console_drivers :: con_nodes cons) →
  (∀ p, p ∈ (con + con_list_offset) :: console_drivers :: con_nodes cons → node_apart (cons ++ [(con, Serial)]) pre s p) →
  (∀ a, footprint cons pre s a → a < con ∨ con + 8 ≤ a) →
  ∃ s', uart8250_init s = Done tt s' ∧
    (log_ok cons pre s' ∨ log_ok (cons ++ [(con, Serial)]) pre s') ∧ displays s' v ∧
    s_ports (pv := pv) s' = configured (s_ports (pv := pv) s) ∧ same_control s s'.
Proof.
  intros con Hok Hd Hpos Hq Hio HN Ha Hf. unfold uart8250_init. cbn [for_each].
  destruct (init_port_spec (pv := pv) uart_ports s Hio) as (h1 & Hr1 & Hp1).
  destruct (ends_uart_in (pv := pv) (with_hw h1 s) uart_ports UART_LSR Hio) as (h2 & Hr2 & Hp2); [set_solver +|].
  change (s_ports (with_hw h1 s)) with (pv h1) in Hp2. rewrite Hp1 in Hp2.
  set (lsr := u8 _) in Hr2.
  assert (log_ok cons pre (with_hw h2 (with_hw h1 s))) as Hok2.
  { apply (log_ok_frame cons pre s (k_mem s) h2 Hok); [done|]. right. by rewrite Hp2. }
  assert (displays (with_hw h2 (with_hw h1 s)) v) as Hd2.
  { apply (displays_same v s (k_mem s) h2 Hd); [done|]. intros p <-. by rewrite Hp2. }
  destruct (Z.eqb_spec lsr 255) as [E|E].
  - exists (with_hw h2 (with_hw h1 s)). split; [|split; [by left|split; [done|split; [exact Hp2|split; done]]]].
    erewrite bind_done; [|rewrite (bind_done _ _ _ _ _ Hr1), (bind_done _ _ _ _ _ Hr2), E; reflexivity]. done.
  - set (s2 := with_hw h2 (with_hw h1 s)) in *.
    set (s3 := with_mem (wr64 (k_mem s) con uart8250_write_fn) s2).
    assert (log_ok cons pre s3) as Hok3.
    { apply (log_ok_frame cons pre s (wr64 (k_mem s) con uart8250_write_fn) h2 Hok); [|right; by rewrite Hp2].
      intros a Ha'. unfold wr64. rewrite rd8_wr_le, decide_False; [done|]. specialize (Hf a Ha'). lia. }
    assert (displays s3 v) as Hd3.
    { apply (displays_same v s _ h2 Hd); [|intros p <-; by rewrite Hp2]. intros a Ha'. unfold wr64.
      rewrite rd8_wr_le, decide_False; [done|]. destruct Hq as [Hq _]. unfold off, con, port_console in *. lia. }
    assert (con = uart_ports + 8) as Hcon by done.
    destruct (register_ok cons pre s3 v con Serial Hok3 Hd3) as (s4 & Hr4 & Hok4 & Hd4 & (? & ? & ? & ?) & Ho4);
      [lia|apply (quiet_sub uart_ports 32); (done || lia)| | |done|done|].
    { cbn [k_mem s3 with_mem]. apply rd64_wr64. apply (functions_range Serial). }
    { intros _. split; [lia|]. replace (con - 8) with uart_ports by lia. split; [apply (quiet_sub uart_ports 32); (done || lia)|].
      split; [|change (s_ports s3) with (pv h2); by rewrite Hp2]. rewrite <- Hio. cbn [k_mem s3 with_mem].
      apply rd_le_wr_le_apart. lia. }
    exists s4. split; [|split; [by right|split; [done|split; [|split; [done|done]]]]].
    + erewrite bind_done; [|rewrite (bind_done _ _ _ _ _ Hr1), (bind_done _ _ _ _ _ Hr2);
        rewrite (proj2 (Z.eqb_neq _ _) E); erewrite bind_done by reflexivity; exact Hr4]. done.
    + injection Hr4 as <-. exact Hp2.
Qed.
(** *** The start of the image *)

(** The static objects of the image: the two consoles with their functions, and the
    colour [pre] at [str]; they are apart from each other, from the buffer and from the
    screen. *)
Record static_objects (str : Z) (pre : list Z) s : Prop := {
  so_colour : has_prefix (k_mem s) str pre;
  so_colour_quiet : quiet str (Z.of_nat (length pre) + 1) ∨ str = 0;
  so_write : con_write (k_mem s) porte9_con = porte9_write_fn ∧ con_write (k_mem s) vgacon_con = vgacon_write_fn;
  so_range : 0 ≤ porte9_con ∧ 0 ≤ vgacon_con;
  so_quiet : quiet porte9_con 24 ∧ quiet vgacon_con 24;
  so_nodes : nodes [vgacon_con + con_list_offset; console_drivers; porte9_con + con_list_offset];
  so_apart p : p ∈ [vgacon_con + con_list_offset; console_drivers; porte9_con + con_list_offset] →
    off porte9_con 8 p 16 ∧ off vgacon_con 8 p 16 ∧ (off str (Z.of_nat (length pre) + 1) p 16 ∨ str = 0);
}.

Lemma start_spec str pre s v : log_ok [] [] s → displays s v → static_objects str pre s →
  ∃ s', (porte9_init str ;; vgacon_init) s = Done tt s' ∧
    log_ok [(porte9_con, DebugPort); (vgacon_con, Screen)] pre s' ∧ displays s' v ∧
    same_control (with_prefix str s) s'.
Proof.
  intros Hok Hd [Hc Hcq [Hw1 Hw2] [Hr1 Hr2] [Hq1 Hq2] HN Ha].
  set (N := [vgacon_con + con_list_offset; console_drivers; porte9_con + con_list_offset]) in *.
  set (s0 := with_prefix str s).
  assert (log_ok [] pre s0) as Hok0 by (by destruct Hok; split).
  assert (displays s0 v) as Hd0 by by destruct Hd.
  assert (nodes [porte9_con + con_list_offset; console_drivers]) as HN1.
  { apply (nodes_subset N _ HN); [|set_solver +]. pose proof (nodes_distinct _ HN) as HdN. unfold N in HdN.
    rewrite !NoDup_cons in *. set_solver + HdN. }
  destruct (register_ok [] pre s0 v porte9_con DebugPort Hok0 Hd0) as (s1 & Hr & Hok1 & Hd1 & (? & ? & ? & Hpre1) & Ho); try done.
  { intros p Hp. destruct (Ha p) as (H1' & H2' & H3'); [set_solver + Hp|]. split; [|done].
    intros c d [= -> ->]%list_elem_of_singleton. done. }
  assert (con_write (k_mem s1) vgacon_con = vgacon_write_fn) as Hw2'.
  { rewrite <- Hw2. apply (off_le _ _ _ vgacon_con 8 Ho). intros p Hp. apply Ha. set_solver + Hp. }
  destruct (register_ok ([] ++ [(porte9_con, DebugPort)]) pre s1 v vgacon_con Screen Hok1 Hd1)
    as (s2 & Hr' & Hok2 & Hd2 & (? & ? & ? & ?) & _); try done.
  { intros p Hp. destruct (Ha p Hp) as (H1' & H2' & H3'). split.
    - intros c d [[= -> ->]|[[= -> ->]|[]%elem_of_nil]%elem_of_cons]%elem_of_cons; done.
    - change (prefix s0) with str in Hpre1. by rewrite Hpre1. }
  exists s2. split; [|split; [done|split; [done|]]].
  - unfold porte9_init. rewrite (bind_done _ _ s tt s1); [done|]. by erewrite bind_done by reflexivity.
  - repeat split; congruence.
Qed.
End log.

(** The consoles the images start with: [porte9_init] and [vgacon_init] put the debug port
    and the screen on the list of consoles, in this order, and establish the invariant of
    the log; nothing is printed. *)
Theorem consoles_start {hw} `{Hardware hw, ConsoleLayout} {pv busy} `{!ConsolePorts hw pv busy, !ConsoleLayoutOk}
    str pre (s : kstate hw) v :
  log_ok (pv := pv) [] [] s → displays (pv := pv) s v → static_objects str pre s →
  ∃ s', (porte9_init str ;; vgacon_init) s = Done tt s' ∧
    log_ok (pv := pv) [(porte9_con, DebugPort); (vgacon_con, Screen)] pre s' ∧ displays (pv := pv) s' v ∧
    same_control (with_prefix str s) s'.
Proof. apply start_spec. Qed.

(** C23: [vprintk]: a message above the log level changes nothing; any other one is formatted
    behind the prefix of the image (none in a continuation), cut to the buffer, and every
    registered console shows the line, in the order of registration: the screen as a
    terminal, the debug port between the colours, the serial line as it is.  The invariant
    of the log holds again and the lock is free.  When the lock is held it never returns. *)
Theorem vprintk_correct {hw} `{Hardware hw, ConsoleLayout} {pv busy} `{!ConsolePorts hw pv busy, !ConsoleLayoutOk}
    cons pre img level fmt args (s : kstate hw) v :
  log_ok (pv := pv) cons pre s → displays (pv := pv) s v → Z.of_nat (length fmt) < 2 ^ 64 →
  if k_lock s then ∃ s', vprintk img level fmt args s = OutOfFuel s'
  else if loglevel s <? (if level =? LOGLEVEL_CONT then curlevel s else level) then
    vprintk img level fmt args s = Done 0 s
  else
    ∃ line s', vprintk img level fmt args s = Done (Z.of_nat (length line)) s' ∧
      line_text img level fmt args (k_mem s) line ∧
      log_ok (pv := pv) cons pre s' ∧ displays (pv := pv) s' (foldl (driver_shows pre line) v cons) ∧ log_step s s'.
Proof.
  intros Hok Hd Hf. destruct (k_lock s) eqn:Hl; [by apply vprintk_reentered|].
  destruct (Z.ltb_spec (loglevel s) (if level =? LOGLEVEL_CONT then curlevel s else level)).
  - by apply vprintk_suppressed.
  - by apply (vprintk_printed (pv := pv) cons pre).
Qed.

(** ** A boot *)

Module LogDemo.
Import ConsoleDemo.

Lemma layout_ok : ConsoleLayoutOk.
Proof.
  split.
  - by apply (bool_decide_eq_true_1 _).
  - intros []; vm_compute; by split.
  - by split.
  - left. by vm_compute.
Qed.

#[local] Existing Instance layout_ok.

Lemma boot_log : log_ok (pv := pv) [] [] at_boot.
Proof.
  split; try done.
  - split; [by repeat constructor; set_solver +|intros p ->%list_elem_of_singleton; by vm_compute|].
    intros p q ->%list_elem_of_singleton ->%list_elem_of_singleton. done.
  - split; left; by vm_compute.
  - intros c d Hin. by apply not_elem_of_nil in Hin.
  - intros c Hin. by apply not_elem_of_nil in Hin.
  - by left.
  - by right.
Qed.

Definition boot_view : view := mk_view blank [] [].

Lemma boot_displays : displays (pv := pv) at_boot boot_view.
Proof. destruct blank_ok as [H1 H2]. split; [done|done|by vm_compute..]. Qed.

Lemma boot_objects : static_objects colour BRIGHT_YELLOW at_boot.
Proof.
  split.
  - right. split; [done|]. split; [by vm_compute|]. split; [|by vm_compute]. split; [by vm_compute|]. split; [|by vm_compute].
    intros i Hi. apply Z.eqb_neq.
    assert (forallb (λ i, negb (rd8 memory (colour + i) =? 0)) (seqZ 0 (Z.of_nat (length BRIGHT_YELLOW))) = true) as Hb
      by (vm_compute; reflexivity).
    apply (forallb_seqZ _ _ _ i) in Hb; [|lia]. by apply negb_true_iff in Hb.
  - left. split; [left|right]; by vm_compute.
  - split; vm_compute; reflexivity.
  - by split.
  - split; split; first [left; vm_compute; discriminate|right; vm_compute; discriminate].
  - split; [by apply (bool_decide_eq_true_1 _)|..]; intros *; rewrite !elem_of_cons, !elem_of_nil; unfold con_list_offset; cbn; lia.
  - intros p. rewrite !elem_of_cons, elem_of_nil. unfold off, con_list_offset, colour.
    change (Z.of_nat (length BRIGHT_YELLOW)) with 7. cbn. lia.
Qed.

Lemma consoles_start_witness :
  log_ok (pv := pv) [] [] at_boot ∧ displays (pv := pv) at_boot boot_view ∧ static_objects colour BRIGHT_YELLOW at_boot ∧
  ∃ s', (porte9_init colour ;; vgacon_init) at_boot = Done tt s' ∧
    log_ok (pv := pv) [(porte9_con, DebugPort); (vgacon_con, Screen)] BRIGHT_YELLOW s' ∧
    displays (pv := pv) s' boot_view ∧ same_control (with_prefix colour at_boot) s'.
Proof.
  split; [exact boot_log|]. split; [exact boot_displays|]. split; [exact boot_objects|].
  exact (consoles_start (pv := pv) colour BRIGHT_YELLOW at_boot boot_view boot_log boot_displays boot_objects).
Defined.

(** The state behind the start. *)
Definition started : kstate ports := final_state ((porte9_init colour ;; vgacon_init) at_boot).

Lemma started_log : log_ok (pv := pv) [(porte9_con, DebugPort); (vgacon_con, Screen)] BRIGHT_YELLOW started ∧
  displays (pv := pv) started boot_view.
Proof.
  destruct (start_spec (pv := pv) colour BRIGHT_YELLOW at_boot boot_view
    boot_log boot_displays boot_objects) as (s' & Hr & Hok & Hd & _).
  unfold started. by rewrite Hr.
Qed.

(** [pr_info("up %d\n", 42)] at 2 s: every console has it. *)
Lemma vprintk_correct_witness :
  log_ok (pv := pv) [(porte9_con, DebugPort); (vgacon_con, Screen)] BRIGHT_YELLOW started ∧
  displays (pv := pv) started boot_view ∧
  (if k_lock started then ∃ s', vprintk Hypervisor 6 (text "up %d" ++ [10]) [42] started = OutOfFuel s'
   else if loglevel started <? (if 6 =? LOGLEVEL_CONT then curlevel started else 6) then
     vprintk Hypervisor 6 (text "up %d" ++ [10]) [42] started = Done 0 started
   else
     ∃ line s', vprintk Hypervisor 6 (text "up %d" ++ [10]) [42] started = Done (Z.of_nat (length line)) s' ∧
       line_text Hypervisor 6 (text "up %d" ++ [10]) [42] (k_mem started) line ∧
       log_ok (pv := pv) [(porte9_con, DebugPort); (vgacon_con, Screen)] BRIGHT_YELLOW s' ∧
       displays (pv := pv) s' (foldl (driver_shows BRIGHT_YELLOW line) boot_view
         [(porte9_con, DebugPort); (vgacon_con, Screen)]) ∧ log_step started s') ∧
  p_e9 (pv (m_hw (k_mach (final_state (vprintk Hypervisor 6 (text "up %d" ++ [10]) [42] started))))) =
    BRIGHT_YELLOW ++ text "[    2.000000] up 42" ++ [10] ++ END_COLOR.
Proof.
  destruct started_log as [H1 H2]. split; [exact H1|]. split; [exact H2|]. split; [|vm_compute; reflexivity].
  exact (vprintk_correct (pv := pv) _ _ Hypervisor 6 (text "up %d" ++ [10]) [42] started boot_view
    H1 H2 eq_refl).
Defined.
End LogDemo.
