(* ===== verification/Cpu.v ===== *)
(** Processor identification: [kernel/cpu.c] and the feature test of
    [include/asm/cpufeature.h]. *)

From S2P Require Import Prelude Bitops Mem CString Ctype Vmcs Machine Tsc.
#[local] Open Scope Z_scope.
#[local] Open Scope cint_scope.

(** ** [enum cpuid_leafs] *)
Definition CPUID_1_EDX : Z := 0.
Definition CPUID_8000_0001_EDX : Z := 1.
Definition CPUID_8086_0001_EDX : Z := 2.
Definition CPUID_LNX_1 : Z := 3.
Definition CPUID_1_ECX : Z := 4.
Definition CPUID_C000_0001_EDX : Z := 5.
Definition CPUID_8000_0001_ECX : Z := 6.
Definition CPUID_LNX_2 : Z := 7.
Definition CPUID_LNX_3 : Z := 8.
Definition CPUID_7_0_EBX : Z := 9.
Definition CPUID_D_1_EAX : Z := 10.
Definition CPUID_F_0_EDX : Z := 11.
Definition CPUID_F_1_EDX : Z := 12.
Definition CPUID_8000_0008_EBX : Z := 13.
Definition CPUID_6_EAX : Z := 14.
Definition CPUID_8000_000A_EDX : Z := 15.
Definition CPUID_7_ECX : Z := 16.
Definition CPUID_8000_0007_EBX : Z := 17.

Definition X86_FEATURE_APIC : Z := 0 * 32 + 9.
Definition X86_FEATURE_VMX : Z := 4 * 32 + 5.
Definition X86_FEATURE_X2APIC : Z := 4 * 32 + 21.
Definition X86_FEATURE_HYPERVISOR : Z := 4 * 32 + 31.
Definition X86_FEATURE_CQM_LLC : Z := 11 * 32 + 1.

(** An array of [uint32_t] read as an array of [unsigned long]. *)
Fixpoint words64 (l : list Z) : list Z :=
  match l with
  | a :: b :: l => (a ||| (b <<< 32)) :: words64 l
  | l => l
  end.

(** Every caller passes a constant, so [test_bit] is [constant_test_bit]. *)
Definition cpu_has (c : cpuinfo_x86) (bit : Z) : bool :=
  constant_test_bit bit (words64 (x86_capability c)).

(** ** Field updates *)

Definition set_x86 (fam model mask : Z) (c : cpuinfo_x86) : cpuinfo_x86 :=
  {| x86 := fam; x86_vendor := x86_vendor c; x86_model := model; x86_mask := mask;
     extended_cpuid_level := extended_cpuid_level c; cpuid_level := cpuid_level c;
     x86_capability := x86_capability c; x86_vendor_id := x86_vendor_id c;
     x86_model_id := x86_model_id c |}.
Definition set_vendor (v : Z) (c : cpuinfo_x86) : cpuinfo_x86 :=
  {| x86 := x86 c; x86_vendor := v; x86_model := x86_model c; x86_mask := x86_mask c;
     extended_cpuid_level := extended_cpuid_level c; cpuid_level := cpuid_level c;
     x86_capability := x86_capability c; x86_vendor_id := x86_vendor_id c;
     x86_model_id := x86_model_id c |}.
Definition set_levels (lvl ext : Z) (c : cpuinfo_x86) : cpuinfo_x86 :=
  {| x86 := x86 c; x86_vendor := x86_vendor c; x86_model := x86_model c; x86_mask := x86_mask c;
     extended_cpuid_level := ext; cpuid_level := lvl;
     x86_capability := x86_capability c; x86_vendor_id := x86_vendor_id c;
     x86_model_id := x86_model_id c |}.
Definition set_caps (l : list Z) (c : cpuinfo_x86) : cpuinfo_x86 :=
  {| x86 := x86 c; x86_vendor := x86_vendor c; x86_model := x86_model c; x86_mask := x86_mask c;
     extended_cpuid_level := extended_cpuid_level c; cpuid_level := cpuid_level c;
     x86_capability := l; x86_vendor_id := x86_vendor_id c; x86_model_id := x86_model_id c |}.
Definition set_ids (v m : list Z) (c : cpuinfo_x86) : cpuinfo_x86 :=
  {| x86 := x86 c; x86_vendor := x86_vendor c; x86_model := x86_model c; x86_mask := x86_mask c;
     extended_cpuid_level := extended_cpuid_level c; cpuid_level := cpuid_level c;
     x86_capability := x86_capability c; x86_vendor_id := v; x86_model_id := m |}.

(** Store the bytes [bs] in the array [l] from index [off] on. *)
Fixpoint store_bytes (l : list Z) (off : Z) (bs : list Z) : list Z :=
  match bs with [] => l | b :: bs => store_bytes (aset l off b) (off + 1) bs end.

Definition store32 (l : list Z) (off v : Z) : list Z := store_bytes l off (le_split 4 v).

(** ** The signature of CPUID leaf 1 *)

Definition x86_family (sig : Z) : Z :=
  let x86 := (sig >>> 8) &&& 0xf in
  if x86 =? 0xf then x86 + ((sig >>> 20) &&& 0xff) else x86.

Definition x86_model_of (sig : Z) : Z :=
  let fam := x86_family sig in
  let model := (sig >>> 4) &&& 0xf in
  if 0x6 <=? fam then model + (((sig >>> 16) &&& 0xf) <<< 4) else model.

Definition x86_stepping (sig : Z) : Z := sig &&& 0xf.

(** ** Vendors *)

(** [cpu_devs]: the only identification string of each entry (the second is null) and
    the vendor. *)
Definition cpu_devs : list (list Z * Z) :=
  [ ([71; 101; 110; 117; 105; 110; 101; 73; 110; 116; 101; 108; 0], X86_VENDOR_INTEL);
    ([65; 117; 116; 104; 101; 110; 116; 105; 99; 65; 77; 68; 0], X86_VENDOR_AMD) ].

(** [!strcmp(v, ident)], the arrays laid out at distinct addresses.  An identification
    string is at most 12 characters long, so 13 comparisons decide. *)
Definition ident_matches (v ident : list Z) : bool :=
  bool_decide (strcmp 13 (wr_bytes (mem_of 0 v) 4096 ident) 0 4096 = Some 0).

Fixpoint find_vendor (v : list Z) (devs : list (list Z * Z)) : option Z :=
  match devs with
  | [] => None
  | (ident, vendor) :: devs => if ident_matches v ident then Some vendor else find_vendor v devs
  end.

(** ** The model name *)

(** [while (star p == ' ') p++], from index [p]. *)
Fixpoint skip_spaces (fuel : nat) (l : list Z) (p : Z) : Z :=
  match fuel with
  | O => p
  | S fuel => if aget l p =? 32 then skip_spaces fuel l (p + 1) else p
  end.

(** The compacting loop, on the array and the indices [p], [q] and [s]. *)
Fixpoint trim_loop (fuel : nat) (l : list Z) (p q s : Z) : list Z * Z :=
  match fuel with
  | O => (l, s)
  | S fuel =>
      let c := aget l p in
      if c =? 0 then (l, s)
      else
        let s := if isspace c then s else q in
        trim_loop fuel (aset l q c) (p + 1) (q + 1) s
  end.

Definition trim_model_id (l : list Z) : list Z :=
  let p := skip_spaces 64 l 0 in
  let '(l, s) := trim_loop 64 l p 0 0 in
  aset l (s + 1) 0.

Section cpu.
Context {hw : Type} `{Hardware hw}.

Definition update_cpu (f : cpuinfo_x86 → cpuinfo_x86) : M (machine hw) unit :=
  modify (λ s, set_cpu (f (m_cpu s)) s).

Definition this_cpu_has (bit : Z) : M (machine hw) bool := gets (λ s, cpu_has (m_cpu s) bit).

Definition cpuid_eax (op : Z) : M (machine hw) Z := '(a, b, c, d) ← cpuid op; mret a.
Definition cpuid_ebx (op : Z) : M (machine hw) Z := '(a, b, c, d) ← cpuid op; mret b.
Definition cpuid_ecx (op : Z) : M (machine hw) Z := '(a, b, c, d) ← cpuid op; mret c.
Definition cpuid_edx (op : Z) : M (machine hw) Z := '(a, b, c, d) ← cpuid op; mret d.

Definition cpu_detect : M (machine hw) unit :=
  '(level, b, c, d) ← cpuid 0x00000000;
  update_cpu (λ i,
    set_levels level (extended_cpuid_level i)
      (set_ids (store32 (store32 (store32 (x86_vendor_id i) 0 b) 8 c) 4 d) (x86_model_id i) i)) ;;
  update_cpu (λ i, set_x86 4 (x86_model i) (x86_mask i) i) ;;
  when (0x00000001 <=? s32 level)
    ('(tfms, misc, junk, cap0) ← cpuid 0x00000001;
     update_cpu (set_x86 (u8 (x86_family tfms)) (u8 (x86_model_of tfms)) (u8 (x86_stepping tfms)))).

Definition get_cpu_vendor : M (machine hw) unit :=
  i ← gets m_cpu;
  match find_vendor (x86_vendor_id i) cpu_devs with
  | Some vendor => update_cpu (set_vendor vendor)
  | None =>
      printk "cpu: vendor_id '%.12s' unknown" [Buf (x86_vendor_id i)] ;;
      update_cpu (set_vendor X86_VENDOR_UNKNOWN)
  end.

Definition set_capability (i v : Z) : M (machine hw) unit :=
  update_cpu (λ c, set_caps (aset (x86_capability c) i v) c).

(** The comparisons on [c->cpuid_level] are signed, those on
    [c->extended_cpuid_level] unsigned. *)
Definition get_cpu_cap : M (machine hw) unit :=
  i ← gets m_cpu;
  let level := s32 (cpuid_level i) in
  when (0x00000001 <=? level)
    ('(eax, ebx, ecx, edx) ← cpuid 0x00000001;
     set_capability CPUID_1_ECX ecx ;;
     set_capability CPUID_1_EDX edx) ;;
  when (0x00000006 <=? level)
    (eax ← cpuid_eax 0x00000006; set_capability CPUID_6_EAX eax) ;;
  when (0x00000007 <=? level)
    ('(eax, ebx, ecx, edx) ← cpuid_count 0x00000007 0;
     set_capability CPUID_7_0_EBX ebx ;;
     set_capability CPUID_7_ECX ecx) ;;
  when (0x0000000d <=? level)
    ('(eax, ebx, ecx, edx) ← cpuid_count 0x0000000d 1;
     set_capability CPUID_D_1_EAX eax) ;;
  when (0x0000000f <=? level)
    ('(eax, ebx, ecx, edx) ← cpuid_count 0x0000000f 0;
     set_capability CPUID_F_0_EDX edx ;;
     llc ← this_cpu_has X86_FEATURE_CQM_LLC;
     when llc
       ('(eax, ebx, ecx, edx) ← cpuid_count 0x0000000f 1;
        set_capability CPUID_F_1_EDX edx)) ;;
  eax ← cpuid_eax 0x80000000;
  update_cpu (λ c, set_levels (cpuid_level c) eax c) ;;
  when ((eax &&& 0xffff0000) =? 0x80000000)
    (when (0x80000001 <=? eax)
       ('(eax, ebx, ecx, edx) ← cpuid 0x80000001;
        set_capability CPUID_8000_0001_ECX ecx ;;
        set_capability CPUID_8000_0001_EDX edx)) ;;
  c ← gets m_cpu;
  let ext := extended_cpuid_level c in
  when (0x80000007 <=? ext)
    (ebx ← cpuid_ebx 0x80000007; set_capability CPUID_8000_0007_EBX ebx) ;;
  when (0x80000008 <=? ext)
    (ebx ← cpuid_ebx 0x80000008; set_capability CPUID_8000_0008_EBX ebx) ;;
  when (0x8000000a <=? ext)
    (edx ← cpuid_edx 0x8000000a; set_capability CPUID_8000_000A_EDX edx).

Definition get_model_name : M (machine hw) unit :=
  c ← gets m_cpu;
  if extended_cpuid_level c <? 0x80000004 then mret tt
  else
    '(a0, b0, c0, d0) ← cpuid 0x80000002;
    '(a1, b1, c1, d1) ← cpuid 0x80000003;
    '(a2, b2, c2, d2) ← cpuid 0x80000004;
    let v := foldl (λ l p, store32 l p.1 p.2) (x86_model_id c)
      [(0, a0); (4, b0); (8, c0); (12, d0); (16, a1); (20, b1); (24, c1); (28, d1);
       (32, a2); (36, b2); (40, c2); (44, d2)] in
    let v := aset v 48 0 in
    update_cpu (λ c, set_ids (x86_vendor_id c) (trim_model_id v) c).

Definition cpu_init : M (machine hw) unit :=
  cpu_detect ;; get_cpu_vendor ;; get_cpu_cap ;; get_model_name.
End cpu.

(** ** The feature words *)

Definition caps_ok (l : list Z) : Prop := Forall (λ w, 0 ≤ w < 2 ^ 32) l.

Lemma caps_ok_aget l i : caps_ok l → 0 ≤ aget l i < 2 ^ 32.
Proof.
  intros Hl. unfold aget. case_match; [lia|].
  destruct (l !! Z.to_nat i) eqn:E; simpl; [|lia].
  by apply (Forall_lookup_1 _ _ _ _ Hl E).
Qed.

Lemma caps_ok_aset l i v : caps_ok l → 0 ≤ v < 2 ^ 32 → caps_ok (aset l i v).
Proof. intros Hl Hv. unfold aset. case_match; [done|]. by apply Forall_insert. Qed.

Lemma aget_words64 n l i :
  (length l ≤ n)%nat → caps_ok l → 0 ≤ i →
  aget (words64 l) i = aget l (2 * i) ||| (aget l (2 * i + 1) <<< 32).
Proof.
  revert l i. induction n as [|n IH]; intros [|a [|b l]] i Hn Hl Hi; cbn [length] in Hn; try lia;
    cbn [words64]; try (rewrite !aget_nil; done).
  all: destruct (decide (i = 0)) as [->|].
  - by rewrite Z.mul_0_r, Z.add_0_l, aget_cons_0, aget_cons, aget_nil, Z.shiftl_0_l, Z.lor_0_r by lia.
  - rewrite !aget_cons, !aget_nil by lia. done.
  - by rewrite Z.mul_0_r, Z.add_0_l, !aget_cons_0, aget_cons, aget_cons_0 by lia.
  - rewrite !(aget_cons _ _ i), !(aget_cons a), !(aget_cons b) by lia. rewrite IH; [|lia| |lia].
    + do 2 f_equal; f_equal; lia.
    + by do 2 apply Forall_inv_tail in Hl.
Qed.

(** Reading the array of 32-bit words by [unsigned long]s finds the bit of the word. *)
Lemma cpu_has_word c bit :
  caps_ok (x86_capability c) → 0 ≤ bit →
  cpu_has c bit = Z.testbit (aget (x86_capability c) (bit / 32)) (bit mod 32).
Proof.
  intros Hc Hb. unfold cpu_has. rewrite constant_test_bit_spec by done.
  unfold bitmap_bit. rewrite (aget_words64 (length (x86_capability c))) by (done || divlia).
  rewrite Z.lor_spec, Z.shiftl_spec by divlia.
  destruct (Z.ltb_spec (bit mod 64) 32).
  - rewrite (Z.testbit_neg_r _ (bit mod 64 - 32)), orb_false_r by lia.
    f_equal; [f_equal|]; divlia.
  - rewrite (testbit_high 32) by (try apply caps_ok_aget; done || lia). rewrite orb_false_l.
    f_equal; [f_equal|]; divlia.
Qed.

Section features.
Context {hw : Type} `{Hardware hw}.
Implicit Types s : machine hw.

(** The words of leaf 1 hold [ecx] and [edx]; the processor answers as it did. *)
Definition leaf1_known (h : hw) (ecx edx : Z) (s : machine hw) : Prop :=
  m_hw s = h ∧ caps_ok (x86_capability (m_cpu s)) ∧ length (x86_capability (m_cpu s)) = 19%nat ∧
  aget (x86_capability (m_cpu s)) CPUID_1_ECX = ecx ∧
  aget (x86_capability (m_cpu s)) CPUID_1_EDX = edx.

Lemma keeps_set_capability h ecx edx i v :
  0 ≤ v < 2 ^ 32 → 0 ≤ i → i ≠ CPUID_1_ECX → i ≠ CPUID_1_EDX →
  keeps (leaf1_known h ecx edx) (set_capability i v).
Proof.
  intros Hv Hi H1 H2. apply keeps_modify. intros s (Hh & Hc & Hl & He & Hd).
  split_and!; cbn [m_hw m_cpu set_cpu x86_capability set_caps].
  - done.
  - by apply caps_ok_aset.
  - by rewrite aset_length.
  - by rewrite aget_aset_ne.
  - by rewrite aget_aset_ne.
Qed.

(** [CPUID] leaves the machine as it is and answers with four 32-bit words. *)
Lemma triple_cpuid (I : machine hw → Prop) eax ecx :
  triple I (native_cpuid eax ecx) (λ r s, I s ∧ 0 ≤ r.1.1.1 < 2 ^ 32 ∧ 0 ≤ r.1.1.2 < 2 ^ 32 ∧
    0 ≤ r.1.2 < 2 ^ 32 ∧ 0 ≤ r.2 < 2 ^ 32).
Proof.
  intros s Hs. unfold native_cpuid, gets. destruct (hw_cpuid _ _ _) as [[[a b] c] d].
  eexists _, _. split; [reflexivity|]. split; [done|]. by split_and!; apply wrap_bound.
Qed.

Lemma keeps_cpuid_bind {A} (I : machine hw → Prop) eax ecx (f : Z * Z * Z * Z → M (machine hw) A) :
  (∀ a b c d, 0 ≤ a < 2 ^ 32 → 0 ≤ b < 2 ^ 32 → 0 ≤ c < 2 ^ 32 → 0 ≤ d < 2 ^ 32 →
     keeps I (f (a, b, c, d))) →
  keeps I (native_cpuid eax ecx ≫= f).
Proof.
  intros Hf. eapply triple_bind; [apply triple_cpuid|]. intros [[[a b] c] d] s (Hs & ? & ? & ? & ?).
  by apply Hf.
Qed.

Ltac cpu_keeping :=
  repeat first
    [ apply keeps_ret
    | apply keeps_gets
    | apply keeps_when; intros ?
    | apply keeps_cpuid_bind; intros
    | apply keeps_ret_bind
    | apply keeps_bind_assoc
    | (apply keeps_set_capability; [done|done|vm_compute; discriminate..])
    | (apply keeps_modify; intros ? (? & ? & ? & ? & ?); split_and!; done)
    | apply keeps_bind; [|intros ?] ].

(** After [get_cpu_cap], on a processor that has leaf 1, the feature bits of the two
    words of leaf 1 are the bits [CPUID] reports, whatever the later leaves hold: so
    [this_cpu_has(X86_FEATURE_VMX)] is bit 5 of [ECX], and so on.  The routine
    returns and leaves the processor alone. *)
Theorem get_cpu_cap_correct s k a b c d :
  caps_ok (x86_capability (m_cpu s)) → length (x86_capability (m_cpu s)) = 19%nat →
  1 ≤ s32 (cpuid_level (m_cpu s)) → hw_cpuid (m_hw s) 1 0 = (a, b, c, d) → 0 ≤ k < 32 →
  ∃ s', get_cpu_cap s = Done tt s' ∧ m_hw s' = m_hw s ∧
    cpu_has (m_cpu s') (4 * 32 + k) = Z.testbit c k ∧
    cpu_has (m_cpu s') (0 * 32 + k) = Z.testbit d k.
Proof.
  intros Hc Hlen Hlvl Hid Hk. unfold get_cpu_cap. erewrite bind_done by reflexivity.
  rewrite (proj2 (Z.leb_le _ _) Hlvl).
  set (s1 := set_cpu (set_caps (aset (aset (x86_capability (m_cpu s)) CPUID_1_ECX (u32 c))
                                  CPUID_1_EDX (u32 d)) (m_cpu s)) s).
  assert (leaf1_known (m_hw s) (u32 c) (u32 d) s1) as H1.
  { split_and!; unfold s1; cbn [m_hw m_cpu set_cpu x86_capability set_caps].
    - done.
    - apply caps_ok_aset; [apply caps_ok_aset; [done|]|]; by apply wrap_bound.
    - by rewrite !aset_length.
    - rewrite aget_aset_ne by done. apply aget_aset_eq. rewrite Hlen. done.
    - apply aget_aset_eq. rewrite aset_length, Hlen. done. }
  assert (cpuid 1 s = Done (u32 a, u32 b, u32 c, u32 d) s) as H0.
  { unfold cpuid, native_cpuid, gets. change (u32 1) with 1. change (u32 0) with 0. by rewrite Hid. }
  rewrite (bind_done _ _ s tt s1); [|cbn [when]; by rewrite (bind_done _ _ _ _ _ H0)].
  match goal with |- ∃ s', ?m s1 = _ ∧ _ =>
    assert (keeps (leaf1_known (m_hw s) (u32 c) (u32 d)) m) as Hkeep end.
  { unfold cpuid_eax, cpuid_ebx, cpuid_edx, cpuid, cpuid_count, this_cpu_has, update_cpu.
    cpu_keeping. }
  destruct (Hkeep s1 H1) as ([] & s' & Hr & Hh & Hc' & Hl' & He & Hd).
  exists s'. split; [done|]. split; [done|].
  rewrite !cpu_has_word by (done || lia).
  replace ((4 * 32 + k) / 32) with CPUID_1_ECX by (unfold CPUID_1_ECX; divlia).
  replace ((0 * 32 + k) / 32) with CPUID_1_EDX by (unfold CPUID_1_EDX; divlia).
  replace ((4 * 32 + k) mod 32) with k by divlia. replace ((0 * 32 + k) mod 32) with k by divlia.
  rewrite He, Hd, !testbit_wrap by lia.
  by replace (0 <=? k) with true by lia; replace (k <? 32) with true by lia; rewrite !andb_true_r.
Qed.
End features.

Lemma get_cpu_cap_correct_witness :
  let s := set_cpu (set_levels 1 0 (m_cpu Concrete.boot)) Concrete.boot in
  ∃ s', @get_cpu_cap _ Concrete.cpu_hardware s = Done tt s' ∧ m_hw s' = m_hw s ∧
    cpu_has (m_cpu s') (4 * 32 + 5) = Z.testbit 0 5 ∧ cpu_has (m_cpu s') (0 * 32 + 5) = Z.testbit 0 5.
Proof.
  apply (get_cpu_cap_correct (set_cpu (set_levels 1 0 (m_cpu Concrete.boot)) Concrete.boot) 5 0 0 0 0).
  - repeat constructor; cbn; lia.
  - reflexivity.
  - vm_compute. discriminate.
  - reflexivity.
  - lia.
Defined.

(** ** The model name *)

Lemma skip_spaces_spec fuel l p n :
  0 ≤ p ≤ n → n - p < Z.of_nat fuel → aget l n ≠ 32 →
  let r := skip_spaces fuel l p in
  p ≤ r ≤ n ∧ (∀ i, p ≤ i < r → aget l i = 32) ∧ aget l r ≠ 32.
Proof.
  revert p. induction fuel as [|fuel IH]; intros p Hp Hf Hn; cbn [skip_spaces]; [lia|].
  destruct (Z.eqb_spec (aget l p) 32) as [E|E]; [|split_and!; lia || done].
  assert (p ≠ n) by congruence. destruct (IH (p + 1)) as (H1 & H2 & H3); [lia|lia|done|].
  split_and!; [lia|lia| |done]. intros i Hi. destruct (decide (i = p)) as [->|]; [done|]. apply H2. lia.
Qed.

Section trim.
Context (l : list Z) (p0 n : Z) (Hlen : length l = 64%nat).
Context (Hp0 : 0 ≤ p0 ≤ n) (Hn : n < 64) (Hnul : aget l n = 0).
Context (Hnz : ∀ i, 0 ≤ i < n → aget l i ≠ 0).

(** [q] characters have been moved down by [p0]; [s] is the last of them that is not
    white space (0 if there is none). *)
Definition trimmed (l' : list Z) (q s : Z) : Prop :=
  length l' = 64%nat ∧ 0 ≤ q ≤ n - p0 ∧ (∀ i, 0 ≤ i < q → aget l' i = aget l (p0 + i)) ∧
  (∀ i, p0 + q ≤ i → aget l' i = aget l i) ∧ 0 ≤ s ∧ (s = 0 ∨ s < q) ∧
  (∀ i, s < i < q → isspace (aget l (p0 + i)) = true) ∧
  (0 < s → isspace (aget l (p0 + s)) = false).

Lemma trim_loop_spec fuel l' q s :
  trimmed l' q s → n - p0 - q < Z.of_nat fuel →
  let '(l'', s') := trim_loop fuel l' (p0 + q) q s in trimmed l'' (n - p0) s'.
Proof.
  revert l' q s. induction fuel as [|fuel IH];
    intros l' q s (Hl & Hq & Hm & Ht & Hs & Hsq & Hsp & Hns) Hf; cbn [trim_loop]; [lia|].
  rewrite Ht by lia. destruct (Z.eqb_spec (aget l (p0 + q)) 0) as [E|E].
  - assert (q = n - p0) as ->; [|unfold trimmed; split_and!; done || lia].
    destruct (decide (q = n - p0)); [done|]. destruct (Hnz (p0 + q)); [lia|done].
  - assert (p0 + q ≠ n) by (intros E'; by rewrite E' in E).
    rewrite <- Z.add_assoc. apply IH; [|lia]. split_and!; try lia.
    + by rewrite aset_length.
    + intros i Hi. destruct (decide (i = q)) as [->|].
      * apply aget_aset_eq. lia.
      * rewrite aget_aset_ne by lia. apply Hm. lia.
    + intros i Hi. rewrite aget_aset_ne by lia. apply Ht. lia.
    + destruct (isspace (aget l (p0 + q))); lia.
    + destruct (isspace (aget l (p0 + q))); lia.
    + intros i Hi. destruct (isspace (aget l (p0 + q))) eqn:Eq; [|lia].
      destruct (decide (i = q)) as [->|]; [done|]. apply Hsp. lia.
    + destruct (isspace (aget l (p0 + q))) eqn:Eq; [done|]. done.
Qed.
End trim.

(** The processor's name is trimmed on both sides.  [l] holds a string of [n]
    characters that are not all spaces; the array [get_model_name] leaves holds the
    string of [e] characters that starts after the leading spaces and ends with the last
    character that is not white space. *)
Theorem trim_model_id_correct l n :
  length l = 64%nat → 0 ≤ n < 64 → aget l n = 0 → (∀ i, 0 ≤ i < n → aget l i ≠ 0) →
  (∃ i, 0 ≤ i < n ∧ aget l i ≠ 32) →
  let r := trim_model_id l in
  ∃ p e, 0 ≤ p ∧ 0 < e ∧ p + e ≤ n ∧
    (∀ i, 0 ≤ i < p → aget l i = 32) ∧ aget l p ≠ 32 ∧
    (∀ i, 0 ≤ i < e → aget r i = aget l (p + i)) ∧ aget r e = 0 ∧
    (∀ i, p + e ≤ i < n → isspace (aget l i) = true) ∧
    (1 < e → isspace (aget l (p + e - 1)) = false).
Proof.
  intros Hl Hn Hnul Hnz (j & Hj & Hj32). unfold trim_model_id.
  destruct (skip_spaces_spec 64 l 0 n) as (Hp1 & Hp2 & Hp3); [lia|lia|by rewrite Hnul|].
  set (p0 := skip_spaces 64 l 0) in *.
  assert (p0 < n).
  { destruct (decide (p0 = n)) as [E|]; [|lia]. destruct Hj32. apply Hp2. lia. }
  pose proof (trim_loop_spec l p0 n Hl ltac:(lia) ltac:(lia) Hnul Hnz 64 l 0 0) as Hsp.
  rewrite Z.add_0_r in Hsp.
  destruct (trim_loop 64 l p0 0 0) as [l' s].
  destruct Hsp as (Hl' & _ & Hm & _ & Hs & Hsq & Hspc & Hns); [|lia|].
  { split_and!; try lia; try done. }
  exists p0, (s + 1). split_and!; try lia; try done.
  - intros i Hi. rewrite aget_aset_ne by lia. apply Hm. lia.
  - apply aget_aset_eq. lia.
  - intros i Hi. replace i with (p0 + (i - p0)) by lia. apply Hspc. lia.
  - intros ?. replace (p0 + (s + 1) - 1) with (p0 + s) by lia. apply Hns. lia.
Qed.

(** "  Intel CPU  ". *)
Lemma trim_model_id_correct_witness :
  let l := [32; 32; 73; 110; 116; 101; 108; 32; 67; 80; 85; 32; 32] ++ replicate 51 0 in
  let r := trim_model_id l in
  ∃ p e, 0 ≤ p ∧ 0 < e ∧ p + e ≤ 13 ∧
    (∀ i, 0 ≤ i < p → aget l i = 32) ∧ aget l p ≠ 32 ∧
    (∀ i, 0 ≤ i < e → aget r i = aget l (p + i)) ∧ aget r e = 0 ∧
    (∀ i, p + e ≤ i < 13 → isspace (aget l i) = true) ∧
    (1 < e → isspace (aget l (p + e - 1)) = false).
Proof.
  apply trim_model_id_correct; [reflexivity|lia|reflexivity| |exists 2; split; [lia|discriminate]].
  intros i Hi.
  apply Z.eqb_neq, negb_true_iff.
  apply (forallb_seqZ (λ i, negb (aget ([32; 32; 73; 110; 116; 101; 108; 32; 67; 80; 85; 32; 32] ++
    replicate 51 0) i =? 0)) 0 13 i eq_refl). lia.
Defined.
