(* ===== verification/Features.v ===== *)
(** The features of the processor by name: the numbers of [include/asm/cpufeatures.h] and the two
    tables of [kernel/capflags.c], which are written out from them.

    A number is a bit of a word of [x86_capability], the array that [get_cpu_cap] of Cpu fills.
    The name to show is the one of the macro in small letters, unless the comment behind the
    definition begins with a quoted string; the string "" says that the feature has no name. *)

From S2P Require Import Prelude Bitops Ctype Machine Cpu.
#[local] Open Scope string_scope.
#[local] Open Scope Z_scope.
#[local] Open Scope cint_scope.

Definition NCAPINTS : Z := 18.
Definition NBUGINTS : Z := 1.
Definition X86_BUG (x : Z) : Z := NCAPINTS * 32 + x.

(** ** The features, word by word *)

Record feature : Type := mk_feature { f_macro : string; f_bit : Z; f_quoted : option string }.
Definition bit (m : string) (b : Z) : feature := mk_feature m b None.
Definition bit_as (m : string) (b : Z) (quoted : string) : feature := mk_feature m b (Some quoted).

Definition features_CPUID_1_EDX : list feature := [
  bit "FPU" 0; bit "VME" 1; bit "DE" 2; bit "PSE" 3; bit "TSC" 4; bit "MSR" 5; bit "PAE" 6; bit "MCE" 7;
  bit "CX8" 8; bit "APIC" 9; bit "SEP" 11; bit "MTRR" 12; bit "PGE" 13; bit "MCA" 14; bit "CMOV" 15;
  bit "PAT" 16; bit "PSE36" 17; bit "PN" 18; bit "CLFLUSH" 19; bit_as "DS" 21 "dts"; bit "ACPI" 22;
  bit "MMX" 23; bit "FXSR" 24; bit_as "XMM" 25 "sse"; bit_as "XMM2" 26 "sse2"; bit_as "SELFSNOOP" 27 "ss";
  bit "HT" 28; bit_as "ACC" 29 "tm"; bit "IA64" 30; bit "PBE" 31].

Definition features_CPUID_8000_0001_EDX : list feature := [
  bit "SYSCALL" 11; bit "MP" 19; bit "NX" 20; bit "MMXEXT" 22; bit "FXSR_OPT" 25;
  bit_as "GBPAGES" 26 "pdpe1gb"; bit "RDTSCP" 27; bit "LM" 29; bit "3DNOWEXT" 30; bit "3DNOW" 31].

Definition features_CPUID_8086_0001_EDX : list feature := [
  bit "RECOVERY" 0; bit "LONGRUN" 1; bit "LRTI" 3].

Definition features_CPUID_LNX_1 : list feature := [
  bit "CXMMX" 0; bit "K6_MTRR" 1; bit "CYRIX_ARR" 2; bit "CENTAUR_MCR" 3; bit_as "K8" 4 "";
  bit_as "K7" 5 ""; bit_as "P3" 6 ""; bit_as "P4" 7 ""; bit "CONSTANT_TSC" 8; bit "UP" 9; bit "ART" 10;
  bit "ARCH_PERFMON" 11; bit "PEBS" 12; bit "BTS" 13; bit_as "SYSCALL32" 14 ""; bit_as "SYSENTER32" 15 "";
  bit "REP_GOOD" 16; bit_as "MFENCE_RDTSC" 17 ""; bit_as "LFENCE_RDTSC" 18 ""; bit "ACC_POWER" 19;
  bit "NOPL" 20; bit_as "ALWAYS" 21 ""; bit "XTOPOLOGY" 22; bit "TSC_RELIABLE" 23; bit "NONSTOP_TSC" 24;
  bit "CPUID" 25; bit "EXTD_APICID" 26; bit "AMD_DCM" 27; bit "APERFMPERF" 28; bit "NONSTOP_TSC_S3" 30;
  bit "TSC_KNOWN_FREQ" 31].

Definition features_CPUID_1_ECX : list feature := [
  bit_as "XMM3" 0 "pni"; bit "PCLMULQDQ" 1; bit "DTES64" 2; bit_as "MWAIT" 3 "monitor";
  bit_as "DSCPL" 4 "ds_cpl"; bit "VMX" 5; bit "SMX" 6; bit "EST" 7; bit "TM2" 8; bit "SSSE3" 9;
  bit "CID" 10; bit "SDBG" 11; bit "FMA" 12; bit "CX16" 13; bit "XTPR" 14; bit "PDCM" 15; bit "PCID" 17;
  bit "DCA" 18; bit_as "XMM4_1" 19 "sse4_1"; bit_as "XMM4_2" 20 "sse4_2"; bit "X2APIC" 21; bit "MOVBE" 22;
  bit "POPCNT" 23; bit "TSC_DEADLINE_TIMER" 24; bit "AES" 25; bit "XSAVE" 26; bit_as "OSXSAVE" 27 "";
  bit "AVX" 28; bit "F16C" 29; bit "RDRAND" 30; bit "HYPERVISOR" 31].

Definition features_CPUID_C000_0001_EDX : list feature := [
  bit_as "XSTORE" 2 "rng"; bit_as "XSTORE_EN" 3 "rng_en"; bit_as "XCRYPT" 6 "ace";
  bit_as "XCRYPT_EN" 7 "ace_en"; bit "ACE2" 8; bit "ACE2_EN" 9; bit "PHE" 10; bit "PHE_EN" 11;
  bit "PMM" 12; bit "PMM_EN" 13].

Definition features_CPUID_8000_0001_ECX : list feature := [
  bit "LAHF_LM" 0; bit "CMP_LEGACY" 1; bit "SVM" 2; bit "EXTAPIC" 3; bit "CR8_LEGACY" 4; bit "ABM" 5;
  bit "SSE4A" 6; bit "MISALIGNSSE" 7; bit "3DNOWPREFETCH" 8; bit "OSVW" 9; bit "IBS" 10; bit "XOP" 11;
  bit "SKINIT" 12; bit "WDT" 13; bit "LWP" 15; bit "FMA4" 16; bit "TCE" 17; bit "NODEID_MSR" 19;
  bit "TBM" 21; bit "TOPOEXT" 22; bit "PERFCTR_CORE" 23; bit "PERFCTR_NB" 24; bit "BPEXT" 26;
  bit "PTSC" 27; bit "PERFCTR_L2" 28; bit "MWAITX" 29].

Definition features_CPUID_LNX_2 : list feature := [
  bit "RING3MWAIT" 0; bit "CPB" 2; bit "EPB" 3; bit "CAT_L3" 4; bit "CAT_L2" 5; bit "CDP_L3" 6;
  bit "HW_PSTATE" 8; bit "PROC_FEEDBACK" 9; bit "INTEL_PPIN" 14; bit "INTEL_PT" 15; bit "AVX512_4VNNIW" 16;
  bit "AVX512_4FMAPS" 17].

Definition features_CPUID_LNX_3 : list feature := [
  bit "TPR_SHADOW" 0; bit "VNMI" 1; bit "FLEXPRIORITY" 2; bit "EPT" 3; bit "VPID" 4; bit "VMMCALL" 15;
  bit_as "XENPV" 16 ""].

Definition features_CPUID_7_0_EBX : list feature := [
  bit "FSGSBASE" 0; bit "TSC_ADJUST" 1; bit "SGX" 2; bit "BMI1" 3; bit "HLE" 4; bit "AVX2" 5; bit "SMEP" 7;
  bit "BMI2" 8; bit "ERMS" 9; bit "INVPCID" 10; bit "RTM" 11; bit "CQM" 12; bit "MPX" 14; bit "RDT_A" 15;
  bit "AVX512F" 16; bit "AVX512DQ" 17; bit "RDSEED" 18; bit "ADX" 19; bit "SMAP" 20; bit "AVX512IFMA" 21;
  bit "CLFLUSHOPT" 23; bit "CLWB" 24; bit "AVX512PF" 26; bit "AVX512ER" 27; bit "AVX512CD" 28;
  bit "SHA_NI" 29; bit "AVX512BW" 30; bit "AVX512VL" 31].

Definition features_CPUID_D_1_EAX : list feature := [
  bit "XSAVEOPT" 0; bit "XSAVEC" 1; bit "XGETBV1" 2; bit "XSAVES" 3].

Definition features_CPUID_F_0_EDX : list feature := [
  bit "CQM_LLC" 1].

Definition features_CPUID_F_1_EDX : list feature := [
  bit "CQM_OCCUP_LLC" 0; bit "CQM_MBM_TOTAL" 1; bit "CQM_MBM_LOCAL" 2].

Definition features_CPUID_8000_0008_EBX : list feature := [
  bit "CLZERO" 0; bit "IRPERF" 1].

Definition features_CPUID_6_EAX : list feature := [
  bit "DTHERM" 0; bit "IDA" 1; bit "ARAT" 2; bit "PLN" 4; bit "PTS" 6; bit "HWP" 7; bit "HWP_NOTIFY" 8;
  bit "HWP_ACT_WINDOW" 9; bit "HWP_EPP" 10; bit "HWP_PKG_REQ" 11].

Definition features_CPUID_8000_000A_EDX : list feature := [
  bit "NPT" 0; bit "LBRV" 1; bit_as "SVML" 2 "svm_lock"; bit_as "NRIPS" 3 "nrip_save";
  bit_as "TSCRATEMSR" 4 "tsc_scale"; bit_as "VMCBCLEAN" 5 "vmcb_clean"; bit "FLUSHBYASID" 6;
  bit "DECODEASSISTS" 7; bit "PAUSEFILTER" 10; bit "PFTHRESHOLD" 12; bit "AVIC" 13].

Definition features_CPUID_7_ECX : list feature := [
  bit "AVX512VBMI" 1; bit "PKU" 3; bit "OSPKE" 4; bit "AVX512_VPOPCNTDQ" 14; bit "LA57" 16; bit "RDPID" 22].

Definition features_CPUID_8000_0007_EBX : list feature := [
  bit "OVERFLOW_RECOV" 0; bit "SUCCOR" 1; bit "SMCA" 3].

Definition features_bugs : list feature := [
  bit "F00F" 0; bit "FDIV" 1; bit "COMA" 2; bit_as "AMD_TLB_MMATCH" 3 "tlb_mmatch";
  bit_as "AMD_APIC_C1E" 4 "apic_c1e"; bit "11AP" 5; bit "FXSAVE_LEAK" 6; bit "CLFLUSH_MONITOR" 7;
  bit "SYSRET_SS_ATTRS" 8; bit "NULL_SEG" 10; bit "SWAPGS_FENCE" 11; bit "MONITOR" 12; bit "AMD_E400" 13].

(** A feature with its number. *)
Definition in_word (w : Z) (l : list feature) : list (Z * feature) := (λ f, (w * 32 + f_bit f, f)) <$> l.

Definition features : list (Z * feature) :=
  in_word CPUID_1_EDX features_CPUID_1_EDX ++
  in_word CPUID_8000_0001_EDX features_CPUID_8000_0001_EDX ++
  in_word CPUID_8086_0001_EDX features_CPUID_8086_0001_EDX ++
  in_word CPUID_LNX_1 features_CPUID_LNX_1 ++
  in_word CPUID_1_ECX features_CPUID_1_ECX ++
  in_word CPUID_C000_0001_EDX features_CPUID_C000_0001_EDX ++
  in_word CPUID_8000_0001_ECX features_CPUID_8000_0001_ECX ++
  in_word CPUID_LNX_2 features_CPUID_LNX_2 ++
  in_word CPUID_LNX_3 features_CPUID_LNX_3 ++
  in_word CPUID_7_0_EBX features_CPUID_7_0_EBX ++
  in_word CPUID_D_1_EAX features_CPUID_D_1_EAX ++
  in_word CPUID_F_0_EDX features_CPUID_F_0_EDX ++
  in_word CPUID_F_1_EDX features_CPUID_F_1_EDX ++
  in_word CPUID_8000_0008_EBX features_CPUID_8000_0008_EBX ++
  in_word CPUID_6_EAX features_CPUID_6_EAX ++
  in_word CPUID_8000_000A_EDX features_CPUID_8000_000A_EDX ++
  in_word CPUID_7_ECX features_CPUID_7_ECX ++
  in_word CPUID_8000_0007_EBX features_CPUID_8000_0007_EBX.
Definition bugs : list (Z * feature) := (λ f, (X86_BUG (f_bit f), f)) <$> features_bugs.

(** The macro of a name: [X86_FEATURE_FPU] is [number features "FPU"]. *)
Definition number (l : list (Z * feature)) (m : string) : option Z :=
  fst <$> List.find (λ p, String.eqb (f_macro p.2) m) l.

(** ** The tables *)

Definition cap_flags_words_0_5 : list (string * string) := [
  ("FPU", "fpu"); ("VME", "vme"); ("DE", "de"); ("PSE", "pse"); ("TSC", "tsc"); ("MSR", "msr");
  ("PAE", "pae"); ("MCE", "mce"); ("CX8", "cx8"); ("APIC", "apic"); ("SEP", "sep"); ("MTRR", "mtrr");
  ("PGE", "pge"); ("MCA", "mca"); ("CMOV", "cmov"); ("PAT", "pat"); ("PSE36", "pse36"); ("PN", "pn");
  ("CLFLUSH", "clflush"); ("DS", "dts"); ("ACPI", "acpi"); ("MMX", "mmx"); ("FXSR", "fxsr");
  ("XMM", "sse"); ("XMM2", "sse2"); ("SELFSNOOP", "ss"); ("HT", "ht"); ("ACC", "tm"); ("IA64", "ia64");
  ("PBE", "pbe"); ("SYSCALL", "syscall"); ("MP", "mp"); ("NX", "nx"); ("MMXEXT", "mmxext");
  ("FXSR_OPT", "fxsr_opt"); ("GBPAGES", "pdpe1gb"); ("RDTSCP", "rdtscp"); ("LM", "lm");
  ("3DNOWEXT", "3dnowext"); ("3DNOW", "3dnow"); ("RECOVERY", "recovery"); ("LONGRUN", "longrun");
  ("LRTI", "lrti"); ("CXMMX", "cxmmx"); ("K6_MTRR", "k6_mtrr"); ("CYRIX_ARR", "cyrix_arr");
  ("CENTAUR_MCR", "centaur_mcr"); ("CONSTANT_TSC", "constant_tsc"); ("UP", "up"); ("ART", "art");
  ("ARCH_PERFMON", "arch_perfmon"); ("PEBS", "pebs"); ("BTS", "bts"); ("REP_GOOD", "rep_good");
  ("ACC_POWER", "acc_power"); ("NOPL", "nopl"); ("XTOPOLOGY", "xtopology");
  ("TSC_RELIABLE", "tsc_reliable"); ("NONSTOP_TSC", "nonstop_tsc"); ("CPUID", "cpuid");
  ("EXTD_APICID", "extd_apicid"); ("AMD_DCM", "amd_dcm"); ("APERFMPERF", "aperfmperf");
  ("NONSTOP_TSC_S3", "nonstop_tsc_s3"); ("TSC_KNOWN_FREQ", "tsc_known_freq"); ("XMM3", "pni");
  ("PCLMULQDQ", "pclmulqdq"); ("DTES64", "dtes64"); ("MWAIT", "monitor"); ("DSCPL", "ds_cpl");
  ("VMX", "vmx"); ("SMX", "smx"); ("EST", "est"); ("TM2", "tm2"); ("SSSE3", "ssse3"); ("CID", "cid");
  ("SDBG", "sdbg"); ("FMA", "fma"); ("CX16", "cx16"); ("XTPR", "xtpr"); ("PDCM", "pdcm"); ("PCID", "pcid");
  ("DCA", "dca"); ("XMM4_1", "sse4_1"); ("XMM4_2", "sse4_2"); ("X2APIC", "x2apic"); ("MOVBE", "movbe");
  ("POPCNT", "popcnt"); ("TSC_DEADLINE_TIMER", "tsc_deadline_timer"); ("AES", "aes"); ("XSAVE", "xsave");
  ("AVX", "avx"); ("F16C", "f16c"); ("RDRAND", "rdrand"); ("HYPERVISOR", "hypervisor"); ("XSTORE", "rng");
  ("XSTORE_EN", "rng_en"); ("XCRYPT", "ace"); ("XCRYPT_EN", "ace_en"); ("ACE2", "ace2");
  ("ACE2_EN", "ace2_en"); ("PHE", "phe"); ("PHE_EN", "phe_en"); ("PMM", "pmm"); ("PMM_EN", "pmm_en")].

Definition cap_flags_words_6_17 : list (string * string) := [
  ("LAHF_LM", "lahf_lm"); ("CMP_LEGACY", "cmp_legacy"); ("SVM", "svm"); ("EXTAPIC", "extapic");
  ("CR8_LEGACY", "cr8_legacy"); ("ABM", "abm"); ("SSE4A", "sse4a"); ("MISALIGNSSE", "misalignsse");
  ("3DNOWPREFETCH", "3dnowprefetch"); ("OSVW", "osvw"); ("IBS", "ibs"); ("XOP", "xop");
  ("SKINIT", "skinit"); ("WDT", "wdt"); ("LWP", "lwp"); ("FMA4", "fma4"); ("TCE", "tce");
  ("NODEID_MSR", "nodeid_msr"); ("TBM", "tbm"); ("TOPOEXT", "topoext"); ("PERFCTR_CORE", "perfctr_core");
  ("PERFCTR_NB", "perfctr_nb"); ("BPEXT", "bpext"); ("PTSC", "ptsc"); ("PERFCTR_L2", "perfctr_l2");
  ("MWAITX", "mwaitx"); ("RING3MWAIT", "ring3mwait"); ("CPB", "cpb"); ("EPB", "epb"); ("CAT_L3", "cat_l3");
  ("CAT_L2", "cat_l2"); ("CDP_L3", "cdp_l3"); ("HW_PSTATE", "hw_pstate");
  ("PROC_FEEDBACK", "proc_feedback"); ("INTEL_PPIN", "intel_ppin"); ("INTEL_PT", "intel_pt");
  ("AVX512_4VNNIW", "avx512_4vnniw"); ("AVX512_4FMAPS", "avx512_4fmaps"); ("TPR_SHADOW", "tpr_shadow");
  ("VNMI", "vnmi"); ("FLEXPRIORITY", "flexpriority"); ("EPT", "ept"); ("VPID", "vpid");
  ("VMMCALL", "vmmcall"); ("FSGSBASE", "fsgsbase"); ("TSC_ADJUST", "tsc_adjust"); ("SGX", "sgx");
  ("BMI1", "bmi1"); ("HLE", "hle"); ("AVX2", "avx2"); ("SMEP", "smep"); ("BMI2", "bmi2"); ("ERMS", "erms");
  ("INVPCID", "invpcid"); ("RTM", "rtm"); ("CQM", "cqm"); ("MPX", "mpx"); ("RDT_A", "rdt_a");
  ("AVX512F", "avx512f"); ("AVX512DQ", "avx512dq"); ("RDSEED", "rdseed"); ("ADX", "adx"); ("SMAP", "smap");
  ("AVX512IFMA", "avx512ifma"); ("CLFLUSHOPT", "clflushopt"); ("CLWB", "clwb"); ("AVX512PF", "avx512pf");
  ("AVX512ER", "avx512er"); ("AVX512CD", "avx512cd"); ("SHA_NI", "sha_ni"); ("AVX512BW", "avx512bw");
  ("AVX512VL", "avx512vl"); ("XSAVEOPT", "xsaveopt"); ("XSAVEC", "xsavec"); ("XGETBV1", "xgetbv1");
  ("XSAVES", "xsaves"); ("CQM_LLC", "cqm_llc"); ("CQM_OCCUP_LLC", "cqm_occup_llc");
  ("CQM_MBM_TOTAL", "cqm_mbm_total"); ("CQM_MBM_LOCAL", "cqm_mbm_local"); ("CLZERO", "clzero");
  ("IRPERF", "irperf"); ("DTHERM", "dtherm"); ("IDA", "ida"); ("ARAT", "arat"); ("PLN", "pln");
  ("PTS", "pts"); ("HWP", "hwp"); ("HWP_NOTIFY", "hwp_notify"); ("HWP_ACT_WINDOW", "hwp_act_window");
  ("HWP_EPP", "hwp_epp"); ("HWP_PKG_REQ", "hwp_pkg_req"); ("NPT", "npt"); ("LBRV", "lbrv");
  ("SVML", "svm_lock"); ("NRIPS", "nrip_save"); ("TSCRATEMSR", "tsc_scale"); ("VMCBCLEAN", "vmcb_clean");
  ("FLUSHBYASID", "flushbyasid"); ("DECODEASSISTS", "decodeassists"); ("PAUSEFILTER", "pausefilter");
  ("PFTHRESHOLD", "pfthreshold"); ("AVIC", "avic"); ("AVX512VBMI", "avx512vbmi"); ("PKU", "pku");
  ("OSPKE", "ospke"); ("AVX512_VPOPCNTDQ", "avx512_vpopcntdq"); ("LA57", "la57"); ("RDPID", "rdpid");
  ("OVERFLOW_RECOV", "overflow_recov"); ("SUCCOR", "succor"); ("SMCA", "smca")].

Definition bug_flags : list (string * string) := [
  ("F00F", "f00f"); ("FDIV", "fdiv"); ("COMA", "coma"); ("AMD_TLB_MMATCH", "tlb_mmatch");
  ("AMD_APIC_C1E", "apic_c1e"); ("11AP", "11ap"); ("FXSAVE_LEAK", "fxsave_leak");
  ("CLFLUSH_MONITOR", "clflush_monitor"); ("SYSRET_SS_ATTRS", "sysret_ss_attrs"); ("NULL_SEG", "null_seg");
  ("SWAPGS_FENCE", "swapgs_fence"); ("MONITOR", "monitor"); ("AMD_E400", "amd_e400")].

(** An array of pointers with designated initializers: those without one are [NULL]. *)
Definition designated (n : Z) (index : string → option Z) (init : list (string * string)) : list (option string) :=
  foldl (λ t '(m, name), match index m with Some i => aset t i (Some name) | None => t end)
    (replicate (Z.to_nat n) None) init.

Definition x86_cap_flags : list (option string) :=
  designated (NCAPINTS * 32) (number features) (cap_flags_words_0_5 ++ cap_flags_words_6_17).
Definition x86_bug_flags : list (option string) :=
  designated (NBUGINTS * 32) (λ m, (λ i, i - NCAPINTS * 32) <$> number bugs m) bug_flags.

(** ** The rule for the names *)

Fixpoint in_small_letters (s : string) : string :=
  match s with
  | EmptyString => EmptyString
  | String c s => String (Ascii.ascii_of_N (Z.to_N (__tolower (Z.of_N (Ascii.N_of_ascii c))))) (in_small_letters s)
  end.

Definition name_of (f : feature) : option string :=
  let name := default (in_small_letters (f_macro f)) (f_quoted f) in
  if String.eqb name "" then None else Some name.

(** The name that belongs at index [i] of a table whose first index is [base]. *)
Definition named (l : list (Z * feature)) (base i : Z) : option string :=
  p ← List.find (λ p, p.1 =? base + i) l; name_of p.2.

Lemma cap_flags_by_rule : x86_cap_flags = named features 0 <$> seqZ 0 (NCAPINTS * 32).
Proof. vm_compute. reflexivity. Qed.

Lemma bug_flags_by_rule : x86_bug_flags = named bugs (NCAPINTS * 32) <$> seqZ 0 (NBUGINTS * 32).
Proof. vm_compute. reflexivity. Qed.

(** No two features share a number, and no two named ones a name. *)
Lemma numbers_distinct : NoDup (features ++ bugs)%list.*1.
Proof. by apply (bool_decide_eq_true_1 _). Qed.

Lemma names_distinct : NoDup (omap (λ p, name_of p.2) features).
Proof. by apply (bool_decide_eq_true_1 _). Qed.

(** With distinct numbers a search by number finds the feature. *)
Lemma find_number (l : list (Z * feature)) i f :
  NoDup l.*1 → (i, f) ∈ l → List.find (λ p, p.1 =? i) l = Some (i, f).
Proof.
  induction l as [|[j g] l IH]; intros Hd Hin; [by apply not_elem_of_nil in Hin|].
  apply NoDup_cons in Hd as [Hn Hd]. cbn [List.find fst]. apply elem_of_cons in Hin as [[= -> ->]|Hin].
  - by rewrite Z.eqb_refl.
  - destruct (Z.eqb_spec j i) as [->|]; [|by apply IH]. exfalso. apply Hn.
    apply list_elem_of_fmap. by exists (i, f).
Qed.

(** The name of a feature is at its index; where no feature is, there is no name. *)
Theorem cap_flags_correct i : 0 ≤ i < NCAPINTS * 32 →
  (∀ f, (i, f) ∈ features → x86_cap_flags !! Z.to_nat i = Some (name_of f)) ∧
  ((∀ f, (i, f) ∉ features) → x86_cap_flags !! Z.to_nat i = Some None).
Proof.
  intros Hi.
  assert (x86_cap_flags !! Z.to_nat i = Some (named features 0 i)) as ->.
  { rewrite cap_flags_by_rule, list_lookup_fmap, lookup_seqZ_lt by lia. cbn [fmap option_fmap option_map]. do 2 f_equal. lia. }
  unfold named. rewrite Z.add_0_l. split.
  - intros f Hf. rewrite (find_number _ _ f); [done| |done].
    pose proof numbers_distinct as Hd. rewrite fmap_app in Hd. by apply NoDup_app in Hd as [? _].
  - intros Hf. destruct (List.find _ features) as [[j f]|] eqn:E; [|done]. exfalso.
    apply List.find_some in E as [Hin Hj]. apply Z.eqb_eq in Hj. cbn [fst] in Hj. subst j.
    apply (Hf f). by apply list_elem_of_In.
Qed.

(** The numbers the code asks for are the ones of their macros, and a number is the bit of the word
    it is made of. *)
Lemma numbers_used :
  number features "APIC" = Some X86_FEATURE_APIC ∧ number features "VMX" = Some X86_FEATURE_VMX ∧
  number features "X2APIC" = Some X86_FEATURE_X2APIC ∧ number features "HYPERVISOR" = Some X86_FEATURE_HYPERVISOR ∧
  number features "CQM_LLC" = Some X86_FEATURE_CQM_LLC.
Proof. by vm_compute. Qed.

Lemma features_in_words i f : (i, f) ∈ features → 0 ≤ i < NCAPINTS * 32 ∧ i mod 32 = f_bit f.
Proof.
  intros Hin.
  assert (forallb (λ p, (0 <=? p.1) && (p.1 <? NCAPINTS * 32) && (p.1 mod 32 =? f_bit p.2)) features = true) as Hall
    by (vm_compute; reflexivity).
  apply (forallb_elem _ _ (i, f)) in Hall; [|done]. cbn [fst snd] in Hall. lia.
Qed.

Lemma cpu_has_feature c i f : caps_ok (x86_capability c) → (i, f) ∈ features →
  cpu_has c i = Z.testbit (aget (x86_capability c) (i / 32)) (f_bit f).
Proof. intros Hc [Hi <-]%features_in_words. apply cpu_has_word; [done|lia]. Qed.
