(* ===== verification/PerCpu.v ===== *)
(** The per-CPU data and the stacks: [include/sys/percpu.h], [include/asm/threads.h] and
    [kernel/threads.c].  The build has [-DNR_CPUS=1] (the [Makefile]), and of each [#if] of
    [percpu.h] the branch for one CPU is the one that is compiled.  The objects themselves are where the
    linker puts them; here is how the code finds the part of a CPU. *)

From S2P Require Import Prelude Machine.
#[local] Open Scope Z_scope.
#[local] Open Scope cint_scope.

(** [-DNR_CPUS=1] in the [Makefile]. *)
Definition NR_CPUS : Z := 1.

Definition smp_processor_id : Z := 0.
Definition per_cpu_offset (cpu : Z) : Z := 0.

(** The address [off] bytes behind [ptr], hidden from the compiler. *)
Definition RELOC_HIDE (ptr off : Z) : Z := u64 (ptr + off).
Definition per_cpu_ptr (ptr cpu : Z) : Z := RELOC_HIDE ptr (per_cpu_offset cpu).
Definition this_cpu_ptr (ptr : Z) : Z := per_cpu_ptr ptr smp_processor_id.

Definition for_each_possible_cpu {S} (f : Z → M S unit) : M S unit := for_each (seqZ 0 NR_CPUS) f.

(** The stacks: of a CPU, and of the exceptions that switch to one of their own. *)
Definition CPU_STACK_SIZE : Z := 4 * PAGE_SIZE.
Definition EXCEPTION_STACK_SIZE : Z := 1 * PAGE_SIZE.
Definition DOUBLEFAULT_STACK : Z := 1.
Definition NR_EXCEPTION_STACKS : Z := 4.

(** [cpu_stacks[cpu]] of the array at [cpu_stacks], and the initial value of
    [initial_stack]: the end of the first one, as stacks grow down. *)
Definition cpu_stack (cpu_stacks cpu : Z) : Z := u64 (cpu_stacks + CPU_STACK_SIZE * cpu).
Definition initial_stack (cpu_stacks : Z) : Z := u64 (cpu_stack cpu_stacks 0 + CPU_STACK_SIZE).

(** With one CPU the part of a CPU is the object. *)
Lemma per_cpu_ptr_object p cpu : 0 ≤ p < 2 ^ 64 → per_cpu_ptr p cpu = p.
Proof. intros Hp. unfold per_cpu_ptr, RELOC_HIDE, per_cpu_offset. rewrite Z.add_0_r. by apply wrap_small. Qed.

(** The loop over the CPUs runs its body on this one. *)
Lemma for_each_possible_cpu_this {S} (f : Z → M S unit) s : for_each_possible_cpu f s = (f smp_processor_id ;; mret tt) s.
Proof. reflexivity. Qed.

(** The stack of the first CPU is at the start of the array, and the initial one starts at its
    end. *)
Lemma initial_stack_bounds stacks : 0 ≤ stacks → stacks + CPU_STACK_SIZE < 2 ^ 64 →
  initial_stack stacks = cpu_stack stacks 0 + CPU_STACK_SIZE ∧ cpu_stack stacks 0 = stacks.
Proof.
  intros H0 H1. unfold initial_stack, cpu_stack. assert (0 ≤ CPU_STACK_SIZE) by (vm_compute; discriminate).
  rewrite Z.mul_0_r, Z.add_0_r, !wrap_small; rewrite ?wrap_small; lia.
Qed.
