(* ===== verification/Apic.v ===== *)
(** The local APIC: the two drivers ([kernel/xapic.c], [kernel/x2apic.c]), the driver
    table of [include/asm/apic.h] and the set-up of [kernel/apic.c].

    [apic] is the pointer to the driver in use, null ([None]) until [verify_apic].  A
    call through a null driver is an access fault, a panic of the model.  The routines
    that read the ACPI tables are in file Madt. *)

From S2P Require Import Prelude Bitops Vmcs Machine Tsc Cpu PerCpu.
#[local] Open Scope Z_scope.
#[local] Open Scope cint_scope.

(** ** [include/asm/apic.h] and [include/asm/irq.h] *)

Definition APIC_DEFAULT_PHYS_BASE : Z := 0xfee00000.
Definition APIC_ID : Z := 0x20.
Definition APIC_LVR : Z := 0x30.
Definition APIC_TASKPRI : Z := 0x80.
Definition APIC_TPRI_MASK : Z := 0xff.
Definition APIC_EOI : Z := 0xb0.
Definition APIC_EOI_ACK : Z := 0x0.
Definition APIC_LDR : Z := 0xd0.
Definition APIC_LDR_MASK : Z := Z.shiftl 0xff 24.
Definition APIC_DFR : Z := 0xe0.
Definition APIC_DFR_FLAT : Z := 0xffffffff.
Definition APIC_SPIV : Z := 0xf0.
Definition APIC_SPIV_APIC_ENABLED : Z := Z.shiftl 1 8.
Definition APIC_ESR : Z := 0x280.
Definition APIC_ICR : Z := 0x300.
Definition APIC_ICR_BUSY : Z := 0x01000.
Definition APIC_DM_INIT : Z := 0x00500.
Definition APIC_DM_STARTUP : Z := 0x00600.
Definition APIC_VECTOR_MASK : Z := 0x000ff.
Definition APIC_ICR2 : Z := 0x310.
Definition APIC_LVTT : Z := 0x320.
Definition APIC_LVTPC : Z := 0x340.
Definition APIC_LVT0 : Z := 0x350.
Definition APIC_LVT_TIMER_PERIODIC : Z := Z.shiftl 1 17.
Definition APIC_LVT_MASKED : Z := Z.shiftl 1 16.
Definition APIC_LVT1 : Z := 0x360.
Definition APIC_LVTERR : Z := 0x370.
Definition APIC_TMICT : Z := 0x380.
Definition APIC_TDCR : Z := 0x3e0.
Definition APIC_TDR_DIV_TMBASE : Z := Z.shiftl 1 2.
Definition APIC_TDR_DIV_1 : Z := 0xb.
Definition APIC_TDR_DIV_16 : Z := 0x3.
Definition APIC_BASE_MSR : Z := 0x800.
Definition BAD_APICID : Z := 0xffff.
Definition MAX_LOCAL_APIC : Z := 32768.

Definition FIRST_EXTERNAL_VECTOR : Z := 0x20.
Definition ISA_IRQ_VECTOR (irq : Z) : Z := ((FIRST_EXTERNAL_VECTOR + 16) &&& not32 15) + irq.
Definition SPURIOUS_APIC_VECTOR : Z := 0xff.
Definition ERROR_APIC_VECTOR : Z := 0xfe.
Definition LOCAL_TIMER_VECTOR : Z := 0xee.
Definition NR_VECTORS : Z := 256.
Definition APIC_DIVISOR : Z := 16.

Definition SET_APIC_LOGICAL_ID (w x : Z) : Z := wrap w (x <<< 24).
Definition SET_APIC_DEST_FIELD (x : Z) : Z := u32 (x <<< 24).

Section apic.
Context {hw : Type} `{Hardware hw}.
Implicit Types s : machine hw.

(** ** The xAPIC: memory-mapped registers *)

Definition xapic_read (reg : Z) : M (machine hw) Z :=
  base ← gets m_lapic_addr; readl (base + reg).

Definition xapic_write (reg v : Z) : M (machine hw) unit :=
  base ← gets m_lapic_addr; writel v (base + reg).

Definition xapic_get_apic_id (x : Z) : Z := (x >>> 24) &&& 0xff.

(** ** The x2APIC: model-specific registers *)

Definition x2apic_read (reg : Z) : M (machine hw) Z :=
  if reg =? APIC_DFR then mret (2 ^ 32 - 1)
  else v ← rdmsrl (APIC_BASE_MSR + (reg >>> 4)); mret (u32 v).

Definition x2apic_write (reg v : Z) : M (machine hw) unit :=
  if (reg =? APIC_DFR) || (reg =? APIC_ID) || (reg =? APIC_LDR) || (reg =? APIC_LVR)
  then mret tt
  else wrmsr (APIC_BASE_MSR + (reg >>> 4)) v 0.

Definition x2apic_eoi_write (reg v : Z) : M (machine hw) unit :=
  wrmsr (APIC_BASE_MSR + (APIC_EOI >>> 4)) APIC_EOI_ACK 0.

Definition x2apic_init_apic_ldr : M (machine hw) unit := mret tt.
Definition x2apic_get_apic_id (id : Z) : Z := u32 id.
Definition x2apic_icr_read : M (machine hw) Z := rdmsrl (APIC_BASE_MSR + (APIC_ICR >>> 4)).
Definition x2apic_icr_write (low id : Z) : M (machine hw) unit :=
  wrmsrl (APIC_BASE_MSR + (APIC_ICR >>> 4)) (u64 (id <<< 32) ||| low).
Definition x2apic_safe_wait_icr_idle : M (machine hw) Z := mret 0.

(** ** The driver in use *)

Definition no_driver {A} : M (machine hw) A := panic "null apic driver".

Definition apic_read (reg : Z) : M (machine hw) Z :=
  d ← gets m_apic;
  match d with
  | None => no_driver | Some xapic => xapic_read reg | Some x2apic => x2apic_read reg
  end.

Definition apic_write (reg val : Z) : M (machine hw) unit :=
  d ← gets m_apic;
  match d with
  | None => no_driver | Some xapic => xapic_write reg val | Some x2apic => x2apic_write reg val
  end.

Definition xapic_init_apic_ldr : M (machine hw) unit :=
  let num := smp_processor_id in
  let id := BIT num in
  apic_write APIC_DFR APIC_DFR_FLAT ;;
  v ← apic_read APIC_LDR;
  let val := v &&& not32 APIC_LDR_MASK in
  let val := val ||| SET_APIC_LOGICAL_ID 64 id in
  apic_write APIC_LDR (u32 val).

Definition xapic_icr_read : M (machine hw) Z :=
  icr2 ← apic_read APIC_ICR2;
  icr1 ← apic_read APIC_ICR;
  mret (icr1 ||| (icr2 <<< 32)).

Definition xapic_icr_write (low id : Z) : M (machine hw) unit :=
  apic_write APIC_ICR2 (SET_APIC_DEST_FIELD id) ;;
  apic_write APIC_ICR low.

(** [timeout++ < 1000] is tested after the delay. *)
Definition icr_wait_step (timeout : Z) : M (machine hw) (Z + Z) :=
  v ← apic_read APIC_ICR;
  let send_status := v &&& APIC_ICR_BUSY in
  if send_status =? 0 then mret (inr send_status)
  else
    udelay 100 ;;
    if timeout <? 1000 then mret (inl (timeout + 1)) else mret (inr send_status).

Definition xapic_safe_wait_icr_idle : M (machine hw) Z := loop icr_wait_step 0.

Definition apic_eoi : M (machine hw) unit :=
  d ← gets m_apic;
  match d with
  | None => no_driver
  | Some xapic => xapic_write APIC_EOI APIC_EOI_ACK
  | Some x2apic => x2apic_eoi_write APIC_EOI APIC_EOI_ACK
  end.

Definition apic_icr_read : M (machine hw) Z :=
  d ← gets m_apic;
  match d with
  | None => no_driver | Some xapic => xapic_icr_read | Some x2apic => x2apic_icr_read
  end.

Definition apic_icr_write (low high : Z) : M (machine hw) unit :=
  d ← gets m_apic;
  match d with
  | None => no_driver
  | Some xapic => xapic_icr_write low high
  | Some x2apic => x2apic_icr_write low high
  end.

Definition safe_apic_wait_icr_idle : M (machine hw) Z :=
  d ← gets m_apic;
  match d with
  | None => no_driver
  | Some xapic => xapic_safe_wait_icr_idle
  | Some x2apic => x2apic_safe_wait_icr_idle
  end.

Definition read_apic_id : M (machine hw) Z :=
  reg ← apic_read APIC_ID;
  d ← gets m_apic;
  match d with
  | None => no_driver
  | Some xapic => mret (xapic_get_apic_id reg)
  | Some x2apic => mret (x2apic_get_apic_id reg)
  end.

Definition init_apic_ldr : M (machine hw) unit :=
  d ← gets m_apic;
  match d with
  | None => no_driver
  | Some xapic => xapic_init_apic_ldr
  | Some x2apic => x2apic_init_apic_ldr
  end.

(** ** [kernel/apic.c] *)

Definition x2apic_enable : M (machine hw) unit :=
  msr ← rdmsrl MSR_IA32_APICBASE;
  if truthy (msr &&& MSR_IA32_APICBASE_X2APIC_ENABLE) then mret tt
  else wrmsrl MSR_IA32_APICBASE (msr ||| MSR_IA32_APICBASE_X2APIC_ENABLE).

Definition verify_apic : M (machine hw) unit :=
  has ← this_cpu_has X86_FEATURE_APIC;
  BUG_ON (negb has) ;;
  msr ← rdmsrl MSR_IA32_APICBASE;
  (if negb (truthy (msr &&& MSR_IA32_APICBASE_ENABLE)) then panic "xapic disabled"
   else mret tt) ;;
  d ← gets m_apic;
  match d with
  | None =>
      if truthy (msr &&& MSR_IA32_APICBASE_X2APIC_ENABLE)
      then modify (set_apic (Some x2apic))
      else modify (set_apic (Some xapic))
  | Some x2apic =>
      has ← this_cpu_has X86_FEATURE_X2APIC;
      BUG_ON (negb has) ;;
      x2apic_enable
  | Some xapic => mret tt
  end.

(** Look for [apicid] among the first [n] allocated CPUs. *)
Fixpoint apicid_known (n : nat) (i : Z) (ids : list Z) (apicid : Z) : bool :=
  match n with
  | O => false
  | S n => if aget ids i =? apicid then true else apicid_known n (i + 1) ids apicid
  end.

Definition acpi_register_lapic (apicid enabled : Z) : M (machine hw) unit :=
  (if enabled =? 0 then panic "no CPU hotplug support" else mret tt) ;;
  boot ← gets m_boot_apicid;
  ids ← gets m_apicids;
  n ← gets m_nr_cpuids;
  if u32 apicid =? boot then modify (set_apicids (aset ids 0 apicid))
  else if apicid_known (Z.to_nat n) 0 ids apicid then mret tt
  else
    (if NR_CPUS <=? n then panic "NR_CPUS limit of %i reached" else mret tt) ;;
    modify (set_apicids (aset ids n apicid)) ;;
    modify (set_nr_cpuids (n + 1)).

(** [v = apic_read(reg); apic_write(reg, v | APIC_LVT_MASKED)] *)
Definition mask_lvt (reg : Z) : M (machine hw) unit :=
  v ← apic_read reg; apic_write reg (v ||| APIC_LVT_MASKED).

Definition clear_local_apic : M (machine hw) unit :=
  apic_write APIC_LVTERR (ERROR_APIC_VECTOR ||| APIC_LVT_MASKED) ;;
  mask_lvt APIC_LVTT ;;
  mask_lvt APIC_LVT0 ;;
  mask_lvt APIC_LVT1 ;;
  mask_lvt APIC_LVTPC ;;
  apic_write APIC_LVTT APIC_LVT_MASKED ;;
  apic_write APIC_LVT0 APIC_LVT_MASKED ;;
  apic_write APIC_LVT1 APIC_LVT_MASKED ;;
  apic_write APIC_LVTERR APIC_LVT_MASKED ;;
  apic_write APIC_LVTPC APIC_LVT_MASKED ;;
  apic_write APIC_ESR 0 ;;
  _ ← apic_read APIC_ESR;
  mret tt.

Definition lapic_setup_esr : M (machine hw) unit :=
  apic_write APIC_ESR 0 ;;
  oldvalue ← apic_read APIC_ESR;
  apic_write APIC_LVTERR ERROR_APIC_VECTOR ;;
  apic_write APIC_ESR 0 ;;
  value ← apic_read APIC_ESR;
  when (negb (value =? oldvalue))
    (pr_info "ESR value before enabling vector: 0x%08x  after: 0x%08x" [Num oldvalue; Num value]).

Definition setup_local_apic : M (machine hw) unit :=
  init_apic_ldr ;;
  value ← apic_read APIC_TASKPRI;
  apic_write APIC_TASKPRI (value &&& not32 APIC_TPRI_MASK) ;;
  value ← apic_read APIC_SPIV;
  let value := value &&& not32 APIC_VECTOR_MASK in
  let value := value ||| APIC_SPIV_APIC_ENABLED in
  let value := value ||| SPURIOUS_APIC_VECTOR in
  apic_write APIC_SPIV value.

Definition x2apic_init : M (machine hw) unit :=
  BUG_ON (negb (smp_processor_id =? 0)) ;;
  d ← gets m_apic;
  BUG_ON (bool_decide (d ≠ Some xapic)) ;;
  has ← this_cpu_has X86_FEATURE_X2APIC;
  if negb has then mret tt
  else
    x2apic_enable ;;
    modify (set_apic (Some x2apic)) ;;
    pr_info "x2apic enabled" [].

Definition lapic_timer_set_periodic (clocks : Z) : M (machine hw) unit :=
  apic_write APIC_LVTT (LOCAL_TIMER_VECTOR ||| APIC_LVT_TIMER_PERIODIC) ;;
  tmp_value ← apic_read APIC_TDCR;
  apic_write APIC_TDCR
    ((tmp_value &&& not32 (APIC_TDR_DIV_1 ||| APIC_TDR_DIV_TMBASE)) ||| APIC_TDR_DIV_16) ;;
  apic_write APIC_TMICT (clocks / APIC_DIVISOR).
End apic.

(** ** The driver as an interface

    Both drivers give the same registers: [lapic_reg d s reg] is the value of register
    [reg] under the driver [d].  The laws of [LawfulRegs] say that the registers read
    back what was written to them; the theorems below hold of both drivers. *)

Class LawfulRegs (hw : Type) `{Hardware hw} : Prop := {
  rdmsr_wrmsr h i v j :
    hw_rdmsr (hw_wrmsr h i v) j = if decide (j = i) then v else hw_rdmsr h j;
  mmio_read_pure h a : (hw_mmio_read32 h a).2 = h;
  mmio_read_write h a v b :
    (hw_mmio_read32 (hw_mmio_write32 h a v) b).1 =
      if decide (b = a) then v else (hw_mmio_read32 h b).1;
}.

(** The offsets of the registers. *)
Definition apic_reg (reg : Z) : Prop := 0 ≤ reg < 0x400 ∧ reg mod 16 = 0.

(** The x2APIC has no such register, or does not let it be written. *)
Definition x2apic_absent (reg : Z) : bool :=
  (reg =? APIC_DFR) || (reg =? APIC_ID) || (reg =? APIC_LDR) || (reg =? APIC_LVR).

Definition accessible (d : apic_driver) (reg : Z) : Prop :=
  apic_reg reg ∧ (d = x2apic → x2apic_absent reg = false).

Definition upd (f : Z → Z) (reg v : Z) : Z → Z := λ r, if r =? reg then v else f r.

Section driver.
Context {hw : Type} `{LawfulRegs hw} (d : apic_driver) (base : Z).
Context (Hbase : 0 ≤ base < 2 ^ 64 - 0x400).
Implicit Types s : machine hw.

Definition lapic_reg s (reg : Z) : Z :=
  match d with
  | xapic => u32 (hw_mmio_read32 (m_hw s) (u64 (base + reg))).1
  | x2apic => u32 (u64 (hw_rdmsr (m_hw s) (u32 (APIC_BASE_MSR + (reg >>> 4)))))
  end.

(** The driver in use is [d] and the registers hold [f]. *)
Definition lapic_holds (f : Z → Z) s : Prop :=
  m_apic s = Some d ∧ m_lapic_addr s = base ∧ ∀ reg, apic_reg reg → lapic_reg s reg = f reg.

Lemma triple_apic_read f reg :
  accessible d reg → triple (lapic_holds f) (apic_read reg) (λ v s, v = f reg ∧ lapic_holds f s).
Proof.
  intros [Hr Hx] s (Hd & Hb & Hf). unfold apic_read. erewrite bind_done by reflexivity.
  rewrite Hd. unfold lapic_holds, lapic_reg in *. destruct d; pose proof (Hf reg Hr) as Hfr.
  - unfold xapic_read, readl. erewrite bind_done by reflexivity. rewrite Hb.
    destruct (hw_mmio_read32 _ _) as [v h] eqn:E.
    pose proof (mmio_read_pure (m_hw s) (u64 (base + reg))) as Hp.
    rewrite E in Hp. simpl in Hp, Hfr. subst h. eexists _, _. split; [reflexivity|].
    split; [done|]. by split_and!.
  - specialize (Hx eq_refl). unfold x2apic_absent in Hx. rewrite !orb_false_iff in Hx.
    destruct Hx as [[[Hx _] _] _]. unfold x2apic_read. rewrite Hx.
    eexists _, _. split; [reflexivity|]. split; [done|]. by split_and!.
Qed.

Lemma apic_reg_msr r r' : apic_reg r → apic_reg r' →
  u32 (APIC_BASE_MSR + (r >>> 4)) = u32 (APIC_BASE_MSR + (r' >>> 4)) → r = r'.
Proof.
  intros [? ?] [? ?]. change APIC_BASE_MSR with 0x800. rewrite !Z.shiftr_div_pow2 by lia.
  change (2 ^ 4) with 16. unfold wrap. divlia.
Qed.

Lemma triple_apic_write f reg v :
  accessible d reg →
  triple (lapic_holds f) (apic_write reg v) (λ _, lapic_holds (upd f reg (u32 v))).
Proof.
  intros [Hr Hx] s (Hd & Hb & Hf). unfold apic_write. erewrite bind_done by reflexivity.
  rewrite Hd. unfold lapic_holds, lapic_reg, upd in *. destruct d.
  - unfold xapic_write, writel. erewrite bind_done by reflexivity. rewrite Hb.
    eexists _, _. split; [reflexivity|]. split; [done|]. split; [done|]. intros r Hr'.
    cbn [m_hw set_hw]. rewrite mmio_read_write.
    destruct Hr, Hr'. rewrite !(wrap_small 64) by lia.
    destruct (Z.eqb_spec r reg) as [->|].
    + rewrite decide_True by done. by apply wrap_wrap.
    + rewrite decide_False by lia. rewrite <- Hf by done. by rewrite (wrap_small 64) by lia.
  - specialize (Hx eq_refl). unfold x2apic_absent in Hx. unfold x2apic_write. rewrite Hx.
    eexists _, _. split; [reflexivity|]. split; [done|]. split; [done|]. intros r Hr'.
    cbn [m_hw set_hw]. rewrite rdmsr_wrmsr.
    destruct (Z.eqb_spec r reg) as [->|].
    + rewrite decide_True by done. change (u32 0 <<< 32) with 0. rewrite Z.lor_0_r.
      pose proof (wrap_bound 32 v ltac:(lia)). rewrite (wrap_wrap 64), (wrap_small 64) by lia. by apply wrap_wrap.
    + rewrite decide_False; [by apply Hf|]. intros E. by apply apic_reg_msr in E.
Qed.
End driver.

(** ** The set-up *)

Section setup.
Context {hw : Type} `{LawfulRegs hw} (d : apic_driver) (base : Z).
Context (Hbase : 0 ≤ base < 2 ^ 64 - 0x400).
Implicit Types s : machine hw.
Local Abbreviation holds := (lapic_holds d base).

Lemma accessible_xapic reg : apic_reg reg → accessible xapic reg.
Proof. by split. Qed.

Lemma triple_mask_lvt f reg :
  accessible d reg →
  triple (holds f) (mask_lvt reg) (λ _, holds (upd f reg (u32 (f reg ||| APIC_LVT_MASKED)))).
Proof.
  intros Hr. eapply triple_bind; [by apply triple_apic_read|]. intros v s [-> Hs].
  by apply (triple_apic_write d base Hbase f reg).
Qed.

Definition lvt_regs : list Z := [APIC_LVTT; APIC_LVT0; APIC_LVT1; APIC_LVTERR; APIC_LVTPC].

Lemma triple_clear_local_apic f :
  triple (holds f) clear_local_apic (λ _ s, ∃ f', holds f' s ∧
    (∀ r, r ∈ lvt_regs → f' r = APIC_LVT_MASKED) ∧
    (∀ r, r ∉ APIC_ESR :: lvt_regs → f' r = f r)).
Proof.
  unfold clear_local_apic.
  eapply triple_bind; [by apply triple_apic_write|]. cbv beta. intros _.
  do 4 (eapply triple_bind; [by apply triple_mask_lvt|]; cbv beta; intros _).
  do 6 (eapply triple_bind; [by apply triple_apic_write|]; cbv beta; intros _).
  eapply triple_bind; [by apply triple_apic_read|]. intros v. apply triple_ret.
  intros s [_ Hs]. eexists; split; [exact Hs|]. split.
  - intros r Hr. unfold upd, lvt_regs in *.
    repeat (apply elem_of_cons in Hr as [->|Hr]; [reflexivity|]).
    by apply elem_of_nil in Hr.
  - intros r Hr. unfold lvt_regs in Hr. rewrite !not_elem_of_cons in Hr. unfold upd.
    repeat match goal with |- context [r =? ?x] => destruct (Z.eqb_spec r x); [tauto|] end. done.
Qed.

Lemma triple_init_apic_ldr f :
  triple (holds f) init_apic_ldr (λ _ s, ∃ f', holds f' s ∧
    ∀ r, r ≠ APIC_DFR → r ≠ APIC_LDR → f' r = f r).
Proof.
  intros s Hs. pose proof Hs as (Hd & _). unfold init_apic_ldr. erewrite bind_done by reflexivity.
  rewrite Hd. destruct d.
  - clear Hd. revert s Hs.
    eapply triple_bind; [by apply triple_apic_write, accessible_xapic|]. cbv beta. intros _.
    eapply triple_bind; [by apply triple_apic_read, accessible_xapic|].
    intros v s [_ Hs]. revert s Hs.
    eapply triple_conseq; [by apply triple_apic_write, accessible_xapic|done|].
    intros [] s Hs. eexists; split; [exact Hs|]. intros r H1 H2. unfold upd.
    destruct (Z.eqb_spec r APIC_LDR); [done|]. by destruct (Z.eqb_spec r APIC_DFR).
  - eexists _, _. split; [reflexivity|]. by exists f.
Qed.

(** The spurious-vector register [setup_local_apic] writes. *)
Definition spiv_of (v : Z) : Z :=
  u32 (((v &&& not32 APIC_VECTOR_MASK) ||| APIC_SPIV_APIC_ENABLED) ||| SPURIOUS_APIC_VECTOR).

Lemma triple_setup_local_apic f :
  triple (holds f) setup_local_apic (λ _ s, ∃ f', holds f' s ∧
    f' APIC_SPIV = spiv_of (f APIC_SPIV) ∧
    f' APIC_TASKPRI = u32 (f APIC_TASKPRI &&& not32 APIC_TPRI_MASK) ∧
    ∀ r, r ∉ [APIC_DFR; APIC_LDR; APIC_TASKPRI; APIC_SPIV] → f' r = f r).
Proof.
  eapply triple_bind; [apply triple_init_apic_ldr|]. intros _ s (f1 & Hs & H1). revert s Hs.
  eapply triple_bind; [by apply triple_apic_read|]. intros v s [-> Hs]. revert s Hs.
  eapply triple_bind; [by apply triple_apic_write|]. cbv beta. intros _.
  eapply triple_bind; [by apply triple_apic_read|]. intros v s [-> Hs]. revert s Hs.
  eapply triple_conseq; [by apply triple_apic_write|done|].
  intros [] s Hs. eexists; split; [exact Hs|]. unfold upd. cbn [Z.eqb]. split_and!.
  - by rewrite <- H1.
  - by rewrite <- H1.
  - intros r Hr. rewrite !not_elem_of_cons in Hr.
    repeat match goal with |- context [r =? ?x] => destruct (Z.eqb_spec r x); [tauto|] end.
    apply H1; tauto.
Qed.

Lemma spiv_of_bits v i : 0 ≤ i < 32 →
  Z.testbit (spiv_of v) i = if decide (i ≤ 8) then true else Z.testbit v i.
Proof.
  intros Hi. unfold spiv_of. autorewrite with bits. change APIC_VECTOR_MASK with (2 ^ 8 - 1).
  change SPURIOUS_APIC_VECTOR with (2 ^ 8 - 1). change APIC_SPIV_APIC_ENABLED with (BIT 8).
  replace (2 ^ 8 - 1) with (Z.ones 8) by done. rewrite Z.testbit_ones_nonneg, testbit_BIT by lia.
  case_decide; destruct (Z.eqb_spec i 8), (Z.ltb_spec i 8); zbool.
Qed.

Lemma apic_bring_up f :
  triple (holds f) (clear_local_apic ;; setup_local_apic) (λ _ s, ∃ f', holds f' s ∧
    (∀ r, r ∈ lvt_regs → f' r = APIC_LVT_MASKED) ∧
    (∀ i, 0 ≤ i < 32 → Z.testbit (f' APIC_SPIV) i =
       if decide (i ≤ 8) then true else Z.testbit (f APIC_SPIV) i) ∧
    (∀ i, 0 ≤ i < 32 → Z.testbit (f' APIC_TASKPRI) i =
       if decide (i < 8) then false else Z.testbit (f APIC_TASKPRI) i)).
Proof.
  eapply triple_bind; [apply triple_clear_local_apic|].
  intros _ s (f1 & Hs & Hl & Hf1). revert s Hs.
  eapply triple_conseq; [apply triple_setup_local_apic|done|].
  intros _ s (f2 & Hs & Hsp & Htp & Hf2). exists f2. split; [done|]. split_and!.
  - intros r Hr. rewrite Hf2; [by apply Hl|].
    eapply bool_decide_unpack, Is_true_true.
    exact (forallb_elem (λ r, bool_decide (r ∉ [APIC_DFR; APIC_LDR; APIC_TASKPRI; APIC_SPIV]))
      lvt_regs r eq_refl Hr).
  - intros i Hi. rewrite Hsp, spiv_of_bits by done.
    rewrite Hf1; [done|]. by apply (bool_decide_unpack _).
  - intros i Hi. rewrite Htp. rewrite Hf1; [|by apply (bool_decide_unpack _)].
    autorewrite with bits. change APIC_TPRI_MASK with (Z.ones 8).
    rewrite Z.testbit_ones_nonneg by lia. case_decide; zbool.
Qed.

End setup.

#[export] Instance concrete_lawful_regs : @LawfulRegs _ Concrete.cpu_hardware.
Proof.
  split; intros; cbn; try done.
  - unfold Concrete.cpu_rdmsr. cbn. case_decide; subst.
    + by rewrite lookup_insert_eq.
    + by rewrite lookup_insert_ne.
  - case_decide; subst; [by rewrite lookup_insert_eq|by rewrite lookup_insert_ne].
Qed.

