(* ===== verification/Acpi.v ===== *)
(** The ACPI tables: the search for the root pointer ([kernel/acpica/tbxfroot.c]),
    checksums and printing ([kernel/acpica/tbprint.c]) and the table manager of
    [kernel/acpi.c].

    The tables are bytes of physical memory that nobody writes: [fw] is that memory, a
    parameter of every routine.  [__va] is the identity.  The array [initial_tables] is
    [m_acpi_tables] of the machine, an address per slot, 0 for a null pointer. *)

From S2P Require Import Prelude Mem CString Ctype Hexdump Vmcs Machine.
#[local] Open Scope Z_scope.
#[local] Open Scope cint_scope.

Definition ACPI_NAME_SIZE : Z := 4.
Definition ACPI_OEM_ID_SIZE : Z := 6.
Definition ACPI_OEM_TABLE_ID_SIZE : Z := 8.
Definition ACPI_EBDA_PTR_LOCATION : Z := 0x0000040e.
Definition ACPI_EBDA_WINDOW_SIZE : Z := 1024.
Definition ACPI_HI_RSDP_WINDOW_BASE : Z := 0x000e0000.
Definition ACPI_HI_RSDP_WINDOW_SIZE : Z := 0x00020000.
Definition ACPI_RSDP_SCAN_STEP : Z := 16.
Definition ACPI_RSDP_CHECKSUM_LENGTH : Z := 20.
Definition ACPI_RSDP_XCHECKSUM_LENGTH : Z := 36.
Definition ACPI_RSDT_ENTRY_SIZE : Z := 4.
Definition ACPI_XSDT_ENTRY_SIZE : Z := 8.
Definition ACPI_MAX_TABLES : Z := 128.
Definition ENODEV : Z := 19.

(** [acpi_status] *)
Definition AE_OK : Z := 0.
Definition AE_NOT_FOUND : Z := 0x0005.
Definition AE_BAD_SIGNATURE : Z := 0x2001.
Definition AE_BAD_CHECKSUM : Z := 0x2003.
Definition AE_INVALID_TABLE_LENGTH : Z := 0x2005.
Definition ACPI_FAILURE (a : Z) : bool := truthy a.

(** The signatures, as bytes. *)
Definition ACPI_SIG_FACS : list Z := [70; 65; 67; 83].
Definition ACPI_SIG_S3PT : list Z := [83; 51; 80; 84].
Definition ACPI_SIG_MADT : list Z := [65; 80; 73; 67].
Definition ACPI_SIG_RSDP : list Z := [82; 83; 68; 32; 80; 84; 82; 32].

Definition ACPI_HIDWORD (x : Z) : Z := u32 (u64 x >>> 32).
Definition ACPI_LODWORD (x : Z) : Z := u32 (u64 x).

(** [acpi_tb_fix_string]: a null ends the string. *)
Fixpoint acpi_tb_fix_string (s : list Z) : list Z :=
  match s with
  | [] => []
  | c :: s => if c =? 0 then c :: s else (if isprint c then c else 63) :: acpi_tb_fix_string s
  end.

(** [struct acpi_table_header] at an address. *)
Record acpi_table_header : Type := mk_header {
  signature : list Z; th_length : Z; revision : Z; checksum : Z; oem_id : list Z;
  oem_table_id : list Z; oem_revision : Z; asl_compiler_id : list Z; asl_compiler_revision : Z;
}.
Definition sizeof_acpi_table_header : Z := 36.

(** [struct acpi_table_rsdp] *)
Record acpi_table_rsdp : Type := mk_rsdp {
  rsdp_signature : list Z; rsdp_checksum : Z; rsdp_oem_id : list Z; rsdp_revision : Z;
  rsdt_physical_address : Z; rsdp_length : Z; xsdt_physical_address : Z; extended_checksum : Z;
}.

Section acpi.
Context {hw : Type} `{Hardware hw} (fw : bmem).
Implicit Types s : machine hw.

Definition header_at (a : Z) : acpi_table_header := {|
  signature := rd_bytes fw a 4; th_length := rd32 fw (a + 4); revision := rd8 fw (a + 8);
  checksum := rd8 fw (a + 9); oem_id := rd_bytes fw (a + 10) 6; oem_table_id := rd_bytes fw (a + 16) 8;
  oem_revision := rd32 fw (a + 24); asl_compiler_id := rd_bytes fw (a + 28) 4;
  asl_compiler_revision := rd32 fw (a + 32) |}.

Definition rsdp_at (a : Z) : acpi_table_rsdp := {|
  rsdp_signature := rd_bytes fw a 8; rsdp_checksum := rd8 fw (a + 8); rsdp_oem_id := rd_bytes fw (a + 9) 6;
  rsdp_revision := rd8 fw (a + 15); rsdt_physical_address := rd32 fw (a + 16); rsdp_length := rd32 fw (a + 20);
  xsdt_physical_address := rd64 fw (a + 24); extended_checksum := rd8 fw (a + 32) |}.

(** [!strncmp(a, id, 4)] for an [id] without null; [!memcmp(a, "RSD PTR ", 8)].  Lemmas
    [compare_name_strncmp] and [validate_rsdp_sig_memcmp] relate them to the routines. *)
Definition ACPI_COMPARE_NAME (a : Z) (id : list Z) : bool := bool_decide (rd_bytes fw a 4 = id).
Definition ACPI_VALIDATE_RSDP_SIG (a : Z) : bool := bool_decide (rd_bytes fw a 8 = ACPI_SIG_RSDP).

Definition acpi_tb_checksum (buffer length : Z) : Z :=
  foldl (λ sum b, u8 (sum + b)) 0 (rd_bytes fw buffer (Z.to_nat length)).

(** ** [tbprint.c] *)

Definition acpi_tb_cleanup_table_header (h : acpi_table_header) : acpi_table_header := {|
  signature := acpi_tb_fix_string (signature h); th_length := th_length h; revision := revision h;
  checksum := checksum h; oem_id := acpi_tb_fix_string (oem_id h);
  oem_table_id := acpi_tb_fix_string (oem_table_id h); oem_revision := oem_revision h;
  asl_compiler_id := acpi_tb_fix_string (asl_compiler_id h); asl_compiler_revision := asl_compiler_revision h |}.

Definition acpi_tb_print_table_header (address header : Z) : M (machine hw) unit :=
  if ACPI_COMPARE_NAME header ACPI_SIG_FACS then
    pr_info "acpi: %-4.4s 0x%8.8x%8.8x %06x"
      [Buf (signature (header_at header)); Num (ACPI_HIDWORD address); Num (ACPI_LODWORD address);
       Num (th_length (header_at header))]
  else if ACPI_VALIDATE_RSDP_SIG header then
    let r := rsdp_at header in
    pr_info "acpi: RSDP 0x%8.8x%8.8x %06x (v%.2d %-6.6s)"
      [Num (ACPI_HIDWORD address); Num (ACPI_LODWORD address);
       Num (if 0 <? rsdp_revision r then rsdp_length r else 20); Num (rsdp_revision r);
       Buf (acpi_tb_fix_string (rsdp_oem_id r))]
  else
    let h := acpi_tb_cleanup_table_header (header_at header) in
    pr_info "acpi: %-4.4s 0x%8.8x%8.8x %06x (v%.2d %-6.6s %-8.8s %08x %-4.4s %08x)"
      [Buf (signature h); Num (ACPI_HIDWORD address); Num (ACPI_LODWORD address); Num (th_length h);
       Num (revision h); Buf (oem_id h); Buf (oem_table_id h); Num (oem_revision h);
       Buf (asl_compiler_id h); Num (asl_compiler_revision h)].

Definition acpi_tb_verify_checksum (table length : Z) : M (machine hw) Z :=
  if ACPI_COMPARE_NAME table ACPI_SIG_S3PT || ACPI_COMPARE_NAME table ACPI_SIG_FACS then mret AE_OK
  else
    let sum := acpi_tb_checksum table length in
    if truthy sum then
      pr_err "acpi: incorrect checksum in table [%4.4s] - 0x%2.2x, should be 0x%2.2x"
        [Buf (signature (header_at table)); Num (checksum (header_at table));
         Num (u8 (checksum (header_at table) - sum))] ;;
      mret AE_BAD_CHECKSUM
    else mret AE_OK.

(** ** [tbxfroot.c] *)

Definition acpi_tb_validate_rsdp (rsdp : Z) : Z :=
  if negb (ACPI_VALIDATE_RSDP_SIG rsdp) then AE_BAD_SIGNATURE
  else if negb (acpi_tb_checksum rsdp ACPI_RSDP_CHECKSUM_LENGTH =? 0) then AE_BAD_CHECKSUM
  else if (2 <=? rsdp_revision (rsdp_at rsdp)) &&
          negb (acpi_tb_checksum rsdp ACPI_RSDP_XCHECKSUM_LENGTH =? 0) then AE_BAD_CHECKSUM
  else AE_OK.

(** The loop ends after [length / 16] steps, rounded up. *)
Fixpoint scan_loop (n : nat) (mem_rover end_address : Z) : Z :=
  match n with
  | O => 0
  | S n =>
      if end_address <=? mem_rover then 0
      else if negb (ACPI_FAILURE (acpi_tb_validate_rsdp mem_rover)) then mem_rover
      else scan_loop n (mem_rover + ACPI_RSDP_SCAN_STEP) end_address
  end.

(** 0 is the null pointer. *)
Definition acpi_tb_scan_memory_for_rsdp (start_address length : Z) : Z :=
  scan_loop (Z.to_nat ((length + 15) / 16)) start_address (start_address + length).

(** The status, and [*table_address] (0 where the code does not store it). *)
Definition acpi_find_root_pointer : Z * Z :=
  let physical_address := ACPI_EBDA_PTR_LOCATION in
  let physical_address := u32 (physical_address <<< 4) in
  let hi_window :=
    let mem_rover := acpi_tb_scan_memory_for_rsdp ACPI_HI_RSDP_WINDOW_BASE ACPI_HI_RSDP_WINDOW_SIZE in
    if truthy mem_rover then
      (AE_OK, u64 (ACPI_HI_RSDP_WINDOW_BASE + (mem_rover - ACPI_HI_RSDP_WINDOW_BASE)))
    else (AE_NOT_FOUND, 0) in
  if 0x400 <? physical_address then
    let mem_rover := acpi_tb_scan_memory_for_rsdp physical_address ACPI_EBDA_WINDOW_SIZE in
    if truthy mem_rover then (AE_OK, u32 (physical_address + u32 (mem_rover - physical_address)))
    else hi_window
  else hi_window.

(** ** [kernel/acpi.c] *)

Definition acpi_tb_get_root_table_entry (table_entry table_entry_size : Z) : Z :=
  if table_entry_size =? ACPI_RSDT_ENTRY_SIZE then rd32 fw table_entry else rd64 fw table_entry.

(** The loop over the entries of the root table: [n] are left. *)
Fixpoint root_table_loop (n : nat) (table_entry table_entry_size table_index : Z) : M (machine hw) unit :=
  match n with
  | O => mret tt
  | S n =>
      let address := acpi_tb_get_root_table_entry table_entry table_entry_size in
      let next_table := root_table_loop n (table_entry + table_entry_size) table_entry_size in
      if address =? 0 then next_table table_index
      else
        status ← acpi_tb_verify_checksum address (th_length (header_at address));
        if ACPI_FAILURE status then next_table table_index
        else
          tables ← gets m_acpi_tables;
          modify (set_acpi_tables (aset tables table_index address)) ;;
          acpi_tb_print_table_header address address ;;
          if table_index + 1 =? ACPI_MAX_TABLES then mret tt else next_table (table_index + 1)
  end.

Definition acpi_tb_parse_root_table (rsdp_address : Z) : M (machine hw) Z :=
  let rsdp := rsdp_at rsdp_address in
  acpi_tb_print_table_header rsdp_address rsdp_address ;;
  let '(address, table_entry_size) :=
    if (1 <? rsdp_revision rsdp) && truthy (xsdt_physical_address rsdp)
    then (xsdt_physical_address rsdp, ACPI_XSDT_ENTRY_SIZE)
    else (rsdt_physical_address rsdp, ACPI_RSDT_ENTRY_SIZE) in
  acpi_tb_print_table_header address address ;;
  let length := th_length (header_at address) in
  if length <? sizeof_acpi_table_header + table_entry_size then
    pr_err "acpi: invalid table length 0x%X in RSDT/XSDT" [Num length] ;;
    mret AE_INVALID_TABLE_LENGTH
  else
    status ← acpi_tb_verify_checksum address length;
    if ACPI_FAILURE status then mret status
    else
      let table_count := (length - sizeof_acpi_table_header) / table_entry_size in
      root_table_loop (Z.to_nat table_count) (address + sizeof_acpi_table_header) table_entry_size 0 ;;
      mret AE_OK.

Definition acpi_table_init : M (machine hw) unit :=
  modify (set_acpi_tables (replicate (Z.to_nat ACPI_MAX_TABLES) 0)) ;;
  let '(status, rsdp_address) := acpi_find_root_pointer in
  (if ACPI_FAILURE status then panic "A valid RSDP was not found" else mret tt) ;;
  status ← acpi_tb_parse_root_table rsdp_address;
  if ACPI_FAILURE status then panic "Parsing RSDP failed" else mret tt.

(** Every slot is looked at, the empty ones too: they read the name at address 0. *)
Fixpoint find_table_loop (tables : list Z) (id : list Z) : Z :=
  match tables with
  | [] => 0
  | table :: tables => if ACPI_COMPARE_NAME table id then table else find_table_loop tables id
  end.

Definition acpi_find_table (id : list Z) : M (machine hw) Z :=
  tables ← gets m_acpi_tables; mret (find_table_loop tables id).

Definition acpi_table_parse (id : list Z) (handler : Z → M (machine hw) Z) : M (machine hw) Z :=
  table ← acpi_find_table id;
  if table =? 0 then mret (- ENODEV) else (_ ← handler table; mret 0).

(** [struct acpi_subtable_proc]; its counter is not used by any caller, but kept. *)
Record acpi_subtable_proc : Type := mk_proc {
  proc_id : Z; proc_handler : Z → Z → M (machine hw) Z; proc_count : Z;
}.

Definition subtable_type (entry : Z) : Z := rd8 fw entry.
Definition subtable_length (entry : Z) : Z := rd8 fw (entry + 1).

(** The [for] loop over the procedures: those after it, and whether one was found. *)
Fixpoint run_proc (procs : list acpi_subtable_proc) (entry table_end : Z) :
    M (machine hw) (list acpi_subtable_proc * bool) :=
  match procs with
  | [] => mret ([], false)
  | p :: procs =>
      if negb (subtable_type entry =? proc_id p) then
        r ← run_proc procs entry table_end;
        mret (p :: fst r, snd r)
      else
        r ← proc_handler p entry table_end;
        (if truthy r then panic "acpi: parsing error" else mret tt) ;;
        mret (mk_proc (proc_id p) (proc_handler p) (s32 (proc_count p + 1)) :: procs, true)
  end.

(** The variables of the loop: [entry], [count] and [proc]. *)
Definition entries_step (table_end max_entries : Z) (a : Z * Z * list acpi_subtable_proc) :
    M (machine hw) ((Z * Z * list acpi_subtable_proc) + (Z * list acpi_subtable_proc)) :=
  let '(entry, count, procs) := a in
  if negb (entry + 2 <? table_end) then mret (inr (count, procs))
  else if truthy max_entries && (max_entries <=? count) then mret (inr (count, procs))
  else
    r ← run_proc procs entry table_end;
    let '(procs, found) := r : list acpi_subtable_proc * bool in
    let count := if found then count + 1 else count in
    BUG_ON (negb (truthy (subtable_length entry))) ;;
    mret (inl (entry + subtable_length entry, count, procs)).

Definition acpi_table_parse_entries_array (id : list Z) (table_size : Z) (procs : list acpi_subtable_proc)
    (max_entries : Z) : M (machine hw) (Z * list acpi_subtable_proc) :=
  table_header ← acpi_find_table id;
  if table_header =? 0 then mret (- ENODEV, procs)
  else
    let table_end := table_header + th_length (header_at table_header) in
    loop (entries_step table_end max_entries) (table_header + table_size, 0, procs).
End acpi.
