(* ===== verification/AcpiSpec.v ===== *)
(** What the ACPI code finds: the root pointer, the tables, and the subtables of a table. *)

From S2P Require Import Prelude Mem CString Ctype Hexdump Vmcs Machine Acpi.
#[local] Open Scope Z_scope.
#[local] Open Scope cint_scope.

(** ** Names and checksums *)

Section spec.
Context {hw : Type} `{Hardware hw} (fw : bmem).
Implicit Types s : machine hw.

(** The comparison with a signature is [memcmp] with the literal, wherever it is. *)
Lemma validate_rsdp_sig_memcmp a lit :
  rd_bytes fw lit 8 = ACPI_SIG_RSDP → ACPI_VALIDATE_RSDP_SIG fw a = (memcmp fw a lit 8 =? 0).
Proof.
  intros Hl. unfold ACPI_VALIDATE_RSDP_SIG. rewrite <- Hl.
  destruct (Z.eqb_spec (memcmp fw a lit 8) 0) as [E|E].
  - apply bool_decide_eq_true_2, rd_bytes_same. by apply memcmp_zero in E.
  - apply bool_decide_eq_false_2. rewrite rd_bytes_same. intros Hs. apply E. by apply memcmp_zero.
Qed.

Definition byte_sum (a n : Z) : Z := foldr Z.add 0 (rd_bytes fw a (Z.to_nat n)).

Lemma checksum_sum a n : acpi_tb_checksum fw a n = byte_sum a n mod 256.
Proof.
  unfold acpi_tb_checksum, byte_sum. generalize (rd_bytes fw a (Z.to_nat n)). intros l.
  assert (∀ c, 0 ≤ c < 256 → foldl (λ sum b, u8 (sum + b)) c l = (c + foldr Z.add 0 l) mod 256) as Hl; [|by rewrite Hl].
  induction l as [|b l IH]; intros c Hc; cbn [foldl foldr].
  - rewrite Z.mod_small; lia.
  - rewrite IH by (apply (wrap_bound 8); lia). unfold wrap. change (2 ^ 8) with 256.
    rewrite Z.add_mod_idemp_l by lia. f_equal. lia.
Qed.

(** ** The root pointer *)

Definition rsdp_valid (a : Z) : Prop :=
  rd_bytes fw a 8 = ACPI_SIG_RSDP ∧ byte_sum a 20 mod 256 = 0 ∧
  (2 ≤ rd8 fw (a + 15) → byte_sum a 36 mod 256 = 0).

#[global] Instance rsdp_valid_dec a : Decision (rsdp_valid a).
Proof. unfold rsdp_valid. apply _. Defined.

Lemma validate_rsdp_ok a : ACPI_FAILURE (acpi_tb_validate_rsdp fw a) = negb (bool_decide (rsdp_valid a)).
Proof.
  unfold acpi_tb_validate_rsdp, rsdp_valid, ACPI_VALIDATE_RSDP_SIG, ACPI_RSDP_CHECKSUM_LENGTH, ACPI_RSDP_XCHECKSUM_LENGTH.
  rewrite !checksum_sum. cbn [rsdp_revision rsdp_at].
  destruct (decide (rd_bytes fw a 8 = ACPI_SIG_RSDP)) as [E1|E1].
  2: { rewrite !bool_decide_eq_false_2 by tauto. done. }
  rewrite bool_decide_eq_true_2 by done. cbn [negb].
  destruct (Z.eqb_spec (byte_sum a 20 mod 256) 0) as [E2|E2]; cbn [negb].
  2: { rewrite bool_decide_eq_false_2 by tauto. done. }
  destruct (Z.leb_spec 2 (rd8 fw (a + 15))), (Z.eqb_spec (byte_sum a 36 mod 256) 0); cbn [negb andb].
  - by rewrite bool_decide_eq_true_2.
  - rewrite bool_decide_eq_false_2; [done|]. tauto.
  - by rewrite bool_decide_eq_true_2.
  - rewrite bool_decide_eq_true_2; [done|]. split_and!; [done|done|lia].
Qed.

(** [n] paragraphs from [a] on. *)
Definition paragraphs (a : Z) (n : nat) : list Z := (λ i, a + 16 * Z.of_nat i) <$> seq 0 n.

Lemma paragraphs_S a n : paragraphs a (S n) = a :: paragraphs (a + 16) n.
Proof.
  unfold paragraphs. cbn [seq fmap list_fmap]. f_equal; [lia|]. rewrite <- (fmap_S_seq 0 n), <- list_fmap_compose.
  apply list_fmap_ext. intros i x _. cbn. lia.
Qed.

Lemma scan_loop_first n a end_ :
  end_ = a + 16 * Z.of_nat n → scan_loop fw n a end_ = default 0 (head (filter rsdp_valid (paragraphs a n))).
Proof.
  revert a. induction n as [|n IH]; intros a He; [done|]. rewrite paragraphs_S. cbn [scan_loop].
  destruct (Z.leb_spec end_ a); [lia|]. rewrite validate_rsdp_ok, negb_involutive, filter_cons.
  case_bool_decide; [by rewrite decide_True|]. rewrite decide_False by done. apply IH.
  unfold ACPI_RSDP_SCAN_STEP. lia.
Qed.

(** The paragraphs the code searches: a kilobyte at 0x40e0, and the BIOS area. *)
Definition rsdp_candidates : list Z := paragraphs 0x40e0 64 ++ paragraphs 0xe0000 8192.

Lemma paragraphs_bound a n x : x ∈ paragraphs a n → a ≤ x < a + 16 * Z.of_nat n.
Proof. unfold paragraphs. rewrite list_elem_of_fmap. intros (i & -> & Hi%elem_of_seq). lia. Qed.

Lemma scan_first a n len :
  0 < a → len = 16 * Z.of_nat n →
  ∃ x, acpi_tb_scan_memory_for_rsdp fw a len = x ∧
    match filter rsdp_valid (paragraphs a n) with
    | [] => x = 0 | y :: _ => x = y ∧ a ≤ y < a + len end.
Proof.
  intros Ha ->. eexists. split; [reflexivity|]. unfold acpi_tb_scan_memory_for_rsdp.
  replace ((16 * Z.of_nat n + 15) / 16) with (Z.of_nat n) by divlia. rewrite Nat2Z.id, scan_loop_first by done.
  destruct (filter _ _) as [|y l] eqn:E; [done|]. split; [done|]. apply paragraphs_bound.
  assert (y ∈ filter rsdp_valid (paragraphs a n)) as Hy by (rewrite E; left).
  by apply list_elem_of_filter in Hy as [_ Hy].
Qed.

Lemma find_root_pointer_spec :
  acpi_find_root_pointer fw =
  match filter rsdp_valid rsdp_candidates with
  | a :: _ => (AE_OK, a)
  | [] => (AE_NOT_FOUND, 0)
  end.
Proof.
  unfold acpi_find_root_pointer, rsdp_candidates. cbv zeta. rewrite filter_app.
  change (u32 (ACPI_EBDA_PTR_LOCATION <<< 4)) with 0x40e0. change (0x400 <? 0x40e0) with true. cbn iota.
  destruct (scan_first 0x40e0 64 ACPI_EBDA_WINDOW_SIZE) as (x & Hx & Hf); [lia|by vm_compute|].
  destruct (scan_first ACPI_HI_RSDP_WINDOW_BASE 8192 ACPI_HI_RSDP_WINDOW_SIZE) as (y & Hy & Hg); [done|by vm_compute|].
  rewrite Hx, Hy. clear Hx Hy. change ACPI_HI_RSDP_WINDOW_BASE with 0xe0000 in *. change ACPI_EBDA_WINDOW_SIZE with 1024 in *.
  change ACPI_HI_RSDP_WINDOW_SIZE with 0x20000 in *. unfold truthy.
  destruct (filter rsdp_valid (paragraphs 0x40e0 64)) as [|a l].
  - subst x. cbn [Z.eqb negb app]. destruct (filter _ (paragraphs 0xe0000 8192)) as [|b k].
    { by subst y. }
    destruct Hg as [-> Hb]. rewrite (proj2 (Z.eqb_neq b 0)) by lia. cbn [negb]. f_equal.
    rewrite wrap_small; lia.
  - destruct Hf as [-> Ha]. rewrite (proj2 (Z.eqb_neq a 0)) by lia. cbn [negb app]. f_equal.
    rewrite (wrap_small 32 (a - 0x40e0)), wrap_small by lia. lia.
Qed.

(** ** The tables *)

(** The computation returns [a] and only logs. *)
Definition logs {A} (c : M (machine hw) A) (a : A) : Prop := ∀ s, ∃ l, c s = Done a (set_log l s).

Lemma set_log_same s : set_log (m_log s) s = s.
Proof. by destruct s. Qed.

Lemma logs_printk f a : logs (printk f a) tt.
Proof. intros s. by eexists. Qed.

Lemma logs_print_table_header a b : logs (acpi_tb_print_table_header fw a b) tt.
Proof. unfold acpi_tb_print_table_header, pr_info. repeat case_match; apply logs_printk. Qed.

(** The table at [a] of [len] bytes is good: it sums to zero, or has no checksum. *)
Definition table_ok (a len : Z) : Prop :=
  rd_bytes fw a 4 = ACPI_SIG_S3PT ∨ rd_bytes fw a 4 = ACPI_SIG_FACS ∨ byte_sum a len mod 256 = 0.

#[global] Instance table_ok_dec a len : Decision (table_ok a len).
Proof. unfold table_ok. apply _. Defined.

Lemma logs_verify_checksum a len :
  logs (acpi_tb_verify_checksum fw a len) (if decide (table_ok a len) then AE_OK else AE_BAD_CHECKSUM).
Proof.
  intros s. unfold acpi_tb_verify_checksum, ACPI_COMPARE_NAME, table_ok.
  destruct (decide (rd_bytes fw a 4 = ACPI_SIG_S3PT)) as [E1|E1].
  { rewrite bool_decide_eq_true_2 by done. rewrite decide_True by tauto. exists (m_log s). by rewrite set_log_same. }
  destruct (decide (rd_bytes fw a 4 = ACPI_SIG_FACS)) as [E2|E2].
  { rewrite orb_comm, bool_decide_eq_true_2 by done. rewrite decide_True by tauto. exists (m_log s). by rewrite set_log_same. }
  rewrite !bool_decide_eq_false_2 by done. cbn [orb]. rewrite checksum_sum. unfold truthy.
  destruct (Z.eqb_spec (byte_sum a len mod 256) 0); cbn [negb].
  - rewrite decide_True by tauto. exists (m_log s). by rewrite set_log_same.
  - rewrite decide_False by tauto. by eexists.
Qed.

(** The entries of a root table. *)
Definition root_entries (entry size : Z) (n : nat) : list Z :=
  (λ i, acpi_tb_get_root_table_entry fw (entry + size * Z.of_nat i) size) <$> seq 0 n.

Lemma root_entries_S entry size n :
  root_entries entry size (S n) =
  acpi_tb_get_root_table_entry fw entry size :: root_entries (entry + size) size n.
Proof.
  unfold root_entries. cbn [seq fmap list_fmap]. f_equal; [f_equal; lia|].
  rewrite <- (fmap_S_seq 0 n), <- list_fmap_compose.
  apply list_fmap_ext. intros i x _. cbn. f_equal. lia.
Qed.

(** An entry the code takes over. *)
Definition entry_ok (a : Z) : Prop := a ≠ 0 ∧ table_ok a (rd32 fw (a + 4)).

#[global] Instance entry_ok_dec a : Decision (entry_ok a).
Proof. unfold entry_ok. apply _. Defined.

Lemma inserts_past {A} i (k l : list A) : (length l ≤ i)%nat → list_inserts i k l = l.
Proof.
  revert i. induction k as [|x k IH]; intros i Hi; [done|]. cbn [list_inserts].
  rewrite IH by lia. by apply list_insert_ge.
Qed.

Lemma root_table_loop_spec n entry size index s :
  0 ≤ index < ACPI_MAX_TABLES → length (m_acpi_tables s) = Z.to_nat ACPI_MAX_TABLES →
  ∃ l, root_table_loop fw n entry size index s =
    Done tt (set_log l (set_acpi_tables
      (list_inserts (Z.to_nat index) (filter entry_ok (root_entries entry size n)) (m_acpi_tables s)) s)).
Proof.
  change ACPI_MAX_TABLES with 128. change (Z.to_nat 128) with 128%nat.
  revert entry index s. induction n as [|n IH]; intros entry index s Hi Hl.
  { exists (m_log s). cbn. by destruct s. }
  rewrite root_entries_S, filter_cons. cbn [root_table_loop].
  generalize (acpi_tb_get_root_table_entry fw entry size). intros a. cbv zeta.
  destruct (Z.eqb_spec a 0) as [->|Hne].
  { rewrite decide_False by (intros [? _]; done). by apply IH. }
  destruct (logs_verify_checksum a (th_length (header_at fw a)) s) as [l Hv]. rewrite (bind_done _ _ _ _ _ Hv).
  cbn [th_length header_at] in *. destruct (decide (table_ok a (rd32 fw (a + 4)))) as [Hok|Hbad].
  2: { rewrite (decide_False (P := entry_ok a)) by (intros [_ ?]; done). change (ACPI_FAILURE AE_BAD_CHECKSUM) with true. cbn iota.
       destruct (IH (entry + size) index (set_log l s) Hi Hl) as [l' Hr]. exists l'. by rewrite Hr. }
  rewrite (decide_True (P := entry_ok a)) by by split. change (ACPI_FAILURE AE_OK) with false. cbn iota.
  unfold gets, modify. erewrite bind_done by reflexivity. erewrite bind_done by reflexivity. cbn [m_acpi_tables set_log].
  set (s1 := set_acpi_tables (aset (m_acpi_tables s) index a) (set_log l s)).
  destruct (logs_print_table_header a a s1) as [l1 Hp]. rewrite (bind_done _ _ _ _ _ Hp).
  assert (aset (m_acpi_tables s) index a = <[Z.to_nat index := a]> (m_acpi_tables s)) as Ha.
  { unfold aset. destruct (Z.ltb_spec index 0); [lia|done]. }
  change ACPI_MAX_TABLES with 128. destruct (Z.eqb_spec (index + 1) 128) as [Hend|Hend].
  - exists l1. unfold s1. rewrite Ha. cbn [list_inserts]. rewrite inserts_past; [done|rewrite Hl; lia].
  - destruct (IH (entry + size) (index + 1) (set_log l1 s1)) as [l2 Hr]; [lia|by cbn; rewrite aset_length|].
    exists l2. rewrite Hr. unfold s1. cbn. rewrite Ha. replace (Z.to_nat (index + 1)) with (S (Z.to_nat index)) by lia.
    cbn [list_inserts]. by rewrite list_insert_inserts_lt by lia.
Qed.

(** The root table of an RSDP and the size of its entries. *)
Definition root_of (rsdp : Z) : Z * Z :=
  if decide (1 < rd8 fw (rsdp + 15) ∧ rd64 fw (rsdp + 24) ≠ 0) then (rd64 fw (rsdp + 24), 8)
  else (rd32 fw (rsdp + 16), 4).

Definition root_valid (rsdp : Z) : Prop :=
  36 + (root_of rsdp).2 ≤ rd32 fw ((root_of rsdp).1 + 4) ∧
  table_ok (root_of rsdp).1 (rd32 fw ((root_of rsdp).1 + 4)).

#[global] Instance root_valid_dec rsdp : Decision (root_valid rsdp).
Proof. unfold root_valid. apply _. Defined.

(** The tables the root table lists, less the null and the damaged ones. *)
Definition valid_tables (rsdp : Z) : list Z :=
  let '(a, size) := root_of rsdp in
  filter entry_ok (root_entries (a + 36) size (Z.to_nat ((rd32 fw (a + 4) - 36) / size))).

(** The array of pointers to [l], cut to its length and filled with null. *)
Definition table_array (l : list Z) : list Z := take 128 (l ++ replicate 128 0).

Lemma inserts_array {A} n (l : list A) x :
  list_inserts 0 l (replicate n x) = take n (l ++ replicate n x).
Proof.
  destruct (decide (length l ≤ n)%nat) as [Hle|Hgt].
  - rewrite take_app_ge by done. rewrite <- (take_drop (length l) (replicate n x)) at 1.
    rewrite list_inserts_0_r by (rewrite length_take, length_replicate; lia).
    f_equal. rewrite drop_replicate, take_replicate. f_equal. lia.
  - rewrite take_app_le by lia. rewrite <- (take_drop n l) at 1.
    by rewrite list_inserts_0_l by (rewrite length_take, length_replicate; lia).
Qed.

Lemma parse_root_table_spec rsdp s :
  m_acpi_tables s = replicate 128 0 →
  (root_valid rsdp → ∃ l, acpi_tb_parse_root_table fw rsdp s =
     Done AE_OK (set_log l (set_acpi_tables (table_array (valid_tables rsdp)) s))) ∧
  (¬ root_valid rsdp → ∃ l r, acpi_tb_parse_root_table fw rsdp s = Done r (set_log l s) ∧ ACPI_FAILURE r = true).
Proof.
  intros Ht. unfold acpi_tb_parse_root_table.
  destruct (logs_print_table_header rsdp rsdp s) as [l Hp]. cbv zeta. rewrite (bind_done _ _ _ _ _ Hp). clear Hp.
  cbn [rsdp_revision xsdt_physical_address rsdt_physical_address rsdp_at].
  assert ((if (1 <? rd8 fw (rsdp + 15)) && truthy (rd64 fw (rsdp + 24)) then (rd64 fw (rsdp + 24), ACPI_XSDT_ENTRY_SIZE)
    else (rd32 fw (rsdp + 16), ACPI_RSDT_ENTRY_SIZE)) = root_of rsdp) as ->.
  { unfold root_of, truthy. destruct (Z.ltb_spec 1 (rd8 fw (rsdp + 15))), (Z.eqb_spec (rd64 fw (rsdp + 24)) 0); cbn [negb andb];
      case_decide; (done || lia). }
  unfold root_valid, valid_tables. destruct (root_of rsdp) as [a size]. cbn [fst snd th_length header_at].
  destruct (logs_print_table_header a a (set_log l s)) as [l1 Hp]. rewrite (bind_done _ _ _ _ _ Hp). clear Hp.
  unfold sizeof_acpi_table_header. destruct (Z.ltb_spec (rd32 fw (a + 4)) (36 + size)).
  { split; [lia|]. intros _. unfold pr_err, printk, modify. eexists _, AE_INVALID_TABLE_LENGTH. split; [|done].
    erewrite bind_done by reflexivity. reflexivity. }
  destruct (logs_verify_checksum a (rd32 fw (a + 4)) (set_log l1 (set_log l s))) as [l2 Hv].
  rewrite (bind_done _ _ _ _ _ Hv). clear Hv. destruct (decide (table_ok a (rd32 fw (a + 4)))) as [Hok|Hbad].
  2: { split; [tauto|]. intros _. eexists _, AE_BAD_CHECKSUM. by split. }
  split; [|tauto]. intros _. change (ACPI_FAILURE AE_OK) with false. cbn iota.
  destruct (root_table_loop_spec (Z.to_nat ((rd32 fw (a + 4) - 36) / size)) (a + 36) size 0
    (set_log l2 (set_log l1 (set_log l s)))) as [l3 Hr]; [done|cbn; by rewrite Ht|].
  rewrite (bind_done _ _ _ _ _ Hr). eexists.
  cbn [m_acpi_tables set_log]. rewrite Ht. change (Z.to_nat 0) with 0%nat. by rewrite inserts_array.
Qed.

(** ** Looking for a table *)

Definition named (id : list Z) (a : Z) : Prop := rd_bytes fw a 4 = id.

#[global] Instance named_dec id a : Decision (named id a).
Proof. unfold named. apply _. Defined.

Lemma find_table_zeros id n : find_table_loop fw (replicate n 0) id = 0.
Proof. induction n as [|n IH]; cbn; [done|]. by case_match. Qed.

(** Empty slots are harmless: a match at address 0 is the null pointer. *)
Lemma find_table_array id l :
  find_table_loop fw (table_array l) id = default 0 (head (filter (named id) (take 128 l))).
Proof.
  unfold table_array. generalize (128%nat) at 2 as k. generalize 128%nat as n. intros n k. revert n.
  induction l as [|a l IH]; intros n; cbn [app].
  - rewrite take_replicate, find_table_zeros. by destruct n.
  - destruct n as [|n]; [done|]. cbn [take firstn find_table_loop]. unfold ACPI_COMPARE_NAME. rewrite filter_cons. fold (named id a).
    case_bool_decide; [by rewrite decide_True|]. rewrite decide_False by done. apply IH.
Qed.

Lemma acpi_find_table_spec id l s :
  m_acpi_tables s = table_array l →
  acpi_find_table fw id s = Done (default 0 (head (filter (named id) (take 128 l)))) s.
Proof. intros Ht. unfold acpi_find_table. erewrite bind_done by reflexivity. by rewrite Ht, find_table_array. Qed.

Lemma acpi_table_init_finds rsdp rest s :
  filter rsdp_valid rsdp_candidates = rsdp :: rest → root_valid rsdp →
  ∃ l, acpi_table_init fw s = Done tt (set_log l (set_acpi_tables (table_array (valid_tables rsdp)) s)).
Proof.
  intros Hf Hv. unfold acpi_table_init. rewrite find_root_pointer_spec, Hf. change (Z.to_nat ACPI_MAX_TABLES) with 128%nat.
  unfold modify. erewrite bind_done by reflexivity. change (ACPI_FAILURE AE_OK) with false. cbn iota.
  erewrite bind_done by reflexivity.
  destruct (parse_root_table_spec rsdp (set_acpi_tables (replicate 128 0) s) eq_refl) as [Hok _].
  destruct (Hok Hv) as [l Hr]. exists l. by rewrite (bind_done _ _ _ _ _ Hr).
Qed.

End spec.
