(* ===== verification/Madt.v ===== *)
(** The MADT: how [kernel/acpi.c] prints its entries and how [kernel/apic.c] reads the
    local APICs from them, up to [apic_init]. *)

From Stdlib Require Import String.
From S2P Require Import Prelude Mem CString Hexdump Vmcs Machine Cpu Apic Acpi.
#[local] Open Scope string_scope.
#[local] Open Scope Z_scope.
#[local] Open Scope cint_scope.

Definition ACPI_MADT_TYPE_LOCAL_APIC : Z := 0.
Definition ACPI_MADT_TYPE_IO_APIC : Z := 1.
Definition ACPI_MADT_TYPE_INTERRUPT_OVERRIDE : Z := 2.
Definition ACPI_MADT_TYPE_NMI_SOURCE : Z := 3.
Definition ACPI_MADT_TYPE_LOCAL_APIC_NMI : Z := 4.
Definition ACPI_MADT_TYPE_LOCAL_APIC_OVERRIDE : Z := 5.
Definition ACPI_MADT_TYPE_IO_SAPIC : Z := 6.
Definition ACPI_MADT_TYPE_LOCAL_SAPIC : Z := 7.
Definition ACPI_MADT_TYPE_INTERRUPT_SOURCE : Z := 8.
Definition ACPI_MADT_TYPE_LOCAL_X2APIC : Z := 9.
Definition ACPI_MADT_TYPE_LOCAL_X2APIC_NMI : Z := 10.
Definition ACPI_MADT_TYPE_GENERIC_INTERRUPT : Z := 11.
Definition ACPI_MADT_TYPE_GENERIC_DISTRIBUTOR : Z := 12.
Definition ACPI_MADT_ENABLED : Z := 1.
Definition ACPI_MADT_POLARITY_MASK : Z := 3.
Definition ACPI_MADT_TRIGGER_MASK : Z := 12.

Definition sizeof_acpi_table_madt : Z := 44.

(** [mps_inti_flags_polarity] and [mps_inti_flags_trigger], indexed by two bits. *)
Definition mps_inti_flags_polarity (flags : Z) : string :=
  let i := flags &&& ACPI_MADT_POLARITY_MASK in
  if i =? 0 then "dfl" else if i =? 1 then "high" else if i =? 2 then "res" else "low".
Definition mps_inti_flags_trigger (flags : Z) : string :=
  let i := (flags &&& ACPI_MADT_TRIGGER_MASK) >>> 2 in
  if i =? 0 then "dfl" else if i =? 1 then "edge" else if i =? 2 then "res" else "level".

Definition enabled_text (lapic_flags : Z) : string :=
  if truthy (lapic_flags &&& ACPI_MADT_ENABLED) then "enabled" else "disabled".

(** [struct acpi_madt_local_apic] and [struct acpi_madt_local_x2apic] at an address. *)
Record acpi_madt_local_apic : Type := { la_processor_id : Z; la_id : Z; la_lapic_flags : Z }.
Definition sizeof_acpi_madt_local_apic : Z := 8.
Record acpi_madt_local_x2apic : Type := { lx_local_apic_id : Z; lx_lapic_flags : Z; lx_uid : Z }.
Definition sizeof_acpi_madt_local_x2apic : Z := 16.

(** The other subtables of [actbl1.h], without their headers and the reserved bytes. *)
Record acpi_madt_io_apic : Type := { ia_id : Z; ia_address : Z; ia_global_irq_base : Z }.
Record acpi_madt_interrupt_override : Type := {
  io_bus : Z; io_source_irq : Z; io_global_irq : Z; io_inti_flags : Z
}.
Record acpi_madt_nmi_source : Type := { ns_inti_flags : Z; ns_global_irq : Z }.
Record acpi_madt_local_apic_nmi : Type := { ln_processor_id : Z; ln_inti_flags : Z; ln_lint : Z }.
Record acpi_madt_local_apic_override : Type := { lo_address : Z }.
Record acpi_madt_io_sapic : Type := { is_id : Z; is_global_irq_base : Z; is_address : Z }.
Record acpi_madt_local_sapic : Type := {
  ls_processor_id : Z; ls_id : Z; ls_eid : Z; ls_lapic_flags : Z; ls_uid : Z
}.
Record acpi_madt_interrupt_source : Type := {
  src_inti_flags : Z; src_type : Z; src_id : Z; src_eid : Z; src_io_sapic_vector : Z;
  src_global_irq : Z; src_flags : Z
}.
Record acpi_madt_local_x2apic_nmi : Type := { xn_inti_flags : Z; xn_uid : Z; xn_lint : Z }.
Record acpi_madt_generic_interrupt : Type := {
  gi_cpu_interface_number : Z; gi_uid : Z; gi_flags : Z; gi_parking_version : Z;
  gi_performance_interrupt : Z; gi_parked_address : Z; gi_base_address : Z; gi_gicv_base_address : Z;
  gi_gich_base_address : Z; gi_vgic_interrupt : Z; gi_gicr_base_address : Z; gi_arm_mpidr : Z;
  gi_efficiency_class : Z
}.
Record acpi_madt_generic_distributor : Type := {
  gd_gic_id : Z; gd_base_address : Z; gd_global_irq_base : Z; gd_version : Z
}.

Section madt.
Context {hw : Type} `{Hardware hw} (fw : bmem).
Implicit Types s : machine hw.

Definition local_apic_at (p : Z) : acpi_madt_local_apic :=
  {| la_processor_id := rd8 fw (p + 2); la_id := rd8 fw (p + 3); la_lapic_flags := rd32 fw (p + 4) |}.
Definition local_x2apic_at (p : Z) : acpi_madt_local_x2apic :=
  {| lx_local_apic_id := rd32 fw (p + 4); lx_lapic_flags := rd32 fw (p + 8); lx_uid := rd32 fw (p + 12) |}.

(** The structures are packed. *)
Definition io_apic_at (p : Z) : acpi_madt_io_apic := {|
  ia_id := rd8 fw (p + 2); ia_address := rd32 fw (p + 4); ia_global_irq_base := rd32 fw (p + 8)
|}.
Definition interrupt_override_at (p : Z) : acpi_madt_interrupt_override := {|
  io_bus := rd8 fw (p + 2); io_source_irq := rd8 fw (p + 3); io_global_irq := rd32 fw (p + 4);
  io_inti_flags := rd16 fw (p + 8)
|}.
Definition nmi_source_at (p : Z) : acpi_madt_nmi_source := {|
  ns_inti_flags := rd16 fw (p + 2); ns_global_irq := rd32 fw (p + 4)
|}.
Definition local_apic_nmi_at (p : Z) : acpi_madt_local_apic_nmi := {|
  ln_processor_id := rd8 fw (p + 2); ln_inti_flags := rd16 fw (p + 3); ln_lint := rd8 fw (p + 5)
|}.
Definition local_apic_override_at (p : Z) : acpi_madt_local_apic_override := {|
  lo_address := rd64 fw (p + 4)
|}.
Definition io_sapic_at (p : Z) : acpi_madt_io_sapic := {|
  is_id := rd8 fw (p + 2); is_global_irq_base := rd32 fw (p + 4); is_address := rd64 fw (p + 8)
|}.
Definition local_sapic_at (p : Z) : acpi_madt_local_sapic := {|
  ls_processor_id := rd8 fw (p + 2); ls_id := rd8 fw (p + 3); ls_eid := rd8 fw (p + 4);
  ls_lapic_flags := rd32 fw (p + 8); ls_uid := rd32 fw (p + 12)
|}.
Definition interrupt_source_at (p : Z) : acpi_madt_interrupt_source := {|
  src_inti_flags := rd16 fw (p + 2); src_type := rd8 fw (p + 4); src_id := rd8 fw (p + 5);
  src_eid := rd8 fw (p + 6); src_io_sapic_vector := rd8 fw (p + 7); src_global_irq := rd32 fw (p + 8);
  src_flags := rd32 fw (p + 12)
|}.
Definition local_x2apic_nmi_at (p : Z) : acpi_madt_local_x2apic_nmi := {|
  xn_inti_flags := rd16 fw (p + 2); xn_uid := rd32 fw (p + 4); xn_lint := rd8 fw (p + 8)
|}.
Definition generic_interrupt_at (p : Z) : acpi_madt_generic_interrupt := {|
  gi_cpu_interface_number := rd32 fw (p + 4); gi_uid := rd32 fw (p + 8); gi_flags := rd32 fw (p + 12);
  gi_parking_version := rd32 fw (p + 16); gi_performance_interrupt := rd32 fw (p + 20);
  gi_parked_address := rd64 fw (p + 24); gi_base_address := rd64 fw (p + 32);
  gi_gicv_base_address := rd64 fw (p + 40); gi_gich_base_address := rd64 fw (p + 48);
  gi_vgic_interrupt := rd32 fw (p + 56); gi_gicr_base_address := rd64 fw (p + 60);
  gi_arm_mpidr := rd64 fw (p + 68); gi_efficiency_class := rd8 fw (p + 76)
|}.
Definition generic_distributor_at (p : Z) : acpi_madt_generic_distributor := {|
  gd_gic_id := rd32 fw (p + 4); gd_base_address := rd64 fw (p + 8);
  gd_global_irq_base := rd32 fw (p + 16); gd_version := rd8 fw (p + 20)
|}.

Definition acpi_table_print_madt_entry (p : Z) : M (machine hw) unit :=
  let type := subtable_type fw p in
  if type =? ACPI_MADT_TYPE_LOCAL_APIC then
    pr_info "LAPIC (acpi_id[0x%02x] lapic_id[0x%02x] %s)"
      [Num (la_processor_id (local_apic_at p)); Num (la_id (local_apic_at p));
       Str (enabled_text (la_lapic_flags (local_apic_at p)))]
  else if type =? ACPI_MADT_TYPE_LOCAL_X2APIC then
    pr_info "X2APIC (apic_id[0x%02x] uid[0x%02x] %s)"
      [Num (lx_local_apic_id (local_x2apic_at p)); Num (lx_uid (local_x2apic_at p));
       Str (enabled_text (lx_lapic_flags (local_x2apic_at p)))]
  else if type =? ACPI_MADT_TYPE_IO_APIC then
    pr_info "IOAPIC (id[0x%02x] address[0x%08x] gsi_base[%d])"
      [Num (ia_id (io_apic_at p)); Num (ia_address (io_apic_at p)); Num (ia_global_irq_base (io_apic_at p))]
  else if type =? ACPI_MADT_TYPE_INTERRUPT_OVERRIDE then
    let inti_flags := io_inti_flags (interrupt_override_at p) in
    pr_info "INT_SRC_OVR (bus %d bus_irq %d global_irq %d %s %s)"
      [Num (io_bus (interrupt_override_at p)); Num (io_source_irq (interrupt_override_at p));
       Num (io_global_irq (interrupt_override_at p));
       Str (mps_inti_flags_polarity inti_flags); Str (mps_inti_flags_trigger inti_flags)] ;;
    let reserved := inti_flags &&& not32 (ACPI_MADT_POLARITY_MASK ||| ACPI_MADT_TRIGGER_MASK) in
    when (truthy reserved) (pr_info "INT_SRC_OVR unexpected reserved flags: 0x%x" [Num reserved])
  else if type =? ACPI_MADT_TYPE_NMI_SOURCE then
    let inti_flags := ns_inti_flags (nmi_source_at p) in
    pr_info "NMI_SRC (%s %s global_irq %d)"
      [Str (mps_inti_flags_polarity inti_flags); Str (mps_inti_flags_trigger inti_flags);
       Num (ns_global_irq (nmi_source_at p))]
  else if type =? ACPI_MADT_TYPE_LOCAL_APIC_NMI then
    let inti_flags := ln_inti_flags (local_apic_nmi_at p) in
    pr_info "LAPIC_NMI (acpi_id[0x%02x] %s %s lint[0x%x])"
      [Num (ln_processor_id (local_apic_nmi_at p)); Str (mps_inti_flags_polarity inti_flags);
       Str (mps_inti_flags_trigger inti_flags); Num (ln_lint (local_apic_nmi_at p))]
  else if type =? ACPI_MADT_TYPE_LOCAL_X2APIC_NMI then
    let inti_flags := xn_inti_flags (local_x2apic_nmi_at p) in
    pr_info "X2APIC_NMI (uid[0x%02x] %s %s lint[0x%x])"
      [Num (xn_uid (local_x2apic_nmi_at p)); Str (mps_inti_flags_polarity inti_flags);
       Str (mps_inti_flags_trigger inti_flags); Num (xn_lint (local_x2apic_nmi_at p))]
  else if type =? ACPI_MADT_TYPE_LOCAL_APIC_OVERRIDE then
    pr_info "LAPIC_ADDR_OVR (address[%p])" [Num (lo_address (local_apic_override_at p))]
  else if type =? ACPI_MADT_TYPE_IO_SAPIC then
    pr_info "IOSAPIC (id[0x%x] address[%p] gsi_base[%d])"
      [Num (is_id (io_sapic_at p)); Num (is_address (io_sapic_at p)); Num (is_global_irq_base (io_sapic_at p))]
  else if type =? ACPI_MADT_TYPE_LOCAL_SAPIC then
    pr_info "LSAPIC (acpi_id[0x%02x] lsapic_id[0x%02x] lsapic_eid[0x%02x] %s)"
      [Num (ls_processor_id (local_sapic_at p)); Num (ls_id (local_sapic_at p)); Num (ls_eid (local_sapic_at p));
       Str (enabled_text (ls_lapic_flags (local_sapic_at p)))]
  else if type =? ACPI_MADT_TYPE_INTERRUPT_SOURCE then
    let i := interrupt_source_at p in
    let inti_flags := src_inti_flags i in
    pr_info "PLAT_INT_SRC (%s %s type[0x%x] id[0x%04x] eid[0x%x] iosapic_vector[0x%x] global_irq[0x%x]"
      [Str (mps_inti_flags_polarity inti_flags); Str (mps_inti_flags_trigger inti_flags); Num (src_type i);
       Num (src_id i); Num (src_eid i); Num (src_io_sapic_vector i); Num (src_global_irq i)]
  else if type =? ACPI_MADT_TYPE_GENERIC_INTERRUPT then
    pr_info "GICC (acpi_id[0x%04x] address[%lx] MPIDR[0x%lx] %s)"
      [Num (gi_uid (generic_interrupt_at p)); Num (gi_base_address (generic_interrupt_at p));
       Num (gi_arm_mpidr (generic_interrupt_at p)); Str (enabled_text (gi_flags (generic_interrupt_at p)))]
  else if type =? ACPI_MADT_TYPE_GENERIC_DISTRIBUTOR then
    pr_info "GIC Distributor (gic_id[0x%04x] address[%lx] gsi_base[%d])"
      [Num (gd_gic_id (generic_distributor_at p)); Num (gd_base_address (generic_distributor_at p));
       Num (gd_global_irq_base (generic_distributor_at p))]
  else printk "Found unsupported MADT entry (type = 0x%x)" [Num type].

(** ** [kernel/apic.c] *)

Definition BAD_MADT_ENTRY (entry size end_ : Z) : bool :=
  (entry =? 0) || (end_ <? entry + size) || (subtable_length fw entry <? size).

Definition acpi_parse_madt (table : Z) : M (machine hw) Z :=
  modify (set_lapic_addr (rd32 fw (table + 36))) ;; mret 0.

Definition acpi_parse_lapic (header end_ : Z) : M (machine hw) Z :=
  BUG_ON (BAD_MADT_ENTRY header sizeof_acpi_madt_local_apic end_) ;;
  acpi_table_print_madt_entry header ;;
  let processor := local_apic_at header in
  acpi_register_lapic (la_id processor) (u8 (la_lapic_flags processor &&& ACPI_MADT_ENABLED)) ;;
  mret 0.

Definition acpi_parse_x2apic (header end_ : Z) : M (machine hw) Z :=
  BUG_ON (BAD_MADT_ENTRY header sizeof_acpi_madt_local_x2apic end_) ;;
  acpi_table_print_madt_entry header ;;
  let processor := local_x2apic_at header in
  acpi_register_lapic (s32 (lx_local_apic_id processor)) (u8 (lx_lapic_flags processor &&& ACPI_MADT_ENABLED)) ;;
  mret 0.

Definition acpi_parse_madt_lapic_entries : M (machine hw) Z :=
  r ← acpi_table_parse_entries_array fw ACPI_SIG_MADT sizeof_acpi_table_madt
        [mk_proc ACPI_MADT_TYPE_LOCAL_APIC acpi_parse_lapic 0;
         mk_proc ACPI_MADT_TYPE_LOCAL_X2APIC acpi_parse_x2apic 0] MAX_LOCAL_APIC;
  mret (fst r).

Definition apic_init : M (machine hw) unit :=
  verify_apic ;;
  boot ← gets m_boot_apicid;
  when (boot =? BAD_APICID)
    (r ← acpi_table_parse fw ACPI_SIG_MADT acpi_parse_madt;
     BUG_ON (truthy r) ;;
     id ← read_apic_id;
     modify (set_boot_apicid id) ;;
     r ← acpi_parse_madt_lapic_entries;
     BUG_ON (r <? 0) ;;
     ids ← gets m_apicids;
     if negb (u32 (aget ids 0) =? id) then panic "BIOS bug: boot cpu not detected!" else mret tt) ;;
  clear_local_apic ;;
  setup_local_apic ;;
  lapic_setup_esr.
End madt.
