(* ===== verification/MadtSpec.v ===== *)
(** Which local APICs [kernel/apic.c] accepts from the MADT: with one processor
    ([NR_CPUS] = 1), only the boot processor's. *)

From S2P Require Import Prelude Mem Hexdump Vmcs Machine Cpu Apic Acpi AcpiSpec Madt.
#[local] Open Scope Z_scope.
#[local] Open Scope cint_scope.

Section madt_spec.
Context {hw : Type} `{Hardware hw} (fw : bmem).
Implicit Types s : machine hw.

(** ** The entries *)

(** The addresses of the subtables from [entry] to [end_]; [n] bounds their number. *)
Fixpoint subtables (n : nat) (entry end_ : Z) : list Z :=
  match n with
  | O => []
  | S n => if entry + 2 <? end_ then entry :: subtables n (entry + subtable_length fw entry) end_ else []
  end.

(** The local APIC an entry describes: its id, and whether it is enabled. *)
Definition lapic_of (p : Z) : option (Z * bool) :=
  if subtable_type fw p =? ACPI_MADT_TYPE_LOCAL_APIC then
    Some (la_id (local_apic_at fw p), truthy (la_lapic_flags (local_apic_at fw p) &&& ACPI_MADT_ENABLED))
  else if subtable_type fw p =? ACPI_MADT_TYPE_LOCAL_X2APIC then
    Some (lx_local_apic_id (local_x2apic_at fw p), truthy (lx_lapic_flags (local_x2apic_at fw p) &&& ACPI_MADT_ENABLED))
  else None.

(** An entry inside the table, of the size of its type. *)
Definition entry_fits (end_ p : Z) : Prop :=
  0 < subtable_length fw p ∧
  (subtable_type fw p = ACPI_MADT_TYPE_LOCAL_APIC → p ≠ 0 ∧ p + 8 ≤ end_ ∧ 8 ≤ subtable_length fw p) ∧
  (subtable_type fw p = ACPI_MADT_TYPE_LOCAL_X2APIC → p ≠ 0 ∧ p + 16 ≤ end_ ∧ 16 ≤ subtable_length fw p).

(** ** Registering one local APIC *)

Definition boot_lapic (b : Z) (a : Z * bool) : Prop := a.1 = b ∧ a.2 = true.

(** A processor that this build does not support. *)
Definition foreign_lapic (b : Z) (a : Z * bool) : Prop := a.2 = false ∨ a.1 ≠ b ∧ a.1 ≠ BAD_APICID.

(** The state in which the MADT is read: the boot processor's id is [b], and at most
    that is registered. *)
Definition registering (b : Z) s : Prop :=
  m_boot_apicid s = b ∧ m_nr_cpuids s = 1 ∧
  ∃ x, m_apicids s = [x] ∧ (x = BAD_APICID ∨ u32 x = b).

(** Only the log and the registered id differ. *)
Definition registered s s' : Prop := ∃ l ids, s' = set_log l (set_apicids ids s).

Lemma registered_refl s : registered s s.
Proof. exists (m_log s), (m_apicids s). by destruct s. Qed.

Lemma registered_trans s s1 s2 : registered s s1 → registered s1 s2 → registered s s2.
Proof. intros (l & ids & ->) (l' & ids' & ->). by exists l', ids'. Qed.

Lemma registered_log l s : registered s (set_log l s).
Proof. exists l, (m_apicids s). by destruct s. Qed.

Lemma register_lapic_spec b id enabled s :
  registering b s →
  (truthy enabled = true → u32 id = b →
   ∃ s', acpi_register_lapic id enabled s = Done tt s' ∧ registered s s' ∧ registering b s' ∧ m_apicids s' = [id]) ∧
  (truthy enabled = false ∨ u32 id ≠ b ∧ u32 id ≠ BAD_APICID →
   ∃ msg s', acpi_register_lapic id enabled s = Panicked msg s').
Proof.
  intros (Hb & Hn & x & Hx & Hxb). unfold acpi_register_lapic, truthy. split.
  - intros He Hi. destruct (Z.eqb_spec enabled 0); [done|]. erewrite bind_done by reflexivity.
    unfold gets. do 3 (erewrite bind_done by reflexivity). rewrite Hb, Hi, Z.eqb_refl, Hx.
    eexists. split; [reflexivity|]. split_and!; [exists (m_log s), [id]; by destruct s| |done].
    split; [done|]. split; [done|]. exists id. split; [done|by right].
  - intros Hbad. destruct (Z.eqb_spec enabled 0) as [->|He].
    { eexists _, _. by apply bind_panicked. }
    destruct Hbad as [Hbad|[Hb1 Hb2]]; [done|]. erewrite bind_done by reflexivity.
    unfold gets. do 3 (erewrite bind_done by reflexivity). rewrite Hb, Hx, Hn.
    rewrite (proj2 (Z.eqb_neq _ _)) by done. change (Z.to_nat 1) with 1%nat. cbn [apicid_known].
    rewrite aget_cons_0. destruct (Z.eqb_spec x id) as [->|].
    { exfalso. destruct Hxb as [->|]; [|done]. by apply Hb2. }
    eexists _, _. by apply bind_panicked.
Qed.

Lemma registering_log b l s : registering b s → registering b (set_log l s).
Proof. done. Qed.

Lemma logs_print_madt_entry p : logs (hw := hw) (acpi_table_print_madt_entry fw p) tt.
Proof.
  intros s. unfold acpi_table_print_madt_entry, pr_info, printk, modify, when.
  repeat case_match; by eexists.
Qed.

Lemma u32_s32 x : 0 ≤ x < 2 ^ 32 → u32 (s32 x) = x.
Proof.
  intros Hx. unfold swrap, wrap. change (2 ^ (32 - 1)) with (2 ^ 31).
  rewrite Zminus_mod, Z.mod_mod by lia. rewrite <- Zminus_mod.
  replace (x + 2 ^ 31 - 2 ^ 31) with x by lia. by apply Z.mod_small.
Qed.

(** What [acpi_parse_lapic] and [acpi_parse_x2apic] have in common. *)
Definition handles (b : Z) (c : M (machine hw) Z) (a : Z * bool) : Prop := ∀ s, registering b s →
  (boot_lapic b a → ∃ s', c s = Done 0 s' ∧ registered s s' ∧ registering b s' ∧ u32 (aget (m_apicids s') 0) = b) ∧
  (foreign_lapic b a → ∃ msg s', c s = Panicked msg s').

Lemma parse_handles b size end_ p id enabled a :
  BAD_MADT_ENTRY fw p size end_ = false → u32 id = a.1 → truthy enabled = a.2 →
  handles b (BUG_ON (BAD_MADT_ENTRY fw p size end_) ;; acpi_table_print_madt_entry fw p ;;
    acpi_register_lapic id enabled ;; mret 0) a.
Proof.
  intros Hbad Hid He s Hs. rewrite Hbad. erewrite bind_done by reflexivity.
  destruct (logs_print_madt_entry p s) as [l Hp]. rewrite (bind_done _ _ _ _ _ Hp).
  destruct (register_lapic_spec b id enabled (set_log l s)) as [H1 H2]; [done|].
  unfold boot_lapic, foreign_lapic. rewrite <- Hid, <- He. split.
  - intros [Hb Ht]. destruct (H1 Ht Hb) as (s' & Hr & Hreg & Hg & Hids). exists s'.
    rewrite (bind_done _ _ _ _ _ Hr). split; [done|]. split; [|split; [done|by rewrite Hids, aget_cons_0]].
    eapply registered_trans; [apply registered_log|done].
  - intros Hf. destruct (H2 Hf) as (msg & s' & Hr). exists msg, s'. by apply bind_panicked.
Qed.

Lemma truthy_u8_enabled f : truthy (u8 (f &&& ACPI_MADT_ENABLED)) = truthy (f &&& ACPI_MADT_ENABLED).
Proof.
  pose proof (land_bound_r 1 f ACPI_MADT_ENABLED ltac:(lia) ltac:(done)). by rewrite wrap_small by lia.
Qed.

Lemma parse_lapic_handles b p end_ a :
  entry_fits end_ p → lapic_of p = Some a →
  handles b (if subtable_type fw p =? ACPI_MADT_TYPE_LOCAL_APIC then acpi_parse_lapic fw p end_
             else acpi_parse_x2apic fw p end_) a.
Proof.
  unfold lapic_of. intros (_ & H1 & H2). destruct (Z.eqb_spec (subtable_type fw p) ACPI_MADT_TYPE_LOCAL_APIC) as [E|E].
  - intros [= <-]. destruct (H1 E) as (? & ? & ?). apply parse_handles.
    + unfold BAD_MADT_ENTRY, sizeof_acpi_madt_local_apic. zbool.
    + cbn [fst]. apply wrap_small. pose proof (rd8_bound fw (p + 3)). cbn. lia.
    + apply truthy_u8_enabled.
  - destruct (Z.eqb_spec (subtable_type fw p) ACPI_MADT_TYPE_LOCAL_X2APIC) as [E'|E']; [|done].
    intros [= <-]. destruct (H2 E') as (? & ? & ?). apply parse_handles.
    + unfold BAD_MADT_ENTRY, sizeof_acpi_madt_local_x2apic. zbool.
    + cbn [fst]. apply u32_s32. apply (rd_le_bound fw (p + 4) 4).
    + apply truthy_u8_enabled.
Qed.

(** ** The walk over the entries *)

Definition madt_procs (procs : list (acpi_subtable_proc (hw := hw))) : Prop :=
  ∃ c1 c2, procs = [mk_proc ACPI_MADT_TYPE_LOCAL_APIC (acpi_parse_lapic fw) c1;
                    mk_proc ACPI_MADT_TYPE_LOCAL_X2APIC (acpi_parse_x2apic fw) c2].

Lemma run_proc_none procs p end_ s :
  madt_procs procs → lapic_of p = None → run_proc fw procs p end_ s = Done (procs, false) s.
Proof.
  unfold lapic_of. intros (c1 & c2 & ->) Hn. cbn [run_proc proc_id].
  destruct (_ =? ACPI_MADT_TYPE_LOCAL_APIC); [done|]. by destruct (_ =? ACPI_MADT_TYPE_LOCAL_X2APIC).
Qed.

Lemma run_proc_some b procs p end_ a s :
  madt_procs procs → entry_fits end_ p → lapic_of p = Some a → registering b s →
  (boot_lapic b a → ∃ procs' s', run_proc fw procs p end_ s = Done (procs', true) s' ∧ madt_procs procs' ∧
     registered s s' ∧ registering b s' ∧ u32 (aget (m_apicids s') 0) = b) ∧
  (foreign_lapic b a → ∃ msg s', run_proc fw procs p end_ s = Panicked msg s').
Proof.
  intros (c1 & c2 & ->) Hfit Ha Hs. pose proof (parse_lapic_handles b p end_ a Hfit Ha s Hs) as [H1 H2].
  unfold lapic_of in Ha. cbn [run_proc proc_id proc_handler].
  destruct (subtable_type fw p =? ACPI_MADT_TYPE_LOCAL_APIC); cbn [negb].
  - split.
    + intros Hb. destruct (H1 Hb) as (s' & Hr & Hrest). eexists _, s'. rewrite (bind_done _ _ _ _ _ Hr).
      split; [reflexivity|]. split; [by eexists _, _|done].
    + intros Hf. destruct (H2 Hf) as (msg & s' & Hr). exists msg, s'. by apply bind_panicked.
  - destruct (subtable_type fw p =? ACPI_MADT_TYPE_LOCAL_X2APIC); [|done]. cbn [negb]. split.
    + intros Hb. destruct (H1 Hb) as (s' & Hr & Hrest). eexists _, s'. unfold mbind, M_bind. rewrite Hr.
      split; [reflexivity|]. split; [by eexists _, _|done].
    + intros Hf. destruct (H2 Hf) as (msg & s' & Hr). exists msg, s'. apply bind_panicked, bind_panicked. done.
Qed.

(** What is to come of the entries [l], of which [count] were counted before. *)
Definition walked (b count : Z) (l : list (Z * bool)) s
    (o : outcome (machine hw) (Z * list (acpi_subtable_proc (hw := hw)))) : Prop :=
  (Forall (boot_lapic b) l → ∃ procs s', o = Done (count + Z.of_nat (length l), procs) s' ∧ registered s s' ∧
     (u32 (aget (m_apicids s) 0) = b ∨ l ≠ [] → u32 (aget (m_apicids s') 0) = b)) ∧
  (∀ l1 a l2, l = l1 ++ a :: l2 → Forall (boot_lapic b) l1 → foreign_lapic b a → ∃ msg s', o = Panicked msg s').

Lemma boot_not_foreign b a : boot_lapic b a → foreign_lapic b a → False.
Proof. unfold boot_lapic, foreign_lapic. intros [H1 H2] [H3|[H3 _]]; congruence. Qed.

Lemma walked_cons b count a l s s1 o :
  registered s s1 → boot_lapic b a → u32 (aget (m_apicids s1) 0) = b →
  walked b (count + 1) l s1 o → walked b count (a :: l) s o.
Proof.
  intros Hreg Ha Hids [H1 H2]. split.
  - intros Hl. apply Forall_cons in Hl as [_ Hl]. destruct (H1 Hl) as (procs & s' & -> & Hr & Hb).
    exists procs, s'. split; [cbn [length]; do 2 f_equal; lia|]. split; [by eapply registered_trans|]. intros _. apply Hb. by left.
  - intros l1 a' l2 He Hl1 Hf. destruct l1 as [|a1 l1].
    + injection He as -> ->. destruct (boot_not_foreign b a' Ha Hf).
    + injection He as -> ->. apply Forall_cons in Hl1 as [_ Hl1]. eapply H2; done.
Qed.

Lemma walked_here b count a l s msg s' :
  foreign_lapic b a → walked b count (a :: l) s (Panicked msg s').
Proof.
  intros Hf. split.
  - intros Hl. apply Forall_cons in Hl as [Ha _]. destruct (boot_not_foreign b a Ha Hf).
  - intros. eauto.
Qed.

(** Any fuel that reaches the end gives the same entries. *)
Lemma subtables_fuel end_ n n' entry :
  Forall (entry_fits end_) (subtables n entry end_) → end_ - entry ≤ Z.of_nat n → end_ - entry ≤ Z.of_nat n' →
  subtables n' entry end_ = subtables n entry end_.
Proof.
  revert n' entry. induction n as [|n IH]; intros n' entry Hf Hn Hn'; cbn [subtables] in *.
  - destruct n'; cbn [subtables]; [done|]. destruct (Z.ltb_spec (entry + 2) end_); [lia|done].
  - destruct n' as [|n']; cbn [subtables]; destruct (Z.ltb_spec (entry + 2) end_); try done; [lia|].
    apply Forall_cons in Hf as [[Hlen _] Hf]. f_equal. apply IH; (done || lia).
Qed.

Definition walk (end_ entry : Z) : list Z := subtables (Z.to_nat (end_ - entry)) entry end_.

Lemma walk_end end_ entry : end_ ≤ entry + 2 → walk end_ entry = [].
Proof.
  intros He. unfold walk. destruct (Z.to_nat _); cbn [subtables]; [done|].
  by rewrite (proj2 (Z.ltb_ge _ _)) by lia.
Qed.

Lemma walk_step end_ entry :
  entry + 2 < end_ → Forall (entry_fits end_) (walk end_ entry) →
  walk end_ entry = entry :: walk end_ (entry + subtable_length fw entry).
Proof.
  intros He. unfold walk. replace (Z.to_nat (end_ - entry)) with (S (Z.to_nat (end_ - entry - 1))) by lia.
  cbn [subtables]. rewrite (proj2 (Z.ltb_lt _ _)) by lia. intros Hf. apply Forall_cons in Hf as [[Hlen _] Hf].
  f_equal. symmetry. apply subtables_fuel; (done || lia).
Qed.

(** What the entries have to be for the outcome to be determined. *)
Definition walkable (b end_ entry count : Z) : Prop :=
  Forall (entry_fits end_) (walk end_ entry) ∧
  Forall (λ a, boot_lapic b a ∨ foreign_lapic b a) (omap lapic_of (walk end_ entry)) ∧
  0 ≤ count ∧ count + Z.of_nat (length (omap lapic_of (walk end_ entry))) ≤ MAX_LOCAL_APIC.

Lemma walked_nil b count procs s : walked b count [] s (Done (count, procs) s).
Proof.
  split.
  - intros _. exists procs, s. cbn. rewrite Z.add_0_r. split; [done|]. split; [apply registered_refl|]. by intros [].
  - by intros [].
Qed.

Lemma entries_loop_spec b end_ entry count procs s :
  end_ - entry < 2 ^ 64 → madt_procs procs → registering b s → walkable b end_ entry count →
  walked b count (omap lapic_of (walk end_ entry)) s
    (loop (entries_step fw end_ MAX_LOCAL_APIC) (entry, count, procs) s).
Proof.
  intros Hend Hp Hs Hw.
  apply (loop_outcome (entries_step fw end_ MAX_LOCAL_APIC)
    (λ a s, let '(entry, count, procs) := a in madt_procs procs ∧ registering b s ∧ walkable b end_ entry count)
    (λ a s o, let '(entry, count, procs) := a in walked b count (omap lapic_of (walk end_ entry)) s o)
    (λ a _, Z.max 0 (end_ - a.1.1))) with (a := (entry, count, procs)); [|done|cbn; lia].
  clear. intros [[entry count] procs] s (Hp & Hs & Hfit & Hbf & Hc & Hmax). unfold loop_step_to, entries_step.
  destruct (Z.ltb_spec (entry + 2) end_) as [Hlt|]; cbn [negb]; [|rewrite walk_end by lia; apply walked_nil].
  change (truthy MAX_LOCAL_APIC) with true. cbn [andb]. destruct (Z.leb_spec MAX_LOCAL_APIC count) as [Hle|_].
  { destruct (omap lapic_of (walk end_ entry)); [apply walked_nil|cbn in Hmax; lia]. }
  rewrite walk_step in * by done. apply Forall_cons in Hfit as [Hfit Hfits]. pose proof Hfit as [Hlen _].
  set (entry' := entry + subtable_length fw entry) in *. cbn [omap list_omap] in *. cbn [fst].
  assert (truthy (subtable_length fw entry) = true) as Htruthy.
  { unfold truthy. by rewrite (proj2 (Z.eqb_neq _ _)) by lia. }
  destruct (lapic_of entry) as [a|] eqn:Ha.
  - apply Forall_cons in Hbf as [[Hb|Hf] Hbf]; destruct (run_proc_some b procs entry end_ a s Hp Hfit Ha Hs) as [H1 H2].
    + destruct (H1 Hb) as (procs' & s' & Hr & Hp' & Hreg & Hs' & Hids). rewrite (bind_done _ _ _ _ _ Hr).
      rewrite Htruthy. cbn [negb BUG_ON]. unfold BUG_ON. erewrite bind_done by reflexivity. cbn [length] in Hmax.
      split; [split; [done|]; split; [done|]; split_and!; (done || lia)|]. cbn [fst]. split; [lia|].
      intros o Ho. by eapply walked_cons.
    + destruct (H2 Hf) as (msg & s' & Hr). rewrite (bind_panicked _ _ _ _ _ Hr). by apply walked_here.
  - rewrite (bind_done _ _ _ _ _ (run_proc_none procs entry end_ s Hp Ha)).
    rewrite Htruthy. unfold BUG_ON. cbn [negb]. erewrite bind_done by reflexivity.
    split; [done|]. cbn [fst]. split; [lia|done].
Qed.

(** The local APICs of the table named APIC. *)
Definition madt_lapics (table : Z) : list (Z * bool) :=
  omap lapic_of (walk (table + rd32 fw (table + 4)) (table + sizeof_acpi_table_madt)).

Lemma first_other {A} (P Q : A → Prop) l :
  Forall (λ a, P a ∨ Q a) l → Exists Q l → ∃ l1 a l2, l = l1 ++ a :: l2 ∧ Forall P l1 ∧ Q a.
Proof.
  intros Hl. induction Hl as [|a l [Ha|Ha] Hl IH]; intros He; [by apply Exists_nil in He| |by exists [], a, l].
  apply Exists_cons in He as [Hq|He]; [by exists [], a, l|].
  destruct (IH He) as (l1 & x & l2 & -> & H1 & H2). exists (a :: l1), x, l2. split; [done|]. split; [by constructor|done].
Qed.

Lemma madt_lapics_outcome b table s :
  find_table_loop fw (m_acpi_tables s) ACPI_SIG_MADT = table → table ≠ 0 →
  registering b s →
  walkable b (table + rd32 fw (table + 4)) (table + sizeof_acpi_table_madt) 0 →
  (Forall (boot_lapic b) (madt_lapics table) →
   ∃ s', acpi_parse_madt_lapic_entries fw s = Done (Z.of_nat (length (madt_lapics table))) s' ∧
     registered s s' ∧ (madt_lapics table ≠ [] → u32 (aget (m_apicids s') 0) = b)) ∧
  (Exists (foreign_lapic b) (madt_lapics table) →
   ∃ msg s', acpi_parse_madt_lapic_entries fw s = Panicked msg s').
Proof.
  intros Ht Hne Hs Hw. unfold acpi_parse_madt_lapic_entries, acpi_table_parse_entries_array, acpi_find_table.
  set (procs := [_; _]). assert (madt_procs procs) as Hp by by eexists _, _.
  assert (table + rd32 fw (table + 4) - (table + sizeof_acpi_table_madt) < 2 ^ 64) as Hend.
  { pose proof (rd_le_bound fw (table + 4) 4) as Hb. change (256 ^ Z.of_nat 4) with (2 ^ 32) in Hb.
    unfold sizeof_acpi_table_madt, rd32. lia. }
  destruct (entries_loop_spec b _ _ 0 procs s Hend Hp Hs Hw) as [H1 H2]. fold (madt_lapics table) in *.
  assert (∀ o, loop (entries_step fw (table + rd32 fw (table + 4)) MAX_LOCAL_APIC) (table + sizeof_acpi_table_madt, 0, procs) s = o →
    (table_header ← (tables ← gets m_acpi_tables; mret (find_table_loop fw tables ACPI_SIG_MADT));
     if table_header =? 0 then mret (- ENODEV, procs)
     else loop (entries_step fw (table_header + th_length (header_at fw table_header)) MAX_LOCAL_APIC)
            (table_header + sizeof_acpi_table_madt, 0, procs)) s = o) as Hc.
  { intros o <-. unfold mbind, M_bind, gets, mret, M_ret. rewrite Ht, (proj2 (Z.eqb_neq _ _)) by done. done. }
  split.
  - intros Hl. destruct (H1 Hl) as (procs' & s' & Hr & Hreg & Hids). exists s'. rewrite (bind_done _ _ _ _ _ (Hc _ Hr)).
    split; [done|]. split; [done|]. intros Hl'. apply Hids. by right.
  - intros He. destruct Hw as (_ & Hbf & _).
    destruct (first_other _ _ _ Hbf He) as (l1 & a & l2 & Hl & Hb & Hf).
    destruct (H2 l1 a l2 Hl Hb Hf) as (msg & s' & Hr). exists msg, s'. by apply bind_panicked, Hc.
Qed.

(** C21: [acpi_parse_madt_lapic_entries] ends for every table of well-formed entries: it
    answers the number of local APICs and has registered the boot processor when all of
    them are its own and enabled, and panics when one is disabled or another
    processor's.  It changes nothing but the log and the registered id. *)
Theorem madt_lapics_registered b table s :
  find_table_loop fw (m_acpi_tables s) ACPI_SIG_MADT = table → table ≠ 0 →
  registering b s →
  walkable b (table + rd32 fw (table + 4)) (table + sizeof_acpi_table_madt) 0 →
  (Forall (boot_lapic b) (madt_lapics table) →
   ∃ s', acpi_parse_madt_lapic_entries fw s = Done (Z.of_nat (length (madt_lapics table))) s' ∧
     registered s s' ∧ (madt_lapics table ≠ [] → u32 (aget (m_apicids s') 0) = b)) ∧
  (Exists (foreign_lapic b) (madt_lapics table) →
   ∃ msg s', acpi_parse_madt_lapic_entries fw s = Panicked msg s').
Proof. apply madt_lapics_outcome. Qed.
End madt_spec.

(** A MADT with the boot processor's local APIC and an I/O APIC. *)
Definition example_madt : bmem :=
  mem_of 0x1000 (ACPI_SIG_MADT ++ [64; 0; 0; 0] ++ replicate 36 0 ++
    [0; 8; 0; 0; 1; 0; 0; 0] ++ [1; 12] ++ replicate 10 0).

Lemma madt_lapics_registered_witness :
  let s := set_boot_apicid 0 (set_acpi_tables (0x1000 :: replicate 127 0) Concrete.boot) in
  madt_lapics example_madt 0x1000 = [(0, true)] ∧
  ∃ s', acpi_parse_madt_lapic_entries example_madt s = Done 1 s' ∧
    registered s s' ∧ u32 (aget (m_apicids s') 0) = 0.
Proof.
  set (s := set_boot_apicid _ _). assert (madt_lapics example_madt 0x1000 = [(0, true)]) as Hl by (vm_compute; reflexivity).
  split; [exact Hl|].
  destruct (madt_lapics_registered example_madt 0 0x1000 s) as [H1 _].
  - vm_compute. reflexivity.
  - lia.
  - split; [done|]. split; [done|]. exists 0xffff. split; [done|by left].
  - assert (walk example_madt (0x1000 + rd32 example_madt (0x1000 + 4)) (0x1000 + sizeof_acpi_table_madt) = [0x102c; 0x1034])
      as Hw by (vm_compute; reflexivity).
    unfold walkable. rewrite Hw. split; [|split; [|split]].
    + replace (0x1000 + rd32 example_madt (0x1000 + 4)) with 0x1040 by (vm_compute; reflexivity).
      apply Forall_cons_2; [|apply Forall_cons_2; [|constructor]]; unfold entry_fits.
      * replace (subtable_length example_madt 0x102c) with 8 by (vm_compute; reflexivity).
        replace (subtable_type example_madt 0x102c) with 0 by (vm_compute; reflexivity).
        split; [lia|]. split; [lia|discriminate].
      * replace (subtable_length example_madt 0x1034) with 12 by (vm_compute; reflexivity).
        replace (subtable_type example_madt 0x1034) with 1 by (vm_compute; reflexivity).
        split; [lia|]. split; discriminate.
    + replace (omap _ _) with [(0, true)] by (vm_compute; reflexivity).
      apply Forall_singleton. left. split; reflexivity.
    + lia.
    + vm_compute. discriminate.
  - rewrite Hl in H1. destruct H1 as (s' & Hr & Hreg & Hids); [by repeat constructor|].
    exists s'. split; [exact Hr|]. split; [done|]. by apply Hids.
Defined.
