(* ===== verification/Ept.v ===== *)
(** Extended page tables: the tables [vmm/kvm.c] builds and the software walks of
    [vmm/vmx.c].

    The abstract view of the tables is the set of 2 MB guest-physical pages they map
    ([ept_tables]).  The tables are filled either eagerly ([construct_tdp]) or on each EPT
    violation ([handle_ept_violation]); both map a page to itself and neither maps a
    page of the hypervisor. *)

From S2P Require Import Prelude Vmcs Machine.
#[local] Open Scope Z_scope.
#[local] Open Scope cint_scope.

Definition EPTE_READ : Z := BIT 0.
Definition EPTE_WRITE : Z := BIT 1.
Definition EPTE_EXECUTE : Z := BIT 2.
Definition EPTE_PSE : Z := BIT 7.

(** [static uint64_t masks[]] and [shifts[]] *)
Definition masks (i : Z) : Z :=
  aget [0xffffff8000000000; 0xffffffffc0000000; 0xffffffffffe00000; 0xfffffffffffff000] i.
Definition shifts (i : Z) : Z := aget [39; 30; 21; 12] i.

Section ept.
Context {hw : Type} `{Hardware hw} `{Layout}.

Definition store64 (addr v : Z) : M (machine hw) unit :=
  modify (λ s, set_mem (write64 (m_mem s) addr v) s).
Definition load64 (addr : Z) : M (machine hw) Z := gets (λ s, read64 (m_mem s) addr).

Definition rwx : Z := EPTE_READ ||| EPTE_WRITE ||| EPTE_EXECUTE.

(** [for (i = 0; i < 4; ++i) ept_pdpt_0_512g[i] = __pa(ept_pd_0_4g + i * 512) | rwx] *)
Definition link_tables : M (machine hw) unit :=
  store64 ept_pml4 (ept_pdpt_0_512g ||| rwx) ;;
  for_each (seqZ 0 4) (λ i,
    store64 (ept_pdpt_0_512g + 8 * i) ((ept_pd_0_4g + 8 * (i * 512)) ||| rwx)).

Definition construct_tdp : M (machine hw) unit :=
  BUG_ON (truthy (_start mod SZ_2M)) ;;
  BUG_ON (truthy (_end mod SZ_2M)) ;;
  link_tables ;;
  for_each (seqZ 0 (_start / SZ_2M)) (λ i,
    store64 (ept_pd_0_4g + 8 * i) (SZ_2M * i ||| rwx ||| EPTE_PSE)) ;;
  for_each (seqZ (_end / SZ_2M) (SZ_4G / SZ_2M - _end / SZ_2M)) (λ i,
    store64 (ept_pd_0_4g + 8 * i) (SZ_2M * i ||| rwx ||| EPTE_PSE)).

Definition handle_ept_violation (guest_phys : Z) : M (machine hw) unit :=
  (if (_start <=? guest_phys) && (guest_phys <? _end)
   then panic "cannot write into VMM" else mret tt) ;;
  (if SZ_4G <=? guest_phys
   then panic "cannot write to physmem higher than 4G" else mret tt) ;;
  initialized ← gets m_ept_init;
  (if initialized =? 0 then link_tables ;; modify (set_ept_init 1) else mret tt) ;;
  store64 (ept_pd_0_4g + 8 * (guest_phys / SZ_2M))
    ((guest_phys &&& not64 (SZ_2M - 1)) ||| rwx ||| EPTE_PSE).

(** [gpa2hpa]: the loop runs with [n] levels left, at level [i]. *)
Fixpoint gpa2hpa_loop (n : nat) (i entry entries gpa : Z) : M (machine hw) Z :=
  match n with
  | O => mret ((entry &&& not64 0xfff) ||| (gpa &&& 0xfff))
  | S n =>
      let idx := (gpa >>> shifts i) &&& 0x1ff in
      entry ← load64 (u64 (entries + 8 * idx));
      assert (truthy (entry &&& 0x1)) ;;
      if truthy (entry &&& BIT 7) then
        (assert ((i =? 1) || (i =? 2)) ;;
         mret ((entry &&& masks i) ||| (gpa &&& not64 (masks i))))
      else gpa2hpa_loop n (i + 1) entry (entry &&& not64 0xfff) gpa
  end.

Definition gpa2hpa (eptp gpa : Z) : M (machine hw) Z := gpa2hpa_loop 4 0 0 eptp gpa.

Fixpoint gva2hva_loop (n : nat) (i entry entries eptr gva : Z) : M (machine hw) Z :=
  match n with
  | O => mret ((entry &&& not64 0xfff) ||| (gva &&& 0xfff))
  | S n =>
      let idx := (gva >>> shifts i) &&& 0x1ff in
      entry ← load64 (u64 (entries + 8 * idx));
      assert (truthy (entry &&& 0x1)) ;;
      if truthy (entry &&& BIT 7) then
        (assert ((i =? 1) || (i =? 2)) ;;
         mret ((entry &&& masks i) ||| (gva &&& not64 (masks i))))
      else
        entries ← (if i <? 3
                   then gpa2hpa (eptr &&& not64 0xfff) (entry &&& not64 0xfff)
                   else mret entries);
        gva2hva_loop n (i + 1) entry entries eptr gva
  end.

Definition gva2hva (gva : Z) : M (machine hw) Z :=
  cr3 ← vmcs_readl GUEST_CR3;
  eptr ← vmcs_read64 EPT_POINTER;
  entries ← gpa2hpa (eptr &&& not64 0xfff) (cr3 &&& not64 0xfff);
  gva2hva_loop 4 0 0 entries eptr gva.
End ept.

(** ** Entries *)

Lemma rwx_val : rwx = 7.
Proof. reflexivity. Qed.

Lemma page_entry_val k : (SZ_2M * k ||| rwx) ||| EPTE_PSE = SZ_2M * k + 135.
Proof.
  rewrite <- Z.lor_assoc. change (rwx ||| EPTE_PSE) with 135.
  apply (lor_low 21); [lia| |lia].
  change SZ_2M with (2 ^ 21). rewrite Z.mul_comm. by apply Z.mod_mul.
Qed.

Lemma table_entry_val a : a mod 2 ^ 12 = 0 → a ||| rwx = a + 7.
Proof. intros. rewrite rwx_val. by apply (lor_low 12). Qed.

(** ** The linker's placement *)

(** What [vmm/vmm.lds.S] and the [__aligned(PAGE_SIZE)] attributes give: the image
    starts and ends on a 2 MB boundary below 4 GB, and the three tables are
    page-aligned, disjoint objects of the image. *)
Class LayoutOk `{Layout} : Prop := {
  lo_start : 0 < _start ∧ _start mod SZ_2M = 0;
  lo_end : _start < _end ≤ SZ_4G ∧ _end mod SZ_2M = 0;
  lo_pml4 : _start ≤ ept_pml4 ∧ ept_pml4 + 4096 ≤ ept_pdpt_0_512g ∧ ept_pml4 mod 2 ^ 12 = 0;
  lo_pdpt : ept_pdpt_0_512g + 4096 ≤ ept_pd_0_4g ∧ ept_pdpt_0_512g mod 2 ^ 12 = 0;
  lo_pd : ept_pd_0_4g + 16384 ≤ _end ∧ ept_pd_0_4g mod 2 ^ 12 = 0;
  (** The VMXON region and the VMCS, also page-aligned, lie outside the tables. *)
  lo_regions a : a = vmxarea_pa ∨ a = current_vmcs_pa →
    0 ≤ a ∧ a mod 2 ^ 12 = 0 ∧ (a < ept_pml4 ∨ ept_pd_0_4g + 16384 ≤ a);
}.

Section ept_view.
Context {hw : Type} `{Hardware hw} `{Layout}.

(** The 2 MB page [k] lies outside the hypervisor's image. *)
Definition vmm_free (k : Z) : Prop := SZ_2M * (k + 1) ≤ _start ∨ _end ≤ SZ_2M * k.

#[export] Instance vmm_free_dec k : Decision (vmm_free k).
Proof. unfold vmm_free. apply _. Defined.

Lemma table_ne a b i j :
  (a + 4096 ≤ b ∨ b + 4096 ≤ a) → 0 ≤ i < 512 → 0 ≤ j < 512 → a + 8 * i ≠ b + 8 * j.
Proof. lia. Qed.
End ept_view.

(** The tables hold exactly the identity entries of [pages]; [linked] says whether
    the two upper levels have been filled. *)
Record ept_tables `{Layout} (mem : gmap Z Z) (linked : bool) (pages : gset Z) : Prop := {
  et_pml4 i : 0 ≤ i < 512 →
    read64 mem (ept_pml4 + 8 * i) = if linked && (i =? 0) then ept_pdpt_0_512g + 7 else 0;
  et_pdpt i : 0 ≤ i < 512 →
    read64 mem (ept_pdpt_0_512g + 8 * i) =
      if linked && (i <? 4) then ept_pd_0_4g + 4096 * i + 7 else 0;
  et_pd k : 0 ≤ k < 2048 →
    read64 mem (ept_pd_0_4g + 8 * k) = if bool_decide (k ∈ pages) then SZ_2M * k + 135 else 0;
  et_pages k : k ∈ pages → 0 ≤ k < 2048 ∧ vmm_free k;
}.

(** What a translation through the tables gives: the identity on the mapped pages,
    for the 48 bits of the address the walk looks at. *)
Definition ept_spec (linked : bool) (pages : gset Z) (gpa : Z) : option Z :=
  let g := gpa mod 2 ^ 48 in
  if linked && bool_decide (g / SZ_2M ∈ pages) then Some g else None.

Section walk.
Context {hw : Type} `{Hardware hw} `{LayoutOk}.
Implicit Types s : machine hw.

Lemma layout_bounds :
  0 < _start ∧ _start ≤ ept_pml4 ∧ ept_pml4 + 4096 ≤ ept_pdpt_0_512g ∧
  ept_pdpt_0_512g + 4096 ≤ ept_pd_0_4g ∧ ept_pd_0_4g + 16384 ≤ _end ∧ _end ≤ SZ_4G.
Proof. destruct lo_start, lo_end, lo_pml4 as (?&?&?), lo_pdpt, lo_pd. lia. Qed.

Lemma load64_done addr s :
  0 ≤ addr < 2 ^ 64 → load64 (u64 addr) s = Done (read64 (m_mem s) addr) s.
Proof. intros. unfold load64, gets. by rewrite wrap_small. Qed.

Lemma level_idx gpa n : 0 ≤ n → (gpa >>> n) &&& 0x1ff = (gpa / 2 ^ n) mod 512.
Proof. intros. change 0x1ff with (2 ^ 9 - 1). by rewrite shiftr_land_mask. Qed.

(** A level whose entry is a table pointer [t | rwx] steps to the table [t]. *)
Lemma loop_table n i entry entries gpa s idx t :
  idx = (gpa >>> shifts i) &&& 0x1ff → 0 ≤ entries + 8 * idx < 2 ^ 64 →
  read64 (m_mem s) (entries + 8 * idx) = t + 7 → t mod 2 ^ 12 = 0 → 0 ≤ t < 2 ^ 63 →
  gpa2hpa_loop (S n) i entry entries gpa s = gpa2hpa_loop n (i + 1) (t + 7) t gpa s.
Proof.
  intros Hidx Ha Hr Ht Htb. cbn [gpa2hpa_loop]. rewrite <- Hidx.
  rewrite (bind_done _ _ _ _ _ (load64_done _ s Ha)), Hr.
  assert (t + 7 = t ||| 7) as E by (symmetry; by apply (lor_low 12)).
  assert ((t + 7) &&& 1 = 1) as ->.
  { rewrite (land_mask 1) by lia. change (2 ^ 1) with 2. change (2 ^ 12) with 4096 in Ht. divlia. }
  assert ((t + 7) &&& BIT 7 = 0) as ->.
  { bitwise j.
    destruct (Z.eqb_spec j 7) as [->|]; [|by rewrite andb_false_r].
    rewrite E, Z.lor_spec. rewrite <- (Z.mod_pow2_bits_low t 12) by lia. by rewrite Ht. }
  change (truthy 1) with true. change (truthy 0) with false. cbn [assert BUG_ON negb].
  rewrite bind_ret_l. f_equal. change 0xfff with (2 ^ 12 - 1).
  rewrite land_cnot_mask by lia. change (2 ^ 12) with 4096 in *. divlia.
Qed.

(** A level whose entry is empty fails the readability assertion. *)
Lemma loop_empty n i entry entries gpa s idx :
  idx = (gpa >>> shifts i) &&& 0x1ff → 0 ≤ entries + 8 * idx < 2 ^ 64 →
  read64 (m_mem s) (entries + 8 * idx) = 0 →
  gpa2hpa_loop (S n) i entry entries gpa s = Panicked "BUG" s.
Proof.
  intros Hidx Ha Hr. cbn [gpa2hpa_loop]. rewrite <- Hidx.
  by rewrite (bind_done _ _ _ _ _ (load64_done _ s Ha)), Hr.
Qed.

(** A 2 MB entry at level 2 ends the walk. *)
Lemma loop_page n entry entries gpa s idx k :
  idx = (gpa >>> shifts 2) &&& 0x1ff → 0 ≤ entries + 8 * idx < 2 ^ 64 →
  read64 (m_mem s) (entries + 8 * idx) = SZ_2M * k + 135 → 0 ≤ k < 2048 → 0 ≤ gpa < 2 ^ 64 →
  gpa2hpa_loop (S n) 2 entry entries gpa s = Done (SZ_2M * k + gpa mod SZ_2M) s.
Proof.
  intros Hidx Ha Hr Hk Hg. cbn [gpa2hpa_loop]. rewrite <- Hidx.
  rewrite (bind_done _ _ _ _ _ (load64_done _ s Ha)), Hr.
  unfold SZ_2M in *. change 0x200000 with (2 ^ 21) in *.
  assert (2 ^ 21 * k + 135 = 2 ^ 21 * k ||| 135) as E.
  { symmetry. apply (lor_low 21); [lia| |lia]. rewrite Z.mul_comm. by apply Z.mod_mul. }
  assert (∀ j, 0 ≤ j < 21 → Z.testbit (2 ^ 21 * k + 135) j = Z.testbit 135 j) as Hlow.
  { intros j Hj. rewrite E, Z.lor_spec, <- (Z.mod_pow2_bits_low (2 ^ 21 * k) 21) by lia.
    rewrite (Z.mul_comm _ k), Z.mod_mul, Z.testbit_0_l by done. done. }
  assert (truthy ((2 ^ 21 * k + 135) &&& 1) = true) as ->.
  { rewrite (land_mask 1) by lia. change (2 ^ 21) with 2097152. change (2 ^ 1) with 2.
    unfold truthy. apply negb_true_iff, Z.eqb_neq. divlia. }
  assert ((2 ^ 21 * k + 135) &&& BIT 7 = BIT 7) as ->.
  { bitwise j. destruct (Z.eqb_spec j 7) as [->|]; [|by rewrite andb_false_r].
    by rewrite Hlow. }
  change (truthy (BIT 7)) with true. cbn [assert BUG_ON negb]. rewrite !bind_ret_l.
  change (masks 2) with (not64 (2 ^ 21 - 1)).
  rewrite land_cnot_mask, land_cnot_not_mask by lia.
  replace ((2 ^ 21 * k + 135) / 2 ^ 21) with k by (change (2 ^ 21) with 2097152; divlia).
  change (assert _) with (mret () : M (machine hw) ()). rewrite bind_ret_l.
  unfold mret, M_ret. f_equal.
  apply (lor_low 21); [lia|rewrite Z.mul_comm; by apply Z.mod_mul|].
  by apply Z.mod_pos_bound.
Qed.

(** *** The walk of well-formed tables *)

Context (s : machine hw) (linked : bool) (pages : gset Z).
Context (Ht : ept_tables (m_mem s) linked pages).

Lemma idx_bound gpa n : 0 ≤ n → 0 ≤ (gpa >>> n) &&& 0x1ff < 512.
Proof. intros. rewrite level_idx by done. by apply Z.mod_pos_bound. Qed.

Theorem gpa2hpa_spec gpa :
  0 ≤ gpa < 2 ^ 64 →
  gpa2hpa ept_pml4 gpa s =
    match ept_spec linked pages gpa with Some hpa => Done hpa s | None => Panicked "BUG" s end.
Proof.
  intros Hg. destruct layout_bounds as (L0 & L1 & L2 & L3 & L4 & L5).
  unfold SZ_4G in L5. unfold gpa2hpa, ept_spec.
  pose proof (idx_bound gpa 39 ltac:(lia)) as B0. pose proof (idx_bound gpa 30 ltac:(lia)) as B1.
  pose proof (idx_bound gpa 21 ltac:(lia)) as B2.
  pose proof (et_pml4 _ _ _ Ht _ B0) as R0. pose proof (et_pdpt _ _ _ Ht _ B1) as R1.
  rewrite !level_idx in * by lia.
  change (2 ^ 39) with 549755813888 in *. change (2 ^ 30) with 1073741824 in *.
  change (2 ^ 21) with 2097152 in *. change (2 ^ 48) with 281474976710656.
  unfold SZ_2M. change 0x200000 with 2097152.
  set (I0 := ((gpa / 549755813888) mod 512)) in *.
  set (I1 := ((gpa / 1073741824) mod 512)) in *.
  set (I2 := ((gpa / 2097152) mod 512)) in *.
  destruct linked; simpl in R0, R1; cbn [andb]; cycle 1.
  { apply (loop_empty _ _ _ _ _ _ I0); [by symmetry; apply (level_idx gpa 39)|lia|done]. }
  destruct (Z.eqb_spec I0 0) as [E0|N0]; cycle 1.
  { rewrite bool_decide_false.
    - apply (loop_empty _ _ _ _ _ _ I0); [by symmetry; apply (level_idx gpa 39)|lia|done].
    - intros Hin. apply (et_pages _ _ _ Ht) in Hin as [Hk _]. subst I0 I1. divlia. }
  rewrite (loop_table _ _ _ _ _ _ I0 ept_pdpt_0_512g);
    [|by symmetry; apply (level_idx gpa 39)|lia|exact R0|apply lo_pdpt|lia].
  destruct (Z.ltb_spec I1 4) as [E1|N1]; cycle 1.
  { rewrite bool_decide_false.
    - apply (loop_empty _ _ _ _ _ _ I1); [by symmetry; apply (level_idx gpa 30)|lia|done].
    - intros Hin. apply (et_pages _ _ _ Ht) in Hin as [Hk _]. subst I0 I1. divlia. }
  assert ((ept_pd_0_4g + 4096 * I1) mod 2 ^ 12 = 0) as Hal.
  { destruct lo_pd as [_ Hal]. change (2 ^ 12) with 4096 in *. divlia. }
  rewrite (loop_table _ _ _ _ _ _ I1 (ept_pd_0_4g + 4096 * I1));
    [|by symmetry; apply (level_idx gpa 30)|lia|exact R1|exact Hal|lia].
  set (k := 512 * I1 + I2).
  assert (0 ≤ k < 2048) as Hk by lia.
  pose proof (et_pd _ _ _ Ht k Hk) as R2.
  replace ((gpa mod 281474976710656) / 2097152) with k by (subst k I1 I2; subst I0; divlia).
  assert (ept_pd_0_4g + 4096 * I1 + 8 * I2 = ept_pd_0_4g + 8 * k) as Ek by (subst k; lia).
  case_bool_decide as Hin.
  - rewrite (loop_page _ _ _ _ _ I2 k);
      [|by symmetry; apply (level_idx gpa 21)|lia|by rewrite Ek|done|done].
    f_equal. unfold SZ_2M. subst k I0 I1 I2. divlia.
  - apply (loop_empty _ _ _ _ _ _ I2); [by symmetry; apply (level_idx gpa 21)|lia|by rewrite Ek].
Qed.
End walk.

(** ** Filling the tables *)

(** [m] ends normally having changed memory only, to [mem']. *)
Definition mem_update {hw} (m : M (machine hw) unit) (s : machine hw) (mem' : gmap Z Z) : Prop :=
  m s = Done tt (set_mem mem' s).

Section fill.
Context {hw : Type} `{Hardware hw} `{LayoutOk}.
Implicit Types s : machine hw.

Lemma set_mem_set_mem x y s : set_mem x (set_mem y s) = set_mem x s.
Proof. done. Qed.

Lemma set_mem_id s : set_mem (m_mem s) s = s.
Proof. by destruct s. Qed.

Lemma table_bounds :
  0 < ept_pml4 ∧ ept_pd_0_4g + 16384 ≤ 2 ^ 32 ∧
  ept_pml4 mod 8 = 0 ∧ ept_pdpt_0_512g mod 8 = 0 ∧ ept_pd_0_4g mod 8 = 0.
Proof.
  destruct layout_bounds as (?&?&?&?&?&?). unfold SZ_4G in *.
  destruct lo_pml4 as (_ & _ & A1), lo_pdpt as [_ A2], lo_pd as [_ A3].
  change (2 ^ 12) with 4096 in *. split_and!; try lia; divlia.
Qed.

Lemma ept_tables_zero mem :
  (∀ a, ept_pml4 ≤ a < ept_pd_0_4g + 16384 → a mod 8 = 0 → read64 mem a = 0) →
  ept_tables mem false ∅.
Proof.
  intros Hz. destruct layout_bounds as (?&?&?&?&?&?), table_bounds as (_&_&A1&A2&A3).
  split; intros; rewrite ?Hz; try done; try lia; try divlia.
Qed.

Lemma link_pdpt_entry i : 0 ≤ i < 4 →
  (ept_pd_0_4g + 8 * (i * 512)) ||| rwx = ept_pd_0_4g + 4096 * i + 7.
Proof.
  intros Hi. rewrite table_entry_val; [lia|]. destruct lo_pd as [_ A].
  change (2 ^ 12) with 4096 in *. divlia.
Qed.

(** The five stores of [link_tables], whatever the upper levels held. *)
Lemma link_tables_spec s linked pages :
  ept_tables (m_mem s) linked pages →
  ∃ mem', mem_update link_tables s mem' ∧ ept_tables mem' true pages.
Proof.
  intros Ht. destruct layout_bounds as (?&?&?&?&?&?), table_bounds as (?&?&A1&A2&A3).
  eexists. split; [reflexivity|]. cbn [m_mem set_mem].
  rewrite !link_pdpt_entry, table_entry_val by (lia || apply lo_pdpt).
  split.
  - intros i Hi. rewrite !(read64_write64_ne _ (ept_pdpt_0_512g + _)) by (divlia || lia).
    destruct (Z.eqb_spec i 0) as [->|]; cbn [andb].
    + rewrite Z.mul_0_r, Z.add_0_r, read64_write64_eq, wrap_small by lia. done.
    + rewrite read64_write64_ne by (lia || divlia). rewrite (et_pml4 _ _ _ Ht) by done.
      destruct (Z.eqb_spec i 0); [lia|]. by rewrite andb_false_r.
  - intros i Hi.
    destruct (decide (i = 0 ∨ i = 1 ∨ i = 2 ∨ i = 3)) as [Hs|Hs].
    + destruct Hs as [->|[->|[->| ->]]]; cbn [andb Z.ltb Z.compare Pos.compare Pos.compare_cont];
        repeat first [ rewrite read64_write64_eq by (lia || divlia)
                     | rewrite (read64_write64_ne _ (ept_pdpt_0_512g + _)) by (lia || divlia) ];
        apply wrap_small; lia.
    + rewrite !(read64_write64_ne _ (ept_pdpt_0_512g + _)) by (lia || divlia).
      rewrite read64_write64_ne by (lia || divlia). rewrite (et_pdpt _ _ _ Ht) by done.
      destruct (Z.ltb_spec i 4); [lia|]. by rewrite !andb_false_r.
  - intros k Hk. rewrite !(read64_write64_ne _ (ept_pdpt_0_512g + _)) by (lia || divlia).
    rewrite read64_write64_ne by (lia || divlia). by apply (et_pd _ _ _ Ht).
  - apply (et_pages _ _ _ Ht).
Qed.

(** Storing the identity entry of a free page adds it to the mapped pages. *)
Lemma map_page mem linked pages k :
  ept_tables mem linked pages → 0 ≤ k < 2048 → vmm_free k →
  ept_tables (write64 mem (ept_pd_0_4g + 8 * k) (SZ_2M * k + 135)) linked ({[k]} ∪ pages).
Proof.
  intros Ht Hk Hfree. destruct layout_bounds as (?&?&?&?&?&?), table_bounds as (?&?&A1&A2&A3).
  split.
  - intros i Hi. rewrite read64_write64_ne by (lia || divlia). by apply (et_pml4 _ _ _ Ht).
  - intros i Hi. rewrite read64_write64_ne by (lia || divlia). by apply (et_pdpt _ _ _ Ht).
  - intros j Hj. destruct (decide (j = k)) as [->|Hne].
    + rewrite read64_write64_eq, wrap_small by (unfold SZ_2M; lia || divlia).
      by rewrite bool_decide_true by set_solver.
    + rewrite read64_write64_ne by (lia || divlia). rewrite (et_pd _ _ _ Ht) by done.
      erewrite bool_decide_ext; [done|]. set_solver.
  - intros j Hj. apply elem_of_union in Hj as [->%elem_of_singleton|Hj]; [done|].
    by apply (et_pages _ _ _ Ht).
Qed.

(** A loop of [construct_tdp] over the free pages [[lo, lo + n)]. *)
Lemma map_pages_loop (n : nat) s linked pages lo :
  ept_tables (m_mem s) linked pages → 0 ≤ lo → lo + Z.of_nat n ≤ 2048 →
  (∀ k, lo ≤ k < lo + Z.of_nat n → vmm_free k) →
  ∃ mem' pages',
    mem_update (for_each (seqZ lo (Z.of_nat n)) (λ i,
      store64 (ept_pd_0_4g + 8 * i) (SZ_2M * i ||| rwx ||| EPTE_PSE))) s mem' ∧
    ept_tables mem' linked pages' ∧
    (∀ k, k ∈ pages' ↔ k ∈ pages ∨ lo ≤ k < lo + Z.of_nat n).
Proof.
  revert s pages lo. induction n as [|n IH]; intros s pages lo Ht Hlo Hub Hfree.
  { exists (m_mem s), pages. unfold mem_update. rewrite set_mem_id. split_and!; [done..|].
    intros k. split; [by left|]. intros [?|?]; [done|lia]. }
  rewrite seqZ_cons by lia. replace (Z.pred (Z.of_nat (S n))) with (Z.of_nat n) by lia.
  set (mem1 := write64 (m_mem s) (ept_pd_0_4g + 8 * lo) (SZ_2M * lo + 135)).
  assert (ept_tables mem1 linked ({[lo]} ∪ pages)) as Ht1
    by (apply map_page; [done|lia|apply Hfree; lia]).
  destruct (IH (set_mem mem1 s) ({[lo]} ∪ pages) (Z.succ lo)) as (mem' & pages' & Hm & Ht' & Hp);
    [done|lia..|intros; apply Hfree; lia|].
  exists mem', pages'. split_and!; [|done|].
  - unfold mem_update in *. cbn [for_each]. rewrite page_entry_val.
    erewrite bind_done by reflexivity. exact Hm.
  - intros k. rewrite Hp, elem_of_union, elem_of_singleton.
    destruct (decide (k = lo)) as [->|]; split; intros [?|?]; intuition lia.
Qed.
End fill.

(** ** The two ways of filling them *)

Section correct.
Context {hw : Type} `{Hardware hw} `{LayoutOk}.
Implicit Types s : machine hw.

(** The tables as [handle_ept_violation] leaves them: linked once its static flag
    is set. *)
Definition lazy_tables s (pages : gset Z) : Prop :=
  ept_tables (m_mem s) (negb (m_ept_init s =? 0)) pages.

(** The address is the guest's: below 4 GB and outside the hypervisor. *)
Definition guest_owned (gpa : Z) : Prop := 0 ≤ gpa < SZ_4G ∧ ¬ (_start ≤ gpa < _end).

#[export] Instance guest_owned_dec gpa : Decision (guest_owned gpa).
Proof. unfold guest_owned. apply _. Defined.

Lemma owned_page_free gpa :
  guest_owned gpa ↔ 0 ≤ gpa / SZ_2M < 2048 ∧ vmm_free (gpa / SZ_2M).
Proof.
  destruct lo_start as [? A], lo_end as [? B]. unfold guest_owned, vmm_free, SZ_2M, SZ_4G in *.
  split; divlia.
Qed.

Lemma mapped_guest_owned mem linked pages gpa hpa :
  ept_tables mem linked pages → ept_spec linked pages gpa = Some hpa →
  hpa = gpa mod 2 ^ 48 ∧ guest_owned hpa.
Proof.
  intros Ht. unfold ept_spec.
  destruct (linked && _) eqn:E; [|done]. intros [= <-].
  apply andb_true_iff in E as [_ Hin%bool_decide_eq_true].
  apply (et_pages _ _ _ Ht) in Hin. by rewrite owned_page_free.
Qed.

Lemma ept_spec_add pages page g :
  0 ≤ g < 2 ^ 48 →
  ept_spec true ({[page]} ∪ pages) g =
    if decide (g / SZ_2M = page) then Some g else ept_spec true pages g.
Proof.
  intros Hg. unfold ept_spec. rewrite Z.mod_small by done. cbn [andb].
  case_decide as E; [rewrite bool_decide_true by set_solver; done|].
  erewrite bool_decide_ext; [done|]. set_solver.
Qed.

(** Every branch of [handle_ept_violation]. *)
Theorem handle_ept_violation_correct s pages gp :
  lazy_tables s pages → 0 ≤ gp < 2 ^ 64 →
  if decide (_start ≤ gp < _end) then
    handle_ept_violation gp s = Panicked "cannot write into VMM" s
  else if decide (SZ_4G ≤ gp) then
    handle_ept_violation gp s = Panicked "cannot write to physmem higher than 4G" s
  else
    ∃ mem', handle_ept_violation gp s = Done tt (set_mem mem' (set_ept_init
              (if m_ept_init s =? 0 then 1 else m_ept_init s) s)) ∧
      ept_tables mem' true ({[gp / SZ_2M]} ∪ pages).
Proof.
  intros Ht Hgp. unfold handle_ept_violation.
  destruct (decide (_start ≤ gp < _end)) as [Hv|Hv].
  { by destruct (Z.leb_spec _start gp), (Z.ltb_spec gp _end); try lia. }
  replace ((_start <=? gp) && (gp <? _end)) with false
    by (destruct (Z.leb_spec _start gp), (Z.ltb_spec gp _end); done || lia).
  destruct (decide (SZ_4G ≤ gp)) as [Hh|Hh].
  { by destruct (Z.leb_spec SZ_4G gp); try lia. }
  destruct (Z.leb_spec SZ_4G gp) as [|_]; [lia|]. rewrite !bind_ret_l.
  assert (0 ≤ gp / SZ_2M < 2048 ∧ vmm_free (gp / SZ_2M)) as [Hk Hfree]
    by (apply owned_page_free; split; [lia|done]).
  assert ((gp &&& not64 (SZ_2M - 1)) = SZ_2M * (gp / SZ_2M)) as ->
    by (change SZ_2M with (2 ^ 21); by apply land_cnot_mask).
  rewrite page_entry_val. erewrite bind_done by reflexivity.
  unfold lazy_tables in Ht. destruct (Z.eqb_spec (m_ept_init s) 0) as [E|E].
  - destruct (link_tables_spec _ _ _ Ht) as (mem1 & Hm & Ht1).
    rewrite (bind_done _ _ _ tt (set_ept_init 1 (set_mem mem1 s))); cycle 1.
    { unfold mem_update in Hm. by erewrite bind_done by exact Hm. }
    eexists. split; [reflexivity|]. by apply map_page.
  - rewrite bind_ret_l. eexists. split; [|by apply map_page].
    unfold store64, modify. destruct s; reflexivity.
Qed.

(** The eager construction maps every guest-owned address below 4 GB. *)
Lemma construct_tdp_spec s linked :
  ept_tables (m_mem s) linked ∅ →
  ∃ mem' pages, mem_update construct_tdp s mem' ∧ ept_tables mem' true pages ∧
    ∀ k, k ∈ pages ↔ 0 ≤ k < 2048 ∧ vmm_free k.
Proof.
  intros Ht. destruct lo_start as [Hs A], lo_end as [[He He'] B]. unfold construct_tdp.
  rewrite A, B. change (truthy 0) with false. cbn [BUG_ON]. unfold mem_update.
  destruct (link_tables_spec _ _ _ Ht) as (mem1 & Hm1 & Ht1).
  destruct (map_pages_loop (Z.to_nat (_start / SZ_2M)) (set_mem mem1 s) true ∅ 0)
    as (mem2 & p2 & Hm2 & Ht2 & Hp2);
    [done|done|unfold SZ_2M, SZ_4G in *; divlia|
     intros; left; unfold SZ_2M, SZ_4G in *; divlia|].
  destruct (map_pages_loop (Z.to_nat (SZ_4G / SZ_2M - _end / SZ_2M)) (set_mem mem2 s) true p2
    (_end / SZ_2M)) as (mem3 & p3 & Hm3 & Ht3 & Hp3);
    [done|unfold SZ_2M, SZ_4G in *; divlia|unfold SZ_2M, SZ_4G in *; divlia|
     intros; right; unfold SZ_2M, SZ_4G in *; divlia|].
  exists mem3, p3. unfold mem_update in Hm1, Hm2, Hm3.
  rewrite Z2Nat.id in Hm2, Hm3 by (unfold SZ_2M, SZ_4G in *; divlia). split_and!; [|done|].
  - rewrite !bind_ret_l. erewrite bind_done by exact Hm1. erewrite bind_done by exact Hm2. done.
  - intros k. rewrite Hp3, Hp2. unfold vmm_free, SZ_2M, SZ_4G in *.
    split; [intros [[Hk|Hk]|Hk]|intros [Hk [Hf|Hf]]]; [set_solver|split; [|left]..|
      split; [|right]|left; right|right]; divlia.
Qed.
End correct.

(** ** The properties *)

Section properties.
Context {hw : Type} `{Hardware hw} `{LayoutOk}.
Implicit Types s : machine hw.

(** The tables at boot: [.bss], so every word is zero, and nothing linked. *)
Definition tables_at_boot s : Prop :=
  m_ept_init s = 0 ∧
  ∀ a, ept_pml4 ≤ a < ept_pd_0_4g + 16384 → a mod 8 = 0 → read64 (m_mem s) a = 0.

(** The page of [gpa] (as the walk sees it) has faulted. *)
Definition faulted (gps : list Z) (gpa : Z) : bool :=
  existsb (λ gp, gp / SZ_2M =? (gpa mod 2 ^ 48) / SZ_2M) gps.

Lemma lazy_tables_fold gps s pages :
  lazy_tables s pages → Forall guest_owned gps →
  ∃ s', for_each gps handle_ept_violation s = Done tt s' ∧
        lazy_tables s' (list_to_set ((λ gp, gp / SZ_2M) <$> gps) ∪ pages) ∧
        (gps ≠ [] → m_ept_init s' ≠ 0).
Proof.
  revert s pages. induction gps as [|gp gps IH]; intros s pages Ht Hgps.
  { exists s. split_and!; [done| |done]. cbn. by rewrite (left_id_L ∅ (∪)). }
  apply Forall_cons in Hgps as [[Hgp Hnv] Hgps].
  pose proof (handle_ept_violation_correct s pages gp Ht) as Hc.
  rewrite !decide_False in Hc by (unfold SZ_4G in *; lia || done).
  destruct Hc as (mem' & Hm & Ht'); [unfold SZ_4G in *; lia|].
  set (s1 := set_mem mem' _) in Hm.
  assert (m_ept_init s1 ≠ 0) as Hi by (subst s1; cbn; destruct (Z.eqb_spec (m_ept_init s) 0); lia).
  destruct (IH s1 ({[gp / SZ_2M]} ∪ pages)) as (s' & Hs' & Ht2 & Hi2); [|done|].
  { unfold lazy_tables. by destruct (Z.eqb_spec (m_ept_init s1) 0). }
  exists s'. cbn [for_each]. erewrite bind_done by exact Hm. split_and!; [done| |].
  - cbn. replace (_ ∪ _ ∪ pages) with
      (list_to_set ((λ gp, gp / SZ_2M) <$> gps) ∪ ({[gp / SZ_2M]} ∪ pages) : gset Z)
      by set_solver. done.
  - intros _. destruct gps; [|by apply Hi2]. cbn in Hs'. injection Hs' as <-. done.
Qed.

(** The walk after any sequence of faults. *)
Lemma lazy_walk s gps gpa :
  tables_at_boot s → Forall guest_owned gps → 0 ≤ gpa < 2 ^ 64 →
  ∃ s', for_each gps handle_ept_violation s = Done tt s' ∧
    gpa2hpa ept_pml4 gpa s' =
      (if faulted gps gpa then Done (gpa mod 2 ^ 48) s' else Panicked "BUG" s') ∧
    (faulted gps gpa = true → guest_owned (gpa mod 2 ^ 48)).
Proof.
  intros [Hi0 Hz] Hgps Hg.
  assert (lazy_tables s ∅) as Ht.
  { unfold lazy_tables. rewrite Hi0. by apply ept_tables_zero. }
  destruct (lazy_tables_fold gps s ∅ Ht Hgps) as (s' & Hs' & Ht' & Hi).
  exists s'. split; [done|]. rewrite (right_id_L ∅ (∪)) in Ht'.
  pose proof (gpa2hpa_spec s' _ _ Ht' gpa Hg) as Hwalk. unfold ept_spec in Hwalk.
  assert (faulted gps gpa = bool_decide ((gpa mod 2 ^ 48) / SZ_2M ∈
    (list_to_set ((λ gp, gp / SZ_2M) <$> gps) : gset Z))) as Hf.
  { apply eq_true_iff_eq. unfold faulted. rewrite existsb_exists, bool_decide_eq_true.
    rewrite elem_of_list_to_set, list_elem_of_fmap. setoid_rewrite list_elem_of_In.
    setoid_rewrite Z.eqb_eq. naive_solver. }
  split.
  - rewrite Hwalk, <- Hf. destruct gps as [|gp gps]; [by rewrite andb_false_r|].
    assert (negb (m_ept_init s' =? 0) = true) as ->
      by (specialize (Hi ltac:(done)); by destruct (Z.eqb_spec (m_ept_init s') 0)).
    cbn [andb]. by destruct (faulted _ _).
  - rewrite Hf, bool_decide_eq_true. intros Hin. apply (et_pages _ _ _ Ht') in Hin.
    by apply owned_page_free.
Qed.


(** C7: The lazy tables are a part of the eager ones: an address the tables built on
    faults translate is translated by [construct_tdp]'s tables to the same address,
    and an address [construct_tdp] leaves unmapped (the hypervisor, 4 GB and above)
    is one [handle_ept_violation] refuses to map. *)
Theorem lazy_refines_eager s gps gpa :
  tables_at_boot s → Forall guest_owned gps → 0 ≤ gpa < 2 ^ 48 →
  ∃ sl se, for_each gps handle_ept_violation s = Done tt sl ∧
    construct_tdp s = Done tt se ∧
    (∀ hpa, gpa2hpa ept_pml4 gpa sl = Done hpa sl → gpa2hpa ept_pml4 gpa se = Done hpa se) ∧
    (gpa2hpa ept_pml4 gpa se = Panicked "BUG" se ↔
     ∃ msg, handle_ept_violation gpa s = Panicked msg s).
Proof.
  intros Hb Hgps Hg. destruct (lazy_walk s gps gpa Hb Hgps) as (sl & Hl & Hw & Ho); [lia|].
  destruct Hb as [Hi0 Hz]. pose proof (ept_tables_zero _ Hz) as Ht.
  destruct (construct_tdp_spec s false Ht) as (mem' & pages & Hm & Ht' & Hp).
  exists sl, (set_mem mem' s). split_and!; [done|done| |].
  - intros hpa Hhpa. rewrite Hw in Hhpa.
    destruct (faulted gps gpa) eqn:E; [|done]. injection Hhpa as <-.
    rewrite (gpa2hpa_spec (set_mem mem' s) _ _ Ht') by lia. unfold ept_spec. cbn [andb].
    rewrite bool_decide_true; [done|]. apply Hp, owned_page_free. by apply Ho.
  - rewrite (gpa2hpa_spec (set_mem mem' s) _ _ Ht') by lia. unfold ept_spec. cbn [andb].
    rewrite Z.mod_small by done.
    pose proof (handle_ept_violation_correct s ∅ gpa) as Hc.
    unfold lazy_tables in Hc. rewrite Hi0 in Hc. specialize (Hc Ht ltac:(lia)).
    case_bool_decide as Hin.
    + apply Hp, owned_page_free in Hin as [? Hnv]. rewrite !decide_False in Hc by (done || lia).
      destruct Hc as (? & Hc & _). split; [done|]. intros [msg Hmsg]. congruence.
    + split; [|done]. intros _. case_decide; [eauto|]. case_decide; [eauto|].
      destruct Hin. apply Hp, owned_page_free. unfold guest_owned. split; [lia|done].
Qed.
End properties.

#[export] Instance concrete_layout_ok : @LayoutOk Concrete.layout.
Proof. split; cbn; split_and?; try done. 
  intros a [->| ->]; (split; [done|split; [reflexivity|by right]]).
Qed.


Lemma lazy_refines_eager_witness :
  ∃ sl se, for_each [0x100000] (@handle_ept_violation _ Concrete.layout) Concrete.boot = Done tt sl ∧
    @construct_tdp _ Concrete.layout Concrete.boot = Done tt se ∧
    (∀ hpa, gpa2hpa (@ept_pml4 Concrete.layout) 0x10200000 sl = Done hpa sl →
            gpa2hpa (@ept_pml4 Concrete.layout) 0x10200000 se = Done hpa se) ∧
    (gpa2hpa (@ept_pml4 Concrete.layout) 0x10200000 se = Panicked "BUG" se ↔
     ∃ msg, @handle_ept_violation _ Concrete.layout 0x10200000 Concrete.boot =
            Panicked msg Concrete.boot).
Proof.
  apply (@lazy_refines_eager Concrete.cpu _ _ Concrete.boot [0x100000] 0x10200000).
  - split; [reflexivity|]. intros a _ Ha. by rewrite read64_aligned.
  - repeat constructor; cbn; try done; lia.
  - lia.
Defined.
