(* ===== verification/Types.v ===== *)
(** The macros the sources compute with: [include/sys/types.h], [sys/byteorder.h], [sys/swab.h],
    [io/compiler.h] and the paging indices of [asm/mmu.h].  A macro without a type of its own is a
    function of the width [w] of its argument, and wraps there. *)

From S2P Require Import Prelude Mem Machine Ept.
#[local] Open Scope Z_scope.
#[local] Open Scope cint_scope.

(** ** Arithmetic *)

Definition min (x y : Z) : Z := if x <? y then x else y.
Definition max (x y : Z) : Z := if x >? y then x else y.
Definition min_t (type : Z → Z) (x y : Z) : Z := min (type x) (type y).
Definition max_t (type : Z → Z) (x y : Z) : Z := max (type x) (type y).

Definition roundup (w x y : Z) : Z := wrap w (wrap w (x + wrap w (y - 1)) / y * y).
Definition rounddown (w x y : Z) : Z := wrap w (x - x mod y).
Definition __ALIGN_MASK (w x mask : Z) : Z := wrap w (x + mask) &&& cnot w mask.
Definition ALIGN (w x a : Z) : Z := __ALIGN_MASK w x (wrap w (a - 1)).
Definition PTR_ALIGN (p a : Z) : Z := ALIGN 64 p a.
Definition DIV_ROUND_UP (w n d : Z) : Z := wrap w (n + d - 1) / d.

Definition BITS_PER_BYTE : Z := 8.
Definition BITS_TO_LONGS (nr : Z) : Z := DIV_ROUND_UP 64 nr (BITS_PER_BYTE * 8).

Lemma min_spec x y : min x y = Z.min x y.
Proof. unfold min. destruct (Z.ltb_spec x y); lia. Qed.
Lemma max_spec x y : max x y = Z.max x y.
Proof. unfold max. destruct (Z.gtb_spec x y); lia. Qed.

(** What is rounded is the nearest multiple, in range. *)
Lemma rounddown_spec w x y : 0 ≤ x < 2 ^ w → 0 < y →
  rounddown w x y ≤ x < rounddown w x y + y ∧ (y | rounddown w x y).
Proof.
  intros Hx Hy. pose proof (Z.mod_pos_bound x y Hy). pose proof (Z.mod_le x y).
  unfold rounddown. rewrite wrap_small by lia. split; [lia|].
  exists (x / y). pose proof (Z.div_mod x y). lia.
Qed.

Lemma roundup_spec w x y : 0 ≤ x → 0 < y → x + (y - 1) < 2 ^ w →
  x ≤ roundup w x y < x + y ∧ (y | roundup w x y).
Proof.
  intros Hx Hy Hb. unfold roundup. rewrite (wrap_small w (y - 1)), (wrap_small w (x + _)) by lia.
  pose proof (Z.div_mod (x + (y - 1)) y ltac:(lia)). pose proof (Z.mod_pos_bound (x + (y - 1)) y Hy).
  rewrite wrap_small by (split; [apply Z.mul_nonneg_nonneg; [apply Z.div_pos|]; lia|lia]).
  split; [lia|]. by exists ((x + (y - 1)) / y).
Qed.

Lemma DIV_ROUND_UP_spec w n d : 0 ≤ n → 0 < d → n + d - 1 < 2 ^ w →
  d * (DIV_ROUND_UP w n d - 1) < n ≤ d * DIV_ROUND_UP w n d.
Proof.
  intros Hn Hd Hb. unfold DIV_ROUND_UP. rewrite wrap_small by lia.
  pose proof (Z.div_mod (n + d - 1) d ltac:(lia)). pose proof (Z.mod_pos_bound (n + d - 1) d Hd). lia.
Qed.

(** Aligning to a power of two is rounding up to it. *)
Lemma ALIGN_spec w k x : 0 ≤ k < w → 0 ≤ x → x + (2 ^ k - 1) < 2 ^ w →
  x ≤ ALIGN w x (2 ^ k) < x + 2 ^ k ∧ (2 ^ k | ALIGN w x (2 ^ k)).
Proof.
  intros Hk Hx Hb. pose proof (Z.pow_pos_nonneg 2 k ltac:(lia) ltac:(lia)). unfold ALIGN, __ALIGN_MASK.
  rewrite (wrap_small w (2 ^ k - 1)), wrap_small by lia. rewrite land_cnot_mask by lia.
  pose proof (Z.div_mod (x + (2 ^ k - 1)) (2 ^ k) ltac:(lia)).
  pose proof (Z.mod_pos_bound (x + (2 ^ k - 1)) (2 ^ k) ltac:(lia)).
  split; [lia|]. exists ((x + (2 ^ k - 1)) / 2 ^ k). lia.
Qed.

(** A bitmap of [nr] bits has room for each of them. *)
Lemma BITS_TO_LONGS_room nr i : 0 ≤ nr < 2 ^ 63 → 0 ≤ i < nr → 0 ≤ i / 64 < BITS_TO_LONGS nr.
Proof.
  intros Hn Hi. pose proof (DIV_ROUND_UP_spec 64 nr 64 ltac:(lia) ltac:(lia) ltac:(lia)) as Hd.
  unfold BITS_TO_LONGS. change (BITS_PER_BYTE * 8) with 64. divlia.
Qed.

(** ** Pointers *)

Definition __va (pa : Z) : Z := pa.
Definition __pa (va : Z) : Z := va.

(** The structure around a member at [offset]. *)
Definition container_of (ptr offset : Z) : Z := u64 (ptr - offset).

Lemma container_of_member p offset : 0 ≤ p → 0 ≤ offset → p + offset < 2 ^ 64 → container_of (p + offset) offset = p.
Proof. intros. unfold container_of. rewrite wrap_small; lia. Qed.

(** ** Accesses that happen once *)

(** The bytes of the object at [p]: by one access where there is one of the size. *)
Definition __read_once_size (m : bmem) (p : Z) (size : nat) : list Z :=
  match size with
  | 1%nat => le_split 1 (rd8 m p) | 2%nat => le_split 2 (rd16 m p) | 4%nat => le_split 4 (rd32 m p)
  | 8%nat => le_split 8 (rd64 m p) | n => rd_bytes m p n
  end.
Definition __write_once_size (m : bmem) (p : Z) (res : list Z) : bmem :=
  match length res with
  | 1%nat => wr8 m p (le_combine res) | 2%nat => wr16 m p (le_combine res) | 4%nat => wr32 m p (le_combine res)
  | 8%nat => wr64 m p (le_combine res) | _ => wr_bytes m p res
  end.

(** Whatever the size, they are the bytes. *)
Lemma le_split_combine l : Forall (λ b, 0 ≤ b < 256) l → le_split (length l) (le_combine l) = l.
Proof.
  induction 1 as [|b l Hb Hl IH]; [done|]. cbn [length le_combine le_split].
  replace ((b + 256 * le_combine l) mod 256) with b by divlia.
  replace ((b + 256 * le_combine l) / 256) with (le_combine l) by divlia. by rewrite IH.
Qed.

Lemma split_rd_le m p n : le_split n (rd_le m p n) = rd_bytes m p n.
Proof.
  unfold rd_le. rewrite <- (rd_bytes_length m p n) at 1. apply le_split_combine, rd_bytes_bytes.
Qed.

Lemma read_once_bytes m p size : __read_once_size m p size = rd_bytes m p size.
Proof.
  destruct size as [|[|[|[|[|[|[|[|[|size]]]]]]]]]; cbn [__read_once_size]; try reflexivity; try apply split_rd_le.
  cbn [le_split rd_bytes]. by rewrite Z.mod_small by apply rd8_bound.
Qed.

Lemma write_once_bytes m p res : Forall (λ b, 0 ≤ b < 256) res → __write_once_size m p res = wr_bytes m p res.
Proof.
  intros Hb. pose proof (le_split_combine res Hb) as Hs. unfold __write_once_size, wr16, wr32, wr64, wr_le.
  destruct res as [|? [|? [|? [|? [|? [|? [|? [|? [|? res]]]]]]]]]; cbn [length] in *; rewrite ?Hs; try reflexivity.
  cbn [le_combine wr_bytes]. by rewrite Z.mul_0_r, Z.add_0_r.
Qed.

(** ** Byte order *)

(** [__builtin_bswap16] and its sisters. *)
Definition bswap (n : nat) (x : Z) : Z := le_combine (rev (le_split n x)).
Definition swab16 : Z → Z := bswap 2.
Definition swab32 : Z → Z := bswap 4.
Definition swab64 : Z → Z := bswap 8.

Definition cpu_to_be16 (x : Z) : Z := swab16 x.
Definition be16_to_cpu (x : Z) : Z := swab16 x.
Definition cpu_to_be32 (x : Z) : Z := swab32 x.
Definition be32_to_cpu (x : Z) : Z := swab32 x.
Definition cpu_to_be64 (x : Z) : Z := swab64 x.
Definition be64_to_cpu (x : Z) : Z := swab64 x.
Definition cpu_to_le16 (x : Z) : Z := x.
Definition le16_to_cpu (x : Z) : Z := x.
Definition cpu_to_le32 (x : Z) : Z := x.
Definition le32_to_cpu (x : Z) : Z := x.
Definition cpu_to_le64 (x : Z) : Z := x.
Definition le64_to_cpu (x : Z) : Z := x.
Definition be32_to_cpup (m : bmem) (p : Z) : Z := be32_to_cpu (rd32 m p).

Lemma le_split_bytes n v : Forall (λ b, 0 ≤ b < 256) (le_split n v).
Proof. revert v. induction n as [|n IH]; intros v; [constructor|]. constructor; [apply Z.mod_pos_bound; lia|apply IH]. Qed.

(** Swapping twice is nothing, and a big-endian word in memory is read byte by byte. *)
Lemma bswap_bswap n x : 0 ≤ x < 256 ^ Z.of_nat n → bswap n (bswap n x) = x.
Proof.
  intros Hx. unfold bswap. assert (n = length (rev (le_split n x))) as Hl by by rewrite length_rev, le_split_length.
  rewrite Hl at 1. rewrite le_split_combine by (apply Forall_rev, le_split_bytes).
  rewrite rev_involutive, le_combine_split. by apply Z.mod_small.
Qed.

Lemma be32_to_cpup_bytes m p :
  be32_to_cpup m p = 2 ^ 24 * rd8 m p + 2 ^ 16 * rd8 m (p + 1) + 2 ^ 8 * rd8 m (p + 2) + rd8 m (p + 3).
Proof.
  unfold be32_to_cpup, be32_to_cpu, swab32, bswap, rd32. rewrite split_rd_le. cbn [rd_bytes rev app le_combine].
  rewrite <- !Z.add_assoc. change (1 + (1 + 1)) with 3. change (1 + 1) with 2. lia.
Qed.

(** ** Paging *)

Definition PT_SHIFT : Z := 12.
Definition PD_SHIFT : Z := 21.
Definition PDPT_SHIFT : Z := 30.
Definition PML4_SHIFT : Z := 39.
Definition PTRS_PER_PT : Z := 512.
Definition PTRS_PER_PD : Z := 512.
Definition PTRS_PER_PDPT : Z := 512.
Definition PTRS_PER_PML4 : Z := 512.
Definition pt_index (x : Z) : Z := (x >>> PT_SHIFT) &&& (PTRS_PER_PT - 1).
Definition pd_index (x : Z) : Z := (x >>> PD_SHIFT) &&& (PTRS_PER_PD - 1).
Definition pdpt_index (x : Z) : Z := (x >>> PDPT_SHIFT) &&& (PTRS_PER_PDPT - 1).
Definition pml4_index (x : Z) : Z := (x >>> PML4_SHIFT) &&& (PTRS_PER_PML4 - 1).

(** The indices are the ones the software walks of Ept use, and with the offset they are the
    address. *)
Lemma page_indices x :
  pml4_index x = (x >>> shifts 0) &&& 0x1ff ∧ pdpt_index x = (x >>> shifts 1) &&& 0x1ff ∧
  pd_index x = (x >>> shifts 2) &&& 0x1ff ∧ pt_index x = (x >>> shifts 3) &&& 0x1ff.
Proof. done. Qed.

Lemma index_bound x n : (x >>> n) &&& 511 = (x >>> n) mod 512.
Proof. change 511 with (Z.ones 9). by rewrite Z.land_ones. Qed.

Lemma page_indices_address x : 0 ≤ x →
  x mod 2 ^ 48 = 2 ^ PML4_SHIFT * pml4_index x + 2 ^ PDPT_SHIFT * pdpt_index x + 2 ^ PD_SHIFT * pd_index x +
    2 ^ PT_SHIFT * pt_index x + x mod PAGE_SIZE.
Proof.
  intros Hx. unfold pml4_index, pdpt_index, pd_index, pt_index. unfold PML4_SHIFT, PDPT_SHIFT, PD_SHIFT, PT_SHIFT.
  change (_ - 1) with 511. rewrite !index_bound, !Z.shiftr_div_pow2 by lia. change PAGE_SIZE with 4096. divlia.
Qed.
