(* ===== verification/Kvm.v ===== *)
(** The vendor-independent hypervisor, [vmm/kvm.c]: register and segment access
    through [struct kvm_x86_ops], CPUID emulation.

    The table of function pointers is an interface: the classes below state what the
    vendor code ([vmm/vmx.c], file Vmx) promises, and the theorems about this file are
    proved against them. *)

From S2P Require Import Prelude Vmcs Machine Cpu.
#[local] Open Scope Z_scope.
#[local] Open Scope cint_scope.

(** ** [struct kvm_x86_ops]

    The table is split in the order its members depend on each other: access to the
    guest's state, skipping an instruction (called back by the emulation here), and
    the vCPU's life cycle (file Hypervisor). *)

Class KvmGuestOps (hw : Type) : Type := {
  ops_get_cpl : M (machine hw) Z;
  ops_get_segment : Z → M (machine hw) kvm_segment;
  ops_set_segment : kvm_segment → Z → M (machine hw) unit;
  ops_get_rflags : M (machine hw) Z;
  ops_set_rflags : Z → M (machine hw) unit;
  ops_get_rip : M (machine hw) Z;
  ops_set_rip : Z → M (machine hw) unit;
  ops_set_tdp : Z → M (machine hw) unit;
}.

Class KvmSkipOp (hw : Type) : Type :=
  ops_skip_emulated_instruction : M (machine hw) unit.

Section kvm.
Context {hw : Type} `{Hardware hw} `{KvmGuestOps hw}.

Definition kvm_rip_read : M (machine hw) Z := ops_get_rip.
Definition kvm_rip_write (val : Z) : M (machine hw) unit := ops_set_rip val.
Definition kvm_get_segment (seg : Z) : M (machine hw) kvm_segment := ops_get_segment seg.
Definition kvm_set_segment (var : kvm_segment) (seg : Z) : M (machine hw) unit :=
  ops_set_segment var seg.

(** [1U << (bitno & 31)] *)
Definition bit (bitno : Z) : Z := u32 (1 <<< (bitno &&& 31)).
End kvm.

Section emulate.
Context {hw : Type} `{Hardware hw} `{KvmSkipOp hw}.

Definition kvm_skip_emulated_instruction : M (machine hw) unit :=
  ops_skip_emulated_instruction.

(** The [switch (leaf)] of [kvm_emulate_cpuid]. *)
Definition cpuid_filter (leaf eax ebx ecx edx : Z) : Z * Z * Z * Z :=
  if leaf =? 1 then
    let ecx := ecx &&& not32 (bit X86_FEATURE_VMX) in
    let ecx := ecx ||| bit X86_FEATURE_X2APIC in
    let ecx := ecx ||| bit X86_FEATURE_HYPERVISOR in
    (eax, ebx, ecx, edx)
  else if leaf =? 4 then (0, 0, 0, 0)
  else if leaf =? 0x40000000 then (0x40000001, 0x4b4d564b, 0x564b4d56, 0x4d)
  else if leaf =? 0x40000001 then (0, 0, 0, 0)
  else (eax, ebx, ecx, edx).

Definition kvm_emulate_cpuid : M (machine hw) unit :=
  eax ← kvm_register_read VCPU_REGS_RAX;
  let eax := u32 eax in
  let leaf := eax in
  ecx ← kvm_register_read VCPU_REGS_RCX;
  let ecx := u32 ecx in
  '(eax, ebx, ecx, edx) ← native_cpuid eax ecx;
  let '(eax, ebx, ecx, edx) := cpuid_filter leaf eax ebx ecx edx in
  kvm_register_write VCPU_REGS_RAX eax ;;
  kvm_register_write VCPU_REGS_RBX ebx ;;
  kvm_register_write VCPU_REGS_RCX ecx ;;
  kvm_register_write VCPU_REGS_RDX edx ;;
  kvm_skip_emulated_instruction.
End emulate.

(** ** CPUID *)

(** The answer the guest must see, bit by bit: leaf 1 hides VMX and shows x2APIC and
    the hypervisor bit, leaf 4 and the KVM feature leaf are blank, leaf 0x40000000 is
    the KVM signature, and every other leaf is the processor's. *)
Definition cpuid_visible (leaf : Z) (cpu visible : Z * Z * Z * Z) : Prop :=
  let '(a, b, c, d) := cpu in
  let '(a', b', c', d') := visible in
  if decide (leaf = 1) then
    a' = a ∧ b' = b ∧ d' = d ∧
    ∀ i, 0 ≤ i < 32 → Z.testbit c' i =
      if decide (i = 5) then false
      else if decide (i = 21 ∨ i = 31) then true else Z.testbit c i
  else if decide (leaf = 4 ∨ leaf = 0x40000001) then visible = (0, 0, 0, 0)
  else if decide (leaf = 0x40000000) then visible = (0x40000001, 0x4b4d564b, 0x564b4d56, 0x4d)
  else visible = cpu.

Definition u32x4 (v : Z * Z * Z * Z) : Prop :=
  let '(a, b, c, d) := v in
  0 ≤ a < 2 ^ 32 ∧ 0 ≤ b < 2 ^ 32 ∧ 0 ≤ c < 2 ^ 32 ∧ 0 ≤ d < 2 ^ 32.

Lemma cpuid_filter_visible leaf a b c d :
  u32x4 (a, b, c, d) →
  cpuid_visible leaf (a, b, c, d) (cpuid_filter leaf a b c d) ∧ u32x4 (cpuid_filter leaf a b c d).
Proof.
  intros (Ha & Hb & Hc & Hd). unfold cpuid_visible, cpuid_filter.
  destruct (Z.eqb_spec leaf 1) as [->|H1].
  { change (bit X86_FEATURE_VMX) with (BIT 5).
    change (bit X86_FEATURE_X2APIC) with (BIT 21). change (bit X86_FEATURE_HYPERVISOR) with (BIT 31).
    split.
    - rewrite decide_True by done. split_and!; [done..|]. intros i Hi. autorewrite with bits.
      repeat case_decide; zbool.
    - split; [done|]. split; [done|]. split; [|done].
      apply lor_bound; [lia| |done]. apply lor_bound; [lia| |done]. by apply land_bound_l. }
  destruct (Z.eqb_spec leaf 4) as [->|H4]; [done|].
  destruct (Z.eqb_spec leaf 0x40000000) as [->|H5]; [done|].
  destruct (Z.eqb_spec leaf 0x40000001) as [->|H6]; [done|].
  repeat case_decide; by intuition.
Qed.


(** ** The emulation against the interface *)

Section cpuid.
Context {hw : Type} `{Hardware hw} `{KvmSkipOp hw}.
Implicit Types s : machine hw.

(** The registers [CPUID] writes; nothing else of the machine changes. *)
Definition with_cpuid_regs (v : Z * Z * Z * Z) (s : machine hw) : machine hw :=
  let '(a, b, c, d) := v in
  let r := regs (vcpu (m_vmx s)) in
  let r := aset r VCPU_REGS_RAX a in
  let r := aset r VCPU_REGS_RBX b in
  let r := aset r VCPU_REGS_RCX c in
  let r := aset r VCPU_REGS_RDX d in
  set_vmx (set_vcpu (set_regs r (vcpu (m_vmx s))) (m_vmx s)) s.

Lemma native_cpuid_u32x4 s eax ecx :
  ∃ v, native_cpuid eax ecx s = Done v s ∧ u32x4 v.
Proof.
  unfold native_cpuid, gets. destruct (hw_cpuid _ _ _) as [[[a b] c] d].
  eexists; split; [done|]. by split_and!; apply wrap_bound.
Qed.

Lemma write_cpuid_regs a b c d s :
  u32x4 (a, b, c, d) →
  (kvm_register_write VCPU_REGS_RAX a ;;
   kvm_register_write VCPU_REGS_RBX b ;;
   kvm_register_write VCPU_REGS_RCX c ;;
   kvm_register_write VCPU_REGS_RDX d ;;
   kvm_skip_emulated_instruction) s
  = kvm_skip_emulated_instruction (with_cpuid_regs (a, b, c, d) s).
Proof.
  intros (Ha & Hb & Hc & Hd).
  unfold kvm_register_write. rewrite !(wrap_small 64) by lia. done.
Qed.

(** C9: [CPUID] emulation.  The guest's [EAX] and [ECX] select the leaf; the answer of
    the processor for them is what the guest sees up to [cpuid_visible] (VMX hidden,
    x2APIC and the hypervisor bit shown, leaf 4 and the KVM leaves replaced).  The four
    result registers receive it zero-extended, no other register and nothing else of
    the machine changes, and the instruction is skipped through the vendor's
    operation; the emulation itself never panics. *)
Theorem kvm_emulate_cpuid_correct s cpu :
  let r := regs (vcpu (m_vmx s)) in
  native_cpuid (u32 (aget r VCPU_REGS_RAX)) (u32 (aget r VCPU_REGS_RCX)) s = Done cpu s →
  ∃ visible,
    cpuid_visible (u32 (aget r VCPU_REGS_RAX)) cpu visible ∧
    u32x4 visible ∧
    kvm_emulate_cpuid s = kvm_skip_emulated_instruction (with_cpuid_regs visible s).
Proof.
  intros r Hcpu. destruct (native_cpuid_u32x4 s (u32 (aget r VCPU_REGS_RAX))
    (u32 (aget r VCPU_REGS_RCX))) as ([[[a b] c] d] & Hv & Hr).
  rewrite Hcpu in Hv. simplify_eq.
  destruct (cpuid_filter_visible (u32 (aget r VCPU_REGS_RAX)) a b c d Hr) as [Hvis Hr'].
  destruct (cpuid_filter _ a b c d) as [[[a' b'] c'] d'] eqn:Hf.
  exists (a', b', c', d'). split_and!; [done|done|].
  rewrite <- write_cpuid_regs by done.
  unfold kvm_emulate_cpuid. erewrite bind_done by reflexivity.
  erewrite bind_done by reflexivity. rewrite (bind_done _ _ _ _ _ Hcpu).
  fold r. by rewrite Hf.
Qed.
End cpuid.

Lemma kvm_emulate_cpuid_correct_witness :
  let s := Concrete.boot in
  ∃ visible, cpuid_visible 0 (0, 0, 0, 0) visible ∧ u32x4 visible ∧
    kvm_emulate_cpuid (H := Concrete.cpu_hardware) (H0 := λ s, Done tt s) s =
    Done tt (with_cpuid_regs visible s).
Proof.
  exact (kvm_emulate_cpuid_correct (H := Concrete.cpu_hardware) (H0 := λ s, Done tt s)
           Concrete.boot (0, 0, 0, 0) eq_refl).
Defined.
