(* ===== verification/Vmx.v ===== *)
(** The VT-x back end, first part of [vmm/vmx.c]: the configuration of the VMCS and of
    the MSR bitmap, enabling VMX, the initial state of the vCPU, access to the guest's
    segments and control registers, and the members of [vmx_x86_ops] that do not handle
    exits (those are in file VmxExit). *)

From S2P Require Import Prelude Bitops Vmcs Machine Cpu Apic Kvm.
#[local] Open Scope Z_scope.
#[local] Open Scope cint_scope.

Definition NR_AUTOLOAD_MSRS : Z := 8.

(** [enum] of [include/asm/kvm_host.h] *)
Definition VCPU_SREG_ES : Z := 0.
Definition VCPU_SREG_CS : Z := 1.
Definition VCPU_SREG_SS : Z := 2.
Definition VCPU_SREG_DS : Z := 3.
Definition VCPU_SREG_FS : Z := 4.
Definition VCPU_SREG_GS : Z := 5.
Definition VCPU_SREG_TR : Z := 6.
Definition VCPU_SREG_LDTR : Z := 7.

Record kvm_vmx_segment_field : Type := {
  sf_selector : Z; sf_base : Z; sf_limit : Z; sf_ar_bytes : Z }.

(** The designated initialisers place each entry at its enumerator. *)
Definition kvm_vmx_segment_fields (seg : Z) : kvm_vmx_segment_field :=
  nth (Z.to_nat seg) [
    Build_kvm_vmx_segment_field GUEST_ES_SELECTOR GUEST_ES_BASE GUEST_ES_LIMIT GUEST_ES_AR_BYTES;
    Build_kvm_vmx_segment_field GUEST_CS_SELECTOR GUEST_CS_BASE GUEST_CS_LIMIT GUEST_CS_AR_BYTES;
    Build_kvm_vmx_segment_field GUEST_SS_SELECTOR GUEST_SS_BASE GUEST_SS_LIMIT GUEST_SS_AR_BYTES;
    Build_kvm_vmx_segment_field GUEST_DS_SELECTOR GUEST_DS_BASE GUEST_DS_LIMIT GUEST_DS_AR_BYTES;
    Build_kvm_vmx_segment_field GUEST_FS_SELECTOR GUEST_FS_BASE GUEST_FS_LIMIT GUEST_FS_AR_BYTES;
    Build_kvm_vmx_segment_field GUEST_GS_SELECTOR GUEST_GS_BASE GUEST_GS_LIMIT GUEST_GS_AR_BYTES;
    Build_kvm_vmx_segment_field GUEST_TR_SELECTOR GUEST_TR_BASE GUEST_TR_LIMIT GUEST_TR_AR_BYTES;
    Build_kvm_vmx_segment_field GUEST_LDTR_SELECTOR GUEST_LDTR_BASE GUEST_LDTR_LIMIT
      GUEST_LDTR_AR_BYTES ] (Build_kvm_vmx_segment_field 0 0 0 0).

(** [enum saved_msrs] and [vmx_msr_index[]] *)
Definition SAVED_MSR_KERNEL_GS_BASE : Z := 0.
Definition SAVED_MSR_SYSCALL_MASK : Z := 1.
Definition SAVED_MSR_LSTAR : Z := 2.
Definition SAVED_MSR_STAR : Z := 3.

Definition vmx_msr_index : list Z :=
  [MSR_KERNEL_GS_BASE; MSR_SYSCALL_MASK; MSR_LSTAR; MSR_STAR].

Definition vmx_msr_name : list string :=
  ["MSR_KERNEL_GS_BASE"; "MSR_SYSCALL_MASK"; "MSR_LSTAR"; "MSR_STAR"]%string.

Definition KVM_GUEST_CR0_ALWAYS_ON : Z := X86_CR0_WP ||| X86_CR0_NE.
Definition KVM_GUEST_CR4_ALWAYS_ON : Z := X86_CR4_VMXE.

Definition KERNEL_CS : Z := 2 * 8.
Definition KERNEL_DS : Z := 3 * 8.
Definition GDT_ENTRY_TSS : Z := 8.

Definition set_autoload_entry (l : list vmx_msr_entry) (i : Z) (f : vmx_msr_entry → vmx_msr_entry)
    : list vmx_msr_entry := alter f (Z.to_nat i) l.

Definition with_index (index : Z) (e : vmx_msr_entry) : vmx_msr_entry :=
  {| msr_index := u32 index; msr_value := msr_value e |}.
Definition with_value (value : Z) (e : vmx_msr_entry) : vmx_msr_entry :=
  {| msr_index := msr_index e; msr_value := u64 value |}.

(** [vmx->msr_autoload.guest[i].value] *)
Definition autoload_guest_value {hw} (s : machine hw) (i : Z) : Z :=
  default 0 (msr_value <$> autoload_guest (m_vmx s) !! Z.to_nat i).

(** ** Access rights ([vmx_get_segment], [vmx_segment_access_rights]) *)

Definition vmx_segment_access_rights (var : kvm_segment) : Z :=
  if truthy (sg_unusable var) || negb (truthy (sg_present var)) then BIT 16
  else
    (sg_type var &&& 15) ||| ((sg_s var &&& 1) <<< 4) ||| ((sg_dpl var &&& 3) <<< 5)
    ||| ((sg_present var &&& 1) <<< 7) ||| ((sg_avl var &&& 1) <<< 12)
    ||| ((sg_l var &&& 1) <<< 13) ||| ((sg_db var &&& 1) <<< 14) ||| ((sg_g var &&& 1) <<< 15).

(** The segment [vmx_get_segment] decodes from the four fields; [present] is not the
    present bit of the access rights but the negation of [unusable]. *)
Definition decode_segment (base limit selector ar : Z) : kvm_segment :=
  let unusable := (ar >>> 16) &&& 1 in
  {| sg_base := u64 base; sg_limit := u32 limit; sg_selector := u16 selector;
     sg_type := ar &&& 15; sg_present := b2z (unusable =? 0); sg_dpl := (ar >>> 5) &&& 3;
     sg_db := (ar >>> 14) &&& 1; sg_s := (ar >>> 4) &&& 1; sg_l := (ar >>> 13) &&& 1;
     sg_g := (ar >>> 15) &&& 1; sg_avl := (ar >>> 12) &&& 1; sg_unusable := unusable |}.

Section vmx.
Context {hw : Type} `{Hardware hw} `{Layout}.
Implicit Types s : machine hw.

Definition cpu_has_vmx_ept_2m_page : M (machine hw) bool :=
  gets (λ s, truthy (cap_ept (m_cap s) &&& VMX_EPT_2MB_PAGE_BIT)).
Definition cpu_has_vmx_ept_4levels : M (machine hw) bool :=
  gets (λ s, truthy (cap_ept (m_cap s) &&& VMX_EPT_PAGE_WALK_4_BIT)).
Definition vmx_cpu_has_kvm_support : M (machine hw) bool := this_cpu_has X86_FEATURE_VMX.

Definition vmx_disabled_by_bios : M (machine hw) Z :=
  msr ← rdmsrl MSR_IA32_FEATURE_CONTROL;
  if truthy (msr &&& FEATURE_CONTROL_LOCKED) then
    if negb (truthy (msr &&& FEATURE_CONTROL_VMXON_ENABLED_OUTSIDE_SMX))
       && truthy (msr &&& FEATURE_CONTROL_VMXON_ENABLED_INSIDE_SMX) then mret 1
    else if negb (truthy (msr &&& FEATURE_CONTROL_VMXON_ENABLED_OUTSIDE_SMX)) then mret 1
    else mret 0
  else mret 0.

(** ** The controls *)

(** The controls the processor allows: forced to 0 by [high], to 1 by [low]. *)
Definition adjust_vmx_controls (ctl_min ctl_opt msr : Z) : M (machine hw) Z :=
  '(vmx_msr_low, vmx_msr_high) ← rdmsr msr;
  let ctl := ctl_min ||| ctl_opt in
  let ctl := ctl &&& vmx_msr_high in
  let ctl := ctl ||| vmx_msr_low in
  (if truthy (ctl_min &&& not32 ctl) then panic "vmx: failed to set minimum control bits"
   else mret tt) ;;
  mret ctl.

Definition print_vmx_controls (prefix : string) (ctl : Z) : M (machine hw) unit :=
  pr_info "vmx: %s" [Str prefix] ;;
  pr_info "    " [] ;;
  for_each (seqZ 0 32) (λ i, when (truthy (ctl &&& BIT i)) (pr_cont " %d" [Num i])) ;;
  pr_cont "" [].

Definition setup_vmcs_config : M (machine hw) unit :=
  let min := CPU_BASED_USE_MSR_BITMAPS ||| CPU_BASED_ACTIVATE_SECONDARY_CONTROLS
             ||| CPU_BASED_RDTSC_EXITING ||| CPU_BASED_CR3_LOAD_EXITING in
  cpu ← adjust_vmx_controls min 0 MSR_IA32_VMX_PROCBASED_CTLS;
  let min2 := SECONDARY_EXEC_ENABLE_EPT ||| SECONDARY_EXEC_ENABLE_VPID
              ||| SECONDARY_EXEC_UNRESTRICTED_GUEST in
  let opt2 := SECONDARY_EXEC_RDTSCP ||| SECONDARY_EXEC_ENABLE_INVPCID in
  cpu2 ← adjust_vmx_controls min2 opt2 MSR_IA32_VMX_PROCBASED_CTLS2;
  let cpu := cpu &&& not32 (CPU_BASED_CR3_STORE_EXITING ||| CPU_BASED_INVLPG_EXITING) in
  '(ept, vpid) ← rdmsr MSR_IA32_VMX_EPT_VPID_CAP;
  modify (set_cap {| cap_ept := ept; cap_vpid := vpid |}) ;;
  let min := VM_EXIT_SAVE_DEBUG_CONTROLS ||| VM_EXIT_HOST_ADDR_SPACE_SIZE
             ||| VM_EXIT_SAVE_IA32_EFER ||| VM_EXIT_LOAD_IA32_EFER in
  let opt := VM_EXIT_SAVE_IA32_PAT ||| VM_EXIT_LOAD_IA32_PAT ||| VM_EXIT_CLEAR_BNDCFGS in
  vmexit ← adjust_vmx_controls min opt MSR_IA32_VMX_EXIT_CTLS;
  pin ← adjust_vmx_controls 0 0 MSR_IA32_VMX_PINBASED_CTLS;
  let min := VM_ENTRY_LOAD_DEBUG_CONTROLS ||| VM_ENTRY_LOAD_IA32_EFER in
  let opt := VM_ENTRY_LOAD_IA32_PAT ||| VM_ENTRY_LOAD_BNDCFGS in
  vmentry ← adjust_vmx_controls min opt MSR_IA32_VMX_ENTRY_CTLS;
  '(vmx_msr_low, vmx_msr_high) ← rdmsr MSR_IA32_VMX_BASIC;
  (if PAGE_SIZE <? (vmx_msr_high &&& 0x1fff) then panic "vmx: VMCS size is never greater than 4KB"
   else mret tt) ;;
  (if negb (((vmx_msr_high >>> 18) &&& 15) =? 6)
   then panic "vmx: require write-back memory type for VMCS accesses" else mret tt) ;;
  modify (set_config {|
    cfg_size := vmx_msr_high &&& 0x1fff;
    cfg_basic_cap := vmx_msr_high &&& not32 0x1fff;
    cfg_revision_id := vmx_msr_low;
    pin_based_exec_ctrl := pin;
    cpu_based_exec_ctrl := cpu;
    cpu_based_2nd_exec_ctrl := cpu2;
    vmexit_ctrl := vmexit;
    vmentry_ctrl := vmentry |}) ;;
  print_vmx_controls "pin-based VM-execution controls" pin ;;
  print_vmx_controls "primary processor-based VM-execution controls" cpu ;;
  print_vmx_controls "secondary processor-based VM-execution controls" cpu2 ;;
  print_vmx_controls "VM-exit controls" vmexit ;;
  print_vmx_controls "VM-entry controls" vmentry.

(** ** The MSR bitmap *)

(** [read ? set_bit(msr, tmp) : clear_bit(msr, tmp)], [tmp] at word [base]. *)
Definition assign_bit (v : bool) (nr base : Z) (l : list Z) : list Z :=
  if v then set_bit nr base l else clear_bit nr base l.

Definition __set_msr_interception (l : list Z) (msr : Z) (read write : bool) : list Z :=
  let f := 8 in
  if msr <=? 0x1fff then
    let l := assign_bit read msr (0x000 / f) l in
    assign_bit write msr (0x800 / f) l
  else if (0xc0000000 <=? msr) && (msr <=? 0xc0001fff) then
    let msr := msr &&& 0x1fff in
    let l := assign_bit read msr (0x400 / f) l in
    assign_bit write msr (0xc00 / f) l
  else l.

Definition set_msr_interception (msr : Z) (read write : bool) : M (machine hw) unit :=
  modify (λ s, set_msr_bitmap (__set_msr_interception (m_msr_bitmap s) msr read write) s).

Definition vmx_hardware_setup : M (machine hw) unit :=
  setup_vmcs_config ;;
  has_2m ← cpu_has_vmx_ept_2m_page;
  (if negb has_2m then panic "vmx: no support for 2MB EPT pages" else mret tt) ;;
  has_4l ← cpu_has_vmx_ept_4levels;
  (if negb has_4l then panic "vmx: no support for 4-level EPT" else mret tt) ;;
  set_msr_interception MSR_IA32_APICBASE false true ;;
  set_msr_interception (APIC_BASE_MSR + (APIC_ICR >>> 4)) false true ;;
  for_each (seqZ MSR_IA32_VMX_BASIC (MSR_IA32_VMX_VMFUNC - MSR_IA32_VMX_BASIC + 1))
    (λ i, set_msr_interception i true true) ;;
  set_msr_interception MSR_EFER false true.

(** ** Enabling VMX *)

(** The two [vmcs] pages are passed to the processor only; their contents other than
    [revision_id] are the processor's. *)
Definition store_revision (pa : Z) : M (machine hw) unit :=
  modify (λ s, set_mem (write64 (m_mem s) pa
    ((read64 (m_mem s) pa &&& not64 (2 ^ 32 - 1)) ||| cfg_revision_id (m_config s))) s).

Definition kvm_cpu_vmxon (addr : Z) : M (machine hw) unit :=
  modify (λ s, set_hw (hw_vmxon (m_hw s) addr) s).

Definition vmcs_load (addr : Z) : M (machine hw) unit :=
  error ← (λ s, let '(e, h) := hw_vmptrld (m_hw s) addr in Done e (set_hw h s));
  if error : bool then panic "vmx: vmptrld failed" else mret tt.

Definition vmx_vcpu_enable : M (machine hw) unit :=
  cr4 ← read_cr4;
  (if truthy (cr4 &&& X86_CR4_VMXE) then panic "vmx: VMXE already set in CR4" else mret tt) ;;
  old ← rdmsrl MSR_IA32_FEATURE_CONTROL;
  let test_bits := FEATURE_CONTROL_LOCKED ||| FEATURE_CONTROL_VMXON_ENABLED_OUTSIDE_SMX in
  when (negb ((old &&& test_bits) =? test_bits))
    (wrmsrl MSR_IA32_FEATURE_CONTROL (old ||| test_bits)) ;;
  cr4_set_bits X86_CR4_VMXE ;;
  store_revision vmxarea_pa ;;
  kvm_cpu_vmxon vmxarea_pa ;;
  store_revision current_vmcs_pa ;;
  vmcs_load current_vmcs_pa.

(** ** Control registers *)

Definition enter_lmode : M (machine hw) unit :=
  vmentry_ctrl ← vmcs_read32 VM_ENTRY_CONTROLS;
  vmcs_write32 VM_ENTRY_CONTROLS (vmentry_ctrl ||| VM_ENTRY_IA32E_MODE) ;;
  efer ← vmcs_read64 GUEST_IA32_EFER;
  vmcs_write64 GUEST_IA32_EFER (efer ||| EFER_LMA) ;;
  guest_tr_ar ← vmcs_read32 GUEST_TR_AR_BYTES;
  when (negb ((guest_tr_ar &&& VMX_AR_TYPE_MASK) =? VMX_AR_TYPE_BUSY_64_TSS))
    (vmcs_write32 GUEST_TR_AR_BYTES
       ((guest_tr_ar &&& not32 VMX_AR_TYPE_MASK) ||| VMX_AR_TYPE_BUSY_64_TSS)).

Definition exit_lmode : M (machine hw) unit :=
  vmentry_ctrl ← vmcs_read32 VM_ENTRY_CONTROLS;
  vmcs_write32 VM_ENTRY_CONTROLS (vmentry_ctrl &&& not32 VM_ENTRY_IA32E_MODE) ;;
  efer ← vmcs_read64 GUEST_IA32_EFER;
  vmcs_write64 GUEST_IA32_EFER (efer &&& not64 EFER_LMA).

Definition vmx_set_cr0 (cr0 : Z) : M (machine hw) unit :=
  efer ← vmcs_read64 GUEST_IA32_EFER;
  when (truthy (efer &&& EFER_LME))
    (old_cr0 ← vmcs_readl GUEST_CR0;
     when (negb (truthy (old_cr0 &&& X86_CR0_PG)) && truthy (cr0 &&& X86_CR0_PG)) enter_lmode ;;
     when (truthy (old_cr0 &&& X86_CR0_PG) && negb (truthy (cr0 &&& X86_CR0_PG))) exit_lmode) ;;
  vmcs_writel GUEST_CR0 (cr0 ||| KVM_GUEST_CR0_ALWAYS_ON).

Definition vmx_set_cr3 (cr3 : Z) : M (machine hw) unit := vmcs_writel GUEST_CR3 cr3.

Definition vmx_set_cr4 (cr4 : Z) : M (machine hw) unit :=
  vmcs_writel GUEST_CR4 (cr4 ||| KVM_GUEST_CR4_ALWAYS_ON).

(** ** The initial state of the vCPU *)

(** [sgdt]/[sidt]: the base address; [str]: the selector. *)
Definition store_gdt : M (machine hw) Z := gets (λ s, u64 (hw_store_gdt (m_hw s))).
Definition store_idt : M (machine hw) Z := gets (λ s, u64 (hw_store_idt (m_hw s))).
Definition store_tr : M (machine hw) Z := gets (λ s, u64 (hw_store_tr (m_hw s))).
Definition read_cr0 : M (machine hw) Z := gets (λ s, u64 (hw_read_cr0 (m_hw s))).
Definition read_cr3 : M (machine hw) Z := gets (λ s, u64 (hw_read_cr3 (m_hw s))).

(** The 16 bytes of a [struct tss_desc]: [base0] in bits 16..31, [base1] in 32..39, [p]
    in bit 47, [base2] in 56..63, and [base3] in the low half of the second word. *)
Definition get_tr_base : M (machine hw) Z :=
  gdt ← store_gdt;
  tr ← store_tr;
  let desc := u64 (gdt + 8 * (tr / 8)) in
  lo ← gets (λ s, read64 (m_mem s) desc);
  hi ← gets (λ s, read64 (m_mem s) (desc + 8));
  BUG_ON (negb (((lo >>> 47) &&& 1) =? 1)) ;;
  mret (((lo >>> 16) &&& 0xffff) ||| (((lo >>> 32) &&& 0xff) <<< 16)
        ||| (((lo >>> 56) &&& 0xff) <<< 24) ||| (u32 hi <<< 32)).

(** The loop over the autoload area; [nmsrs] is [ARRAY_SIZE(vmx_msr_index)]. *)
Definition autoload_step (i : Z) : M (machine hw) unit :=
  let index := aget vmx_msr_index i in
  modify (λ s, set_vmx (set_autoload
    (set_autoload_entry (autoload_guest (m_vmx s)) i (with_index index))
    (set_autoload_entry (autoload_host (m_vmx s)) i (with_index index)) (m_vmx s)) s) ;;
  v ← rdmsrl index;
  modify (λ s, set_vmx (set_autoload (autoload_guest (m_vmx s))
    (set_autoload_entry (autoload_host (m_vmx s)) i (with_value v)) (m_vmx s)) s).

Definition setup_autoload : M (machine hw) unit :=
  for_each (seqZ 0 (Z.of_nat (length vmx_msr_index))) autoload_step.

(** [vmcs_write32] is used on the 64-bit [VM_EXIT_MSR_STORE_ADDR], as in the source. *)
Definition setup_controls : M (machine hw) unit :=
  c ← gets m_config;
  vmcs_write64 MSR_BITMAP msr_bitmap_pa ;;
  vmcs_write64 VMCS_LINK_POINTER (2 ^ 64 - 1) ;;
  vmcs_write32 PIN_BASED_VM_EXEC_CONTROL (pin_based_exec_ctrl c) ;;
  vmcs_write32 CPU_BASED_VM_EXEC_CONTROL (cpu_based_exec_ctrl c) ;;
  vmcs_write32 SECONDARY_VM_EXEC_CONTROL (cpu_based_2nd_exec_ctrl c) ;;
  vmcs_write32 VM_EXIT_CONTROLS (vmexit_ctrl c) ;;
  vmcs_write32 VM_ENTRY_CONTROLS (vmentry_ctrl c) ;;
  vmcs_write32 EXCEPTION_BITMAP (BIT 6 ||| BIT 14) ;;
  vmcs_write32 PAGE_FAULT_ERROR_CODE_MASK 0 ;;
  vmcs_write32 PAGE_FAULT_ERROR_CODE_MATCH 0 ;;
  vmcs_write32 CR3_TARGET_COUNT 0 ;;
  let nmsrs := Z.of_nat (length vmx_msr_index) in
  vmcs_write32 VM_EXIT_MSR_STORE_COUNT nmsrs ;;
  vmcs_write32 VM_EXIT_MSR_STORE_ADDR autoload_guest_pa ;;
  vmcs_write32 VM_EXIT_MSR_LOAD_COUNT nmsrs ;;
  vmcs_write64 VM_EXIT_MSR_LOAD_ADDR autoload_host_pa ;;
  vmcs_write32 VM_ENTRY_MSR_LOAD_COUNT nmsrs ;;
  vmcs_write64 VM_ENTRY_MSR_LOAD_ADDR autoload_guest_pa.

Definition setup_host : M (machine hw) unit :=
  vmcs_write16 HOST_FS_SELECTOR 0 ;;
  vmcs_write16 HOST_GS_SELECTOR 0 ;;
  v ← rdmsrl MSR_FS_BASE; vmcs_writel HOST_FS_BASE v ;;
  v ← rdmsrl MSR_GS_BASE; vmcs_writel HOST_GS_BASE v ;;
  v ← read_cr0; vmcs_writel HOST_CR0 v ;;
  v ← read_cr3; vmcs_writel HOST_CR3 v ;;
  v ← read_cr4; vmcs_writel HOST_CR4 v ;;
  v ← rdmsrl MSR_EFER; vmcs_write64 HOST_IA32_EFER v ;;
  vmcs_write16 HOST_CS_SELECTOR KERNEL_CS ;;
  vmcs_write16 HOST_DS_SELECTOR KERNEL_DS ;;
  vmcs_write16 HOST_ES_SELECTOR KERNEL_DS ;;
  vmcs_write16 HOST_SS_SELECTOR KERNEL_DS ;;
  tr ← store_tr; vmcs_write16 HOST_TR_SELECTOR tr ;;
  tr ← store_tr; BUG_ON (negb (tr =? GDT_ENTRY_TSS * 8)) ;;
  idt ← store_idt; vmcs_writel HOST_IDTR_BASE idt ;;
  gdt ← store_gdt; vmcs_writel HOST_GDTR_BASE gdt ;;
  base ← get_tr_base; vmcs_writel HOST_TR_BASE base ;;
  vmcs_writel HOST_RIP vmx_return ;;
  v ← rdmsrl MSR_IA32_SYSENTER_CS; vmcs_write32 HOST_IA32_SYSENTER_CS (u32 v) ;;
  v ← rdmsrl MSR_IA32_SYSENTER_EIP; vmcs_writel HOST_IA32_SYSENTER_EIP v ;;
  c ← gets m_config;
  when (truthy (vmexit_ctrl c &&& VM_EXIT_LOAD_IA32_PAT))
    (v ← rdmsrl MSR_IA32_CR_PAT; vmcs_write64 HOST_IA32_PAT v).

(** The four writes for one guest segment. *)
Definition reset_segment (seg selector base limit ar : Z) : M (machine hw) unit :=
  let sf := kvm_vmx_segment_fields seg in
  vmcs_write16 (sf_selector sf) selector ;;
  vmcs_writel (sf_base sf) base ;;
  vmcs_write32 (sf_limit sf) limit ;;
  vmcs_write32 (sf_ar_bytes sf) ar.

Definition setup_guest : M (machine hw) unit :=
  reset_segment VCPU_SREG_CS 0xf000 0xffff0000 0xffff (0x93 ||| 0x08) ;;
  reset_segment VCPU_SREG_DS 0 0 0xffff 0x93 ;;
  reset_segment VCPU_SREG_ES 0 0 0xffff 0x93 ;;
  reset_segment VCPU_SREG_SS 0 0 0xffff 0x93 ;;
  reset_segment VCPU_SREG_FS 0 0 0xffff 0x93 ;;
  reset_segment VCPU_SREG_GS 0 0 0xffff 0x93 ;;
  reset_segment VCPU_SREG_TR 0 0 0xffff 0x008b ;;
  reset_segment VCPU_SREG_LDTR 0 0 0xffff 0x00082 ;;
  vmcs_write32 GUEST_SYSENTER_CS 0 ;;
  vmcs_writel GUEST_SYSENTER_ESP 0 ;;
  vmcs_writel GUEST_SYSENTER_EIP 0 ;;
  vmcs_write64 GUEST_IA32_DEBUGCTL 0 ;;
  vmcs_writel GUEST_RFLAGS 0x02 ;;
  vmcs_writel GUEST_RIP 0xfff0 ;;
  vmcs_writel GUEST_GDTR_BASE 0 ;;
  vmcs_write32 GUEST_GDTR_LIMIT 0xffff ;;
  vmcs_writel GUEST_IDTR_BASE 0 ;;
  vmcs_write32 GUEST_IDTR_LIMIT 0xffff ;;
  vmcs_write32 GUEST_ACTIVITY_STATE GUEST_ACTIVITY_ACTIVE ;;
  vmcs_write32 GUEST_INTERRUPTIBILITY_INFO 0 ;;
  vmcs_writel GUEST_PENDING_DBG_EXCEPTIONS 0 ;;
  vmcs_write32 VM_ENTRY_INTR_INFO_FIELD 0 ;;
  vmcs_write16 VIRTUAL_PROCESSOR_ID 1 ;;
  vmcs_writel CR0_GUEST_HOST_MASK KVM_GUEST_CR0_ALWAYS_ON ;;
  vmcs_writel CR0_READ_SHADOW KVM_GUEST_CR0_ALWAYS_ON ;;
  vmx_set_cr0 (X86_CR0_NW ||| X86_CR0_CD ||| X86_CR0_ET) ;;
  vmcs_writel GUEST_CR3 0 ;;
  vmcs_writel CR4_GUEST_HOST_MASK KVM_GUEST_CR4_ALWAYS_ON ;;
  vmcs_writel CR4_READ_SHADOW KVM_GUEST_CR4_ALWAYS_ON ;;
  vmx_set_cr4 0.

Definition vmx_vcpu_setup : M (machine hw) unit :=
  setup_controls ;; setup_autoload ;; setup_host ;; setup_guest.

(** ** Guest state access *)

Definition vmx_set_tdp (tdp : Z) : M (machine hw) unit :=
  vmcs_write64 EPT_POINTER
    ((tdp ||| VMX_EPT_DEFAULT_MT) ||| (VMX_EPT_DEFAULT_GAW <<< VMX_EPT_GAW_EPTP_SHIFT)).

Definition is_real_mode : M (machine hw) bool :=
  cr0 ← vmcs_readl GUEST_CR0; mret (negb (truthy (cr0 &&& X86_CR0_PE))).

Definition vmx_get_cpl : M (machine hw) Z :=
  real ← is_real_mode;
  if real : bool then mret 0
  else ar ← vmcs_read32 GUEST_SS_AR_BYTES; mret (VMX_AR_DPL ar).

Definition vmx_get_segment (seg : Z) : M (machine hw) kvm_segment :=
  let sf := kvm_vmx_segment_fields seg in
  base ← __vmcs_read (sf_base sf);
  limit ← __vmcs_read (sf_limit sf);
  selector ← __vmcs_read (sf_selector sf);
  ar ← __vmcs_read (sf_ar_bytes sf);
  mret (decode_segment base limit selector (u32 ar)).

Definition vmx_set_segment (var : kvm_segment) (seg : Z) : M (machine hw) unit :=
  let sf := kvm_vmx_segment_fields seg in
  __vmcs_write (sf_base sf) (sg_base var) ;;
  __vmcs_write (sf_limit sf) (sg_limit var) ;;
  __vmcs_write (sf_selector sf) (sg_selector var) ;;
  __vmcs_write (sf_ar_bytes sf) (vmx_segment_access_rights var).

Definition vmx_get_rflags : M (machine hw) Z := vmcs_readl GUEST_RFLAGS.
Definition vmx_set_rflags (rflags : Z) : M (machine hw) unit := vmcs_writel GUEST_RFLAGS rflags.
Definition vmx_get_rip : M (machine hw) Z := vmcs_readl GUEST_RIP.
Definition vmx_set_rip (rip : Z) : M (machine hw) unit := vmcs_writel GUEST_RIP rip.
End vmx.

(** The part of [vmx_x86_ops] that gives access to the guest. *)
#[export] Instance vmx_guest_ops {hw} `{Hardware hw} : KvmGuestOps hw := {|
  ops_get_cpl := vmx_get_cpl;
  ops_get_segment := vmx_get_segment;
  ops_set_segment := vmx_set_segment;
  ops_get_rflags := vmx_get_rflags;
  ops_set_rflags := vmx_set_rflags;
  ops_get_rip := vmx_get_rip;
  ops_set_rip := vmx_set_rip;
  ops_set_tdp := vmx_set_tdp;
|}.

Section skip.
Context {hw : Type} `{Hardware hw}.

Definition vmx_skip_emulated_instruction : M (machine hw) unit :=
  rip ← kvm_rip_read;
  len ← vmcs_read32 VM_EXIT_INSTRUCTION_LEN;
  kvm_rip_write (u64 (rip + len)) ;;
  interruptibility ← vmcs_read32 GUEST_INTERRUPTIBILITY_INFO;
  let interruptibility :=
    interruptibility &&& not32 (GUEST_INTR_STATE_STI ||| GUEST_INTR_STATE_MOV_SS) in
  vmcs_write32 GUEST_INTERRUPTIBILITY_INFO interruptibility.
End skip.

#[export] Instance vmx_skip_op {hw} `{Hardware hw} : KvmSkipOp hw :=
  vmx_skip_emulated_instruction.

(** ** Controls *)

Section controls.
Context {hw : Type} `{Hardware hw}.
Implicit Types s : machine hw.

(** The allowed settings a capability MSR reports: bit [i] may be 0 when [low] has it
    clear, and may be 1 when [high] has it set. *)
Definition allowed_ctl (low high ctl : Z) : Prop :=
  ∀ i, 0 ≤ i < 32 →
    (Z.testbit ctl i = false → Z.testbit low i = false) ∧
    (Z.testbit ctl i = true → Z.testbit high i = true).

Lemma truthy_bits w x : 0 ≤ w → 0 ≤ x < 2 ^ w →
  truthy x = true ↔ ∃ i, 0 ≤ i < w ∧ Z.testbit x i = true.
Proof.
  intros Hw Hx. unfold truthy. rewrite negb_true_iff, Z.eqb_neq. split.
  - intros Hn. destruct (Z.eq_dec (Z.log2 x) (Z.log2 x)) as [_|]; [|done].
    exists (Z.log2 x). split; [|by apply Z.bit_log2; lia].
    split; [apply Z.log2_nonneg|]. apply Z.log2_lt_pow2; lia.
  - intros (i & _ & Ht) ->. by rewrite Z.testbit_0_l in Ht.
Qed.

Lemma rdmsr_done msr s :
  ∃ low high, rdmsr msr s = Done (low, high) s ∧ 0 ≤ low < 2 ^ 32 ∧ 0 ≤ high < 2 ^ 32.
Proof.
  unfold rdmsr, rdmsrl. erewrite bind_done by reflexivity. eexists _, _. split; [reflexivity|].
  split; [by apply wrap_bound|].
  set (v := u64 _). assert (0 ≤ v < 2 ^ 64) by (by apply wrap_bound).
  rewrite Z.shiftr_div_pow2 by lia. split; [apply Z.div_pos; lia|].
  apply Z.div_lt_upper_bound; lia.
Qed.

(** The value [adjust_vmx_controls] computes. *)
Definition adjusted (low high ctl_min ctl_opt : Z) : Z :=
  ((ctl_min ||| ctl_opt) &&& high) ||| low.

Lemma adjust_vmx_controls_done ctl_min ctl_opt msr s low high :
  rdmsr msr s = Done (low, high) s →
  adjust_vmx_controls ctl_min ctl_opt msr s =
    if truthy (ctl_min &&& not32 (adjusted low high ctl_min ctl_opt))
    then Panicked "vmx: failed to set minimum control bits" s
    else Done (adjusted low high ctl_min ctl_opt) s.
Proof.
  intros Hr. unfold adjust_vmx_controls. rewrite (bind_done _ _ _ _ _ Hr).
  cbv zeta. unfold adjusted. by destruct (truthy _).
Qed.

(** C12: The controls chosen for a VMCS field.  When the capability MSR is consistent
    (what must be 1 may be 1), the routine either returns a setting the processor
    allows, that has every required bit, every optional bit the processor supports and
    no other bit that may be 0; or panics, and then some required bit is not
    supported. *)
Theorem adjust_vmx_controls_correct ctl_min ctl_opt msr s low high :
  0 ≤ ctl_min < 2 ^ 32 → 0 ≤ ctl_opt < 2 ^ 32 → rdmsr msr s = Done (low, high) s →
  (∀ i, Z.testbit low i = true → Z.testbit high i = true) →
  ((∀ i, Z.testbit ctl_min i = true → Z.testbit high i = true) →
   ∃ ctl, adjust_vmx_controls ctl_min ctl_opt msr s = Done ctl s ∧ allowed_ctl low high ctl ∧
     (∀ i, 0 ≤ i < 32 → Z.testbit ctl i =
        Z.testbit low i || Z.testbit ctl_min i || (Z.testbit ctl_opt i && Z.testbit high i))) ∧
  ((∃ i, Z.testbit ctl_min i = true ∧ Z.testbit high i = false) →
   adjust_vmx_controls ctl_min ctl_opt msr s =
     Panicked "vmx: failed to set minimum control bits" s).
Proof.
  intros Hmin Hopt Hr Hlh.
  pose proof (adjust_vmx_controls_done ctl_min ctl_opt _ _ _ _ Hr) as Hadj.
  assert (∀ i, 0 ≤ i → Z.testbit (adjusted low high ctl_min ctl_opt) i =
    Z.testbit low i || ((Z.testbit ctl_min i || Z.testbit ctl_opt i) && Z.testbit high i)) as Hbit.
  { intros i Hi. unfold adjusted. autorewrite with bits. apply orb_comm. }
  assert (0 ≤ ctl_min &&& not32 (adjusted low high ctl_min ctl_opt) < 2 ^ 32) as Hb
    by (by apply land_bound_l).
  rewrite Hadj. split.
  - intros Hsup. destruct (truthy _) eqn:E.
    { apply (truthy_bits 32) in E as (i & Hi & Ht); [|lia|done].
      autorewrite with bits in Ht. rewrite Hbit in Ht by lia.
      destruct (Z.testbit ctl_min i) eqn:Em; [|done]. rewrite (Hsup i Em) in Ht.
      by rewrite orb_true_r in Ht. }
    eexists; split; [done|]. split.
    + intros i Hi. rewrite Hbit by lia. specialize (Hlh i).
      destruct (Z.testbit low i), (Z.testbit high i), (Z.testbit ctl_min i), (Z.testbit ctl_opt i);
        split; intros; done || (by specialize (Hlh eq_refl)).
    + intros i Hi. rewrite Hbit by lia. specialize (Hsup i).
      destruct (Z.testbit low i), (Z.testbit high i), (Z.testbit ctl_min i), (Z.testbit ctl_opt i);
        try done; by specialize (Hsup eq_refl).
  - intros (i & Hm & Hh). destruct (truthy _) eqn:E; [done|].
    assert (0 ≤ i < 32) as Hi.
    { destruct (decide (0 ≤ i)); [|by rewrite Z.testbit_neg_r in Hm by lia].
      destruct (decide (i < 32)); [done|]. by rewrite (testbit_high 32) in Hm by (done || lia). }
    apply not_true_iff_false in E. destruct E. apply (truthy_bits 32); [lia|done|].
    exists i. split; [done|]. autorewrite with bits. rewrite Hbit, Hm, Hh by lia.
    destruct (Z.testbit low i) eqn:El; [by rewrite (Hlh _ El) in Hh|]. zbool.
Qed.
End controls.

(** All optional bits refused and one bit forced. *)
Lemma adjust_vmx_controls_correct_witness :
  let s := set_hw (Concrete.cpu_wrmsr (m_hw Concrete.boot) MSR_IA32_VMX_PINBASED_CTLS 0x1600000016)
             Concrete.boot in
  rdmsr MSR_IA32_VMX_PINBASED_CTLS s = Done (0x16, 0x16) s ∧
  ((∀ i, Z.testbit 2 i = true → Z.testbit 0x16 i = true) →
   ∃ ctl, adjust_vmx_controls 2 1 MSR_IA32_VMX_PINBASED_CTLS s = Done ctl s ∧
     allowed_ctl 0x16 0x16 ctl ∧
     (∀ i, 0 ≤ i < 32 → Z.testbit ctl i =
        Z.testbit 0x16 i || Z.testbit 2 i || (Z.testbit 1 i && Z.testbit 0x16 i))).
Proof.
  intros s. split; [reflexivity|].
  apply (adjust_vmx_controls_correct 2 1 MSR_IA32_VMX_PINBASED_CTLS s 0x16 0x16);
    [lia|lia|reflexivity|done].
Defined.

(** ** The MSR bitmap *)

(** The processor's reading of the bitmap: does [rdmsr] ([wrmsr]) of [msr] exit?  MSRs
    outside the two ranges always exit. *)
Definition controllable (msr : Z) : Prop :=
  0 ≤ msr ≤ 0x1fff ∨ 0xc0000000 ≤ msr ≤ 0xc0001fff.

Definition intercepted (l : list Z) (write : bool) (msr : Z) : bool :=
  if msr <=? 0x1fff then bitmap_bit l (8 * (if write then 0x800 else 0x000) + msr)
  else bitmap_bit l (8 * (if write then 0xc00 else 0x400) + (msr - 0xc0000000)).

Definition bitmap_ok (l : list Z) : Prop := words_ok l ∧ length l = 512%nat.

Lemma assign_bit_spec v nr base l i :
  0 ≤ nr → 0 ≤ base → base + nr / 64 < Z.of_nat (length l) → 0 ≤ i →
  bitmap_bit (assign_bit v nr base l) i =
    if i =? base * 64 + nr then v else bitmap_bit l i.
Proof.
  intros. unfold assign_bit. destruct v; [rewrite set_bit_spec|rewrite clear_bit_spec]; try done;
    by destruct (i =? _).
Qed.

Lemma assign_bit_ok v nr base l : 0 ≤ nr → bitmap_ok l → bitmap_ok (assign_bit v nr base l).
Proof.
  intros Hn [Hw Hl]. unfold assign_bit, bitmap_ok. destruct v.
  - by rewrite set_bit_length; split; [apply set_bit_ok|].
  - by rewrite clear_bit_length; split; [apply clear_bit_ok|].
Qed.

Lemma msr_low_bits msr : 0xc0000000 ≤ msr ≤ 0xc0001fff → msr &&& 0x1fff = msr - 0xc0000000.
Proof. intros. change 0x1fff with (2 ^ 13 - 1). rewrite land_mask by lia. divlia. Qed.

Lemma set_msr_interception_ok l msr read write :
  0 ≤ msr → bitmap_ok l → bitmap_ok (__set_msr_interception l msr read write).
Proof.
  intros Hm Hl. unfold __set_msr_interception.
  destruct (Z.leb_spec msr 0x1fff); [by do 2 (apply assign_bit_ok; [done|])|].
  destruct (_ && _) eqn:E; [|done]. assert (0xc0000000 ≤ msr ≤ 0xc0001fff) by lia.
  rewrite msr_low_bits by done. by do 2 (apply assign_bit_ok; [lia|]).
Qed.

Lemma set_msr_interception_spec l msr read write m w :
  0 ≤ msr → bitmap_ok l → controllable m →
  intercepted (__set_msr_interception l msr read write) w m =
    if m =? msr then (if w then write else read) else intercepted l w m.
Proof.
  intros Hm [Hw Hl] Hc. unfold __set_msr_interception, intercepted, controllable in *.
  destruct (Z.leb_spec msr 0x1fff) as [H1|H1].
  - change (0x000 / 8) with 0. change (0x800 / 8) with 256.
    destruct (Z.leb_spec m 0x1fff), w;
      rewrite !assign_bit_spec by (unfold assign_bit, set_bit, clear_bit; repeat case_match;
        rewrite ?aset_length; divlia);
      destruct (Z.eqb_spec m msr); zbool.
  - destruct ((0xc0000000 <=? msr) && (msr <=? 0xc0001fff)) eqn:E.
    + assert (0xc0000000 ≤ msr ≤ 0xc0001fff) by lia. rewrite msr_low_bits by done.
      change (0x400 / 8) with 128. change (0xc00 / 8) with 384.
      destruct (Z.leb_spec m 0x1fff), w;
        rewrite !assign_bit_spec by (unfold assign_bit, set_bit, clear_bit; repeat case_match;
          rewrite ?aset_length; divlia);
        destruct (Z.eqb_spec m msr); zbool.
    + destruct (Z.eqb_spec m msr); [|done]. lia.
Qed.

Section setup.
Context {hw : Type} `{Hardware hw}.
Implicit Types s : machine hw.

Lemma preserves_adjust (I : machine hw → Prop) a b m : preserves I (adjust_vmx_controls a b m).
Proof. unfold adjust_vmx_controls, rdmsr, rdmsrl. preserving. Qed.

Lemma preserves_print_controls l p c :
  preserves (λ s, m_msr_bitmap s = l) (print_vmx_controls p c).
Proof. unfold print_vmx_controls, pr_info, pr_cont, printk. preserving. Qed.

#[local] Hint Resolve preserves_adjust preserves_print_controls : preserves.

Lemma setup_vmcs_config_bitmap l : preserves (λ s, m_msr_bitmap s = l) setup_vmcs_config.
Proof. unfold setup_vmcs_config, rdmsr, rdmsrl. preserving. Qed.

(** The VMX capability MSRs. *)
Definition vmx_msr (m : Z) : bool := (MSR_IA32_VMX_BASIC <=? m) && (m <=? MSR_IA32_VMX_VMFUNC).

(** What the hypervisor means to intercept. *)
Definition intercept_policy (w : bool) (m : Z) : bool :=
  vmx_msr m ||
  (w && ((m =? MSR_IA32_APICBASE) || (m =? APIC_BASE_MSR + (APIC_ICR >>> 4)) || (m =? MSR_EFER))).

Lemma intercept_range n lo l m w :
  0 ≤ lo → bitmap_ok l → controllable m →
  let l' := foldl (λ l i, __set_msr_interception l i true true) l (seqZ lo (Z.of_nat n)) in
  bitmap_ok l' ∧
  intercepted l' w m = ((lo <=? m) && (m <? lo + Z.of_nat n)) || intercepted l w m.
Proof.
  intros Hlo Hl Hc. revert lo l Hlo Hl. induction n as [|n IH]; intros lo l Hlo Hl.
  - split; [done|]. cbn. zbool.
  - rewrite Nat2Z.inj_succ, seqZ_cons by lia. cbn [foldl]. rewrite Z.pred_succ.
    destruct (IH (Z.succ lo) (__set_msr_interception l lo true true)) as [H1 H2];
      [lia|by apply set_msr_interception_ok|].
    split; [done|]. rewrite H2, set_msr_interception_spec by done.
    destruct (Z.eqb_spec m lo), w; zbool.
Qed.

Lemma for_each_intercept msrs s :
  for_each msrs (λ i, set_msr_interception i true true) s =
    Done tt (set_msr_bitmap
      (foldl (λ l i, __set_msr_interception l i true true) (m_msr_bitmap s) msrs) s).
Proof.
  revert s. induction msrs as [|i msrs IH]; intros s; [by destruct s|].
  cbn [for_each foldl]. erewrite bind_done by reflexivity. by rewrite IH.
Qed.

(** The updates [vmx_hardware_setup] makes, on the bitmap alone. *)
Definition policy_bitmap (l : list Z) : list Z :=
  let l := __set_msr_interception l MSR_IA32_APICBASE false true in
  let l := __set_msr_interception l (APIC_BASE_MSR + (APIC_ICR >>> 4)) false true in
  let l := foldl (λ l i, __set_msr_interception l i true true) l
             (seqZ MSR_IA32_VMX_BASIC (MSR_IA32_VMX_VMFUNC - MSR_IA32_VMX_BASIC + 1)) in
  __set_msr_interception l MSR_EFER false true.

Lemma policy_bitmap_spec l m w :
  bitmap_ok l → controllable m → intercepted l w m = false →
  bitmap_ok (policy_bitmap l) ∧ intercepted (policy_bitmap l) w m = intercept_policy w m.
Proof.
  intros Hok Hm Hl. unfold policy_bitmap.
  change (APIC_BASE_MSR + (APIC_ICR >>> 4)) with 0x830.
  pose proof (set_msr_interception_ok l MSR_IA32_APICBASE false true ltac:(easy) Hok) as Hok1.
  pose proof (set_msr_interception_spec l MSR_IA32_APICBASE false true m w ltac:(easy) Hok Hm) as H1.
  set (l1 := __set_msr_interception l _ _ _) in *. clearbody l1.
  pose proof (set_msr_interception_ok l1 0x830 false true ltac:(easy) Hok1) as Hok2.
  pose proof (set_msr_interception_spec l1 0x830 false true m w ltac:(easy) Hok1 Hm) as H2.
  set (l2 := __set_msr_interception l1 _ _ _) in *. clearbody l2.
  destruct (intercept_range 18 MSR_IA32_VMX_BASIC l2 m w ltac:(easy) Hok2 Hm) as [Hok3 H3].
  change (Z.of_nat 18) with (MSR_IA32_VMX_VMFUNC - MSR_IA32_VMX_BASIC + 1) in Hok3, H3.
  set (l3 := foldl _ l2 _) in *. clearbody l3.
  split; [by apply set_msr_interception_ok|].
  rewrite set_msr_interception_spec, H3, H2, H1, Hl by (done || easy).
  unfold intercept_policy, vmx_msr. change (APIC_BASE_MSR + (APIC_ICR >>> 4)) with 0x830.
  change (MSR_IA32_VMX_BASIC + (MSR_IA32_VMX_VMFUNC - MSR_IA32_VMX_BASIC + 1)) with 0x492.
  change MSR_IA32_VMX_BASIC with 0x480. change MSR_IA32_VMX_VMFUNC with 0x491.
  change MSR_EFER with 0xc0000080. change MSR_IA32_APICBASE with 0x1b.
  destruct w; zbool.
Qed.

Lemma set_msr_interception_done msr r w s :
  set_msr_interception msr r w s =
    Done tt (set_msr_bitmap (__set_msr_interception (m_msr_bitmap s) msr r w) s).
Proof. done. Qed.

Lemma msr_bitmap_set l s : m_msr_bitmap (set_msr_bitmap l s) = l.
Proof. done. Qed.

Lemma vmx_hardware_setup_bitmap s s' :
  vmx_hardware_setup s = Done tt s' → m_msr_bitmap s' = policy_bitmap (m_msr_bitmap s).
Proof.
  intros Hr. unfold vmx_hardware_setup in Hr.
  bind_inv Hr as [] s1 H1. apply (preserves_done _ _ _ _ _ (setup_vmcs_config_bitmap _) eq_refl) in H1.
  bind_inv Hr as a2 s2 H2. apply gets_inv in H2 as [_ ->].
  bind_inv Hr as [] s3 H3. apply check_inv in H3 as [_ ->].
  bind_inv Hr as a4 s4 H4. apply gets_inv in H4 as [_ ->].
  bind_inv Hr as [] s5 H5. apply check_inv in H5 as [_ ->].
  bind_inv Hr as [] s6 H6. rewrite set_msr_interception_done in H6. apply done_inj in H6 as [_ <-].
  bind_inv Hr as [] s7 H7. rewrite set_msr_interception_done in H7. apply done_inj in H7 as [_ <-].
  bind_inv Hr as [] s8 H8. rewrite for_each_intercept in H8. apply done_inj in H8 as [_ <-].
  rewrite set_msr_interception_done in Hr. apply done_inj in Hr as [_ <-].
  rewrite !msr_bitmap_set, H1. unfold policy_bitmap. cbv zeta. reflexivity.
Qed.

(** C10: The MSR bitmap after [vmx_hardware_setup].  From the zeroed bitmap, when the
    set-up returns, a read of an MSR exits exactly when it is one of the VMX capability
    MSRs, and a write exactly when it is one of these, or [MSR_IA32_APICBASE], the x2APIC's
    ICR, or [MSR_EFER]; every other MSR the bitmap controls is passed through. *)
Theorem msr_interception_policy s s' m w :
  bitmap_ok (m_msr_bitmap s) → (∀ i, 0 ≤ i → bitmap_bit (m_msr_bitmap s) i = false) →
  vmx_hardware_setup s = Done tt s' → controllable m →
  bitmap_ok (m_msr_bitmap s') ∧ intercepted (m_msr_bitmap s') w m = intercept_policy w m.
Proof.
  intros Hok Hz Hr Hm. rewrite (vmx_hardware_setup_bitmap _ _ Hr).
  apply policy_bitmap_spec; [exact Hok|exact Hm|].
  unfold intercepted, controllable in *. destruct (Z.leb_spec m 0x1fff), w; apply Hz; lia.
Qed.
End setup.

(** A processor that supports every control. *)
Definition vmx_capable : Concrete.cpu :=
  foldl (λ c p, Concrete.cpu_wrmsr c p.1 p.2) (m_hw Concrete.boot)
    [ (MSR_IA32_VMX_PINBASED_CTLS, 0xffffffff00000000);
      (MSR_IA32_VMX_PROCBASED_CTLS, 0xffffffff00000000);
      (MSR_IA32_VMX_PROCBASED_CTLS2, 0xffffffff00000000);
      (MSR_IA32_VMX_EXIT_CTLS, 0xffffffff00000000);
      (MSR_IA32_VMX_ENTRY_CTLS, 0xffffffff00000000);
      (MSR_IA32_VMX_EPT_VPID_CAP, 0xffffffff);
      (MSR_IA32_VMX_BASIC, 0x0018040000000001) ].

Lemma msr_interception_policy_witness :
  let s := set_hw vmx_capable Concrete.boot in
  let s' := final_state (vmx_hardware_setup s) in
  vmx_hardware_setup s = Done tt s' ∧
  bitmap_ok (m_msr_bitmap s') ∧
  intercepted (m_msr_bitmap s') true MSR_EFER = intercept_policy true MSR_EFER.
Proof.
  intros s s'.
  assert (vmx_hardware_setup s = Done tt s') as Hr by (vm_compute; reflexivity).
  split; [exact Hr|]. apply (msr_interception_policy s s' MSR_EFER true).
  - split; [|reflexivity]. apply Forall_replicate. lia.
  - intros i Hi. unfold bitmap_bit, aget. cbn [m_msr_bitmap s set_hw Concrete.boot].
    case_match; [by rewrite Z.testbit_0_l|].
    destruct (replicate 512 0 !! Z.to_nat (i / 64)) eqn:E; simpl; [|by rewrite Z.testbit_0_l].
    apply lookup_replicate in E as [-> _]. by rewrite Z.testbit_0_l.
  - exact Hr.
  - right. vm_compute. split; discriminate.
Defined.

(** ** Writes to the VMCS

    The fields the program writes.  All of them are read-write fields of the enumeration
    that every processor with the required controls has; [WritableVmcs] says that the
    processor accepts them. *)

Definition written_fields : list Z :=
  [ MSR_BITMAP; VMCS_LINK_POINTER; PIN_BASED_VM_EXEC_CONTROL; CPU_BASED_VM_EXEC_CONTROL;
    SECONDARY_VM_EXEC_CONTROL; VM_EXIT_CONTROLS; VM_ENTRY_CONTROLS; EXCEPTION_BITMAP;
    PAGE_FAULT_ERROR_CODE_MASK; PAGE_FAULT_ERROR_CODE_MATCH; CR3_TARGET_COUNT;
    VM_EXIT_MSR_STORE_COUNT; VM_EXIT_MSR_STORE_ADDR; VM_EXIT_MSR_LOAD_COUNT;
    VM_EXIT_MSR_LOAD_ADDR; VM_ENTRY_MSR_LOAD_COUNT; VM_ENTRY_MSR_LOAD_ADDR;
    HOST_FS_SELECTOR; HOST_GS_SELECTOR; HOST_FS_BASE; HOST_GS_BASE; HOST_CR0; HOST_CR3;
    HOST_CR4; HOST_IA32_EFER; HOST_CS_SELECTOR; HOST_DS_SELECTOR; HOST_ES_SELECTOR;
    HOST_SS_SELECTOR; HOST_TR_SELECTOR; HOST_IDTR_BASE; HOST_GDTR_BASE; HOST_TR_BASE;
    HOST_RIP; HOST_IA32_SYSENTER_CS; HOST_IA32_SYSENTER_EIP; HOST_IA32_PAT;
    GUEST_CS_SELECTOR; GUEST_CS_BASE; GUEST_CS_LIMIT; GUEST_CS_AR_BYTES;
    GUEST_DS_SELECTOR; GUEST_DS_BASE; GUEST_DS_LIMIT; GUEST_DS_AR_BYTES;
    GUEST_ES_SELECTOR; GUEST_ES_BASE; GUEST_ES_LIMIT; GUEST_ES_AR_BYTES;
    GUEST_SS_SELECTOR; GUEST_SS_BASE; GUEST_SS_LIMIT; GUEST_SS_AR_BYTES;
    GUEST_FS_SELECTOR; GUEST_FS_BASE; GUEST_FS_LIMIT; GUEST_FS_AR_BYTES;
    GUEST_GS_SELECTOR; GUEST_GS_BASE; GUEST_GS_LIMIT; GUEST_GS_AR_BYTES;
    GUEST_TR_SELECTOR; GUEST_TR_BASE; GUEST_TR_LIMIT; GUEST_TR_AR_BYTES;
    GUEST_LDTR_SELECTOR; GUEST_LDTR_BASE; GUEST_LDTR_LIMIT; GUEST_LDTR_AR_BYTES;
    GUEST_SYSENTER_CS; GUEST_SYSENTER_ESP; GUEST_SYSENTER_EIP; GUEST_IA32_DEBUGCTL;
    GUEST_RFLAGS; GUEST_RIP; GUEST_GDTR_BASE; GUEST_GDTR_LIMIT; GUEST_IDTR_BASE;
    GUEST_IDTR_LIMIT; GUEST_ACTIVITY_STATE; GUEST_INTERRUPTIBILITY_INFO;
    GUEST_PENDING_DBG_EXCEPTIONS; VM_ENTRY_INTR_INFO_FIELD; VIRTUAL_PROCESSOR_ID;
    CR0_GUEST_HOST_MASK; CR0_READ_SHADOW; GUEST_CR0; GUEST_CR3; CR4_GUEST_HOST_MASK;
    CR4_READ_SHADOW; GUEST_CR4; EPT_POINTER; GUEST_IA32_EFER ].

Class WritableVmcs (hw : Type) `{Hardware hw} : Prop :=
  vmwrite_accepted f : f ∈ written_fields → hw_vmwrite_fails f = false.

(** Solves [f ∈ written_fields] for a constant [f]. *)
Ltac written := apply (bool_decide_unpack _); vm_compute; exact I.

(** The machine after a write to the VMCS. *)
Definition vmcs_upd {hw} (f v : Z) (s : machine hw) : machine hw :=
  set_vmcs (vmwrite (m_vmcs s) f v) s.

Lemma vmcs_upd_u64 {hw} f v (s : machine hw) : vmcs_upd f (u64 v) s = vmcs_upd f v s.
Proof.
  unfold vmcs_upd, vmwrite. do 2 f_equal. unfold wrap.
  rewrite <- Znumtheory.Zmod_div_mod; [done| | |].
  - by destruct (vmcs_width_cases f) as [->|[->| ->]].
  - done.
  - destruct (vmcs_width_cases f) as [->|[->| ->]].
    + by exists (2 ^ 48).
    + by exists (2 ^ 32).
    + by exists 1.
Qed.

(** Writes of constant fields, in the order of the list. *)
Definition write_all (l : list (Z * Z)) (v : gmap Z Z) : gmap Z Z :=
  foldl (λ v p, vmwrite v p.1 p.2) v l.

(** The last value written to [f], if any. *)
Fixpoint last_write (l : list (Z * Z)) (f : Z) : option Z :=
  match l with
  | [] => None
  | p :: l => match last_write l f with
              | Some v => Some v
              | None => if p.1 =? f then Some p.2 else None
              end
  end.

Lemma write_all_app l1 l2 v : write_all (l1 ++ l2) v = write_all l2 (write_all l1 v).
Proof. apply foldl_app. Qed.

Lemma vmread_write_all l v f :
  vmread (write_all l v) f =
    match last_write l f with Some x => wrap (vmcs_width f) x | None => vmread v f end.
Proof.
  revert v. induction l as [|[g x] l IH]; intros v; [done|]. cbn [write_all foldl last_write fst snd].
  fold (write_all l). change (foldl _ ?w l) with (write_all l w). rewrite IH.
  destruct (last_write l f); [done|]. destruct (Z.eqb_spec g f) as [->|].
  - apply vmread_vmwrite_eq.
  - by apply vmread_vmwrite_ne.
Qed.

Lemma vmcs_ok_write_all l v : vmcs_ok v → vmcs_ok (write_all l v).
Proof. revert v. induction l as [|p l IH]; intros v Hv; [done|]. apply IH. by apply vmcs_ok_vmwrite. Qed.

Lemma vmcs_upd_vmcs {hw} f v (s : machine hw) : m_vmcs (vmcs_upd f v s) = vmwrite (m_vmcs s) f v.
Proof. done. Qed.

Lemma vmcs_upd_eq {hw} f v (s : machine hw) :
  vmread (m_vmcs (vmcs_upd f v s)) f = wrap (vmcs_width f) v.
Proof. apply vmread_vmwrite_eq. Qed.

Lemma vmcs_upd_ne {hw} f g v (s : machine hw) :
  f ≠ g → vmread (m_vmcs (vmcs_upd f v s)) g = vmread (m_vmcs s) g.
Proof. apply vmread_vmwrite_ne. Qed.

(** Reads of constant fields through constant writes. *)
Ltac field_simpl :=
  repeat match goal with
  | |- context [vmread (m_vmcs (vmcs_upd ?f ?v ?s)) ?f] => rewrite (vmcs_upd_eq f v s)
  | |- context [vmread (m_vmcs (vmcs_upd ?f ?v ?s)) ?g] =>
      rewrite (vmcs_upd_ne f g v s) by field_ne
  end.

Lemma set_vmcs_vmcs {hw} v (s : machine hw) : m_vmcs (set_vmcs v s) = v.
Proof. done. Qed.

Lemma set_vmcs_set {hw} v w (s : machine hw) : set_vmcs v (set_vmcs w s) = set_vmcs v s.
Proof. done. Qed.

Lemma set_vmcs_same {hw} (s : machine hw) : set_vmcs (m_vmcs s) s = s.
Proof. by destruct s. Qed.

Section writes.
Context {hw : Type} `{Hardware hw} `{!WritableVmcs hw}.
Implicit Types s : machine hw.

Lemma vmcs_write_done f v s :
  f ∈ written_fields → __vmcs_write f v s = Done tt (vmcs_upd f v s).
Proof.
  intros Hf. unfold __vmcs_write. rewrite vmwrite_accepted by done. unfold modify.
  by rewrite <- vmcs_upd_u64.
Qed.

(** *** Skipping an instruction *)

(** The two writes of [vmx_skip_emulated_instruction]. *)
Definition skip_writes (v : gmap Z Z) : list (Z * Z) :=
  [(GUEST_RIP, u64 (vmread v GUEST_RIP + u32 (vmread v VM_EXIT_INSTRUCTION_LEN)));
   (GUEST_INTERRUPTIBILITY_INFO, u32 (vmread v GUEST_INTERRUPTIBILITY_INFO)
      &&& not32 (GUEST_INTR_STATE_STI ||| GUEST_INTR_STATE_MOV_SS))].

Lemma skip_done s :
  kvm_skip_emulated_instruction s =
    Done tt (set_vmcs (write_all (skip_writes (m_vmcs s)) (m_vmcs s)) s).
Proof.
  unfold kvm_skip_emulated_instruction, ops_skip_emulated_instruction, vmx_skip_op,
    vmx_skip_emulated_instruction, kvm_rip_read, kvm_rip_write, vmcs_read32.
  cbn [ops_get_rip ops_set_rip vmx_guest_ops]. unfold vmx_get_rip, vmx_set_rip, vmcs_readl.
  erewrite bind_done by reflexivity. erewrite bind_done by reflexivity.
  rewrite (bind_done _ _ _ _ _ (vmcs_write_done GUEST_RIP _ _ ltac:(written))).
  erewrite bind_done by reflexivity. unfold vmcs_write32. rewrite vmcs_write_done by written.
  unfold vmcs_upd, skip_writes. cbn [m_vmcs set_vmcs write_all foldl fst snd].
  by rewrite (vmread_vmwrite_ne _ GUEST_RIP) by field_ne.
Qed.

(** C13: Skipping an emulated instruction: the guest's [RIP] moves past it (modulo 2^64),
    blocking by STI and by MOV SS ends, every other field and the rest of the machine
    keep their values. *)
Theorem skip_emulated_instruction_correct s :
  let rip := vmread (m_vmcs s) GUEST_RIP in
  let len := vmread (m_vmcs s) VM_EXIT_INSTRUCTION_LEN in
  let info := vmread (m_vmcs s) GUEST_INTERRUPTIBILITY_INFO in
  vmcs_ok (m_vmcs s) →
  ∃ v, kvm_skip_emulated_instruction s = Done tt (set_vmcs v s) ∧
    vmread v GUEST_RIP = u64 (rip + len) ∧
    (∀ i, 0 ≤ i < 32 → Z.testbit (vmread v GUEST_INTERRUPTIBILITY_INFO) i =
       if decide (i < 2) then false else Z.testbit info i) ∧
    (∀ f, f ≠ GUEST_RIP → f ≠ GUEST_INTERRUPTIBILITY_INFO → vmread v f = vmread (m_vmcs s) f).
Proof.
  intros rip len info Hok.
  pose proof (vmread_bound _ VM_EXIT_INSTRUCTION_LEN Hok) as Hlen.
  pose proof (vmread_bound _ GUEST_INTERRUPTIBILITY_INFO Hok) as Hinfo.
  eexists. split; [apply skip_done|]. unfold skip_writes. fold rip len info. split_and!.
  - rewrite vmread_write_all. rewrite (wrap_small 32) by done. by apply wrap_wrap.
  - intros i Hi. rewrite vmread_write_all. cbn [last_write fst snd]. rewrite Z.eqb_refl.
    change (vmcs_width GUEST_INTERRUPTIBILITY_INFO) with 32. rewrite (wrap_small 32 info) by done.
    change (GUEST_INTR_STATE_STI ||| GUEST_INTR_STATE_MOV_SS) with (Z.ones 2).
    autorewrite with bits. rewrite Z.testbit_ones_nonneg by lia. case_decide; zbool.
  - intros f H1 H2. rewrite vmread_write_all. cbn [last_write fst snd].
    by rewrite !(proj2 (Z.eqb_neq _ f)) by congruence.
Qed.

(** *** Runs of writes

    From the machine [s], whatever the VMCS [v] in [P], [m] makes the writes [l] and
    nothing else. *)
Definition write_run (P : gmap Z Z → Prop) s (m : M (machine hw) unit) (l : list (Z * Z)) : Prop :=
  ∀ v, P v → m (set_vmcs v s) = Done tt (set_vmcs (write_all l v) s).

Lemma write_run_one P s f v : f ∈ written_fields → write_run P s (__vmcs_write f v) [(f, v)].
Proof. intros Hf w _. by rewrite vmcs_write_done. Qed.

Lemma write_run_ret P s : write_run P s (mret tt) [].
Proof. by intros v _. Qed.

Lemma write_run_bind P s (m n : M (machine hw) unit) l l' :
  write_run P s m l → (∀ v, P v → P (write_all l v)) → write_run P s n l' →
  write_run P s (m ;; n) (l ++ l').
Proof.
  intros Hm HP Hn v Hv. rewrite (bind_done _ _ _ _ _ (Hm v Hv)), Hn by auto.
  by rewrite write_all_app.
Qed.

Lemma write_run_read {A} P s (m : M (machine hw) A) (f : A → M (machine hw) unit) a l :
  (∀ v, P v → m (set_vmcs v s) = Done a (set_vmcs v s)) → write_run P s (f a) l →
  write_run P s (m ≫= f) l.
Proof. intros Hm Hf v Hv. rewrite (bind_done _ _ _ _ _ (Hm v Hv)). by apply Hf. Qed.

Lemma write_run_when P s (c : bool) m l :
  write_run P s m l → write_run P s (when c m) (if c then l else []).
Proof. destruct c; [done|]. intros _. apply write_run_ret. Qed.
End writes.

#[export] Instance concrete_writable : WritableVmcs Concrete.cpu.
Proof.
  intros f Hf. apply negb_true_iff.
  apply (forallb_elem (λ f, negb (hw_vmwrite_fails f)) written_fields); [|exact Hf].
  vm_compute. reflexivity.
Qed.

Lemma skip_emulated_instruction_correct_witness :
  let s := set_vmcs {[ GUEST_RIP := 0x7c00; VM_EXIT_INSTRUCTION_LEN := 2;
                       GUEST_INTERRUPTIBILITY_INFO := 9 ]} Concrete.boot in
  vmcs_ok (m_vmcs s) ∧
  ∃ v, kvm_skip_emulated_instruction s = Done tt (set_vmcs v s) ∧
    vmread v GUEST_RIP = 0x7c02 ∧
    (∀ i, 0 ≤ i < 32 → Z.testbit (vmread v GUEST_INTERRUPTIBILITY_INFO) i =
       if decide (i < 2) then false else Z.testbit 9 i) ∧
    (∀ f, f ≠ GUEST_RIP → f ≠ GUEST_INTERRUPTIBILITY_INFO → vmread v f = vmread (m_vmcs s) f).
Proof.
  intros s. assert (vmcs_ok (m_vmcs s)) as Hok by (apply (bool_decide_unpack _); vm_compute; exact I).
  split; [exact Hok|]. apply (skip_emulated_instruction_correct s Hok).
Defined.
