(* ===== verification/VmxState.v ===== *)
(** What the routines of file Vmx do to the guest state in the VMCS: the state of the vCPU
    at reset, the segments, the control registers. *)

From S2P Require Import Prelude Vmcs Machine Kvm Vmx.
#[local] Open Scope Z_scope.
#[local] Open Scope cint_scope.

(** ** The state at reset *)

(** The architectural state of a processor after a reset (table 9-1 of volume 3A of
    Intel's manual), with the bits of CR0 and CR4 that VMX operation fixes. *)
Definition guest_reset : list (Z * Z) :=
  [ (GUEST_RFLAGS, 0x2); (GUEST_RIP, 0xfff0);
    (GUEST_CR0, 0x60000010 ||| X86_CR0_NE ||| X86_CR0_WP); (GUEST_CR3, 0); (GUEST_CR4, X86_CR4_VMXE);
    (GUEST_CS_SELECTOR, 0xf000); (GUEST_CS_BASE, 0xffff0000); (GUEST_CS_LIMIT, 0xffff);
    (GUEST_CS_AR_BYTES, 0x9b);
    (GUEST_SS_SELECTOR, 0); (GUEST_SS_BASE, 0); (GUEST_SS_LIMIT, 0xffff); (GUEST_SS_AR_BYTES, 0x93);
    (GUEST_DS_SELECTOR, 0); (GUEST_DS_BASE, 0); (GUEST_DS_LIMIT, 0xffff); (GUEST_DS_AR_BYTES, 0x93);
    (GUEST_ES_SELECTOR, 0); (GUEST_ES_BASE, 0); (GUEST_ES_LIMIT, 0xffff); (GUEST_ES_AR_BYTES, 0x93);
    (GUEST_FS_SELECTOR, 0); (GUEST_FS_BASE, 0); (GUEST_FS_LIMIT, 0xffff); (GUEST_FS_AR_BYTES, 0x93);
    (GUEST_GS_SELECTOR, 0); (GUEST_GS_BASE, 0); (GUEST_GS_LIMIT, 0xffff); (GUEST_GS_AR_BYTES, 0x93);
    (GUEST_GDTR_BASE, 0); (GUEST_GDTR_LIMIT, 0xffff);
    (GUEST_IDTR_BASE, 0); (GUEST_IDTR_LIMIT, 0xffff);
    (GUEST_LDTR_SELECTOR, 0); (GUEST_LDTR_BASE, 0); (GUEST_LDTR_LIMIT, 0xffff);
    (GUEST_LDTR_AR_BYTES, 0x82);
    (GUEST_TR_SELECTOR, 0); (GUEST_TR_BASE, 0); (GUEST_TR_LIMIT, 0xffff); (GUEST_TR_AR_BYTES, 0x8b);
    (GUEST_SYSENTER_CS, 0); (GUEST_SYSENTER_ESP, 0); (GUEST_SYSENTER_EIP, 0);
    (GUEST_IA32_DEBUGCTL, 0); (GUEST_ACTIVITY_STATE, 0); (GUEST_INTERRUPTIBILITY_INFO, 0);
    (GUEST_PENDING_DBG_EXCEPTIONS, 0); (VM_ENTRY_INTR_INFO_FIELD, 0);
    (CR0_GUEST_HOST_MASK, X86_CR0_NE ||| X86_CR0_WP); (CR0_READ_SHADOW, X86_CR0_NE ||| X86_CR0_WP);
    (CR4_GUEST_HOST_MASK, X86_CR4_VMXE); (CR4_READ_SHADOW, X86_CR4_VMXE);
    (VIRTUAL_PROCESSOR_ID, 1) ].

Definition lme_clear (v : gmap Z Z) : Prop :=
  truthy (u64 (vmread v GUEST_IA32_EFER) &&& EFER_LME) = false.

Section setup.
Context {hw : Type} `{Hardware hw} `{!WritableVmcs hw} `{Layout}.
Implicit Types s : machine hw.

(** The controls: what [setup_vmcs_config] chose; exits on #UD and #PF; the four MSRs
    swapped at every entry and exit. *)
Definition control_state s : list (Z * Z) :=
  [ (PIN_BASED_VM_EXEC_CONTROL, pin_based_exec_ctrl (m_config s));
    (CPU_BASED_VM_EXEC_CONTROL, cpu_based_exec_ctrl (m_config s));
    (SECONDARY_VM_EXEC_CONTROL, cpu_based_2nd_exec_ctrl (m_config s));
    (VM_EXIT_CONTROLS, vmexit_ctrl (m_config s)); (VM_ENTRY_CONTROLS, vmentry_ctrl (m_config s));
    (MSR_BITMAP, msr_bitmap_pa); (VMCS_LINK_POINTER, 2 ^ 64 - 1);
    (EXCEPTION_BITMAP, 2 ^ 6 + 2 ^ 14); (CR3_TARGET_COUNT, 0);
    (PAGE_FAULT_ERROR_CODE_MASK, 0); (PAGE_FAULT_ERROR_CODE_MATCH, 0);
    (VM_EXIT_MSR_STORE_COUNT, 4); (VM_EXIT_MSR_STORE_ADDR, autoload_guest_pa);
    (VM_EXIT_MSR_LOAD_COUNT, 4); (VM_EXIT_MSR_LOAD_ADDR, autoload_host_pa);
    (VM_ENTRY_MSR_LOAD_COUNT, 4); (VM_ENTRY_MSR_LOAD_ADDR, autoload_guest_pa) ].

(** The address of the descriptor of the task state segment, and the base it holds. *)
Definition tss_desc_addr s : Z := u64 (u64 (hw_store_gdt (m_hw s)) + 8 * (u64 (hw_store_tr (m_hw s)) / 8)).

Definition tss_base s : Z :=
  let lo := read64 (m_mem s) (tss_desc_addr s) in
  let hi := read64 (m_mem s) (tss_desc_addr s + 8) in
  ((lo >>> 16) &&& 0xffff) ||| (((lo >>> 32) &&& 0xff) <<< 16)
  ||| (((lo >>> 56) &&& 0xff) <<< 24) ||| (u32 hi <<< 32).

(** The state of the host at the next exit: that of the processor now, at
    [vmx_return]. *)
Definition host_state s : list (Z * Z) :=
  [ (HOST_CR0, hw_read_cr0 (m_hw s)); (HOST_CR3, hw_read_cr3 (m_hw s));
    (HOST_CR4, hw_read_cr4 (m_hw s)); (HOST_IA32_EFER, hw_rdmsr (m_hw s) MSR_EFER);
    (HOST_FS_BASE, hw_rdmsr (m_hw s) MSR_FS_BASE); (HOST_GS_BASE, hw_rdmsr (m_hw s) MSR_GS_BASE);
    (HOST_CS_SELECTOR, 0x10); (HOST_DS_SELECTOR, 0x18); (HOST_ES_SELECTOR, 0x18);
    (HOST_SS_SELECTOR, 0x18); (HOST_FS_SELECTOR, 0); (HOST_GS_SELECTOR, 0);
    (HOST_TR_SELECTOR, 0x40); (HOST_TR_BASE, tss_base s);
    (HOST_GDTR_BASE, hw_store_gdt (m_hw s)); (HOST_IDTR_BASE, hw_store_idt (m_hw s));
    (HOST_RIP, vmx_return);
    (HOST_IA32_SYSENTER_EIP, hw_rdmsr (m_hw s) MSR_IA32_SYSENTER_EIP) ].

(** [l] gives each field of [spec] its value last, the writes truncated to the field. *)
Definition sets (l spec : list (Z * Z)) : Prop :=
  Forall (λ p, ∃ x, last_write l p.1 = Some x ∧ wrap (vmcs_width p.1) x = wrap (vmcs_width p.1) p.2)
    spec.

Lemma sets_read l spec v f x :
  sets l spec → (f, x) ∈ spec → vmread (write_all l v) f = wrap (vmcs_width f) x.
Proof.
  intros Hl Hin. pose proof (proj1 (Forall_forall _ _) Hl _ Hin) as (y & Hy & Hw).
  cbn [fst snd] in *. by rewrite vmread_write_all, Hy.
Qed.

(** A list of writes that leaves the field alone. *)
Lemma lme_clear_write_all l v :
  last_write l GUEST_IA32_EFER = None → lme_clear v → lme_clear (write_all l v).
Proof. intros Hl Hv. unfold lme_clear. by rewrite vmread_write_all, Hl. Qed.

Lemma vmx_set_cr0_lme_clear cr0 s :
  write_run lme_clear s (vmx_set_cr0 cr0) [(GUEST_CR0, cr0 ||| KVM_GUEST_CR0_ALWAYS_ON)].
Proof.
  intros v Hv. unfold vmx_set_cr0. erewrite bind_done by reflexivity. cbv beta zeta.
  unfold vmcs_writel. change (m_vmcs (set_vmcs v s)) with v. rewrite Hv.
  erewrite bind_done by reflexivity. apply (write_run_one lme_clear); [written|done].
Qed.

Lemma write_run_gets {A} P s (g : machine hw → A) (f : A → M (machine hw) unit) l :
  (∀ v, g (set_vmcs v s) = g s) → write_run P s (f (g s)) l → write_run P s (gets g ≫= f) l.
Proof. intros Hg. apply write_run_read. intros v _. unfold gets. by rewrite Hg. Qed.

(** What [setup_host] insists on: the task register selects the entry of the TSS, and its
    descriptor is present. *)
Definition host_tss_ok s : Prop :=
  u64 (hw_store_tr (m_hw s)) = 64 ∧ Z.testbit (read64 (m_mem s) (tss_desc_addr s)) 47 = true.

Lemma get_tr_base_done s v :
  host_tss_ok s → get_tr_base (set_vmcs v s) = Done (tss_base s) (set_vmcs v s).
Proof.
  intros [_ Hp]. unfold get_tr_base, store_gdt, store_tr.
  do 4 (erewrite bind_done by reflexivity). cbv beta zeta.
  change (m_mem (set_vmcs v s)) with (m_mem s). change (m_hw (set_vmcs v s)) with (m_hw s).
  fold (tss_desc_addr s).
  replace ((read64 (m_mem s) (tss_desc_addr s) >>> 47) &&& 1) with 1; [done|].
  change 1 with (Z.ones 1) at 2. rewrite Z.land_ones by lia. change (2 ^ 1) with 2.
  rewrite Zmod_odd, <- Z.bit0_odd, Z.shiftr_spec by lia.
  change (0 + 47) with 47. by rewrite Hp.
Qed.

Lemma write_run_BUG_ON P s c : c = false → write_run P s (BUG_ON c) [].
Proof. intros ->. apply write_run_ret. Qed.

(** Collects the writes of a computation made of writes and reads. *)
Ltac running :=
  lazymatch goal with
  | |- write_run _ _ (get_tr_base ≫= _) _ =>
      eapply write_run_read; [intros ? _; by apply get_tr_base_done|cbv beta; running]
  | |- write_run _ _ (gets _ ≫= _) _ =>
      apply write_run_gets; [intros ?; reflexivity|cbv beta zeta; running]
  | |- write_run _ _ (_ ;; _) _ =>
      eapply write_run_bind; [running | intros ? ?; try exact I; try
        (apply lme_clear_write_all; [reflexivity|assumption]) | running]
  | |- write_run _ _ (vmx_set_cr0 _) _ => apply vmx_set_cr0_lme_clear
  | |- write_run _ _ (reset_segment _ _ _ _ _) _ => unfold reset_segment; cbv zeta; running
  | |- write_run _ _ (vmcs_write16 _ _) _ => apply write_run_one; written
  | |- write_run _ _ (vmcs_write32 _ _) _ => apply write_run_one; written
  | |- write_run _ _ (vmcs_write64 _ _) _ => apply write_run_one; written
  | |- write_run _ _ (vmcs_writel _ _) _ => apply write_run_one; written
  | |- write_run _ _ (vmx_set_cr4 _) _ => apply write_run_one; written
  | |- write_run _ _ (when _ _) _ => apply write_run_when; running
  | |- write_run _ _ (BUG_ON _) _ => (apply write_run_BUG_ON; lazymatch goal with H : host_tss_ok _ |- _ => by rewrite (proj1 H) end)
  end.

Ltac width_const :=
  match goal with |- context [vmcs_width ?f] =>
    let w := eval vm_compute in (vmcs_width f) in change (vmcs_width f) with w end.

(** Finds the last write of each field of the list. *)
Ltac sets_tac tac :=
  repeat first
    [ apply Forall_nil_2 | apply Forall_cons_2; [eexists; split; [reflexivity|tac]|] ].

Lemma setup_guest_run s :
  ∃ l, write_run lme_clear s setup_guest l ∧ sets l guest_reset ∧
    Forall (λ f, last_write l f = None) (map fst (control_state s ++ host_state s)).
Proof.
  eexists. split; [unfold setup_guest; running|].
  split; [|unfold control_state, host_state; cbn [map fst app]; repeat constructor].
  sets_tac ltac:(vm_compute; reflexivity).
Qed.

Lemma setup_controls_run s :
  ∃ l, write_run lme_clear s setup_controls l ∧ sets l (control_state s)
    ∧ last_write l GUEST_IA32_EFER = None.
Proof.
  eexists. split; [unfold setup_controls; running|].
  split; [|reflexivity]. sets_tac ltac:(reflexivity).
Qed.

Lemma setup_host_run s :
  host_tss_ok s →
  ∃ l, write_run lme_clear s setup_host l ∧ sets l (host_state s)
    ∧ last_write l GUEST_IA32_EFER = None ∧
    Forall (λ f, last_write l f = None) (map fst (control_state s)).
Proof.
  intros Htss. eexists. split.
  { unfold setup_host, rdmsrl, read_cr0, read_cr3, read_cr4, store_tr, store_idt, store_gdt.
    running. }
  destruct (truthy _).
  all: split; [|split; [reflexivity|]].
  1,3: sets_tac ltac:(cbn [fst snd]; width_const; rewrite ?(proj1 Htss), ?wrap_wrap by done;
    reflexivity).
  all: unfold control_state; cbn [map fst]; repeat constructor.
Qed.

Definition autoload_entry_ok s (g h : list vmx_msr_entry) (i : nat) : Prop :=
  msr_index <$> g !! i = vmx_msr_index !! i ∧
  msr_value <$> g !! i = msr_value <$> autoload_guest (m_vmx s) !! i ∧
  msr_index <$> h !! i = vmx_msr_index !! i ∧
  msr_value <$> h !! i = (λ index, u64 (hw_rdmsr (m_hw s) index)) <$> vmx_msr_index !! i.

Lemma guest_reset_fits p : p ∈ guest_reset → wrap (vmcs_width p.1) p.2 = p.2.
Proof.
  intros Hp. apply Z.eqb_eq.
  apply (forallb_elem (λ p, wrap (vmcs_width p.1) p.2 =? p.2) guest_reset);
    [vm_compute; reflexivity|done].
Qed.

Lemma unwritten l v f : last_write l f = None → vmread (write_all l v) f = vmread v f.
Proof. intros Hl. by rewrite vmread_write_all, Hl. Qed.

Lemma autoload_step_done i g h x s (k : unit → M (machine hw) unit) :
  let index := aget vmx_msr_index i in
  (autoload_step i ≫= k) (set_vmx (set_autoload g h x) s) =
    k tt (set_vmx (set_autoload (set_autoload_entry g i (with_index index))
      (set_autoload_entry (set_autoload_entry h i (with_index index)) i
         (with_value (u64 (hw_rdmsr (m_hw s) (u32 index))))) x) s).
Proof. reflexivity. Qed.

Lemma setup_autoload_done s :
  length (autoload_guest (m_vmx s)) = 8%nat → length (autoload_host (m_vmx s)) = 8%nat →
  ∃ g h, (∀ v, setup_autoload (set_vmcs v s) =
      Done tt (set_vmcs v (set_vmx (set_autoload g h (m_vmx s)) s))) ∧
    ∀ i, (i < 4)%nat → autoload_entry_ok s g h i.
Proof.
  intros Hg Hh. unfold autoload_entry_ok, setup_autoload.
  assert (∀ l v, for_each l autoload_step (set_vmcs v s) = for_each l autoload_step (set_vmx
    (set_autoload (autoload_guest (m_vmx s)) (autoload_host (m_vmx s)) (m_vmx s)) (set_vmcs v s)))
    as Hs by (intros l v; by destruct s as [? []]).
  destruct (autoload_guest (m_vmx s)) as [|g0 [|g1 [|g2 [|g3 g]]]]; try done.
  destruct (autoload_host (m_vmx s)) as [|h0 [|h1 [|h2 [|h3 h]]]]; try done.
  change (seqZ 0 (Z.of_nat (length vmx_msr_index))) with [0; 1; 2; 3].
  eexists _, _. split.
  { intros v. rewrite Hs. cbn [for_each]. rewrite !autoload_step_done.
    change (m_hw (set_vmcs v s)) with (m_hw s). reflexivity. }
  intros i Hi. do 4 (destruct i as [|i]; [repeat split; try reflexivity;
    by apply (f_equal Some), wrap_wrap|]). lia.
Qed.

(** [vmx_vcpu_setup] as the writes of its three parts. *)
Lemma vcpu_setup_runs s :
  host_tss_ok s → lme_clear (m_vmcs s) →
  length (autoload_guest (m_vmx s)) = 8%nat → length (autoload_host (m_vmx s)) = 8%nat →
  ∃ lc lh lg g h,
    vmx_vcpu_setup s = Done tt (set_vmcs (write_all (lc ++ lh ++ lg) (m_vmcs s)) (set_vmx (set_autoload g h (m_vmx s)) s)) ∧
    (sets lc (control_state s) ∧ sets lh (host_state s) ∧ sets lg guest_reset) ∧
    Forall (λ f, last_write lh f = None) (map fst (control_state s)) ∧
    Forall (λ f, last_write lg f = None) (map fst (control_state s ++ host_state s)) ∧
    (∀ i, (i < 4)%nat → autoload_entry_ok s g h i).
Proof.
  intros Htss Hlme Hg Hh.
  destruct (setup_autoload_done s Hg Hh) as (g & h & Hrun & Hgh).
  destruct (setup_controls_run s) as (lc & Hc & Hcs & Hce).
  set (s1 := set_vmx (set_autoload g h (m_vmx s)) s) in *.
  destruct (setup_host_run s1) as (lh & Hhr & Hhs & Hhe & Hhc); [exact Htss|].
  destruct (setup_guest_run s1) as (lg & Hgr & Hgs & Hgc).
  exists lc, lh, lg, g, h. split; [|by split_and!].
  unfold vmx_vcpu_setup. rewrite <- (set_vmcs_same s) at 1.
  rewrite (bind_done _ _ _ _ _ (Hc _ Hlme)), (bind_done _ _ _ _ _ (Hrun _)).
  rewrite (bind_done _ _ _ _ _ (Hhr _ (lme_clear_write_all _ _ Hce Hlme))).
  rewrite Hgr by (by apply lme_clear_write_all, lme_clear_write_all). by rewrite !write_all_app.
Qed.

(** C5: The state [vmx_vcpu_setup] leaves in the VMCS.  On a host whose task register
    selects a present TSS, and while the guest's EFER has LME clear, it returns; the guest
    is in the architectural reset state, the host state is that of the processor with
    [vmx_return] as the address to come back to, the controls are those
    [setup_vmcs_config] chose, and the MSR areas list the four saved MSRs, the host's
    with their current values.  Only the VMCS and these areas change. *)
Theorem vcpu_setup_correct s :
  host_tss_ok s → lme_clear (m_vmcs s) →
  length (autoload_guest (m_vmx s)) = 8%nat → length (autoload_host (m_vmx s)) = 8%nat →
  ∃ v g h,
    vmx_vcpu_setup s = Done tt (set_vmcs v (set_vmx (set_autoload g h (m_vmx s)) s)) ∧
    (∀ f x, (f, x) ∈ guest_reset → vmread v f = x) ∧
    (∀ f x, (f, x) ∈ control_state s ++ host_state s → vmread v f = wrap (vmcs_width f) x) ∧
    (∀ i, (i < 4)%nat → autoload_entry_ok s g h i).
Proof.
  intros Htss Hlme Hg Hh.
  destruct (vcpu_setup_runs s Htss Hlme Hg Hh) as (lc & lh & lg & g & h & Hr & (Hcs & Hhs & Hgs) & Hhc & Hgc & Hgh).
  eexists _, g, h. split; [exact Hr|]. split; [|split; [|exact Hgh]].
  - intros f x Hin. rewrite !write_all_app, (sets_read _ _ _ _ _ Hgs Hin).
    by apply (guest_reset_fits (f, x)).
  - intros f x [Hin|Hin]%elem_of_app; rewrite !write_all_app, (unwritten lg) by
      (eapply (proj1 (Forall_forall _ _) Hgc), (list_elem_of_fmap_2 fst _ (f, x)), elem_of_app; auto).
    + rewrite (unwritten lh) by
        (eapply (proj1 (Forall_forall _ _) Hhc), (list_elem_of_fmap_2 fst _ (f, x)); done).
      by apply sets_read with (control_state s).
    + by apply sets_read with (host_state s).
Qed.
End setup.

(** The concrete machine, with a TSS descriptor for base 0x123456789abc where its GDT
    register points. *)
Definition concrete_host : machine Concrete.cpu :=
  set_mem (write64 (write64 ∅ 0xffff800010002040 0x5600897891230067) 0xffff800010002048 0xffff)
    Concrete.boot.

Lemma vcpu_setup_correct_witness :
  let _ := Concrete.layout in
  let s := concrete_host in
  host_tss_ok s ∧
  ∃ v g h,
    vmx_vcpu_setup s = Done tt (set_vmcs v (set_vmx (set_autoload g h (m_vmx s)) s)) ∧
    (∀ f x, (f, x) ∈ guest_reset → vmread v f = x) ∧
    (∀ f x, (f, x) ∈ control_state s ++ host_state s → vmread v f = wrap (vmcs_width f) x) ∧
    (∀ i, (i < 4)%nat → autoload_entry_ok s g h i).
Proof.
  intros L s. assert (host_tss_ok s) as Htss by (split; vm_compute; reflexivity).
  split; [exact Htss|]. apply (vcpu_setup_correct s Htss); reflexivity.
Defined.

(** ** CR0 and long mode *)

(** The consistency requirements stated above [enter_lmode] in [vmm/vmx.c]: EFER.LMA is
    the VM-entry control "IA-32e mode guest" and the conjunction of CR0.PG and
    EFER.LME. *)
Definition lma_consistent (v : gmap Z Z) : Prop :=
  let efer := vmread v GUEST_IA32_EFER in
  Z.testbit efer 10 = Z.testbit (vmread v VM_ENTRY_CONTROLS) 9 ∧
  Z.testbit efer 10 = Z.testbit (vmread v GUEST_CR0) 31 && Z.testbit efer 8.

Section cr0.
Context {hw : Type} `{Hardware hw} `{!WritableVmcs hw}.
Implicit Types s : machine hw.

(** What [enter_lmode] and [exit_lmode] write, with the new value of LMA. *)
Definition lmode_writes (v : gmap Z Z) (lma : bool) : list (Z * Z) :=
  let ctl := u32 (vmread v VM_ENTRY_CONTROLS) in
  let efer := u64 (vmread v GUEST_IA32_EFER) in
  let tr := u32 (vmread v GUEST_TR_AR_BYTES) in
  [(VM_ENTRY_CONTROLS, if lma then ctl ||| VM_ENTRY_IA32E_MODE else ctl &&& not32 VM_ENTRY_IA32E_MODE);
   (GUEST_IA32_EFER, if lma then efer ||| EFER_LMA else efer &&& not64 EFER_LMA)]
  ++ (if lma && negb ((tr &&& VMX_AR_TYPE_MASK) =? VMX_AR_TYPE_BUSY_64_TSS)
      then [(GUEST_TR_AR_BYTES, (tr &&& not32 VMX_AR_TYPE_MASK) ||| VMX_AR_TYPE_BUSY_64_TSS)] else []).

Lemma enter_lmode_done s :
  enter_lmode s = Done tt (set_vmcs (write_all (lmode_writes (m_vmcs s) true) (m_vmcs s)) s).
Proof.
  unfold enter_lmode, vmcs_read32, vmcs_read64, vmcs_write32, vmcs_write64.
  erewrite bind_done by reflexivity. cbv beta.
  rewrite (bind_done _ _ _ _ _ (vmcs_write_done VM_ENTRY_CONTROLS _ _ ltac:(written))).
  erewrite bind_done by reflexivity. cbv beta.
  rewrite (bind_done _ _ _ _ _ (vmcs_write_done GUEST_IA32_EFER _ _ ltac:(written))).
  erewrite bind_done by reflexivity. cbv beta. field_simpl.
  unfold when, lmode_writes. cbv zeta. destruct (negb _); [|reflexivity].
  rewrite vmcs_write_done by written. reflexivity.
Qed.

Lemma exit_lmode_done s :
  exit_lmode s = Done tt (set_vmcs (write_all (lmode_writes (m_vmcs s) false) (m_vmcs s)) s).
Proof.
  unfold exit_lmode, vmcs_read32, vmcs_read64, vmcs_write32, vmcs_write64.
  erewrite bind_done by reflexivity. cbv beta.
  rewrite (bind_done _ _ _ _ _ (vmcs_write_done VM_ENTRY_CONTROLS _ _ ltac:(written))).
  erewrite bind_done by reflexivity. cbv beta. field_simpl.
  rewrite vmcs_write_done by written. reflexivity.
Qed.

(** The writes of [vmx_set_cr0]. *)
Definition cr0_writes (v : gmap Z Z) (cr0 : Z) : list (Z * Z) :=
  let lme := Z.testbit (vmread v GUEST_IA32_EFER) 8 in
  let old := Z.testbit (vmread v GUEST_CR0) 31 in
  let new := Z.testbit cr0 31 in
  (if lme && negb (eqb old new) then lmode_writes v new else [])
  ++ [(GUEST_CR0, cr0 ||| KVM_GUEST_CR0_ALWAYS_ON)].

Lemma vmx_set_cr0_done cr0 s :
  vmcs_ok (m_vmcs s) →
  vmx_set_cr0 cr0 s = Done tt (set_vmcs (write_all (cr0_writes (m_vmcs s) cr0) (m_vmcs s)) s).
Proof.
  intros Hok. pose proof (vmread_bound _ GUEST_IA32_EFER Hok) as He.
  unfold vmx_set_cr0, vmcs_read64, vmcs_readl, vmcs_writel.
  erewrite bind_done by reflexivity. cbv beta. rewrite (wrap_small 64) by done.
  unfold EFER_LME, X86_CR0_PG. rewrite truthy_land_BIT by done. unfold cr0_writes.
  destruct (Z.testbit (vmread (m_vmcs s) GUEST_IA32_EFER) 8); cbn [when andb].
  2: { erewrite bind_done by reflexivity. by rewrite vmcs_write_done by written. }
  rewrite (bind_done _ _ s tt (set_vmcs (write_all (if negb (eqb
    (Z.testbit (vmread (m_vmcs s) GUEST_CR0) 31) (Z.testbit cr0 31))
    then lmode_writes (m_vmcs s) (Z.testbit cr0 31) else []) (m_vmcs s)) s)).
  { by rewrite vmcs_write_done, write_all_app by written. }
  erewrite bind_done by reflexivity. cbv beta. rewrite !truthy_land_BIT by done.
  destruct (Z.testbit (vmread (m_vmcs s) GUEST_CR0) 31), (Z.testbit cr0 31); cbn [negb andb eqb when].
  - by destruct s.
  - erewrite bind_done by reflexivity. by rewrite exit_lmode_done.
  - rewrite (bind_done _ _ _ _ _ (enter_lmode_done s)). done.
  - by destruct s.
Qed.

(** The bits of a [w]-bit field after the code set or cleared bit [n] of it. *)
Lemma assign_field_bit w n x (b : bool) i :
  0 ≤ n < w → 0 ≤ x < 2 ^ w → 
  Z.testbit (wrap w (if b then x ||| BIT n else x &&& cnot w (BIT n))) i =
    if i =? n then b else Z.testbit x i.
Proof.
  intros Hn Hx. destruct (decide (0 ≤ i)) as [Hi|Hi].
  2: { rewrite !Z.testbit_neg_r by lia. by destruct (Z.eqb_spec i n); [lia|]. }
  destruct (Z.ltb_spec i w) as [Hw|Hw].
  - destruct b; autorewrite with bits; zbool.
  - rewrite testbit_wrap, (testbit_high w x) by lia. zbool.
Qed.

Lemma busy_tss_type t :
  u32 ((t &&& not32 VMX_AR_TYPE_MASK) ||| VMX_AR_TYPE_BUSY_64_TSS) &&& 15 = VMX_AR_TYPE_BUSY_64_TSS.
Proof.
  bitwise i. destruct (Z.ltb_spec i 4).
  - assert (i = 0 ∨ i = 1 ∨ i = 2 ∨ i = 3) as [->|[->|[->| ->]]] by lia; cbn;
      by rewrite ?andb_false_r, ?orb_true_r.
  - unfold VMX_AR_TYPE_MASK, VMX_AR_TYPE_BUSY_64_TSS.
    by rewrite !(testbit_high 4 15), !(testbit_high 4 11), !andb_false_r by easy.
Qed.

Lemma lmode_writes_spec v lma :
  vmcs_ok v → let w := write_all (lmode_writes v lma) v in
  (∀ i, Z.testbit (vmread w GUEST_IA32_EFER) i =
     if i =? 10 then lma else Z.testbit (vmread v GUEST_IA32_EFER) i) ∧
  (∀ i, Z.testbit (vmread w VM_ENTRY_CONTROLS) i =
     if i =? 9 then lma else Z.testbit (vmread v VM_ENTRY_CONTROLS) i) ∧
  (lma = true → vmread w GUEST_TR_AR_BYTES &&& 15 = VMX_AR_TYPE_BUSY_64_TSS) ∧
  (∀ f, f ∉ [GUEST_IA32_EFER; VM_ENTRY_CONTROLS; GUEST_TR_AR_BYTES] → vmread w f = vmread v f).
Proof.
  intros Hok w. pose proof (vmread_bound _ GUEST_IA32_EFER Hok) as He.
  pose proof (vmread_bound _ VM_ENTRY_CONTROLS Hok) as Hc.
  pose proof (vmread_bound _ GUEST_TR_AR_BYTES Hok) as Ht.
  change (vmcs_width GUEST_IA32_EFER) with 64 in He. change (vmcs_width VM_ENTRY_CONTROLS) with 32 in Hc.
  change (vmcs_width GUEST_TR_AR_BYTES) with 32 in Ht.
  unfold w, lmode_writes. cbv zeta. rewrite !wrap_small by done.
  set (c := lma && _). repeat split.
  - intros i. rewrite vmread_write_all. destruct c; by apply (assign_field_bit 64 10).
  - intros i. rewrite vmread_write_all. destruct c; by apply (assign_field_bit 32 9).
  - intros ->. rewrite vmread_write_all. destruct c eqn:E; cbn in E.
    + apply busy_tss_type.
    + by apply Z.eqb_eq, negb_false_iff.
  - intros f Hf. apply unwritten. rewrite !not_elem_of_cons in Hf.
    destruct c; cbn [last_write app fst snd]; by rewrite !(proj2 (Z.eqb_neq _ f)) by naive_solver.
Qed.

End cr0.

Definition long_mode_ready : machine Concrete.cpu :=
  set_vmcs {[ GUEST_IA32_EFER := 0x100; GUEST_CR0 := 0x31; GUEST_TR_AR_BYTES := 0x8b ]} Concrete.boot.


(** ** Segments *)

(** The values the C bit fields can hold. *)
Definition segment_ok (var : kvm_segment) : Prop :=
  0 ≤ sg_base var < 2 ^ 64 ∧ 0 ≤ sg_limit var < 2 ^ 32 ∧ 0 ≤ sg_selector var < 2 ^ 16 ∧
  0 ≤ sg_type var < 16 ∧ 0 ≤ sg_dpl var < 4 ∧ 0 ≤ sg_db var < 2 ∧ 0 ≤ sg_s var < 2 ∧
  0 ≤ sg_l var < 2 ∧ 0 ≤ sg_g var < 2 ∧ 0 ≤ sg_avl var < 2 ∧ 0 ≤ sg_present var < 2 ∧
  0 ≤ sg_unusable var < 2.

(** What is left of a segment in the VMCS: an unusable or not present one keeps no
    attribute and is unusable. *)
Definition segment_stored (var : kvm_segment) : kvm_segment :=
  if truthy (sg_unusable var) || negb (truthy (sg_present var)) then
    {| sg_base := sg_base var; sg_limit := sg_limit var; sg_selector := sg_selector var;
       sg_type := 0; sg_present := 0; sg_dpl := 0; sg_db := 0; sg_s := 0; sg_l := 0;
       sg_g := 0; sg_avl := 0; sg_unusable := 1 |}
  else var.

Definition segment_field_list (seg : Z) : list Z :=
  let sf := kvm_vmx_segment_fields seg in
  [sf_base sf; sf_limit sf; sf_selector sf; sf_ar_bytes sf].

(** The fields of a segment: writable, distinct, of widths 64, 32, 16 and 32. *)
Lemma segment_fields_ok seg :
  0 ≤ seg < 8 →
  (∀ f, f ∈ segment_field_list seg → f ∈ written_fields) ∧ NoDup (segment_field_list seg) ∧
  map vmcs_width (segment_field_list seg) = [64; 32; 16; 32].
Proof.
  intros Hs.
  assert (forallb (λ seg, bool_decide (Forall (λ f, f ∈ written_fields) (segment_field_list seg)) &&
    bool_decide (NoDup (segment_field_list seg)) &&
    bool_decide (map vmcs_width (segment_field_list seg) = [64; 32; 16; 32])) (seqZ 0 8) = true) as H
    by (vm_compute; reflexivity).
  apply (forallb_seqZ _ _ _ seg H) in Hs. rewrite !andb_true_iff, !bool_decide_eq_true in Hs.
  destruct Hs as [[Hw ?] ?]. split; [|done]. by apply Forall_forall.
Qed.

(** Bit fields of a word built from them. *)
Lemma access_rights_bounds var : 0 ≤ vmx_segment_access_rights var < 2 ^ 32.
Proof.
  unfold vmx_segment_access_rights. case_match; [easy|].
  assert (∀ x k n, 0 ≤ k → 0 ≤ n → n + k ≤ 32 → 0 ≤ (x &&& Z.ones k) <<< n < 2 ^ 32) as Hf.
  { intros x k n Hk Hn Hs. rewrite Z.land_ones, Z.shiftl_mul_pow2 by lia.
    assert (0 ≤ x mod 2 ^ k < 2 ^ k) by (apply Z.mod_pos_bound; lia).
    assert (2 ^ n * 2 ^ k ≤ 2 ^ 32) by (rewrite <- Z.pow_add_r by lia; apply Z.pow_le_mono_r; lia).
    assert (0 < 2 ^ n) by lia. nia. }
  repeat apply lor_bound; try done.
  all: first [by apply (Hf _ 1) | by apply (Hf _ 2) | by apply (land_bound_r 32)].
Qed.

#[export] Instance kvm_segment_eq_dec : EqDecision kvm_segment.
Proof. solve_decision. Defined.

(** A usable segment with given attributes. *)
Definition usable_segment (ty d db sy lo g a : Z) : kvm_segment :=
  {| sg_base := 0; sg_limit := 0; sg_selector := 0; sg_type := ty; sg_present := 1; sg_dpl := d;
     sg_db := db; sg_s := sy; sg_l := lo; sg_g := g; sg_avl := a; sg_unusable := 0 |}.

(** Decoding and encoding invert each other on every combination of attributes. *)
Lemma usable_segment_decode ty d db sy lo g a :
  0 ≤ ty < 16 → 0 ≤ d < 4 → 0 ≤ db < 2 → 0 ≤ sy < 2 → 0 ≤ lo < 2 → 0 ≤ g < 2 → 0 ≤ a < 2 →
  decode_segment 0 0 0 (vmx_segment_access_rights (usable_segment ty d db sy lo g a)) =
    usable_segment ty d db sy lo g a.
Proof.
  intros Ht Hd Hdb Hsy Hlo Hg Ha.
  assert (forallb (λ ty, forallb (λ d, forallb (λ db, forallb (λ sy, forallb (λ lo,
    forallb (λ g, forallb (λ a, bool_decide
      (decode_segment 0 0 0 (vmx_segment_access_rights (usable_segment ty d db sy lo g a)) =
        usable_segment ty d db sy lo g a)) (seqZ 0 2)) (seqZ 0 2)) (seqZ 0 2)) (seqZ 0 2))
    (seqZ 0 2)) (seqZ 0 4)) (seqZ 0 16) = true) as H by (vm_compute; reflexivity).
  apply (forallb_seqZ _ _ _ ty) in H; [|done]. apply (forallb_seqZ _ _ _ d) in H; [|done].
  apply (forallb_seqZ _ _ _ db) in H; [|done]. apply (forallb_seqZ _ _ _ sy) in H; [|done].
  apply (forallb_seqZ _ _ _ lo) in H; [|done]. apply (forallb_seqZ _ _ _ g) in H; [|done].
  apply (forallb_seqZ _ _ _ a) in H; [|done]. by apply bool_decide_eq_true in H.
Qed.

(** Decoding the access rights of a segment gives back what was stored. *)
Lemma decode_access_rights var :
  segment_ok var →
  decode_segment (sg_base var) (sg_limit var) (sg_selector var) (vmx_segment_access_rights var) =
    segment_stored var.
Proof.
  intros (Hb & Hl & Hs & Ht & Hd & Hdb & Hsy & Hlo & Hg & Ha & Hp & Hu).
  unfold segment_stored. destruct (_ || _) eqn:E.
  { unfold vmx_segment_access_rights, decode_segment. rewrite E, !wrap_small by done. reflexivity. }
  destruct var as [b l sel ty p d db sy lo g a u]. unfold truthy in E.
  cbn [sg_base sg_limit sg_selector sg_type sg_present sg_dpl sg_db sg_s sg_l sg_g sg_avl
    sg_unusable] in *.
  apply orb_false_iff in E as [Eu Ep]. rewrite negb_involutive in Ep.
  apply negb_false_iff, Z.eqb_eq in Eu as ->. assert (p = 1) as -> by lia.
  pose proof (usable_segment_decode ty d db sy lo g a Ht Hd Hdb Hsy Hlo Hg Ha) as H.
  change (vmx_segment_access_rights _) with
    (vmx_segment_access_rights (usable_segment ty d db sy lo g a)).
  set (ar := vmx_segment_access_rights _) in *. clearbody ar.
  unfold decode_segment, usable_segment in *. rewrite !wrap_small by done. by injection H as -> -> -> -> -> -> -> -> ->.
Qed.

Section segments.
Context {hw : Type} `{Hardware hw} `{!WritableVmcs hw}.
Implicit Types s : machine hw.

(** The four writes of [vmx_set_segment]. *)
Definition segment_writes (var : kvm_segment) (seg : Z) : list (Z * Z) :=
  let sf := kvm_vmx_segment_fields seg in
  [(sf_base sf, sg_base var); (sf_limit sf, sg_limit var); (sf_selector sf, sg_selector var);
   (sf_ar_bytes sf, vmx_segment_access_rights var)].

Lemma set_segment_done var seg s :
  0 ≤ seg < 8 →
  vmx_set_segment var seg s = Done tt (set_vmcs (write_all (segment_writes var seg) (m_vmcs s)) s).
Proof.
  intros Hseg. destruct (segment_fields_ok seg Hseg) as (Hw & _ & _).
  unfold segment_field_list, segment_writes, vmx_set_segment in *.
  set (sf := kvm_vmx_segment_fields seg) in *. clearbody sf. cbv zeta in *.
  rewrite (bind_done _ _ _ _ _ (vmcs_write_done (sf_base sf) _ _ ltac:(apply Hw; set_solver))).
  rewrite (bind_done _ _ _ _ _ (vmcs_write_done (sf_limit sf) _ _ ltac:(apply Hw; set_solver))).
  rewrite (bind_done _ _ _ _ _ (vmcs_write_done (sf_selector sf) _ _ ltac:(apply Hw; set_solver))).
  by rewrite vmcs_write_done by (apply Hw; set_solver).
Qed.

(** C11: A segment of the guest written by [vmx_set_segment] reads back by
    [vmx_get_segment] as it was, an unusable or not present one without its
    attributes; the write changes the four fields of that segment and no other. *)
Theorem segment_roundtrip seg var s :
  0 ≤ seg < 8 → segment_ok var →
  ∃ v, vmx_set_segment var seg s = Done tt (set_vmcs v s) ∧
    vmx_get_segment seg (set_vmcs v s) = Done (segment_stored var) (set_vmcs v s) ∧
    (∀ f, f ∉ segment_field_list seg → vmread v f = vmread (m_vmcs s) f).
Proof.
  intros Hseg Hvar. destruct (segment_fields_ok seg Hseg) as (Hw & Hnd & Hwidths).
  eexists. split; [by apply set_segment_done|]. unfold segment_field_list, segment_writes in *.
  unfold vmx_get_segment. set (sf := kvm_vmx_segment_fields seg) in *. clearbody sf. cbv zeta in *.
  injection Hwidths as W1 W2 W3 W4.
  rewrite !NoDup_cons, !not_elem_of_cons in Hnd.
  destruct Hnd as ((N1 & N2 & N3 & _) & (N4 & N5 & _) & (N6 & _) & _). split.
  - do 4 (erewrite bind_done by reflexivity). apply (f_equal (λ x, Done x _)).
    rewrite <- decode_access_rights by done. cbn [m_vmcs set_vmcs].
    rewrite !vmread_write_all. cbn [last_write fst snd].
    rewrite !Z.eqb_refl, !(proj2 (Z.eqb_neq _ _)) by congruence. rewrite W1, W2, W3, W4.
    pose proof (access_rights_bounds var). destruct Hvar as (Hb & Hl & Hs & _).
    by rewrite !wrap_small by (try rewrite wrap_small; done).
  - intros f Hf. rewrite !not_elem_of_cons in Hf. apply unwritten. cbn [last_write fst snd].
    by rewrite !(proj2 (Z.eqb_neq _ f)) by naive_solver.
Qed.
End segments.

Lemma segment_roundtrip_witness :
  let var := {| sg_base := 0x1000; sg_limit := 0xffff; sg_selector := 0x10; sg_type := 11;
    sg_present := 1; sg_dpl := 3; sg_db := 1; sg_s := 1; sg_l := 0; sg_g := 1; sg_avl := 0;
    sg_unusable := 0 |} in
  let s := Concrete.boot in
  segment_ok var ∧
  ∃ v, vmx_set_segment var VCPU_SREG_CS s = Done tt (set_vmcs v s) ∧
    vmx_get_segment VCPU_SREG_CS (set_vmcs v s) = Done var (set_vmcs v s).
Proof.
  intros var s. assert (segment_ok var) as Hok by (repeat split; easy). split; [exact Hok|].
  destruct (segment_roundtrip VCPU_SREG_CS var s ltac:(easy) Hok) as (v & H1 & H2 & _).
  exists v. exact (conj H1 H2).
Defined.
