(* ===== verification/VmxExit.v ===== *)
(** The VT-x back end, second part of [vmm/vmx.c]: the VM-exit handlers, the dump of the
    VMCS, and running the guest.  Running the guest is hardware: the class
    [GuestExecution] gives what the processor does between entry and exit. *)

From S2P Require Import Prelude Vmcs Machine PerCpu Apic Ept Kvm Vmx.
#[local] Open Scope Z_scope.
#[local] Open Scope cint_scope.

(** What the guest leaves behind: the processor, the VMCS, memory, the guest's MSR area,
    the registers, CR2, and whether the entry failed ([setbe] after [vmlaunch]). *)
Record guest_exit (hw : Type) : Type := {
  ge_hw : hw; ge_vmcs : gmap Z Z; ge_mem : gmap Z Z; ge_autoload : list vmx_msr_entry;
  ge_regs : list Z; ge_cr2 : Z; ge_fail : bool }.
Arguments ge_hw {hw}. Arguments ge_vmcs {hw}. Arguments ge_mem {hw}. Arguments ge_autoload {hw}.
Arguments ge_regs {hw}. Arguments ge_cr2 {hw}. Arguments ge_fail {hw}.
Arguments Build_guest_exit {hw}.

Class GuestExecution (hw : Type) : Type := {
  (** [vmlaunch], or [vmresume] when the flag is set, up to the next VM exit: from the
      processor, the VMCS, the MSR bitmap, memory, the guest's MSR area, the registers
      and CR2. *)
  guest_run : hw → gmap Z Z → list Z → gmap Z Z → list vmx_msr_entry → list Z → Z → bool →
    guest_exit hw;
  (** The stack pointer of the hypervisor at the entry. *)
  host_stack : hw → Z;
}.

(** The [avl] bit fields of [cs] and [ss] in [handle_syscall] and [handle_sysret] are
    never assigned: they hold whatever the stack held. *)
Class StackContents (hw : Type) : Type := uninit_avl : machine hw → Z → Z.

Section exits.
Context {hw : Type} `{Hardware hw} `{Layout} `{StackContents hw}.
Implicit Types s : machine hw.

(** ** The dump *)

(** A [pr_err] whose arguments are reads. *)
Definition pr_read (fmt : string) (args : list (machine hw → logarg)) : M (machine hw) unit :=
  λ s, pr_err fmt ((λ f, f s) <$> args) s.

Definition rl (field : Z) s : logarg := Num (vmread (m_vmcs s) field).
Definition r16 (field : Z) s : logarg := Num (u16 (vmread (m_vmcs s) field)).
Definition r32 (field : Z) s : logarg := Num (u32 (vmread (m_vmcs s) field)).
Definition r64 (field : Z) s : logarg := Num (u64 (vmread (m_vmcs s) field)).
Definition lit (n : Z) s : logarg := Num n.

Definition vmx_dump_sel (name : string) (sel : Z) : M (machine hw) unit :=
  pr_read "%s sel=0x%04lx, attr=0x%05lx, limit=0x%08lx, base=0x%016lx"
    [(λ _, Str name); rl sel;
     rl (u32 (sel + GUEST_ES_AR_BYTES - GUEST_ES_SELECTOR));
     rl (u32 (sel + GUEST_ES_LIMIT - GUEST_ES_SELECTOR));
     rl (u32 (sel + GUEST_ES_BASE - GUEST_ES_SELECTOR))].

Definition vmx_dump_dtsel (name : string) (limit : Z) : M (machine hw) unit :=
  pr_read "%s                           limit=0x%08lx, base=0x%016lx"
    [(λ _, Str name); rl limit; rl (u32 (limit + GUEST_GDTR_BASE - GUEST_GDTR_LIMIT))].

(** [for (i = 0; i + 1 < n; i += 4) ...], then [if (i < n) ...]; the counters are
    [int]s. *)
Definition dump_cr3_step (n i : Z) : M (machine hw) (Z + Z) :=
  if s32 (i + 1) <? n then
    pr_read "CR3 target%u=%016lx target%u=%016lx"
      [lit i; rl (CR3_TARGET_VALUE0 + i * 2); lit (i + 1); rl (CR3_TARGET_VALUE0 + i * 2 + 2)] ;;
    mret (inl (s32 (i + 4)))
  else mret (inr i).

Definition dump_cr3_targets (n : Z) : M (machine hw) unit :=
  i ← loop (dump_cr3_step n) 0;
  when (i <? n) (pr_read "CR3 target%u=%016lx" [lit i; rl (CR3_TARGET_VALUE0 + i * 2)]).

Definition dump_guest_state (vmentry_ctl vmexit_ctl ctl2 cr4 efer : Z) : M (machine hw) unit :=
  pr_read "*** Guest State ***" [] ;;
  pr_read "CR0: actual=0x%016lx, shadow=0x%016lx, gh_mask=%016lx" [rl GUEST_CR0; rl
    CR0_READ_SHADOW; rl CR0_GUEST_HOST_MASK] ;;
  pr_read "CR4: actual=0x%016lx, shadow=0x%016lx, gh_mask=%016lx" [lit cr4; rl CR4_READ_SHADOW;
    rl CR4_GUEST_HOST_MASK] ;;
  pr_read "CR3 = 0x%016lx" [rl GUEST_CR3] ;;
  when (truthy (ctl2 &&& SECONDARY_EXEC_ENABLE_EPT) && truthy (cr4 &&& X86_CR4_PAE)
        && negb (truthy (efer &&& EFER_LMA)))
    (pr_read "PDPTR0 = 0x%016lx  PDPTR1 = 0x%016lx" [r64 GUEST_PDPTR0; r64 GUEST_PDPTR1] ;;
     pr_read "PDPTR2 = 0x%016lx  PDPTR3 = 0x%016lx" [r64 GUEST_PDPTR2; r64 GUEST_PDPTR3]) ;;
  pr_read "RSP = 0x%016lx  RIP = 0x%016lx" [rl GUEST_RSP; rl GUEST_RIP] ;;
  pr_read "RFLAGS=0x%08lx         DR7 = 0x%016lx" [rl GUEST_RFLAGS; rl GUEST_DR7] ;;
  pr_read "Sysenter RSP=%016lx CS:RIP=%04x:%016lx" [rl GUEST_SYSENTER_ESP; r32
    GUEST_SYSENTER_CS; rl GUEST_SYSENTER_EIP] ;;
  vmx_dump_sel "CS:  " GUEST_CS_SELECTOR ;;
  vmx_dump_sel "DS:  " GUEST_DS_SELECTOR ;;
  vmx_dump_sel "SS:  " GUEST_SS_SELECTOR ;;
  vmx_dump_sel "ES:  " GUEST_ES_SELECTOR ;;
  vmx_dump_sel "FS:  " GUEST_FS_SELECTOR ;;
  vmx_dump_sel "GS:  " GUEST_GS_SELECTOR ;;
  vmx_dump_dtsel "GDTR:" GUEST_GDTR_LIMIT ;;
  vmx_dump_sel "LDTR:" GUEST_LDTR_SELECTOR ;;
  vmx_dump_dtsel "IDTR:" GUEST_IDTR_LIMIT ;;
  vmx_dump_sel "TR:  " GUEST_TR_SELECTOR ;;
  when (truthy (vmexit_ctl &&& (VM_EXIT_SAVE_IA32_PAT ||| VM_EXIT_SAVE_IA32_EFER))
        || truthy (vmentry_ctl &&& (VM_ENTRY_LOAD_IA32_PAT ||| VM_ENTRY_LOAD_IA32_EFER)))
    (pr_read "EFER =     0x%016lx  PAT = 0x%016lx" [lit efer; r64 GUEST_IA32_PAT]) ;;
  pr_read "DebugCtl = 0x%016lx  DebugExceptions = 0x%016lx" [r64 GUEST_IA32_DEBUGCTL; rl
    GUEST_PENDING_DBG_EXCEPTIONS] ;;
  when (truthy (vmentry_ctl &&& VM_ENTRY_LOAD_IA32_PERF_GLOBAL_CTRL))
    (pr_read "PerfGlobCtl = 0x%016lx" [r64 GUEST_IA32_PERF_GLOBAL_CTRL]) ;;
  when (truthy (vmentry_ctl &&& VM_ENTRY_LOAD_BNDCFGS))
    (pr_read "BndCfgS = 0x%016lx" [r64 GUEST_BNDCFGS]) ;;
  pr_read "Interruptibility = %08x  ActivityState = %08x" [r32 GUEST_INTERRUPTIBILITY_INFO; r32
    GUEST_ACTIVITY_STATE] ;;
  when (truthy (ctl2 &&& SECONDARY_EXEC_VIRTUAL_INTR_DELIVERY))
    (pr_read "InterruptStatus = %04x" [r16 GUEST_INTR_STATUS]) ;;
  for_each (seqZ 0 (Z.of_nat (length vmx_msr_index))) (λ i,
    pr_read "%s = 0x%016lx" [(λ _, Str (default ""%string (vmx_msr_name !! Z.to_nat i)));
      λ s, Num (autoload_guest_value s i)]).

Definition dump_host_state (vmexit_ctl : Z) : M (machine hw) unit :=
  pr_read "*** Host State ***" [] ;;
  pr_read "RIP = 0x%016lx  RSP = 0x%016lx" [rl HOST_RIP; rl HOST_RSP] ;;
  pr_read "CS=%04x SS=%04x DS=%04x ES=%04x FS=%04x GS=%04x TR=%04x" [r16 HOST_CS_SELECTOR; r16
    HOST_SS_SELECTOR; r16 HOST_DS_SELECTOR; r16 HOST_ES_SELECTOR; r16 HOST_FS_SELECTOR; r16
    HOST_GS_SELECTOR; r16 HOST_TR_SELECTOR] ;;
  pr_read "FSBase=%016lx GSBase=%016lx TRBase=%016lx" [rl HOST_FS_BASE; rl HOST_GS_BASE; rl
    HOST_TR_BASE] ;;
  pr_read "GDTBase=%016lx IDTBase=%016lx" [rl HOST_GDTR_BASE; rl HOST_IDTR_BASE] ;;
  pr_read "CR0=%016lx CR3=%016lx CR4=%016lx" [rl HOST_CR0; rl HOST_CR3; rl HOST_CR4] ;;
  pr_read "Sysenter RSP=%016lx CS:RIP=%04x:%016lx" [rl HOST_IA32_SYSENTER_ESP; r32
    HOST_IA32_SYSENTER_CS; rl HOST_IA32_SYSENTER_EIP] ;;
  when (truthy (vmexit_ctl &&& (VM_EXIT_LOAD_IA32_PAT ||| VM_EXIT_LOAD_IA32_EFER)))
    (pr_read "EFER = 0x%016lx  PAT = 0x%016lx" [r64 HOST_IA32_EFER; r64 HOST_IA32_PAT]) ;;
  when (truthy (vmexit_ctl &&& VM_EXIT_LOAD_IA32_PERF_GLOBAL_CTRL))
    (pr_read "PerfGlobCtl = 0x%016lx" [r64 HOST_IA32_PERF_GLOBAL_CTRL]).

Definition dump_control_state (vmentry_ctl vmexit_ctl cpu pin ctl2 : Z) : M (machine hw) unit :=
  pr_read "*** Control State ***" [] ;;
  pr_read "PinBased=%08x CPUBased=%08x SecondaryExec=%08x" [lit pin; lit cpu; lit ctl2] ;;
  pr_read "EntryControls=%08x ExitControls=%08x" [lit vmentry_ctl; lit vmexit_ctl] ;;
  pr_read "ExceptionBitmap=%08x PFECmask=%08x PFECmatch=%08x" [r32 EXCEPTION_BITMAP; r32
    PAGE_FAULT_ERROR_CODE_MASK; r32 PAGE_FAULT_ERROR_CODE_MATCH] ;;
  pr_read "VMEntry: intr_info=%08x errcode=%08x ilen=%08x" [r32 VM_ENTRY_INTR_INFO_FIELD; r32
    VM_ENTRY_EXCEPTION_ERROR_CODE; r32 VM_ENTRY_INSTRUCTION_LEN] ;;
  pr_read "VMExit: intr_info=%08x errcode=%08x ilen=%08x" [r32 VM_EXIT_INTR_INFO; r32
    VM_EXIT_INTR_ERROR_CODE; r32 VM_EXIT_INSTRUCTION_LEN] ;;
  pr_read "        reason=%08x qualification=%016lx" [r32 VM_EXIT_REASON; rl
    EXIT_QUALIFICATION] ;;
  pr_read "IDTVectoring: info=%08x errcode=%08x" [r32 IDT_VECTORING_INFO_FIELD; r32
    IDT_VECTORING_ERROR_CODE] ;;
  pr_read "TSC Offset = 0x%016lx" [r64 TSC_OFFSET] ;;
  when (truthy (ctl2 &&& SECONDARY_EXEC_TSC_SCALING))
    (pr_read "TSC Multiplier = 0x%016lx" [r64 TSC_MULTIPLIER]) ;;
  when (truthy (cpu &&& CPU_BASED_TPR_SHADOW))
    (pr_read "TPR Threshold = 0x%02x" [r32 TPR_THRESHOLD]) ;;
  when (truthy (pin &&& PIN_BASED_POSTED_INTR))
    (pr_read "PostedIntrVec = 0x%02x" [r16 POSTED_INTR_NV]) ;;
  when (truthy (ctl2 &&& SECONDARY_EXEC_ENABLE_EPT))
    (pr_read "EPT pointer = 0x%016lx" [r64 EPT_POINTER]) ;;
  n ← vmcs_read32 CR3_TARGET_COUNT; dump_cr3_targets (s32 n) ;;
  when (truthy (ctl2 &&& SECONDARY_EXEC_PAUSE_LOOP_EXITING))
    (pr_read "PLE Gap=%08x Window=%08x" [r32 PLE_GAP; r32 PLE_WINDOW]) ;;
  when (truthy (ctl2 &&& SECONDARY_EXEC_ENABLE_VPID))
    (pr_read "Virtual processor ID = 0x%04x" [r16 VIRTUAL_PROCESSOR_ID]).

Definition dump_vmcs : M (machine hw) unit :=
  vmentry_ctl ← vmcs_read32 VM_ENTRY_CONTROLS;
  vmexit_ctl ← vmcs_read32 VM_EXIT_CONTROLS;
  cpu_based_exec_ctrl ← vmcs_read32 CPU_BASED_VM_EXEC_CONTROL;
  pin_based_exec_ctrl ← vmcs_read32 PIN_BASED_VM_EXEC_CONTROL;
  secondary_exec_control ← vmcs_read32 SECONDARY_VM_EXEC_CONTROL;
  cr4 ← vmcs_readl GUEST_CR4;
  efer ← vmcs_read64 GUEST_IA32_EFER;
  dump_guest_state vmentry_ctl vmexit_ctl secondary_exec_control cr4 efer ;;
  dump_host_state vmexit_ctl ;;
  dump_control_state vmentry_ctl vmexit_ctl cpu_based_exec_ctrl pin_based_exec_ctrl
    secondary_exec_control.

(** ** The handlers *)

Definition handle_rdtsc : M (machine hw) unit :=
  val ← rdtsc;
  kvm_write_edx_eax val ;;
  kvm_skip_emulated_instruction.

Definition handle_cr : M (machine hw) unit :=
  exit_qualification ← vmcs_readl EXIT_QUALIFICATION;
  let cr := exit_qualification &&& 15 in
  let reg := (exit_qualification >>> 8) &&& 15 in
  let op := (exit_qualification >>> 4) &&& 3 in
  if op =? 0 then
    val ← kvm_register_read reg;
    if cr =? 0 then vmx_set_cr0 val ;; kvm_skip_emulated_instruction
    else if cr =? 3 then
      pr_info "cr3: %lx" [Num val] ;; vmx_set_cr3 val ;; kvm_skip_emulated_instruction
    else if cr =? 4 then vmx_set_cr4 val ;; kvm_skip_emulated_instruction
    else panic "unknown control register"
  else panic "unhandled control register: op %d cr %d".

Definition handle_rdmsr : M (machine hw) unit :=
  msr ← kvm_register_read VCPU_REGS_RCX;
  dump_vmcs ;;
  panic "unknown rdmsr 0x%08x".

Definition handle_wrmsr : M (machine hw) unit :=
  msr ← kvm_register_read VCPU_REGS_RCX;
  let msr := u32 msr in
  val ← kvm_read_edx_eax;
  (if msr =? MSR_IA32_APICBASE then
     BUG_ON (negb (truthy (val &&& MSR_IA32_APICBASE_ENABLE))) ;;
     when (truthy (val &&& MSR_IA32_APICBASE_X2APIC_ENABLE))
       (id ← read_apic_id;
        pr_info "vmx: x2apic enabled by guest on cpu %d acpi_id[0x%02x]"
          [Num smp_processor_id; Num id]) ;;
     wrmsrl msr val
   else if msr =? APIC_BASE_MSR + (APIC_ICR >>> 4) then
     let mode := val &&& 0x00700 in
     if mode =? APIC_DM_INIT then mret tt
     else if mode =? APIC_DM_STARTUP then mret tt
     else wrmsrl msr val
   else if msr =? MSR_EFER then
     pr_info "the guest wants to set EFER to: 0x%016lx" [Num val] ;;
     vmcs_write64 GUEST_IA32_EFER (val &&& not64 EFER_SCE)
   else dump_vmcs ;; panic "unknown wrmsr 0x%08x") ;;
  kvm_skip_emulated_instruction.

(** [vmx.c]'s handler calls the one registered by [vmm/kvm.c]. *)
Definition vmx_handle_ept_violation : M (machine hw) unit :=
  h ← gets (λ s, ept_handler (vcpu (m_vmx s)));
  match h with
  | None => panic "cannot handle EPT violation"
  | Some kvm_handle_ept_violation =>
      guest_phys ← vmcs_read64 GUEST_PHYSICAL_ADDRESS;
      handle_ept_violation guest_phys
  end.

(** [SAVED_MSR(msr)] *)
Definition SAVED_MSR (i : Z) : M (machine hw) Z := gets (λ s, autoload_guest_value s i).

Definition flat_segment (selector type dpl l db avl : Z) : kvm_segment :=
  {| sg_base := 0; sg_limit := 0xfffff; sg_selector := u16 selector; sg_type := type;
     sg_present := 1; sg_dpl := dpl; sg_db := db; sg_s := 1; sg_l := l; sg_g := 1;
     sg_avl := avl; sg_unusable := 0 |}.

(** A flat code segment of 64-bit mode and a flat data segment. *)
Definition flat_code (selector dpl : Z) s : kvm_segment :=
  flat_segment selector 11 dpl 1 0 (u8 (uninit_avl s VCPU_SREG_CS)).
Definition flat_data (selector dpl : Z) s : kvm_segment :=
  flat_segment selector 3 dpl 0 1 (u8 (uninit_avl s VCPU_SREG_SS)).

Definition handle_syscall : M (machine hw) unit :=
  pr_info "syscall!" [] ;;
  rip ← SAVED_MSR SAVED_MSR_LSTAR;
  kvm_skip_emulated_instruction ;;
  next ← vmx_get_rip;
  kvm_register_write VCPU_REGS_RCX next ;;
  vmx_set_rip rip ;;
  rflags ← vmx_get_rflags;
  kvm_register_write VCPU_REGS_R11 rflags ;;
  syscall_mask ← SAVED_MSR SAVED_MSR_SYSCALL_MASK;
  vmx_set_rflags (rflags &&& not64 syscall_mask) ;;
  star ← SAVED_MSR SAVED_MSR_STAR;
  cs ← gets (flat_code ((star >>> 32) &&& 0xfffc) 0);
  ss ← gets (flat_data (((star >>> 32) &&& 0xffff) + 8) 0);
  vmx_set_segment cs VCPU_SREG_CS ;;
  vmx_set_segment ss VCPU_SREG_SS.

Definition handle_sysret : M (machine hw) unit :=
  pr_info "sysret!" [] ;;
  rip ← kvm_register_read VCPU_REGS_RCX;
  vmx_set_rip rip ;;
  r11 ← kvm_register_read VCPU_REGS_R11;
  vmx_set_rflags ((r11 &&& 0x3c7fd7) ||| 2) ;;
  star ← SAVED_MSR SAVED_MSR_STAR;
  cs ← gets (flat_code (u16 (((star >>> 48) &&& 0xffff) + 16) ||| 3) 3);
  ss ← gets (flat_data (u16 (((star >>> 48) &&& 0xffff) + 8) ||| 3) 3);
  vmx_set_segment cs VCPU_SREG_CS ;;
  vmx_set_segment ss VCPU_SREG_SS.

(** [instr[i]], a signed [char]. *)
Definition load8 (addr : Z) : M (machine hw) Z := gets (λ s, s8 (read8 (m_mem s) (u64 addr))).

(** The two opcodes [handle_exception_nmi] emulates. *)
Definition handle_ud : M (machine hw) bool :=
  rip ← vmx_get_rip;
  instr ← gva2hva rip;
  i0 ← load8 instr;
  i1 ← load8 (instr + 1);
  i2 ← load8 (instr + 2);
  if (i0 =? 0xf) && (i1 =? 0x5) then handle_syscall ;; mret true
  else if (i0 =? 0x48) && (i1 =? 0xf) && (i2 =? 0x7) then handle_sysret ;; mret true
  else mret false.

Definition handle_exception_nmi : M (machine hw) unit :=
  intr_info ← vmcs_read32 VM_EXIT_INTR_INFO;
  let type := (intr_info >>> 8) &&& 0x7 in
  let exception := intr_info &&& 0xff in
  handled ← (if (exception =? 6) && (type =? 3) then handle_ud else mret false);
  if handled : bool then mret tt
  else dump_vmcs ;; panic "cannot handle exception/nmi".

(** [vmx_exit_handlers[]]: an array of [EXIT_REASON_EPT_VIOLATION + 1] pointers. *)
Definition vmx_exit_handlers (exit_reason : Z) : option (M (machine hw) unit) :=
  if exit_reason =? EXIT_REASON_EXCEPTION_NMI then Some handle_exception_nmi
  else if exit_reason =? EXIT_REASON_CR_ACCESS then Some handle_cr
  else if exit_reason =? EXIT_REASON_CPUID then Some kvm_emulate_cpuid
  else if exit_reason =? EXIT_REASON_MSR_READ then Some handle_rdmsr
  else if exit_reason =? EXIT_REASON_MSR_WRITE then Some handle_wrmsr
  else if exit_reason =? EXIT_REASON_RDTSC then Some handle_rdtsc
  else if exit_reason =? EXIT_REASON_EPT_VIOLATION then Some vmx_handle_ept_violation
  else None.

Definition vmx_handle_exit : M (machine hw) unit :=
  exit_reason ← vmcs_read32 VM_EXIT_REASON;
  match vmx_exit_handlers exit_reason with
  | Some handler => handler
  | None => dump_vmcs ;; panic "vmx: unexpected exit reason %d"
  end.
End exits.

(** ** Running the guest *)

Section run.
Context {hw : Type} `{Hardware hw} `{GuestExecution hw}.
Implicit Types s : machine hw.

Definition set_run (hrsp fl la : Z) (v : vcpu_vmx) : vcpu_vmx :=
  {| vcpu := vcpu v; host_rsp := hrsp; fail := fl; launched := la;
     autoload_guest := autoload_guest v; autoload_host := autoload_host v |}.

(** The prologue: [vmwrite]s the stack pointer when it changed.  The instruction is issued
    without looking at its flags. *)
Definition save_host_rsp : M (machine hw) unit :=
  rsp ← gets (λ s, u64 (host_stack (m_hw s)));
  old ← gets (λ s, host_rsp (m_vmx s));
  when (negb (old =? rsp))
    (modify (λ s, set_vmx (set_run rsp (fail (m_vmx s)) (launched (m_vmx s)) (m_vmx s)) s) ;;
     when (negb (hw_vmwrite_fails HOST_RSP))
       (modify (λ s, set_vmcs (vmwrite (m_vmcs s) HOST_RSP rsp) s))).

(** CR2 is loaded from the vCPU when it differs: either way the guest runs with the
    vCPU's value.  The registers saved after the exit: every one but [RSP], which is in the VMCS. *)
Definition save_regs (guest old : list Z) : list Z :=
  aset guest 4 (aget old 4).

(** [setbe] stores the low byte of the [int]. *)
Definition set_low_byte (x : Z) (b : bool) : Z := s32 ((u32 x &&& not32 0xff) ||| b2z b).

Definition vmx_vcpu_run : M (machine hw) unit :=
  save_host_rsp ;;
  e ← gets (λ s, guest_run (m_hw s) (m_vmcs s) (m_msr_bitmap s) (m_mem s) (autoload_guest (m_vmx s))
               (regs (vcpu (m_vmx s))) (cr2 (vcpu (m_vmx s))) (negb (launched (m_vmx s) =? 0)));
  modify (λ s,
    let v := m_vmx s in
    let vc := set_cr2 (ge_cr2 e) (set_regs (save_regs (ge_regs e) (regs (vcpu v))) (vcpu v)) in
    let v := set_vcpu vc (set_autoload (ge_autoload e) (autoload_host v) v) in
    let v := set_run (host_rsp v) (set_low_byte (fail v) (ge_fail e)) 1 v in
    set_hw (ge_hw e) (set_vmcs (ge_vmcs e) (set_mem (ge_mem e) (set_vmx v s)))).
End run.
