(* ===== verification/Syscall.v ===== *)
(** What the exit handlers of file VmxExit do to the guest: the emulation of [syscall] and
    [sysret], writes to MSRs. *)

From S2P Require Import Prelude Vmcs Machine Apic Kvm Vmx VmxState VmxExit.
#[local] Open Scope Z_scope.
#[local] Open Scope cint_scope.

Section syscall.
Context {hw : Type} `{Hardware hw} `{!WritableVmcs hw} `{StackContents hw}.
Implicit Types s : machine hw.

(** The machine after register writes and a log entry. *)
Definition set_reg (r v : Z) s : machine hw :=
  set_vmx (set_vcpu (set_regs (aset (regs (vcpu (m_vmx s))) r (u64 v)) (vcpu (m_vmx s))) (m_vmx s)) s.

Definition logged (fmt : string) s : machine hw := set_log (m_log s ++ [(fmt, [])]) s.

(** One step of a handler from a machine split into its VMCS and the rest. *)
Lemma write_step {A} f x (k : unit → M (machine hw) A) v s :
  f ∈ written_fields →
  (__vmcs_write f x ≫= k) (set_vmcs v s) = k tt (set_vmcs (vmwrite v f x) s).
Proof. intros Hf. by rewrite (bind_done _ _ _ _ _ (vmcs_write_done f x _ Hf)). Qed.

Lemma reg_step {A} r x (k : unit → M (machine hw) A) v s :
  (kvm_register_write r x ≫= k) (set_vmcs v s) = k tt (set_vmcs v (set_reg r x s)).
Proof. done. Qed.

Lemma read_step {A} f (k : Z → M (machine hw) A) v s :
  (__vmcs_read f ≫= k) (set_vmcs v s) = k (vmread v f) (set_vmcs v s).
Proof. done. Qed.

Lemma saved_step {A} i (k : Z → M (machine hw) A) v s :
  (SAVED_MSR i ≫= k) (set_vmcs v s) = k (autoload_guest_value s i) (set_vmcs v s).
Proof. done. Qed.

Lemma skip_step {A} (k : unit → M (machine hw) A) v s :
  (kvm_skip_emulated_instruction ≫= k) (set_vmcs v s) =
    k tt (set_vmcs (write_all (skip_writes v) v) s).
Proof. by rewrite (bind_done _ _ _ _ _ (skip_done _)). Qed.

Lemma segment_step {A} var seg (k : unit → M (machine hw) A) v s :
  0 ≤ seg < 8 →
  (vmx_set_segment var seg ≫= k) (set_vmcs v s) =
    k tt (set_vmcs (write_all (segment_writes var seg) v) s).
Proof. intros Hs. by rewrite (bind_done _ _ _ _ _ (set_segment_done _ _ _ Hs)). Qed.

Lemma last_segment var seg v s :
  0 ≤ seg < 8 →
  vmx_set_segment var seg (set_vmcs v s) =
    Done tt (set_vmcs (write_all (segment_writes var seg) v) s).
Proof. intros Hs. by rewrite set_segment_done. Qed.

(** The segments [handle_syscall] and [handle_sysret] load, up to the [avl] bits. *)
Definition syscall_cs (star avl : Z) : kvm_segment :=
  flat_segment ((star >>> 32) &&& 0xfffc) 11 0 1 0 (u8 avl).
Definition syscall_ss (star avl : Z) : kvm_segment :=
  flat_segment (((star >>> 32) &&& 0xffff) + 8) 3 0 0 1 (u8 avl).
Definition sysret_cs (star avl : Z) : kvm_segment :=
  flat_segment (u16 (((star >>> 48) &&& 0xffff) + 16) ||| 3) 11 3 1 0 (u8 avl).
Definition sysret_ss (star avl : Z) : kvm_segment :=
  flat_segment (u16 (((star >>> 48) &&& 0xffff) + 8) ||| 3) 3 3 0 1 (u8 avl).

(** The address of the instruction after the one that exited. *)
Definition next_rip (v : gmap Z Z) : Z :=
  u64 (vmread v GUEST_RIP + u32 (vmread v VM_EXIT_INSTRUCTION_LEN)).

Definition syscall_writes s (avl avl' : Z) : list (Z * Z) :=
  let star := autoload_guest_value s SAVED_MSR_STAR in
  skip_writes (m_vmcs s)
  ++ [(GUEST_RIP, autoload_guest_value s SAVED_MSR_LSTAR);
      (GUEST_RFLAGS, vmread (m_vmcs s) GUEST_RFLAGS
                     &&& not64 (autoload_guest_value s SAVED_MSR_SYSCALL_MASK))]
  ++ segment_writes (syscall_cs star avl) VCPU_SREG_CS
  ++ segment_writes (syscall_ss star avl') VCPU_SREG_SS.

Lemma handle_syscall_run s :
  ∃ avl avl', handle_syscall s = Done tt
    (set_vmcs (write_all (syscall_writes s avl avl') (m_vmcs s))
      (set_reg VCPU_REGS_R11 (vmread (m_vmcs s) GUEST_RFLAGS)
         (set_reg VCPU_REGS_RCX (next_rip (m_vmcs s)) (logged "syscall!" s)))).
Proof.
  unfold handle_syscall, vmx_get_rip, vmx_set_rip, vmx_get_rflags, vmx_set_rflags, vmcs_readl,
    vmcs_writel. eexists _, _. rewrite (bind_done _ _ s tt (set_vmcs (m_vmcs s) (logged "syscall!" s)) eq_refl).
  assert (vmread (write_all (skip_writes (m_vmcs s)) (m_vmcs s)) GUEST_RIP = next_rip (m_vmcs s)) as E1
    by (rewrite vmread_write_all; by apply wrap_wrap).
  assert (∀ x, vmread (vmwrite (write_all (skip_writes (m_vmcs s)) (m_vmcs s)) GUEST_RIP x) GUEST_RFLAGS
    = vmread (m_vmcs s) GUEST_RFLAGS) as E2
    by (intros x; rewrite vmread_vmwrite_ne by field_ne; by apply unwritten).
  rewrite saved_step, skip_step, read_step, reg_step, E1. cbv beta.
  rewrite write_step by written. rewrite read_step, reg_step, saved_step, E2. cbv beta.
  rewrite write_step by written. rewrite saved_step.
  do 2 (erewrite bind_done by reflexivity). cbv beta.
  rewrite segment_step, last_segment by easy. unfold syscall_writes. rewrite !write_all_app. reflexivity.
Qed.

Definition sysret_writes s (avl avl' : Z) : list (Z * Z) :=
  let star := autoload_guest_value s SAVED_MSR_STAR in
  let r := regs (vcpu (m_vmx s)) in
  [(GUEST_RIP, aget r VCPU_REGS_RCX);
   (GUEST_RFLAGS, (aget r VCPU_REGS_R11 &&& 0x3c7fd7) ||| 2)]
  ++ segment_writes (sysret_cs star avl) VCPU_SREG_CS
  ++ segment_writes (sysret_ss star avl') VCPU_SREG_SS.

Lemma handle_sysret_run s :
  ∃ avl avl', handle_sysret s = Done tt
    (set_vmcs (write_all (sysret_writes s avl avl') (m_vmcs s)) (logged "sysret!" s)).
Proof.
  unfold handle_sysret, vmx_set_rip, vmx_set_rflags, vmcs_writel. eexists _, _.
  rewrite (bind_done _ _ s tt (set_vmcs (m_vmcs s) (logged "sysret!" s)) eq_refl).
  erewrite bind_done by reflexivity. rewrite write_step by written.
  erewrite bind_done by reflexivity. rewrite write_step by written. rewrite saved_step.
  do 2 (erewrite bind_done by reflexivity). cbv beta.
  rewrite segment_step, last_segment by easy. unfold sysret_writes. rewrite !write_all_app. reflexivity.
Qed.

(** The segment register is flat, with these attributes up to [avl], which the source
    leaves to chance. *)
Definition flat_is (v : gmap Z Z) (seg selector ar : Z) : Prop :=
  let sf := kvm_vmx_segment_fields seg in
  vmread v (sf_base sf) = 0 ∧ vmread v (sf_limit sf) = 0xfffff ∧
  vmread v (sf_selector sf) = selector ∧ vmread v (sf_ar_bytes sf) &&& not32 (BIT 12) = ar.

Lemma low_bit_cases x : x &&& 1 = 0 ∨ x &&& 1 = 1.
Proof. rewrite (land_mask 1) by lia. change (2 ^ 1) with 2. divlia. Qed.

(** A segment just written, and one left alone by a write to another. *)
Lemma flat_written sel ty dpl l db avl seg v ar :
  0 ≤ seg < 8 →
  (∀ a, a = 0 ∨ a = 1 → vmx_segment_access_rights (flat_segment 0 ty dpl l db a)
     &&& not32 (BIT 12) = ar) →
  flat_is (write_all (segment_writes (flat_segment sel ty dpl l db avl) seg) v) seg (u16 sel) ar.
Proof.
  intros Hseg Har. destruct (segment_fields_ok seg Hseg) as (_ & Hnd & Hwidths).
  pose proof (access_rights_bounds (flat_segment sel ty dpl l db avl)) as Hb.
  assert (vmx_segment_access_rights (flat_segment sel ty dpl l db avl) =
    vmx_segment_access_rights (flat_segment 0 ty dpl l db (avl &&& 1))) as Ha.
  { unfold vmx_segment_access_rights. cbn [flat_segment sg_type sg_s sg_dpl sg_present sg_avl
      sg_l sg_db sg_g sg_unusable]. by rewrite <- Z.land_assoc. }
  unfold flat_is, segment_field_list, segment_writes in *.
  set (sf := kvm_vmx_segment_fields seg) in *. clearbody sf. cbv zeta in *.
  injection Hwidths as W1 W2 W3 W4. rewrite !NoDup_cons, !not_elem_of_cons in Hnd.
  destruct Hnd as ((N1 & N2 & N3 & _) & (N4 & N5 & _) & (N6 & _) & _).
  rewrite !vmread_write_all. cbn [last_write fst snd flat_segment sg_base sg_limit sg_selector].
  rewrite !Z.eqb_refl, !(proj2 (Z.eqb_neq _ _)) by congruence. rewrite W1, W2, W3, W4.
  rewrite (wrap_small 32 (vmx_segment_access_rights _)), Ha by done.
  rewrite wrap_wrap by done. repeat split. apply Har, low_bit_cases.
Qed.

Lemma segments_disjoint seg seg' f :
  0 ≤ seg < 8 → 0 ≤ seg' < 8 → seg ≠ seg' →
  f ∈ segment_field_list seg' → f ∉ segment_field_list seg.
Proof.
  intros Hs Hs' Hne Hf.
  assert (forallb (λ a, forallb (λ b, (a =? b) || forallb (λ f, bool_decide (f ∉ segment_field_list a))
    (segment_field_list b)) (seqZ 0 8)) (seqZ 0 8) = true) as Hall by (vm_compute; reflexivity).
  apply (forallb_seqZ _ _ _ seg) in Hall; [|lia]. apply (forallb_seqZ _ _ _ seg') in Hall; [|lia].
  cbv beta in Hall. rewrite (proj2 (Z.eqb_neq _ _) Hne) in Hall. cbn [orb] in Hall.
  by apply (forallb_elem _ _ f), bool_decide_eq_true in Hall.
Qed.

Lemma segment_write_other var seg v f :
  f ∉ segment_field_list seg → vmread (write_all (segment_writes var seg) v) f = vmread v f.
Proof.
  intros Hf. unfold segment_field_list, segment_writes in *. rewrite !not_elem_of_cons in Hf.
  apply unwritten. cbn [last_write fst snd]. by rewrite !(proj2 (Z.eqb_neq _ f)) by naive_solver.
Qed.

Lemma flat_other var seg seg' sel ar v :
  0 ≤ seg < 8 → 0 ≤ seg' < 8 → seg ≠ seg' → flat_is v seg' sel ar →
  flat_is (write_all (segment_writes var seg) v) seg' sel ar.
Proof.
  intros Hs Hs' Hne. unfold flat_is. cbv zeta.
  by rewrite !segment_write_other by
    (apply (segments_disjoint seg seg'); try done; unfold segment_field_list; set_solver).
Qed.

(** Fields written before CS and SS. *)
Lemma before_segments cs ss v f :
  f ∉ segment_field_list VCPU_SREG_CS → f ∉ segment_field_list VCPU_SREG_SS →
  vmread (write_all (segment_writes cs VCPU_SREG_CS ++ segment_writes ss VCPU_SREG_SS) v) f =
    vmread v f.
Proof. intros Hc Hs. by rewrite write_all_app, !segment_write_other. Qed.

(** CS and SS after the two writes, for the four kinds of segments written. *)
Lemma flat_pair cs_sel ss_sel dpl avl avl' v :
  dpl = 0 ∨ dpl = 3 →
  let w := write_all (segment_writes (flat_segment cs_sel 11 dpl 1 0 avl) VCPU_SREG_CS
                      ++ segment_writes (flat_segment ss_sel 3 dpl 0 1 avl') VCPU_SREG_SS) v in
  flat_is w VCPU_SREG_CS (u16 cs_sel) (0xa09b + 32 * dpl) ∧
  flat_is w VCPU_SREG_SS (u16 ss_sel) (0xc093 + 32 * dpl).
Proof.
  intros Hd w. unfold w. rewrite write_all_app. split.
  - apply flat_other; try easy. apply flat_written; [easy|].
    by destruct Hd as [->| ->]; intros a [->| ->].
  - apply flat_written; [easy|]. by destruct Hd as [->| ->]; intros a [->| ->].
Qed.

(** C6: Emulated system calls.  [handle_syscall] does what Intel's manual says of
    [syscall]: RCX and R11 get the return address and the flags, RIP is LSTAR, the
    flags lose the bits of the mask, CS and SS are the flat ring-0 segments the STAR MSR
    selects.  When the guest's kernel comes back with the same RCX and R11,
    [handle_sysret] resumes after the [syscall], with the flags it had (those [sysret]
    restores) and the ring-3 segments of STAR; the other registers are the kernel's. *)
Theorem syscall_sysret_correct s :
  length (regs (vcpu (m_vmx s))) = 16%nat → vmcs_ok (m_vmcs s) →
  let star := autoload_guest_value s SAVED_MSR_STAR in
  let rflags := vmread (m_vmcs s) GUEST_RFLAGS in
  ∃ s1 s2,
    handle_syscall s = Done tt s1 ∧
    vmread (m_vmcs s1) GUEST_RIP = u64 (autoload_guest_value s SAVED_MSR_LSTAR) ∧
    (∀ i, 0 ≤ i < 64 → Z.testbit (vmread (m_vmcs s1) GUEST_RFLAGS) i = Z.testbit rflags i &&
       negb (Z.testbit (autoload_guest_value s SAVED_MSR_SYSCALL_MASK) i)) ∧
    aget (regs (vcpu (m_vmx s1))) VCPU_REGS_RCX = next_rip (m_vmcs s) ∧
    aget (regs (vcpu (m_vmx s1))) VCPU_REGS_R11 = rflags ∧
    (∀ r, r ≠ VCPU_REGS_RCX → r ≠ VCPU_REGS_R11 →
       aget (regs (vcpu (m_vmx s1))) r = aget (regs (vcpu (m_vmx s))) r) ∧
    flat_is (m_vmcs s1) VCPU_SREG_CS ((star >>> 32) &&& 0xfffc) 0xa09b ∧
    flat_is (m_vmcs s1) VCPU_SREG_SS (u16 (((star >>> 32) &&& 0xffff) + 8)) 0xc093 ∧
    handle_sysret s1 = Done tt s2 ∧
    vmread (m_vmcs s2) GUEST_RIP = next_rip (m_vmcs s) ∧
    vmread (m_vmcs s2) GUEST_RFLAGS = (rflags &&& 0x3c7fd7) ||| 2 ∧
    flat_is (m_vmcs s2) VCPU_SREG_CS (u16 (((star >>> 48) &&& 0xffff) + 16) ||| 3) 0xa0fb ∧
    flat_is (m_vmcs s2) VCPU_SREG_SS (u16 (((star >>> 48) &&& 0xffff) + 8) ||| 3) 0xc0f3 ∧
    regs (vcpu (m_vmx s2)) = regs (vcpu (m_vmx s1)).
Proof.
  intros Hlen Hok star rflags. pose proof (vmread_bound _ GUEST_RFLAGS Hok) as Hfl.
  change (vmcs_width GUEST_RFLAGS) with 64 in Hfl. fold rflags in Hfl.
  destruct (handle_syscall_run s) as (a & a' & H1).
  set (s1 := set_vmcs _ _) in H1. destruct (handle_sysret_run s1) as (b & b' & H2).
  set (s2 := set_vmcs _ _) in H2. exists s1, s2.
  assert (GUEST_RIP ∉ segment_field_list VCPU_SREG_CS ∧ GUEST_RIP ∉ segment_field_list VCPU_SREG_SS ∧
    GUEST_RFLAGS ∉ segment_field_list VCPU_SREG_CS ∧ GUEST_RFLAGS ∉ segment_field_list VCPU_SREG_SS)
    as (N1 & N2 & N3 & N4) by (split_and!; apply (bool_decide_unpack _); vm_compute; exact I).
  assert (∀ sel, 0 ≤ sel < 2 ^ 16 → u16 (sel ||| 3) = sel ||| 3) as Hor
    by (intros sel Hs; apply wrap_small, lor_bound; done).
  assert (aget (regs (vcpu (m_vmx s1))) VCPU_REGS_RCX = next_rip (m_vmcs s) ∧
    aget (regs (vcpu (m_vmx s1))) VCPU_REGS_R11 = rflags) as [Hrcx Hr11].
  { cbn [s1 set_vmcs m_vmx set_reg set_vmx set_vcpu set_regs vcpu regs logged set_log].
    rewrite aget_aset_ne by done. rewrite !aget_aset_eq by (rewrite ?aset_length, Hlen; done).
    split; [by apply wrap_wrap|by apply wrap_small]. }
  split; [exact H1|].
  assert (m_vmcs s1 = write_all (syscall_writes s a a') (m_vmcs s)) as -> by done.
  assert (m_vmcs s2 = write_all (sysret_writes s1 b b') (m_vmcs s1)) as -> by done.
  unfold syscall_writes, sysret_writes. cbv zeta. rewrite Hrcx, Hr11.
  change (autoload_guest_value s1 SAVED_MSR_STAR) with star. fold star rflags.
  set (w := m_vmcs s1). set (w0 := m_vmcs s) in *.
  rewrite (app_assoc (skip_writes w0)), !(write_all_app (_ ++ _)), (write_all_app [(GUEST_RIP, _); _]).
  rewrite !before_segments by done.
  repeat match goal with |- _ ∧ _ => split end; try done.
  - by rewrite vmread_write_all.
  - intros i Hi. rewrite vmread_write_all. cbn [last_write app skip_writes fst snd].
    change (GUEST_RFLAGS =? GUEST_RFLAGS) with true. cbv iota. change (vmcs_width GUEST_RFLAGS) with 64.
    autorewrite with bits. zbool.
  - intros r Hr1 Hr2. cbn [s1 set_vmcs m_vmx set_reg set_vmx set_vcpu set_regs vcpu regs logged set_log].
    by rewrite !aget_aset_ne by (congruence || easy).
  - rewrite <- (wrap_small 16 ((star >>> 32) &&& 0xfffc)) by (by apply land_bound_r).
    apply (flat_pair _ _ 0); by left.
  - apply (flat_pair _ _ 0); by left.
  - rewrite vmread_write_all. by apply wrap_wrap.
  - rewrite vmread_write_all. apply (wrap_small 64), lor_bound; [done|by apply land_bound_l|done].
  - rewrite <- Hor by (by apply wrap_bound). apply (flat_pair _ _ 3); by right.
  - rewrite <- Hor by (by apply wrap_bound). apply (flat_pair _ _ 3); by right.
Qed.
End syscall.

Lemma syscall_sysret_correct_witness :
  let s := set_vmcs {[ GUEST_RIP := 0x401000; VM_EXIT_INSTRUCTION_LEN := 2; GUEST_RFLAGS := 0x246 ]}
    Concrete.boot in
  let SC := (λ _ _, 0) : StackContents Concrete.cpu in
  vmcs_ok (m_vmcs s) ∧
  ∃ s1 s2, handle_syscall s = Done tt s1 ∧ handle_sysret s1 = Done tt s2 ∧
    vmread (m_vmcs s2) GUEST_RIP = 0x401002.
Proof.
  intros s SC. assert (vmcs_ok (m_vmcs s)) as Hok by (apply (bool_decide_unpack _); vm_compute; exact I).
  split; [exact Hok|].
  destruct (syscall_sysret_correct s eq_refl Hok) as
    (s1 & s2 & H1 & _ & _ & _ & _ & _ & _ & _ & H2 & H3 & _).
  exists s1, s2. split; [exact H1|]. split; [exact H2|]. rewrite H3. vm_compute. reflexivity.
Defined.
