(* ===== verification/Hypervisor.v ===== *)
(** The life of the virtual machine: [kvm_init] (its hardware part), [create_vcpu],
    [run_vcpu] and [kvm_loop] of [vmm/kvm.c], with the back end of files Vmx and VmxExit
    behind [kvm_x86_ops].  [kvm_loop] does not return, so it is a step relation; the
    safety of the hypervisor is an invariant of its reachable states. *)

From stdpp Require Import relations.
From S2P Require Import Prelude Bitops Vmcs Machine Apic Ept Kvm Vmx VmxState VmxExit.
#[local] Open Scope Z_scope.
#[local] Open Scope cint_scope.

Definition FIRMWARE_START : Z := 0x00001000.

Section life.
Context {hw : Type} `{Hardware hw} `{GuestExecution hw} `{Layout} `{StackContents hw}.
Implicit Types s : machine hw.

(** [kvm_init] up to [hardware_setup]; the copy of the firmware and of its parameters is
    not part of [machine]. *)
Definition kvm_init_hardware : M (machine hw) unit :=
  support ← vmx_cpu_has_kvm_support;
  (if negb support then panic "kvm: no hardware support" else mret tt) ;;
  disabled ← vmx_disabled_by_bios;
  (if truthy disabled then panic "kvm: disabled by bios" else mret tt) ;;
  vmx_hardware_setup.

Definition create_vcpu : M (machine hw) unit :=
  vmx_vcpu_enable ;;
  vmx_vcpu_setup ;;
  vmx_set_tdp ept_pml4 ;;
  kvm_set_ept_violation_handler kvm_handle_ept_violation ;;
  modify (set_current_vcpu true).

(** [run_vcpu] before it enters [kvm_loop]. *)
Definition run_vcpu_start (start_ip : Z) : M (machine hw) unit :=
  let base := start_ip &&& 0xffff0000 in
  let cs := {| sg_base := base; sg_limit := 0xffff; sg_selector := u16 (base >>> 4);
    sg_type := 11; sg_present := 1; sg_dpl := 0; sg_db := 0; sg_s := 1; sg_l := 0; sg_g := 0;
    sg_avl := 0; sg_unusable := 0 |} in
  kvm_set_segment cs VCPU_SREG_CS ;;
  kvm_rip_write (start_ip &&& 0xffff).

(** [kvm_bsp_run] before it enters [kvm_loop]. *)
Definition kvm_bsp_start : M (machine hw) unit :=
  create_vcpu ;; run_vcpu_start FIRMWARE_START.

(** The body of [kvm_loop]. *)
Definition kvm_loop_body : M (machine hw) unit := vmx_vcpu_run ;; vmx_handle_exit.

Inductive kvm_loop : machine hw → machine hw → Prop :=
  | kvm_loop_step s s' : kvm_loop_body s = Done tt s' → kvm_loop s s'.
End life.

(** ** What the processor promises

    Documented behaviour of VT-x, for the controls the program uses. *)
Class LawfulGuest (hw : Type) `{Hardware hw} `{GuestExecution hw} : Prop := {
  (** The guest's accesses go through the extended page tables: it changes a word of
      memory only if they translate some guest-physical address to that word. *)
  guest_writes_translated h v b mem ml r c la w :
    ge_mem (guest_run h v b mem ml r c la) !! w ≠ mem !! w →
    ∃ gpa hpa, 0 ≤ gpa < 2 ^ 64 ∧ hpa / 8 = w ∧
      ∀ s : machine hw, m_mem s = mem →
        gpa2hpa (u64 (vmread v EPT_POINTER) &&& not64 0xfff) gpa s = Done hpa s;
  (** The control fields of the VMCS are the hypervisor's, its values stay in range. *)
  guest_keeps_controls h v b mem ml r c la f :
    f ∈ [EPT_POINTER; EXCEPTION_BITMAP; CR3_TARGET_COUNT] →
    vmread (ge_vmcs (guest_run h v b mem ml r c la)) f = vmread v f;
  guest_keeps_widths h v b mem ml r c la :
    vmcs_ok v → vmcs_ok (ge_vmcs (guest_run h v b mem ml r c la));
  (** EFER.SCE changes by [wrmsr] only, which exits when the bitmap says so. *)
  guest_keeps_sce h v b mem ml r c la :
    intercepted b true MSR_EFER = true →
    Z.testbit (vmread (ge_vmcs (guest_run h v b mem ml r c la)) GUEST_IA32_EFER) 0 =
      Z.testbit (vmread v GUEST_IA32_EFER) 0;
}.

(** ** The invariant *)

Section safety.
Context {hw : Type} `{Hardware hw} `{GuestExecution hw} `{LayoutOk} `{StackContents hw}.
Context `{!LawfulGuest hw}.
Implicit Types s : machine hw.

(** A word of the hypervisor's image outside the extended page tables. *)
Definition vmm_word (w : Z) : Prop :=
  _start / 8 ≤ w < _end / 8 ∧ ¬ (ept_pml4 / 8 ≤ w < (ept_pd_0_4g + 16384) / 8).

(** The pointer [vmx_set_tdp] stores: the PML4 with its attributes. *)
Definition eptp : Z :=
  (ept_pml4 ||| VMX_EPT_DEFAULT_MT) ||| (VMX_EPT_DEFAULT_GAW <<< VMX_EPT_GAW_EPTP_SHIFT).

(** What has been set up: the memory to preserve, if it is fixed, the pointer to the
    tables, the interception of #UD. *)
Record phase : Type := { ph_mem : option (gmap Z Z); ph_eptp : bool; ph_ud : bool }.

Record vm_safe (P : phase) s : Prop := {
  safe_ept : ∃ pages, lazy_tables s pages;
  safe_mem m w : ph_mem P = Some m → vmm_word w → m_mem s !! w = m !! w;
  safe_eptp : ph_eptp P = true → vmread (m_vmcs s) EPT_POINTER = u64 eptp;
  safe_ud : ph_ud P = true → Z.testbit (vmread (m_vmcs s) EXCEPTION_BITMAP) 6 = true;
  safe_sce : Z.testbit (vmread (m_vmcs s) GUEST_IA32_EFER) 0 = false;
  safe_bitmap : intercepted (m_msr_bitmap s) true MSR_EFER = true;
  safe_widths : vmcs_ok (m_vmcs s);
}.

Context (P : phase).

(** The parts of the machine the invariant speaks of. *)
Lemma vm_safe_same s s' :
  m_vmcs s' = m_vmcs s → m_mem s' = m_mem s → m_ept_init s' = m_ept_init s →
  m_msr_bitmap s' = m_msr_bitmap s → vm_safe P s → vm_safe P s'.
Proof.
  intros Hv Hm Hi Hb [? ? ? ? ? ? ?]. split; unfold lazy_tables in *; by rewrite ?Hv, ?Hm, ?Hi, ?Hb.
Qed.

Lemma safe_modify (f : machine hw → machine hw) :
  (∀ s, m_vmcs (f s) = m_vmcs s) → (∀ s, m_mem (f s) = m_mem s) →
  (∀ s, m_ept_init (f s) = m_ept_init s) → (∀ s, m_msr_bitmap (f s) = m_msr_bitmap s) →
  preserves (vm_safe P) (modify f).
Proof. intros Hv Hm Hi Hb s Hs. apply (vm_safe_same s (f s)); auto. Qed.

Lemma safe_vmwrite f v s :
  f ∉ [EPT_POINTER; EXCEPTION_BITMAP] → (f = GUEST_IA32_EFER → Z.testbit v 0 = false) →
  vm_safe P s → vm_safe P (set_vmcs (vmwrite (m_vmcs s) f v) s).
Proof.
  intros Hf Hv [? ? He Hx Hs Hb Hw]. rewrite !not_elem_of_cons in Hf. destruct Hf as (N1 & N2 & _).
  split; try done.
  - cbn [m_vmcs set_vmcs]. by rewrite vmread_vmwrite_ne.
  - cbn [m_vmcs set_vmcs]. by rewrite vmread_vmwrite_ne.
  - cbn [m_vmcs set_vmcs]. destruct (decide (f = GUEST_IA32_EFER)) as [->|].
    + rewrite vmread_vmwrite_eq, testbit_wrap, Hv by done. done.
    + by rewrite vmread_vmwrite_ne.
  - by apply vmcs_ok_vmwrite.
Qed.

Lemma safe_vmcs_write f v :
  f ∉ [EPT_POINTER; EXCEPTION_BITMAP] → (f = GUEST_IA32_EFER → Z.testbit v 0 = false) →
  preserves (vm_safe P) (__vmcs_write f v).
Proof.
  intros Hf Hv s Hs. unfold __vmcs_write. destruct (hw_vmwrite_fails f); [exact Hs|].
  apply safe_vmwrite; [done| |done]. intros E. by rewrite testbit_wrap, (Hv E) by done.
Qed.

(** *** The handlers *)

Lemma safe_register_write r v : preserves (vm_safe P) (kvm_register_write r v).
Proof. by apply safe_modify. Qed.
Lemma safe_printk f a : preserves (vm_safe P) (printk f a).
Proof. by apply safe_modify. Qed.
Lemma safe_wrmsrl m v : preserves (vm_safe P) (wrmsrl m v).
Proof. by apply safe_modify. Qed.
Lemma safe_rdtsc : preserves (vm_safe P) rdtsc.
Proof.
  intros s Hs. unfold rdtsc. destruct (hw_rdtsc (m_hw s)) as [t h]. by apply (vm_safe_same s).
Qed.
Lemma safe_readl a : preserves (vm_safe P) (readl a).
Proof.
  intros s Hs. unfold readl. destruct (hw_mmio_read32 _ _) as [t h]. by apply (vm_safe_same s).
Qed.
Lemma safe_writel v a : preserves (vm_safe P) (writel v a).
Proof. by apply safe_modify. Qed.
#[local] Hint Resolve safe_register_write safe_printk safe_wrmsrl safe_rdtsc safe_readl
  safe_writel : preserves.

(** A write to a field named by a constant. *)
Ltac safe_write :=
  apply safe_vmcs_write;
  [apply (bool_decide_unpack _); vm_compute; exact I|try (let E := fresh in intros E; discriminate E)].

Lemma safe_read_apic_id : preserves (vm_safe P) read_apic_id.
Proof.
  unfold read_apic_id, apic_read, no_driver, xapic_read, x2apic_read, rdmsrl. preserving.
Qed.

Lemma safe_dump_vmcs : preserves (vm_safe P) dump_vmcs.
Proof.
  unfold dump_vmcs, dump_guest_state, dump_host_state, dump_control_state, dump_cr3_targets,
    dump_cr3_step, vmx_dump_sel, vmx_dump_dtsel, pr_err.
  assert (∀ f a, preserves (vm_safe P) (pr_read f a)) by (intros f a s Hs; by apply safe_printk).
  preserving; auto.
Qed.
#[local] Hint Resolve safe_read_apic_id safe_dump_vmcs : preserves.

Lemma safe_skip : preserves (vm_safe P) kvm_skip_emulated_instruction.
Proof.
  unfold kvm_skip_emulated_instruction, ops_skip_emulated_instruction, vmx_skip_op,
    vmx_skip_emulated_instruction, kvm_rip_read, kvm_rip_write, vmcs_read32.
  cbn [ops_get_rip ops_set_rip vmx_guest_ops].
  unfold vmx_get_rip, vmx_set_rip, vmcs_readl, vmcs_writel, vmcs_write32. preserving; safe_write.
Qed.
#[local] Hint Resolve safe_skip : preserves.

(** The guest's EFER as the hypervisor reads it. *)
Lemma safe_read_efer {A} (f : Z → M (machine hw) A) :
  (∀ a, Z.testbit a 0 = false → preserves (vm_safe P) (f a)) →
  preserves (vm_safe P) (vmcs_read64 GUEST_IA32_EFER ≫= f).
Proof.
  intros Hf s Hs. unfold vmcs_read64. erewrite bind_done by (erewrite bind_done by reflexivity; reflexivity).
  apply Hf; [|done]. rewrite testbit_wrap by done. by rewrite (safe_sce _ _ Hs).
Qed.

Ltac safe_step :=
  lazymatch goal with
  | |- preserves _ (vmcs_read64 GUEST_IA32_EFER ≫= _) => apply safe_read_efer; intros ? ?
  | |- _ => first [progress preserving_step | safe_write]
  end.
Ltac safe := intros; repeat safe_step.

Lemma safe_set_cr0 v : preserves (vm_safe P) (vmx_set_cr0 v).
Proof.
  unfold vmx_set_cr0, enter_lmode, exit_lmode, vmcs_write32, vmcs_write64, vmcs_writel. safe.
  all: intros _; rewrite ?Z.lor_spec, ?Z.land_spec.
  all: lazymatch goal with E : Z.testbit _ 0 = false |- _ => rewrite E; reflexivity end.
Qed.
#[local] Hint Resolve safe_set_cr0 : preserves.

Lemma safe_handle_cr : preserves (vm_safe P) handle_cr.
Proof.
  unfold handle_cr, vmx_set_cr3, vmx_set_cr4, vmcs_writel, pr_info. safe.
Qed.

Lemma safe_handle_rdtsc : preserves (vm_safe P) handle_rdtsc.
Proof. unfold handle_rdtsc, kvm_write_edx_eax. safe. Qed.

Lemma safe_emulate_cpuid : preserves (vm_safe P) kvm_emulate_cpuid.
Proof. unfold kvm_emulate_cpuid. safe. Qed.

Lemma safe_handle_rdmsr : preserves (vm_safe P) handle_rdmsr.
Proof. unfold handle_rdmsr. safe. Qed.

Lemma safe_handle_wrmsr : preserves (vm_safe P) handle_wrmsr.
Proof.
  unfold handle_wrmsr, pr_info, vmcs_write64. safe.
  intros _. rewrite Z.land_spec, testbit_cnot by done. apply andb_false_r.
Qed.

(** The fields of the segments are none of those the invariant speaks of. *)
Lemma segment_fields_safe seg f :
  0 ≤ seg < 8 → f ∈ segment_field_list seg →
  f ∉ [EPT_POINTER; EXCEPTION_BITMAP] ∧ f ≠ GUEST_IA32_EFER.
Proof.
  intros Hs Hf.
  assert (forallb (λ seg, forallb (λ f, bool_decide (f ∉ [EPT_POINTER; EXCEPTION_BITMAP]) &&
    bool_decide (f ≠ GUEST_IA32_EFER)) (segment_field_list seg)) (seqZ 0 8) = true) as Hall
    by (vm_compute; reflexivity).
  apply (forallb_seqZ _ _ _ seg) in Hall; [|lia]. apply (forallb_elem _ _ f) in Hall; [|done].
  by rewrite andb_true_iff, !bool_decide_eq_true in Hall.
Qed.

Lemma safe_set_segment var seg : 0 ≤ seg < 8 → preserves (vm_safe P) (vmx_set_segment var seg).
Proof.
  intros Hs.
  assert (∀ f v, f ∈ segment_field_list seg → preserves (vm_safe P) (__vmcs_write f v)) as Hw.
  { intros f v Hf. destruct (segment_fields_safe seg f Hs Hf). by apply safe_vmcs_write. }
  unfold vmx_set_segment, segment_field_list in *. cbv zeta.
  repeat (apply preserves_bind; [apply Hw; set_solver|intros _]). apply Hw. set_solver.
Qed.
#[local] Hint Extern 1 (preserves _ (vmx_set_segment _ _)) => apply safe_set_segment; easy : preserves.

Lemma safe_syscall : preserves (vm_safe P) handle_syscall.
Proof.
  unfold handle_syscall, pr_info, SAVED_MSR, vmx_get_rip, vmx_set_rip, vmx_get_rflags,
    vmx_set_rflags, vmcs_writel. safe.
Qed.

Lemma safe_sysret : preserves (vm_safe P) handle_sysret.
Proof.
  unfold handle_sysret, pr_info, SAVED_MSR, vmx_set_rip, vmx_set_rflags, vmcs_writel. safe.
Qed.
#[local] Hint Resolve safe_syscall safe_sysret : preserves.

(** The software walks only read. *)
Lemma preserves_gpa2hpa_loop (I : machine hw → Prop) n i entry entries gpa :
  preserves I (gpa2hpa_loop n i entry entries gpa).
Proof.
  revert i entry entries. induction n as [|n IH]; intros; cbn [gpa2hpa_loop]; [apply preserves_ret|].
  unfold load64. preserving; apply IH.
Qed.

Lemma preserves_gva2hva_loop (I : machine hw → Prop) n i entry entries eptr gva :
  preserves I (gva2hva_loop n i entry entries eptr gva).
Proof.
  revert i entry entries. induction n as [|n IH]; intros; cbn [gva2hva_loop]; [apply preserves_ret|].
  unfold load64, gpa2hpa. preserving; first [apply IH|apply preserves_gpa2hpa_loop].
Qed.

Lemma preserves_gva2hva (I : machine hw → Prop) gva : preserves I (gva2hva gva).
Proof.
  unfold gva2hva, gpa2hpa.
  preserving; first [apply preserves_gva2hva_loop|apply preserves_gpa2hpa_loop].
Qed.
#[local] Hint Resolve preserves_gva2hva : preserves.

Lemma safe_handle_ud : preserves (vm_safe P) handle_ud.
Proof. unfold handle_ud, vmx_get_rip, load8. safe. Qed.
#[local] Hint Resolve safe_handle_ud : preserves.

Lemma safe_exception_nmi : preserves (vm_safe P) handle_exception_nmi.
Proof. unfold handle_exception_nmi. safe. Qed.

(** The only handler that writes memory: inside the tables, and it keeps them well
    formed. *)
Definition table_word (w : Z) : Prop := ept_pml4 / 8 ≤ w < (ept_pd_0_4g + 16384) / 8.

Lemma table_word_addr a :
  ept_pml4 ≤ a < ept_pd_0_4g + 16384 → a mod 8 = 0 → table_word (a / 8).
Proof.
  intros Ha Hm. destruct table_bounds as (_ & _ & ? & _ & ?). unfold table_word. divlia.
Qed.

Lemma table_word_in_vmm w : table_word w → _start / 8 ≤ w < _end / 8.
Proof. destruct layout_bounds as (?&?&?&?&?&?). unfold table_word. divlia. Qed.

Lemma store64_words w x a v :
  ¬ table_word w → ept_pml4 ≤ a < ept_pd_0_4g + 16384 → a mod 8 = 0 →
  preserves (λ s, m_mem s !! w = x) (store64 a v).
Proof.
  intros Hw Ha Hm s Hs. cbn. unfold write64. rewrite lookup_insert_ne; [done|].
  intros <-. by apply Hw, table_word_addr.
Qed.

Lemma link_tables_words w x :
  ¬ table_word w → preserves (λ s, m_mem s !! w = x) link_tables.
Proof.
  intros Hw. destruct table_bounds as (?&?&?&?&?), layout_bounds as (?&?&?&?&?&?). unfold link_tables.
  apply preserves_bind; [apply store64_words; [done|lia|done]|intros _].
  apply preserves_for_each. intros i Hi%elem_of_seqZ. apply store64_words; [done|lia|].
  rewrite (Z.mul_comm 8), Z.mod_add by lia. done.
Qed.

Lemma ept_violation_words w x gp :
  ¬ table_word w → 0 ≤ gp →
  preserves (λ s, m_mem s !! w = x) (handle_ept_violation gp).
Proof.
  intros Hw Hgp s Hs. unfold handle_ept_violation.
  destruct (_ && _); [done|]. destruct (Z.leb_spec SZ_4G gp); [done|]. rewrite !bind_ret_l.
  destruct table_bounds as (?&?&?&?&?), layout_bounds as (?&?&?&?&?&?).
  enough (preserves (λ s, m_mem s !! w = x)
    (initialized ← gets m_ept_init;
     (if initialized =? 0 then link_tables ;; modify (set_ept_init 1) else mret tt) ;;
     store64 (ept_pd_0_4g + 8 * (gp / SZ_2M))
       ((gp &&& not64 (SZ_2M - 1)) ||| rwx ||| EPTE_PSE))) as Hp by exact (Hp s Hs).
  apply preserves_bind; [apply preserves_gets|intros init].
  apply preserves_bind; [|intros _].
  - destruct (init =? 0); [|apply preserves_ret].
    apply preserves_bind; [by apply link_tables_words|intros _]. by apply preserves_modify.
  - apply store64_words; [done|unfold SZ_2M, SZ_4G in *; divlia|].
    rewrite (Z.mul_comm 8), Z.mod_add by lia. done.
Qed.

Lemma safe_ept_violation gp :
  0 ≤ gp < 2 ^ 64 → preserves (vm_safe P) (handle_ept_violation gp).
Proof.
  intros Hgp s Hs. pose proof (λ w x Hw, ept_violation_words w x gp Hw ltac:(lia) s) as Hwords.
  pose proof Hs as [[pages Ht] Hm He Hx Hsce Hb Hw].
  pose proof (handle_ept_violation_correct s pages gp Ht Hgp) as Hc.
  case_decide; [by rewrite Hc|]. case_decide; [by rewrite Hc|].
  destruct Hc as (mem' & Hc & Ht'). rewrite Hc in *. cbn [final_state] in *. split; try done.
  - exists ({[gp / SZ_2M]} ∪ pages). unfold lazy_tables.
    cbn [m_mem m_ept_init set_mem set_ept_init]. destruct (Z.eqb_spec (m_ept_init s) 0) as [_|N]; [done|].
    by rewrite (proj2 (Z.eqb_neq _ _) N).
  - intros m w Hp Hv. rewrite (Hwords w (m_mem s !! w)); [by apply Hm|apply Hv|done].
Qed.

Lemma safe_handle_ept_violation : preserves (vm_safe P) vmx_handle_ept_violation.
Proof.
  unfold vmx_handle_ept_violation. preserving_step; [preserving_step|].
  destruct a as [[]|]; [|preserving]. intros s Hs. unfold vmcs_read64.
  erewrite bind_done by (erewrite bind_done by reflexivity; reflexivity).
  by apply safe_ept_violation; [apply wrap_bound|].
Qed.

(** Every exit is handled safely. *)
Lemma safe_handle_exit : preserves (vm_safe P) vmx_handle_exit.
Proof.
  unfold vmx_handle_exit, vmx_exit_handlers. preserving_step; [preserving|].
  do 7 (destruct (_ =? _); [first
    [ apply safe_exception_nmi | apply safe_handle_cr | apply safe_emulate_cpuid
    | apply safe_handle_rdmsr | apply safe_handle_wrmsr | apply safe_handle_rdtsc
    | apply safe_handle_ept_violation ]|]). preserving.
Qed.

(** *** The guest *)

Lemma ept_tables_agree mem mem' linked pages :
  (∀ w, table_word w → mem' !! w = mem !! w) →
  ept_tables mem linked pages → ept_tables mem' linked pages.
Proof.
  intros Hw Ht. destruct table_bounds as (?&?&?&?&?), layout_bounds as (?&?&?&?&?&?).
  assert (∀ a, ept_pml4 ≤ a < ept_pd_0_4g + 16384 → a mod 8 = 0 → read64 mem' a = read64 mem a) as Hr.
  { intros a Ha Hm. rewrite !read64_aligned by done. unfold read_word.
    by rewrite Hw by (by apply table_word_addr). }
  split; intros; try (by eapply et_pages); rewrite Hr;
    try lia; try (rewrite (Z.mul_comm 8), Z.mod_add by lia; done).
  - by apply Ht.
  - by apply Ht.
  - by apply Ht.
Qed.

Lemma eptp_address : u64 eptp &&& not64 0xfff = ept_pml4.
Proof.
  destruct table_bounds as (?&?&?&?&?), layout_bounds as (?&?&?&?&?&?), lo_pml4 as (_&_&Hal).
  unfold eptp. rewrite <- Z.lor_assoc.
  change (VMX_EPT_DEFAULT_MT ||| (VMX_EPT_DEFAULT_GAW <<< VMX_EPT_GAW_EPTP_SHIFT)) with 0x1e.
  rewrite (lor_low 12) by lia. rewrite wrap_small by lia.
  change 0xfff with (2 ^ 12 - 1). rewrite land_cnot_mask by lia.
  change (2 ^ 12) with 4096 in *. divlia.
Qed.

(** What the tables translate to is the guest's. *)
Lemma translated_owned s gpa hpa :
  ph_eptp P = true → vm_safe P s → 0 ≤ gpa < 2 ^ 64 →
  gpa2hpa (u64 (vmread (m_vmcs s) EPT_POINTER) &&& not64 0xfff) gpa s = Done hpa s →
  hpa = gpa mod 2 ^ 48 ∧ guest_owned hpa.
Proof.
  intros HP Hs Hg. destruct (safe_ept _ _ Hs) as [pages Ht].
  rewrite (safe_eptp _ _ Hs HP), wrap_wrap, eptp_address, (gpa2hpa_spec _ _ _ Ht) by done. unfold ept_spec.
  destruct (_ && _) eqn:E; [|done]. intros [= <-]. split; [done|].
  apply andb_true_iff in E as [_ Hin%bool_decide_eq_true].
  by apply owned_page_free, (et_pages _ _ _ Ht).
Qed.

(** The hypervisor's words survive the guest. *)
Lemma guest_run_words s r c la w :
  ph_eptp P = true → vm_safe P s → _start / 8 ≤ w < _end / 8 →
  ge_mem (guest_run (m_hw s) (m_vmcs s) (m_msr_bitmap s) (m_mem s) (autoload_guest (m_vmx s))
    r c la) !! w = m_mem s !! w.
Proof.
  intros HP Hs Hw. set (e := guest_run _ _ _ _ _ _ _ _).
  destruct (decide (ge_mem e !! w = m_mem s !! w)) as [|Hne]; [done|exfalso].
  destruct (guest_writes_translated _ _ _ _ _ _ _ _ _ Hne) as (gpa & hpa & Hg & <- & Hwalk).
  destruct (translated_owned s gpa hpa HP Hs Hg (Hwalk s eq_refl)) as [_ [_ Hno]].
  destruct lo_start as [_ Hs8], lo_end as [_ He8]. unfold SZ_2M in *. divlia.
Qed.

Lemma safe_vcpu_run : ph_eptp P = true → preserves (vm_safe P) vmx_vcpu_run.
Proof.
  intros HP. unfold vmx_vcpu_run. apply preserves_bind.
  - unfold save_host_rsp. preserving_step; [preserving|]. preserving_step; [preserving|].
    preserving_step. preserving_step; [by apply safe_modify|]. preserving_step. intros s Hs.
    apply safe_vmwrite; [apply (bool_decide_unpack _); vm_compute; exact I|done|done].
  - intros _ s Hs. erewrite bind_done by reflexivity. cbn [modify final_state].
    pose proof (guest_run_words s (regs (vcpu (m_vmx s))) (cr2 (vcpu (m_vmx s)))
      (negb (launched (m_vmx s) =? 0))) as Hw.
    pose proof Hs as [[pages Ht] Hm He Hx Hsce Hb Hok].
    split; cbn [m_vmcs m_mem m_msr_bitmap m_ept_init set_hw set_vmcs set_mem set_vmx].
    + exists pages. unfold lazy_tables. cbn [m_mem m_ept_init set_hw set_vmcs set_mem set_vmx].
      refine (ept_tables_agree (m_mem s) _ _ _ _ Ht). intros w Hv. apply Hw; [done..|].
      by apply table_word_in_vmm.
    + intros m w Hp Hv. rewrite Hw by (done || apply Hv). by apply Hm.
    + rewrite guest_keeps_controls; [done|by left].
    + rewrite guest_keeps_controls; [done|by right; left].
    + by rewrite guest_keeps_sce.
    + done.
    + by apply guest_keeps_widths.
Qed.

(** An iteration of [kvm_loop], and with it the loop, maintains the invariant. *)
Lemma safe_kvm_loop s s' : ph_eptp P = true → vm_safe P s → rtc kvm_loop s s' → vm_safe P s'.
Proof.
  intros HP Hs Hsteps. induction Hsteps as [s|s s1 s' [s0 s2 Hstep] _ IH]; [done|]. apply IH.
  eapply (preserves_done (vm_safe P) kvm_loop_body); [|exact Hs|exact Hstep].
  apply preserves_bind; [by apply safe_vcpu_run|intros _; apply safe_handle_exit].
Qed.
End safety.

(** *** Setting up *)

Section setup.
Context {hw : Type} `{Hardware hw} `{GuestExecution hw} `{LayoutOk} `{StackContents hw}.
Context `{!LawfulGuest hw}.
Implicit Types s : machine hw.

(** Nothing set up yet but the MSR bitmap; then #UD intercepted; then the tables. *)
Definition phase0 : phase := {| ph_mem := None; ph_eptp := false; ph_ud := false |}.
Definition phase1 : phase := {| ph_mem := None; ph_eptp := false; ph_ud := true |}.
Definition running (mem : gmap Z Z) : phase :=
  {| ph_mem := Some mem; ph_eptp := true; ph_ud := true |}.

Lemma safe_store_revision pa :
  pa = vmxarea_pa ∨ pa = current_vmcs_pa → preserves (vm_safe phase0) (store_revision pa : M (machine hw) unit).
Proof.
  intros Hpa s [[pages Ht] ? ? ? ? ? ?]. destruct (lo_regions pa Hpa) as (Hp & Hal & Hout).
  split; try done. exists pages. refine (ept_tables_agree (m_mem s) _ _ _ _ Ht). intros w Hw.
  unfold store_revision. cbn [modify final_state m_mem set_mem]. unfold write64.
  rewrite lookup_insert_ne; [done|]. intros <-. unfold table_word in Hw.
  destruct table_bounds as (?&?&?&?&?). change (2 ^ 12) with 4096 in *. divlia.
Qed.

Lemma safe_vcpu_enable : preserves (vm_safe phase0) vmx_vcpu_enable.
Proof.
  unfold vmx_vcpu_enable, read_cr4, cr4_set_bits, kvm_cpu_vmxon, vmcs_load.
  repeat first [ apply safe_store_revision; tauto | apply safe_wrmsrl | preserving_step ].
  - by apply safe_modify.
  - by apply safe_modify.
  - intros s Hs. destruct (hw_vmptrld (m_hw s) current_vmcs_pa) as [e h].
    by apply (vm_safe_same phase0 s).
Qed.

(** The field the phase speaks of, written. *)
Lemma set_ud v s s' :
  vm_safe phase0 s → Z.testbit v 6 = true →
  __vmcs_write EXCEPTION_BITMAP v s = Done tt s' → vm_safe phase1 s'.
Proof.
  intros [? ? ? ? Hsce ? Hok] Hv. unfold __vmcs_write. destruct (hw_vmwrite_fails _); [done|].
  intros [= <-]. split; try done; cbn [m_vmcs set_vmcs].
  - rewrite vmread_vmwrite_eq, !testbit_wrap, Hv by done. done.
  - by rewrite vmread_vmwrite_ne by field_ne.
  - by apply vmcs_ok_vmwrite.
Qed.

Lemma set_eptp s s' :
  vm_safe phase1 s → vmx_set_tdp ept_pml4 s = Done tt s' →
  vm_safe {| ph_mem := None; ph_eptp := true; ph_ud := true |} s'.
Proof.
  intros [? ? ? Hud Hsce ? Hok]. unfold vmx_set_tdp, vmcs_write64, __vmcs_write.
  destruct (hw_vmwrite_fails _); [done|]. intros [= <-]. split; try done; cbn [m_vmcs set_vmcs].
  - intros _. rewrite vmread_vmwrite_eq. apply wrap_wrap. done.
  - by rewrite vmread_vmwrite_ne by field_ne.
  - by rewrite vmread_vmwrite_ne by field_ne.
  - by apply vmcs_ok_vmwrite.
Qed.

(** A write to a field named by a constant. *)
Ltac safe_write :=
  apply safe_vmcs_write;
  [apply (bool_decide_unpack _); vm_compute; exact I|try (let E := fresh in intros E; discriminate E)].
Ltac safe_step :=
  lazymatch goal with
  | |- preserves _ (gets _) => apply preserves_gets
  | |- _ => first [progress preserving_step | safe_write]
  end.

(** The first step of a computation that returns. *)
Lemma safe_first {A B} P (m : M (machine hw) A) (f : A → M (machine hw) B) s b s' :
  preserves (vm_safe P) m → vm_safe P s → (m ≫= f) s = Done b s' →
  ∃ a s1, vm_safe P s1 ∧ f a s1 = Done b s'.
Proof.
  intros Hm Hs Hr. bind_inv Hr as a s1 Ha. exists a, s1.
  split; [by eapply preserves_done|done].
Qed.

Lemma setup_controls_ud s s' :
  vm_safe phase0 s → setup_controls s = Done tt s' → vm_safe phase1 s'.
Proof.
  intros Hs Hr. unfold setup_controls in Hr. revert s Hs Hr.
  do 8 (intros s Hs Hr; apply (safe_first phase0) in Hr; [|first [apply preserves_gets|safe_write]|done];
    clear s Hs; destruct Hr as (? & s & Hs & Hr); cbv beta in Hr; revert s Hs Hr).
  intros s Hs Hr. bind_inv Hr as u s1 Hud. destruct u. apply set_ud in Hud; [|done|done].
  refine (preserves_done (vm_safe phase1) _ _ _ _ _ Hud Hr). repeat safe_step.
Qed.

Lemma safe_autoload P : preserves (vm_safe P) setup_autoload.
Proof.
  unfold setup_autoload, autoload_step, rdmsrl. preserving; by apply safe_modify.
Qed.

Lemma safe_setup_host P : preserves (vm_safe P) setup_host.
Proof.
  unfold setup_host, get_tr_base, store_gdt, store_idt, store_tr, read_cr0, read_cr3, read_cr4.
  repeat safe_step.
Qed.

Lemma safe_setup_guest P : preserves (vm_safe P) setup_guest.
Proof.
  unfold setup_guest, reset_segment, vmx_set_cr4. cbv zeta.
  repeat first [apply safe_set_cr0 | safe_step].
Qed.

Lemma vcpu_setup_ud s s' :
  vm_safe phase0 s → vmx_vcpu_setup s = Done tt s' → vm_safe phase1 s'.
Proof.
  intros Hs Hr. unfold vmx_vcpu_setup in Hr. bind_inv Hr as u s1 Hc. destruct u.
  apply setup_controls_ud in Hc; [|done]. refine (preserves_done (vm_safe phase1) _ _ _ _ _ Hc Hr).
  apply preserves_bind; [apply safe_autoload|intros _].
  apply preserves_bind; [apply safe_setup_host|intros _]. apply safe_setup_guest.
Qed.

(** [kvm_bsp_run] up to the loop brings the machine from the first phase into the last. *)
Lemma bsp_start_safe s s' :
  vm_safe phase0 s → kvm_bsp_start s = Done tt s' → vm_safe (running (m_mem s')) s'.
Proof.
  intros Hs Hr. unfold kvm_bsp_start in Hr. bind_inv Hr as u s1 Hc. destruct u.
  unfold create_vcpu in Hc. bind_inv Hc as u s2 He. destruct u.
  apply (preserves_done _ _ _ _ _ safe_vcpu_enable Hs) in He. clear s Hs.
  bind_inv Hc as u s3 Hu. destruct u. apply vcpu_setup_ud in Hu; [|done]. clear s2 He.
  bind_inv Hc as u s4 Ht. destruct u. apply set_eptp in Ht; [|done]. clear s3 Hu.
  set (P := {| ph_mem := None; ph_eptp := true; ph_ud := true |}) in *.
  apply (preserves_done (vm_safe P)) in Hc; [|by unfold kvm_set_ept_violation_handler, update_vcpu;
    preserving; apply safe_modify|done].
  apply (preserves_done (vm_safe P)) in Hr; [|..|done].
  - destruct Hr as [? _ ? ? ? ? ?]. split; try done. by intros m w [= <-] _.
  - unfold run_vcpu_start, kvm_set_segment, kvm_rip_write. cbn [ops_set_segment ops_set_rip vmx_guest_ops].
    apply preserves_bind; [by apply safe_set_segment|intros _]. unfold vmx_set_rip. safe_write.
Qed.

(** [kvm_init] touches neither memory nor the VMCS. *)
Definition untouched s0 s : Prop :=
  m_vmcs s = m_vmcs s0 ∧ m_mem s = m_mem s0 ∧ m_ept_init s = m_ept_init s0.

Lemma untouched_modify s0 (f : machine hw → machine hw) :
  (∀ s, m_vmcs (f s) = m_vmcs s ∧ m_mem (f s) = m_mem s ∧ m_ept_init (f s) = m_ept_init s) →
  preserves (untouched s0) (modify f).
Proof. intros Hf s (? & ? & ?). destruct (Hf s) as (? & ? & ?). repeat split; cbn; congruence. Qed.

#[local] Hint Extern 0 (preserves (untouched _) (modify _)) =>
  apply untouched_modify; intros; repeat split : preserves.

Lemma hardware_setup_untouched s0 : preserves (untouched s0) vmx_hardware_setup.
Proof.
  unfold vmx_hardware_setup, setup_vmcs_config, adjust_vmx_controls, print_vmx_controls,
    set_msr_interception, cpu_has_vmx_ept_2m_page, cpu_has_vmx_ept_4levels, pr_info, pr_cont, printk,
    rdmsr.
  preserving.
Qed.

(** The state at boot: the static objects are zero. *)
Definition boot_ok s : Prop :=
  tables_at_boot s ∧ vmcs_ok (m_vmcs s) ∧
  Z.testbit (vmread (m_vmcs s) GUEST_IA32_EFER) 0 = false ∧
  bitmap_ok (m_msr_bitmap s) ∧ ∀ i, 0 ≤ i → bitmap_bit (m_msr_bitmap s) i = false.

Lemma kvm_init_safe s s' :
  boot_ok s → kvm_init_hardware s = Done tt s' → vm_safe phase0 s'.
Proof.
  intros ([Hi Hz] & Hok & Hsce & Hb & Hbz) Hr. unfold kvm_init_hardware in Hr.
  bind_inv Hr as sup s1 Hx. apply gets_inv in Hx as [_ ->].
  bind_inv Hr as [] s2 Hx. apply check_inv in Hx as [_ ->].
  bind_inv Hr as dis s3 Hx.
  assert (s3 = s) as ->.
  { unfold vmx_disabled_by_bios in Hx. bind_inv Hx as m s4 Hm. apply gets_inv in Hm as [_ ->].
    repeat case_match; by injection Hx. }
  bind_inv Hr as [] s4 Hy. apply check_inv in Hy as [_ ->].
  pose proof (vmx_hardware_setup_bitmap _ _ Hr) as Hbm.
  apply (preserves_done _ _ _ _ _ (hardware_setup_untouched s)) in Hr as (Hv & Hm & Hie); [|done].
  split; rewrite ?Hv, ?Hbm; try done.
  - exists ∅. unfold lazy_tables. rewrite Hm, Hie, Hi. apply ept_tables_zero. exact Hz.
  - apply policy_bitmap_spec; [exact Hb|right; vm_compute; split; discriminate|].
    apply Hbz. done.
Qed.

(** The invariant from boot to any iteration of the loop. *)
Lemma boot_to_loop s0 s1 s2 :
  boot_ok s0 → (kvm_init_hardware ;; kvm_bsp_start) s0 = Done tt s1 → rtc kvm_loop s1 s2 →
  vm_safe (running (m_mem s1)) s2.
Proof.
  intros H0s Hr Hsteps. bind_inv Hr as u s Hi. destruct u. apply kvm_init_safe in Hi; [|done].
  apply bsp_start_safe in Hr; [|done]. by eapply safe_kvm_loop.
Qed.

(** Isolation.  From boot, through [kvm_init], [kvm_bsp_run] and any number of
    iterations of [kvm_loop], whatever the guest does: every word of the hypervisor's
    image outside the extended page tables keeps the value it had when the guest was
    started, and the tables translate guest-physical addresses only to themselves and
    only to memory that is the guest's. *)
Theorem hypervisor_isolated s0 s1 s2 :
  boot_ok s0 → (kvm_init_hardware ;; kvm_bsp_start) s0 = Done tt s1 → rtc kvm_loop s1 s2 →
  (∀ w, vmm_word w → m_mem s2 !! w = m_mem s1 !! w) ∧
  (∀ gpa hpa, 0 ≤ gpa < 2 ^ 64 →
     gpa2hpa (u64 (vmread (m_vmcs s2) EPT_POINTER) &&& not64 0xfff) gpa s2 = Done hpa s2 →
     hpa = gpa mod 2 ^ 48 ∧ guest_owned hpa).
Proof.
  intros Hb Hr Hsteps. pose proof (boot_to_loop s0 s1 s2 Hb Hr Hsteps) as Hs. split.
  - intros w Hw. by apply (safe_mem _ _ Hs).
  - intros gpa hpa Hg. by apply (translated_owned (running (m_mem s1))).
Qed.

(** System calls stay trapped.  Under the same conditions, in every iteration the
    guest's EFER has SCE clear, so [syscall] and [sysret] raise #UD; #UD exits; and a
    write to EFER exits, so the guest cannot set SCE itself. *)
Theorem syscalls_trapped s0 s1 s2 :
  boot_ok s0 → (kvm_init_hardware ;; kvm_bsp_start) s0 = Done tt s1 → rtc kvm_loop s1 s2 →
  Z.testbit (vmread (m_vmcs s2) GUEST_IA32_EFER) 0 = false ∧
  Z.testbit (vmread (m_vmcs s2) EXCEPTION_BITMAP) 6 = true ∧
  intercepted (m_msr_bitmap s2) true MSR_EFER = true.
Proof.
  intros Hb Hr Hsteps. destruct (boot_to_loop s0 s1 s2 Hb Hr Hsteps) as [_ _ _ Hud Hsce Hbm _].
  split_and!; [done|by apply Hud|done].
Qed.
End setup.

(** ** A concrete run

    A guest that touches the word at 0x1000: it faults until the page is mapped, then
    stores to it and executes [cpuid]. *)

Lemma gpa2hpa_loop_mem {hw} `{Hardware hw} n i entry entries gpa (s : machine hw) hpa s' :
  gpa2hpa_loop n i entry entries gpa s = Done hpa s' →
  ∀ {hw'} `{Hardware hw'} (t : machine hw'), m_mem t = m_mem s →
    gpa2hpa_loop n i entry entries gpa t = Done hpa t.
Proof.
  intros Hr hw' H' t Ht. revert i entry entries Hr. induction n as [|n IH]; intros i entry entries Hr.
  { by injection Hr as <- _. }
  cbn [gpa2hpa_loop] in *.
  set (idx := (gpa >>> shifts i) &&& 0x1ff) in *.
  unfold load64 in *. erewrite bind_done in Hr by reflexivity. erewrite bind_done by reflexivity.
  cbv beta in *. rewrite Ht. set (e := read64 _ _) in *. clearbody e.
  unfold assert, BUG_ON in *. destruct (truthy (e &&& 1)); [|done].
  cbn [negb] in *. rewrite bind_ret_l in *. destruct (truthy (e &&& BIT 7)).
  - destruct (_ || _); [|done]. cbn [negb] in *. rewrite bind_ret_l in *. by injection Hr as <- _.
  - by apply IH.
Qed.

Definition concrete_walk (v mem : gmap Z Z) : outcome (machine Concrete.cpu) Z :=
  gpa2hpa (u64 (vmread v EPT_POINTER) &&& not64 0xfff) 0x1000 (set_mem mem Concrete.boot).

#[export] Instance concrete_guest : GuestExecution Concrete.cpu := {|
  guest_run h v b mem ml r c la :=
    match concrete_walk v mem with
    | Done hpa _ =>
        {| ge_hw := h; ge_mem := <[hpa / 8 := 42]> mem; ge_autoload := ml; ge_regs := r;
           ge_vmcs := vmwrite (vmwrite v VM_EXIT_REASON EXIT_REASON_CPUID)
                        VM_EXIT_INSTRUCTION_LEN 2;
           ge_cr2 := c; ge_fail := false |}
    | _ =>
        {| ge_hw := h; ge_mem := mem; ge_autoload := ml; ge_regs := r;
           ge_vmcs := vmwrite (vmwrite v VM_EXIT_REASON EXIT_REASON_EPT_VIOLATION)
                        GUEST_PHYSICAL_ADDRESS 0x1000;
           ge_cr2 := c; ge_fail := false |}
    end;
  host_stack _ := 0x10300000;
|}.

#[export] Instance concrete_lawful_guest : LawfulGuest Concrete.cpu.
Proof.
  split; cbn [guest_run concrete_guest].
  - intros h v b mem ml r c la w Hw. destruct (concrete_walk v mem) as [hpa s'| |] eqn:E; [|done..].
    cbn [ge_mem] in Hw. destruct (decide (hpa / 8 = w)) as [<-|]; [|by rewrite lookup_insert_ne in Hw].
    exists 0x1000, hpa. split; [lia|]. split; [done|]. intros s Hs.
    by apply (gpa2hpa_loop_mem _ _ _ _ _ _ _ _ E).
  - intros h v b mem ml r c la f Hf. rewrite !elem_of_cons, elem_of_nil in Hf.
    destruct Hf as [->|[->|[->|[]]]]; destruct (concrete_walk v mem); cbn [ge_vmcs];
      by rewrite !vmread_vmwrite_ne by field_ne.
  - intros h v b mem ml r c la Hok.
    destruct (concrete_walk v mem); cbn [ge_vmcs]; by do 2 apply vmcs_ok_vmwrite.
  - intros h v b mem ml r c la _.
    destruct (concrete_walk v mem); cbn [ge_vmcs]; by rewrite !vmread_vmwrite_ne by field_ne.
Qed.

#[export] Instance concrete_stack : StackContents Concrete.cpu := λ _ _, 0.

(** The concrete host of file VmxState on a processor with every VMX feature. *)
Definition concrete_boot : machine Concrete.cpu :=
  let c := m_cpu Concrete.boot in
  set_cpu {| x86 := x86 c; x86_vendor := x86_vendor c; x86_model := x86_model c;
             x86_mask := x86_mask c; extended_cpuid_level := extended_cpuid_level c;
             cpuid_level := cpuid_level c; x86_capability := aset (replicate 19 0) 4 0x20;
             x86_vendor_id := x86_vendor_id c; x86_model_id := x86_model_id c |}
    (set_hw vmx_capable concrete_host).

Definition concrete_started : machine Concrete.cpu :=
  final_state ((kvm_init_hardware ;; @kvm_bsp_start _ _ Concrete.layout) concrete_boot).

(** After the page fault, and after the store. *)
Definition concrete_faulted : machine Concrete.cpu :=
  final_state (@kvm_loop_body _ _ _ Concrete.layout _ concrete_started).
Definition concrete_looped : machine Concrete.cpu :=
  final_state (@kvm_loop_body _ _ _ Concrete.layout _ concrete_faulted).

Lemma concrete_boot_ok : @boot_ok _ Concrete.layout concrete_boot.
Proof.
  split_and!.
  - split; [reflexivity|]. intros a Ha Hm. cbn in Ha. unfold concrete_boot, concrete_host.
    cbn [m_mem set_cpu set_hw set_mem].
    by rewrite !read64_write64_ne, read64_aligned by (done || lia).
  - apply vmcs_ok_empty.
  - reflexivity.
  - split; [apply Forall_replicate; lia|reflexivity].
  - intros i Hi. unfold bitmap_bit, aget. cbn [m_msr_bitmap concrete_boot concrete_host set_cpu set_hw set_mem Concrete.boot].
    case_match; [by rewrite Z.testbit_0_l|].
    destruct (replicate 512 0 !! Z.to_nat (i / 64)) eqn:E; simpl; [|by rewrite Z.testbit_0_l].
    apply lookup_replicate in E as [-> _]. by rewrite Z.testbit_0_l.
Qed.

Lemma concrete_start :
  (kvm_init_hardware ;; @kvm_bsp_start _ _ Concrete.layout) concrete_boot = Done tt concrete_started.
Proof. vm_compute. reflexivity. Qed.

Lemma concrete_steps :
  rtc (@kvm_loop _ _ _ Concrete.layout _) concrete_started concrete_looped.
Proof.
  apply rtc_l with concrete_faulted; [|apply rtc_once].
  all: apply kvm_loop_step; vm_compute; reflexivity.
Qed.

Lemma hypervisor_isolated_witness :
  let L := Concrete.layout in
  boot_ok concrete_boot ∧ rtc kvm_loop concrete_started concrete_looped ∧
  m_mem concrete_looped !! 0x200 = Some 42 ∧
  (∀ w, vmm_word w → m_mem concrete_looped !! w = m_mem concrete_started !! w).
Proof.
  intros L. split; [exact concrete_boot_ok|]. split; [exact concrete_steps|].
  split; [vm_compute; reflexivity|].
  exact (proj1 (hypervisor_isolated _ _ _ concrete_boot_ok concrete_start concrete_steps)).
Defined.

Lemma syscalls_trapped_witness :
  let L := Concrete.layout in
  boot_ok concrete_boot ∧
  Z.testbit (vmread (m_vmcs concrete_looped) GUEST_IA32_EFER) 0 = false ∧
  Z.testbit (vmread (m_vmcs concrete_looped) EXCEPTION_BITMAP) 6 = true ∧
  intercepted (m_msr_bitmap concrete_looped) true MSR_EFER = true.
Proof.
  intros L. split; [exact concrete_boot_ok|].
  exact (syscalls_trapped _ _ _ concrete_boot_ok concrete_start concrete_steps).
Defined.
