(* ===== verification/LoopEnds.v ===== *)
(** No iteration of [kvm_loop] goes on for ever: whatever the guest did, the handler of its exit
    returns or panics.  The handlers that panic dump the VMCS first, and the dump has the one loop
    whose bound is data: [CR3_TARGET_COUNT], which the set-up clears and the guest cannot change. *)

From stdpp Require Import relations.
From S2P Require Import Prelude Vmcs Machine Apic Ept Kvm Vmx VmxState VmxExit Hypervisor.
#[local] Open Scope Z_scope.
#[local] Open Scope cint_scope.

Section loop.
Context {hw : Type} `{Hardware hw} `{GuestExecution hw} `{Layout} `{StackContents hw}.
Implicit Types s : machine hw.

Definition no_targets s : Prop := vmread (m_vmcs s) CR3_TARGET_COUNT = 0.
#[local] Notation I := no_targets.

Lemma no_targets_modify (f : machine hw → machine hw) : (∀ s, m_vmcs (f s) = m_vmcs s) → settles I (modify f).
Proof. intros Hf. apply settles_modify. intros s Hs. unfold no_targets. by rewrite Hf. Qed.

Lemma no_targets_vmwrite f v s : f ≠ CR3_TARGET_COUNT → I s → I (set_vmcs (vmwrite (m_vmcs s) f v) s).
Proof. intros Hf Hs. unfold no_targets. cbn [m_vmcs set_vmcs]. by rewrite vmread_vmwrite_ne. Qed.

Lemma no_targets_write f v : f ≠ CR3_TARGET_COUNT → settles I (__vmcs_write f v : M (machine hw) unit).
Proof.
  intros Hf s Hs. unfold __vmcs_write. destruct (hw_vmwrite_fails f); [done|].
  exact (no_targets_vmwrite f (u64 v) s Hf Hs).
Qed.

Lemma no_targets_rdtsc : settles I rdtsc.
Proof. intros s Hs. unfold rdtsc. destruct (hw_rdtsc (m_hw s)). exact Hs. Qed.
Lemma no_targets_readl a : settles I (readl a).
Proof. intros s Hs. unfold readl. destruct (hw_mmio_read32 (m_hw s) (u64 a)). exact Hs. Qed.
Lemma no_targets_read f : settles I (__vmcs_read f : M (machine hw) Z).
Proof. by intros s Hs. Qed.
Lemma no_targets_pr_read f a : settles I (pr_read f a).
Proof. intros s Hs. exact Hs. Qed.
Lemma no_targets_printk f a : settles I (Machine.printk f a : M (machine hw) unit).
Proof. intros s Hs. exact Hs. Qed.
Lemma no_targets_wrmsrl i v : settles I (wrmsrl i v : M (machine hw) unit).
Proof. intros s Hs. exact Hs. Qed.
Lemma no_targets_register_read r : settles I (kvm_register_read r : M (machine hw) Z).
Proof. intros s Hs. exact Hs. Qed.
Lemma no_targets_register_write r v : settles I (kvm_register_write r v : M (machine hw) unit).
Proof. intros s Hs. exact Hs. Qed.
#[local] Hint Resolve no_targets_printk no_targets_wrmsrl no_targets_register_read no_targets_register_write : settles.
#[local] Hint Resolve no_targets_rdtsc no_targets_readl no_targets_read no_targets_pr_read : settles.

Ltac settle := intros; repeat
  lazymatch goal with
  | |- settles no_targets (modify _) => apply no_targets_modify; intros; reflexivity
  | |- settles no_targets (__vmcs_write _ _) => apply no_targets_write; vm_compute; discriminate
  | |- _ => settling_step
  end.

Ltac unfold_vmcs :=
  unfold vmcs_read16, vmcs_read32, vmcs_read64, vmcs_readl, vmcs_write16, vmcs_write32, vmcs_write64, vmcs_writel.

(** ** The dump *)

Lemma dump_targets_settles {A} (k : Z → M (machine hw) A) : (∀ n, settles I (k n)) →
  settles I (n ← vmcs_read32 CR3_TARGET_COUNT; dump_cr3_targets (s32 n) ;; k n).
Proof.
  intros Hk s Hs. rewrite (bind_done _ _ s (u32 (vmread (m_vmcs s) CR3_TARGET_COUNT)) s) by reflexivity.
  pose proof Hs as Hz. unfold no_targets in Hz. rewrite Hz. rewrite (bind_done _ _ s tt s) by reflexivity. by apply Hk.
Qed.

Lemma dump_guest_settles a b c d e : settles I (dump_guest_state a b c d e).
Proof. unfold dump_guest_state, vmx_dump_sel, vmx_dump_dtsel. settle. Qed.
Lemma dump_host_settles a : settles I (dump_host_state a).
Proof. unfold dump_host_state. settle. Qed.
Lemma dump_control_settles a b c d e : settles I (dump_control_state a b c d e).
Proof.
  unfold dump_control_state.
  repeat lazymatch goal with
    | |- settles _ (vmcs_read32 CR3_TARGET_COUNT ≫= _) => apply dump_targets_settles; intros ?
    | |- _ => settling_step
    end.
Qed.
#[local] Hint Resolve dump_guest_settles dump_host_settles dump_control_settles : settles.

Lemma dump_settles : settles I dump_vmcs.
Proof. unfold dump_vmcs. unfold_vmcs. settle. Qed.
#[local] Hint Resolve dump_settles : settles.

(** ** The handlers *)

Lemma skip_settles : settles I kvm_skip_emulated_instruction.
Proof.
  unfold kvm_skip_emulated_instruction, ops_skip_emulated_instruction, vmx_skip_op, vmx_skip_emulated_instruction,
    kvm_rip_read, kvm_rip_write. cbn [ops_get_rip ops_set_rip vmx_guest_ops]. unfold vmx_get_rip, vmx_set_rip.
  unfold_vmcs. settle.
Qed.
#[local] Hint Resolve skip_settles : settles.

Lemma loop_cr0_settles v : settles I (vmx_set_cr0 v : M (machine hw) unit).
Proof. unfold vmx_set_cr0, enter_lmode, exit_lmode. unfold_vmcs. settle. Qed.
#[local] Hint Resolve loop_cr0_settles : settles.

Lemma cr_settles : settles I handle_cr.
Proof. unfold handle_cr, vmx_set_cr3, vmx_set_cr4, pr_info. unfold_vmcs. settle. Qed.

Lemma handle_rdtsc_settles : settles I handle_rdtsc.
Proof. unfold handle_rdtsc, kvm_write_edx_eax. settle. Qed.
Lemma cpuid_settles : settles I kvm_emulate_cpuid.
Proof. unfold kvm_emulate_cpuid, native_cpuid. settle. Qed.

Lemma rdmsr_settles : settles I handle_rdmsr.
Proof. unfold handle_rdmsr. settle. Qed.

Lemma wrmsr_settles : settles I handle_wrmsr.
Proof.
  unfold handle_wrmsr, pr_info, kvm_read_edx_eax, read_apic_id, apic_read, xapic_read, x2apic_read, no_driver, rdmsrl.
  unfold_vmcs. settle.
Qed.

(** The fields of the segments are other ones. *)
Lemma segment_fields_other seg f : 0 ≤ seg < 8 → f ∈ segment_field_list seg → f ≠ CR3_TARGET_COUNT.
Proof.
  intros Hs Hf.
  assert (forallb (λ seg, forallb (λ f, bool_decide (f ≠ CR3_TARGET_COUNT)) (segment_field_list seg)) (seqZ 0 8) = true)
    as Hall by (vm_compute; reflexivity).
  apply (forallb_seqZ _ _ _ seg) in Hall; [|lia]. apply (forallb_elem _ _ f) in Hall; [|done].
  by rewrite bool_decide_eq_true in Hall.
Qed.

Lemma loop_segment_settles var seg : 0 ≤ seg < 8 → settles I (vmx_set_segment var seg : M (machine hw) unit).
Proof.
  intros Hs.
  assert (∀ f v, f ∈ segment_field_list seg → settles I (__vmcs_write f v)) as Hw.
  { intros f v Hf. by apply no_targets_write, (segment_fields_other seg f). }
  unfold vmx_set_segment, segment_field_list in *. cbv zeta.
  repeat (apply settles_bind; [apply Hw; set_solver|intros _]). apply Hw. set_solver.
Qed.
#[local] Hint Extern 1 (settles _ (vmx_set_segment _ _)) => apply loop_segment_settles; easy : settles.

Lemma syscall_settles : settles I handle_syscall.
Proof.
  unfold handle_syscall, pr_info, SAVED_MSR, vmx_get_rip, vmx_set_rip, vmx_get_rflags, vmx_set_rflags.
  unfold_vmcs. settle.
Qed.

Lemma sysret_settles : settles I handle_sysret.
Proof. unfold handle_sysret, pr_info, SAVED_MSR, vmx_set_rip, vmx_set_rflags. unfold_vmcs. settle. Qed.
#[local] Hint Resolve syscall_settles sysret_settles : settles.

(** The software walks go down four levels. *)
Lemma gpa2hpa_settles n i entry entries gpa : settles I (gpa2hpa_loop n i entry entries gpa).
Proof.
  revert i entry entries. induction n as [|n IH]; intros; cbn [gpa2hpa_loop]; [apply settles_ret|].
  unfold load64. settle; apply IH.
Qed.
#[local] Hint Resolve gpa2hpa_settles : settles.

Lemma gva2hva_settles n i entry entries eptr gva : settles I (gva2hva_loop n i entry entries eptr gva).
Proof.
  revert i entry entries. induction n as [|n IH]; intros; cbn [gva2hva_loop]; [apply settles_ret|].
  unfold load64, gpa2hpa. settle; apply IH.
Qed.
#[local] Hint Resolve gva2hva_settles : settles.

Lemma ud_settles : settles I handle_ud.
Proof. unfold handle_ud, vmx_get_rip, gva2hva, gpa2hpa, load8. unfold_vmcs. settle. Qed.
#[local] Hint Resolve ud_settles : settles.

Lemma exception_settles : settles I handle_exception_nmi.
Proof. unfold handle_exception_nmi. unfold_vmcs. settle. Qed.

Lemma ept_violation_settles : settles I vmx_handle_ept_violation.
Proof. unfold vmx_handle_ept_violation, handle_ept_violation, link_tables, store64. unfold_vmcs. settle. Qed.

Lemma handle_exit_settles : settles I vmx_handle_exit.
Proof.
  unfold vmx_handle_exit, vmx_exit_handlers. apply settles_bind; [unfold_vmcs; settle|intros r].
  do 7 (destruct (_ =? _); [first
    [ apply exception_settles | apply cr_settles | apply cpuid_settles | apply rdmsr_settles
    | apply wrmsr_settles | apply handle_rdtsc_settles | apply ept_violation_settles ]|]). settle.
Qed.

(** ** The iteration *)

Lemma vcpu_run_settles `{!LawfulGuest hw} : settles I vmx_vcpu_run.
Proof.
  unfold vmx_vcpu_run, save_host_rsp. apply settles_bind; [|intros _].
  - settle. intros s Hs. exact (no_targets_vmwrite HOST_RSP a s ltac:(vm_compute; discriminate) Hs).
  - intros s Hs. erewrite bind_done by reflexivity. cbn [modify settled]. unfold no_targets.
    cbn [m_vmcs set_hw set_vmcs]. rewrite guest_keeps_controls; [exact Hs|]. do 2 right. by left.
Qed.

Lemma loop_body_settles `{!LawfulGuest hw} : settles I kvm_loop_body.
Proof. apply settles_bind; [apply vcpu_run_settles|intros _; apply handle_exit_settles]. Qed.

Lemma loop_no_targets `{!LawfulGuest hw} s s' : I s → rtc kvm_loop s s' → I s'.
Proof.
  intros Hs Hr. induction Hr as [s|s s1 s' [s0 s2 Hb] _ IH]; [done|]. apply IH.
  pose proof (loop_body_settles s0 Hs) as Hx. by rewrite Hb in Hx.
Qed.

(** ** The set-up clears the field *)

(** [m] leaves the field clear when it returns. *)
Definition clears (m : M (machine hw) unit) : Prop := ∀ s s', m s = Done tt s' → I s'.

Lemma clears_later {A} (m : M (machine hw) A) f : (∀ a, clears (f a)) → clears (m ≫= f).
Proof. intros Hf s s' Hr. bind_inv Hr as a s1 Ha. by eapply Hf. Qed.

Lemma clears_before (m k : M (machine hw) unit) : clears m → settles I k → clears (m ;; k).
Proof.
  intros Hm Hk s s' Hr. bind_inv Hr as u s1 Ha. destruct u. pose proof (Hk s1 (Hm _ _ Ha)) as Hx. by rewrite Hr in Hx.
Qed.

Lemma clears_write : clears (vmcs_write32 CR3_TARGET_COUNT 0 : M (machine hw) unit).
Proof.
  intros s s'. unfold vmcs_write32, __vmcs_write. destruct (hw_vmwrite_fails _); [done|]. intros [= <-].
  unfold no_targets. cbn [m_vmcs set_vmcs]. by rewrite vmread_vmwrite_eq.
Qed.

Lemma clears_controls : clears (setup_controls : M (machine hw) unit).
Proof.
  unfold setup_controls. apply clears_later. intros c. do 10 (apply clears_later; intros _).
  apply clears_before; [apply clears_write|]. unfold_vmcs. settle.
Qed.

Lemma loop_autoload_settles i : settles I (autoload_step i).
Proof. unfold autoload_step, rdmsrl. settle. Qed.
#[local] Hint Resolve loop_autoload_settles : settles.

Lemma bsp_start_clears : clears kvm_bsp_start.
Proof.
  unfold kvm_bsp_start. apply clears_before.
  - unfold create_vcpu. apply clears_later. intros _. apply clears_before.
    + unfold vmx_vcpu_setup. apply clears_before; [apply clears_controls|].
      unfold setup_autoload, setup_host, setup_guest, reset_segment, get_tr_base, store_gdt, store_idt, store_tr, read_cr0,
        read_cr3, read_cr4, vmx_set_cr4, rdmsrl. unfold_vmcs. settle.
    + unfold vmx_set_tdp, kvm_set_ept_violation_handler, update_vcpu. unfold_vmcs. settle.
  - unfold run_vcpu_start, kvm_set_segment, kvm_rip_write. cbn [ops_set_segment ops_set_rip vmx_guest_ops].
    unfold vmx_set_rip. unfold_vmcs. settle.
Qed.

(** From the entry on, every iteration ends. *)
Lemma loop_iterations_end `{!LawfulGuest hw} s0 s1 s :
  kvm_bsp_start s0 = Done tt s1 → rtc kvm_loop s1 s →
  (∃ s', kvm_loop s s') ∨ ∃ msg s', kvm_loop_body s = Panicked msg s'.
Proof.
  intros Hr Hs. apply bsp_start_clears in Hr. apply (loop_no_targets _ _ Hr) in Hs.
  destruct (settled_ends _ _ (loop_body_settles s Hs)) as [[s' Hb]|Hp]; [|by right].
  left. exists s'. by constructor.
Qed.
End loop.
