(* ===== verification/E820.v ===== *)
(** [kernel/e820.c] and [include/asm/e820.h]: the physical memory map.

    [__e820_update_table] replaces a map with overlaps by one without, in favour of the
    highest type; [__e820_range_update] changes the type of a range.  Pointers into a
    static array are indices into it; [sort] is that of file Sort, on the array of
    pointers [change_point]. *)

From stdpp Require Import sorting.
From S2P Require Import Prelude Mem Sort Machine.
#[local] Open Scope Z_scope.
#[local] Open Scope cint_scope.

(** ** Data *)

Definition E820_MAX_ENTRIES : Z := 128.

(** [enum e820_type]: the field of an entry and the parameters of the functions hold any
    32-bit value. *)
Definition E820_TYPE_RAM : Z := 1.
Definition E820_TYPE_RESERVED : Z := 2.
Definition E820_TYPE_ACPI : Z := 3.
Definition E820_TYPE_NVS : Z := 4.
Definition E820_TYPE_UNUSABLE : Z := 5.
Definition E820_TYPE_PMEM : Z := 7.

Definition MAX_PHYSMEM_BITS : Z := 46.
Definition MAXMEM : Z := Z.shiftl 1 MAX_PHYSMEM_BITS.
Definition MAXMEM_PFN : Z := MAXMEM >>> PAGE_SHIFT.
Definition ULLONG_MAX : Z := 2 ^ 64 - 1.

Record e820_entry : Type := mk_entry { e_addr : Z; e_size : Z; e_type : Z }.
Definition entry0 : e820_entry := mk_entry 0 0 0.

#[global] Instance e820_entry_inhabited : Inhabited e820_entry := populate entry0.

(** [entry->addr + entry->size] *)
Definition e_end (e : e820_entry) : Z := u64 (e_addr e + e_size e).

Record e820_table : Type := mk_table { nr_entries : Z; entries : list e820_entry }.

(** [entries[i]] *)
Definition entry_at (es : list e820_entry) (i : Z) : e820_entry := es !!! Z.to_nat i.

(** [entry] is the index of the entry in the table. *)
Record change_member : Type := mk_change { cm_entry : Z; cm_addr : Z }.
Definition change0 : change_member := mk_change 0 0.

#[global] Instance change_member_inhabited : Inhabited change_member := populate change0.

(** The static variables of the file, and the lines it has printed. *)
Record e820_state : Type := mk_e820 {
  table : e820_table;
  change_point_list : list change_member;
  change_point : list Z;
  overlap_list : list Z;
  new_entries : list e820_entry;
  e820_log : list logrec;
}.

Definition set_table (t : e820_table) (s : e820_state) : e820_state :=
  mk_e820 t (change_point_list s) (change_point s) (overlap_list s) (new_entries s) (e820_log s).
Definition set_entries (es : list e820_entry) (s : e820_state) : e820_state :=
  set_table (mk_table (nr_entries (table s)) es) s.
Definition set_e820_log (l : list logrec) (s : e820_state) : e820_state :=
  mk_e820 (table s) (change_point_list s) (change_point s) (overlap_list s) (new_entries s) l.

Definition e820_boot : e820_state := {|
  table := mk_table 0 (replicate 128 entry0);
  change_point_list := replicate 256 change0; change_point := replicate 256 0;
  overlap_list := replicate 128 0; new_entries := replicate 128 entry0; e820_log := [];
|}.

Definition e820_print (fmt : string) (args : list logarg) : M e820_state unit :=
  modify (λ s, set_e820_log (e820_log s ++ [(fmt, args)]) s).

(** ** Queries *)

Definition mapped_step (es : list e820_entry) (end_ type i start : Z) : Z + bool :=
  let entry := entry_at es i in
  if truthy type && negb (e_type entry =? type) then inl start
  else if (end_ <=? e_addr entry) || (e_end entry <=? start) then inl start
  else
    let start := if e_addr entry <=? start then e_end entry else start in
    if end_ <=? start then inr true else inl start.

Fixpoint mapped_loop (es : list e820_entry) (end_ type : Z) (ks : list Z) (start : Z) : bool :=
  match ks with
  | [] => false
  | i :: ks =>
      match mapped_step es end_ type i start with
      | inl start => mapped_loop es end_ type ks start
      | inr r => r
      end
  end.

Definition e820_mapped_all (t : e820_table) (start end_ type : Z) : bool :=
  mapped_loop (entries t) end_ type (seqZ 0 (nr_entries t)) start.

(** [last_pfn] after one entry; [inr] is the [break]. *)
Definition end_pfn_step (limit_pfn type : Z) (entry : e820_entry) (last_pfn : Z) : Z + Z :=
  if negb (e_type entry =? type) then inl last_pfn
  else
    let start_pfn := e_addr entry >>> PAGE_SHIFT in
    let end_pfn := e_end entry >>> PAGE_SHIFT in
    if limit_pfn <=? start_pfn then inl last_pfn
    else if limit_pfn <? end_pfn then inr limit_pfn
    else if last_pfn <? end_pfn then inl end_pfn else inl last_pfn.

Fixpoint end_pfn_loop (es : list e820_entry) (limit_pfn type : Z) (ks : list Z) (last_pfn : Z) : Z :=
  match ks with
  | [] => last_pfn
  | i :: ks =>
      match end_pfn_step limit_pfn type (entry_at es i) last_pfn with
      | inl last_pfn => end_pfn_loop es limit_pfn type ks last_pfn
      | inr last_pfn => last_pfn
      end
  end.

Definition e820_end_pfn (limit_pfn type : Z) : M e820_state Z :=
  t ← gets table;
  let last_pfn := end_pfn_loop (entries t) limit_pfn type (seqZ 0 (nr_entries t)) 0 in
  let last_pfn := if MAXMEM_PFN <? last_pfn then MAXMEM_PFN else last_pfn in
  e820_print "e820: last_pfn = %#lx max_arch_pfn = %#lx" [Num last_pfn; Num MAXMEM_PFN] ;;
  mret last_pfn.

Definition e820_end_of_ram_pfn : M e820_state Z := e820_end_pfn MAXMEM_PFN E820_TYPE_RAM.

(** ** Adding and printing *)

Definition __e820_range_add (start size type : Z) : M e820_state unit :=
  t ← gets table;
  let x := nr_entries t in
  if E820_MAX_ENTRIES <=? x then
    e820_print "e820: too many entries; ignoring [mem %#010lx-%#010lx]"
      [Num start; Num (u64 (start + size - 1))]
  else
    modify (set_table (mk_table (x + 1) (aset (entries t) x (mk_entry start size type)))).

Definition e820_range_add (start size type : Z) : M e820_state unit :=
  __e820_range_add start size type.

Definition e820_print_type (type : Z) : M e820_state unit :=
  if type =? E820_TYPE_RAM then e820_print "usable" []
  else if type =? E820_TYPE_RESERVED then e820_print "reserved" []
  else if type =? E820_TYPE_ACPI then e820_print "ACPI data" []
  else if type =? E820_TYPE_NVS then e820_print "ACPI NVS" []
  else if type =? E820_TYPE_UNUSABLE then e820_print "unusable" []
  else if type =? E820_TYPE_PMEM then e820_print "persistent" []
  else e820_print "type %u" [Num type].

Definition e820_print_table (who : string) : M e820_state unit :=
  t ← gets table;
  for_each (seqZ 0 (nr_entries t)) (λ i,
    let e := entry_at (entries t) i in
    e820_print "%s: [mem %#018lx-%#018lx] "
      [Str who; Num (e_addr e); Num (u64 (e_addr e + e_size e - 1))] ;;
    e820_print_type (e_type e) ;;
    e820_print "" []).

(** ** Sanitizing *)

(** [cpcompare], on pointers into [change_point_list]. *)
Definition member_compare (es : list e820_entry) (ap bp : change_member) : Z :=
  if negb (cm_addr ap =? cm_addr bp) then (if cm_addr bp <? cm_addr ap then 1 else -1)
  else
    b2z (negb (cm_addr ap =? e_addr (entry_at es (cm_entry ap)))) -
    b2z (negb (cm_addr bp =? e_addr (entry_at es (cm_entry bp)))).

Definition member_at (cl : list change_member) (p : Z) : change_member := cl !!! Z.to_nat p.

(** [a] and [b] are byte offsets into the array [cp] of 8-byte pointers. *)
Definition cpcompare (es : list e820_entry) (cl : list change_member) (a b : Z) (cp : list Z) : Z :=
  member_compare es (member_at cl (aget cp (a / 8))) (member_at cl (aget cp (b / 8))).

(** The loop that records the change points; [chg_idx] counts them. *)
Definition record_step (es : list e820_entry) (cp : list Z)
    (st : list change_member * Z) (i : Z) : list change_member * Z :=
  let '(cl, chg_idx) := st in
  let e := entry_at es i in
  if negb (e_size e =? 0) then
    let cl := aset cl (aget cp chg_idx) (mk_change i (e_addr e)) in
    let cl := aset cl (aget cp (chg_idx + 1)) (mk_change i (e_end e)) in
    (cl, chg_idx + 2)
  else (cl, chg_idx).

Definition overlap_remove (ol : list Z) (n e : Z) : list Z :=
  foldl (λ ol i, if aget ol i =? e then aset ol i (aget ol (n - 1)) else ol) ol (seqZ 0 n).

Definition overlap_type (es : list e820_entry) (ol : list Z) (n : Z) : Z :=
  foldl (λ cur i, let t := e_type (entry_at es (aget ol i)) in if cur <? t then t else cur)
    0 (seqZ 0 n).

(** The variables of the main loop of [__e820_update_table]. *)
Record sweep_state : Type := mk_sweep {
  sw_overlap : list Z; sw_overlap_entries : Z;
  sw_new : list e820_entry; sw_new_nr : Z;
  sw_last_type : Z; sw_last_addr : Z;
}.

(** The effect of a change of type at address [addr]; [inr] is the [break]. *)
Definition close_entry (addr : Z) (st : sweep_state) : sweep_state + sweep_state :=
  if negb (sw_last_type st =? 0) then
    let n := sw_new_nr st in
    let e := entry_at (sw_new st) n in
    let size := u64 (addr - sw_last_addr st) in
    let new := aset (sw_new st) n (mk_entry (e_addr e) size (e_type e)) in
    let n := if negb (size =? 0) then n + 1 else n in
    let st' := mk_sweep (sw_overlap st) (sw_overlap_entries st) new n (sw_last_type st) (sw_last_addr st) in
    if negb (size =? 0) && (E820_MAX_ENTRIES <=? n) then inr st' else inl st'
  else inl st.

Definition open_entry (addr current_type : Z) (st : sweep_state) : sweep_state :=
  if negb (current_type =? 0) then
    let n := sw_new_nr st in
    let e := entry_at (sw_new st) n in
    mk_sweep (sw_overlap st) (sw_overlap_entries st)
      (aset (sw_new st) n (mk_entry addr (e_size e) current_type)) n current_type addr
  else
    mk_sweep (sw_overlap st) (sw_overlap_entries st) (sw_new st) (sw_new_nr st) current_type (sw_last_addr st).

Definition track_overlap (es : list e820_entry) (cm : change_member) (st : sweep_state) : sweep_state :=
  let n := sw_overlap_entries st in
  let '(ol, n) :=
    if cm_addr cm =? e_addr (entry_at es (cm_entry cm)) then
      (aset (sw_overlap st) n (cm_entry cm), n + 1)
    else (overlap_remove (sw_overlap st) n (cm_entry cm), n - 1) in
  mk_sweep ol n (sw_new st) (sw_new_nr st) (sw_last_type st) (sw_last_addr st).

Definition sweep_step (es : list e820_entry) (cm : change_member) (st : sweep_state) : sweep_state + sweep_state :=
  let st := track_overlap es cm st in
  let current_type := overlap_type es (sw_overlap st) (sw_overlap_entries st) in
  if negb (current_type =? sw_last_type st) then
    match close_entry (cm_addr cm) st with
    | inl st => inl (open_entry (cm_addr cm) current_type st)
    | inr st => inr st
    end
  else inl st.

(** The main loop, over the change points in the order of the sorted pointers. *)
Fixpoint sweep (es : list e820_entry) (cms : list change_member) (st : sweep_state) : sweep_state :=
  match cms with
  | [] => st
  | cm :: cms =>
      match sweep_step es cm st with
      | inl st => sweep es cms st
      | inr st => st
      end
  end.

(** The [memcpy] of the [n] new entries over the table. *)
Definition copy_entries (n : Z) (src dst : list e820_entry) : list e820_entry :=
  take (Z.to_nat n) src ++ drop (Z.to_nat n) dst.

(** [for (i = 0; i < 2 * nr; i++) change_point[i] = &change_point_list[i];] *)
Definition init_change_point (nr : Z) (cp : list Z) : list Z :=
  foldl (λ cp i, aset cp i i) cp (seqZ 0 (2 * nr)).

(** [sort(change_point, chg_nr, ...)], which swaps pointers. *)
Definition sort_change_points (es : list e820_entry) (cl : list change_member) (chg_nr : Z) : M e820_state (list Z) :=
  λ s, match sort (cpcompare es cl) list_swap 8 chg_nr (change_point s) with
       | Done _ cp => Done cp (mk_e820 (table s) (change_point_list s) cp (overlap_list s)
                                 (new_entries s) (e820_log s))
       | Panicked msg _ => Panicked msg s
       | OutOfFuel _ => OutOfFuel s
       end.

Definition __e820_update_table : M e820_state Z :=
  t ← gets table;
  let es := entries t in
  let nr := nr_entries t in
  if nr <? 2 then mret (-1)
  else
    BUG_ON (E820_MAX_ENTRIES <? nr) ;;
    if existsb (λ i, e_end (entry_at es i) <? e_addr (entry_at es i)) (seqZ 0 nr) then mret (-1)
    else
      s ← get;
      let cp := init_change_point nr (change_point s) in
      let '(cl, chg_nr) := foldl (record_step es cp) (change_point_list s, 0) (seqZ 0 nr) in
      modify (λ s, mk_e820 (table s) cl cp (overlap_list s) (new_entries s) (e820_log s)) ;;
      cp ← sort_change_points es cl chg_nr;
      let cms := (λ i, member_at cl (aget cp i)) <$> seqZ 0 chg_nr in
      let st := sweep es cms (mk_sweep (overlap_list s) 0 (new_entries s) 0 0 0) in
      modify (λ s,
        mk_e820 (mk_table (sw_new_nr st) (copy_entries (sw_new_nr st) (sw_new st) es))
          cl cp (sw_overlap st) (sw_new st) (e820_log s)) ;;
      mret 0.

Definition e820_update_table : M e820_state unit :=
  r ← __e820_update_table;
  if truthy r then panic "e820: fail to sanitize the physical RAM map" else mret tt.

Definition e820_update_table_print : M e820_state unit :=
  e820_update_table ;;
  e820_print "e820: modified physical RAM map:" [] ;;
  e820_print_table "modified".

(** ** Changing the type of a range *)

Definition set_entry (i : Z) (e : e820_entry) : M e820_state unit :=
  modify (λ s, set_entries (aset (entries (table s)) i e) s).

(** The loop body on entry [i]; it answers what to add to [real_updated_size]. *)
Definition range_update_entry (start size end_ old_type new_type i : Z) : M e820_state Z :=
  entry ← gets (λ s, entry_at (entries (table s)) i);
  if negb (e_type entry =? old_type) then mret 0
  else
    let entry_end := e_end entry in
    if (start <=? e_addr entry) && (entry_end <=? end_) then
      set_entry i (mk_entry (e_addr entry) (e_size entry) new_type) ;;
      mret (e_size entry)
    else if (e_addr entry <? start) && (end_ <? entry_end) then
      __e820_range_add start size new_type ;;
      __e820_range_add end_ (u64 (entry_end - end_)) (e_type entry) ;;
      set_entry i (mk_entry (e_addr entry) (u64 (start - e_addr entry)) (e_type entry)) ;;
      mret size
    else
      let final_start := Z.max start (e_addr entry) in
      let final_end := Z.min end_ entry_end in
      if final_end <=? final_start then mret 0
      else
        __e820_range_add final_start (u64 (final_end - final_start)) new_type ;;
        let esize := u64 (e_size entry - u64 (final_end - final_start)) in
        set_entry i (mk_entry (e_addr entry) esize (e_type entry)) ;;
        when (negb (e_addr entry <? final_start)) (set_entry i (mk_entry final_end esize (e_type entry))) ;;
        mret (u64 (final_end - final_start)).

Definition range_update_step (start size end_ old_type new_type : Z) (a : Z * Z) : M e820_state (Z * Z + Z) :=
  let '(i, real) := a in
  nr ← gets (λ s, nr_entries (table s));
  if i <? nr then
    d ← range_update_entry start size end_ old_type new_type i;
    mret (inl (u32 (i + 1), u64 (real + d)))
  else mret (inr real).

Definition __e820_range_update (start size old_type new_type : Z) : M e820_state Z :=
  BUG_ON (old_type =? new_type) ;;
  let size := if ULLONG_MAX - start <? size then ULLONG_MAX - start else size in
  let end_ := u64 (start + size) in
  e820_print "e820: update [mem %#010lx-%#010lx] " [Num start; Num (u64 (end_ - 1))] ;;
  e820_print_type old_type ;;
  e820_print " ==> " [] ;;
  e820_print_type new_type ;;
  e820_print "" [] ;;
  loop (range_update_step start size end_ old_type new_type) (0, 0).

Definition e820_range_update (start size old_type new_type : Z) : M e820_state Z :=
  __e820_range_update start size old_type new_type.

(** ** The map of the boot loader *)

(** One [struct multiboot_mmap_entry] of the list at [e]: the entry and its distance to
    the next one. *)
Definition multiboot_step (m : bmem) (len : Z) (a : Z * Z) : M e820_state (Z * Z + unit) :=
  let '(e, i) := a in
  if i <? len then
    e820_range_add (rd64 m (e + 4)) (rd64 m (e + 12)) (rd32 m (e + 20)) ;;
    let skip := u64 (rd32 m e + 4) in
    mret (inl (e + skip, u64 (i + skip)))
  else mret (inr tt).

Definition e820_range_add_multiboot (m : bmem) (e len : Z) : M e820_state unit :=
  loop (multiboot_step m len) (e, 0) ;;
  e820_update_table ;;
  e820_print_table "BIOS-e820".
