(* ===== verification/E820Map.v ===== *)
(** The correctness of file E820: what [e820_update_table] makes of a map, what the
    queries answer and what [e820_range_update] changes.

    A map assigns a type to an address: the highest type of the entries that cover it, or
    0 ([map_type]).  Sanitizing keeps this assignment and leaves disjoint entries in
    ascending order. *)

From stdpp Require Import sorting.
From S2P Require Import Prelude Mem Sort Machine E820.
#[local] Open Scope Z_scope.
#[local] Open Scope cint_scope.

(** ** Maps as functions of the address *)

Definition covers (e : e820_entry) (x : Z) : bool := (e_addr e <=? x) && (x <? e_addr e + e_size e).

Definition map_type (l : list e820_entry) (x : Z) : Z :=
  foldr (λ e t, if covers e x then Z.max (e_type e) t else t) 0 l.

(** The entries of a table that are in use. *)
Definition used (t : e820_table) : list e820_entry := take (Z.to_nat (nr_entries t)) (entries t).

(** An entry as the table stores it, and one whose region does not wrap around. *)
Record entry_fits (e : e820_entry) : Prop := {
  fits_addr : 0 ≤ e_addr e < 2 ^ 64; fits_size : 0 ≤ e_size e < 2 ^ 64; fits_type : 0 ≤ e_type e < 2 ^ 32;
}.

Record entry_ok (e : e820_entry) : Prop := {
  ok_addr : 0 ≤ e_addr e; ok_size : 0 ≤ e_size e;
  ok_end : e_addr e + e_size e < 2 ^ 64; ok_type : 0 ≤ e_type e < 2 ^ 32;
}.

(** The sizes of the static arrays. *)
Record e820_ok (s : e820_state) : Prop := {
  ok_nr : 0 ≤ nr_entries (table s) ≤ 128;
  ok_length : length (entries (table s)) = 128%nat;
  ok_fits : Forall entry_fits (used (table s));
  ok_changes : length (change_point_list s) = 256%nat;
  ok_change_point : length (change_point s) = 256%nat;
  ok_overlap : length (overlap_list s) = 128%nat;
  ok_new : length (new_entries s) = 128%nat;
}.

(** Non-empty regions, in ascending order and disjoint, that end at [b] or below. *)
Record regions (l : list e820_entry) (b : Z) : Prop := {
  regions_order i j e f :
    (i < j)%nat → l !! i = Some e → l !! j = Some f → e_addr e + e_size e ≤ e_addr f;
  regions_below e : e ∈ l → 0 ≤ e_addr e ∧ 0 < e_size e ∧ e_addr e + e_size e ≤ b ∧ 0 < e_type e < 2 ^ 32;
}.

Lemma covers_spec e x : covers e x = true ↔ e_addr e ≤ x < e_addr e + e_size e.
Proof. unfold covers. rewrite andb_true_iff, Z.leb_le, Z.ltb_lt. lia. Qed.

Lemma covers_false e x : covers e x = false ↔ x < e_addr e ∨ e_addr e + e_size e ≤ x.
Proof. rewrite <- not_true_iff_false, covers_spec. lia. Qed.

Lemma e_end_ok e : entry_ok e → e_end e = e_addr e + e_size e.
Proof. intros []. apply wrap_small. lia. Qed.

Lemma map_type_nonneg l x : 0 ≤ map_type l x.
Proof. induction l as [|e l IH]; simpl; [lia|]. case_match; lia. Qed.

Lemma map_type_app l k x : map_type (l ++ k) x = Z.max (map_type l x) (map_type k x).
Proof.
  pose proof (map_type_nonneg k x).
  induction l as [|e l IH]; simpl; [lia|]. case_match; lia.
Qed.

Lemma map_type_ge l e x : e ∈ l → covers e x = true → e_type e ≤ map_type l x.
Proof.
  induction 1 as [|e e' l Hin IH]; intros Hc; simpl; [rewrite Hc; lia|].
  specialize (IH Hc). case_match; lia.
Qed.

Lemma map_type_none l x : (∀ e, e ∈ l → covers e x = false) → map_type l x = 0.
Proof.
  induction l as [|e l IH]; intros H; [done|]. simpl. rewrite H by by left.
  apply IH. intros f Hf. apply H. by right.
Qed.

Lemma map_type_attained l x : map_type l x = 0 ∨ ∃ e, e ∈ l ∧ covers e x = true ∧ e_type e = map_type l x.
Proof.
  induction l as [|e l IH]; [by left|]; simpl. destruct (covers e x) eqn:He.
  - destruct (Z.max_spec (e_type e) (map_type l x)) as [[? ->]|[? ->]].
    + destruct IH as [->|(f & ? & ?)]; [by left|]. right. exists f. split; [by right|done].
    + right. exists e. split; [by left|done].
  - destruct IH as [->|(f & ? & ?)]; [by left|]. right. exists f. split; [by right|done].
Qed.

Lemma map_type_covered l x : map_type l x ≠ 0 → ∃ e, e ∈ l ∧ covers e x = true ∧ e_type e = map_type l x.
Proof. destruct (map_type_attained l x); [done|auto]. Qed.

Lemma regions_nil b : regions [] b.
Proof. split; [done|]. intros e He. by apply not_elem_of_nil in He. Qed.

Lemma regions_weaken l b b' : regions l b → b ≤ b' → regions l b'.
Proof. intros [Ho Hb] Hle. split; [done|]. intros e He. destruct (Hb e He) as (?&?&?&?). lia. Qed.

Lemma regions_snoc l b e :
  regions l (e_addr e) → 0 ≤ e_addr e → 0 < e_size e → e_addr e + e_size e ≤ b →
  0 < e_type e < 2 ^ 32 → regions (l ++ [e]) b.
Proof.
  intros [Ho Hb] ????. split.
  - intros i j f g Hij Hf Hg. apply lookup_app_Some in Hg as [Hg|[Hl Hg]].
    + rewrite lookup_app_l in Hf by (apply lookup_lt_Some in Hg; lia). eauto.
    + apply list_lookup_singleton_Some in Hg as [? ->].
      rewrite lookup_app_l in Hf by lia. apply list_elem_of_lookup_2 in Hf. apply Hb in Hf. lia.
  - intros f [Hf|Hf%list_elem_of_singleton]%elem_of_app; [apply Hb in Hf; lia|subst f; lia].
Qed.

Lemma regions_above l b x : regions l b → b ≤ x → map_type l x = 0.
Proof.
  intros [_ Hb] Hx. apply map_type_none. intros e He. apply Hb in He. apply covers_false. lia.
Qed.

(** In a sanitized map the type of an address is that of the one entry that covers it. *)
Lemma regions_unique l b e f x : regions l b → e ∈ l → f ∈ l → covers e x = true → covers f x = true → e = f.
Proof.
  intros [Ho _] [i Hi]%list_elem_of_lookup [j Hj]%list_elem_of_lookup He%covers_spec Hf%covers_spec.
  destruct (Nat.lt_total i j) as [Hij|[->|Hij]]; [|by simplify_eq|].
  - pose proof (Ho i j e f Hij Hi Hj). lia.
  - pose proof (Ho j i f e Hij Hj Hi). lia.
Qed.

Lemma regions_type l b e x : regions l b → e ∈ l → covers e x = true → map_type l x = e_type e.
Proof.
  intros Hr He Hc. destruct (map_type_attained l x) as [H0|(f & Hf & Hcf & <-)].
  - pose proof (map_type_ge l e x He Hc). apply (regions_below _ _ Hr) in He. lia.
  - by rewrite (regions_unique l b e f x).
Qed.

(** The sanitized map [l]: disjoint ordered regions with the types of the old map, at
    least up to the end of the last region when the table is full. *)
Definition sanitized (old l : list e820_entry) : Prop :=
  (length l ≤ 128)%nat ∧ regions l (2 ^ 64 - 1) ∧
  ∀ x, map_type l x = map_type old x ∨ (length l = 128%nat ∧ ∀ e, e ∈ l → e_addr e + e_size e ≤ x).

(** ** The entries that overlap *)

Section sweep.
Context (es : list e820_entry) (nr : Z).
Context (Hnr : 0 ≤ nr ≤ 128) (Hlen : length es = 128%nat).
Context (Hok : ∀ i, 0 ≤ i < nr → entry_ok (entry_at es i)).

#[local] Notation old := (take (Z.to_nat nr) es).

Lemma entry_lookup i : 0 ≤ i < 128 → es !! Z.to_nat i = Some (entry_at es i).
Proof. intros Hi. apply list_lookup_lookup_total_lt. lia. Qed.

Lemma old_elem e : e ∈ old ↔ ∃ i, 0 ≤ i < nr ∧ e = entry_at es i.
Proof.
  rewrite list_elem_of_lookup. split.
  - intros [k Hk]. apply lookup_take_Some in Hk as [Hk Hlt].
    exists (Z.of_nat k). split; [lia|]. unfold entry_at. rewrite Nat2Z.id.
    by rewrite (list_lookup_total_correct _ _ _ Hk).
  - intros (i & Hi & ->). exists (Z.to_nat i).
    rewrite lookup_take_lt by lia. apply entry_lookup. lia.
Qed.

Definition start_of (i : Z) : change_member := mk_change i (e_addr (entry_at es i)).
Definition stop_of (i : Z) : change_member := mk_change i (e_end (entry_at es i)).

Definition non_empty (i : Z) : Prop := 0 ≤ i < nr ∧ e_size (entry_at es i) ≠ 0.

(** The change points of the map. *)
Definition changes_of (i : Z) : list change_member :=
  if e_size (entry_at es i) =? 0 then [] else [start_of i; stop_of i].
Definition changes (n : Z) : list change_member := seqZ 0 n ≫= changes_of.

Definition type_of (i : Z) : Z := e_type (entry_at es i).
Definition maxtype (l : list Z) : Z := foldr (λ i t, Z.max (type_of i) t) 0 l.

Lemma maxtype_nonneg l : 0 ≤ maxtype l.
Proof. induction l; simpl; lia. Qed.

Lemma maxtype_ge l i : i ∈ l → type_of i ≤ maxtype l.
Proof. induction 1; simpl; lia. Qed.

Lemma maxtype_attained l : maxtype l = 0 ∨ ∃ i, i ∈ l ∧ type_of i = maxtype l.
Proof.
  induction l as [|i l IH]; [by left|]; simpl.
  destruct (Z.max_spec (type_of i) (maxtype l)) as [[? ->]|[? ->]].
  - destruct IH as [->|(j & ? & ?)]; [by left|]. right. exists j. split; [by right|done].
  - right. exists i. split; [by left|done].
Qed.

(** Entries that are exactly those that cover [x]. *)
Lemma maxtype_map_type act x :
  (∀ i, i ∈ act ↔ 0 ≤ i < nr ∧ covers (entry_at es i) x = true) →
  map_type old x = maxtype act.
Proof.
  intros Hact. apply Z.le_antisymm.
  - destruct (map_type_attained old x) as [->|(e & He & Hc & <-)]; [apply maxtype_nonneg|].
    apply old_elem in He as (i & Hi & ->). by apply maxtype_ge, Hact.
  - destruct (maxtype_attained act) as [->|(i & Hi & <-)]; [apply map_type_nonneg|].
    apply Hact in Hi as [Hi Hc]. apply map_type_ge; [|done]. apply old_elem. eauto.
Qed.

Lemma foldl_maxtype (f : Z → Z) l c :
  0 ≤ c →
  foldl (λ cur i, let t := type_of (f i) in if cur <? t then t else cur) c l = Z.max c (maxtype (f <$> l)).
Proof.
  revert c. induction l as [|i l IH]; intros c Hc; [cbn; lia|].
  cbn [foldl fmap list_fmap maxtype foldr]. cbv zeta. fold (maxtype (f <$> l)).
  destruct (Z.ltb_spec c (type_of (f i))); rewrite IH by lia; change (list_fmap Z Z f l) with (f <$> l); lia.
Qed.

Lemma overlap_type_spec ol n :
  0 ≤ n ≤ Z.of_nat (length ol) → overlap_type es ol n = maxtype (take (Z.to_nat n) ol).
Proof.
  intros Hn. rewrite <- fmap_aget_take by done.
  pose proof (foldl_maxtype (aget ol) (seqZ 0 n) 0) as H.
  rewrite Z.max_r in H by apply maxtype_nonneg. by apply H.
Qed.

(** Removing an entry swaps the last one into its place. *)
Lemma overlap_remove_insert ol n p e :
  n ≤ Z.of_nat (length ol) → NoDup (take (Z.to_nat n) ol) → ol !! p = Some e → Z.of_nat p < n →
  overlap_remove ol n e = <[p := aget ol (n - 1)]> ol.
Proof.
  intros Hn Hnd Hp Hlt.
  assert (∀ l ol', (∀ i, i ∈ l → aget ol' i ≠ e) →
    foldl (λ ol i, if aget ol i =? e then aset ol i (aget ol (n - 1)) else ol) ol' l = ol') as Hskip.
  { induction l as [|i l IH]; intros ol' Hl; [done|]. cbn [foldl].
    destruct (Z.eqb_spec (aget ol' i) e) as [He|_]; [destruct (Hl i); [by left|done]|].
    apply IH. intros j Hj. apply Hl. by right. }
  assert (∀ i, 0 ≤ i < n → i ≠ Z.of_nat p → aget ol i ≠ e) as Hother.
  { intros i Hi Hip He. destruct (lookup_lt_is_Some_2 ol (Z.to_nat i)) as [y Hy]; [lia|].
    rewrite (aget_lookup _ _ _ Hy) in He by lia. subst y. apply Hip.
    rewrite NoDup_alt in Hnd. rewrite <- (Hnd (Z.to_nat i) p e);
      [lia|rewrite lookup_take_lt by lia; done..]. }
  assert (seqZ 0 n = seqZ 0 (Z.of_nat p) ++ Z.of_nat p :: seqZ (Z.of_nat p + 1) (n - Z.of_nat p - 1)) as Hseq.
  { replace n with (Z.of_nat p + (n - Z.of_nat p)) at 1 by lia.
    rewrite seqZ_app, (seqZ_cons _ (n - _)) by lia. repeat f_equal; lia. }
  unfold overlap_remove. rewrite Hseq, foldl_app.
  rewrite (Hskip (seqZ 0 _)) by (intros i Hi%elem_of_seqZ; apply Hother; lia).
  cbn [foldl]. rewrite (aget_lookup ol (Z.of_nat p) e) by (rewrite ?Nat2Z.id; done || lia).
  rewrite Z.eqb_refl. unfold aset. destruct (Z.ltb_spec (Z.of_nat p) 0); [lia|]. rewrite Nat2Z.id.
  apply Hskip. intros i Hi%elem_of_seqZ. unfold aget at 1. destruct (Z.ltb_spec i 0); [lia|].
  rewrite list_lookup_insert_ne by lia. pose proof (Hother i) as Ho. unfold aget in Ho at 1.
  destruct (Z.ltb_spec i 0); [lia|]. apply Ho; lia.
Qed.

Lemma overlap_remove_spec ol n e :
  0 < n ≤ Z.of_nat (length ol) → NoDup (take (Z.to_nat n) ol) → e ∈ take (Z.to_nat n) ol →
  length (overlap_remove ol n e) = length ol ∧
  take (Z.to_nat n) ol ≡ₚ e :: take (Z.to_nat (n - 1)) (overlap_remove ol n e).
Proof.
  intros Hn Hnd [p Hp]%list_elem_of_lookup. apply lookup_take_Some in Hp as [Hp Hlt].
  rewrite (overlap_remove_insert _ _ p) by (done || lia). split; [apply length_insert|].
  destruct (lookup_lt_is_Some_2 ol (Z.to_nat (n - 1))) as [z Hz]; [lia|].
  rewrite (aget_lookup _ _ _ Hz) by lia.
  replace (Z.to_nat n) with (S (Z.to_nat (n - 1))) by lia. apply take_insert_last; (done || lia).
Qed.

(** ** The change points *)

Lemma changes_elem cm :
  cm ∈ changes nr ↔ ∃ i, non_empty i ∧ (cm = start_of i ∨ cm = stop_of i).
Proof.
  unfold changes, non_empty. rewrite list_elem_of_bind. unfold changes_of. split.
  - intros (i & Hin & Hi%elem_of_seqZ). exists i.
    destruct (Z.eqb_spec (e_size (entry_at es i)) 0); [by apply not_elem_of_nil in Hin|].
    rewrite !elem_of_cons in Hin. split; [lia|]. pose proof (not_elem_of_nil cm). tauto.
  - intros (i & [Hi Hne] & Hcm). exists i. split; [|apply elem_of_seqZ; lia].
    apply Z.eqb_neq in Hne. rewrite Hne. rewrite !elem_of_cons. tauto.
Qed.

Lemma non_empty_end i : non_empty i →
  cm_addr (stop_of i) = e_addr (entry_at es i) + e_size (entry_at es i) ∧
  cm_addr (start_of i) < cm_addr (stop_of i).
Proof. intros [Hi Hne]. destruct (Hok i Hi) eqn:E. cbn. rewrite e_end_ok by auto. lia. Qed.

Lemma start_stop_ne i j : non_empty i → start_of i ≠ stop_of j.
Proof. intros Hi Heq. pose proof (non_empty_end i Hi). injection Heq as -> Heq. cbn in *. lia. Qed.

Lemma changes_NoDup : NoDup (changes nr).
Proof.
  apply NoDup_bind.
  - intros i j cm _ _. unfold changes_of. intros Hi Hj. repeat case_match;
      rewrite ?elem_of_cons, ?elem_of_nil in *; unfold start_of, stop_of in *; naive_solver.
  - intros i Hi%elem_of_seqZ. unfold changes_of. destruct (Z.eqb_spec (e_size (entry_at es i)) 0); [constructor|].
    apply NoDup_cons. split; [|apply NoDup_singleton]. rewrite list_elem_of_singleton.
    apply start_stop_ne. split; [lia|done].
  - apply NoDup_seqZ.
Qed.

Definition member_le (a b : change_member) : Prop := member_compare es a b ≤ 0.

Lemma member_le_addr a b : member_le a b → cm_addr a ≤ cm_addr b.
Proof.
  unfold member_le, member_compare.
  destruct (Z.eqb_spec (cm_addr a) (cm_addr b)); cbn [negb]; [lia|].
  destruct (Z.ltb_spec (cm_addr b) (cm_addr a)); lia.
Qed.

Context (cms : list change_member).
Context (Hperm : cms ≡ₚ changes nr) (Hord : ordered member_le cms).

Lemma cms_elem cm : cm ∈ cms ↔ ∃ i, non_empty i ∧ (cm = start_of i ∨ cm = stop_of i).
Proof. rewrite Hperm. apply changes_elem. Qed.

Lemma cms_NoDup : NoDup cms.
Proof. rewrite Hperm. apply changes_NoDup. Qed.

(** The overlap list after the change points [done]: the entries started and not ended. *)
Record tracked (done : list change_member) (ol : list Z) (n : Z) : Prop := {
  tr_length : length ol = 128%nat;
  tr_nr : 0 ≤ n ≤ 128;
  tr_NoDup : NoDup (take (Z.to_nat n) ol);
  tr_active i : i ∈ take (Z.to_nat n) ol ↔ start_of i ∈ done ∧ stop_of i ∉ done;
}.

Lemma split_before done cm todo a :
  cms = done ++ cm :: todo → a ∈ done → member_le a cm.
Proof.
  intros Hc [i Hi]%list_elem_of_lookup. apply (Hord i (length done)); [by apply lookup_lt_Some in Hi|..]; rewrite Hc.
  - apply lookup_app_l_Some. done.
  - by rewrite list_lookup_middle.
Qed.

Lemma split_after done cm todo b :
  cms = done ++ cm :: todo → b ∈ cm :: todo → cm_addr cm ≤ cm_addr b.
Proof.
  intros Hc [->|[i Hi]%list_elem_of_lookup]%elem_of_cons; [done|].
  apply member_le_addr, (Hord (length done) (length done + S i)%nat); [lia|..]; rewrite Hc.
  - by rewrite list_lookup_middle.
  - rewrite lookup_app_r by lia. by replace (length done + S i - length done)%nat with (S i) by lia.
Qed.

(** Between two change points, the active entries are those that cover the address. *)
Lemma active_type done todo cur top x ol n :
  cms = done ++ todo → tracked done ol n →
  (∀ a, a ∈ done → cm_addr a ≤ cur) → (∀ b, b ∈ todo → top ≤ cm_addr b) → cur ≤ x < top →
  map_type old x = maxtype (take (Z.to_nat n) ol).
Proof.
  intros Hc Htr Hdone Htodo Hx. apply maxtype_map_type. intros i. rewrite (tr_active _ _ _ Htr).
  assert (∀ cm, cm ∈ cms ↔ cm ∈ done ∨ cm ∈ todo) as Hsplit by (intros; rewrite Hc; apply elem_of_app).
  rewrite covers_spec. split.
  - intros [Hs Hn]. assert (non_empty i) as Hi.
    { destruct (proj1 (cms_elem (start_of i))) as (j & Hj & [Heq|Heq]); [apply Hsplit; by left|..].
      - by injection Heq as ->.
      - injection Heq as -> Heq. pose proof (non_empty_end j Hj). cbn in *. lia. }
    pose proof (non_empty_end i Hi) as [He _]. pose proof (Hdone _ Hs).
    assert (stop_of i ∈ todo) as Ht%Htodo.
    { destruct (proj1 (Hsplit (stop_of i))) as [|]; [apply cms_elem; eauto|done|done]. }
    destruct Hi. cbn in *. lia.
  - intros [Hi Hcov]. assert (non_empty i) as Hne by (split; lia).
    pose proof (non_empty_end i Hne) as [He _]. split.
    + destruct (proj1 (Hsplit (start_of i))) as [|Ht]; [apply cms_elem; eauto|done|].
      apply Htodo in Ht. cbn in Ht. lia.
    + intros Hd%Hdone. lia.
Qed.

Lemma track_start done todo i ol n :
  cms = done ++ start_of i :: todo → non_empty i → tracked done ol n →
  tracked (done ++ [start_of i]) (aset ol n i) (n + 1).
Proof.
  intros Hc Hi Htr. pose proof cms_NoDup as Hnd. rewrite Hc in Hnd.
  apply NoDup_app in Hnd as (Hnd1 & Hnd2 & Hnd3).
  assert (start_of i ∉ done) as Hs by (intros H; apply (Hnd2 _ H); by left).
  assert (stop_of i ∉ done) as Hst.
  { intros H. pose proof (split_before _ _ _ _ Hc H) as Hle%member_le_addr.
    pose proof (non_empty_end i Hi). lia. }
  destruct Htr as [Hl Hn Ha Hact]. assert (i ∉ take (Z.to_nat n) ol) as Hni by (rewrite Hact; tauto).
  assert (n < 128) as Hlt.
  { assert (length (i :: take (Z.to_nat n) ol) ≤ length (seqZ 0 nr))%nat as Hle.
    { apply submseteq_length, NoDup_submseteq; [by constructor|]. intros j Hj. apply elem_of_seqZ.
      apply elem_of_cons in Hj as [->|Hj]; [destruct Hi; lia|].
      apply Hact in Hj as [Hj _]. assert (start_of j ∈ cms) as Hin by (rewrite Hc; apply elem_of_app; by left).
      apply cms_elem in Hin as (k & [Hk _] & [Heq|Heq]); injection Heq as ->; lia. }
    rewrite length_seqZ in Hle. cbn in Hle. rewrite length_take in Hle. lia. }
  assert (take (Z.to_nat (n + 1)) (aset ol n i) = take (Z.to_nat n) ol ++ [i]) as Htake.
  { unfold aset. destruct (Z.ltb_spec n 0); [lia|].
    replace (Z.to_nat (n + 1)) with (S (Z.to_nat n)) by lia.
    rewrite (take_S_r _ _ i) by (apply list_lookup_insert_eq; lia). by rewrite take_insert_ge. }
  split; [by rewrite aset_length|lia|rewrite Htake..].
  - apply NoDup_app. split; [done|]. split; [|apply NoDup_singleton].
    intros j Hj ->%list_elem_of_singleton. done.
  - intros j. rewrite !elem_of_app, !list_elem_of_singleton, Hact. split.
    + intros [[? ?]| ->]; (split; [by auto|]).
      * intros [?|Heq]; [done|]. by apply (start_stop_ne i j Hi).
      * intros [?|Heq]; [done|]. by apply (start_stop_ne i i Hi).
    + intros [[?|Heq] Hno]; [left|right; by injection Heq]. split; [done|]. tauto.
Qed.

Lemma track_stop done todo i ol n :
  cms = done ++ stop_of i :: todo → non_empty i → tracked done ol n →
  tracked (done ++ [stop_of i]) (overlap_remove ol n i) (n - 1).
Proof.
  intros Hc Hi Htr. pose proof cms_NoDup as Hnd. rewrite Hc in Hnd.
  apply NoDup_app in Hnd as (Hnd1 & Hnd2 & Hnd3).
  assert (stop_of i ∉ done) as Hs by (intros H; apply (Hnd2 _ H); by left).
  assert (start_of i ∈ done) as Hst.
  { assert (start_of i ∈ cms) as Hin by (apply cms_elem; eauto).
    rewrite Hc in Hin. apply elem_of_app in Hin as [|Hin]; [done|].
    apply (split_after _ _ _ _ Hc) in Hin. pose proof (non_empty_end i Hi). lia. }
  destruct Htr as [Hl Hn Ha Hact]. assert (i ∈ take (Z.to_nat n) ol) as Hin by (by apply Hact).
  assert (0 < n).
  { destruct (decide (n = 0)) as [->|]; [by apply not_elem_of_nil in Hin|lia]. }
  destruct (overlap_remove_spec ol n i) as [Hlen' Hp]; [lia|done..|].
  assert (NoDup (i :: take (Z.to_nat (n - 1)) (overlap_remove ol n i))) as [Hni Hnd']%NoDup_cons by by rewrite <- Hp.
  split; [by rewrite Hlen'|lia|done|].
  intros j. rewrite !elem_of_app, !list_elem_of_singleton.
  pose proof (Hact j) as Hj. rewrite Hp, elem_of_cons in Hj.
  assert (j = i → j ∉ take (Z.to_nat (n - 1)) (overlap_remove ol n i)) by (by intros ->).
  assert (start_of j ≠ stop_of i ∨ j = i) as Hne.
  { destruct (decide (j = i)); [by right|left]. by intros [= -> _]. }
  assert (stop_of j = stop_of i → j = i) by (by intros [= -> _]).
  assert (start_of i ≠ stop_of i) by by apply start_stop_ne. naive_solver.
Qed.

(** ** The new entries *)

(** [done] new entries, which describe the old map below [cur]. *)
Record closed (cur : Z) (new : list e820_entry) (n : Z) : Prop := {
  cl_length : length new = 128%nat;
  cl_nr : 0 ≤ n < 128;
  cl_regions : regions (take (Z.to_nat n) new) cur;
  cl_type x : x < cur → map_type (take (Z.to_nat n) new) x = map_type old x;
}.

(** The output when the sweep has reached [cur]: closed, or with one entry open since
    [last_addr]. *)
Definition output (cur : Z) (st : sweep_state) : Prop :=
  let new := sw_new st in let n := sw_new_nr st in
  if decide (sw_last_type st = 0) then closed cur new n
  else
    closed (sw_last_addr st) new n ∧ 0 ≤ sw_last_addr st ≤ cur ∧
    0 < sw_last_type st < 2 ^ 32 ∧
    e_addr (entry_at new n) = sw_last_addr st ∧ e_type (entry_at new n) = sw_last_type st ∧
    ∀ x, sw_last_addr st ≤ x < cur → map_type old x = sw_last_type st.

Lemma closed_extend cur top new n :
  closed cur new n → cur ≤ top → (∀ x, cur ≤ x < top → map_type old x = 0) → closed top new n.
Proof.
  intros [Hl Hn Hr Ht] Hle H0. split; [done..|by eapply regions_weaken|].
  intros x Hx. destruct (decide (x < cur)); [by apply Ht|].
  rewrite H0 by lia. apply (regions_above _ cur); [done|lia].
Qed.

Lemma output_extend cur top st :
  output cur st → cur ≤ top → (∀ x, cur ≤ x < top → map_type old x = sw_last_type st) → output top st.
Proof.
  unfold output. case_decide as Hz.
  - rewrite Hz. intros. by apply (closed_extend cur).
  - intros (Hc & Hb & Ht & Ha & Hty & Hx) Hle Hnew. split_and!; try (done || lia).
    intros x Hx'. destruct (decide (x < cur)); [apply Hx|apply Hnew]; lia.
Qed.

(** Reading back the entry a store has put at [n]. *)
Lemma entry_at_aset new n e : length new = 128%nat → 0 ≤ n < 128 → entry_at (aset new n e) n = e.
Proof.
  intros Hl Hn. unfold entry_at, aset. destruct (Z.ltb_spec n 0); [lia|].
  by rewrite list_lookup_total_insert_eq by lia.
Qed.

Lemma closed_aset cur new n e : closed cur new n → closed cur (aset new n e) n.
Proof. intros [Hl Hn Hr Ht]. split; [by rewrite aset_length|done|by rewrite take_aset..]. Qed.

(** Appending the open entry. *)
Lemma closed_append cur new n e :
  closed (e_addr e) new n → 0 ≤ e_addr e → 0 < e_size e → e_addr e + e_size e = cur →
  0 < e_type e < 2 ^ 32 → (∀ x, e_addr e ≤ x < cur → map_type old x = e_type e) →
  let l := take (Z.to_nat (n + 1)) (aset new n e) in
  regions l cur ∧ ∀ x, x < cur → map_type l x = map_type old x.
Proof.
  intros [Hl Hn Hr Ht] ??? ? Hold. cbv zeta. rewrite take_aset_S by lia.
  split; [by apply regions_snoc; (done || lia)|].
  intros x Hx. rewrite map_type_app. cbn [map_type foldr].
  destruct (decide (x < e_addr e)).
  - rewrite (proj2 (covers_false e x)) by lia. rewrite Ht by done. pose proof (map_type_nonneg old x). lia.
  - rewrite (proj2 (covers_spec e x)) by lia. rewrite (regions_above _ (e_addr e)), Hold by (done || lia). lia.
Qed.

Lemma close_entry_ok top st :
  output top st → 0 ≤ top < 2 ^ 64 →
  match close_entry top st with
  | inl st' =>
      closed top (sw_new st') (sw_new_nr st') ∧
      sw_overlap st' = sw_overlap st ∧ sw_overlap_entries st' = sw_overlap_entries st
  | inr st' => sw_new_nr st' = 128 ∧ length (sw_new st') = 128%nat ∧ sanitized old (take 128 (sw_new st'))
  end.
Proof.
  unfold output, close_entry. intros Hout Htop. case_decide as Hz.
  { rewrite Hz. done. }
  destruct Hout as (Hc & Hb & Hty & Ha & Ht & Hx). rewrite (proj2 (Z.eqb_neq _ _) Hz). cbn [negb].
  rewrite wrap_small by lia. set (size := top - sw_last_addr st).
  destruct (Z.eqb_spec size 0) as [Hs|Hs]; cbn [negb andb sw_new sw_new_nr].
  - replace top with (sw_last_addr st) by (unfold size in Hs; lia). split; [by apply closed_aset|done].
  - pose proof (closed_append top (sw_new st) (sw_new_nr st)
      (mk_entry (sw_last_addr st) size (sw_last_type st)) Hc) as Happ.
    cbn [e_addr e_size e_type] in Happ. unfold size in Happ at 1 2. pose proof (cl_nr _ _ _ Hc).
    specialize (Happ ltac:(lia) ltac:(lia) ltac:(lia) ltac:(lia) Hx). cbv zeta in Happ.
    rewrite Ha, Ht. destruct Happ as [Hr Hold].
    destruct (Z.leb_spec E820_MAX_ENTRIES (sw_new_nr st + 1)) as [Hfull|Hfull]; unfold E820_MAX_ENTRIES in Hfull;
      cbn [sw_new sw_new_nr sw_overlap sw_overlap_entries].
    + split; [lia|]. pose proof (cl_length _ _ _ Hc) as Hl. split; [by rewrite aset_length|].
      replace (sw_new_nr st + 1) with 128 in Hr, Hold by lia. change (Z.to_nat 128) with 128%nat in Hr, Hold.
      split; [rewrite length_take; lia|]. split; [eapply regions_weaken; [done|lia]|].
      intros x. destruct (decide (x < top)); [left; by apply Hold|right].
      split; [rewrite length_take, aset_length; lia|]. intros e He. apply (regions_below _ _ Hr) in He. lia.
    + split; [|done]. split; [by rewrite aset_length; apply (cl_length _ _ _ Hc)|lia|done|done].
Qed.

Lemma open_entry_ok top t st :
  closed top (sw_new st) (sw_new_nr st) → 0 ≤ top → 0 ≤ t < 2 ^ 32 → output top (open_entry top t st).
Proof.
  intros Hc Htop Ht. unfold output, open_entry. destruct (Z.eqb_spec t 0) as [->|Hne]; cbn.
  { by rewrite decide_True. }
  rewrite decide_False by done. split; [by apply closed_aset|].
  rewrite entry_at_aset by apply Hc. cbn. split_and!; (done || lia).
Qed.

Lemma maxtype_bound done ol n : tracked done ol n → (∀ cm, cm ∈ done → cm ∈ cms) →
  0 ≤ maxtype (take (Z.to_nat n) ol) < 2 ^ 32.
Proof.
  intros Htr Hsub. split; [apply maxtype_nonneg|].
  destruct (maxtype_attained (take (Z.to_nat n) ol)) as [->|(i & Hi & <-)]; [lia|].
  apply (tr_active _ _ _ Htr) in Hi as [Hi%Hsub _]. apply cms_elem in Hi as (j & [Hj _] & Heq).
  assert (i = j) as -> by (destruct Heq as [[=]|[=]]; done). apply (Hok j Hj).
Qed.

(** The invariant of the main loop. *)
Definition swept (done : list change_member) (cur : Z) (st : sweep_state) : Prop :=
  tracked done (sw_overlap st) (sw_overlap_entries st) ∧
  sw_last_type st = maxtype (take (Z.to_nat (sw_overlap_entries st)) (sw_overlap st)) ∧
  output cur st ∧ (∀ a, a ∈ done → cm_addr a ≤ cur).

Lemma track_overlap_ok done cm todo st :
  cms = done ++ cm :: todo → tracked done (sw_overlap st) (sw_overlap_entries st) →
  let st' := track_overlap es cm st in
  tracked (done ++ [cm]) (sw_overlap st') (sw_overlap_entries st') ∧
  sw_new st' = sw_new st ∧ sw_new_nr st' = sw_new_nr st ∧
  sw_last_type st' = sw_last_type st ∧ sw_last_addr st' = sw_last_addr st.
Proof.
  intros Hc Htr. assert (cm ∈ cms) as Hin by (rewrite Hc; apply elem_of_app; right; by left).
  apply cms_elem in Hin as (i & Hi & Heq). pose proof (non_empty_end i Hi) as [_ Hlt]. unfold track_overlap.
  destruct Heq as [-> | ->]; cbn [cm_entry cm_addr start_of stop_of] in *.
  - rewrite Z.eqb_refl. cbn. split; [by eapply track_start|done].
  - destruct (Z.eqb_spec (e_end (entry_at es i)) (e_addr (entry_at es i))); [lia|].
    cbn. split; [by eapply track_stop|done].
Qed.

Lemma sweep_step_ok done cm todo cur st :
  cms = done ++ cm :: todo → swept done cur st → 0 ≤ cur ≤ cm_addr cm →
  match sweep_step es cm st with
  | inl st' => swept (done ++ [cm]) (cm_addr cm) st'
  | inr st' => sw_new_nr st' = 128 ∧ length (sw_new st') = 128%nat ∧ sanitized old (take 128 (sw_new st'))
  end.
Proof.
  intros Hc (Htr & Hlast & Hout & Hdone) Hcur.
  assert (∀ a, a ∈ done ++ [cm] → cm_addr a ≤ cm_addr cm) as Hdone'.
  { intros a [Ha|Ha%list_elem_of_singleton]%elem_of_app; [apply Hdone in Ha; lia|by subst]. }
  assert (cm_addr cm < 2 ^ 64) as Htop.
  { assert (cm ∈ cms) as Hin by (rewrite Hc; apply elem_of_app; right; by left).
    apply cms_elem in Hin as (i & Hi & Heq). pose proof (non_empty_end i Hi) as [He Hlt].
    destruct Hi as [Hi _], (Hok i Hi). destruct Heq as [-> | ->]; lia. }
  apply (output_extend cur (cm_addr cm)) in Hout; [|lia|].
  2: { intros x Hx. rewrite Hlast. apply (active_type done (cm :: todo) cur (cm_addr cm)); try done.
       intros b Hb. by eapply split_after. }
  pose proof (track_overlap_ok done cm todo st Hc Htr) as Htrack. cbv zeta in Htrack. unfold sweep_step.
  set (st1 := track_overlap es cm st) in *. destruct Htrack as (Htr1 & Hn1 & Hn2 & Hn3 & Hn4).
  assert (output (cm_addr cm) st1) as Hout1 by (unfold output in *; by rewrite Hn1, Hn2, Hn3, Hn4).
  pose proof (tr_length _ _ _ Htr1) as Hl1. pose proof (tr_nr _ _ _ Htr1) as Hnr1.
  rewrite overlap_type_spec by lia.
  set (t := maxtype _). assert (0 ≤ t < 2 ^ 32) as Ht.
  { apply (maxtype_bound _ _ _ Htr1). intros a Ha. rewrite Hc, cons_middle, app_assoc. apply elem_of_app. by left. }
  destruct (Z.eqb_spec t (sw_last_type st1)) as [Heq|Hne]; cbn [negb].
  { split_and!; done. }
  pose proof (close_entry_ok (cm_addr cm) st1 Hout1 ltac:(lia)) as Hclose.
  destruct (close_entry (cm_addr cm) st1) as [st2|st2]; [|done].
  destruct Hclose as (Hcl & Ho1 & Ho2).
  pose proof (open_entry_ok (cm_addr cm) t st2 Hcl ltac:(lia) Ht) as Hopen.
  assert (sw_overlap (open_entry (cm_addr cm) t st2) = sw_overlap st1 ∧
    sw_overlap_entries (open_entry (cm_addr cm) t st2) = sw_overlap_entries st1 ∧
    sw_last_type (open_entry (cm_addr cm) t st2) = t) as (He1 & He2 & He3).
  { rewrite <- Ho1, <- Ho2. unfold open_entry. by destruct (negb (t =? 0)). }
  unfold swept. rewrite He1, He2, He3. done.
Qed.

(** When every change point has been handled nothing is active any more. *)
Lemma swept_end cur st : swept cms cur st → sw_last_type st = 0 ∧ closed cur (sw_new st) (sw_new_nr st).
Proof.
  intros (Htr & Hlast & Hout & _).
  assert (sw_last_type st = 0) as H0.
  { rewrite Hlast. destruct (maxtype_attained (take (Z.to_nat (sw_overlap_entries st)) (sw_overlap st)))
      as [|(i & Hi & _)]; [done|]. exfalso.
    apply (tr_active _ _ _ Htr) in Hi as [Hs Hn]. apply Hn. clear Hn.
    apply cms_elem in Hs as (j & Hj & Heq). apply cms_elem.
    assert (i = j) as -> by (destruct Heq as [[=]|[=]]; done). eauto. }
  split; [done|]. unfold output in Hout. by rewrite decide_True in Hout.
Qed.

Lemma sweep_ok todo done cur st :
  cms = done ++ todo → swept done cur st → 0 ≤ cur → (∀ a, a ∈ todo → cur ≤ cm_addr a) → cur < 2 ^ 64 →
  let st' := sweep es todo st in
  length (sw_new st') = 128%nat ∧ 0 ≤ sw_new_nr st' ≤ 128 ∧
  sanitized old (take (Z.to_nat (sw_new_nr st')) (sw_new st')).
Proof.
  revert done cur st. induction todo as [|cm todo IH]; intros done cur st Hc Hs Hcur Htodo Htop; cbn [sweep]; cbv zeta.
  - rewrite app_nil_r in Hc. subst done. destruct (swept_end _ _ Hs) as [Hz [Hl Hn Hr Ht]].
    split; [done|]. split; [lia|]. split; [rewrite length_take; lia|].
    split; [eapply regions_weaken; [done|lia]|]. intros x. left.
    destruct (decide (x < cur)); [by apply Ht|]. rewrite (regions_above _ cur) by (done || lia).
    destruct Hs as (Htr & Hlast & _ & Hdone).
    rewrite (active_type cms [] cur (x + 1) x _ _ ltac:(by rewrite app_nil_r) Htr Hdone); [|by intros ? ?%not_elem_of_nil|lia].
    lia.
  - pose proof (sweep_step_ok done cm todo cur st Hc Hs) as Hstep.
    pose proof (Htodo cm ltac:(by left)). specialize (Hstep ltac:(lia)).
    destruct (sweep_step es cm st) as [st'|st'].
    + apply (IH (done ++ [cm]) (cm_addr cm)); [by rewrite Hc, <- app_assoc|done|lia| |].
      * intros a Ha. eapply (split_after done cm todo); [done|]. by right.
      * assert (cm ∈ cms) as Hin by (rewrite Hc; apply elem_of_app; right; by left).
        apply cms_elem in Hin as (i & Hi & Heq). pose proof (non_empty_end i Hi) as [He Hlt].
        destruct Hi as [Hi _], (Hok i Hi). destruct Heq as [-> | ->]; lia.
    + destruct Hstep as (-> & Hl & Hsan). done.
Qed.

Lemma sweep_sanitizes ol new :
  length ol = 128%nat → length new = 128%nat →
  let st' := sweep es cms (mk_sweep ol 0 new 0 0 0) in
  length (sw_new st') = 128%nat ∧ 0 ≤ sw_new_nr st' ≤ 128 ∧
  sanitized old (take (Z.to_nat (sw_new_nr st')) (sw_new st')).
Proof.
  intros Hol Hnew. apply (sweep_ok cms [] 0); [done| |lia| |lia].
  - split_and!; cbn; try done.
    + split; [done|lia|constructor|]. intros i. cbn. split; [by intros ?%not_elem_of_nil|by intros [?%not_elem_of_nil _]].
    + unfold output. cbn. split; [done|lia|apply regions_nil|]. intros x Hx. cbn. symmetry.
      apply map_type_none. intros e (i & Hi & ->)%old_elem. apply covers_false. destruct (Hok i Hi). lia.
    + by intros a ?%not_elem_of_nil.
  - intros a (i & Hi & Heq)%cms_elem. pose proof (non_empty_end i Hi) as [He Hlt].
    destruct Hi as [Hi _], (Hok i Hi). cbn in *. destruct Heq as [-> | ->]; cbn; lia.
Qed.
End sweep.

(** ** Recording and sorting the change points *)

Section update.
Context (es : list e820_entry) (nr : Z).
Context (Hnr : 0 ≤ nr ≤ 128) (Hlen : length es = 128%nat).

Lemma init_change_point_spec n cp :
  0 ≤ n → n * 2 ≤ Z.of_nat (length cp) →
  length (init_change_point n cp) = length cp ∧
  ∀ i, 0 ≤ i < 2 * n → aget (init_change_point n cp) i = i.
Proof.
  intros Hn Hl. unfold init_change_point.
  assert (∀ k : nat, (k ≤ length cp)%nat →
    let r := foldl (λ cp i, aset cp i i) cp (seqZ 0 (Z.of_nat k)) in
    length r = length cp ∧ ∀ i, 0 ≤ i < Z.of_nat k → aget r i = i) as H.
  { induction k as [|k IH]; intros Hk; cbv zeta; [split; [done|lia]|].
    rewrite seqZ_S, foldl_app. cbn [foldl]. destruct (IH ltac:(lia)) as [Hl' Hg].
    split; [by rewrite aset_length|]. intros i Hi. rewrite Z.add_0_l.
    destruct (decide (i = Z.of_nat k)) as [->|]; [apply aget_aset_eq; lia|].
    rewrite aget_aset_ne by lia. apply Hg. lia. }
  specialize (H (Z.to_nat (2 * n)) ltac:(lia)). rewrite Z2Nat.id in H by lia. done.
Qed.

Lemma changes_S (k : nat) : changes es (Z.of_nat (S k)) = changes es (Z.of_nat k) ++ changes_of es (Z.of_nat k).
Proof. unfold changes. rewrite seqZ_S, bind_app. cbn. by rewrite app_nil_r. Qed.

Lemma changes_length (k : nat) : (length (changes es (Z.of_nat k)) ≤ 2 * k)%nat.
Proof.
  induction k as [|k IH]; [done|]. rewrite changes_S, length_app.
  unfold changes_of. case_match; cbn; lia.
Qed.

Lemma record_step_ok cp cl chg (k : nat) :
  (∀ i, 0 ≤ i < 256 → Z.of_nat chg ≤ i < Z.of_nat chg + 2 → aget cp i = i) →
  length cl = 256%nat → (chg ≤ 254)%nat → take chg cl = changes es (Z.of_nat k) →
  let '(cl', chg') := record_step es cp (cl, Z.of_nat chg) (Z.of_nat k) in
  length cl' = 256%nat ∧ ∃ c : nat, chg' = Z.of_nat c ∧ take c cl' = changes es (Z.of_nat (S k)) ∧
    c = length (changes es (Z.of_nat (S k))).
Proof.
  intros Hcp Hcl Hchg Htake. assert (length (changes es (Z.of_nat k)) = chg) as Hlen'.
  { rewrite <- Htake, length_take. lia. }
  rewrite changes_S, length_app. unfold record_step, changes_of.
  destruct (Z.eqb_spec (e_size (entry_at es (Z.of_nat k))) 0); cbn [negb].
  - split; [done|]. exists chg. rewrite app_nil_r. split_and!; [done..|cbn; lia].
  - rewrite !Hcp by lia. split; [by rewrite !aset_length|]. exists (chg + 2)%nat.
    split; [lia|]. split; [|cbn; lia].
    pose proof (take_aset_S (aset cl (Z.of_nat chg) (start_of es (Z.of_nat k))) (Z.of_nat chg + 1) (stop_of es (Z.of_nat k))) as H2.
    pose proof (take_aset_S cl (Z.of_nat chg) (start_of es (Z.of_nat k))) as H1.
    rewrite aset_length in H2. replace (Z.to_nat (Z.of_nat chg + 1 + 1)) with (chg + 2)%nat in H2 by lia.
    rewrite Nat2Z.id in H1. rewrite <- Htake. etransitivity; [apply H2; lia|].
    rewrite H1 by lia. by rewrite <- app_assoc.
Qed.

Lemma record_ok cp cl :
  (∀ i, 0 ≤ i < 2 * nr → aget cp i = i) → length cl = 256%nat →
  let '(cl', chg) := foldl (record_step es cp) (cl, 0) (seqZ 0 nr) in
  length cl' = 256%nat ∧ 0 ≤ chg ≤ 2 * nr ∧ take (Z.to_nat chg) cl' = changes es nr.
Proof.
  intros Hcp Hcl.
  assert (∀ k : nat, (k ≤ Z.to_nat nr)%nat →
    let '(cl', chg) := foldl (record_step es cp) (cl, 0) (seqZ 0 (Z.of_nat k)) in
    length cl' = 256%nat ∧ ∃ c : nat, chg = Z.of_nat c ∧ take c cl' = changes es (Z.of_nat k) ∧
      c = length (changes es (Z.of_nat k))) as H.
  { induction k as [|k IH]; intros Hk; [split; [done|]; by exists 0%nat|].
    specialize (IH ltac:(lia)). rewrite seqZ_S, foldl_app. cbn [foldl]. rewrite Z.add_0_l.
    destruct (foldl _ _ _) as [cl1 chg1]. destruct IH as (Hl & c & -> & Ht & Hc).
    pose proof (changes_length k). apply record_step_ok; try done; [|lia].
    intros i Hi Hi'. apply Hcp. lia. }
  specialize (H (Z.to_nat nr) (Nat.le_refl _)). rewrite Z2Nat.id in H by lia.
  destruct (foldl _ _ _) as [cl1 chg1]. destruct H as (Hl & c & -> & Ht & Hc).
  pose proof (changes_length (Z.to_nat nr)) as Hcl'. rewrite Z2Nat.id in Hcl' by lia.
  split; [done|]. split; [lia|]. by rewrite Nat2Z.id.
Qed.

#[global] Instance member_le_preorder : PreOrder (member_le es).
Proof.
  unfold member_le, member_compare. split.
  - intros a. rewrite Z.eqb_refl. cbn. lia.
  - intros a b c. intros Hab Hbc. revert Hab Hbc.
    destruct (Z.eqb_spec (cm_addr a) (cm_addr b)), (Z.eqb_spec (cm_addr b) (cm_addr c)),
      (Z.eqb_spec (cm_addr a) (cm_addr c)); cbn [negb];
      repeat case_match; unfold b2z in *; repeat case_match; lia.
Qed.

(** The pointers as an array to sort: its first [n] elements. *)
Definition pointer_array (n : Z) (cp l : list Z) : Prop :=
  l = take (Z.to_nat n) cp ∧ length cp = 256%nat.

Lemma take_swapped {A} (l : list A) n i j :
  (i < n)%nat → (j < n)%nat → (n ≤ length l)%nat → take n (swapped i j l) = swapped i j (take n l).
Proof.
  intros Hi Hj Hn. apply list_eq. intros k. rewrite swapped_lookup' by (rewrite length_take; lia).
  destruct (decide (k < n)%nat).
  - rewrite !lookup_take_lt, swapped_lookup' by lia. done.
  - rewrite !decide_False by lia. by rewrite !lookup_take_ge by lia.
Qed.

#[global] Instance pointer_sort_ops cl n :
  0 ≤ n ≤ 256 →
  SortOps (cpcompare es cl) list_swap 8 n (pointer_array n) (λ p q, member_le es (member_at cl p) (member_at cl q)).
Proof.
  intros Hn. split.
  - lia.
  - lia.
  - split; [intros p; reflexivity|intros p q r; apply transitivity].
  - intros cp l [-> Hl]. rewrite length_take. lia.
  - intros cp l i j x y [-> Hl] Hx Hy. apply lookup_take_Some in Hx as [Hx _], Hy as [Hy _].
    unfold cpcompare. rewrite !Z.div_mul by lia.
    rewrite (aget_lookup _ _ x), (aget_lookup _ _ y) by (rewrite ?Nat2Z.id; (done || lia)).
    unfold member_le. destruct (Z.ltb_spec (member_compare es (member_at cl x) (member_at cl y)) 0); [lia|].
    unfold member_compare in *. rewrite (Z.eqb_sym (cm_addr (member_at cl y))).
    destruct (Z.eqb_spec (cm_addr (member_at cl x)) (cm_addr (member_at cl y))); cbn [negb] in *; [lia|].
    destruct (Z.ltb_spec (cm_addr (member_at cl y)) (cm_addr (member_at cl x))),
      (Z.ltb_spec (cm_addr (member_at cl x)) (cm_addr (member_at cl y))); lia.
  - intros cp l i j [-> Hl]. rewrite length_take. intros Hi Hj Hij. unfold list_swap.
    rewrite !Z.div_mul, !Nat2Z.id by lia. split; [|by rewrite swapped_length].
    by rewrite take_swapped by lia.
Qed.

Lemma sort_change_points_ok s cl chg :
  0 ≤ chg ≤ 2 * nr → take (Z.to_nat chg) cl = changes es nr → length cl = 256%nat →
  length (change_point s) = 256%nat → (∀ i, 0 ≤ i < 2 * nr → aget (change_point s) i = i) →
  ∃ cp, sort_change_points es cl chg s =
      Done cp (mk_e820 (table s) (change_point_list s) cp (overlap_list s) (new_entries s) (e820_log s)) ∧
    length cp = 256%nat ∧
    let cms := (λ i, member_at cl (aget cp i)) <$> seqZ 0 chg in
    cms ≡ₚ changes es nr ∧ ordered (member_le es) cms.
Proof.
  intros Hchg Htake Hcl Hcp Hid.
  pose proof (pointer_sort_ops cl chg ltac:(lia)) as Hops.
  destruct (sort_sorts (change_point s) (take (Z.to_nat chg) (change_point s)))
    as (cp & l & Hr & [-> Hl] & Hp & Ho); [done|].
  exists cp. unfold sort_change_points. rewrite Hr. split; [done|]. split; [done|]. cbv zeta.
  rewrite <- (fmap_aget_take cp) in Hp, Ho by lia. rewrite <- (fmap_aget_take (change_point s)) in Hp by lia.
  rewrite (list_fmap_compose (aget cp) (member_at cl)). split.
  - rewrite Hp. replace (aget (change_point s) <$> seqZ 0 chg) with (seqZ 0 chg).
    + unfold member_at; rewrite fmap_total_take by lia. by rewrite Htake.
    + rewrite <- (list_fmap_id (seqZ 0 chg)) at 1. apply list_fmap_ext.
      intros k i [-> Hi]%lookup_seqZ. cbn. rewrite Hid by lia. done.
  - intros i j x y Hij (p & -> & Hx)%list_lookup_fmap_Some (q & -> & Hy)%list_lookup_fmap_Some. by apply (Ho i j).
Qed.
End update.

(** ** Sanitizing a table *)

Definition wraps (e : e820_entry) : Prop := e_end e < e_addr e.

Lemma entry_ok_fits e : entry_fits e → ¬ wraps e → entry_ok e.
Proof.
  intros [Ha Hs Ht] Hw. unfold wraps, e_end in Hw. split; [lia..| |lia].
  destruct (decide (e_addr e + e_size e < 2 ^ 64)); [done|]. exfalso. apply Hw. unfold wrap. divlia.
Qed.

Lemma used_elem s e :
  e820_ok s → e ∈ used (table s) ↔ ∃ i, 0 ≤ i < nr_entries (table s) ∧ e = entry_at (entries (table s)) i.
Proof. intros Hs. apply old_elem; apply Hs. Qed.

Lemma existsb_wraps s :
  e820_ok s →
  existsb (λ i, e_end (entry_at (entries (table s)) i) <? e_addr (entry_at (entries (table s)) i))
    (seqZ 0 (nr_entries (table s))) = true ↔ ∃ e, e ∈ used (table s) ∧ wraps e.
Proof.
  intros Hs. rewrite existsb_exists. split.
  - intros (i & Hi%list_elem_of_In%elem_of_seqZ & Hw%Z.ltb_lt). eexists. split; [|exact Hw].
    apply used_elem; [done|]. exists i. split; [lia|done].
  - intros (e & (i & Hi & ->)%used_elem & Hw); [|done]. exists i.
    split; [apply list_elem_of_In, elem_of_seqZ; lia|by apply Z.ltb_lt].
Qed.

Lemma overlap_remove_length ol n e : length (overlap_remove ol n e) = length ol.
Proof.
  unfold overlap_remove. generalize (seqZ 0 n). intros l. revert ol.
  induction l as [|i l IH]; intros ol; [done|]. cbn [foldl]. rewrite IH.
  case_match; [apply aset_length|done].
Qed.

Lemma sweep_overlap_length es cms st : length (sw_overlap (sweep es cms st)) = length (sw_overlap st).
Proof.
  assert (∀ cm st, match sweep_step es cm st with
    inl st' | inr st' => length (sw_overlap st') = length (sw_overlap st) end) as Hstep.
  { intros cm st0. unfold sweep_step.
    assert (length (sw_overlap (track_overlap es cm st0)) = length (sw_overlap st0)) as <-.
    { unfold track_overlap. destruct (_ =? _); cbn; [apply aset_length|apply overlap_remove_length]. }
    unfold close_entry, open_entry. repeat (case_match; simplify_eq; try done). }
  revert st. induction cms as [|cm cms IH]; intros st; [done|]. cbn [sweep].
  pose proof (Hstep cm st). destruct (sweep_step es cm st); [by rewrite IH|done].
Qed.

(** A change point adds at most one region. *)
Lemma sweep_nr es cms st : sw_new_nr (sweep es cms st) ≤ sw_new_nr st + Z.of_nat (length cms).
Proof.
  revert st. induction cms as [|cm cms IH]; intros st; cbn [sweep length]; [lia|].
  assert (∀ st', sweep_step es cm st = inl st' ∨ sweep_step es cm st = inr st' → sw_new_nr st' ≤ sw_new_nr st + 1) as Hstep.
  { intros st'. unfold sweep_step, close_entry, open_entry, track_overlap. cbv zeta.
    repeat case_match; intros [E|E]; simplify_eq; cbn in *; lia. }
  destruct (sweep_step es cm st) as [st'|st']; [specialize (Hstep st' (or_introl eq_refl))|specialize (Hstep st' (or_intror eq_refl))].
  - specialize (IH st'). lia.
  - lia.
Qed.

Lemma copy_entries_take n src dst :
  length src = 128%nat → length dst = 128%nat → 0 ≤ n ≤ 128 →
  length (copy_entries n src dst) = 128%nat ∧
  take (Z.to_nat n) (copy_entries n src dst) = take (Z.to_nat n) src.
Proof.
  intros Hs Hd Hn. unfold copy_entries. rewrite length_app, length_take, length_drop. split; [lia|].
  rewrite take_app_le by (rewrite length_take; lia). by rewrite take_take, Nat.min_id.
Qed.

Lemma sanitized_fits old l : sanitized old l → Forall entry_fits l.
Proof.
  intros (_ & Hr & _). apply Forall_forall. intros e He. apply (regions_below _ _ Hr) in He as (?&?&?&?).
  split; lia.
Qed.

Lemma update_table_runs s :
  e820_ok s → 2 ≤ nr_entries (table s) → (∀ e, e ∈ used (table s) → ¬ wraps e) →
  ∃ s', __e820_update_table s = Done 0 s' ∧ e820_ok s' ∧ e820_log s' = e820_log s ∧
    sanitized (used (table s)) (used (table s')) ∧ nr_entries (table s') ≤ 2 * nr_entries (table s).
Proof.
  intros Hs Hnr Hw. pose proof Hs as [Hn Hl Hf Hcl Hcp Hol Hne].
  set (es := entries (table s)) in *. set (nr := nr_entries (table s)) in *.
  assert (∀ i, 0 ≤ i < nr → entry_ok (entry_at es i)) as Hok.
  { intros i Hi. assert (entry_at es i ∈ used (table s)) as Hin by (apply used_elem; eauto).
    rewrite Forall_forall in Hf. apply entry_ok_fits; auto. }
  destruct (init_change_point_spec es Hl nr (change_point s)) as [Hcpl Hid]; [lia..|].
  pose proof (record_ok es nr Hn Hl (init_change_point nr (change_point s)) (change_point_list s) Hid Hcl) as Hrec.
  unfold __e820_update_table. rewrite (bind_done _ _ s (table s) s) by done. fold es nr. cbv zeta.
  destruct (Z.ltb_spec nr 2); [lia|].
  rewrite (bind_done _ _ s tt s) by (unfold BUG_ON, E820_MAX_ENTRIES; destruct (Z.ltb_spec 128 nr); [lia|done]).
  destruct (existsb _ _) eqn:Hex.
  { apply (existsb_wraps s Hs) in Hex as (e & He & Hwe). by apply Hw in He. }
  rewrite (bind_done _ _ s s s) by done.
  destruct (foldl (record_step es _) _ _) as [cl chg]. destruct Hrec as (Hcl' & Hchg & Htake).
  erewrite bind_done by reflexivity.
  destruct (sort_change_points_ok es nr Hn Hl
    (mk_e820 (table s) cl (init_change_point nr (change_point s)) (overlap_list s) (new_entries s) (e820_log s))
    cl chg Hchg Htake Hcl' ltac:(cbn; lia) Hid) as (cp & Hr & Hcp' & Hperm & Hord).
  rewrite (bind_done _ _ _ _ _ Hr). cbv zeta in *. set (cms := _ <$> seqZ 0 chg) in *.
  pose proof (sweep_sanitizes es nr Hn Hl Hok cms Hperm Hord (overlap_list s) (new_entries s) Hol Hne) as Hsw.
  cbv zeta in Hsw. set (st := sweep es cms _) in *. destruct Hsw as (Hln & Hn' & Hsan).
  assert (length (sw_overlap st) = 128%nat) as Hlo by (unfold st; by rewrite sweep_overlap_length).
  destruct (copy_entries_take (sw_new_nr st) (sw_new st) es) as [Hcopy Htk]; [done..|].
  eexists. split; [reflexivity|].
  assert (used (mk_table (sw_new_nr st) (copy_entries (sw_new_nr st) (sw_new st) es)) =
    take (Z.to_nat (sw_new_nr st)) (sw_new st)) as Hu by exact Htk.
  split; [split; cbn [table change_point_list change_point overlap_list new_entries nr_entries entries]; try done|].
  { rewrite Hu. by eapply sanitized_fits. }
  split; [done|]. cbn [table nr_entries]. rewrite Hu. split; [done|].
  pose proof (sweep_nr es cms (mk_sweep (overlap_list s) 0 (new_entries s) 0 0 0)) as Hb. fold st in Hb. cbn in Hb.
  unfold cms in Hb. rewrite length_fmap, length_seqZ in Hb. lia.
Qed.

(** C14: [__e820_update_table] refuses a table with fewer than two entries or with a region
    that wraps around, and changes nothing then.  It replaces any other table by one
    whose regions are non-empty, disjoint and in ascending order, and which gives every
    address the highest type of the entries that covered it; only a table filled to
    [E820_MAX_ENTRIES] may lack a region above its last one. *)
Theorem update_table_sanitizes s :
  e820_ok s →
  (nr_entries (table s) < 2 ∨ (∃ e, e ∈ used (table s) ∧ wraps e) → __e820_update_table s = Done (-1) s) ∧
  (2 ≤ nr_entries (table s) → (∀ e, e ∈ used (table s) → ¬ wraps e) →
   ∃ s', __e820_update_table s = Done 0 s' ∧ e820_ok s' ∧ e820_log s' = e820_log s ∧
     sanitized (used (table s)) (used (table s'))).
Proof.
  intros Hs. split.
  2: { intros Hn Hw. destruct (update_table_runs s Hs Hn Hw) as (s' & ? & ? & ? & ? & _). by exists s'. }
  pose proof (ok_nr _ Hs) as Hn.
  unfold __e820_update_table. rewrite (bind_done _ _ s (table s) s) by done. cbv zeta. intros Hbad.
  destruct (Z.ltb_spec (nr_entries (table s)) 2) as [|Hge]; [done|].
  rewrite (bind_done _ _ s tt s)
    by (unfold BUG_ON, E820_MAX_ENTRIES; destruct (Z.ltb_spec 128 (nr_entries (table s))); [lia|done]).
  destruct Hbad as [?|Hbad]; [lia|]. by rewrite (proj2 (existsb_wraps s Hs) Hbad).
Qed.
