(* ===== verification/E820Update.v ===== *)
(** The queries and the range update of [kernel/e820.c] on sanitized tables. *)

From S2P Require Import Prelude Mem Sort Machine E820 E820Map.
#[local] Open Scope Z_scope.
#[local] Open Scope cint_scope.

(** ** Queries *)

Lemma entry_at_used t : 0 ≤ nr_entries t ≤ Z.of_nat (length (entries t)) →
  entry_at (entries t) <$> seqZ 0 (nr_entries t) = used t.
Proof. apply fmap_total_take. Qed.

(** [type && entry->type != type], negated. *)
Definition type_matches (type : Z) (e : e820_entry) : Prop := type = 0 ∨ e_type e = type.

Lemma regions_cons e l b :
  regions (e :: l) b → regions l b ∧ ∀ f, f ∈ l → e_addr e + e_size e ≤ e_addr f.
Proof.
  intros [Ho Hb]. split; [split|].
  - intros i j f g Hij Hf Hg. apply (Ho (S i) (S j) f g); [lia|done..].
  - intros f Hf. apply Hb. by right.
  - intros f [j Hj]%list_elem_of_lookup. apply (Ho 0%nat (S j) e f); [lia|done..].
Qed.

Lemma mapped_loop_spec es ks end_ type b start :
  regions (entry_at es <$> ks) b → b < 2 ^ 64 → start < end_ →
  mapped_loop es end_ type ks start = true ↔
  ∀ x, start ≤ x < end_ → ∃ e, e ∈ entry_at es <$> ks ∧ type_matches type e ∧ covers e x = true.
Proof.
  intros Hr Hb64. revert start. induction ks as [|k ks IH]; intros start Hlt.
  { split; [done|]. intros H. destruct (H start ltac:(lia)) as (e & He%not_elem_of_nil & _). done. }
  cbn [mapped_loop]. rewrite fmap_cons in Hr |- *. apply regions_cons in Hr as Hr'. destruct Hr' as [Hr' Hnext].
  pose proof (regions_below _ _ Hr (entry_at es k) ltac:(by left)) as (Ha & Hs & Hend & Ht).
  assert (e_end (entry_at es k) = e_addr (entry_at es k) + e_size (entry_at es k)) as Hee.
  { apply wrap_small. lia. }
  unfold mapped_step. set (e := entry_at es k) in *. rewrite Hee.
  (* an entry that covers no address of the range plays no role *)
  assert (∀ s : Z, (∀ x, s ≤ x < end_ → type_matches type e → covers e x = false) → s < end_ →
    mapped_loop es end_ type ks s = true ↔
    ∀ x, s ≤ x < end_ → ∃ f, f ∈ e :: (entry_at es <$> ks) ∧ type_matches type f ∧ covers f x = true) as Hskip.
  { intros s Hno Hse. rewrite IH by done. split; intros H x Hx; destruct (H x Hx) as (f & Hf & Hm & Hc).
    - exists f. split; [by right|done].
    - apply elem_of_cons in Hf as [-> |Hf]; [|by exists f]. by rewrite Hno in Hc. }
  destruct (truthy type && negb (e_type e =? type)) eqn:Htype.
  { apply Hskip; [|done]. intros x Hx [-> |Hm]; [done|]. rewrite Hm, Z.eqb_refl, andb_false_r in Htype. done. }
  assert (type_matches type e) as Hm.
  { unfold type_matches, truthy in *. destruct (Z.eqb_spec type 0); [by left|].
    destruct (Z.eqb_spec (e_type e) type); [by right|done]. }
  destruct ((end_ <=? e_addr e) || (e_addr e + e_size e <=? start)) eqn:Hout.
  { apply Hskip; [|done]. intros x Hx _. apply covers_false.
    apply orb_prop in Hout as [?%Z.leb_le|?%Z.leb_le]; lia. }
  apply orb_false_elim in Hout as [Ho1%Z.leb_gt Ho2%Z.leb_gt].
  destruct (Z.leb_spec (e_addr e) start).
  - destruct (Z.leb_spec end_ (e_addr e + e_size e)).
    + split; [|done]. intros _ x Hx. exists e. split_and!; [by left|done|]. apply covers_spec. lia.
    + rewrite Hskip; [|intros x Hx _; apply covers_false; lia|lia]. split; intros Hall x Hx; [|apply Hall; lia].
      destruct (decide (x < e_addr e + e_size e)); [|apply Hall; lia].
      exists e. split_and!; [by left|done|]. apply covers_spec. lia.
  - destruct (Z.leb_spec end_ start); [lia|]. rewrite IH by done.
    (* both sides fail at [start] *)
    split; intros Hall; destruct (Hall start ltac:(lia)) as (f & Hf & _ & Hc%covers_spec).
    + apply Hnext in Hf. lia.
    + apply elem_of_cons in Hf as [-> |Hf]; [|apply Hnext in Hf]; lia.
Qed.

Lemma mapped_all_spec t start end_ type :
  0 ≤ nr_entries t ≤ Z.of_nat (length (entries t)) → regions (used t) (2 ^ 64 - 1) → start < end_ →
  e820_mapped_all t start end_ type = true ↔
  ∀ x, start ≤ x < end_ → if type =? 0 then map_type (used t) x ≠ 0 else map_type (used t) x = type.
Proof.
  intros Hn Hr Hlt. unfold e820_mapped_all.
  rewrite (mapped_loop_spec _ _ _ _ (2 ^ 64 - 1)) by (rewrite ?entry_at_used by done; done || lia).
  rewrite entry_at_used by done.
  assert (∀ x, (∃ e, e ∈ used t ∧ type_matches type e ∧ covers e x = true) ↔
    if type =? 0 then map_type (used t) x ≠ 0 else map_type (used t) x = type) as Hx; [|by setoid_rewrite Hx].
  intros x. split.
  - intros (e & He & Hm & Hc). rewrite (regions_type _ _ e x Hr He Hc).
    pose proof (regions_below _ _ Hr e He). destruct Hm as [Hm|Hm]; subst type; [cbn; lia|]. case_match; lia.
  - intros H. destruct (map_type_covered (used t) x) as (e & He & Hc & Ht).
    { destruct (Z.eqb_spec type 0); [done|congruence]. }
    exists e. split_and!; [done| |done]. unfold type_matches.
    destruct (Z.eqb_spec type 0); [by left|right; congruence].
Qed.

(** C35: on a sanitized table [e820_mapped_all] answers whether every address of a
    non-empty range has the type asked for, or any type when that is 0. *)
Theorem mapped_all_correct t start end_ type :
  0 ≤ nr_entries t ≤ Z.of_nat (length (entries t)) → regions (used t) (2 ^ 64 - 1) → start < end_ →
  e820_mapped_all t start end_ type = true ↔
  ∀ x, start ≤ x < end_ → if type =? 0 then map_type (used t) x ≠ 0 else map_type (used t) x = type.
Proof.
  apply mapped_all_spec.
Qed.

(** ** Changing the type of a range *)

(** [s] is [s0] with the entries [l] in the table. *)
Definition table_holds (s0 : e820_state) (l : list e820_entry) (s : e820_state) : Prop :=
  ∃ t, s = set_table t s0 ∧ nr_entries t = Z.of_nat (length l) ∧ length (entries t) = 128%nat ∧ used t = l.

Lemma table_holds_self s : e820_ok s → table_holds s (used (table s)) s.
Proof.
  intros Hs. pose proof (ok_nr _ Hs). pose proof (ok_length _ Hs). exists (table s). split_and!; [by destruct s| |done..].
  unfold used. rewrite length_take. lia.
Qed.

Lemma table_holds_at s0 l s i : table_holds s0 l s → (i < length l)%nat →
  entry_at (entries (table s)) (Z.of_nat i) = l !!! i.
Proof.
  intros (t & -> & Hn & Hl & <-) Hi. unfold entry_at. cbn. rewrite Nat2Z.id. unfold used in *.
  rewrite length_take in Hi. by rewrite lookup_total_take_lt by lia.
Qed.

Lemma range_add_ok s0 l s start size type :
  table_holds s0 l s → (length l < 128)%nat →
  ∃ s', __e820_range_add start size type s = Done tt s' ∧ table_holds s0 (l ++ [mk_entry start size type]) s'.
Proof.
  intros (t & -> & Hn & Hl & Hu) Hroom. unfold __e820_range_add.
  rewrite (bind_done _ _ _ t (set_table t s0)) by done. cbv zeta. unfold E820_MAX_ENTRIES.
  destruct (Z.leb_spec 128 (nr_entries t)); [lia|]. eexists. split; [reflexivity|].
  exists (mk_table (nr_entries t + 1) (aset (entries t) (nr_entries t) (mk_entry start size type))).
  split; [done|]. cbn. rewrite aset_length, length_app. cbn. split_and!; [lia|done|].
  unfold used in *. cbn. by rewrite take_aset_S, Hu by lia.
Qed.

Lemma set_entry_ok s0 l s (i : nat) e :
  table_holds s0 l s → (i < length l)%nat →
  ∃ s', set_entry (Z.of_nat i) e s = Done tt s' ∧ table_holds s0 (<[i := e]> l) s'.
Proof.
  intros (t & -> & Hn & Hl & Hu) Hi. eexists. split; [reflexivity|].
  eexists (mk_table _ _). split; [reflexivity|]. cbn. rewrite length_insert, aset_length. split_and!; [done..|].
  unfold used, aset in *. cbn. destruct (Z.ltb_spec (Z.of_nat i) 0); [lia|].
  by rewrite Nat2Z.id, take_insert_lt, Hu by lia.
Qed.

(** The length of a table after some stores. *)
Ltac lengths := rewrite ?length_app, ?length_insert; cbn [length]; lia.

Section range.
Context (start size old_type new_type : Z).
#[local] Notation end_ := (start + size).

(** What becomes of one entry: the entry it is turned into and the entries added. *)
Definition update_piece (e : e820_entry) : e820_entry * list e820_entry :=
  if negb (e_type e =? old_type) then (e, [])
  else if (start <=? e_addr e) && (e_addr e + e_size e <=? end_) then
    (mk_entry (e_addr e) (e_size e) new_type, [])
  else if (e_addr e <? start) && (end_ <? e_addr e + e_size e) then
    (mk_entry (e_addr e) (start - e_addr e) old_type,
     [mk_entry start size new_type; mk_entry end_ (e_addr e + e_size e - end_) old_type])
  else
    let lo := Z.max start (e_addr e) in
    let hi := Z.min end_ (e_addr e + e_size e) in
    if hi <=? lo then (e, [])
    else (mk_entry (if e_addr e <? lo then e_addr e else hi) (e_size e - (hi - lo)) old_type,
          [mk_entry lo (hi - lo) new_type]).

(** How much of the entry the range covers. *)
Definition update_size (e : e820_entry) : Z :=
  if e_type e =? old_type then
    Z.max 0 (Z.min end_ (e_addr e + e_size e) - Z.max start (e_addr e))
  else 0.

Context (Hstart : 0 ≤ start) (Hsize : 0 ≤ size) (Hend : end_ < 2 ^ 64) (Hne : old_type ≠ new_type).
Context (Htype : 0 ≤ old_type < 2 ^ 32) (Htype' : 0 ≤ new_type < 2 ^ 32).

Lemma update_entry_ok s0 l s (i : nat) e :
  table_holds s0 l s → l !! i = Some e → entry_ok e →
  (length l + length (update_piece e).2 ≤ 128)%nat →
  ∃ s', range_update_entry start size end_ old_type new_type (Z.of_nat i) s = Done (update_size e) s' ∧
    table_holds s0 (<[i := (update_piece e).1]> l ++ (update_piece e).2) s'.
Proof.
  intros Hs Hi Hok Hroom. pose proof (lookup_lt_Some _ _ _ Hi) as Hlt.
  unfold range_update_entry. rewrite (bind_done _ _ s e s).
  2: { unfold gets. do 2 f_equal. rewrite (table_holds_at s0 l) by done. by apply list_lookup_total_correct. }
  rewrite e_end_ok by done. destruct Hok. unfold update_piece, update_size in *.
  destruct (Z.eqb_spec (e_type e) old_type) as [Ht|]; cbn [negb fst snd] in *.
  2: { eexists. split; [reflexivity|]. rewrite app_nil_r. by rewrite list_insert_id. }
  destruct ((start <=? e_addr e) && (e_addr e + e_size e <=? end_)) eqn:Hin; cbn [fst snd] in *.
  { apply andb_prop in Hin as [?%Z.leb_le ?%Z.leb_le].
    destruct (set_entry_ok s0 l s i (mk_entry (e_addr e) (e_size e) new_type)) as (s1 & H1 & Hs1); [done..|].
    rewrite (bind_done _ _ _ _ _ H1). eexists. rewrite app_nil_r. split; [|exact Hs1]. unfold mret, M_ret. f_equal. lia. }
  destruct ((e_addr e <? start) && (end_ <? e_addr e + e_size e)) eqn:Hout; cbn [fst snd] in *.
  { apply andb_prop in Hout as [?%Z.ltb_lt ?%Z.ltb_lt]. cbn [length] in Hroom.
    rewrite !wrap_small by lia.
    destruct (range_add_ok s0 l s start size new_type) as (s1 & H1 & Hs1); [done|lia|].
    rewrite (bind_done _ _ _ _ _ H1).
    destruct (range_add_ok _ _ _ end_ (e_addr e + e_size e - end_) (e_type e) Hs1 ltac:(lengths))
      as (s2 & H2 & Hs2). rewrite (bind_done _ _ _ _ _ H2).
    destruct (set_entry_ok _ _ _ i (mk_entry (e_addr e) (start - e_addr e) (e_type e)) Hs2 ltac:(lengths))
      as (s3 & H3 & Hs3).
    rewrite (bind_done _ _ _ _ _ H3). eexists. split; [unfold mret, M_ret; f_equal; lia|].
    rewrite !insert_app_l, <- app_assoc in Hs3 by (rewrite ?length_app; lia). rewrite Ht in *. exact Hs3. }
  cbv zeta. set (lo := Z.max start (e_addr e)) in *. set (hi := Z.min end_ (e_addr e + e_size e)) in *.
  destruct (Z.leb_spec hi lo); cbn [fst snd] in *.
  { eexists. split; [unfold mret, M_ret; f_equal; lia|]. by rewrite app_nil_r, list_insert_id. }
  cbn [length] in Hroom. rewrite !(wrap_small 64 (hi - lo)) by lia. rewrite (wrap_small 64) by lia.
  destruct (range_add_ok s0 l s lo (hi - lo) new_type) as (s1 & H1 & Hs1); [done|lia|].
  rewrite (bind_done _ _ _ _ _ H1).
  set (rest := e_size e - (hi - lo)) in *.
  destruct (set_entry_ok _ _ _ i (mk_entry (e_addr e) rest (e_type e)) Hs1 ltac:(lengths)) as (s2 & H2 & Hs2).
  rewrite (bind_done _ _ _ _ _ H2). rewrite insert_app_l in Hs2 by lia.
  destruct (Z.ltb_spec (e_addr e) lo); cbn [negb].
  - rewrite (bind_done _ _ s2 tt s2) by done. eexists. split; [unfold mret, M_ret; f_equal; lia|]. rewrite Ht in *. exact Hs2.
  - destruct (set_entry_ok _ _ _ i (mk_entry hi rest (e_type e)) Hs2 ltac:(lengths)) as (s3 & H3 & Hs3).
    rewrite (bind_done _ _ _ _ _ H3). eexists. split; [unfold mret, M_ret; f_equal; lia|].
    rewrite insert_app_l, list_insert_insert_eq in Hs3 by (rewrite length_insert; lia). rewrite Ht in *. exact Hs3.
Qed.

(** An added entry is left alone when the loop comes to it. *)
Lemma update_piece_added e f :
  entry_ok e → f ∈ (update_piece e).2 → entry_ok f ∧ update_piece f = (f, []) ∧ update_size f = 0.
Proof.
  intros [] Hf. unfold update_piece in Hf.
  assert (∀ a n, 0 ≤ a → 0 ≤ n → a + n < 2 ^ 64 →
    entry_ok (mk_entry a n new_type) ∧ update_piece (mk_entry a n new_type) = (mk_entry a n new_type, []) ∧
    update_size (mk_entry a n new_type) = 0) as Hnew.
  { intros a n ???. split; [by split|]. unfold update_piece, update_size. cbn. by rewrite (proj2 (Z.eqb_neq _ _)). }
  destruct (Z.eqb_spec (e_type e) old_type) as [Ht|]; cbn [negb snd] in Hf; [|by apply not_elem_of_nil in Hf].
  destruct (_ && _) eqn:Hin in Hf; [by apply not_elem_of_nil in Hf|].
  destruct (_ && _) eqn:Hout in Hf; cbn [snd] in Hf.
  - apply andb_prop in Hout as [?%Z.ltb_lt ?%Z.ltb_lt].
    apply elem_of_cons in Hf as [-> |Hf%list_elem_of_singleton]; [apply Hnew; lia|]. subst f.
    split; [split; cbn; lia|]. unfold update_piece, update_size. cbn. rewrite Z.eqb_refl. cbn [negb].
    replace (end_ + (e_addr e + e_size e - end_)) with (e_addr e + e_size e) by lia.
    destruct (Z.leb_spec (e_addr e + e_size e) end_); [lia|]. rewrite andb_false_r.
    destruct (Z.ltb_spec end_ start); [lia|]. cbn [andb].
    destruct (Z.leb_spec (Z.min end_ (e_addr e + e_size e)) (Z.max start end_)); [|lia]. split; [done|lia].
  - cbv zeta in Hf. destruct (Z.leb_spec (Z.min end_ (e_addr e + e_size e)) (Z.max start (e_addr e)));
      cbn [snd] in Hf; [by apply not_elem_of_nil in Hf|].
    apply list_elem_of_singleton in Hf as ->. apply Hnew; lia.
Qed.

(** What becomes of the whole table. *)
Definition updated (l : list e820_entry) : list e820_entry :=
  ((λ e, (update_piece e).1) <$> l) ++ (l ≫= λ e, (update_piece e).2).

Definition total_size (l : list e820_entry) : Z := foldr (λ e n, update_size e + n) 0 l.

Lemma total_size_app l k : total_size (l ++ k) = total_size l + total_size k.
Proof. unfold total_size. induction l as [|e l IH]; [done|]. cbn. rewrite IH. lia. Qed.

(** The table when the loop has come to entry [k] of the [l] it started from. *)
Definition half_updated (l : list e820_entry) (k : nat) : list e820_entry :=
  ((λ e, (update_piece e).1) <$> take k l) ++ drop k l ++ (take k l ≫= λ e, (update_piece e).2).

Definition updating (s0 : e820_state) (l : list e820_entry) (a : Z * Z) (s : e820_state) : Prop :=
  ∃ k : nat, a.1 = Z.of_nat k ∧ a.2 = u64 (total_size (take k l)) ∧ (k ≤ 128)%nat ∧
    table_holds s0 (if decide (k < length l)%nat then half_updated l k else updated l) s.

Lemma half_updated_all l k : (length l ≤ k)%nat → half_updated l k = updated l.
Proof. intros. unfold half_updated, updated. by rewrite take_ge, drop_ge by done. Qed.

Lemma half_updated_lookup l k e : l !! k = Some e → half_updated l k !! k = Some e.
Proof.
  intros He. pose proof (lookup_lt_Some _ _ _ He). unfold half_updated.
  rewrite lookup_app_r by (rewrite length_fmap, length_take; lia).
  rewrite length_fmap, length_take, (Nat.min_l _ _), Nat.sub_diag by lia.
  rewrite lookup_app_l by (rewrite length_drop; lia). by rewrite lookup_drop, Nat.add_0_r.
Qed.

Lemma half_updated_step l k e :
  l !! k = Some e →
  <[k := (update_piece e).1]> (half_updated l k) ++ (update_piece e).2 = half_updated l (S k).
Proof.
  intros He. pose proof (lookup_lt_Some _ _ _ He). unfold half_updated.
  rewrite (drop_S _ _ _ He), (take_S_r _ _ _ He), fmap_app, bind_app.
  rewrite insert_app_r_alt by (rewrite length_fmap, length_take; lia).
  rewrite length_fmap, length_take, Nat.min_l, Nat.sub_diag by lia.
  assert ([e] ≫= (λ e, (update_piece e).2) = (update_piece e).2) as -> by (simpl; by rewrite app_nil_r).
  rewrite <- !app_assoc. simpl. rewrite <- ?app_assoc. done.
Qed.

Lemma half_updated_length l k : (length (half_updated l k) ≤ length (updated l))%nat.
Proof.
  unfold half_updated, updated. rewrite !length_app, !length_fmap, length_take, length_drop.
  rewrite <- (take_drop k l) at 5. rewrite bind_app, length_app. lia.
Qed.

Lemma updated_length l : (length l ≤ length (updated l))%nat.
Proof. unfold updated. rewrite length_app, length_fmap. lia. Qed.

Lemma update_step_ok s0 l a s :
  Forall entry_ok l → (length (updated l) ≤ 128)%nat → updating s0 l a s →
  loop_step_ok (updating s0 l) (λ r s, r = u64 (total_size l) ∧ table_holds s0 (updated l) s)
    (λ a _, 256 - a.1) a s (range_update_step start size end_ old_type new_type a s).
Proof.
  intros Hok Hroom (k & Hk & Hreal & Hk128 & Hs). destruct a as [i real]. cbn [fst snd] in *. subst i real.
  unfold loop_step_ok, range_update_step.
  pose proof Hs as (t & Hst & Hn & _).
  rewrite (bind_done _ _ s (nr_entries t) s) by (by subst s). clear Hst.
  destruct (decide (k < length l)%nat) as [Hlt|Hge] in Hs, Hn.
  - destruct (lookup_lt_is_Some_2 l k Hlt) as [e He].
    destruct (Z.ltb_spec (Z.of_nat k) (nr_entries t)).
    2: { pose proof (half_updated_lookup l k e He) as Hx%lookup_lt_Some. lia. }
    pose proof (half_updated_step l k e He) as Hstep. pose proof (half_updated_length l (S k)).
    destruct (update_entry_ok s0 (half_updated l k) s k e) as (s' & Hr & Hs').
    { done. } { by apply half_updated_lookup. } { by eapply (proj1 (Forall_lookup _ _) Hok k). }
    { apply (f_equal length) in Hstep. rewrite length_app, length_insert in Hstep. lia. }
    rewrite Hstep in Hs'. rewrite (bind_done _ _ _ _ _ Hr). unfold mret, M_ret. cbn [fst].
    pose proof (updated_length l). rewrite (wrap_small 32) by lia. split; [|lia]. exists (S k). cbn [fst snd]. split_and!; [lia| |lia|].
    + rewrite (take_S_r _ _ _ He), total_size_app. cbn. rewrite wrap_add_l. f_equal. lia.
    + case_decide; [done|]. by rewrite half_updated_all in Hs' by lia.
  - destruct (Z.ltb_spec (Z.of_nat k) (nr_entries t)) as [Hin|Hout].
    2: { unfold mret, M_ret. rewrite take_ge by lia. by split. }
    destruct (lookup_lt_is_Some_2 (updated l) k) as [f Hf]; [lia|].
    assert (f ∈ (l ≫= λ e, (update_piece e).2)) as Hadd.
    { unfold updated in Hf. rewrite lookup_app_r in Hf by (rewrite length_fmap; lia). by eapply list_elem_of_lookup_2. }
    apply list_elem_of_bind in Hadd as (e & Hadd & He). rewrite Forall_forall in Hok.
    destruct (update_piece_added e f (Hok e He) Hadd) as (Hokf & Hpf & Hsf).
    destruct (update_entry_ok s0 (updated l) s k f) as (s' & Hr & Hs'); [done|done|done|rewrite Hpf; cbn; lia|].
    rewrite Hpf in Hs'. cbn [fst snd] in Hs'. rewrite app_nil_r, list_insert_id in Hs' by done.
    rewrite (bind_done _ _ _ _ _ Hr), Hsf, Z.add_0_r. unfold mret, M_ret. cbn [fst].
    rewrite (wrap_small 32) by lia. split; [|lia]. exists (S k). cbn [fst snd].
    rewrite wrap_wrap by done. rewrite !take_ge by lia. split_and!; [lia|done|lia|].
    by rewrite decide_False by lia.
Qed.

Lemma update_loop_ok s l :
  table_holds s l s → Forall entry_ok l → (length (updated l) ≤ 128)%nat →
  ∃ s', loop (range_update_step start size end_ old_type new_type) (0, 0) s = Done (u64 (total_size l)) s' ∧
    table_holds s (updated l) s'.
Proof.
  intros Hs Hok Hroom.
  destruct (loop_total (range_update_step start size end_ old_type new_type) (updating s l)
    (λ r s', r = u64 (total_size l) ∧ table_holds s (updated l) s') (λ a _, 256 - a.1))
    with (a := (0, 0)) (s := s) as (r & s' & Hr & -> & Hs'); [|..|by exists s'].
  - intros a s1. by apply update_step_ok.
  - exists 0%nat. cbn. split_and!; [done..|lia|]. case_decide.
    + unfold half_updated. cbn. by rewrite app_nil_r.
    + destruct l; [done|]. cbn in *. lia.
  - cbn. lia.
Qed.
End range.

(** ** The update on the map *)

(** How many entries cover [x]; a disjoint map has one at most. *)
Definition cover_count (l : list e820_entry) (x : Z) : nat :=
  foldr (λ e n, ((if covers e x then 1 else 0) + n)%nat) 0%nat l.
Definition disjoint_map (l : list e820_entry) : Prop := ∀ x, (cover_count l x ≤ 1)%nat.

Lemma cover_count_app l k x : cover_count (l ++ k) x = (cover_count l x + cover_count k x)%nat.
Proof. unfold cover_count. induction l as [|e l IH]; [done|]. cbn. rewrite IH. lia. Qed.

Lemma cover_count_0 l x : cover_count l x = 0%nat ↔ ∀ e, e ∈ l → covers e x = false.
Proof.
  unfold cover_count. induction l as [|e l IH]; cbn.
  - split; [|done]. by intros _ e ?%not_elem_of_nil.
  - destruct (covers e x) eqn:He.
    + split; [lia|]. intros H. rewrite H in He; [done|by left].
    + cbn. rewrite IH. split; intros H f; [intros [->|?]%elem_of_cons; auto|]. intros Hf. apply H. by right.
Qed.

Lemma regions_disjoint l b : regions l b → disjoint_map l.
Proof.
  intros Hr x. induction l as [|e l IH]; [cbn; lia|].
  apply regions_cons in Hr as Hr'. destruct Hr' as [Hr' Hnext].
  specialize (IH Hr'). unfold cover_count in *. cbn. destruct (covers e x) eqn:He; [|cbn; done].
  fold (cover_count l x). rewrite (proj2 (cover_count_0 l x)); [lia|].
  intros f Hf%Hnext. apply covers_spec in He. apply covers_false. lia.
Qed.

Lemma disjoint_cons e l : disjoint_map (e :: l) → disjoint_map l.
Proof. intros H x. specialize (H x). unfold cover_count in *. cbn in H. lia. Qed.

Lemma disjoint_type l e x :
  disjoint_map l → (∀ f, f ∈ l → 0 ≤ e_type f) → e ∈ l → covers e x = true → map_type l x = e_type e.
Proof.
  intros Hd Ht He Hc. induction He as [e l|e f l He IH]; cbn [map_type foldr]; fold (map_type l x).
  - rewrite Hc. rewrite (map_type_none l x); [pose proof (Ht e ltac:(by left)); lia|].
    apply cover_count_0. specialize (Hd x). unfold cover_count in *. cbn in Hd. rewrite Hc in Hd. lia.
  - rewrite IH; [|by eapply disjoint_cons|intros g Hg; apply Ht; by right|done].
    destruct (covers f x) eqn:Hf; [|done]. exfalso. specialize (Hd x). unfold cover_count in Hd. cbn in Hd.
    rewrite Hf in Hd. fold (cover_count l x) in Hd.
    assert (cover_count l x = 0)%nat as H0 by lia. rewrite cover_count_0 in H0. by rewrite H0 in Hc.
Qed.

(** Decides which of the pieces of an entry cover an address. *)
Ltac count_cases :=
  unfold cover_count; cbn [foldr length];
  repeat match goal with
  | |- context [covers ?e ?x] =>
      let H := fresh in destruct (covers e x) eqn:H;
      [apply covers_spec in H|apply covers_false in H]; cbn [e_addr e_size e_type] in H
  end; lia.

Ltac cover_cases :=
  split; [count_cases|];
  let f := fresh in let Hf := fresh in let Hc := fresh in
  intros f Hf Hc%covers_spec;
  repeat (apply elem_of_cons in Hf as [-> |Hf]); try (by apply not_elem_of_nil in Hf);
  cbn [e_addr e_size e_type] in *;
  repeat match goal with
  | |- context [?a <=? ?b] => destruct (Z.leb_spec a b)
  | |- context [?a <? ?b] => destruct (Z.ltb_spec a b)
  end; cbn [andb]; (done || lia).

Section map.
Context (start size old_type new_type : Z).
#[local] Notation end_ := (start + size).
#[local] Notation piece := (update_piece start size old_type new_type).
#[local] Notation new_map := (updated start size old_type new_type).
Context (Hstart : 0 ≤ start) (Hsize : 0 ≤ size) (Hend : end_ < 2 ^ 64).
Context (Hne : old_type ≠ new_type).

(** The type the update gives to an address of type [t]. *)
Definition retyped (x t : Z) : Z :=
  if (start <=? x) && (x <? end_) && (t =? old_type) then new_type else t.

(** The pieces of an entry cover the same addresses, each once, with the new types. *)
Lemma piece_covers e x :
  entry_ok e →
  let '(e', added) := piece e in
  cover_count (e' :: added) x = cover_count [e] x ∧
  ∀ f, f ∈ e' :: added → covers f x = true → e_type f = retyped x (e_type e).
Proof.
  intros []. unfold update_piece, retyped.
  destruct (Z.eqb_spec (e_type e) old_type) as [Ht|Ht]; cbn [negb].
  2: { split; [done|]. intros f ->%list_elem_of_singleton _. by rewrite andb_false_r. }
  destruct ((start <=? e_addr e) && (e_addr e + e_size e <=? end_)) eqn:Hin.
  { apply andb_prop in Hin as [?%Z.leb_le ?%Z.leb_le]. cover_cases. }
  destruct ((e_addr e <? start) && (end_ <? e_addr e + e_size e)) eqn:Hout.
  { apply andb_prop in Hout as [?%Z.ltb_lt ?%Z.ltb_lt]. cover_cases. }
  apply andb_false_iff in Hin. rewrite !Z.leb_gt in Hin. apply andb_false_iff in Hout. rewrite !Z.ltb_ge in Hout.
  cbv zeta. destruct (Z.leb_spec (Z.min end_ (e_addr e + e_size e)) (Z.max start (e_addr e))); [cover_cases|].
  destruct (Z.ltb_spec (e_addr e) (Z.max start (e_addr e))); cover_cases.
Qed.

(** The number of entries added: one for each end of the range that cuts the entry. *)
Lemma piece_added e :
  entry_ok e → (length (piece e).2 ≤ cover_count [e] start + cover_count [e] end_)%nat.
Proof.
  intros []. unfold update_piece. destruct (negb _); [cbn; lia|].
  destruct ((start <=? e_addr e) && (e_addr e + e_size e <=? end_)) eqn:Hin; [cbn; lia|].
  apply andb_false_iff in Hin. rewrite !Z.leb_gt in Hin.
  destruct ((e_addr e <? start) && (end_ <? e_addr e + e_size e)) eqn:Hout.
  { apply andb_prop in Hout as [?%Z.ltb_lt ?%Z.ltb_lt]. cbn [snd]. count_cases. }
  cbv zeta. destruct (Z.leb_spec (Z.min end_ (e_addr e + e_size e)) (Z.max start (e_addr e))); cbn [snd]; count_cases.
Qed.

Lemma new_map_count l x :
  Forall entry_ok l → cover_count (new_map l) x = cover_count l x.
Proof.
  intros Hok. unfold updated. rewrite cover_count_app. induction Hok as [|e l He Hl IH]; [done|].
  pose proof (piece_covers e x He) as Hp. rewrite fmap_cons, bind_cons. destruct (piece e) as [e' added] eqn:Hpe.
  cbn [fst snd] in *. destruct Hp as [Hp _].
  change (e' :: ?k) with ([e'] ++ k) in Hp |- *. change (e :: l) with ([e] ++ l).
  rewrite !cover_count_app in *. lia.
Qed.

Lemma new_map_length l :
  Forall entry_ok l → (length (new_map l) ≤ length l + cover_count l start + cover_count l end_)%nat.
Proof.
  intros Hok. unfold updated. rewrite length_app, length_fmap. induction Hok as [|e l He Hl IH]; [cbn; lia|].
  pose proof (piece_added e He). rewrite bind_cons, length_app. change (e :: l) with ([e] ++ l).
  rewrite length_app, !cover_count_app. cbn [length]. lia.
Qed.

Lemma new_map_elem f l :
  f ∈ new_map l ↔ ∃ e, e ∈ l ∧ f ∈ (piece e).1 :: (piece e).2.
Proof.
  unfold updated. rewrite elem_of_app, list_elem_of_fmap, list_elem_of_bind.
  setoid_rewrite elem_of_cons. naive_solver.
Qed.

Lemma new_map_type l x :
  Forall entry_ok l → 0 < old_type → 0 ≤ new_type → disjoint_map l →
  map_type (new_map l) x = retyped x (map_type l x).
Proof.
  intros Hok Hold Hnew Hd. pose proof (new_map_count l x Hok) as Hcount.
  assert (∀ f, f ∈ l → 0 ≤ e_type f) as Htypes.
  { intros f Hf. rewrite Forall_forall in Hok. by apply Hok. }
  assert (∀ f, f ∈ new_map l → covers f x = true → ∃ e, e ∈ l ∧ covers e x = true ∧ e_type f = retyped x (e_type e)) as Hback.
  { intros f (e & He & Hf)%new_map_elem Hc. exists e. split; [done|].
    rewrite Forall_forall in Hok. pose proof (piece_covers e x (Hok e He)) as Hp.
    destruct (piece e) as [e' added]. destruct Hp as [Hp Ht]. cbn [fst snd] in Hf. split; [|by apply Ht].
    destruct (covers e x) eqn:Hex; [done|]. exfalso.
    assert (cover_count (e' :: added) x = 0%nat) as H0 by (rewrite Hp; cbn; by rewrite Hex).
    rewrite cover_count_0 in H0. by rewrite H0 in Hc. }
  destruct (map_type_attained (new_map l) x) as [H0|(f & Hf & Hc & Hft)].
  - (* nothing of the new map covers [x], or an entry of type 0 *)
    destruct (decide (cover_count l x = 0%nat)) as [Hz|Hz].
    + rewrite cover_count_0 in Hz. rewrite (map_type_none l x) by done. rewrite H0. unfold retyped.
      rewrite (proj2 (Z.eqb_neq 0 old_type)) by lia. by rewrite andb_false_r.
    + rewrite <- Hcount in Hz.
      assert (∃ f, f ∈ new_map l ∧ covers f x = true) as (f & Hf & Hc).
      { clear -Hz. induction (new_map l) as [|f k IH]; [done|]. unfold cover_count in Hz. cbn in Hz.
        destruct (covers f x) eqn:Hf; [exists f; split; [by left|done]|].
        destruct IH as (g & Hg & Hc); [done|]. exists g. split; [by right|done]. }
      destruct (Hback f Hf Hc) as (e & He & Hce & Ht).
      rewrite (disjoint_type l e x) by done. rewrite <- Ht.
      pose proof (map_type_ge _ _ _ Hf Hc). rewrite H0 in *.
      assert (0 ≤ e_type f); [|lia]. rewrite Ht. unfold retyped. pose proof (Htypes e He). by case_match.
  - destruct (Hback f Hf Hc) as (e & He & Hce & Ht). rewrite (disjoint_type l e x) by done. congruence.
Qed.

Lemma new_map_ok l : 0 ≤ old_type < 2 ^ 32 → 0 ≤ new_type < 2 ^ 32 →
  Forall entry_ok l → Forall entry_ok (new_map l).
Proof.
  intros Ho Hn Hok. apply Forall_forall. intros f (e & He & Hf)%new_map_elem.
  rewrite Forall_forall in Hok. specialize (Hok e He). apply elem_of_cons in Hf as [-> |Hf].
  - destruct Hok. unfold update_piece. destruct (negb _); [done|]. repeat case_match; cbn in *; try done; split; cbn; lia.
  - by eapply (update_piece_added start size old_type new_type).
Qed.
End map.

Lemma print_type_ok type s : ∃ l, e820_print_type type s = Done tt (set_e820_log l s).
Proof. unfold e820_print_type. repeat case_match; eexists; reflexivity. Qed.

Lemma set_log_ok l s : e820_ok s → e820_ok (set_e820_log l s).
Proof. intros []. by split. Qed.

Lemma table_holds_ok s0 l s :
  e820_ok s0 → table_holds s0 l s → (length l ≤ 128)%nat → Forall entry_ok l → e820_ok s ∧ used (table s) = l.
Proof.
  intros Hs0 (t & -> & Hn & Hl & Hu) Hlen Hok. cbn. split; [|done]. destruct Hs0. split; cbn; try (done || lia).
  rewrite Hu. eapply Forall_impl; [exact Hok|]. intros e []. split; lia.
Qed.

(** The update of a table with room for it, before what it says about the map. *)
Lemma range_update_runs s start size old_type new_type :
  e820_ok s → Forall entry_ok (used (table s)) → disjoint_map (used (table s)) →
  nr_entries (table s) ≤ 126 → 0 ≤ start < 2 ^ 64 → 0 ≤ size < 2 ^ 64 →
  old_type ≠ new_type → 0 ≤ old_type < 2 ^ 32 → 0 ≤ new_type < 2 ^ 32 →
  let size' := Z.min size (ULLONG_MAX - start) in
  ∃ s', e820_range_update start size old_type new_type s =
      Done (u64 (total_size start size' old_type (used (table s)))) s' ∧ e820_ok s' ∧
    used (table s') = updated start size' old_type new_type (used (table s)).
Proof.
  intros Hs Hok Hd Hroom Hstart Hsize Hne Ho Hn size'. unfold e820_range_update, __e820_range_update.
  rewrite (bind_done _ _ s tt s) by (unfold BUG_ON; by rewrite (proj2 (Z.eqb_neq _ _) Hne)).
  assert ((if ULLONG_MAX - start <? size then ULLONG_MAX - start else size) = size') as ->.
  { unfold size'. destruct (Z.ltb_spec (ULLONG_MAX - start) size); lia. }
  assert (0 ≤ size' ∧ start + size' < 2 ^ 64) as [Hs0 Hend] by (unfold size', ULLONG_MAX; lia).
  cbv zeta. rewrite wrap_small by lia.
  assert (∀ l, ∃ l', (e820_print_type old_type ;; e820_print " ==> " [] ;; e820_print_type new_type ;;
    e820_print "" []) (set_e820_log l s) = Done tt (set_e820_log l' s)) as Hprint.
  { intros l. destruct (print_type_ok old_type (set_e820_log l s)) as [l1 H1]. rewrite (bind_done _ _ _ _ _ H1).
    erewrite bind_done by reflexivity.
    edestruct (print_type_ok new_type) as [l2 H2]. rewrite (bind_done _ _ _ _ _ H2). eexists. reflexivity. }
  erewrite bind_done by reflexivity.
  match goal with |- context [set_e820_log ?l s] => destruct (Hprint l) as [l' Hl'] end.
  assert (∀ (f : M e820_state Z) st, (e820_print_type old_type ;; e820_print " ==> " [] ;; e820_print_type new_type ;;
    e820_print "" [] ;; f) st = ((e820_print_type old_type ;; e820_print " ==> " [] ;; e820_print_type new_type ;;
    e820_print "" []) ;; f) st) as ->.
  { intros f st. unfold mbind, M_bind. by repeat case_match. }
  rewrite (bind_done _ _ _ _ _ Hl').
  pose proof (set_log_ok l' s Hs) as Hsl. set (sl := set_e820_log l' s) in *.
  assert (used (table sl) = used (table s)) as Hu by done.
  assert (length (updated start size' old_type new_type (used (table s))) ≤ 128)%nat as Hlen.
  { assert (length (updated start size' old_type new_type (used (table s))) ≤ length (used (table s)) +
      cover_count (used (table s)) start + cover_count (used (table s)) (start + size'))%nat
      by (apply new_map_length; (done || lia)).
    pose proof (Hd start). pose proof (Hd (start + size')). pose proof (ok_nr _ Hs). pose proof (ok_length _ Hs).
    assert (length (used (table s)) = Z.to_nat (nr_entries (table s))) by (unfold used; rewrite length_take; lia). lia. }
  pose proof (table_holds_self sl Hsl) as Hself.
  edestruct (update_loop_ok start size' old_type new_type) as (s' & Hr & Hs'); try exact Hself; try (done || lia).
  exists s'. split; [done|]. apply (table_holds_ok sl); try done. apply new_map_ok; (done || lia).
Qed.

Lemma range_update_spec s start size old_type new_type :
  e820_ok s → (∀ e, e ∈ used (table s) → ¬ wraps e) → disjoint_map (used (table s)) →
  nr_entries (table s) ≤ 126 → 0 ≤ start < 2 ^ 64 → 0 ≤ size < 2 ^ 64 →
  old_type ≠ new_type → 0 < old_type < 2 ^ 32 → 0 ≤ new_type < 2 ^ 32 →
  let size' := Z.min size (ULLONG_MAX - start) in
  ∃ s', e820_range_update start size old_type new_type s =
      Done (u64 (total_size start size' old_type (used (table s)))) s' ∧
    e820_ok s' ∧ disjoint_map (used (table s')) ∧
    ∀ x, map_type (used (table s')) x =
      if (start <=? x) && (x <? start + size') && (map_type (used (table s)) x =? old_type) then new_type
      else map_type (used (table s)) x.
Proof.
  intros Hs Hw Hd Hroom Hstart Hsize Hne Ho Hn size'.
  assert (Forall entry_ok (used (table s))) as Hok.
  { pose proof (ok_fits _ Hs) as Hf. rewrite !Forall_forall in *. intros e He. apply entry_ok_fits; auto. }
  destruct (range_update_runs s start size old_type new_type) as (s' & Hr & Hs' & Hu); try (done || lia).
  exists s'. split; [done|]. split; [done|]. fold size' in Hu. rewrite Hu.
  assert (0 ≤ size' ∧ start + size' < 2 ^ 64) as [Hs0 Hend] by (unfold size', ULLONG_MAX; lia).
  split; [intros x; rewrite new_map_count; (done || lia || apply Hd)|].
  intros x. apply new_map_type; (done || lia).
Qed.

(** C15: [e820_range_update] on a disjoint map with two free entries: exactly the
    addresses of the range that had the old type get the new one, the range being cut at
    the end of the address space; the map stays disjoint, and the size returned is that
    of the addresses changed. *)
Theorem range_update_correct s start size old_type new_type :
  e820_ok s → (∀ e, e ∈ used (table s) → ¬ wraps e) → disjoint_map (used (table s)) →
  nr_entries (table s) ≤ 126 → 0 ≤ start < 2 ^ 64 → 0 ≤ size < 2 ^ 64 →
  old_type ≠ new_type → 0 < old_type < 2 ^ 32 → 0 ≤ new_type < 2 ^ 32 →
  let size' := Z.min size (ULLONG_MAX - start) in
  ∃ s', e820_range_update start size old_type new_type s =
      Done (u64 (total_size start size' old_type (used (table s)))) s' ∧
    e820_ok s' ∧ disjoint_map (used (table s')) ∧
    ∀ x, map_type (used (table s')) x =
      if (start <=? x) && (x <? start + size') && (map_type (used (table s)) x =? old_type) then new_type
      else map_type (used (table s)) x.
Proof.
  apply range_update_spec.
Qed.

(** ** Examples *)

(** A table with an overlap and one without. *)
Definition with_entries (l : list e820_entry) : e820_state :=
  set_table (mk_table (Z.of_nat (length l)) (l ++ replicate (128 - length l) entry0)) e820_boot.

Definition overlapping : list e820_entry :=
  [mk_entry 0 100 1; mk_entry 50 100 2; mk_entry 120 10 1; mk_entry 55 5 4].
Definition separate : list e820_entry := [mk_entry 0 0x9000 1; mk_entry 0x100000 0x7ff00000 1; mk_entry 0xfee00000 0x1000 2].

Lemma with_entries_ok l : (length l ≤ 128)%nat → Forall entry_fits l → e820_ok (with_entries l) ∧ used (table (with_entries l)) = l.
Proof.
  intros Hl Hf. assert (used (table (with_entries l)) = l) as Hu.
  { unfold used, with_entries. cbn. rewrite Nat2Z.id. by rewrite take_app_length. }
  split; [|done]. split; rewrite ?Hu; cbn; try done; [lia|]. rewrite length_app, length_replicate. lia.
Qed.

Lemma update_table_sanitizes_witness :
  ∃ s', __e820_update_table (with_entries overlapping) = Done 0 s' ∧ sanitized overlapping (used (table s')).
Proof.
  destruct (with_entries_ok overlapping) as [Hs Hu]; [cbn; lia| |].
  { repeat constructor; cbn; lia. }
  destruct (update_table_sanitizes (with_entries overlapping) Hs) as [_ Hrun].
  rewrite Hu in Hrun. destruct Hrun as (s' & Hr & _ & _ & Hsan).
  - cbn. lia.
  - intros e He. unfold overlapping in He. rewrite !elem_of_cons in He.
    destruct He as [-> |[-> |[-> |[-> |?%not_elem_of_nil]]]]; try done; vm_compute; done.
  - exists s'. split; [exact Hr|exact Hsan].
Defined.

Lemma separate_regions : regions separate (2 ^ 64 - 1).
Proof.
  apply (regions_snoc [_; _] _ (mk_entry 0xfee00000 0x1000 2)); cbn; try lia.
  apply (regions_snoc [_] _ (mk_entry 0x100000 0x7ff00000 1)); cbn; try lia.
  apply (regions_snoc [] _ (mk_entry 0 0x9000 1)); cbn; try lia. apply regions_nil.
Qed.

Lemma mapped_all_correct_witness :
  map_type separate 0x10000000 = 1 ∧
  ¬ (∀ x, 0x9000 ≤ x < 0x10400000 → map_type (used (table (with_entries separate))) x = 1).
Proof.
  set (t := table (with_entries separate)). split.
  - change separate with (used t).
    apply (proj1 (mapped_all_correct t 0x10000000 0x10400000 1 ltac:(cbn; lia) separate_regions ltac:(lia))); [|lia].
    vm_compute. reflexivity.
  - intros H. apply (proj2 (mapped_all_correct t 0x9000 0x10400000 1 ltac:(cbn; lia) separate_regions ltac:(lia))) in H.
    vm_compute in H. discriminate.
Defined.

Lemma range_update_correct_witness :
  ∃ s', e820_range_update 0x10000000 0x400000 1 2 (with_entries separate) = Done 0x400000 s' ∧
    map_type (used (table s')) 0x10000000 = 2.
Proof.
  destruct (with_entries_ok separate) as [Hs Hu]; [cbn; lia| |].
  { repeat constructor; cbn; lia. }
  destruct (range_update_correct (with_entries separate) 0x10000000 0x400000 1 2 Hs)
    as (s' & Hr & _ & _ & Hx); rewrite ?Hu.
  - intros e He. unfold separate in He. rewrite !elem_of_cons in He.
    destruct He as [-> |[-> |[-> |?%not_elem_of_nil]]]; try done; vm_compute; done.
  - apply (regions_disjoint _ _ separate_regions).
  - cbn. lia.
  - lia.
  - lia.
  - done.
  - lia.
  - lia.
  - exists s'. split; [exact Hr|]. rewrite Hx, Hu. reflexivity.
Defined.
