(* ===== verification/Boot.v ===== *)
(** What the boot loader hands over ([vmm/multiboot.c]) and what the guest gets of it: the
    second half of [kvm_init] of [vmm/kvm.c], which copies the firmware and its parameters.

    Memory is bytes here.  [guest_params] is a packed structure at a fixed address of it;
    the memory map is that of file E820. *)

From S2P Require Import Prelude Mem CString Hexdump Machine E820.
#[local] Open Scope Z_scope.
#[local] Open Scope cint_scope.

Definition MULTIBOOT_BOOTLOADER_MAGIC : Z := 0x2badb002.
Definition MULTIBOOT_INFO_MEM_MAP : Z := 0x40.
Definition FIRMWARE_START : Z := 0x1000.
Definition CMDLINE_SIZE : Z := 1024.
Definition E820_MAX_ENTRIES_GUEST : Z := 128.

(** The fields of [struct multiboot_info] and [struct multiboot_mod_list] in use. *)
Record multiboot_info : Type := mk_info {
  mi_flags : Z; mi_mods_count : Z; mi_mods_addr : Z; mi_mmap_length : Z; mi_mmap_addr : Z;
}.
Definition multiboot_info_at (m : bmem) (a : Z) : multiboot_info :=
  mk_info (rd32 m a) (rd32 m (a + 20)) (rd32 m (a + 24)) (rd32 m (a + 44)) (rd32 m (a + 48)).

Record multiboot_mod_list : Type := mk_mod { mod_start : Z; mod_end : Z; mod_cmdline : Z }.
Definition sizeof_multiboot_mod_list : Z := 16.
Definition multiboot_mod_at (m : bmem) (a : Z) : multiboot_mod_list :=
  mk_mod (rd32 m a) (rd32 m (a + 4)) (rd32 m (a + 8)).

(** The offsets in [struct guest_params]. *)
Definition gp_kernel_start : Z := 8.
Definition gp_kernel_end : Z := 16.
Definition gp_initrd_start : Z := 24.
Definition gp_initrd_end : Z := 32.
Definition gp_cmdline : Z := 40.
Definition gp_e820_entries : Z := 1064.
Definition gp_e820_table : Z := 1068.
Definition sizeof_e820_entry : Z := 20.
Definition sizeof_guest_params : Z := 3628.

(** The addresses of [guest_params] and of the firmware image in the hypervisor's. *)
Class BootLayout : Type := {
  guest_params : Z;
  _binary_firmware_start : Z;
  _binary_firmware_end : Z;
}.

Record boot_state : Type := mk_bstate { b_e820 : e820_state; b_mem : bmem }.

Definition write_mem (f : bmem → bmem) : M boot_state unit :=
  modify (λ s, mk_bstate (b_e820 s) (f (b_mem s))).

Definition on_e820 {A} (c : M e820_state A) : M boot_state A := λ s,
  match c (b_e820 s) with
  | Done a e => Done a (mk_bstate e (b_mem s))
  | Panicked msg e => Panicked msg (mk_bstate e (b_mem s))
  | OutOfFuel e => OutOfFuel (mk_bstate e (b_mem s))
  end.

(** An entry as the structure stores it. *)
Definition wr_e820_entry (m : bmem) (a : Z) (e : e820_entry) : bmem :=
  wr32 (wr64 (wr64 m a (e_addr e)) (a + 8) (e_size e)) (a + 16) (e_type e).
Definition e820_entry_at (m : bmem) (a : Z) : e820_entry := mk_entry (rd64 m a) (rd64 m (a + 8)) (rd32 m (a + 16)).

Section boot.
Context `{Layout} `{BootLayout}.

(** The modules: the kernel, its command line and, when there is a second one, the initrd. *)
Definition multiboot_modules (info mods : Z) : M boot_state unit :=
  write_mem (λ m, wr64 m (guest_params + gp_kernel_start) (mod_start (multiboot_mod_at m mods))) ;;
  write_mem (λ m, wr64 m (guest_params + gp_kernel_end) (mod_end (multiboot_mod_at m mods))) ;;
  m ← gets b_mem;
  let '(m, r) := strscpy m (guest_params + gp_cmdline) (mod_cmdline (multiboot_mod_at m mods)) CMDLINE_SIZE in
  write_mem (λ _, m) ;;
  (if r <? 0 then panic "kernel cmdline too long!" else mret tt) ;;
  m ← gets b_mem;
  when (1 <? mi_mods_count (multiboot_info_at m info))
    (write_mem (λ m, wr64 m (guest_params + gp_initrd_start)
                       (mod_start (multiboot_mod_at m (mods + sizeof_multiboot_mod_list)))) ;;
     write_mem (λ m, wr64 m (guest_params + gp_initrd_end)
                       (mod_end (multiboot_mod_at m (mods + sizeof_multiboot_mod_list))))).

(** mask out vmm *)
Definition multiboot_mask_vmm : M boot_state unit :=
  BUG_ON (truthy (_start mod SZ_2M)) ;;
  BUG_ON (truthy (_end mod SZ_2M)) ;;
  t ← gets (λ s, table (b_e820 s));
  BUG_ON (negb (e820_mapped_all t _start _end E820_TYPE_RAM)) ;;
  _ ← on_e820 (e820_range_update _start (_end - _start) E820_TYPE_RAM E820_TYPE_RESERVED);
  mret tt.

Definition multiboot_init (magic info : Z) : M boot_state unit :=
  BUG_ON (negb (magic =? MULTIBOOT_BOOTLOADER_MAGIC)) ;;
  BUG_ON (info =? 0) ;;
  m ← gets b_mem;
  let mi := multiboot_info_at m info in
  (if negb (truthy (mi_flags mi &&& MULTIBOOT_INFO_MEM_MAP)) then panic "no memory map!" else mret tt) ;;
  on_e820 (e820_range_add_multiboot m (mi_mmap_addr mi) (mi_mmap_length mi)) ;;
  (if mi_mods_count mi =? 0 then panic "no guest kernel loaded!" else mret tt) ;;
  multiboot_modules info (mi_mods_addr mi) ;;
  multiboot_mask_vmm.

(** The [memcpy] of the [n] entries into [guest_params.e820_table]. *)
Fixpoint copy_table (es : list e820_entry) (m : bmem) (a : Z) : bmem :=
  match es with
  | [] => m
  | e :: es => copy_table es (wr_e820_entry m a e) (a + sizeof_e820_entry)
  end.

(** [kvm_init] behind [hardware_setup]. *)
Definition kvm_init_guest : M boot_state unit :=
  write_mem (λ m, memcpy m FIRMWARE_START _binary_firmware_start (_binary_firmware_end - _binary_firmware_start)) ;;
  t ← gets (λ s, table (b_e820 s));
  BUG_ON (E820_MAX_ENTRIES_GUEST <? nr_entries t) ;;
  write_mem (λ m, copy_table (take (Z.to_nat (nr_entries t)) (entries t)) m (guest_params + gp_e820_table)) ;;
  write_mem (λ m, wr32 m (guest_params + gp_e820_entries) (nr_entries t)) ;;
  write_mem (λ m, wr8 m guest_params 0xe9) ;;
  write_mem (λ m, wr8 m (guest_params + 1) ((sizeof_guest_params - 3) &&& 0xff)) ;;
  write_mem (λ m, wr8 m (guest_params + 2) (((sizeof_guest_params - 3) >>> 8) &&& 0xff)) ;;
  m ← gets b_mem;
  (if truthy (memcmp m guest_params FIRMWARE_START 8) then panic "firmware magic doesn't match!" else mret tt) ;;
  write_mem (λ m, memcpy m FIRMWARE_START guest_params sizeof_guest_params).
End boot.
