(* ===== verification/BootSpec.v ===== *)
(** The memory map and the parameters the guest starts with. *)

From S2P Require Import Prelude Mem CString Hexdump Machine E820 E820Map E820Update Boot.
#[local] Open Scope Z_scope.
#[local] Open Scope cint_scope.

(** ** The memory map of the boot loader *)

(** The entries in the [len] bytes at [e]; each says how far the next one is. *)
Fixpoint mmap_entries (n : nat) (m : bmem) (e len : Z) : list e820_entry :=
  match n with
  | O => []
  | S n =>
      if 0 <? len then
        mk_entry (rd64 m (e + 4)) (rd64 m (e + 12)) (rd32 m (e + 20)) ::
        mmap_entries n m (e + (rd32 m e + 4)) (len - (rd32 m e + 4))
      else []
  end.

Lemma rd32_bound m a : 0 ≤ rd32 m a < 2 ^ 32.
Proof. apply (rd_le_bound m a 4). Qed.

Lemma mmap_entries_fit n m e len : Forall entry_fits (mmap_entries n m e len).
Proof.
  revert e len. induction n as [|n IH]; intros e len; cbn [mmap_entries]; [constructor|].
  destruct (0 <? len); [|constructor]. constructor; [|apply IH].
  split; [apply rd64_bound|apply rd64_bound|apply rd32_bound].
Qed.

Lemma multiboot_loop_adds m len e i s0 l s :
  0 ≤ len < 2 ^ 32 → 0 ≤ i < 2 ^ 33 + 4 → table_holds s0 l s →
  (length (l ++ mmap_entries (Z.to_nat (len - i)) m e (len - i)) ≤ 128)%nat →
  ∃ s', loop (multiboot_step m len) (e, i) s = Done tt s' ∧
    table_holds s0 (l ++ mmap_entries (Z.to_nat (len - i)) m e (len - i)) s'.
Proof.
  intros Hlen Hi Hs Hroom. set (all := l ++ _) in *.
  destruct (loop_total (multiboot_step m len)
    (λ a s, 0 ≤ a.2 < 2 ^ 33 + 4 ∧ ∃ l n, table_holds s0 l s ∧ len - a.2 ≤ Z.of_nat n ∧
       all = l ++ mmap_entries n m a.1 (len - a.2))
    (λ _ s, table_holds s0 all s) (λ a _, Z.max 0 (len - a.2))) with (a := (e, i)) (s := s) as ([] & s' & Hr & Hs').
  - intros [e1 i1] s1 (Hi1 & l1 & n & Hl1 & Hn & Hall). cbn [fst snd] in *.
    unfold loop_step_ok, multiboot_step. destruct (Z.ltb_spec i1 len) as [Hlt|Hge].
    2: { destruct n; cbn [mmap_entries] in Hall; [|destruct (Z.ltb_spec 0 (len - i1)); [lia|]];
         rewrite app_nil_r in Hall; by rewrite Hall. }
    destruct n as [|n]; [lia|]. cbn [mmap_entries] in Hall. destruct (Z.ltb_spec 0 (len - i1)); [|lia].
    pose proof (rd32_bound m e1) as Hsz.
    destruct (range_add_ok s0 l1 s1 (rd64 m (e1 + 4)) (rd64 m (e1 + 12)) (rd32 m (e1 + 20)) Hl1) as (s2 & Hr & Hs2).
    { rewrite Hall, length_app in Hroom. cbn in Hroom. lia. }
    unfold e820_range_add. rewrite (bind_done _ _ _ _ _ Hr). cbv zeta. rewrite (wrap_small 64 (rd32 m e1 + 4)) by lia.
    rewrite wrap_small by lia. unfold mret, M_ret. cbn [fst snd]. split; [|lia]. split; [lia|].
    eexists (_ ++ [_]), n. split; [exact Hs2|]. split; [lia|]. rewrite Hall, <- app_assoc. cbn [app].
    do 3 f_equal. lia.
  - cbn [fst snd]. split; [done|]. exists l, (Z.to_nat (len - i)). split; [done|]. split; [lia|done].
  - cbn. lia.
  - by exists s'.
Qed.

Lemma print_table_logs who s : ∃ l, e820_print_table who s = Done tt (set_e820_log l s).
Proof.
  unfold e820_print_table. erewrite bind_done by reflexivity.
  generalize (seqZ 0 (nr_entries (table s))), (entries (table s)). intros ks es.
  assert (∀ l0, ∃ l, for_each ks (λ i,
    let e := entry_at es i in
    e820_print "%s: [mem %#018lx-%#018lx] " [Str who; Num (e_addr e); Num (u64 (e_addr e + e_size e - 1))] ;;
    e820_print_type (e_type e) ;; e820_print "" []) (set_e820_log l0 s) = Done tt (set_e820_log l s)) as Hl.
  { induction ks as [|k ks IH]; intros l0; [by exists l0|]. cbn [for_each].
    destruct (print_type_ok (e_type (entry_at es k)) (set_e820_log
      (l0 ++ [("%s: [mem %#018lx-%#018lx] "%string, [Str who; Num (e_addr (entry_at es k));
        Num (u64 (e_addr (entry_at es k) + e_size (entry_at es k) - 1))])]) s)) as [l1 H1].
    assert (∀ A (f : M e820_state A), (e820_print "%s: [mem %#018lx-%#018lx] " [Str who; Num (e_addr (entry_at es k));
      Num (u64 (e_addr (entry_at es k) + e_size (entry_at es k) - 1))] ;;
      e820_print_type (e_type (entry_at es k)) ;; f) (set_e820_log l0 s) = f (set_e820_log l1 s)) as Hf.
    { intros A f. unfold e820_print, modify. erewrite bind_done by reflexivity. by rewrite (bind_done _ _ _ _ _ H1). }
    cbv zeta. erewrite bind_done by (rewrite Hf; reflexivity). apply IH. }
  destruct (Hl (e820_log s)) as [l Hr]. exists l. destruct s. exact Hr.
Qed.

(** [e820_range_add_multiboot] on an empty table. *)
Lemma range_add_multiboot_ok m e len s :
  let es := mmap_entries (Z.to_nat len) m e len in
  e820_ok s → used (table s) = [] → 0 ≤ len < 2 ^ 32 → (2 ≤ length es ≤ 63)%nat → (∀ x, x ∈ es → ¬ wraps x) →
  ∃ s', e820_range_add_multiboot m e len s = Done tt s' ∧ e820_ok s' ∧ nr_entries (table s') ≤ 126 ∧
    regions (used (table s')) (2 ^ 64 - 1) ∧ ∀ x, map_type (used (table s')) x = map_type es x.
Proof.
  intros es Hs Hu Hlen Hn Hw. unfold e820_range_add_multiboot.
  pose proof (table_holds_self s Hs) as Hself. rewrite Hu in Hself.
  destruct (multiboot_loop_adds m len e 0 s [] s) as (s1 & Hr1 & Hs1); [done|lia|done|rewrite Z.sub_0_r; fold es; cbn [app]; lia|].
  rewrite Z.sub_0_r in Hs1. cbn [app] in Hs1. fold es in Hs1. rewrite (bind_done _ _ _ _ _ Hr1).
  destruct (table_holds_ok s es s1) as [Hok1 Hu1]; [done..|lia| |].
  { pose proof (mmap_entries_fit (Z.to_nat len) m e len) as Hf. fold es in Hf. rewrite !Forall_forall in *.
    intros x Hx. apply entry_ok_fits; auto. }
  assert (nr_entries (table s1) = Z.of_nat (length es)) as Hn1 by (by destruct Hs1 as (t & -> & Hn1 & _)).
  destruct (update_table_runs s1) as (s2 & Hr2 & Hok2 & _ & Hsan & Hn2); [done|lia|by rewrite Hu1|].
  assert (e820_update_table s1 = Done tt s2) as Hr3 by (unfold e820_update_table; by rewrite (bind_done _ _ _ _ _ Hr2)).
  rewrite (bind_done _ _ _ _ _ Hr3).
  destruct (print_table_logs "BIOS-e820" s2) as [l Hl]. exists (set_e820_log l s2).
  split; [done|]. split; [by apply set_log_ok|]. cbn [set_e820_log table]. split; [lia|].
  rewrite Hu1 in Hsan. destruct Hsan as (Hlen2 & Hreg & Hty). split; [done|].
  intros x. destruct (Hty x) as [|[Hfull _]]; [done|].
  unfold used in Hfull. rewrite length_take in Hfull. lia.
Qed.

(** ** The parameters in memory *)

#[local] Arguments wr32 : simpl never.
#[local] Arguments wr64 : simpl never.

(** The entries in [guest_params.e820_table] of the structure at [p]. *)
Definition guest_e820 (m : bmem) (p : Z) : list e820_entry :=
  (λ i, e820_entry_at m (p + gp_e820_table + sizeof_e820_entry * i)) <$> seqZ 0 (rd32 m (p + gp_e820_entries)).

Lemma rd8_wr_e820_entry m a e b : b < a ∨ a + 20 ≤ b → rd8 (wr_e820_entry m a e) b = rd8 m b.
Proof. intros Hb. unfold wr_e820_entry, wr32, wr64. by rewrite !rd8_wr_le, !decide_False by lia. Qed.

Lemma e820_entry_at_wr m a e : entry_fits e → e820_entry_at (wr_e820_entry m a e) a = e.
Proof.
  intros [Ha Hs Ht]. unfold e820_entry_at, wr_e820_entry, rd64, rd32, wr32, wr64. destruct e as [x y t]. cbn [e_addr e_size e_type] in *.
  f_equal; repeat (rewrite rd_le_wr_le_apart by lia); rewrite rd_le_wr_le; apply Z.mod_small; cbn; lia.
Qed.

Lemma e820_entry_at_ext m m' a b :
  (∀ i, 0 ≤ i < 20 → rd8 m (a + i) = rd8 m' (b + i)) → e820_entry_at m a = e820_entry_at m' b.
Proof.
  intros Hi. unfold e820_entry_at, rd64, rd32. f_equal; apply rd_le_ext; intros i ?;
    rewrite <- ?Z.add_assoc; apply Hi; lia.
Qed.

Lemma copy_table_out es m a b :
  b < a ∨ a + 20 * Z.of_nat (length es) ≤ b → rd8 (copy_table es m a) b = rd8 m b.
Proof.
  revert m a. induction es as [|e es IH]; intros m a Hb; [done|]. cbn [copy_table length] in *.
  unfold sizeof_e820_entry in *. rewrite IH by lia. apply rd8_wr_e820_entry. lia.
Qed.

Lemma copy_table_in es m a i e : Forall entry_fits es → es !! i = Some e →
  e820_entry_at (copy_table es m a) (a + 20 * Z.of_nat i) = e.
Proof.
  revert m a i. induction es as [|f es IH]; intros m a i Hf Hi; [done|]. inversion Hf; subst.
  cbn [copy_table]. unfold sizeof_e820_entry. destruct i as [|i].
  - injection Hi as ->. rewrite Z.mul_0_r, Z.add_0_r.
    rewrite (e820_entry_at_ext _ (wr_e820_entry m a e) _ a); [by apply e820_entry_at_wr|].
    intros j Hj. apply copy_table_out. lia.
  - replace (a + 20 * Z.of_nat (S i)) with (a + 20 + 20 * Z.of_nat i) by lia. by apply IH.
Qed.

Lemma rd_le_outside m m' a n b k :
  unchanged_outside m m' a n → apart b (Z.of_nat k) a n → rd_le m' b k = rd_le m b k.
Proof. intros Hu Ha. apply rd_le_ext. intros i Hi. apply Hu. unfold apart in Ha. lia. Qed.

Lemma outside_wr_le m m' a n b k v :
  unchanged_outside m m' a n → a ≤ b → b + Z.of_nat k ≤ a + n → unchanged_outside m (wr_le m' b k v) a n.
Proof. intros Hu Hb Hk c Hc. rewrite rd8_wr_le, decide_False by lia. by apply Hu. Qed.

Lemma rd32_small m a : rd32 m a mod 256 ^ Z.of_nat 8 = rd32 m a.
Proof. apply Z.mod_small. pose proof (rd32_bound m a). change (256 ^ Z.of_nat 8) with (2 ^ 64). lia. Qed.

Section spec.
Context `{Layout} `{BootLayout}.
#[local] Notation gp := guest_params.

(** The memory and the registers a boot loader leaves, as the multiboot specification has
    them: [n] is the length of the kernel's command line. *)
Record boot_input (m : bmem) (info n : Z) : Prop := {
  bi_info : info ≠ 0;
  bi_flags : truthy (mi_flags (multiboot_info_at m info) &&& MULTIBOOT_INFO_MEM_MAP) = true;
  bi_count : mi_mods_count (multiboot_info_at m info) ≠ 0;
  bi_cmdline : cstr m (mod_cmdline (multiboot_mod_at m (mi_mods_addr (multiboot_info_at m info)))) n;
  bi_length : n < CMDLINE_SIZE;
  bi_apart : apart info 52 gp sizeof_guest_params;
  bi_mods : apart (mi_mods_addr (multiboot_info_at m info)) 32 gp sizeof_guest_params;
  bi_text : apart (mod_cmdline (multiboot_mod_at m (mi_mods_addr (multiboot_info_at m info)))) CMDLINE_SIZE
              gp sizeof_guest_params;
}.

(** The hypervisor's image lies on 2M boundaries, in memory that the map [l] calls RAM. *)
Record vmm_image (l : list e820_entry) : Prop := {
  vi_start : _start mod SZ_2M = 0;
  vi_end : _end mod SZ_2M = 0;
  vi_order : 0 ≤ _start < _end;
  vi_bound : _end < 2 ^ 64 - 1;
  vi_ram : ∀ x, _start ≤ x < _end → map_type l x = E820_TYPE_RAM;
}.

(** The modules and the command line, in the parameters at [p] of [m']. *)
Record modules_passed (m : bmem) (info n : Z) (m' : bmem) (p : Z) : Prop := {
  mp_kernel_start : rd64 m' (p + gp_kernel_start) = mod_start (multiboot_mod_at m (mi_mods_addr (multiboot_info_at m info)));
  mp_kernel_end : rd64 m' (p + gp_kernel_end) = mod_end (multiboot_mod_at m (mi_mods_addr (multiboot_info_at m info)));
  mp_initrd : 1 < mi_mods_count (multiboot_info_at m info) →
    let k := multiboot_mod_at m (mi_mods_addr (multiboot_info_at m info) + 16) in
    rd64 m' (p + gp_initrd_start) = mod_start k ∧ rd64 m' (p + gp_initrd_end) = mod_end k;
  mp_no_initrd : mi_mods_count (multiboot_info_at m info) = 1 →
    rd64 m' (p + gp_initrd_start) = rd64 m (gp + gp_initrd_start) ∧
    rd64 m' (p + gp_initrd_end) = rd64 m (gp + gp_initrd_end);
  mp_cmdline : same_bytes m' (p + gp_cmdline) m
    (mod_cmdline (multiboot_mod_at m (mi_mods_addr (multiboot_info_at m info)))) (n + 1);
}.

Lemma mod_at_outside m m' a : unchanged_outside m m' gp sizeof_guest_params → apart a 16 gp sizeof_guest_params →
  multiboot_mod_at m' a = multiboot_mod_at m a.
Proof.
  unfold apart. intros Hu Ha. unfold multiboot_mod_at, rd32.
  by rewrite !(rd_le_outside m m' gp sizeof_guest_params) by (done || unfold apart; lia).
Qed.

(** The copy of the command line. *)
Lemma strscpy_cmdline m m' c n :
  unchanged_outside m m' gp sizeof_guest_params → apart c CMDLINE_SIZE gp sizeof_guest_params →
  cstr m c n → n < CMDLINE_SIZE →
  ∃ m2, strscpy m' (gp + gp_cmdline) c CMDLINE_SIZE = (m2, n) ∧
    unchanged_outside m' m2 (gp + gp_cmdline) CMDLINE_SIZE ∧ same_bytes m2 (gp + gp_cmdline) m c (n + 1).
Proof.
  unfold apart, gp_cmdline, CMDLINE_SIZE, sizeof_guest_params. intros Hu Ha Hs Hn.
  assert (∀ i, 0 ≤ i < 1024 → rd8 m' (c + i) = rd8 m (c + i)) as Hc by (intros i Hi; apply Hu; lia).
  assert (cstr m' c n) as Hs'.
  { destruct Hs as (? & Hnz & Hz). split; [done|]. split; [|by rewrite Hc by lia].
    intros i Hi. rewrite Hc by lia. by apply Hnz. }
  destruct (strscpy_spec m' (gp + 40) c 1024) as [Hout Hpost]; [lia..|].
  destruct (strscpy m' (gp + 40) c 1024) as [m2 r]. cbn [fst snd] in *. destruct Hpost as [(n' & Hn' & Hs2 & -> & Hsame)|(Hnz & _)].
  - rewrite (cstr_unique _ _ _ _ Hs2 Hs') in *. exists m2. split_and!; [done..|].
    intros i Hi. rewrite Hsame by lia. destruct Hs. apply Hc. lia.
  - destruct Hs' as (? & _ & Hz). by destruct (Hnz n ltac:(lia)).
Qed.

Section params.
Context (m : bmem) (info n : Z) (Hin : boot_input m info n).
#[local] Notation mi := (multiboot_info_at m info).
#[local] Notation k0 := (multiboot_mod_at m (mi_mods_addr mi)).
#[local] Notation k1 := (multiboot_mod_at m (mi_mods_addr mi + 16)).

Definition kernel_written : bmem :=
  wr64 (wr64 m (gp + gp_kernel_start) (mod_start k0)) (gp + gp_kernel_end) (mod_end k0).
Definition initrd_written (m' : bmem) : bmem :=
  if 1 <? mi_mods_count mi then
    wr64 (wr64 m' (gp + gp_initrd_start) (mod_start k1)) (gp + gp_initrd_end) (mod_end k1)
  else m'.

Ltac offsets := unfold rd64, wr64, apart, gp_cmdline, gp_kernel_start, gp_kernel_end, gp_initrd_start, gp_initrd_end,
  CMDLINE_SIZE, sizeof_guest_params in *.

Lemma kernel_written_outside : unchanged_outside m kernel_written gp sizeof_guest_params.
Proof. unfold kernel_written, wr64. offsets. do 2 (apply outside_wr_le; [|lia..]). done. Qed.

Lemma initrd_written_outside m' : unchanged_outside m m' gp sizeof_guest_params →
  unchanged_outside m (initrd_written m') gp sizeof_guest_params.
Proof. intros Hu. unfold initrd_written, wr64. case_match; [|done]. offsets. by do 2 (apply outside_wr_le; [|lia..]). Qed.

Lemma modules_written m' :
  unchanged_outside kernel_written m' (gp + gp_cmdline) CMDLINE_SIZE →
  same_bytes m' (gp + gp_cmdline) m (mod_cmdline k0) (n + 1) →
  modules_passed m info n (initrd_written m') gp ∧ same_bytes (initrd_written m') gp m gp 8.
Proof.
  intros Hu Hc. destruct Hin as [_ _ _ _ Hn _ _ _].
  assert (∀ b k, b + Z.of_nat k ≤ gp + gp_cmdline → rd_le m' b k = rd_le kernel_written b k) as Hm'.
  { intros b k Hb. apply (rd_le_outside _ _ _ _ _ _ Hu). by left. }
  unfold initrd_written, kernel_written, rd64, wr64 in *. split; [split|].
  - offsets. destruct (1 <? mi_mods_count mi); rewrite ?rd_le_wr_le_apart, Hm' by lia;
      rewrite rd_le_wr_le_apart, rd_le_wr_le by lia; apply rd32_small.
  - offsets. destruct (1 <? mi_mods_count mi); rewrite ?rd_le_wr_le_apart, Hm' by lia;
      rewrite rd_le_wr_le by lia; apply rd32_small.
  - intros H1. rewrite (proj2 (Z.ltb_lt _ _) H1). offsets. cbv zeta.
    rewrite rd_le_wr_le_apart, !rd_le_wr_le by lia. split; apply rd32_small.
  - intros ->. cbn [Z.ltb Z.compare Pos.compare Pos.compare_cont]. offsets. unfold rd64. rewrite !Hm' by lia.
    split; by rewrite !rd_le_wr_le_apart by lia.
  - intros i Hi. rewrite <- Hc by lia. offsets. destruct (1 <? mi_mods_count mi); [|done].
    by rewrite !rd8_wr_le, !decide_False by lia.
  - intros i Hi. offsets. destruct (1 <? mi_mods_count mi); rewrite ?rd8_wr_le, ?decide_False by lia;
      rewrite Hu by lia; by rewrite !rd8_wr_le, !decide_False by lia.
Qed.

Lemma multiboot_modules_ok s :
  ∃ m', multiboot_modules info (mi_mods_addr mi) (mk_bstate s m) = Done tt (mk_bstate s m') ∧
    modules_passed m info n m' gp ∧ same_bytes m' gp m gp 8 ∧ unchanged_outside m m' gp sizeof_guest_params.
Proof.
  pose proof Hin as [_ _ _ Hcmd Hlen Hai Ham Hat]. unfold multiboot_modules.
  assert (∀ m' a, unchanged_outside m m' gp sizeof_guest_params → a = mi_mods_addr mi ∨ a = mi_mods_addr mi + 16 →
    multiboot_mod_at m' a = multiboot_mod_at m a) as Hmod.
  { intros m' a Hu Ha. apply mod_at_outside; [done|]. unfold apart in *. lia. }
  assert (unchanged_outside m (wr64 m (gp + gp_kernel_start) (mod_start k0)) gp sizeof_guest_params) as H1.
  { unfold wr64. offsets. by apply outside_wr_le; [|lia..]. }
  do 2 erewrite bind_done by reflexivity. cbn [b_mem]. erewrite bind_done by reflexivity.
  cbn [b_mem b_e820]. rewrite (Hmod _ _ H1) by auto. fold kernel_written.
  rewrite (Hmod _ _ kernel_written_outside) by auto.
  destruct (strscpy_cmdline m kernel_written (mod_cmdline k0) n kernel_written_outside Hat Hcmd Hlen)
    as (m2 & -> & Hu2 & Hsame).
  assert (unchanged_outside m m2 gp sizeof_guest_params) as Hm2.
  { intros b Hb. rewrite Hu2 by (offsets; lia). by apply kernel_written_outside. }
  erewrite bind_done by reflexivity. destruct (Z.ltb_spec n 0); [destruct Hcmd; lia|].
  do 2 erewrite bind_done by reflexivity. cbn [b_mem b_e820].
  replace (mi_mods_count (multiboot_info_at m2 info)) with (mi_mods_count mi)
    by (symmetry; apply (rd_le_outside m m2 gp sizeof_guest_params); [done|unfold apart in *; lia]).
  exists (initrd_written m2). split.
  2: { destruct (modules_written m2 Hu2 Hsame). split_and!; [done..|]. by apply initrd_written_outside. }
  unfold initrd_written, when. destruct (1 <? mi_mods_count mi); [|done].
  erewrite bind_done by reflexivity. unfold write_mem, modify. cbn [b_mem b_e820].
  unfold sizeof_multiboot_mod_list. rewrite (Hmod m2) by auto. rewrite (Hmod (wr64 m2 _ _)); [done| |by auto].
  unfold wr64. offsets. by apply outside_wr_le; [|lia..].
Qed.

Lemma multiboot_mask_ok s m' :
  e820_ok s → nr_entries (table s) ≤ 126 → regions (used (table s)) (2 ^ 64 - 1) →
  vmm_image (used (table s)) →
  ∃ s', multiboot_mask_vmm (mk_bstate s m') = Done tt (mk_bstate s' m') ∧
    e820_ok s' ∧ disjoint_map (used (table s')) ∧
    ∀ x, map_type (used (table s')) x =
      if (_start <=? x) && (x <? _end) then E820_TYPE_RESERVED else map_type (used (table s)) x.
Proof.
  intros Hs Hn Hreg [Hsa Hea Hse Hend Hram]. pose proof (ok_nr _ Hs). pose proof (ok_length _ Hs).
  destruct (range_update_spec s _start (_end - _start) E820_TYPE_RAM E820_TYPE_RESERVED)
    as (s' & Hr & Hs' & Hd & Hty); try done; try lia.
  { intros e He Hw. pose proof (regions_below _ _ Hreg e He). unfold wraps, e_end in Hw. rewrite wrap_small in Hw; lia. }
  { by eapply regions_disjoint. }
  exists s'. split.
  - unfold multiboot_mask_vmm. rewrite Hsa, Hea. cbn [truthy Z.eqb negb BUG_ON].
    do 2 erewrite bind_done by reflexivity. erewrite bind_done by reflexivity. cbn [b_e820].
    assert (e820_mapped_all (table s) _start _end E820_TYPE_RAM = true) as ->.
    { apply mapped_all_spec; [lia|done|lia|exact Hram]. }
    erewrite bind_done by reflexivity. erewrite bind_done by (unfold on_e820; cbn [b_e820]; by rewrite Hr). done.
  - split_and!; [done..|]. intros x. rewrite Hty.
    replace (_start + Z.min (_end - _start) (ULLONG_MAX - _start)) with _end by (unfold ULLONG_MAX; lia).
    destruct ((_start <=? x) && (x <? _end)) eqn:Hx; [|done]. apply andb_prop in Hx as [?%Z.leb_le ?%Z.ltb_lt].
    by rewrite Hram by lia.
Qed.

(** [multiboot_init]: the memory map of the boot loader without the hypervisor's part of it,
    and the modules in [guest_params]. *)
Lemma multiboot_init_ok s :
  let es := mmap_entries (Z.to_nat (mi_mmap_length mi)) m (mi_mmap_addr mi) (mi_mmap_length mi) in
  e820_ok s → used (table s) = [] → (2 ≤ length es ≤ 63)%nat → (∀ x, x ∈ es → ¬ wraps x) →
  vmm_image es →
  ∃ s' m', multiboot_init MULTIBOOT_BOOTLOADER_MAGIC info (mk_bstate s m) = Done tt (mk_bstate s' m') ∧
    e820_ok s' ∧ disjoint_map (used (table s')) ∧
    (∀ x, map_type (used (table s')) x =
      if (_start <=? x) && (x <? _end) then E820_TYPE_RESERVED else map_type es x) ∧
    modules_passed m info n m' gp ∧ same_bytes m' gp m gp 8 ∧ unchanged_outside m m' gp sizeof_guest_params.
Proof.
  intros es Hs Hu Hn Hw [Hsa Hea Hse Hend Hram]. pose proof Hin as [Hi Hf Hc Hcmd Hlen Hai Ham Hat].
  destruct (range_add_multiboot_ok m (mi_mmap_addr mi) (mi_mmap_length mi) s) as (s1 & Hr1 & Hs1 & Hn1 & Hreg & Hty);
    [done|done|apply rd32_bound|done|done|].
  destruct (multiboot_modules_ok s1) as (m' & Hr2 & Hmp & Hsame & Hout).
  destruct (multiboot_mask_ok s1 m') as (s2 & Hr3 & Hs2 & Hd & Hty2); try done.
  { split; try done. intros x Hx. rewrite Hty. by apply Hram. }
  exists s2, m'. split; [|split_and!; try done; intros x; by rewrite Hty2, Hty].
  unfold multiboot_init. rewrite Z.eqb_refl, (proj2 (Z.eqb_neq info 0) Hi). cbn [negb BUG_ON].
  do 3 erewrite bind_done by reflexivity. cbn [b_mem]. cbv zeta. rewrite Hf. cbn [negb].
  erewrite bind_done by reflexivity. rewrite (proj2 (Z.eqb_neq _ _) Hc).
  erewrite bind_done by (unfold on_e820; cbn [b_e820]; by rewrite Hr1). cbn [b_mem].
  erewrite bind_done by reflexivity. by rewrite (bind_done _ _ _ _ _ Hr2).
Qed.

(** The parameters survive a copy. *)
Lemma modules_passed_copy m1 p m2 q :
  modules_passed m info n m1 p → (∀ i, 8 ≤ i < gp_e820_entries → rd8 m2 (q + i) = rd8 m1 (p + i)) →
  modules_passed m info n m2 q.
Proof.
  intros [H1 H2 H3 H4 H5] Hc. pose proof (bi_length _ _ _ Hin). unfold gp_e820_entries in Hc. offsets.
  assert (∀ d, 8 ≤ d ≤ 1056 → rd_le m2 (q + d) 8 = rd_le m1 (p + d) 8) as Hd.
  { intros d Hd. apply rd_le_ext. intros i Hi. rewrite <- !Z.add_assoc. apply Hc. lia. }
  split; offsets; rewrite ?Hd by lia; try done.
  intros i Hi. rewrite <- H5 by lia. rewrite <- !Z.add_assoc. apply Hc. lia.
Qed.

Lemma guest_e820_copy m1 p m2 q :
  (∀ i, gp_e820_entries ≤ i < sizeof_guest_params → rd8 m2 (q + i) = rd8 m1 (p + i)) →
  rd32 m1 (p + gp_e820_entries) ≤ 128 → guest_e820 m2 q = guest_e820 m1 p.
Proof.
  unfold guest_e820, gp_e820_entries, gp_e820_table, sizeof_e820_entry, sizeof_guest_params. intros Hc Hn.
  assert (rd32 m2 (q + 1064) = rd32 m1 (p + 1064)) as ->.
  { apply rd_le_ext. intros i Hi. rewrite <- !Z.add_assoc. apply Hc. lia. }
  apply list_fmap_ext. intros j x [-> Hj]%lookup_seqZ. apply e820_entry_at_ext. intros i Hi.
  rewrite <- !Z.add_assoc. apply Hc. lia.
Qed.

(** What [kvm_init] relies on: where the firmware image is, and its first eight bytes. *)
Record firmware_image (m0 : bmem) : Prop := {
  fi_above : FIRMWARE_START ≤ _binary_firmware_start;
  fi_gp : FIRMWARE_START ≤ gp;
  fi_size : sizeof_guest_params ≤ _binary_firmware_end - _binary_firmware_start;
  fi_apart : apart FIRMWARE_START (_binary_firmware_end - _binary_firmware_start) gp sizeof_guest_params;
  fi_source : apart _binary_firmware_start (_binary_firmware_end - _binary_firmware_start) gp sizeof_guest_params;
  fi_magic : rd_bytes m0 _binary_firmware_start 8 = [0xe9; 0x29; 0x0e; 0; 0; 0; 0; 0];
  fi_zero : rd_bytes m0 (gp + 3) 5 = [0; 0; 0; 0; 0];
}.

(** The memory before the parameters are copied over the head of the firmware. *)
Definition firmware_copied (m1 : bmem) : bmem :=
  memcpy m1 FIRMWARE_START _binary_firmware_start (_binary_firmware_end - _binary_firmware_start).
Definition params_filled (tb : e820_table) (m1 : bmem) : bmem :=
  let m1 := wr32 (copy_table (used tb) m1 (gp + gp_e820_table)) (gp + gp_e820_entries) (nr_entries tb) in
  wr8 (wr8 (wr8 m1 gp 0xe9) (gp + 1) ((sizeof_guest_params - 3) &&& 0xff)) (gp + 2)
    (((sizeof_guest_params - 3) >>> 8) &&& 0xff).

Section filled.
Context (tb : e820_table) (m1 : bmem).
Context (Hnr : 0 ≤ nr_entries tb ≤ 128) (Hes : length (entries tb) = 128%nat) (Hfits : Forall entry_fits (used tb)).

Lemma used_length : length (used tb) = Z.to_nat (nr_entries tb).
Proof. unfold used. rewrite length_take. lia. Qed.

Lemma params_filled_other b : b < gp ∨ gp + 3 ≤ b < gp + gp_e820_entries ∨ gp + sizeof_guest_params ≤ b →
  rd8 (params_filled tb m1) b = rd8 m1 b.
Proof.
  unfold params_filled, gp_e820_entries, sizeof_guest_params, gp_e820_table. intros Hb.
  pose proof used_length. unfold wr32.
  by rewrite !rd8_wr8_ne, rd8_wr_le, decide_False, copy_table_out by lia.
Qed.

Lemma params_filled_magic : rd_bytes (params_filled tb m1) gp 3 = [0xe9; 0x29; 0x0e].
Proof.
  unfold params_filled. cbn [rd_bytes]. rewrite <- Z.add_assoc. change (1 + 1) with 2.
  rewrite rd8_wr8_eq, !(rd8_wr8_ne _ (gp + 2)), rd8_wr8_eq, rd8_wr8_ne, rd8_wr8_eq by lia. done.
Qed.

Lemma params_filled_e820 : rd32 (params_filled tb m1) (gp + gp_e820_entries) = nr_entries tb ∧
  guest_e820 (params_filled tb m1) gp = used tb.
Proof.
  pose proof used_length as Hul.
  assert (∀ b, gp + gp_e820_entries ≤ b → rd8 (params_filled tb m1) b =
    rd8 (wr32 (copy_table (used tb) m1 (gp + gp_e820_table)) (gp + gp_e820_entries) (nr_entries tb)) b) as Hb.
  { unfold gp_e820_entries. intros b Hb. unfold params_filled. by rewrite !rd8_wr8_ne by lia. }
  assert (rd32 (params_filled tb m1) (gp + gp_e820_entries) = nr_entries tb) as Hn.
  { unfold rd32. erewrite (rd_le_ext _ _ _ (gp + gp_e820_entries)) by (intros i Hi; apply Hb; lia).
    unfold wr32. rewrite rd_le_wr_le. apply Z.mod_small. cbn. lia. }
  split; [done|]. unfold guest_e820. rewrite Hn, <- (entry_at_used tb) by lia.
  apply list_fmap_ext. intros j x [-> Hj]%lookup_seqZ. rewrite Z.add_0_l.
  unfold gp_e820_table, gp_e820_entries, sizeof_e820_entry in *.
  rewrite (e820_entry_at_ext _ (copy_table (used tb) m1 (gp + 1068)) _ (gp + 1068 + 20 * Z.of_nat j)).
  - apply copy_table_in; [done|]. unfold used, entry_at. rewrite Nat2Z.id, lookup_take_lt by lia.
    apply list_lookup_lookup_total_lt. lia.
  - intros i Hi. rewrite Hb by lia. unfold wr32. by rewrite rd8_wr_le, decide_False by lia.
Qed.
End filled.

Lemma kvm_init_guest_ok s m1 :
  firmware_image m → e820_ok s → modules_passed m info n m1 gp → same_bytes m1 gp m gp 8 →
  unchanged_outside m m1 gp sizeof_guest_params →
  ∃ m2, kvm_init_guest (mk_bstate s m1) = Done tt (mk_bstate s m2) ∧
    modules_passed m info n m2 FIRMWARE_START ∧ guest_e820 m2 FIRMWARE_START = used (table s) ∧
    (∀ i, sizeof_guest_params ≤ i < _binary_firmware_end - _binary_firmware_start →
      rd8 m2 (FIRMWARE_START + i) = rd8 m (_binary_firmware_start + i)) ∧
    ∀ b, (b < FIRMWARE_START ∨ FIRMWARE_START + (_binary_firmware_end - _binary_firmware_start) ≤ b) →
      (b < gp ∨ gp + sizeof_guest_params ≤ b) → rd8 m2 b = rd8 m1 b.
Proof.
  intros [Hf1 Hf2 Hf3 Hf4 Hf5 Hf6 Hf7] Hs Hmp Hsame Hout. destruct Hs as [Hnr Hel Hfits _ _ _ _].
  unfold kvm_init_guest.
  do 2 erewrite bind_done by reflexivity. cbn [b_mem b_e820]. unfold E820_MAX_ENTRIES_GUEST, BUG_ON.
  destruct (Z.ltb_spec 128 (nr_entries (table s))); [lia|]. do 6 erewrite bind_done by reflexivity.
  erewrite bind_done by reflexivity. cbn [b_mem b_e820]. fold (used (table s)) (firmware_copied m1).
  fold (params_filled (table s) (firmware_copied m1)). set (pf := params_filled _ _).
  assert (∀ b, rd8 (firmware_copied m1) b =
    if decide (FIRMWARE_START ≤ b < FIRMWARE_START + (_binary_firmware_end - _binary_firmware_start))
    then rd8 m1 (_binary_firmware_start + (b - FIRMWARE_START)) else rd8 m1 b) as Hcp.
  { intros b. unfold sizeof_guest_params in *. unfold firmware_copied. rewrite rd8_memcpy by lia. done. }
  assert (∀ i, 0 ≤ i < _binary_firmware_end - _binary_firmware_start →
    rd8 pf (FIRMWARE_START + i) = rd8 m (_binary_firmware_start + i)) as Hfw.
  { intros i Hi. offsets. unfold pf. rewrite params_filled_other by (unfold sizeof_guest_params; done || lia).
    rewrite Hcp, decide_True by lia. replace (_ + (_ - _)) with (_binary_firmware_start + i) by lia. apply Hout. lia. }
  assert (∀ i, 3 ≤ i < gp_e820_entries → rd8 pf (gp + i) = rd8 m1 (gp + i)) as Hpf.
  { unfold gp_e820_entries. intros i Hi. offsets. unfold pf.
    rewrite params_filled_other by (unfold gp_e820_entries; done || lia). by rewrite Hcp, decide_False by lia. }
  assert (rd_bytes pf gp 8 = rd_bytes pf FIRMWARE_START 8) as Hmagic.
  { rewrite (rd_bytes_app pf gp 3 5). unfold pf at 1. rewrite params_filled_magic by done.
    rewrite (rd_bytes_ext pf m FIRMWARE_START _binary_firmware_start) by (intros i Hi; apply Hfw; offsets; lia).
    rewrite Hf6. change (gp + Z.of_nat 3) with (gp + 3). rewrite (rd_bytes_ext pf m (gp + 3) (gp + 3)); [by rewrite Hf7|].
    intros i Hi. rewrite <- !Z.add_assoc, Hpf by (unfold gp_e820_entries; lia). apply Hsame. lia. }
  rewrite (proj2 (memcmp_zero pf gp FIRMWARE_START 8 ltac:(lia))) by (by apply (rd_bytes_same _ _ _ _ 8)).
  destruct (params_filled_e820 (table s) (firmware_copied m1)) as [Hn Hg]; [done..|]. fold pf in Hn, Hg.
  assert (∀ b, rd8 (memcpy pf FIRMWARE_START gp sizeof_guest_params) b =
    if decide (FIRMWARE_START ≤ b < FIRMWARE_START + sizeof_guest_params)
    then rd8 pf (gp + (b - FIRMWARE_START)) else rd8 pf b) as Hm2.
  { intros b. rewrite rd8_memcpy by (unfold sizeof_guest_params; lia). done. }
  assert (∀ i, 0 ≤ i < sizeof_guest_params →
    rd8 (memcpy pf FIRMWARE_START gp sizeof_guest_params) (FIRMWARE_START + i) = rd8 pf (gp + i)) as Hcopy.
  { intros i Hi. rewrite Hm2, decide_True by lia. f_equal. lia. }
  eexists. split; [reflexivity|]. split; [|split; [|split]].
  - apply (modules_passed_copy m1 gp); [done|]. unfold gp_e820_entries, sizeof_guest_params in *. intros i Hi.
    rewrite Hcopy by lia. apply Hpf. lia.
  - rewrite (guest_e820_copy pf gp); [done| |lia]. unfold gp_e820_entries, sizeof_guest_params in *. intros i Hi. apply Hcopy. lia.
  - intros i Hi. unfold sizeof_guest_params in *. rewrite Hm2, decide_False by lia. apply Hfw. lia.
  - intros b Hb1 Hb2. unfold sizeof_guest_params in *. rewrite Hm2, decide_False by lia. unfold pf.
    rewrite params_filled_other by (unfold sizeof_guest_params; done || lia). by rewrite Hcp, decide_False by lia.
Qed.
End params.

(** C16: from a multiboot-compliant boot loader with 2 to 63 memory regions, none of them
    wrapping around, [multiboot_init] and then [kvm_init] leave at [FIRMWARE_START] the
    parameters the firmware starts from: the addresses of the kernel and of the initrd, the
    command line, and a memory map without overlaps that reserves exactly the
    hypervisor's image and otherwise says of every address what the boot loader's map
    says; behind the parameters the firmware image is intact. *)
Theorem guest_parameters_correct m info n s :
  let mi := multiboot_info_at m info in
  let es := mmap_entries (Z.to_nat (mi_mmap_length mi)) m (mi_mmap_addr mi) (mi_mmap_length mi) in
  boot_input m info n → firmware_image m → vmm_image es → e820_ok s → used (table s) = [] →
  (2 ≤ length es ≤ 63)%nat → (∀ x, x ∈ es → ¬ wraps x) →
  ∃ s' m', (multiboot_init MULTIBOOT_BOOTLOADER_MAGIC info ;; kvm_init_guest) (mk_bstate s m) = Done tt (mk_bstate s' m') ∧
    modules_passed m info n m' FIRMWARE_START ∧
    disjoint_map (guest_e820 m' FIRMWARE_START) ∧
    (∀ x, map_type (guest_e820 m' FIRMWARE_START) x =
      if (_start <=? x) && (x <? _end) then E820_TYPE_RESERVED else map_type es x) ∧
    ∀ i, sizeof_guest_params ≤ i < _binary_firmware_end - _binary_firmware_start →
      rd8 m' (FIRMWARE_START + i) = rd8 m (_binary_firmware_start + i).
Proof.
  intros mi es Hin Hfw Hv Hs Hu Hn Hw.
  destruct (multiboot_init_ok m info n Hin s) as (s1 & m1 & Hr1 & Hs1 & Hd & Hty & Hmp & Hsame & Hout); [done..|].
  destruct (kvm_init_guest_ok m info n Hin s1 m1) as (m2 & Hr2 & Hmp2 & Hg & Hfw2 & _); [done..|].
  exists s1, m2. split; [by rewrite (bind_done _ _ _ _ _ Hr1)|]. split; [done|]. rewrite Hg. done.
Qed.
End spec.

(** ** Example *)

(** A hypervisor of 2M at 2M, with its parameters and the firmware image inside. *)
Module Demo.
#[local] Instance layout : Layout := {|
  _start := 0x200000; _end := 0x400000; ept_pml4 := 0; ept_pdpt_0_512g := 0; ept_pd_0_4g := 0;
  msr_bitmap_pa := 0; vmxarea_pa := 0; current_vmcs_pa := 0; autoload_guest_pa := 0;
  autoload_host_pa := 0; vmx_return := 0;
|}.
#[local] Instance boot_layout : BootLayout := {|
  guest_params := 0x300000; _binary_firmware_start := 0x310000; _binary_firmware_end := 0x310000 + 0x1000;
|}.

Definition words (m : bmem) (l : list (Z * Z)) : bmem := foldl (λ m p, wr32 m p.1 p.2) m l.

(** The information at 0x9000, two regions at 0x9100, a kernel and its command line. *)
Definition memory : bmem := words ∅ [
  (0x9000, 0x40); (0x9000 + 20, 1); (0x9000 + 24, 0x9200); (0x9000 + 44, 48); (0x9000 + 48, 0x9100);
  (0x9100, 20); (0x9100 + 4, 0); (0x9100 + 12, 0x9fc00); (0x9100 + 20, 1);
  (0x9118, 20); (0x9118 + 4, 0x100000); (0x9118 + 12, 0x3ff00000); (0x9118 + 20, 1);
  (0x9200, 0x1000000); (0x9204, 0x1100000); (0x9208, 0x9300);
  (0x9300, 0x6f72); (0x310000, 0x000e29e9); (0x310f00, 0xc3)].

Definition loader_map : list e820_entry := [mk_entry 0 0x9fc00 1; mk_entry 0x100000 0x3ff00000 1].

Lemma guest_parameters_correct_witness :
  ∃ s' m', (multiboot_init MULTIBOOT_BOOTLOADER_MAGIC 0x9000 ;; kvm_init_guest) (mk_bstate e820_boot memory) =
      Done tt (mk_bstate s' m') ∧
    modules_passed memory 0x9000 2 m' FIRMWARE_START ∧
    disjoint_map (guest_e820 m' FIRMWARE_START) ∧
    (∀ x, map_type (guest_e820 m' FIRMWARE_START) x =
      if (_start <=? x) && (x <? _end) then E820_TYPE_RESERVED else map_type loader_map x) ∧
    ∀ i, sizeof_guest_params ≤ i < _binary_firmware_end - _binary_firmware_start →
      rd8 m' (FIRMWARE_START + i) = rd8 memory (_binary_firmware_start + i).
Proof.
  pose proof (guest_parameters_correct memory 0x9000 2 e820_boot) as Hth. cbv zeta in Hth.
  replace (mmap_entries _ _ _ _) with loader_map in Hth by (vm_compute; reflexivity).
  apply Hth.
  - split; [lia|vm_compute; reflexivity|vm_compute; lia|apply cstr_by_eval; vm_compute; reflexivity|
      vm_compute; reflexivity|..]; vm_compute; (left; discriminate) || (right; discriminate).
  - split; try (vm_compute; (reflexivity || discriminate)); vm_compute; (left; discriminate) || (right; discriminate).
  - split; [reflexivity|reflexivity|cbn; lia|cbn; lia|].
    cbn [_start _end layout]. intros x Hx. unfold map_type, loader_map, covers. cbn.
    rewrite (proj2 (Z.leb_le 0x100000 x)), (proj2 (Z.ltb_lt x (1048576 + 1072693248))) by lia. by destruct (_ && _).
  - split; try reflexivity; [cbn; lia|constructor].
  - reflexivity.
  - cbn. lia.
  - intros x [->|[->|[]%not_elem_of_nil]%elem_of_cons]%elem_of_cons; by vm_compute.
Defined.
End Demo.
