(* ===== verification/Firmware.v ===== *)
(** The firmware the guest starts in ([firmware/main.c], [multiboot.c], [elfload.h]): it
    finds the multiboot header of the guest kernel, loads the kernel and enters it with a
    [struct multiboot_info] built from [guest_params].

    Memory is bytes; the copies and the reads of the program headers happen in the order
    of the code, so a copy that overwrites a header is seen by the reads after it.  What
    is printed is left out. *)

From S2P Require Import Prelude Mem CString Machine E820 Boot.
#[local] Open Scope Z_scope.
#[local] Open Scope cint_scope.

Definition MULTIBOOT_SEARCH : Z := 8192.
Definition MULTIBOOT_HEADER_MAGIC : Z := 0x1BADB002.
Definition MULTIBOOT_AOUT_KLUDGE : Z := 0x00010000.
Definition MULTIBOOT_INFO_MEMORY : Z := 0x1.
Definition MULTIBOOT_INFO_CMDLINE : Z := 0x4.
Definition MULTIBOOT_INFO_MODS : Z := 0x8.
Definition VMM_START : Z := 0x10000000.
Definition PT_LOAD : Z := 1.
Definition EI_CLASS : Z := 4.
Definition ELFCLASS32 : Z := 1.
Definition ELFCLASS64 : Z := 2.
Definition sizeof_multiboot_info : Z := 120.
Definition sizeof_mmap_entry : Z := 24.

(** The static variables of [multiboot.c] and the literal ["initrd"]; [elfmag] is
    [ELFMAG], which [memcmp] reads. *)
Class FirmwareLayout : Type := {
  multiboot_info_va : Z;
  mod_list_va : Z;
  mmap_va : Z;
  initrd_text_va : Z;
  elfmag_va : Z;
}.

(** ** Program headers *)

(** [elfload.h] is included once for each class; the macro [ELF] selects the structures
    [elf32_hdr], [elf32_phdr] and [elf64_hdr], [elf64_phdr].  [ec_word] is the size in
    bytes of an address, an offset and a size. *)
Record elf_class : Type := mk_class {
  ec_word : nat;
  ec_entry : Z; ec_phoff : Z; ec_phnum : Z;
  ec_offset : Z; ec_vaddr : Z; ec_paddr : Z; ec_filesz : Z; ec_memsz : Z;
  ec_phdr_size : Z;
}.
Definition elf32 : elf_class := mk_class 4 24 28 44 4 8 12 16 20 32.
Definition elf64 : elf_class := mk_class 8 24 32 56 8 16 24 32 40 56.

Record elf_phdr : Type := mk_phdr {
  p_type : Z; p_offset : Z; p_vaddr : Z; p_paddr : Z; p_filesz : Z; p_memsz : Z;
}.

#[global] Instance elf_class_eq_dec : EqDecision elf_class.
Proof. solve_decision. Defined.

(** The width of the arithmetic on addresses. *)
Definition ec_bits (C : elf_class) : Z := 8 * Z.of_nat (ec_word C).

Definition phdr_at (C : elf_class) (m : bmem) (a : Z) : elf_phdr :=
  let field off := rd_le m (a + off) (ec_word C) in
  mk_phdr (rd32 m a) (field (ec_offset C)) (field (ec_vaddr C)) (field (ec_paddr C))
    (field (ec_filesz C)) (field (ec_memsz C)).

(** The test that the entry is in the segment, and its physical address. *)
Definition relocate_entry (C : elf_class) (p : elf_phdr) (entry : Z) : Z :=
  if (p_vaddr p <=? entry) && (wrap (ec_bits C) (entry - p_vaddr p) <? p_memsz p) then
    u32 (p_paddr p + (entry - p_vaddr p))
  else entry.

(** The body of the loop of [load_elf32] and [load_elf64] on the header at [phdr]. *)
Definition load_segment (C : elf_class) (hdr phdr : Z) (st : bmem * Z) : bmem * Z :=
  let '(m, entry) := st in
  let p := phdr_at C m phdr in
  if negb (p_type p =? PT_LOAD) then (m, entry)
  else
    let dest := p_paddr p in
    let m := memcpy m dest (hdr + p_offset p) (p_filesz p) in
    let p := phdr_at C m phdr in
    let m := memset m (dest + p_filesz p) 0 (wrap (ec_bits C) (p_memsz p - p_filesz p)) in
    (m, relocate_entry C (phdr_at C m phdr) entry).

Definition load_elf (C : elf_class) (m : bmem) (hdr : Z) : bmem * Z :=
  let entry := u32 (rd_le m (hdr + ec_entry C) (ec_word C)) in
  let phdr := hdr + rd_le m (hdr + ec_phoff C) (ec_word C) in
  let n := rd16 m (hdr + ec_phnum C) in
  foldl (λ st i, load_segment C hdr (phdr + i * ec_phdr_size C) st) (m, entry) (seqZ 0 n).

(** ** The header and the information *)

Fixpoint find_header_loop (n : nat) (m : bmem) (start : Z) : option Z :=
  match n with
  | O => None
  | S n => if rd32 m start =? MULTIBOOT_HEADER_MAGIC then Some start else find_header_loop n m (start + 4)
  end.

Definition find_multiboot_header (m : bmem) (base : Z) : option Z :=
  find_header_loop (Z.to_nat ((MULTIBOOT_SEARCH - sizeof_multiboot_info) / 4)) m base.

(** Entry [i] of [mmap]. *)
Definition wr_mmap_entry (m : bmem) (a : Z) (e : e820_entry) : bmem :=
  wr32 (wr64 (wr64 (wr32 m a (sizeof_mmap_entry - 4)) (a + 4) (e_addr e)) (a + 12) (e_size e)) (a + 20) (e_type e).

Section firmware.
Context `{FirmwareLayout}.

(** The code between the search for the header and the information: the entry point, or
    [None] where the function returns. *)
Definition load_image (m : bmem) (image header : Z) : bmem * option Z :=
  if truthy (rd32 m (header + 4) &&& MULTIBOOT_AOUT_KLUDGE) then
    let m := memcpy m (rd32 m (header + 16)) image (u32 (rd32 m (header + 20) - rd32 m (header + 16))) in
    let m := memset m (rd32 m (header + 20)) 0 (u32 (rd32 m (header + 24) - rd32 m (header + 20))) in
    (m, Some (rd32 m (header + 28)))
  else if truthy (memcmp m image elfmag_va 4) then (m, None)
  else
    let c := rd8 m (image + EI_CLASS) in
    if c =? ELFCLASS32 then let '(m, entry) := load_elf elf32 m image in (m, Some entry)
    else if c =? ELFCLASS64 then let '(m, entry) := load_elf elf64 m image in (m, Some entry)
    else (m, None).

(** [guest_params] is at [p]. *)
Definition fill_mmap (m : bmem) (p n : Z) : bmem :=
  foldl (λ m i, wr_mmap_entry m (mmap_va + sizeof_mmap_entry * i)
                  (e820_entry_at m (p + gp_e820_table + sizeof_e820_entry * i))) m (seqZ 0 n).

(** The module of the initrd. *)
Definition fill_mods (m : bmem) (p : Z) : bmem :=
  if rd64 m (p + gp_initrd_start) <? rd64 m (p + gp_initrd_end) then
    let m := wr32 m (multiboot_info_va + 20) 1 in
    let m := wr32 m mod_list_va (rd64 m (p + gp_initrd_start)) in
    let m := wr32 m (mod_list_va + 4) (rd64 m (p + gp_initrd_end)) in
    let m := wr32 m (mod_list_va + 8) initrd_text_va in
    wr32 m (multiboot_info_va + 24) mod_list_va
  else m.

Definition fill_info (m : bmem) (p : Z) : bmem :=
  let info := multiboot_info_va in
  let m := wr32 m info (MULTIBOOT_INFO_MEMORY ||| MULTIBOOT_INFO_CMDLINE |||
                        MULTIBOOT_INFO_MODS ||| MULTIBOOT_INFO_MEM_MAP) in
  let m := wr32 m (info + 4) 0 in
  let m := wr32 m (info + 8) ((VMM_START - 0x100000) / 0x400) in
  let m := wr32 m (info + 16) (p + gp_cmdline) in
  let m := fill_mods m p in
  let n := s32 (rd32 m (p + gp_e820_entries)) in
  let m := fill_mmap m p n in
  let m := wr32 m (info + 48) mmap_va in
  wr32 m (info + 44) (n * sizeof_mmap_entry).

(** The guest is entered with the entry point and [multiboot_info] as arguments; [None]
    where [load_multiboot] returns. *)
Definition load_multiboot (m : bmem) (p : Z) : bmem * option (Z * Z) :=
  let image := rd64 m (p + gp_kernel_start) in
  match find_multiboot_header m image with
  | None => (m, None)
  | Some header =>
      match load_image m image header with
      | (m, None) => (m, None)
      | (m, Some entry) => (fill_info m p, Some (entry, multiboot_info_va))
      end
  end.
End firmware.
