(* ===== verification/FirmwareSpec.v ===== *)
(** What the firmware does with a well-formed kernel image and with the memory map. *)

From S2P Require Import Prelude Mem CString Hexdump Machine E820 E820Map E820Update Boot BootSpec Firmware.
#[local] Open Scope Z_scope.
#[local] Open Scope cint_scope.

(** ** Loading *)

(** The bytes of the segment [p] of the image at [hdr] of [m] are in [m']. *)
Definition segment_loaded (m : bmem) (hdr : Z) (m' : bmem) (p : elf_phdr) : Prop :=
  same_bytes m' (p_paddr p) m (hdr + p_offset p) (p_filesz p) ∧
  ∀ i, p_filesz p ≤ i < p_memsz p → rd8 m' (p_paddr p + i) = 0.

Definition seg_apart (p q : elf_phdr) : Prop := apart (p_paddr p) (p_memsz p) (p_paddr q) (p_memsz q).

Definition in_segment (p : elf_phdr) (v : Z) : Prop := p_vaddr p ≤ v < p_vaddr p + p_memsz p.

(** A segment that can be loaded from an image of [size] bytes at [hdr]. *)
Record segment_ok (hdr size : Z) (p : elf_phdr) : Prop := {
  so_file : 0 ≤ p_offset p ∧ p_offset p + p_filesz p ≤ size;
  so_memsz : 0 ≤ p_filesz p ≤ p_memsz p ∧ p_memsz p < 2 ^ 32;
  so_vaddr : 0 ≤ p_vaddr p;
  so_paddr : 0 ≤ p_paddr p ∧ p_paddr p + p_memsz p ≤ 2 ^ 32;
  so_apart : apart (p_paddr p) (p_memsz p) hdr size;
}.

(** The segments of a list of program headers. *)
Definition loads (ps : list elf_phdr) : list elf_phdr := filter (λ p, p_type p = PT_LOAD) ps.

Section elf.
Context (C : elf_class) (HC : C = elf32 ∨ C = elf64) (m : bmem) (hdr size : Z).

Definition image_same (m' : bmem) : Prop := ∀ b, hdr ≤ b < hdr + size → rd8 m' b = rd8 m b.

(** The program header at [a] lies in the image. *)
Definition header_in (a : Z) : Prop := hdr ≤ a ∧ a + ec_phdr_size C ≤ hdr + size.

Lemma phdr_at_same m' a : image_same m' → header_in a → phdr_at C m' a = phdr_at C m a.
Proof.
  intros Hm [Ha1 Ha2]. unfold phdr_at, rd32.
  f_equal; apply rd_le_ext; intros i Hi; apply Hm; destruct HC as [-> | ->]; cbn in *; lia.
Qed.

Lemma ec_bits_32 : 2 ^ 32 ≤ 2 ^ ec_bits C.
Proof. destruct HC as [-> | ->]; vm_compute; discriminate. Qed.

Lemma relocate_spec p e : segment_ok hdr size p → 0 ≤ e < 2 ^ 32 →
  (in_segment p e → relocate_entry C p e = p_paddr p + (e - p_vaddr p)) ∧
  (¬ in_segment p e → relocate_entry C p e = e).
Proof.
  intros [? ? Hv Hp ?] He. unfold relocate_entry, in_segment.
  assert (p_vaddr p ≤ e → wrap (ec_bits C) (e - p_vaddr p) = e - p_vaddr p) as Hw.
  { intros Hle. apply wrap_small. pose proof ec_bits_32. lia. }
  destruct (Z.leb_spec (p_vaddr p) e) as [Hle|]; cbn [andb]; [|lia]. rewrite Hw by done.
  destruct (Z.ltb_spec (e - p_vaddr p) (p_memsz p)); [|lia]. split; [|lia]. intros _. apply wrap_small. lia.
Qed.

Lemma load_segment_ok a m' e :
  let p := phdr_at C m a in
  image_same m' → header_in a → (p_type p = PT_LOAD → segment_ok hdr size p) →
  ∃ m2, load_segment C hdr a (m', e) =
      (m2, if decide (p_type p = PT_LOAD) then relocate_entry C p e else e) ∧
    image_same m2 ∧
    (p_type p = PT_LOAD → segment_loaded m hdr m2 p) ∧
    (∀ b, (p_type p = PT_LOAD → b < p_paddr p ∨ p_paddr p + p_memsz p ≤ b) → rd8 m2 b = rd8 m' b).
Proof.
  intros p Hm Ha Hp. unfold load_segment. rewrite (phdr_at_same m' a) by done. fold p.
  destruct (Z.eqb_spec (p_type p) PT_LOAD) as [Ht|Ht]; cbn [negb].
  2: { exists m'. rewrite decide_False by done. split_and!; [done|done|by intros|done]. }
  destruct (Hp Ht) as [Hfile Hsz _ Hpa Hap]. unfold apart in Hap. pose proof ec_bits_32.
  set (m1 := memcpy m' _ _ _).
  assert (∀ b, rd8 m1 b = if decide (p_paddr p ≤ b < p_paddr p + p_filesz p)
    then rd8 m' (hdr + p_offset p + (b - p_paddr p)) else rd8 m' b) as Hm1.
  { intros b. unfold m1. rewrite rd8_memcpy by lia. done. }
  assert (image_same m1) as Hi1.
  { intros b Hb. rewrite Hm1, decide_False by lia. by apply Hm. }
  rewrite (phdr_at_same m1 a) by done. fold p. rewrite (wrap_small (ec_bits C)) by lia.
  set (m2 := memset m1 _ _ _).
  assert (∀ b, rd8 m2 b = if decide (p_paddr p + p_filesz p ≤ b < p_paddr p + p_memsz p) then 0 else rd8 m1 b) as Hm2.
  { intros b. unfold m2. rewrite rd8_memset by lia. repeat case_decide; (done || lia). }
  assert (image_same m2) as Hi2.
  { intros b Hb. rewrite Hm2, decide_False by lia. by apply Hi1. }
  exists m2. rewrite (phdr_at_same m2 a), decide_True by done. split_and!; [done|done| |].
  - intros _. split.
    + intros i Hi. rewrite Hm2, decide_False, Hm1, decide_True by lia.
      replace (p_paddr p + i - p_paddr p) with i by lia. apply Hm. lia.
    + intros i Hi. by rewrite Hm2, decide_True by lia.
  - intros b Hb. specialize (Hb Ht). by rewrite Hm2, decide_False, Hm1, decide_False by lia.
Qed.

(** The headers at [xs], in this order. *)
Definition segments (xs : list Z) : list elf_phdr := loads (phdr_at C m <$> xs).

Definition relocate_all (xs : list Z) (e : Z) : Z := foldl (λ e p, relocate_entry C p e) e (segments xs).

Lemma segments_cons a xs : segments (a :: xs) =
  if decide (p_type (phdr_at C m a) = PT_LOAD) then phdr_at C m a :: segments xs else segments xs.
Proof. unfold segments, loads. rewrite fmap_cons, filter_cons. done. Qed.

Lemma load_segments_ok xs m' e :
  image_same m' → Forall header_in xs → Forall (segment_ok hdr size) (segments xs) →
  (∀ i j p q, (i < j)%nat → segments xs !! i = Some p → segments xs !! j = Some q → seg_apart p q) →
  ∃ m2, foldl (λ st a, load_segment C hdr a st) (m', e) xs = (m2, relocate_all xs e) ∧
    image_same m2 ∧
    (∀ p, p ∈ segments xs → segment_loaded m hdr m2 p) ∧
    (∀ b, (∀ p, p ∈ segments xs → b < p_paddr p ∨ p_paddr p + p_memsz p ≤ b) → rd8 m2 b = rd8 m' b).
Proof.
  revert m' e. induction xs as [|a xs IH]; intros m' e Hm Hh Hs Hd.
  { exists m'. split_and!; [done|done| |done]. by intros p ?%not_elem_of_nil. }
  apply Forall_cons in Hh as [Ha Hh]. cbn [foldl].
  destruct (load_segment_ok a m' e Hm Ha) as (m1 & -> & Hm1 & Hl1 & Ho1).
  { intros Ht. rewrite segments_cons, decide_True in Hs by done. by apply Forall_cons in Hs as [? _]. }
  unfold relocate_all. rewrite segments_cons in *. set (p := phdr_at C m a) in *.
  destruct (decide (p_type p = PT_LOAD)) as [Ht|Ht].
  2: { destruct (IH m1 e) as (m2 & Hr & Hm2 & Hl2 & Ho2); [done..|]. exists m2. split_and!; [done..|].
       intros b Hb. by rewrite Ho2, Ho1. }
  apply Forall_cons in Hs as [Hp Hs]. cbn [foldl].
  destruct (IH m1 (relocate_entry C p e)) as (m2 & Hr & Hm2 & Hl2 & Ho2); [done..| |].
  { intros i j q r Hij Hq Hr. by apply (Hd (S i) (S j)); [lia|..]. }
  exists m2. split_and!; [done..| |].
  - assert (∀ b, p_paddr p ≤ b < p_paddr p + p_memsz p → rd8 m2 b = rd8 m1 b) as Hkeep.
    { intros b Hb. apply Ho2. intros q [j Hq]%list_elem_of_lookup.
      specialize (Hd 0%nat (S j) p q ltac:(lia) eq_refl Hq). unfold seg_apart, apart in Hd. lia. }
    intros q [-> |Hq]%elem_of_cons; [|auto]. destruct (Hl1 Ht) as [Hfile Hzero]. destruct Hp.
    split; [intros i Hi; rewrite Hkeep by lia; by apply Hfile|intros i Hi; rewrite Hkeep by lia; by apply Hzero].
  - intros b Hb. rewrite Ho2 by (intros q Hq; apply Hb; by right). apply Ho1. intros _. apply Hb. by left.
Qed.

(** A virtual address is in one segment at most, and no segment is loaded where a later one
    has its virtual addresses. *)
Definition relocates_once (ps : list elf_phdr) : Prop :=
  ∀ i j p q, (i < j)%nat → ps !! i = Some p → ps !! j = Some q →
    apart (p_vaddr p) (p_memsz p) (p_vaddr q) (p_memsz q) ∧ apart (p_paddr p) (p_memsz p) (p_vaddr q) (p_memsz q).

Lemma relocate_none ps e : Forall (segment_ok hdr size) ps → 0 ≤ e < 2 ^ 32 →
  (∀ p, p ∈ ps → ¬ in_segment p e) → foldl (λ e p, relocate_entry C p e) e ps = e.
Proof.
  intros Hs He. induction ps as [|p ps IH]; intros Hno; [done|]. apply Forall_cons in Hs as [Hp Hs].
  cbn [foldl]. rewrite (proj2 (relocate_spec p e Hp He)) by (apply Hno; by left).
  apply IH; [done|]. intros q Hq. apply Hno. by right.
Qed.

Lemma relocate_all_spec ps e p : Forall (segment_ok hdr size) ps → relocates_once ps → 0 ≤ e < 2 ^ 32 →
  p ∈ ps → in_segment p e → foldl (λ e p, relocate_entry C p e) e ps = p_paddr p + (e - p_vaddr p).
Proof.
  intros Hs. induction ps as [|q ps IH]; intros Ho He Hp Hin; [by apply not_elem_of_nil in Hp|].
  apply Forall_cons in Hs as [Hq Hs]. cbn [foldl]. unfold in_segment in *.
  apply elem_of_cons in Hp as [-> |Hp].
  - rewrite (proj1 (relocate_spec q e Hq He)) by done. destruct Hq. apply relocate_none; [done|lia|].
    intros r [j Hr]%list_elem_of_lookup. destruct (Ho 0%nat (S j) q r ltac:(lia) eq_refl Hr) as [_ Ha].
    unfold apart, in_segment in *. lia.
  - rewrite (proj2 (relocate_spec q e Hq He)).
    + apply IH; try done. intros i j r t Hij Hr Ht. by apply (Ho (S i) (S j)); [lia|..].
    + apply list_elem_of_lookup in Hp as [j Hr]. destruct (Ho 0%nat (S j) q p ltac:(lia) eq_refl Hr) as [Ha _].
      unfold apart, in_segment in *. lia.
Qed.
End elf.

(** ** The memory map *)

(** The multiboot entry at [a] is [e], and the next one follows it. *)
Definition mmap_entry_is (m : bmem) (a : Z) (e : e820_entry) : Prop :=
  rd32 m a = 20 ∧ mk_entry (rd64 m (a + 4)) (rd64 m (a + 12)) (rd32 m (a + 20)) = e.

Lemma mmap_entries_read es fuel m a :
  (∀ i e, es !! i = Some e → mmap_entry_is m (a + 24 * Z.of_nat i) e) → (length es ≤ fuel)%nat →
  mmap_entries fuel m a (24 * Z.of_nat (length es)) = es.
Proof.
  revert fuel a. induction es as [|e es IH]; intros fuel a Hes Hf; [by destruct fuel|].
  cbn [length] in *. destruct fuel as [|fuel]; [lia|]. cbn [mmap_entries].
  destruct (Z.ltb_spec 0 (24 * Z.of_nat (S (length es)))); [|lia].
  destruct (Hes 0%nat e eq_refl) as [Hsz He]. rewrite Z.mul_0_r, Z.add_0_r in Hsz, He. rewrite He, Hsz. f_equal.
  replace (24 * Z.of_nat (S (length es)) - (20 + 4)) with (24 * Z.of_nat (length es)) by lia. apply IH; [|lia].
  intros i f Hi. specialize (Hes (S i) f Hi). by replace (a + (20 + 4) + 24 * Z.of_nat i) with (a + 24 * Z.of_nat (S i)) by lia.
Qed.

Lemma mmap_entry_is_ext m m' a b e :
  (∀ i, 0 ≤ i < 24 → rd8 m' (a + i) = rd8 m (b + i)) → mmap_entry_is m b e → mmap_entry_is m' a e.
Proof.
  unfold mmap_entry_is, rd64, rd32. intros Hi [Hs <-].
  assert (∀ d k, 0 ≤ d → d + Z.of_nat k ≤ 24 → rd_le m' (a + d) k = rd_le m (b + d) k) as Hd.
  { intros d k ? ?. apply rd_le_ext. intros i ?. rewrite <- !Z.add_assoc. apply Hi. lia. }
  rewrite !Hd by lia. split; [|done]. rewrite <- (Z.add_0_r a), Hd by lia. by rewrite Z.add_0_r.
Qed.

Lemma wr_mmap_entry_is m a e : entry_fits e → mmap_entry_is (wr_mmap_entry m a e) a e.
Proof.
  intros [Ha Hs Ht]. destruct e as [x y t]. unfold mmap_entry_is, wr_mmap_entry, rd64, rd32, wr32, wr64, sizeof_mmap_entry.
  cbn [e_addr e_size e_type] in *. split; [|f_equal];
    repeat (rewrite rd_le_wr_le_apart by lia); rewrite rd_le_wr_le; apply Z.mod_small; cbn; lia.
Qed.

Lemma rd8_wr_mmap_entry m a e b : b < a ∨ a + 24 ≤ b → rd8 (wr_mmap_entry m a e) b = rd8 m b.
Proof. intros Hb. unfold wr_mmap_entry, wr32, wr64. by rewrite !rd8_wr_le, !decide_False by lia. Qed.

Lemma e820_entry_at_fits m a : entry_fits (e820_entry_at m a).
Proof. split; [apply rd64_bound|apply rd64_bound|apply rd32_bound]. Qed.

Section handover.
Context `{FirmwareLayout}.

(** The loop that fills [mmap], from a table at [p] apart from it. *)
Lemma fill_mmap_ok m p n : 0 ≤ n ≤ 128 → apart mmap_va (24 * 128) p sizeof_guest_params →
  unchanged_outside m (fill_mmap m p n) mmap_va (24 * n) ∧
  ∀ i, 0 ≤ i < n → mmap_entry_is (fill_mmap m p n) (mmap_va + 24 * i) (e820_entry_at m (p + gp_e820_table + sizeof_e820_entry * i)).
Proof.
  intros Hn Ha. unfold fill_mmap. destruct (Z_of_nat_complete n ltac:(lia)) as [k ->].
  unfold apart, gp_e820_table, sizeof_e820_entry, sizeof_guest_params, sizeof_mmap_entry in *.
  induction k as [|k IH]; [split; [done|lia]|]. destruct IH as [Hu He]; [lia|].
  rewrite seqZ_S, foldl_app. cbn [foldl]. rewrite Z.add_0_l.
  set (m1 := foldl _ _ _) in *.
  assert (e820_entry_at m1 (p + 1068 + 20 * Z.of_nat k) = e820_entry_at m (p + 1068 + 20 * Z.of_nat k)) as ->.
  { apply e820_entry_at_ext. intros i Hi. apply Hu. lia. }
  split.
  - intros b Hb. rewrite rd8_wr_mmap_entry by lia. apply Hu. lia.
  - intros i Hi. destruct (decide (i = Z.of_nat k)) as [->|].
    + apply wr_mmap_entry_is, e820_entry_at_fits.
    + apply (mmap_entry_is_ext m1 _ _ (mmap_va + 24 * i)); [|by apply He; lia].
      intros j Hj. apply rd8_wr_mmap_entry. lia.
Qed.

(** The static variables of the firmware and the parameters at [p] are apart, below 4G. *)
Record firmware_data (p : Z) : Prop := {
  fd_info : 0 ≤ multiboot_info_va ∧ multiboot_info_va + sizeof_multiboot_info ≤ 2 ^ 32;
  fd_mods : 0 ≤ mod_list_va ∧ mod_list_va + 16 ≤ 2 ^ 32;
  fd_mmap : 0 ≤ mmap_va ∧ mmap_va + 24 * 128 ≤ 2 ^ 32;
  fd_params : 0 ≤ p ∧ p + sizeof_guest_params ≤ 2 ^ 32;
  fd_info_mods : apart multiboot_info_va sizeof_multiboot_info mod_list_va 16;
  fd_info_mmap : apart multiboot_info_va sizeof_multiboot_info mmap_va (24 * 128);
  fd_mods_mmap : apart mod_list_va 16 mmap_va (24 * 128);
  fd_params_info : apart p sizeof_guest_params multiboot_info_va sizeof_multiboot_info;
  fd_params_mods : apart p sizeof_guest_params mod_list_va 16;
  fd_params_mmap : apart p sizeof_guest_params mmap_va (24 * 128);
}.

Definition initrd_given (m : bmem) (p : Z) : bool :=
  rd64 m (p + gp_initrd_start) <? rd64 m (p + gp_initrd_end).

(** What the kernel reads, with the parameters at [p] of [m]. *)
Record info_given (m : bmem) (p : Z) (m' : bmem) : Prop := {
  ig_flags : rd32 m' multiboot_info_va =
    MULTIBOOT_INFO_MEMORY ||| MULTIBOOT_INFO_CMDLINE ||| MULTIBOOT_INFO_MODS ||| MULTIBOOT_INFO_MEM_MAP;
  ig_cmdline : rd32 m' (multiboot_info_va + 16) = p + gp_cmdline;
  ig_params : same_bytes m' p m p sizeof_guest_params;
  ig_initrd : initrd_given m p = true →
    mi_mods_count (multiboot_info_at m' multiboot_info_va) = 1 ∧
    multiboot_mod_at m' (mi_mods_addr (multiboot_info_at m' multiboot_info_va)) =
      mk_mod (u32 (rd64 m (p + gp_initrd_start))) (u32 (rd64 m (p + gp_initrd_end))) (u32 initrd_text_va);
  ig_map : let len := mi_mmap_length (multiboot_info_at m' multiboot_info_va) in
    mmap_entries (Z.to_nat len) m' (mi_mmap_addr (multiboot_info_at m' multiboot_info_va)) len = guest_e820 m p;
}.

Ltac places := unfold apart, gp_cmdline, gp_initrd_start, gp_initrd_end, gp_e820_table, gp_e820_entries,
  sizeof_e820_entry, sizeof_multiboot_info, sizeof_guest_params, sizeof_mmap_entry in *.

(** The stores before the memory map. *)
Definition info_head (m : bmem) (p : Z) : bmem :=
  let info := multiboot_info_va in
  wr32 (wr32 (wr32 (wr32 m info (MULTIBOOT_INFO_MEMORY ||| MULTIBOOT_INFO_CMDLINE ||| MULTIBOOT_INFO_MODS |||
    MULTIBOOT_INFO_MEM_MAP)) (info + 4) 0) (info + 8) ((VMM_START - 0x100000) / 0x400)) (info + 16) (p + gp_cmdline).
Definition info_mods (m : bmem) (start end_ : Z) : bmem :=
  wr32 (wr32 (wr32 (wr32 (wr32 m (multiboot_info_va + 20) 1) mod_list_va start) (mod_list_va + 4) end_)
    (mod_list_va + 8) initrd_text_va) (multiboot_info_va + 24) mod_list_va.
Definition info_written (m : bmem) (p : Z) : bmem :=
  if initrd_given m p then
    info_mods (info_head m p) (rd64 m (p + gp_initrd_start)) (rd64 m (p + gp_initrd_end))
  else info_head m p.

Section filled.
Context (m : bmem) (p : Z) (Hfd : firmware_data p).

Lemma info_written_other b : b < multiboot_info_va ∨ multiboot_info_va + 44 ≤ b → b < mod_list_va ∨ mod_list_va + 16 ≤ b →
  rd8 (info_written m p) b = rd8 m b.
Proof.
  intros H1 H2. unfold info_written, info_mods, info_head, wr32.
  destruct (initrd_given m p); by rewrite !rd8_wr_le, !decide_False by lia.
Qed.

Lemma rd_params a k : p ≤ a → a + Z.of_nat k ≤ p + sizeof_guest_params → rd_le (info_written m p) a k = rd_le m a k.
Proof. destruct Hfd. places. intros. apply rd_le_ext. intros i Hi. apply info_written_other; lia. Qed.

Lemma fill_mods_eq : fill_mods (info_head m p) p = info_written m p.
Proof.
  assert (∀ m0 d v, (∀ a, p ≤ a → a + 8 ≤ p + sizeof_guest_params → rd64 m0 a = rd64 m a) →
    (multiboot_info_va ≤ d ∧ d + 4 ≤ multiboot_info_va + 120) ∨ (mod_list_va ≤ d ∧ d + 4 ≤ mod_list_va + 16) →
    ∀ a, p ≤ a → a + 8 ≤ p + sizeof_guest_params → rd64 (wr32 m0 d v) a = rd64 m a) as Hrd.
  { intros m0 d v H0 Hd a ? ?. rewrite <- H0 by done. apply rd_le_wr_le_apart. destruct Hfd. places. lia. }
  assert (∀ a, p ≤ a → a + 8 ≤ p + sizeof_guest_params → rd64 (info_head m p) a = rd64 m a) as Hh.
  { unfold info_head. repeat (apply Hrd; [|lia]). done. }
  assert (∀ m0, (∀ a, p ≤ a → a + 8 ≤ p + sizeof_guest_params → rd64 m0 a = rd64 m a) →
    rd64 m0 (p + gp_initrd_start) = rd64 m (p + gp_initrd_start) ∧ rd64 m0 (p + gp_initrd_end) = rd64 m (p + gp_initrd_end)) as Hse.
  { intros m0 H0. places. split; apply H0; lia. }
  unfold fill_mods, info_written, initrd_given, info_mods. destruct (Hse _ Hh) as [-> ->]. case_match; [|done].
  assert (∀ a, p ≤ a → a + 8 ≤ p + sizeof_guest_params → rd64 (wr32 (info_head m p) (multiboot_info_va + 20) 1) a = rd64 m a)
    as H1 by (apply Hrd; [done|lia]).
  destruct (Hse _ H1) as [-> _]. set (v := rd64 m (p + gp_initrd_start)).
  assert (∀ a, p ≤ a → a + 8 ≤ p + sizeof_guest_params →
    rd64 (wr32 (wr32 (info_head m p) (multiboot_info_va + 20) 1) mod_list_va v) a = rd64 m a)
    as H2 by (apply Hrd; [done|lia]).
  by destruct (Hse _ H2) as [_ ->].
Qed.

Lemma info_written_fields :
  rd32 (info_written m p) multiboot_info_va = 0x4d ∧ rd32 (info_written m p) (multiboot_info_va + 16) = p + gp_cmdline ∧
  (initrd_given m p = true →
    rd32 (info_written m p) (multiboot_info_va + 20) = 1 ∧ rd32 (info_written m p) (multiboot_info_va + 24) = mod_list_va ∧
    multiboot_mod_at (info_written m p) mod_list_va =
      mk_mod (u32 (rd64 m (p + gp_initrd_start))) (u32 (rd64 m (p + gp_initrd_end))) (u32 initrd_text_va)).
Proof.
  destruct Hfd. places. unfold info_written, info_mods, info_head, multiboot_mod_at, rd32, wr32.
  destruct (initrd_given m p); split_and!; try done; intros; split_and?;
    repeat (rewrite rd_le_wr_le_apart by lia); rewrite ?rd_le_wr_le;
    first [reflexivity | apply Z.mod_small; cbn; lia | f_equal; repeat (rewrite rd_le_wr_le_apart by lia); by rewrite rd_le_wr_le].
Qed.

Lemma fill_info_ok : rd32 m (p + gp_e820_entries) ≤ 128 →
  info_given m p (fill_info m p) ∧
  ∀ b, b < multiboot_info_va ∨ multiboot_info_va + sizeof_multiboot_info ≤ b → b < mod_list_va ∨ mod_list_va + 16 ≤ b →
    b < mmap_va ∨ mmap_va + 24 * 128 ≤ b → rd8 (fill_info m p) b = rd8 m b.
Proof.
  intros Hn. pose proof (rd32_bound m (p + gp_e820_entries)) as Hn0. unfold fill_info. fold (info_head m p). rewrite fill_mods_eq.
  assert (rd32 (info_written m p) (p + gp_e820_entries) = rd32 m (p + gp_e820_entries)) as ->.
  { apply rd_params; places; lia. }
  rewrite s32_small by lia. set (n := rd32 m (p + gp_e820_entries)) in *. pose proof Hfd as [].
  destruct (fill_mmap_ok (info_written m p) p n) as [Hu He]; [lia|places; lia|].
  set (m1 := fill_mmap _ _ _) in *. set (m2 := wr32 _ _ _).
  assert (∀ b, b < multiboot_info_va + 44 ∨ multiboot_info_va + 52 ≤ b → rd8 m2 b = rd8 m1 b) as Hm2.
  { intros b Hb. unfold m2, wr32. by rewrite !rd8_wr_le, !decide_False by lia. }
  assert (rd32 m2 (multiboot_info_va + 44) = 24 * n ∧ rd32 m2 (multiboot_info_va + 48) = mmap_va) as [Hlen Hva].
  { unfold m2, rd32, wr32, sizeof_mmap_entry. split; repeat (rewrite rd_le_wr_le_apart by lia); rewrite rd_le_wr_le;
      change (256 ^ Z.of_nat 4) with (2 ^ 32); rewrite Z.mod_small; lia. }
  assert (∀ b, b < multiboot_info_va + 44 ∨ multiboot_info_va + 52 ≤ b → b < mmap_va ∨ mmap_va + 24 * 128 ≤ b →
    rd8 m2 b = rd8 (info_written m p) b) as Hkeep by (intros; rewrite Hm2 by done; apply Hu; lia).
  assert (∀ a k, a + Z.of_nat k ≤ multiboot_info_va + 44 ∨ multiboot_info_va + 52 ≤ a →
    a + Z.of_nat k ≤ mmap_va ∨ mmap_va + 24 * 128 ≤ a → rd_le m2 a k = rd_le (info_written m p) a k) as Hrd.
  { intros a k ? ?. apply rd_le_ext. intros i Hi. apply Hkeep; lia. }
  destruct info_written_fields as (Hf1 & Hf2 & Hf3). unfold rd32 in Hf1, Hf2, Hf3. places. split; [split|].
  - unfold rd32. rewrite Hrd by lia. exact Hf1.
  - unfold rd32. rewrite Hrd by lia. exact Hf2.
  - places. intros i Hi. rewrite Hkeep by lia. apply info_written_other; lia.
  - intros Hg. destruct (Hf3 Hg) as (H1 & H2 & H3). places. unfold multiboot_info_at. cbn [mi_mods_count mi_mods_addr].
    unfold rd32. rewrite !Hrd, H1, H2 by lia. split; [done|]. rewrite <- H3. unfold multiboot_mod_at, rd32.
    by rewrite !Hrd by lia.
  - unfold multiboot_info_at. cbn [mi_mmap_length mi_mmap_addr]. rewrite Hlen, Hva.
    replace (24 * n) with (24 * Z.of_nat (length (guest_e820 m p))) by (unfold guest_e820, gp_e820_entries; rewrite length_fmap, length_seqZ; fold n; lia).
    apply mmap_entries_read; [|lia]. intros i e (j & -> & [-> Hj]%lookup_seqZ)%list_lookup_fmap_Some.
    rewrite Z.add_0_l. places. apply (mmap_entry_is_ext m1 _ _ (mmap_va + 24 * Z.of_nat i)).
    { intros k Hk. apply Hm2. lia. }
    assert (e820_entry_at m (p + 1068 + 20 * Z.of_nat i) = e820_entry_at (info_written m p) (p + 1068 + 20 * Z.of_nat i)) as ->.
    { apply e820_entry_at_ext. intros k Hk. symmetry. apply info_written_other; lia. }
    apply He. lia.
  - intros b Hb1 Hb2 Hb3. rewrite Hkeep by lia. apply info_written_other; lia.
Qed.
End filled.
End handover.

(** ** Loading the kernel *)

(** The addresses of the program headers of the image at [hdr], and its entry point. *)
Definition phdr_addrs (C : elf_class) (m : bmem) (hdr : Z) : list Z :=
  (λ i, hdr + rd_le m (hdr + ec_phoff C) (ec_word C) + i * ec_phdr_size C) <$> seqZ 0 (rd16 m (hdr + ec_phnum C)).
Definition elf_entry (C : elf_class) (m : bmem) (hdr : Z) : Z := u32 (rd_le m (hdr + ec_entry C) (ec_word C)).
Definition elf_segments (C : elf_class) (m : bmem) (hdr : Z) : list elf_phdr := segments C m (phdr_addrs C m hdr).

(** An image of [size] bytes whose segments can be loaded. *)
Record elf_ok (C : elf_class) (m : bmem) (hdr size : Z) : Prop := {
  eo_class : C = elf32 ∨ C = elf64;
  eo_headers : Forall (header_in C hdr size) (phdr_addrs C m hdr);
  eo_segments : Forall (segment_ok hdr size) (elf_segments C m hdr);
  eo_apart : ∀ i j p q, (i < j)%nat → elf_segments C m hdr !! i = Some p → elf_segments C m hdr !! j = Some q → seg_apart p q;
  eo_once : relocates_once (elf_segments C m hdr);
}.

(** The entry point [r]: the physical address of the virtual one. *)
Definition entry_located (C : elf_class) (m : bmem) (hdr r : Z) : Prop :=
  (∀ p, p ∈ elf_segments C m hdr → in_segment p (elf_entry C m hdr) → r = p_paddr p + (elf_entry C m hdr - p_vaddr p)) ∧
  ((∀ p, p ∈ elf_segments C m hdr → ¬ in_segment p (elf_entry C m hdr)) → r = elf_entry C m hdr).

Lemma load_elf_spec C m hdr size : elf_ok C m hdr size →
  ∃ m' r, load_elf C m hdr = (m', r) ∧ entry_located C m hdr r ∧
    (∀ p, p ∈ elf_segments C m hdr → segment_loaded m hdr m' p) ∧
    ∀ b, (∀ p, p ∈ elf_segments C m hdr → b < p_paddr p ∨ p_paddr p + p_memsz p ≤ b) → rd8 m' b = rd8 m b.
Proof.
  intros [HC Hh Hs Hd Ho]. unfold load_elf. fold (elf_entry C m hdr).
  destruct (load_segments_ok C HC m hdr size (phdr_addrs C m hdr) m (elf_entry C m hdr)) as (m' & Hr & _ & Hl & Hu); [done..|].
  unfold phdr_addrs in Hr. rewrite foldl_fmap in Hr. exists m', (relocate_all C m (phdr_addrs C m hdr) (elf_entry C m hdr)).
  split; [exact Hr|]. assert (0 ≤ elf_entry C m hdr < 2 ^ 32) as He by (apply wrap_bound; lia).
  split; [|done]. unfold relocate_all. fold (elf_segments C m hdr). split.
  - intros p Hp Hin. by apply (relocate_all_spec C HC hdr size).
  - by apply (relocate_none C HC hdr size).
Qed.

(** C18: [load_elf32] and [load_elf64] on an image whose segments are apart from it and from
    each other: every loadable segment is in memory at its physical address, filled up
    with zeros; no other byte changes; and the entry point answered is the physical
    address of the virtual one. *)
Theorem load_elf_correct C m hdr size : elf_ok C m hdr size →
  ∃ m' r, load_elf C m hdr = (m', r) ∧ entry_located C m hdr r ∧
    (∀ p, p ∈ elf_segments C m hdr → segment_loaded m hdr m' p) ∧
    ∀ b, (∀ p, p ∈ elf_segments C m hdr → b < p_paddr p ∨ p_paddr p + p_memsz p ≤ b) → rd8 m' b = rd8 m b.
Proof.
  apply load_elf_spec.
Qed.

(** ** The whole of [load_multiboot] *)

(** The words searched for the header. *)
Definition header_words : nat := Z.to_nat ((MULTIBOOT_SEARCH - sizeof_multiboot_info) / 4).

Lemma find_header_spec n m start :
  match find_header_loop n m start with
  | Some h => ∃ i : nat, (i < n)%nat ∧ h = start + 4 * Z.of_nat i ∧ rd32 m h = MULTIBOOT_HEADER_MAGIC ∧
      ∀ j : nat, (j < i)%nat → rd32 m (start + 4 * Z.of_nat j) ≠ MULTIBOOT_HEADER_MAGIC
  | None => ∀ j : nat, (j < n)%nat → rd32 m (start + 4 * Z.of_nat j) ≠ MULTIBOOT_HEADER_MAGIC
  end.
Proof.
  revert start. induction n as [|n IH]; intros start; cbn [find_header_loop]; [lia|].
  destruct (Z.eqb_spec (rd32 m start) MULTIBOOT_HEADER_MAGIC) as [Hm|Hm].
  { exists 0%nat. split_and!; [lia|lia|done|lia]. }
  assert (∀ j : nat, start + 4 * Z.of_nat (S j) = start + 4 + 4 * Z.of_nat j) as Hj by lia. specialize (IH (start + 4)).
  destruct (find_header_loop n m (start + 4)) as [h|].
  - destruct IH as (i & Hi & -> & Hh & Hno). exists (S i). rewrite Hj. split_and!; [lia|done|done|].
    intros [|j] Hlt; [by replace (start + 4 * Z.of_nat 0) with start by lia|]. rewrite Hj. apply Hno. lia.
  - intros [|j] Hlt; [by replace (start + 4 * Z.of_nat 0) with start by lia|]. rewrite Hj. apply IH. lia.
Qed.

Section load.
Context `{FirmwareLayout}.

(** An ELF kernel of class [C] and [size] bytes that the firmware accepts, loaded where the
    firmware has nothing of its own. *)
Record kernel_ok (C : elf_class) (m : bmem) (p size : Z) : Prop := {
  ko_elf : elf_ok C m (rd64 m (p + gp_kernel_start)) size;
  ko_header : ∃ i : nat, (i < header_words)%nat ∧ rd32 m (rd64 m (p + gp_kernel_start) + 4 * Z.of_nat i) = MULTIBOOT_HEADER_MAGIC;
  ko_flags : ∀ h, find_multiboot_header m (rd64 m (p + gp_kernel_start)) = Some h →
    truthy (rd32 m (h + 4) &&& MULTIBOOT_AOUT_KLUDGE) = false;
  ko_magic : same_bytes m (rd64 m (p + gp_kernel_start)) m elfmag_va 4;
  ko_class : rd8 m (rd64 m (p + gp_kernel_start) + EI_CLASS) = if decide (C = elf32) then ELFCLASS32 else ELFCLASS64;
  ko_apart : ∀ s, s ∈ elf_segments C m (rd64 m (p + gp_kernel_start)) →
    apart (p_paddr s) (p_memsz s) p sizeof_guest_params ∧
    apart (p_paddr s) (p_memsz s) multiboot_info_va sizeof_multiboot_info ∧
    apart (p_paddr s) (p_memsz s) mod_list_va 16 ∧ apart (p_paddr s) (p_memsz s) mmap_va (24 * 128);
}.

Lemma load_image_elf C m p size h : kernel_ok C m p size →
  find_multiboot_header m (rd64 m (p + gp_kernel_start)) = Some h →
  load_image m (rd64 m (p + gp_kernel_start)) h =
    (let '(m', r) := load_elf C m (rd64 m (p + gp_kernel_start)) in (m', Some r)).
Proof.
  intros [[HC _ _ _ _] _ Hf Hmagic Hc _] Hh. unfold load_image. rewrite (Hf h Hh).
  rewrite (proj2 (memcmp_zero _ _ _ 4 ltac:(lia)) Hmagic). cbn [truthy Z.eqb negb]. rewrite Hc.
  by destruct HC as [-> | ->].
Qed.

Lemma info_given_same m1 m p m' : same_bytes m1 p m p sizeof_guest_params →
  rd32 m (p + gp_e820_entries) ≤ 128 → info_given m1 p m' → info_given m p m'.
Proof.
  intros Hs Hn [H1 H2 H3 H4 H5].
  assert (∀ d, 0 ≤ d → d + 8 ≤ sizeof_guest_params → rd64 m1 (p + d) = rd64 m (p + d)) as Hd.
  { intros d ? ?. apply rd_le_ext. intros i Hi. rewrite <- !Z.add_assoc. apply Hs. lia. }
  assert (initrd_given m1 p = initrd_given m p) as Hi by (unfold initrd_given; rewrite !Hd by (vm_compute; discriminate); done).
  split; [done|done| | |].
  - intros i ?. rewrite H3 by done. by apply Hs.
  - rewrite <- Hi, <- !Hd by (vm_compute; discriminate). exact H4.
  - cbv zeta in *. rewrite H5. apply guest_e820_copy; [|done]. unfold gp_e820_entries. intros i ?. apply Hs. lia.
Qed.

Lemma load_multiboot_spec C m p size : kernel_ok C m p size → firmware_data p → rd32 m (p + gp_e820_entries) ≤ 128 →
  ∃ m' r, load_multiboot m p = (m', Some (r, multiboot_info_va)) ∧
    entry_located C m (rd64 m (p + gp_kernel_start)) r ∧
    (∀ s, s ∈ elf_segments C m (rd64 m (p + gp_kernel_start)) → segment_loaded m (rd64 m (p + gp_kernel_start)) m' s) ∧
    info_given m p m'.
Proof.
  intros Hk Hfd Hn. pose proof Hk as [Helf (i & Hi & Hmg) _ _ _ Hap].
  pose proof (find_header_spec header_words m (rd64 m (p + gp_kernel_start))) as Hfind. unfold load_multiboot.
  change (find_header_loop header_words m) with (find_multiboot_header m) in Hfind.
  destruct (find_multiboot_header _ _) as [h|] eqn:Hh; [clear Hfind|by destruct (Hfind i Hi)].
  rewrite (load_image_elf C m p size h Hk Hh). set (hdr := rd64 m (p + gp_kernel_start)) in *.
  destruct (load_elf_spec C m hdr size Helf) as (m1 & r & -> & Hr & Hl & Hu).
  assert (same_bytes m1 p m p sizeof_guest_params) as Hsame.
  { intros j Hj. apply Hu. intros s Hs. destruct (Hap s Hs) as [Ha _]. unfold apart in Ha. lia. }
  assert (rd32 m1 (p + gp_e820_entries) = rd32 m (p + gp_e820_entries)) as Hn1.
  { apply rd_le_ext. intros j Hj. rewrite <- !Z.add_assoc. apply Hsame. unfold gp_e820_entries, sizeof_guest_params. lia. }
  destruct (fill_info_ok m1 p Hfd ltac:(lia)) as [Hg Hout].
  exists (fill_info m1 p), r. split; [done|]. split; [done|]. split; [|by eapply info_given_same].
  intros s Hs. destruct (Hap s Hs) as (_ & H1 & H2 & H3). destruct (Hl s Hs) as [Hfile Hzero].
  destruct Helf as [_ _ Hok _ _]. rewrite Forall_forall in Hok. destruct (Hok s Hs) as [_ Hsz _ _ _]. unfold apart in *.
  split; intros j Hj; rewrite Hout by lia; [by apply Hfile|by apply Hzero].
Qed.

End load.

(** ** Example *)

(** A 32-bit kernel linked at 0x80000000 and loaded at 1M. *)
Module FirmwareDemo.
#[local] Instance layout : FirmwareLayout := {|
  multiboot_info_va := 0x6000; mod_list_va := 0x6080; mmap_va := 0x6100; initrd_text_va := 0x5f00; elfmag_va := 0x5f10;
|}.

Definition memory : bmem := Demo.words ∅ [
  (0x5f10, 0x464c457f);
  (0x1000 + 8, 0x20000); (0x1000 + 24, 0x500000); (0x1000 + 32, 0x600000); (0x1000 + 1064, 1);
  (0x1000 + 1068, 0x100000); (0x1000 + 1068 + 8, 0x3ff00000); (0x1000 + 1068 + 16, 1);
  (0x20000, 0x464c457f); (0x20004, 1); (0x20000 + 24, 0x80000004); (0x20000 + 28, 52); (0x20000 + 44, 1);
  (0x20034, 1); (0x20034 + 4, 0x80); (0x20034 + 8, 0x80000000); (0x20034 + 12, 0x100000);
  (0x20034 + 16, 8); (0x20034 + 20, 16); (0x20054, 0x1badb002); (0x20080, 0xfa); (0x20084, 0xf4)].

Definition text_segment : elf_phdr := mk_phdr 1 0x80 0x80000000 0x100000 8 16.

Lemma memory_segments : elf_segments elf32 memory 0x20000 = [text_segment].
Proof. vm_compute. reflexivity. Qed.

Lemma memory_elf : elf_ok elf32 memory 0x20000 0x100.
Proof.
  split; rewrite ?memory_segments.
  - by left.
  - replace (phdr_addrs elf32 memory 0x20000) with [0x20034] by (vm_compute; reflexivity).
    constructor; [split; vm_compute; discriminate|constructor].
  - constructor; [|constructor]. split; unfold apart; cbn; lia.
  - intros [|i] [|j] p q Hij Hp Hq; (lia || done).
  - intros [|i] [|j] p q Hij Hp Hq; (lia || done).
Qed.

Lemma load_elf_correct_witness :
  ∃ m' r, load_elf elf32 memory 0x20000 = (m', r) ∧ entry_located elf32 memory 0x20000 r ∧
    (∀ p, p ∈ elf_segments elf32 memory 0x20000 → segment_loaded memory 0x20000 m' p) ∧
    ∀ b, (∀ p, p ∈ elf_segments elf32 memory 0x20000 → b < p_paddr p ∨ p_paddr p + p_memsz p ≤ b) → rd8 m' b = rd8 memory b.
Proof. apply (load_elf_correct elf32 memory 0x20000 0x100), memory_elf. Defined.

End FirmwareDemo.
