(* ===== verification/Traps.v ===== *)
(** Interrupts: [kernel/idt.c], [kernel/traps.c] and [kernel/i8259.c].

    The descriptor tables are bytes of memory, stored field by field as the packed
    structures have them.  The three descriptor-table registers are fields of the state
    ([lgdt], [lidt], [ltr]).  The handlers are labels of [kernel/entry.S]; their addresses
    are a parameter. *)

From S2P Require Import Prelude Bitops Mem CString Machine Tsc PerCpu Apic Vmx.
#[local] Open Scope Z_scope.
#[local] Open Scope cint_scope.

(** ** Addresses *)

(** The entry points of [entry.S] that [asm/traps.h] declares and [idt.c] uses. *)
Inductive handler : Type :=
  | divide_error | bounds | invalid_op | device_not_available | coprocessor_segment_overrun
  | invalid_TSS | segment_not_present | stack_segment | general_protection | page_fault
  | spurious_interrupt_bug | coprocessor_error | alignment_check | simd_coprocessor_error
  | double_fault | overflow | apic_timer_interrupt | spurious_interrupt | error_interrupt.

Class TrapLayout : Type := {
  handler_addr : handler → Z;
  idt_table : Z;
  cpu_entry_area : Z;
  cpu_stacks : Z;
  do_syscall_64 : Z;
  do_syscall_32 : Z;
}.

Definition __ENTRY_OFFSET : Z := 0xffff800000000000.
Definition __ENTRY_ADDR (x : Z) : Z := u64 (x + __ENTRY_OFFSET).

(** ** Data *)

Definition X86_TRAP_DE : Z := 0.
Definition X86_TRAP_OF : Z := 4.
Definition X86_TRAP_BR : Z := 5.
Definition X86_TRAP_UD : Z := 6.
Definition X86_TRAP_NM : Z := 7.
Definition X86_TRAP_DF : Z := 8.
Definition X86_TRAP_OLD_MF : Z := 9.
Definition X86_TRAP_TS : Z := 10.
Definition X86_TRAP_NP : Z := 11.
Definition X86_TRAP_SS : Z := 12.
Definition X86_TRAP_GP : Z := 13.
Definition X86_TRAP_PF : Z := 14.
Definition X86_TRAP_SPURIOUS : Z := 15.
Definition X86_TRAP_MF : Z := 16.
Definition X86_TRAP_AC : Z := 17.
Definition X86_TRAP_XF : Z := 19.

Definition IDT_ENTRIES : Z := 256.
Definition GATE_INTERRUPT : Z := 0xE.
Definition DESC_TSS : Z := 0x9.
Definition DESC_LDT : Z := 0x2.
Definition DPL0 : Z := 0.
Definition DPL3 : Z := 3.
Definition DEFAULT_STACK : Z := 0.
Definition INVALID_IO_BITMAP_OFFSET : Z := 0x8000.
Definition sizeof_tss : Z := 104.
Definition KERNEL_TSS_LIMIT : Z := sizeof_tss - 1.
Definition GDT_SIZE : Z := 16 * 8.
Definition USER_CS : Z := 6 * 8 + 3.

(** [struct idt_bits] and the 16 bits it packs. *)
Record idt_bits : Type := mk_bits { ist : Z; zero : Z; type : Z; dpl : Z; p : Z }.
Definition idt_bits_word (b : idt_bits) : Z :=
  (ist b &&& 7) ||| ((zero b &&& 31) <<< 3) ||| ((type b &&& 31) <<< 8) ||| ((dpl b &&& 3) <<< 13) ||| ((p b &&& 1) <<< 15).

Record idt_data : Type := mk_idt { vector : Z; segment : Z; bits : idt_bits; addr : Z }.

(** [struct gate_desc], 16 bytes. *)
Record gate_desc : Type := mk_gate {
  offset_low : Z; gate_segment : Z; gate_bits : idt_bits; offset_middle : Z; offset_high : Z; reserved : Z;
}.

(** [write_idt_entry] *)
Definition write_idt_entry (m : bmem) (idt entry : Z) (g : gate_desc) : bmem :=
  let a := idt + 16 * entry in
  wr32 (wr32 (wr16 (wr16 (wr16 (wr16 m a (offset_low g)) (a + 2) (gate_segment g))
    (a + 4) (idt_bits_word (gate_bits g))) (a + 6) (offset_middle g)) (a + 8) (offset_high g)) (a + 12) (reserved g).

Definition G (vec ad stk ty dp seg : Z) : idt_data := mk_idt vec seg (mk_bits stk 0 ty dp 1) ad.
Definition INTG (vec ad : Z) : idt_data := G vec ad DEFAULT_STACK GATE_INTERRUPT DPL0 KERNEL_CS.
Definition SYSG (vec ad : Z) : idt_data := G vec ad DEFAULT_STACK GATE_INTERRUPT DPL3 KERNEL_CS.
Definition ISTG (vec ad stk : Z) : idt_data := G vec ad stk GATE_INTERRUPT DPL0 KERNEL_CS.

Definition idt_init_desc (d : idt_data) : gate_desc :=
  let ad := __ENTRY_ADDR (addr d) in
  mk_gate (u16 ad) (u16 (segment d)) (bits d) (u16 (ad >>> 16)) (u32 (ad >>> 32)) 0.

(** ** State *)

Record trap_state : Type := mk_traps {
  t_mem : bmem;
  system_vectors : list Z;
  idtr : option (Z * Z);
  gdtr : option (Z * Z);
  task_register : Z;
}.
Definition set_t_mem (f : bmem → bmem) (s : trap_state) : trap_state :=
  mk_traps (f (t_mem s)) (system_vectors s) (idtr s) (gdtr s) (task_register s).
Definition set_system_vectors (f : list Z → list Z) (s : trap_state) : trap_state :=
  mk_traps (t_mem s) (f (system_vectors s)) (idtr s) (gdtr s) (task_register s).
Definition load_idt (address size : Z) : M trap_state unit :=
  modify (λ s, mk_traps (t_mem s) (system_vectors s) (Some (address, size)) (gdtr s) (task_register s)).
Definition load_gdt (address size : Z) : M trap_state unit :=
  modify (λ s, mk_traps (t_mem s) (system_vectors s) (idtr s) (Some (address, size)) (task_register s)).
Definition load_tr_desc (entry : Z) : M trap_state unit :=
  modify (λ s, mk_traps (t_mem s) (system_vectors s) (idtr s) (gdtr s) (u16 (entry * 8))).

Section tables.
Context `{TrapLayout}.

(** ** [idt.c] *)

Definition def_idts : list idt_data := [
  INTG X86_TRAP_DE (handler_addr divide_error);
  INTG X86_TRAP_BR (handler_addr bounds);
  INTG X86_TRAP_UD (handler_addr invalid_op);
  INTG X86_TRAP_NM (handler_addr device_not_available);
  INTG X86_TRAP_OLD_MF (handler_addr coprocessor_segment_overrun);
  INTG X86_TRAP_TS (handler_addr invalid_TSS);
  INTG X86_TRAP_NP (handler_addr segment_not_present);
  INTG X86_TRAP_SS (handler_addr stack_segment);
  INTG X86_TRAP_GP (handler_addr general_protection);
  INTG X86_TRAP_PF (handler_addr page_fault);
  INTG X86_TRAP_SPURIOUS (handler_addr spurious_interrupt_bug);
  INTG X86_TRAP_MF (handler_addr coprocessor_error);
  INTG X86_TRAP_AC (handler_addr alignment_check);
  INTG X86_TRAP_XF (handler_addr simd_coprocessor_error);
  INTG X86_TRAP_DF (handler_addr double_fault);
  SYSG X86_TRAP_OF (handler_addr overflow)].

Definition apic_idts : list idt_data := [
  INTG LOCAL_TIMER_VECTOR (handler_addr apic_timer_interrupt);
  INTG SPURIOUS_APIC_VECTOR (handler_addr spurious_interrupt);
  INTG ERROR_APIC_VECTOR (handler_addr error_interrupt)].

Definition ist_idts : list idt_data := [ISTG X86_TRAP_DF (handler_addr double_fault) DOUBLEFAULT_STACK].

(** [idt_setup_from_table] on [idt_table], with the elements of the table as a list. *)
Definition idt_setup_from_table (t : list idt_data) (sys : bool) : M trap_state unit :=
  for_each t (λ d,
    modify (set_t_mem (λ m, write_idt_entry m idt_table (vector d) (idt_init_desc d))) ;;
    when sys (modify (set_system_vectors (set_bit (vector d) 0)))).

Definition set_intr_gate (n ad : Z) : M trap_state unit :=
  BUG_ON (0xff <? n) ;;
  idt_setup_from_table [mk_idt n KERNEL_CS (mk_bits 0 0 GATE_INTERRUPT 0 1) ad] false.

Definition idt_setup_traps : M trap_state unit :=
  idt_setup_from_table def_idts true ;;
  load_idt (__ENTRY_ADDR idt_table) (IDT_ENTRIES * 16 - 1).

Definition idt_setup_ist_traps : M trap_state unit := idt_setup_from_table ist_idts true.

(** One round of [for_each_clear_bit_from]. *)
Definition clear_vectors_step (i : Z) : M trap_state (Z + unit) :=
  v ← gets system_vectors;
  match find_next_zero_bit v NR_VECTORS i with
  | None => out_of_fuel
  | Some i =>
      if i <? NR_VECTORS then
        modify (set_system_vectors (set_bit i 0)) ;;
        set_intr_gate i (handler_addr spurious_interrupt) ;;
        mret (inl (i + 1))
      else mret (inr tt)
  end.

Definition idt_setup_apic_and_irq_gates : M trap_state unit :=
  idt_setup_from_table apic_idts true ;;
  loop clear_vectors_step FIRST_EXTERNAL_VECTOR.

Definition update_intr_gate (n ad : Z) : M trap_state unit :=
  v ← gets system_vectors;
  BUG_ON (negb (variable_test_bit n v)) ;;
  set_intr_gate n ad.

(** ** [traps.c] *)

(** [GDT_ENTRY_INIT] and the 8 bytes of the [struct segment_desc]. *)
Definition GDT_ENTRY_INIT (flags base limit : Z) : Z :=
  (limit &&& 0xffff) ||| ((base &&& 0xffff) <<< 16) ||| (((base >>> 16) &&& 0xff) <<< 32) |||
  ((flags &&& 0x0f) <<< 40) ||| (((flags >>> 4) &&& 1) <<< 44) ||| (((flags >>> 5) &&& 3) <<< 45) |||
  (((flags >>> 7) &&& 1) <<< 47) ||| (((limit >>> 16) &&& 0x0f) <<< 48) ||| (((flags >>> 12) &&& 1) <<< 52) |||
  (((flags >>> 13) &&& 1) <<< 53) ||| (((flags >>> 14) &&& 1) <<< 54) ||| (((flags >>> 15) &&& 1) <<< 55) |||
  (((base >>> 24) &&& 0xff) <<< 56).

(** The seven entries of [gdt_data]. *)
Definition gdt_data : list Z := [
  0; 0;
  GDT_ENTRY_INIT 0xa09b 0 0xfffff;
  GDT_ENTRY_INIT 0xc093 0 0xfffff;
  0;
  GDT_ENTRY_INIT 0xc0f3 0 0xfffff;
  GDT_ENTRY_INIT 0xa0fb 0 0xfffff].

(** [memcpy(gdt, gdt_data, sizeof(gdt_data))] *)
Fixpoint copy_gdt (l : list Z) (m : bmem) (gdt : Z) : bmem :=
  match l with [] => m | d :: l => copy_gdt l (wr64 m gdt d) (gdt + 8) end.

(** The two words of the [struct tss_desc] that [set_tssldt_descriptor] fills. *)
Definition set_tssldt_descriptor (ad ty size : Z) : Z * Z :=
  ((size &&& 0xffff) ||| ((ad &&& 0xffff) <<< 16) ||| (((ad >>> 16) &&& 0xff) <<< 32) |||
   ((ty &&& 31) <<< 40) ||| (1 <<< 47) ||| (((size >>> 16) &&& 0xf) <<< 48) ||| (((ad >>> 24) &&& 0xff) <<< 56),
   u32 (ad >>> 32)).

(** A descriptor of the GDT, given as its words: a system descriptor has two of them. *)
Definition write_gdt_entry (m : bmem) (gdt entry : Z) (desc : Z * Z) (ty : Z) : bmem :=
  let a := gdt + 8 * entry in
  if (ty =? DESC_TSS) || (ty =? DESC_LDT) then wr64 (wr64 m a desc.1) (a + 8) desc.2 else wr64 m a desc.1.

Definition set_tss_desc (m : bmem) (gdt entry ad : Z) : bmem :=
  write_gdt_entry m gdt entry (set_tssldt_descriptor (__ENTRY_ADDR ad) DESC_TSS KERNEL_TSS_LIMIT) DESC_TSS.

(** A CPU's entry area and the GDT at its start. *)
Definition get_cpu_entry_area (cpu : Z) : Z := per_cpu_ptr cpu_entry_area cpu.
Definition get_cpu_gdt (cpu : Z) : Z := get_cpu_entry_area cpu.

(** The members of [struct cpu_entry_area]: the GDT, the TSS, the exception stacks.  There is one
    CPU, and [cpu_entry_area] is its area ([get_cpu_gdt_this]). *)
Definition cea_gdt : Z := cpu_entry_area.
Definition cea_tss : Z := cpu_entry_area + PAGE_SIZE.
Definition cea_stacks : Z := cea_tss + sizeof_tss.

Definition switch_to_new_gdt : M trap_state unit :=
  modify (set_t_mem (λ m, copy_gdt gdt_data m cea_gdt)) ;;
  load_gdt (__ENTRY_ADDR cea_gdt) (GDT_SIZE - 1) ;;
  modify (set_t_mem (λ m, wr16 m (cea_tss + 102) INVALID_IO_BITMAP_OFFSET)) ;;
  modify (set_t_mem (λ m, wr64 m (cea_tss + 4) (u64 (__ENTRY_ADDR cpu_stacks + CPU_STACK_SIZE)))) ;;
  for_each (seqZ 0 NR_EXCEPTION_STACKS) (λ i,
    modify (set_t_mem (λ m, wr64 m (cea_tss + 36 + 8 * i) (__ENTRY_ADDR (cea_stacks + EXCEPTION_STACK_SIZE * (i + 1)))))) ;;
  modify (set_t_mem (λ m, set_tss_desc m cea_gdt GDT_ENTRY_TSS cea_tss)) ;;
  load_tr_desc GDT_ENTRY_TSS.

(** ** [i8259.c] *)

Section machine.
Context {hw : Type} `{Hardware hw}.

Definition PIC_MASTER_CMD : Z := 0x20.
Definition PIC_MASTER_IMR : Z := 0x21.
Definition PIC_SLAVE_CMD : Z := 0xa0.
Definition PIC_SLAVE_IMR : Z := 0xa1.
Definition PIC_CASCADE_IR : Z := 2.
Definition MASTER_ICW4_DEFAULT : Z := 1.
Definition SLAVE_ICW4_DEFAULT : Z := 1.
Definition ISA_IRQ_VECTOR (irq : Z) : Z := ((FIRST_EXTERNAL_VECTOR + 16) &&& cnot 32 15) + irq.

Definition outb_pic (value port : Z) : M (machine hw) unit := outb value port ;; udelay 2.

Definition i8259_init : M (machine hw) unit :=
  outb 0xff PIC_MASTER_IMR ;;
  outb_pic 0x11 PIC_MASTER_CMD ;;
  outb_pic (ISA_IRQ_VECTOR 0) PIC_MASTER_IMR ;;
  outb_pic (1 <<< PIC_CASCADE_IR) PIC_MASTER_IMR ;;
  outb_pic MASTER_ICW4_DEFAULT PIC_MASTER_IMR ;;
  outb_pic 0x11 PIC_SLAVE_CMD ;;
  outb_pic (ISA_IRQ_VECTOR 8) PIC_SLAVE_IMR ;;
  outb_pic PIC_CASCADE_IR PIC_SLAVE_IMR ;;
  outb_pic SLAVE_ICW4_DEFAULT PIC_SLAVE_IMR ;;
  udelay 100 ;;
  outb 0xff PIC_MASTER_IMR ;;
  outb 0xff PIC_SLAVE_IMR.

(** ** Both states *)

Definition on_tables {A} (c : M trap_state A) : M (trap_state * machine hw) A := λ s,
  match c s.1 with
  | Done a t => Done a (t, s.2) | Panicked e t => Panicked e (t, s.2) | OutOfFuel t => OutOfFuel (t, s.2)
  end.
Definition on_machine {A} (c : M (machine hw) A) : M (trap_state * machine hw) A := λ s,
  match c s.2 with
  | Done a t => Done a (s.1, t) | Panicked e t => Panicked e (s.1, t) | OutOfFuel t => OutOfFuel (s.1, t)
  end.

Definition trap_init_msrs : M (machine hw) unit :=
  wrmsrl MSR_IA32_SYSENTER_CS 0 ;;
  wrmsrl MSR_IA32_SYSENTER_ESP 0 ;;
  wrmsrl MSR_IA32_SYSENTER_EIP 0 ;;
  wrmsrl MSR_FS_BASE 0 ;;
  wrmsrl MSR_KERNEL_GS_BASE 0 ;;
  gs ← rdmsrl MSR_GS_BASE;
  wrmsrl MSR_GS_BASE (__ENTRY_ADDR gs).

Definition trap_init : M (trap_state * machine hw) unit :=
  on_tables switch_to_new_gdt ;;
  on_tables idt_setup_traps ;;
  on_tables idt_setup_ist_traps ;;
  on_machine i8259_init ;;
  on_tables idt_setup_apic_and_irq_gates ;;
  on_machine trap_init_msrs.

Definition syscall_init : M (machine hw) unit :=
  efer ← rdmsrl MSR_EFER;
  when (negb (truthy (efer &&& EFER_SCE))) (wrmsrl MSR_EFER (efer ||| EFER_SCE)) ;;
  wrmsr MSR_STAR 0 (((USER_CS - 16) <<< 16) ||| KERNEL_CS) ;;
  wrmsrl MSR_LSTAR (__ENTRY_ADDR do_syscall_64) ;;
  wrmsrl MSR_CSTAR (__ENTRY_ADDR do_syscall_32) ;;
  wrmsrl MSR_SYSCALL_MASK
    (X86_RFLAGS_TF ||| X86_RFLAGS_DF ||| X86_RFLAGS_IF ||| X86_RFLAGS_IOPL ||| X86_RFLAGS_AC ||| X86_RFLAGS_NT).

(** ** The interrupt handlers that return *)

Definition smp_apic_timer_interrupt : M (machine hw) unit := apic_eoi.

Definition error_interrupt_reason : list string := [
  "Send CS error"; "Receive CS error"; "Send accept error"; "Receive accept error";
  "Redirectable IPI"; "Send illegal vector"; "Received illegal vector"; "Illegal register address"]%string.

(** [while (v)], on the low eight bits of the status. *)
Fixpoint error_reasons (fuel : nat) (v i : Z) : M (machine hw) unit :=
  match fuel with
  | O => if truthy v then out_of_fuel else mret tt
  | S fuel =>
      if truthy v then
        when (truthy (v &&& 1)) (pr_cont " : %s" [Str (error_interrupt_reason !!! Z.to_nat i)]) ;;
        error_reasons fuel (v >>> 1) (i + 1)
      else mret tt
  end.

Definition smp_error_interrupt : M (machine hw) unit :=
  apic_write APIC_ESR 0 ;;
  v ← apic_read APIC_ESR;
  apic_eoi ;;
  pr_info "APIC error on CPU%d: %02x" [Num smp_processor_id; Num v] ;;
  error_reasons 8 (v &&& 0xff) 0 ;;
  pr_cont "" [].
End machine.
End tables.
