(* ===== verification/TrapsSpec.v ===== *)
(** What the processor reads from the descriptor tables of file Traps. *)

From S2P Require Import Prelude Bitops Mem CString Hexdump Machine Tsc Apic Vmx PerCpu Traps.
#[local] Open Scope Z_scope.
#[local] Open Scope cint_scope.

(** ** Gates *)

(** A gate as the processor decodes its 16 bytes. *)
Record gate : Type := mk_gate_view {
  g_offset : Z; g_selector : Z; g_ist : Z; g_type : Z; g_dpl : Z; g_present : bool;
}.
Definition gate_at (m : bmem) (idt v : Z) : gate :=
  let a := idt + 16 * v in
  let w := rd16 m (a + 4) in
  mk_gate_view (rd16 m a + rd16 m (a + 6) * 2 ^ 16 + rd32 m (a + 8) * 2 ^ 32) (rd16 m (a + 2))
    (w mod 8) (w / 2 ^ 8 mod 32) (w / 2 ^ 13 mod 4) (Z.testbit w 15).

(** The gate an element of a table asks for. *)
Definition gate_of (d : idt_data) : gate :=
  mk_gate_view (__ENTRY_ADDR (addr d)) (segment d) (ist (bits d)) (type (bits d)) (dpl (bits d)) (p (bits d) =? 1).

(** The fields fit. *)
Record idt_data_ok (d : idt_data) : Prop := {
  io_vector : 0 ≤ vector d < 256;
  io_segment : 0 ≤ segment d < 2 ^ 16;
  io_ist : 0 ≤ ist (bits d) < 8;
  io_zero : zero (bits d) = 0;
  io_type : 0 ≤ type (bits d) < 32;
  io_dpl : 0 ≤ dpl (bits d) < 4;
  io_p : 0 ≤ p (bits d) < 2;
}.

(** A field put above the [n] low bits. *)
Lemma lor_field n low k : 0 ≤ n → 0 ≤ low < 2 ^ n → low ||| (k <<< n) = low + k * 2 ^ n.
Proof.
  intros Hn Hl. rewrite Z.shiftl_mul_pow2, Z.lor_comm, (lor_low n) by (done || apply Z.mod_mul; lia). lia.
Qed.

Lemma land_field k x m : 0 ≤ k → m = Z.ones k → 0 ≤ x < 2 ^ k → x &&& m = x.
Proof. intros Hk -> Hx. rewrite Z.land_ones by done. by apply Z.mod_small. Qed.

Lemma idt_bits_word_val b : 0 ≤ ist b < 8 → zero b = 0 → 0 ≤ type b < 32 → 0 ≤ dpl b < 4 → 0 ≤ p b < 2 →
  idt_bits_word b = ist b + type b * 2 ^ 8 + dpl b * 2 ^ 13 + p b * 2 ^ 15.
Proof.
  intros Hi Hz Ht Hd Hp. unfold idt_bits_word. rewrite Hz.
  rewrite (land_field 3 (ist b)), (land_field 5 (type b)), (land_field 2 (dpl b)), (land_field 1 (p b)) by (done || lia).
  change ((0 &&& 31) <<< 3) with 0. rewrite Z.lor_0_r. by rewrite (lor_field 8), (lor_field 13), (lor_field 15) by lia.
Qed.

Lemma gate_at_ext m m' idt v : (∀ i, 0 ≤ i < 16 → rd8 m' (idt + 16 * v + i) = rd8 m (idt + 16 * v + i)) →
  gate_at m' idt v = gate_at m idt v.
Proof.
  unfold gate_at. generalize (idt + 16 * v). intros a Hs.
  assert (∀ d k, 0 ≤ d → d + Z.of_nat k ≤ 16 → rd_le m' (a + d) k = rd_le m (a + d) k) as Hd.
  { intros d k ? ?. apply rd_le_ext. intros i ?. rewrite <- !Z.add_assoc. apply Hs. lia. }
  unfold rd16, rd32. rewrite !Hd by lia. pose proof (Hd 0 2%nat) as H0. rewrite Z.add_0_r in H0. by rewrite H0 by lia.
Qed.

Lemma write_entry_other m idt v g b : b < idt + 16 * v ∨ idt + 16 * v + 16 ≤ b →
  rd8 (write_idt_entry m idt v g) b = rd8 m b.
Proof. intros Hb. unfold write_idt_entry, wr16, wr32. by rewrite !rd8_wr_le, !decide_False by lia. Qed.

Lemma write_entry_ne m idt v v' g : v ≠ v' → gate_at (write_idt_entry m idt v g) idt v' = gate_at m idt v'.
Proof. intros Hv. apply gate_at_ext. intros i Hi. apply write_entry_other. lia. Qed.

Lemma write_entry_eq m idt d : idt_data_ok d →
  gate_at (write_idt_entry m idt (vector d) (idt_init_desc d)) idt (vector d) = gate_of d.
Proof.
  intros [Hv Hs Hi Hz Ht Hd Hp]. unfold gate_at, gate_of, write_idt_entry, idt_init_desc, rd16, rd32, wr16, wr32.
  cbn [offset_low gate_segment gate_bits offset_middle offset_high reserved].
  set (A := __ENTRY_ADDR (addr d)). assert (0 ≤ A < 2 ^ 64) as HA by (apply wrap_bound; lia).
  rewrite idt_bits_word_val by done.
  set (w := ist (bits d) + _ + _ + _). assert (0 ≤ w < 2 ^ 16) as Hw by (unfold w; lia).
  generalize (idt + 16 * vector d). intros a. set (m' := wr_le _ (a + 12) 4 0).
  assert (rd_le m' a 2 = u16 A ∧ rd_le m' (a + 2) 2 = segment d ∧ rd_le m' (a + 4) 2 = w ∧
    rd_le m' (a + 6) 2 = u16 (A >>> 16) ∧ rd_le m' (a + 8) 4 = u32 (A >>> 32)) as (-> & -> & -> & -> & ->).
  { unfold m'. change (256 ^ Z.of_nat 2) with (2 ^ 16). split_and!; repeat (rewrite rd_le_wr_le_apart by lia);
      rewrite rd_le_wr_le; change (256 ^ Z.of_nat 2) with (2 ^ 16); change (256 ^ Z.of_nat 4) with (2 ^ 32);
      rewrite Z.mod_small; try done; try (apply wrap_bound; lia); unfold wrap; divlia. }
  rewrite !Z.shiftr_div_pow2 by lia. f_equal.
  - unfold wrap. divlia.
  - unfold w. divlia.
  - unfold w. divlia.
  - unfold w. divlia.
  - unfold w. assert (p (bits d) = 0 ∨ p (bits d) = 1) as [-> | ->] by lia.
    + rewrite (testbit_high 15) by lia. done.
    + rewrite Z.testbit_true by lia. divlia.
Qed.

(** ** The interrupt descriptor table *)

Section tables.
Context `{TrapLayout}.

Definition gates (s : trap_state) (v : Z) : gate := gate_at (t_mem s) idt_table v.
Definition taken (s : trap_state) (v : Z) : bool := bitmap_bit (system_vectors s) v.
Definition vectors_ok (s : trap_state) : Prop := words_ok (system_vectors s) ∧ length (system_vectors s) = 4%nat.

(** [s'] differs from [s] only in the interrupt descriptor table and its bitmap. *)
Record idt_only (s s' : trap_state) : Prop := {
  ij_idtr : idtr s' = idtr s; ij_gdtr : gdtr s' = gdtr s; ij_tr : task_register s' = task_register s;
  ij_mem : unchanged_outside (t_mem s) (t_mem s') idt_table (16 * IDT_ENTRIES);
}.

Lemma idt_only_refl s : idt_only s s.
Proof. by split. Qed.

Lemma idt_only_trans s1 s2 s3 : idt_only s1 s2 → idt_only s2 s3 → idt_only s1 s3.
Proof. intros [] []. split; [congruence..|]. by eapply unchanged_outside_trans. Qed.

(** The gate the last element of the table [t] for the vector [v] asks for, or [g]. *)
Definition last_gate (t : list idt_data) (v : Z) (g : gate) : gate :=
  foldl (λ g d, if vector d =? v then gate_of d else g) g t.
Definition in_table (t : list idt_data) (v : Z) : bool := existsb (λ d, vector d =? v) t.

Lemma setup_from_table_ok t sys s : Forall idt_data_ok t → vectors_ok s →
  ∃ s', idt_setup_from_table t sys s = Done tt s' ∧ vectors_ok s' ∧ idt_only s s' ∧
    ∀ v, 0 ≤ v < 256 →
      gates s' v = last_gate t v (gates s v) ∧ taken s' v = (sys && in_table t v) || taken s v.
Proof.
  unfold idt_setup_from_table. intros Ht. revert s. induction Ht as [|d t Hd Ht IH]; intros s [Hw Hl].
  { exists s. split_and!; [done|done|by split|]. intros v _. by rewrite andb_false_r. }
  cbn [for_each]. unfold modify. cbn [mbind].
  set (s1 := set_t_mem (λ m, write_idt_entry m idt_table (vector d) (idt_init_desc d)) s).
  set (s2 := if sys then set_system_vectors (set_bit (vector d) 0) s1 else s1).
  assert (vectors_ok s2) as Hv2.
  { unfold s2. destruct sys; [|by split]. destruct Hd. split; cbn.
    - apply set_bit_ok; try done; lia.
    - by rewrite set_bit_length. }
  destruct (IH s2 Hv2) as (s3 & Hr & Hv3 & Ho & Hg). exists s3. split; [|split_and!; [done| |]].
  - unfold mbind, M_bind. fold s1. unfold when. destruct sys; exact Hr.
  - eapply idt_only_trans; [|exact Ho]. unfold s2. destruct Hd.
    assert (unchanged_outside (t_mem s) (t_mem s1) idt_table (16 * IDT_ENTRIES)) as Hu.
    { intros b Hb. apply write_entry_other. unfold IDT_ENTRIES in *. lia. }
    destruct sys; by split.
  - intros v Hv. destruct (Hg v Hv) as [Hg1 Hg2]. rewrite Hg1, Hg2. cbn [last_gate foldl in_table existsb].
    assert (gates s2 v = if vector d =? v then gate_of d else gates s v) as ->.
    { assert (gates s2 v = gates s1 v) as -> by (unfold s2; by destruct sys). unfold gates, s1. cbn [t_mem set_t_mem].
      destruct (Z.eqb_spec (vector d) v) as [<-|Hne]; [by apply write_entry_eq|by apply write_entry_ne]. }
    split; [done|]. unfold taken, s2. destruct sys; [|done]. cbn [andb system_vectors set_system_vectors set_t_mem].
    change (system_vectors s1) with (system_vectors s). destruct Hd. rewrite set_bit_spec; [|lia|lia|rewrite Hl; divlia|lia]. rewrite Z.mul_0_l, Z.add_0_l, Z.eqb_sym.
    unfold in_table. by destruct (existsb _ t), (vector d =? v), (bitmap_bit _ _).
Qed.

Definition spurious_gate : gate :=
  mk_gate_view (__ENTRY_ADDR (handler_addr spurious_interrupt)) KERNEL_CS 0 GATE_INTERRUPT 0 true.

Lemma set_intr_gate_ok n ad s : 0 ≤ n < 256 → vectors_ok s →
  ∃ s', set_intr_gate n ad s = Done tt s' ∧ vectors_ok s' ∧ idt_only s s' ∧
    ∀ v, 0 ≤ v < 256 → taken s' v = taken s v ∧
      gates s' v = if n =? v then mk_gate_view (__ENTRY_ADDR ad) KERNEL_CS 0 GATE_INTERRUPT 0 true else gates s v.
Proof.
  intros Hn Hs. unfold set_intr_gate.
  destruct (setup_from_table_ok [mk_idt n KERNEL_CS (mk_bits 0 0 GATE_INTERRUPT 0 1) ad] false s)
    as (s' & Hr & Hv & Ho & Hg); [|done|].
  { constructor; [|constructor]. split; cbn; (lia || done || (split; [discriminate|reflexivity])). }
  exists s'. unfold BUG_ON. destruct (Z.ltb_spec 0xff n); [lia|].
  rewrite (bind_done _ _ s tt s) by done. split_and!; [done..|]. intros v Hvb. destruct (Hg v Hvb) as [-> ->].
  split; [done|]. done.
Qed.

(** The vectors from [lo] on that were free have the gate of [spurious_interrupt] and are
    taken. *)
Definition filled_to (s0 : trap_state) (i : Z) (s : trap_state) : Prop :=
  FIRST_EXTERNAL_VECTOR ≤ i ≤ 256 ∧ vectors_ok s ∧ idt_only s0 s ∧
  ∀ v, 0 ≤ v < 256 →
    taken s v = ((FIRST_EXTERNAL_VECTOR <=? v) && (v <? i)) || taken s0 v ∧
    gates s v = if (FIRST_EXTERNAL_VECTOR <=? v) && (v <? i) && negb (taken s0 v) then spurious_gate else gates s0 v.

Lemma clear_vectors_ok s0 : vectors_ok s0 →
  ∃ s', loop clear_vectors_step FIRST_EXTERNAL_VECTOR s0 = Done tt s' ∧ filled_to s0 256 s'.
Proof.
  intros H0.
  destruct (loop_total clear_vectors_step (λ i s, filled_to s0 i s) (λ _ s, filled_to s0 256 s) (λ i _, 256 - i))
    with (a := FIRST_EXTERNAL_VECTOR) (s := s0) as ([] & s' & Hr & Hs'); [| | |by exists s'].
  2: { unfold filled_to, FIRST_EXTERNAL_VECTOR. split_and!; [lia|lia|done|apply idt_only_refl|].
       intros v Hv. by destruct (Z.leb_spec 32 v), (Z.ltb_spec v 32); try lia. }
  2: { unfold FIRST_EXTERNAL_VECTOR. cbn. lia. }
  intros i s (Hi & [Hw Hl] & Ho & Hg). unfold loop_step_ok, clear_vectors_step.
  rewrite (bind_done _ _ s (system_vectors s) s) by done. unfold NR_VECTORS.
  destruct (find_next_zero_bit_spec (system_vectors s) 256 i) as (b & -> & Hb);
    [done|lia|lia|unfold FIRST_EXTERNAL_VECTOR in *; lia|].
  assert (∀ v, i ≤ v < b → taken s0 v = true) as Hskip.
  { intros v Hv. unfold least_from in Hb. unfold FIRST_EXTERNAL_VECTOR in *.
    destruct (Z.leb_spec 256 i); [lia|]. destruct Hb as (Hb1 & _ & Hb2).
    destruct (Hg v ltac:(lia)) as [Ht _]. specialize (Hb2 v Hv). apply negb_false_iff in Hb2.
    unfold taken in Ht. rewrite Hb2 in Ht. destruct (Z.leb_spec 32 v), (Z.ltb_spec v i); try lia. by cbn in Ht. }
  destruct (Z.ltb_spec b 256) as [Hb256|Hb256].
  - assert (i ≤ b) as Hib by (unfold least_from in Hb; destruct (Z.leb_spec 256 i); lia).
    unfold FIRST_EXTERNAL_VECTOR in *. erewrite bind_done by reflexivity.
    set (s1 := set_system_vectors (set_bit b 0) s).
    destruct (set_intr_gate_ok b (handler_addr spurious_interrupt) s1) as (s2 & Hr & Hv2 & Ho2 & Hg2); [lia| |].
    { split; cbn; [apply set_bit_ok; (done || lia)|by rewrite set_bit_length]. }
    rewrite (bind_done _ _ _ _ _ Hr). unfold mret, M_ret. split; [|lia]. unfold filled_to, FIRST_EXTERNAL_VECTOR.
    split_and!; [lia|lia|done|eapply idt_only_trans; [exact Ho|]; destruct Ho2; by split|]. intros v Hv.
    destruct (Hg2 v Hv) as [-> ->]. destruct (Hg v Hv) as [Ht Hgv].
    assert (taken s1 v = (v =? b) || taken s v) as ->.
    { unfold taken, s1. cbn [system_vectors set_system_vectors]. rewrite set_bit_spec; [done|lia|lia|rewrite Hl; divlia|lia]. }
    assert (gates s1 v = gates s v) as -> by done. rewrite Ht, Hgv.
    assert (b < v → v < b + 1 → False) as _ by lia.
    destruct (Z.eqb_spec b v) as [<-|Hbv].
    + rewrite Z.eqb_refl. destruct (Z.leb_spec 32 b), (Z.ltb_spec b (b + 1)); try lia. cbn [andb orb]. split; [done|].
      assert (taken s0 b = false) as ->; [|done]. unfold least_from in Hb. destruct (Z.leb_spec 256 i); [lia|].
      destruct Hb as (_ & Hb & _). specialize (Hb Hb256). apply negb_true_iff in Hb.
      unfold taken in Ht. rewrite Hb in Ht. destruct (bitmap_bit (system_vectors s0) b) eqn:E; [|done].
      by rewrite orb_true_r in Ht.
    + rewrite (proj2 (Z.eqb_neq v b)) by lia. cbn [orb].
      destruct (decide (i ≤ v < b)) as [Hs|Hs].
      { rewrite (Hskip v Hs), !orb_true_r, !andb_false_r. done. }
      assert ((32 <=? v) && (v <? b + 1) = (32 <=? v) && (v <? i)) as ->; [|done].
      destruct (Z.leb_spec 32 v), (Z.ltb_spec v (b + 1)), (Z.ltb_spec v i); try done; lia.
  - unfold mret, M_ret, filled_to, FIRST_EXTERNAL_VECTOR in *. split_and!; [lia|lia|done|done|]. intros v Hv.
    destruct (Hg v Hv) as [-> ->]. destruct (decide (i ≤ v)) as [Hs|Hs].
    { rewrite (Hskip v) by lia. by rewrite !orb_true_r, !andb_false_r. }
    destruct (Z.leb_spec 32 v), (Z.ltb_spec v 256), (Z.ltb_spec v i); try done; lia.
Qed.

(** ** The task-state segment *)

(** The base address of the descriptor of two words, and its present bit, as
    [get_tr_base] of [vmm/vmx.c] and the processor read them. *)
Definition tss_base (lo hi : Z) : Z :=
  ((lo >>> 16) &&& 0xffff) ||| (((lo >>> 32) &&& 0xff) <<< 16) ||| (((lo >>> 56) &&& 0xff) <<< 24) ||| (u32 hi <<< 32).

Lemma tssldt_word ad ty size : 0 ≤ ad < 2 ^ 64 → 0 ≤ ty < 32 → 0 ≤ size < 2 ^ 16 →
  (set_tssldt_descriptor ad ty size).1 =
    size + (ad mod 2 ^ 16) * 2 ^ 16 + (ad / 2 ^ 16 mod 2 ^ 8) * 2 ^ 32 + ty * 2 ^ 40 + 2 ^ 47 + (ad / 2 ^ 24 mod 2 ^ 8) * 2 ^ 56.
Proof.
  intros Ha Ht Hs. unfold set_tssldt_descriptor. cbn [fst].
  change 0xffff with (Z.ones 16). change 0xff with (Z.ones 8). change 31 with (Z.ones 5). change 0xf with (Z.ones 4).
  rewrite !Z.land_ones, !Z.shiftr_div_pow2 by lia. rewrite (Z.div_small size), Z.mod_0_l by lia.
  rewrite (Z.mod_small size), (Z.mod_small ty) by lia. change (0 <<< 48) with 0. rewrite Z.lor_0_r.
  rewrite (lor_field 16), (lor_field 32), (lor_field 40), (lor_field 47), (lor_field 56) by divlia. lia.
Qed.

Lemma tss_base_set ad size : 0 ≤ ad < 2 ^ 64 → 0 ≤ size < 2 ^ 16 →
  let '(lo, hi) := set_tssldt_descriptor ad DESC_TSS size in
  tss_base lo hi = ad ∧ Z.testbit lo 47 = true ∧ 0 ≤ lo < 2 ^ 64 ∧ 0 ≤ hi < 2 ^ 64.
Proof.
  intros Ha Hs. pose proof (tssldt_word ad DESC_TSS size Ha ltac:(unfold DESC_TSS; lia) Hs) as Hlo.
  assert ((set_tssldt_descriptor ad DESC_TSS size).2 = u32 (ad >>> 32)) as Hhi by done.
  destruct (set_tssldt_descriptor ad DESC_TSS size) as [lo hi]. cbn [fst snd] in *. unfold DESC_TSS in *.
  rewrite Z.shiftr_div_pow2 in Hhi by lia. rewrite wrap_small in Hhi by divlia.
  assert (0 ≤ lo < 2 ^ 64) as Hb by divlia. split_and!; [|rewrite Z.testbit_true by lia; divlia|lia|lia|divlia|divlia].
  unfold tss_base. change 0xffff with (Z.ones 16). change 0xff with (Z.ones 8).
  rewrite !Z.land_ones, !Z.shiftr_div_pow2 by lia.
  rewrite (lor_field 16), (lor_field 24), (lor_field 32) by divlia. rewrite wrap_small by divlia. divlia.
Qed.

Lemma copy_gdt_other l m a b : b < a ∨ a + 8 * Z.of_nat (length l) ≤ b → rd8 (copy_gdt l m a) b = rd8 m b.
Proof.
  revert m a. induction l as [|d l IH]; intros m a Hb; [done|]. cbn [copy_gdt length] in *. rewrite IH by lia.
  unfold wr64. by rewrite rd8_wr_le, decide_False by lia.
Qed.

(** The members of the task-state segment that are set up. *)
Record tss_ready (m : bmem) : Prop := {
  tr_base : tss_base (rd64 m (cea_gdt + 8 * GDT_ENTRY_TSS)) (rd64 m (cea_gdt + 8 * GDT_ENTRY_TSS + 8)) = __ENTRY_ADDR cea_tss;
  tr_present : Z.testbit (rd64 m (cea_gdt + 8 * GDT_ENTRY_TSS)) 47 = true;
  tr_sp0 : rd64 m (cea_tss + 4) = u64 (__ENTRY_ADDR cpu_stacks + CPU_STACK_SIZE);
  tr_ist : ∀ k, 1 ≤ k ≤ NR_EXCEPTION_STACKS →
    rd64 m (cea_tss + 36 + 8 * (k - 1)) = __ENTRY_ADDR (cea_stacks + EXCEPTION_STACK_SIZE * k);
  tr_io_bitmap : rd16 m (cea_tss + 102) = INVALID_IO_BITMAP_OFFSET;
}.

(** The area [switch_to_new_gdt] fills is the one of this CPU, and interrupts of user mode
    come in on the stack the program was started on. *)
Lemma get_cpu_gdt_this : 0 ≤ cpu_entry_area < 2 ^ 64 → get_cpu_gdt smp_processor_id = cea_gdt.
Proof. apply per_cpu_ptr_object. Qed.

Lemma sp0_initial_stack m : tss_ready m → rd64 m (cea_tss + 4) = __ENTRY_ADDR (initial_stack cpu_stacks).
Proof.
  intros Hm. rewrite (tr_sp0 m Hm). unfold __ENTRY_ADDR, initial_stack, cpu_stack, wrap.
  rewrite Z.mul_0_r, Z.add_0_r, !Zplus_mod_idemp_l, <- (Z.add_assoc (_ mod _)), Zplus_mod_idemp_l. f_equal. lia.
Qed.

Definition gdt_and_tss : Z := PAGE_SIZE + sizeof_tss.

Lemma switch_to_new_gdt_ok s :
  ∃ m', switch_to_new_gdt s = Done tt (mk_traps m' (system_vectors s) (idtr s)
      (Some (__ENTRY_ADDR cea_gdt, GDT_SIZE - 1)) (GDT_ENTRY_TSS * 8)) ∧
    tss_ready m' ∧ unchanged_outside (t_mem s) m' cpu_entry_area gdt_and_tss.
Proof.
  eexists. split; [reflexivity|].
  assert (0 ≤ __ENTRY_ADDR cea_tss < 2 ^ 64) as Ha by (apply wrap_bound; lia).
  pose proof (tss_base_set (__ENTRY_ADDR cea_tss) KERNEL_TSS_LIMIT Ha ltac:(split; [discriminate|reflexivity])) as Hd.
  cbn [t_mem set_t_mem]. unfold set_tss_desc, write_gdt_entry. cbn [Z.eqb orb DESC_TSS Pos.eqb].
  destruct (set_tssldt_descriptor _ _ _) as [lo hi]. cbn [fst snd]. destruct Hd as (Hb & Hp & Hlo & Hhi).
  change GDT_ENTRY_TSS with 8. unfold cea_gdt, cea_stacks, cea_tss, gdt_and_tss, sizeof_tss in *. change PAGE_SIZE with 4096 in *.
  set (m1 := wr16 _ _ _).
  assert (rd16 m1 (cpu_entry_area + 4096 + 102) = INVALID_IO_BITMAP_OFFSET) as Hio by apply rd_le_wr_le.
  assert (unchanged_outside (t_mem s) m1 cpu_entry_area (4096 + 104)) as Hm1.
  { intros b Hout. unfold m1, wr16. rewrite rd8_wr_le, decide_False by lia. apply copy_gdt_other. cbn. lia. }
  assert (∀ x, 0 ≤ __ENTRY_ADDR x < 2 ^ 64) as He by (intros x; apply wrap_bound; lia).
  unfold wr64. split; [split|].
  - unfold rd64, cea_gdt, cea_tss, GDT_ENTRY_TSS. rewrite rd_le_wr_le_apart, !rd_le_wr_le by lia.
    rewrite !Z.mod_small by (change (256 ^ Z.of_nat 8) with (2 ^ 64); lia). done.
  - unfold rd64, cea_gdt, GDT_ENTRY_TSS. rewrite rd_le_wr_le_apart, rd_le_wr_le by lia. by rewrite Z.mod_small.
  - unfold rd64, cea_tss. change PAGE_SIZE with 4096. repeat (rewrite rd_le_wr_le_apart by lia). rewrite rd_le_wr_le.
    apply Z.mod_small, wrap_bound. lia.
  - unfold rd64, cea_stacks, cea_tss, NR_EXCEPTION_STACKS, sizeof_tss. change PAGE_SIZE with 4096. intros k Hk.
    assert (k = 1 ∨ k = 2 ∨ k = 3 ∨ k = 4) as [-> |[-> |[-> | ->]]] by lia.
    all: repeat (rewrite rd_le_wr_le_apart by lia); apply eq_trans with (1 := rd_le_wr_le _ _ _ _), Z.mod_small, He.
  - unfold rd16, cea_tss. change PAGE_SIZE with 4096. repeat (rewrite rd_le_wr_le_apart by lia). exact Hio.
  - intros b Hout. rewrite <- Hm1 by lia. rewrite !rd8_wr_le, !decide_False by lia. done.
Qed.

(** ** Every vector *)

(** The handler, the stack and the privilege level of a vector; [None]: no gate. *)
Definition vector_table : list (Z * (handler * Z * Z)) := [
  (X86_TRAP_DE, (divide_error, 0, 0)); (X86_TRAP_OF, (overflow, 0, 3)); (X86_TRAP_BR, (bounds, 0, 0));
  (X86_TRAP_UD, (invalid_op, 0, 0)); (X86_TRAP_NM, (device_not_available, 0, 0)); (X86_TRAP_DF, (double_fault, 1, 0));
  (X86_TRAP_OLD_MF, (coprocessor_segment_overrun, 0, 0)); (X86_TRAP_TS, (invalid_TSS, 0, 0));
  (X86_TRAP_NP, (segment_not_present, 0, 0)); (X86_TRAP_SS, (stack_segment, 0, 0));
  (X86_TRAP_GP, (general_protection, 0, 0)); (X86_TRAP_PF, (page_fault, 0, 0));
  (X86_TRAP_SPURIOUS, (spurious_interrupt_bug, 0, 0)); (X86_TRAP_MF, (coprocessor_error, 0, 0));
  (X86_TRAP_AC, (alignment_check, 0, 0)); (X86_TRAP_XF, (simd_coprocessor_error, 0, 0));
  (LOCAL_TIMER_VECTOR, (apic_timer_interrupt, 0, 0)); (ERROR_APIC_VECTOR, (error_interrupt, 0, 0));
  (SPURIOUS_APIC_VECTOR, (spurious_interrupt, 0, 0))].

Fixpoint vector_lookup (l : list (Z * (handler * Z * Z))) (v : Z) : option (handler * Z * Z) :=
  match l with [] => None | (k, x) :: l => if k =? v then Some x else vector_lookup l v end.

Definition vector_handler (v : Z) : option (handler * Z * Z) :=
  match vector_lookup vector_table v with
  | Some x => Some x
  | None => if 32 <=? v then Some (spurious_interrupt, 0, 0) else None
  end.

Definition handler_gate (x : handler * Z * Z) : gate :=
  mk_gate_view (__ENTRY_ADDR (handler_addr x.1.1)) KERNEL_CS x.1.2 GATE_INTERRUPT x.2 true.

Lemma tables_ok : Forall idt_data_ok def_idts ∧ Forall idt_data_ok ist_idts ∧ Forall idt_data_ok apic_idts.
Proof.
  split_and!; repeat constructor; cbn; try done; vm_compute; (discriminate || reflexivity).
Qed.

Lemma tables_gate v g : 0 ≤ v < 256 →
  let t := in_table apic_idts v || (in_table ist_idts v || in_table def_idts v) in
  let g' := last_gate apic_idts v (last_gate ist_idts v (last_gate def_idts v g)) in
  (if (32 <=? v) && (v <? 256) && negb t then spurious_gate else g') =
  match vector_handler v with Some x => handler_gate x | None => g end.
Proof.
  intros Hv. destruct (decide (v ∈ vector_table.*1)) as [Hin|Hout].
  - cbn in Hin. repeat (apply elem_of_cons in Hin as [-> |Hin]; [reflexivity|]). by apply not_elem_of_nil in Hin.
  - assert (Forall (λ k, (k =? v) = false) vector_table.*1) as Hk.
    { apply Forall_forall. intros k Hk. apply Z.eqb_neq. by intros ->. }
    cbn -[Z.eqb] in Hk. repeat (apply Forall_cons in Hk as [? Hk]).
    unfold vector_handler, last_gate, in_table. cbn -[Z.eqb Z.leb Z.ltb]. repeat match goal with H : (_ =? v) = false |- _ => rewrite !H; clear H end.
    destruct (Z.ltb_spec v 256); [|lia]. cbn [orb negb]. rewrite !andb_true_r. by destruct (32 <=? v).
Qed.

(** The tables [trap_init] sets up, in its order. *)
Definition trap_tables : M trap_state unit :=
  switch_to_new_gdt ;; idt_setup_traps ;; idt_setup_ist_traps ;; idt_setup_apic_and_irq_gates.

End tables.

(** ** Example *)

Module TrapsDemo.
#[local] Instance layout : TrapLayout := {|
  handler_addr := λ _, 0x10000000; idt_table := 0x10100000; cpu_entry_area := 0x10200000; cpu_stacks := 0x10300000;
  do_syscall_64 := 0x10001000; do_syscall_32 := 0x10002000;
|}.

Definition blank : trap_state := mk_traps ∅ [0; 0; 0; 0] None None 0.

End TrapsDemo.
