(* ===== verification/Panic.v ===== *)
(** The end of the program: [lib/panic.c], [kernel/dumpstack.c] and the exception handlers
    of [kernel/idt.c] that print what happened and stop.

    The stack is memory, walked through the saved frame pointers; [%rbp] of [dump_stack]'s
    caller, the segment registers and the addresses of the strings are parameters.  The
    other files end a failing computation with [Panicked]; here is what [panic()] does on
    the consoles before the processor halts for ever. *)

From S2P Require Import Prelude Mem CString DList Vsprintf VsprintfSpec VsprintfText Vmcs Machine Tsc Traps Console ConsoleSpec LogSpec.
#[local] Open Scope Z_scope.
#[local] Open Scope cint_scope.

(** [printk]'s literals end the line. *)
Definition textn (s : string) : list Z := text s ++ [10].

(** ** [struct pt_regs] *)

Definition pt_r15 : Z := 0.
Definition pt_r14 : Z := 8.
Definition pt_r13 : Z := 16.
Definition pt_r12 : Z := 24.
Definition pt_rbp : Z := 32.
Definition pt_rbx : Z := 40.
Definition pt_r11 : Z := 48.
Definition pt_r10 : Z := 56.
Definition pt_r9 : Z := 64.
Definition pt_r8 : Z := 72.
Definition pt_rax : Z := 80.
Definition pt_rcx : Z := 88.
Definition pt_rdx : Z := 96.
Definition pt_rsi : Z := 104.
Definition pt_rdi : Z := 112.
Definition pt_orig_rax : Z := 120.
Definition pt_rip : Z := 128.
Definition pt_cs : Z := 136.
Definition pt_rflags : Z := 144.
Definition pt_rsp : Z := 152.
Definition pt_ss : Z := 160.

Definition user_mode (m : bmem) (regs : Z) : bool := truthy (rd64 m (regs + pt_cs) &&& 3).

(** What the assembly of [show_regs] and [__builtin_frame_address(0)] read. *)
Class StopState (hw : Type) : Type := {
  st_ds : hw → Z; st_cs : hw → Z; st_es : hw → Z; st_fs : hw → Z; st_gs : hw → Z;
  st_cr2 : hw → Z;
  frame_address : Z;
  trap_string : Z → Z;
}.

Section stop.
Context {hw : Type} `{Hardware hw} `{ConsoleLayout} `{StopState hw} (img : image).
Implicit Types s : kstate hw.

Definition pr (level : Z) (fmt args : list Z) : M (kstate hw) unit := _ ← printk img level fmt args; mret tt.
Definition pr_cont (fmt args : list Z) : M (kstate hw) unit := pr LOGLEVEL_CONT fmt args.
Definition pr_err (fmt args : list Z) : M (kstate hw) unit := pr LOGLEVEL_ERR fmt args.

(** ** [kernel/dumpstack.c] *)

(** [while (bp)]: the return address above the saved frame pointer. *)
Definition show_frame (bp : Z) : M (kstate hw) (Z + unit) :=
  if bp =? 0 then mret (inr tt)
  else
    addr ← gets (λ s, rd64 (k_mem s) (bp + 8));
    pr LOGLEVEL_DEFAULT (textn "%pB") [addr] ;;
    bp ← gets (λ s, rd64 (k_mem s) bp);
    mret (inl bp).

Definition show_stack (regs : Z) : M (kstate hw) unit :=
  pr LOGLEVEL_DEFAULT (textn "Call Trace:") [] ;;
  bp ← (if negb (regs =? 0) then gets (λ s, rd64 (k_mem s) (regs + pt_rbp)) else mret frame_address);
  loop show_frame bp.

Definition dump_stack : M (kstate hw) unit := show_stack 0.

Definition reg (regs o : Z) : M (kstate hw) Z := gets (λ s, rd64 (k_mem s) (regs + o)).
Definition hw_reg (f : hw → Z) : M (kstate hw) Z := gets (λ s, f (m_hw (k_mach s))).

(** Three registers of the frame on a line. *)
Definition show_three (regs : Z) (fmt : list Z) (a b c : Z) : M (kstate hw) unit :=
  a ← reg regs a; b ← reg regs b; c ← reg regs c; pr LOGLEVEL_DEFAULT fmt [a; b; c].

Definition show_regs (regs : Z) : M (kstate hw) unit :=
  cs ← reg regs pt_cs; rip ← reg regs pt_rip;
  pr LOGLEVEL_DEFAULT (textn "RIP: %04lx:%pS") [cs &&& 0xffff; rip] ;;
  show_three regs (text "RSP: %04lx:%016lx RFLAGS: %08lx") pt_ss pt_rsp pt_rflags ;;
  orig_rax ← reg regs pt_orig_rax;
  (if negb (orig_rax =? u64 (-1)) then pr_cont (textn " ORIG_RAX: %016lx") [orig_rax] else pr_cont (textn "") []) ;;
  show_three regs (textn "RAX: %016lx RBX: %016lx RCX: %016lx") pt_rax pt_rbx pt_rcx ;;
  show_three regs (textn "RDX: %016lx RSI: %016lx RDI: %016lx") pt_rdx pt_rsi pt_rdi ;;
  show_three regs (textn "RBP: %016lx R08: %016lx R09: %016lx") pt_rbp pt_r8 pt_r9 ;;
  show_three regs (textn "R10: %016lx R11: %016lx R12: %016lx") pt_r10 pt_r11 pt_r12 ;;
  show_three regs (textn "R13: %016lx R14: %016lx R15: %016lx") pt_r13 pt_r14 pt_r15 ;;
  ds ← hw_reg (λ h, u32 (st_ds h)); cs ← hw_reg (λ h, u32 (st_cs h)); es ← hw_reg (λ h, u32 (st_es h));
  fsindex ← hw_reg (λ h, u32 (st_fs h)); gsindex ← hw_reg (λ h, u32 (st_gs h));
  fs ← on_mach (rdmsrl MSR_FS_BASE);
  gs ← on_mach (rdmsrl MSR_GS_BASE);
  shadowgs ← on_mach (rdmsrl MSR_KERNEL_GS_BASE);
  cr0 ← hw_reg (λ h, u64 (hw_read_cr0 h)); cr2 ← hw_reg (λ h, u64 (st_cr2 h));
  cr3 ← hw_reg (λ h, u64 (hw_read_cr3 h)); cr4 ← hw_reg (λ h, u64 (hw_read_cr4 h));
  pr LOGLEVEL_DEFAULT (textn "FS:  %016lx(%04x) GS:%016lx(%04x) knlGS:%016lx") [fs; fsindex; gs; gsindex; shadowgs] ;;
  pr LOGLEVEL_DEFAULT (textn "CS:  %04x DS: %04x ES: %04x CR0: %016lx") [cs; ds; es; cr0] ;;
  pr LOGLEVEL_DEFAULT (textn "CR2: %016lx CR3: %016lx CR4: %016lx") [cr2; cr3; cr4] ;;
  show_stack regs.

(** ** [lib/panic.c] *)

(** [while (1) halt();] *)
Definition halt_forever : M (kstate hw) unit := loop (λ _ : unit, mret (inl tt)) tt.

Definition die : M (kstate hw) unit :=
  k_outb 0 0x501 ;;
  outs_list 0x8900 (text "Shutdown") ;;
  halt_forever.

Definition panic (fmt args : list Z) : M (kstate hw) unit :=
  _ ← vprintk img LOGLEVEL_EMERG fmt args;
  dump_stack ;;
  die.

(** ** [kernel/idt.c] *)

Definition do_trap (regs error_code str trapnr : Z) : M (kstate hw) unit :=
  pr_err (textn "unknown vector: %ld (%s), error code: %lx") [trapnr; str; error_code] ;;
  show_regs regs ;;
  die.

(** The rows of [DO_ERROR]: the vector and its name. *)
Definition error_traps : list (Z * string) :=
  [(X86_TRAP_DE, "divide error"); (X86_TRAP_OF, "overflow"); (X86_TRAP_BR, "bounds"); (X86_TRAP_UD, "invalid opcode");
   (X86_TRAP_NM, "device not available"); (X86_TRAP_DF, "double fault"); (X86_TRAP_OLD_MF, "coprocessor segment overrun");
   (X86_TRAP_TS, "invalid TSS"); (X86_TRAP_NP, "segment not present"); (X86_TRAP_SS, "stack segment");
   (X86_TRAP_GP, "general protection fault"); (X86_TRAP_PF, "page fault"); (X86_TRAP_MF, "coprocessor error");
   (X86_TRAP_AC, "alignment check"); (X86_TRAP_XF, "SIMD coprocessor error")]%string.

(** [do_divide_error] and the others: [trap_string trapnr] is the address of the name. *)
Definition DO_ERROR (trapnr regs error_code : Z) : M (kstate hw) unit :=
  do_trap regs error_code (trap_string trapnr) trapnr.

Definition do_spurious_interrupt_bug (regs error_code : Z) : M (kstate hw) unit := mret tt.
End stop.

(** ** What is printed *)

(** A call of [printk]: level, format and arguments. *)
Definition message : Type := Z * list Z * list Z.

(** The chain of saved frame pointers from [bp] on, and its return addresses. *)
Inductive frames `{ConsoleLayout} (m : bmem) : Z → list Z → Prop :=
  | frames_end : frames m 0 []
  | frames_next bp l : bp ≠ 0 → quiet bp 16 → frames m (rd64 m bp) l → frames m bp (rd64 m (bp + 8) :: l).

(** The first [n] return addresses. *)
Fixpoint frame_list (n : nat) (m : bmem) (bp : Z) : list Z :=
  match n with
  | O => []
  | S n => if bp =? 0 then [] else rd64 m (bp + 8) :: frame_list n m (rd64 m bp)
  end.

Definition trace_messages (l : list Z) : list message :=
  (LOGLEVEL_DEFAULT, textn "Call Trace:", []) :: ((λ a, (LOGLEVEL_DEFAULT, textn "%pB", [a])) <$> l).

Section stop_spec.
Context {hw : Type} `{Hardware hw} `{ConsoleLayout} {pv : hw → ports} {busy : hw → Z} `{!ConsolePorts hw pv busy}.
Context `{!ConsoleLayoutOk} `{StopState hw} (img : image) (cons : list (Z * driver)) (pre : list Z).
Implicit Types (s : kstate hw) (v : view) (msgs : list message).

(** The view after the messages, each printed from a memory that is [m0] but for the
    buffer and the screen. *)
Fixpoint shows_messages (m0 : bmem) msgs v v' : Prop :=
  match msgs with
  | [] => v' = v
  | (level, fmt, args) :: msgs =>
      ∃ line m, quiet_same m0 m ∧ line_text img level fmt args m line ∧
        shows_messages m0 msgs (foldl (driver_shows pre line) v cons) v'
  end.

(** The log works, and its levels are those of the image. *)
Definition ready s v : Prop :=
  log_ok (pv := pv) cons pre s ∧ displays (pv := pv) s v ∧ k_lock s = false ∧
  loglevel s = LOGLEVEL_DEFAULT ∧ curlevel s = LOGLEVEL_DEFAULT.

(** [f] prints messages of [Q] and returns. *)
Definition prints (f : M (kstate hw) unit) (Q : list message → Prop) s v : Prop :=
  ∃ msgs s' v', Q msgs ∧ f s = Done tt s' ∧ ready s' v' ∧ log_step s s' ∧ shows_messages (k_mem s) msgs v v'.

Lemma shows_messages_mono m0 m1 msgs v v' : quiet_same m0 m1 → shows_messages m1 msgs v v' → shows_messages m0 msgs v v'.
Proof.
  intros Hq. revert v. induction msgs as [|[[lev fmt] args] msgs IH]; intros v; [done|].
  intros (line & m & Hm & Hl & Hs). exists line, m. split; [|by auto]. intros a Ha. by rewrite Hm, Hq.
Qed.

Lemma shows_messages_app m0 l1 l2 v v1 v2 :
  shows_messages m0 l1 v v1 → shows_messages m0 l2 v1 v2 → shows_messages m0 (l1 ++ l2) v v2.
Proof.
  revert v. induction l1 as [|[[lev fmt] args] l1 IH]; intros v; [by intros -> ?|].
  intros (line & m & Hm & Hl & Hs) Hs2. exists line, m. auto.
Qed.

Lemma prints_ret s v : ready s v → prints (mret tt) (λ l, l = []) s v.
Proof. intros Hr. exists [], s, v. split_and!; [done..|apply log_step_refl|done]. Qed.

Lemma prints_weaken f (Q R : list message → Prop) s v : prints f Q s v → (∀ l, Q l → R l) → prints f R s v.
Proof. intros (msgs & s' & v' & ? & ?) HR. exists msgs, s', v'. auto. Qed.

Lemma prints_bind f g Q R s v : prints f Q s v →
  (∀ s' v', ready s' v' → log_step s s' → prints g R s' v') →
  prints (f ;; g) (λ l, ∃ l1 l2, l = l1 ++ l2 ∧ Q l1 ∧ R l2) s v.
Proof.
  intros (l1 & s1 & v1 & HQ & Hr & Hok & Hs & Hm) Hg.
  destruct (Hg s1 v1 Hok Hs) as (l2 & s2 & v2 & HR & Hr' & Hok' & Hs' & Hm').
  exists (l1 ++ l2), s2, v2. split; [eauto|]. split; [by rewrite (bind_done _ _ _ _ _ Hr)|]. split; [done|].
  split; [by eapply log_step_trans|]. apply (shows_messages_app _ _ _ _ v1); [done|].
  by apply (shows_messages_mono _ (k_mem s1)); [apply Hs|].
Qed.

Lemma prints_pr level fmt args s v : ready s v → level ≤ LOGLEVEL_DEFAULT → Z.of_nat (length fmt) < 2 ^ 64 →
  prints (pr img level fmt args) (λ l, l = [(level, fmt, args)]) s v.
Proof.
  intros (Hok & Hd & Hl & Hll & Hcl) Hlev Hf.
  destruct (vprintk_printed (pv := pv) cons pre img level fmt args s v Hok Hd Hl Hf)
    as (line & s' & Hr & Hline & Hok' & Hd' & Hs'); [rewrite Hll, Hcl; by destruct (level =? _)|].
  exists [(level, fmt, args)], s', (foldl (driver_shows pre line) v cons). split; [done|].
  split; [unfold pr, printk; by rewrite (bind_done _ _ _ _ _ Hr)|].
  destruct Hs' as [(H1' & H2' & H3' & H4') Hq]. split; [by split_and!; congruence || done|].
  split; [by split|]. exists line, (k_mem s). split; [by intros a _|]. done.
Qed.

(** Reading memory that no message touches. *)
Lemma quiet_rd64 s s' a : log_step s s' → quiet a 8 → rd64 (k_mem s') a = rd64 (k_mem s) a.
Proof. intros [_ Hq] Ha. apply rd_le_ext. intros i Hi. apply Hq, (quiet_sub a 8); (done || lia). Qed.
(** *** The stack *)

Lemma frame_list_frames m bp l n : frames m bp l → (length l ≤ n)%nat → frame_list n m bp = l.
Proof.
  intros Hf. revert n. induction Hf as [|bp l Hne Hq Hf IH]; intros n Hn; [by destruct n|].
  destruct n as [|n]; cbn in *; [lia|]. rewrite (proj2 (Z.eqb_neq bp 0)) by done. f_equal. apply IH. lia.
Qed.

Lemma frames_same m m' bp l : quiet_same m m' → frames m bp l → frames m' bp l.
Proof.
  intros Hq. induction 1 as [|bp l Hne Hqb Hf IH]; [constructor|].
  assert (rd64 m' bp = rd64 m bp ∧ rd64 m' (bp + 8) = rd64 m (bp + 8)) as [E1 E2].
  { split; (apply rd_le_ext; intros i Hi; apply Hq, (quiet_sub bp 16); [done|lia..]). }
  rewrite <- E2. constructor; [done|done|]. by rewrite E1.
Qed.

Lemma show_frames_prints s v bp l : ready s v → frames (k_mem s) bp l → Z.of_nat (length l) < 2 ^ 63 →
  prints (loop (show_frame img) bp) (λ msgs, msgs = (λ a, (LOGLEVEL_DEFAULT, textn "%pB", [a])) <$> l) s v.
Proof.
  intros Hr Hf Hl. set (msg := λ a : Z, (LOGLEVEL_DEFAULT, textn "%pB", [a])).
  destruct (loop_total (show_frame img)
    (λ a s', ∃ v' done todo, l = done ++ todo ∧ frames (k_mem s) a todo ∧ ready s' v' ∧ log_step s s' ∧
       shows_messages (k_mem s) (msg <$> done) v v')
    (λ _ s', ∃ v', ready s' v' ∧ log_step s s' ∧ shows_messages (k_mem s) (msg <$> l) v v')
    (λ a _, Z.of_nat (length (frame_list (length l) (k_mem s) a)))) with (a := bp) (s := s)
    as ([] & s' & Hrun & v' & Hr' & Hs' & Hm').
  - clear bp Hr Hf. intros bp s1 (v1 & dn & todo & Hdl & Hf & Hr & Hs & Hm). unfold loop_step_ok, show_frame.
    assert (length todo ≤ length l)%nat as Hlen by (rewrite Hdl, length_app; lia).
    inversion Hf as [E1 E2|bp' todo' Hne Hq Hf' E1 E2]; subst bp' || subst bp; subst todo.
    + rewrite Z.eqb_refl. exists v1. rewrite Hdl, app_nil_r. done.
    + rewrite (proj2 (Z.eqb_neq bp 0)) by done. erewrite bind_done by reflexivity.
      rewrite (quiet_rd64 s s1 (bp + 8)) by (done || (apply (quiet_sub bp 16); (done || lia))).
      destruct (prints_pr LOGLEVEL_DEFAULT (textn "%pB") [rd64 (k_mem s) (bp + 8)] s1 v1 Hr) as
        (msgs & s2 & v2 & -> & Hrun & Hr2 & Hs2 & Hm2); [done|by vm_compute|].
      rewrite (bind_done _ _ _ _ _ Hrun). erewrite bind_done by reflexivity.
      assert (log_step s s2) as Hs02 by (by eapply log_step_trans).
      rewrite (quiet_rd64 s s2 bp) by (done || (apply (quiet_sub bp 16); (done || lia))).
      split.
      * exists v2, (dn ++ [rd64 (k_mem s) (bp + 8)]), todo'. split; [by rewrite <- app_assoc|]. split; [done|].
        split; [done|]. split; [done|]. rewrite fmap_app. apply (shows_messages_app _ _ _ _ v1); [done|].
        by apply (shows_messages_mono _ (k_mem s1)); [apply Hs|].
      * cbn [length] in Hlen. rewrite !(frame_list_frames (k_mem s) _ _ _ Hf), (frame_list_frames (k_mem s) _ todo') by (done || cbn; lia).
        cbn [length]. lia.
  - exists v, [], l. split; [done|]. split; [done|]. split; [done|]. split; [apply log_step_refl|done].
  - rewrite (frame_list_frames _ _ l) by done. lia.
  - exists (msg <$> l), s', v'. done.
Qed.

(** Where [show_stack] starts. *)
Definition first_frame (m : bmem) (regs : Z) : Z := if regs =? 0 then frame_address else rd64 m (regs + pt_rbp).

Lemma show_stack_prints s v regs l : ready s v → frames (k_mem s) (first_frame (k_mem s) regs) l →
  Z.of_nat (length l) < 2 ^ 63 → regs = 0 ∨ quiet regs 168 →
  prints (show_stack img regs) (λ msgs, msgs = trace_messages l) s v.
Proof.
  intros Hr Hf Hl Hq. eapply prints_weaken.
  - apply (prints_bind _ _ (λ msgs, msgs = [(LOGLEVEL_DEFAULT, textn "Call Trace:", [])])
      (λ msgs, msgs = (λ a, (LOGLEVEL_DEFAULT, textn "%pB", [a])) <$> l)).
    + apply prints_pr; [done..|by vm_compute].
    + intros s' v' Hr' Hs'.
      assert (frames (k_mem s') (first_frame (k_mem s) regs) l) as Hf' by (by apply (frames_same (k_mem s)); [apply Hs'|]).
      pose proof (show_frames_prints s' v' _ l Hr' Hf' Hl) as (msgs & s'' & v'' & Hq' & Hrun & Hrest).
      exists msgs, s'', v''. split; [done|]. split; [|done]. unfold first_frame in *.
      destruct (Z.eqb_spec regs 0); cbn [negb]; [by erewrite bind_done by reflexivity|].
      destruct Hq as [|Hq]; [done|]. erewrite bind_done by reflexivity.
      rewrite (quiet_rd64 s s'); [done|done|]. apply (quiet_sub regs 168); unfold pt_rbp; (done || lia).
  - by intros msgs (l1 & l2 & -> & -> & ->).
Qed.
(** *** The end *)

Lemma ready_hw s v h : ready s v → pv h = s_ports (pv := pv) s → ready (with_hw h s) v.
Proof.
  intros (Hok & Hd & Hl & Hll & Hcl) Hp. split_and!; try done.
  - apply (log_ok_frame cons pre s (k_mem s) h Hok); [done|]. left. by rewrite Hp.
  - apply (displays_same v s (k_mem s) h Hd); [done|]. intros p <-. by rewrite Hp.
Qed.

Lemma shutdown_ports s l : Forall (λ b, 0 ≤ b < 256) l →
  ends (pv := pv) (outs_list 0x8900 l s) s tt (s_ports (pv := pv) s).
Proof.
  intros Hl. revert s. induction Hl as [|b l Hb _ IH]; intros s; [apply ends_ret|].
  apply (ends_bind (k_outb b 0x8900) (λ _, outs_list 0x8900 l) s tt (s_ports (pv := pv) s)).
  - replace (s_ports (pv := pv) s) with (out_port 0x8900 b (s_ports (pv := pv) s)) by (by destruct (s_ports s)).
    apply ends_outb; [done|set_solver +].
  - intros h <-. apply IH.
Qed.

Lemma halt_forever_spec s : halt_forever s = OutOfFuel s.
Proof.
  destruct (loop_stuck (λ _ : unit, mret (inl tt) : M (kstate hw) (unit + unit)) (λ _ s', s' = s) tt s) as (a & s' & Hr & ->); [|done|exact Hr].
  intros [] s' ->. by exists tt, s.
Qed.

(** [die] leaves the consoles as they are, and never returns. *)
Lemma die_spec s v : ready s v → ∃ s', die s = OutOfFuel s' ∧ ready s' v ∧ log_step s s'.
Proof.
  intros Hr. destruct (ends_outb (pv := pv) s 0 0x501) as (h1 & Hr1 & Hp1); [done|set_solver +|].
  replace (out_port 0x501 0 (s_ports (pv := pv) s)) with (s_ports (pv := pv) s) in Hp1 by (by destruct (s_ports s)).
  destruct (shutdown_ports (with_hw h1 s) (text "Shutdown")) as (h2 & Hr2 & Hp2).
  { rewrite Forall_forall. intros b Hb. change (b ∈ [83; 104; 117; 116; 100; 111; 119; 110]) in Hb.
    rewrite !elem_of_cons, elem_of_nil in Hb. lia. }
  change (s_ports (with_hw h1 s)) with (pv h1) in Hp2. rewrite Hp1 in Hp2.
  exists (with_hw h2 (with_hw h1 s)). split; [|split].
  - unfold die. rewrite (bind_done _ _ _ _ _ Hr1), (bind_done _ _ _ _ _ Hr2). apply halt_forever_spec.
  - by apply (ready_hw s v h2).
  - by apply (log_step_hw s (k_mem s) h2).
Qed.

(** A computation that prints messages of [Q] and then halts for ever. *)
Definition stops (o : outcome (kstate hw) unit) (Q : list message → Prop) s v : Prop :=
  ∃ msgs s' v', Q msgs ∧ o = OutOfFuel s' ∧ ready s' v' ∧ log_step s s' ∧ shows_messages (k_mem s) msgs v v'.

Lemma prints_die f Q s v : prints f Q s v → stops ((f ;; die) s) Q s v.
Proof.
  intros (msgs & s1 & v1 & HQ & Hr & Hok & Hs & Hm). destruct (die_spec s1 v1 Hok) as (s2 & Hr2 & Hok2 & Hs2).
  exists msgs, s2, v1. split; [done|]. split; [by rewrite (bind_done _ _ _ _ _ Hr)|]. split; [done|].
  split; [by eapply log_step_trans|done].
Qed.

Lemma panic_stops fmt args s v l : ready s v → Z.of_nat (length fmt) < 2 ^ 64 →
  frames (k_mem s) frame_address l → Z.of_nat (length l) < 2 ^ 63 →
  stops (panic img fmt args s) (λ msgs, msgs = (LOGLEVEL_EMERG, fmt, args) :: trace_messages l) s v.
Proof.
  intros Hr Hf Hfr Hl.
  assert (prints (pr img LOGLEVEL_EMERG fmt args ;; dump_stack img)
    (λ msgs, msgs = (LOGLEVEL_EMERG, fmt, args) :: trace_messages l) s v) as Hp.
  { eapply prints_weaken.
    - apply (prints_bind _ _ (λ msgs, msgs = [(LOGLEVEL_EMERG, fmt, args)]) (λ msgs, msgs = trace_messages l)).
      + by apply prints_pr.
      + intros s' v' Hr' Hs'. apply (show_stack_prints s' v' 0 l Hr'); [|done|by left].
        apply (frames_same (k_mem s)); [apply Hs'|done].
    - by intros msgs (l1 & l2 & -> & -> & ->). }
  apply prints_die in Hp. destruct Hp as (msgs & s' & v' & HQ & Hrun & Hrest). exists msgs, s', v'.
  split; [done|]. split; [|done]. rewrite <- Hrun. unfold panic, pr, printk, mbind, M_bind, mret, M_ret.
  by destruct (vprintk img LOGLEVEL_EMERG fmt args s).
Qed.
(** *** The registers *)

Definition then_list (msg : message) (R : list message → Prop) (l : list message) : Prop := ∃ l2, l = msg :: l2 ∧ R l2.

Lemma prints_cons level fmt args g R s v : ready s v → level ≤ LOGLEVEL_DEFAULT → Z.of_nat (length fmt) < 2 ^ 64 →
  (∀ s' v', ready s' v' → log_step s s' → prints g R s' v') →
  prints (pr img level fmt args ;; g) (then_list (level, fmt, args) R) s v.
Proof.
  intros Hr Hlev Hf Hg. eapply prints_weaken; [apply prints_bind; [by apply prints_pr|exact Hg]|].
  intros l (l1 & l2 & -> & -> & HR). by exists l2.
Qed.

Section registers.
Context (s0 : kstate hw) (regs : Z) (Hregs : quiet regs 168).

Definition saved (o : Z) : Z := rd64 (k_mem s0) (regs + o).

Lemma prints_reg o (k : Z → M (kstate hw) unit) R s v : log_step s0 s → 0 ≤ o ≤ 160 →
  prints (k (saved o)) R s v → prints (a ← reg regs o; k a) R s v.
Proof.
  intros Hs Ho Hk. unfold prints, reg in *. erewrite bind_done by reflexivity.
  rewrite (quiet_rd64 s0 s); [done|done|]. apply (quiet_sub regs 168); (done || lia).
Qed.

Lemma prints_hw (f : hw → Z) (k : Z → M (kstate hw) unit) R s v :
  prints (k (f (m_hw (k_mach s)))) R s v → prints (a ← hw_reg f; k a) R s v.
Proof. done. Qed.

Lemma prints_msr i (k : Z → M (kstate hw) unit) R s v :
  (∀ a, prints (k a) R s v) → prints (a ← on_mach (rdmsrl i); k a) R s v.
Proof.
  intros Hk. specialize (Hk (u64 (hw_rdmsr (m_hw (k_mach s)) (u32 i)))).
  assert (on_mach (rdmsrl i) s = Done (u64 (hw_rdmsr (m_hw (k_mach s)) (u32 i))) s) as Hr by by destruct s.
  unfold prints in *. by rewrite (bind_done _ _ _ _ _ Hr).
Qed.

Lemma prints_three fmt a b c g R s v : ready s v → log_step s0 s → Z.of_nat (length fmt) < 2 ^ 64 →
  0 ≤ a ≤ 160 → 0 ≤ b ≤ 160 → 0 ≤ c ≤ 160 →
  (∀ s' v', ready s' v' → log_step s0 s' → prints g R s' v') →
  prints (show_three img regs fmt a b c ;; g) (then_list (LOGLEVEL_DEFAULT, fmt, [saved a; saved b; saved c]) R) s v.
Proof.
  intros Hr Hs Hf Ha Hb Hc Hg. eapply prints_weaken.
  - apply (prints_bind _ _ (λ msgs, msgs = [(LOGLEVEL_DEFAULT, fmt, [saved a; saved b; saved c])])).
    + unfold show_three. do 3 (apply prints_reg; [done..|]). by apply prints_pr.
    + intros s' v' Hr' Hs'. apply Hg; [done|by eapply log_step_trans].
  - intros l (l1 & l2 & -> & -> & HR). by exists l2.
Qed.

(** The lines of the saved registers. *)
Definition register_messages : list message :=
  [(LOGLEVEL_DEFAULT, textn "RIP: %04lx:%pS", [saved pt_cs &&& 0xffff; saved pt_rip]);
   (LOGLEVEL_DEFAULT, text "RSP: %04lx:%016lx RFLAGS: %08lx", [saved pt_ss; saved pt_rsp; saved pt_rflags]);
   (if negb (saved pt_orig_rax =? u64 (-1)) then (LOGLEVEL_CONT, textn " ORIG_RAX: %016lx", [saved pt_orig_rax])
    else (LOGLEVEL_CONT, textn "", []));
   (LOGLEVEL_DEFAULT, textn "RAX: %016lx RBX: %016lx RCX: %016lx", [saved pt_rax; saved pt_rbx; saved pt_rcx]);
   (LOGLEVEL_DEFAULT, textn "RDX: %016lx RSI: %016lx RDI: %016lx", [saved pt_rdx; saved pt_rsi; saved pt_rdi]);
   (LOGLEVEL_DEFAULT, textn "RBP: %016lx R08: %016lx R09: %016lx", [saved pt_rbp; saved pt_r8; saved pt_r9]);
   (LOGLEVEL_DEFAULT, textn "R10: %016lx R11: %016lx R12: %016lx", [saved pt_r10; saved pt_r11; saved pt_r12]);
   (LOGLEVEL_DEFAULT, textn "R13: %016lx R14: %016lx R15: %016lx", [saved pt_r13; saved pt_r14; saved pt_r15])].

(** The lines of the control registers, which are those of the processor at the time. *)
Definition control_messages (a b c : list Z) : list message :=
  [(LOGLEVEL_DEFAULT, textn "FS:  %016lx(%04x) GS:%016lx(%04x) knlGS:%016lx", a);
   (LOGLEVEL_DEFAULT, textn "CS:  %04x DS: %04x ES: %04x CR0: %016lx", b);
   (LOGLEVEL_DEFAULT, textn "CR2: %016lx CR3: %016lx CR4: %016lx", c)].

(** All that [show_regs] prints. *)
Definition regs_messages (l : list Z) (msgs : list message) : Prop :=
  ∃ a b c, msgs = register_messages ++ control_messages a b c ++ trace_messages l.

#[local] Ltac message := apply prints_cons; [done|by vm_compute|by vm_compute|]; intros ? ? ? ?.
#[local] Ltac three := apply prints_three; [done|done|by vm_compute|done|done|done|]; intros ? ? ? ?.

Lemma show_regs_prints v l : ready s0 v → regs ≠ 0 → frames (k_mem s0) (saved pt_rbp) l → Z.of_nat (length l) < 2 ^ 63 →
  prints (show_regs img regs) (regs_messages l) s0 v.
Proof.
  intros Hr0 Hne Hf Hl. assert (∀ s s1 s2, log_step s s1 → log_step s1 s2 → log_step s s2) as Htr by apply log_step_trans.
  pose proof (log_step_refl s0) as Hs0.
  eapply prints_weaken.
  - unfold show_regs. do 2 (apply prints_reg; [done..|]). message. three. apply prints_reg; [done..|].
    apply (prints_bind _ _ (λ msgs, msgs = [if negb (saved pt_orig_rax =? u64 (-1))
      then (LOGLEVEL_CONT, textn " ORIG_RAX: %016lx", [saved pt_orig_rax]) else (LOGLEVEL_CONT, textn "", [])])).
    { unfold pr_cont. destruct (negb _); apply prints_pr; by vm_compute || done. }
    intros s3 v3 Hr3 Hs3. assert (log_step s0 s3) as Hs03 by eauto. clear Hs3.
    do 5 three.
    match goal with |- prints ?f _ ?s ?v =>
      enough (prints f (λ msgs, ∃ a b c, msgs = control_messages a b c ++ trace_messages l) s v) as Hx by exact Hx end.
    do 5 apply prints_hw. do 3 (apply prints_msr; intros ?). do 4 apply prints_hw. eapply prints_weaken.
    + do 3 message. apply (show_stack_prints _ _ regs l); [done| |done|by right].
      unfold first_frame. rewrite (proj2 (Z.eqb_neq regs 0)) by done.
      assert (quiet (regs + pt_rbp) 8) by (apply (quiet_sub regs 168); unfold pt_rbp; (done || lia)).
      match goal with |- frames (k_mem ?s) _ _ => assert (log_step s0 s) as Hstep by eauto 6 end.
      rewrite (quiet_rd64 s0 _ _ Hstep) by done. apply (frames_same (k_mem s0)); [apply Hstep|done].
    + intros msgs (? & -> & ? & -> & ? & -> & ->). by eexists _, _, _.
  - intros msgs (? & -> & ? & -> & ? & ? & -> & -> & ? & -> & ? & -> & ? & -> & ? & -> & ? & -> & a & b & c & ->).
    by exists a, b, c.
Qed.
End registers.
Lemma do_trap_stops s v regs error_code str trapnr l : ready s v → regs ≠ 0 → quiet regs 168 →
  frames (k_mem s) (rd64 (k_mem s) (regs + pt_rbp)) l → Z.of_nat (length l) < 2 ^ 63 →
  stops (do_trap img regs error_code str trapnr s)
    (then_list (LOGLEVEL_ERR, textn "unknown vector: %ld (%s), error code: %lx", [trapnr; str; error_code])
      (regs_messages s regs l)) s v.
Proof.
  intros Hr Hne Hq Hf Hl.
  assert (prints (pr_err img (textn "unknown vector: %ld (%s), error code: %lx") [trapnr; str; error_code] ;; show_regs img regs)
    (then_list (LOGLEVEL_ERR, textn "unknown vector: %ld (%s), error code: %lx", [trapnr; str; error_code])
      (regs_messages s regs l)) s v) as Hp.
  { apply prints_cons; [done|done|by vm_compute|]. intros s' v' Hr' Hs'.
    assert (∀ o, 0 ≤ o ≤ 160 → saved s' regs o = saved s regs o) as Hsaved.
    { intros o Ho. unfold saved. rewrite (quiet_rd64 s s'); [done|done|]. apply (quiet_sub regs 168); (done || lia). }
    eapply prints_weaken.
    - apply (show_regs_prints s' regs Hq v' l Hr' Hne); [|done].
      rewrite Hsaved by done. apply (frames_same (k_mem s)); [apply Hs'|done].
    - intros msgs (a & b & c & ->). exists a, b, c. unfold register_messages. by rewrite !Hsaved by done. }
  apply prints_die in Hp. destruct Hp as (msgs & s' & v' & HQ & Hrun & Hrest). exists msgs, s', v'.
  split; [done|]. split; [|done]. rewrite <- Hrun. unfold do_trap, mbind, M_bind.
  by destruct (pr_err img _ _ s).
Qed.
End stop_spec.

(** C29: [panic] prints its message and the return address of every frame of the stack, on
    every console, and never returns; the stack walk ends on any chain of frames.  The
    consoles still work and the lock is free when the processor halts. *)
Theorem panic_correct {hw} `{Hardware hw, ConsoleLayout} {pv busy} `{!ConsolePorts hw pv busy, !ConsoleLayoutOk, StopState hw}
    img cons pre fmt args (s : kstate hw) v l :
  ready (pv := pv) cons pre s v → Z.of_nat (length fmt) < 2 ^ 64 →
  frames (k_mem s) frame_address l → Z.of_nat (length l) < 2 ^ 63 →
  ∃ s' v', panic img fmt args s = OutOfFuel s' ∧ ready (pv := pv) cons pre s' v' ∧
    shows_messages img cons pre (k_mem s) ((LOGLEVEL_EMERG, fmt, args) :: trace_messages l) v v'.
Proof.
  intros Hr Hf Hfr Hl. destruct (panic_stops img cons pre fmt args s v l Hr Hf Hfr Hl) as (msgs & s' & v' & -> & Hrun & Hr' & _ & Hm).
  by exists s', v'.
Qed.


(** ** A failure *)

Module PanicDemo.
Import ConsoleDemo LogDemo.

#[local] Instance stop_state : StopState ports := {|
  st_ds := λ _, 16; st_cs := λ _, 8; st_es := λ _, 16; st_fs := λ _, 0; st_gs := λ _, 0; st_cr2 := λ _, 0;
  frame_address := frame; trap_string := λ _, colour;
|}.
#[local] Existing Instance layout_ok.

Lemma started_ready : ready (pv := pv) [(porte9_con, DebugPort); (vgacon_con, Screen)] BRIGHT_YELLOW started boot_view.
Proof. destruct started_log. by split_and!. Qed.

Lemma started_frames : frames (k_mem started) frame [0x10000123; 0x10000456].
Proof.
  assert (∀ a n, 0x30000 ≤ a → a + n ≤ 0x32000 → quiet a n) as Hq.
  { intros a n H1 H2. split; [left; change vga_vram_base with 0xb8000|right; change (printk_buf + LOG_LINE_MAX) with 0x21400]; lia. }
  change 0x10000123 with (rd64 (k_mem started) (frame + 8)). constructor; [done|by apply Hq|].
  replace (rd64 (k_mem started) frame) with (frame + 32) by (vm_compute; reflexivity).
  change 0x10000456 with (rd64 (k_mem started) (frame + 32 + 8)). constructor; [done|by apply Hq|].
  replace (rd64 (k_mem started) (frame + 32)) with 0 by (vm_compute; reflexivity). constructor.
Qed.

Lemma panic_correct_witness :
  ∃ s' v', panic Hypervisor (textn "no VMX") [] started = OutOfFuel s' ∧
    ready (pv := pv) [(porte9_con, DebugPort); (vgacon_con, Screen)] BRIGHT_YELLOW s' v' ∧
    shows_messages Hypervisor [(porte9_con, DebugPort); (vgacon_con, Screen)] BRIGHT_YELLOW (k_mem started)
      ((LOGLEVEL_EMERG, textn "no VMX", []) :: trace_messages [0x10000123; 0x10000456]) boot_view v'.
Proof.
  exact (panic_correct (pv := pv) Hypervisor _ _ (textn "no VMX") [] started boot_view _ started_ready eq_refl started_frames eq_refl).
Defined.

End PanicDemo.
