(* ===== verification/Main.v ===== *)
(** The program from its first C instruction to the guest's: [main] of [vmm/main.c] with
    [kvm_init] and [kvm_bsp_run] of [vmm/kvm.c].  The components of the other files run here
    one after the other on a single state. *)

From S2P Require Import Prelude Mem Vmcs Machine Tsc Console Cpu Apic Acpi Madt Kvm Vmx VmxExit Ept Hypervisor E820 Boot Traps.
#[local] Open Scope Z_scope.
#[local] Open Scope cint_scope.

(** ** The state of the program

    The memory of the files that work on bytes is one memory here, [k_mem] of the console's
    state: the lists of the consoles, the descriptor tables of [trap_init], the multiboot
    structures, the ACPI tables and the parameters of the guest are objects in it.  The
    parts that have no memory of their own are the machine, the E820 tables and the
    registers that point to the descriptor tables. *)

Record trap_registers : Type := mk_tregs {
  r_vectors : list Z; r_idtr : option (Z * Z); r_gdtr : option (Z * Z); r_tr : Z;
}.

Record program (hw : Type) : Type := mk_program {
  p_kernel : kstate hw;
  p_e820 : e820_state;
  p_traps : trap_registers;
}.
Arguments mk_program {hw}. Arguments p_kernel {hw}. Arguments p_e820 {hw}. Arguments p_traps {hw}.

Abbreviation p_mem s := (k_mem (p_kernel s)).
Abbreviation p_mach s := (k_mach (p_kernel s)).

Definition with_kernel {hw} (k : kstate hw) (s : program hw) : program hw := mk_program k (p_e820 s) (p_traps s).

(** The components on the parts of the state that they work on. *)
Definition on_kernel {hw A} (f : M (kstate hw) A) : M (program hw) A := λ s,
  lift_outcome (λ k, with_kernel k s) (f (p_kernel s)).
Definition on_processor {hw A} (f : M (machine hw) A) : M (program hw) A := on_kernel (on_mach f).
Definition on_boot {hw A} (f : M boot_state A) : M (program hw) A := λ s,
  lift_outcome (λ b, mk_program (with_mem (b_mem b) (p_kernel s)) (b_e820 b) (p_traps s))
    (f (mk_bstate (p_e820 s) (p_mem s))).

(** [lgdt], [lidt] and [ltr] on the processor that [sgdt], [sidt] and [str] read later. *)
Class DescriptorRegisters (hw : Type) : Type := load_registers : trap_registers → hw → hw.

(** Nothing reads the registers while the tables are being set up, so they are loaded at the
    end. *)
Definition on_traps `{DescriptorRegisters hw} {A} (f : M (trap_state * machine hw) A) : M (program hw) A := λ s,
  let r := p_traps s in
  lift_outcome (λ p,
      let r := mk_tregs (system_vectors p.1) (idtr p.1) (gdtr p.1) (task_register p.1) in
      let x := set_hw (load_registers r (m_hw p.2)) p.2 in
      mk_program (with_mem (t_mem p.1) (with_mach x (p_kernel s))) (p_e820 s) r)
    (f (mk_traps (p_mem s) (r_vectors r) (r_idtr r) (r_gdtr r) (r_tr r), p_mach s)).

(** A component that reads the memory at its time. *)
Definition on_firmware {hw A} (f : bmem → M (machine hw) A) : M (program hw) A := λ s,
  on_processor (f (p_mem s)) s.

(** *** The memory as words

    The virtual machine works on 64-bit words: its page tables, its VMCS and the guest's
    accesses are aligned.  [words] is the memory in that form.  The page tables of
    [vmm/head.S] map the first 4 GB twice, at 0 and at [__ENTRY_OFFSET]; [linear] has both
    views.  The second one is read once behind [kvm_init], for the task-state descriptor. *)

Definition word_of (m : bmem) (a : Z) : Z * Z := (a / 8, rd64 m (8 * (a / 8))).
Definition words (m : bmem) : gmap Z Z := list_to_map (word_of m <$> (map_to_list m).*1).

Definition entry_window : Z := __ENTRY_OFFSET / 8.
Definition linear (m : bmem) : gmap Z Z :=
  kmap (Z.add entry_window) (filter (λ p, 0 ≤ p.1 < SZ_4G / 8) (words m)) ∪ words m.

Definition enter_words {hw} (s : program hw) : program hw :=
  with_kernel (with_mach (set_mem (linear (p_mem s)) (p_mach s)) (p_kernel s)) s.

(** ** [main] *)

Section main.
Context {hw : Type} `{Hardware hw} `{DescriptorRegisters hw}.
Context `{ConsoleLayout} `{Layout} `{BootLayout} `{TrapLayout}.

Definition kvm_init : M (program hw) unit :=
  on_processor kvm_init_hardware ;;
  on_boot kvm_init_guest.

(** [kvm_bsp_run] before it enters [kvm_loop]. *)
Definition kvm_bsp_run : M (program hw) unit :=
  modify enter_words ;;
  on_processor kvm_bsp_start.

(** [main] before [kvm_loop], which does not return; [colour] is the address of the string
    literal of [BRIGHT_YELLOW]. *)
Definition main (colour magic multiboot_info : Z) : M (program hw) unit :=
  on_kernel (porte9_init colour) ;;
  on_kernel vgacon_init ;;
  on_processor cpu_init ;;
  on_processor tsc_init ;;
  on_traps trap_init ;;
  on_boot (multiboot_init magic multiboot_info) ;;
  on_firmware acpi_table_init ;;
  on_firmware apic_init ;;
  kvm_init ;;
  kvm_bsp_run.
End main.
