(* ===== verification/MainSpec.v ===== *)
(** The start of the program: what the initialisation leaves alone, and what it hands over
    to the guest and to [kvm_loop]. *)

From stdpp Require Import relations.
From S2P Require Import Prelude Bitops Mem DList CString Hexdump Vmcs Machine Tsc Console ConsoleSpec Cpu Apic Acpi Madt Kvm Vmx VmxState VmxExit Ept.
From S2P Require Import Hypervisor E820 E820Map E820Update Boot BootSpec Traps TrapsSpec Main.
#[local] Open Scope Z_scope.
#[local] Open Scope cint_scope.

(** ** The memory as words *)

Lemma rd8_absent m a : m !! a = None → rd8 m a = 0.
Proof. intros Ha. unfold rd8. by rewrite Ha. Qed.

(** A word of the two views. *)
Lemma read_words m i : read_word (words m) i = rd64 m (8 * i).
Proof.
  unfold read_word, words. set (l := word_of m <$> (map_to_list m).*1).
  assert (∀ x, (i, x) ∈ l → x = rd64 m (8 * i)) as Hval.
  { intros x (a & Hx & _)%list_elem_of_fmap. unfold word_of in Hx. congruence. }
  destruct (list_to_map l !! i) as [x|] eqn:E; cbn [default from_option].
  - apply Hval, elem_of_list_to_map_2. exact E.
  - apply not_elem_of_list_to_map_2 in E.
    assert (∀ d, 0 ≤ d < 8 → rd8 m (8 * i + d) = 0) as Hz.
    { intros d Hd. apply rd8_absent. destruct (m !! (8 * i + d)) as [v|] eqn:Hv; [|done]. exfalso. apply E.
      apply list_elem_of_fmap. exists (i, rd64 m (8 * i)). split; [done|]. apply list_elem_of_fmap.
      exists (8 * i + d). unfold word_of. replace ((8 * i + d) / 8) with i by divlia. split; [done|].
      apply list_elem_of_fmap. exists (8 * i + d, v). split; [done|]. by apply elem_of_map_to_list. }
    unfold rd64, rd_le. cbn [rd_bytes le_combine].
    pose proof (Hz 0 ltac:(lia)) as H0. rewrite Z.add_0_r in H0. rewrite H0.
    rewrite <- !Z.add_assoc. cbn [Z.add Pos.add Pos.succ]. by rewrite !Hz by lia.
Qed.

(** Below the second view the memory is as it was. *)
Lemma read_linear m i : i < entry_window → read_word (linear m) i = rd64 m (8 * i).
Proof.
  intros Hi. rewrite <- read_words. unfold read_word, linear. rewrite lookup_union_r; [done|].
  apply lookup_kmap_None; [intros a b; lia|]. intros k ->. apply map_lookup_filter_None. right.
  intros x _ [Hk _]. cbn [fst] in Hk. lia.
Qed.

(** In the second view a word is found that is not zero in the first. *)
Lemma read_window m k : 0 ≤ k < SZ_4G / 8 → rd64 m (8 * k) ≠ 0 → read_word (linear m) (entry_window + k) = rd64 m (8 * k).
Proof.
  intros Hk Hnz. rewrite <- read_words in *. unfold read_word in *. destruct (words m !! k) as [x|] eqn:E; [|done].
  unfold linear. rewrite (lookup_union_Some_l _ _ (entry_window + k) x); [done|].
  rewrite lookup_kmap by (intros a b; lia). by apply map_lookup_filter_Some.
Qed.

(** ** What the initialisation leaves alone

    Up to [kvm_init] nothing touches the VMCS, the memory of the virtual machine or the
    bitmap. *)

Section init.
Context {hw : Type} `{Hardware hw}.
Implicit Types s : machine hw.

Definition same_vm s0 s : Prop :=
  m_vmcs s = m_vmcs s0 ∧ m_mem s = m_mem s0 ∧ m_ept_init s = m_ept_init s0 ∧ m_msr_bitmap s = m_msr_bitmap s0.

Context (s0 : machine hw).
#[local] Notation I := (same_vm s0).

Lemma same_vm_modify (f : machine hw → machine hw) :
  (∀ s, same_vm s (f s)) → preserves I (modify f).
Proof. intros Hf s (? & ? & ? & ?). destruct (Hf s) as (? & ? & ? & ?). repeat split; cbn; congruence. Qed.

#[local] Hint Extern 0 (preserves (same_vm _) (modify _)) => apply same_vm_modify; intros; repeat split : preserves.

Lemma same_vm_rdtsc : preserves I rdtsc.
Proof. intros s Hs. unfold rdtsc. destruct (hw_rdtsc (m_hw s)). exact Hs. Qed.
Lemma same_vm_inb p : preserves I (inb p).
Proof. intros s Hs. unfold inb. destruct (hw_inb (m_hw s) (u16 p)). exact Hs. Qed.
Lemma same_vm_readl a : preserves I (readl a).
Proof. intros s Hs. unfold readl. destruct (hw_mmio_read32 (m_hw s) (u64 a)). exact Hs. Qed.
#[local] Hint Resolve same_vm_rdtsc same_vm_inb same_vm_readl : preserves.

Lemma same_vm_cpu_init : preserves I cpu_init.
Proof.
  unfold cpu_init, cpu_detect, get_cpu_vendor, get_cpu_cap, get_model_name, cpuid_eax, cpuid_ebx, cpuid_ecx,
    cpuid_edx, cpuid_count, cpuid, set_capability, update_cpu. preserving.
Qed.

Lemma same_vm_tsc_init : preserves I tsc_init.
Proof.
  unfold tsc_init, native_calibrate_tsc, quick_pit_calibrate, quick_pit_step, pit_expect_msb, pit_expect_step,
    pit_verify_msb, get_cycles, pr_info, Machine.printk, outb, cpuid. preserving.
Qed.

Lemma same_vm_udelay n : preserves I (udelay n).
Proof. unfold udelay, udelay_step, uptime, get_cycles. preserving. Qed.
#[local] Hint Resolve same_vm_udelay : preserves.

Lemma same_vm_i8259 : preserves I i8259_init.
Proof. unfold i8259_init, outb_pic, outb. preserving. Qed.

Lemma same_vm_trap_msrs : preserves I trap_init_msrs.
Proof. unfold trap_init_msrs, wrmsrl. preserving. Qed.

Section tables.
Context (fw : bmem).

Lemma same_vm_header a h : preserves I (acpi_tb_print_table_header fw a h).
Proof. unfold acpi_tb_print_table_header, pr_info, Machine.printk. preserving. Qed.
Lemma same_vm_checksum t n : preserves I (acpi_tb_verify_checksum fw t n).
Proof. unfold acpi_tb_verify_checksum, pr_err, Machine.printk. preserving. Qed.
#[local] Hint Resolve same_vm_header same_vm_checksum : preserves.

Lemma same_vm_root_table n e z i : preserves I (root_table_loop fw n e z i).
Proof.
  revert e i. induction n as [|n IH]; intros e i; cbn [root_table_loop]; [apply preserves_ret|].
  unfold pr_info, pr_err, Machine.printk. preserving; apply IH.
Qed.
#[local] Hint Resolve same_vm_root_table : preserves.

Lemma same_vm_acpi_table_init : preserves I (acpi_table_init fw).
Proof.
  unfold acpi_table_init, acpi_tb_parse_root_table, pr_info, pr_err, Machine.printk. preserving.
Qed.

Lemma same_vm_madt_entry p : preserves I (acpi_table_print_madt_entry fw p).
Proof. unfold acpi_table_print_madt_entry, pr_info, Machine.printk. preserving. Qed.

Lemma same_vm_register id e : preserves I (acpi_register_lapic id e).
Proof. unfold acpi_register_lapic. preserving. Qed.
#[local] Hint Resolve same_vm_madt_entry same_vm_register : preserves.

(** The handlers of a walk over subtables keep the invariant. *)
Definition handlers_kept (l : list (acpi_subtable_proc (hw := hw))) : Prop :=
  Forall (λ p, ∀ e t, preserves I (proc_handler p e t)) l.

Lemma run_proc_kept l e t s : handlers_kept l → I s →
  match run_proc fw l e t s with Done (l', _) s' => handlers_kept l' ∧ I s' | o => I (final_state o) end.
Proof.
  intros Hl Hs. induction Hl as [|p l Hp Hl IH]; cbn [run_proc]; [by split; [constructor|]|].
  unfold mbind, M_bind, mret, M_ret. destruct (negb _).
  - destruct (run_proc fw l e t s) as [[l' b] s'| |]; [|done..]. cbn [fst snd]. destruct IH. by split; [constructor|].
  - pose proof (Hp e t s Hs) as H1. destruct (proc_handler p e t s) as [r s'| |]; [|done..].
    destruct (truthy r); [exact H1|]. split; [by constructor|exact H1].
Qed.

Lemma same_vm_entries id size l n : handlers_kept l → preserves I (acpi_table_parse_entries_array fw id size l n).
Proof.
  intros Hl. unfold acpi_table_parse_entries_array, acpi_find_table. preserving_step; [preserving|].
  destruct (_ =? 0); [preserving|]. cbv zeta. set (table_end := _ + _).
  apply (preserves_loop_arg I (λ x, handlers_kept x.2)); [|exact Hl].
  intros [[e c] l'] s Hl' Hs. cbn [snd] in Hl'. unfold entries_step. do 2 (destruct (_ : bool); [exact Hs|]).
  pose proof (run_proc_kept l' e table_end s Hl' Hs) as Hr. unfold mbind at 1, M_bind.
  destruct (run_proc fw l' e table_end s) as [[l2 b] s'| |]; [|done..]. destruct Hr as [Hl2 Hs'].
  unfold BUG_ON. destruct (negb _); [exact Hs'|]. by split.
Qed.

Lemma same_vm_madt_lapics : preserves I (acpi_parse_madt_lapic_entries fw).
Proof.
  unfold acpi_parse_madt_lapic_entries. preserving_step; [|preserving].
  apply same_vm_entries. unfold acpi_parse_lapic, acpi_parse_x2apic.
  do 2 (apply Forall_cons; split; [intros; cbn [proc_handler]; preserving|]). by constructor.
Qed.
#[local] Hint Resolve same_vm_madt_lapics : preserves.

Lemma same_vm_apic_init : preserves I (apic_init fw).
Proof.
  unfold apic_init, verify_apic, acpi_table_parse, acpi_find_table, acpi_parse_madt, clear_local_apic,
    setup_local_apic, lapic_setup_esr, init_apic_ldr, xapic_init_apic_ldr, x2apic_init_apic_ldr, read_apic_id,
    mask_lvt, apic_read, apic_write, xapic_read, xapic_write, x2apic_read, x2apic_write, x2apic_enable,
    no_driver, this_cpu_has, writel, wrmsrl, pr_info, Machine.printk.
  preserving.
Qed.
End tables.
End init.

(** ** One component at a time *)

Section parts.
Context {hw : Type} `{Hardware hw}.
Implicit Types s : program hw.

Lemma on_kernel_inv {A} (f : M (kstate hw) A) s a s' :
  on_kernel f s = Done a s' → ∃ k, f (p_kernel s) = Done a k ∧ s' = with_kernel k s.
Proof. unfold on_kernel, lift_outcome. destruct (f (p_kernel s)) as [b k| |]; [|done..]. intros [= <- <-]. eauto. Qed.

Lemma on_processor_inv {A} (f : M (machine hw) A) s a s' :
  on_processor f s = Done a s' → ∃ x, f (p_mach s) = Done a x ∧ s' = with_kernel (with_mach x (p_kernel s)) s.
Proof.
  intros (k & Hk & ->)%on_kernel_inv. unfold on_mach, lift_outcome in Hk.
  destruct (f (p_mach s)) as [b x| |]; [|done..]. injection Hk as <- <-. eauto.
Qed.

Lemma on_boot_inv {A} (f : M boot_state A) s a s' :
  on_boot f s = Done a s' → ∃ b, f (mk_bstate (p_e820 s) (p_mem s)) = Done a b ∧
    s' = mk_program (with_mem (b_mem b) (p_kernel s)) (b_e820 b) (p_traps s).
Proof. unfold on_boot, lift_outcome. destruct (f _) as [x b| |]; [|done..]. intros [= <- <-]. eauto. Qed.

(** From [s] to [s'] only memory inside [W] changes, besides the devices and what the
    other components keep of the processor. *)
Record changes (W : Z → Prop) s s' : Prop := {
  ch_mem a : ¬ W a → rd8 (p_mem s') a = rd8 (p_mem s) a;
  ch_e820 : p_e820 s' = p_e820 s;
  ch_vm : same_vm (p_mach s) (p_mach s');
}.

Lemma same_vm_refl (x : machine hw) : same_vm x x.
Proof. by split_and!. Qed.

Lemma same_vm_trans (x y z : machine hw) : same_vm x y → same_vm y z → same_vm x z.
Proof. intros (? & ? & ? & ?) (? & ? & ? & ?). split_and!; congruence. Qed.

Lemma changes_trans W s1 s2 s3 : changes W s1 s2 → changes W s2 s3 → changes W s1 s3.
Proof.
  intros [Hm1 He1 Hv1] [Hm2 He2 Hv2]. split; [|congruence|by eapply same_vm_trans].
  intros a Ha. by rewrite Hm2, Hm1.
Qed.

Lemma processor_changes {A} W (f : M (machine hw) A) s a s' :
  (∀ x, preserves (same_vm x) f) → on_processor f s = Done a s' →
  changes W s s' ∧ p_mem s' = p_mem s ∧ p_traps s' = p_traps s.
Proof.
  intros Hf (x & Hx & ->)%on_processor_inv. split; [|done]. split; [done..|].
  exact (preserves_done _ _ _ _ _ (Hf (p_mach s)) (same_vm_refl _) Hx).
Qed.

Lemma firmware_changes {A} W (f : bmem → M (machine hw) A) s a s' :
  (∀ m x, preserves (same_vm x) (f m)) → on_firmware f s = Done a s' →
  changes W s s' ∧ p_mem s' = p_mem s ∧ p_traps s' = p_traps s.
Proof. intros Hf Hr. by apply (processor_changes W (f (p_mem s)) s a); [|exact Hr]. Qed.
End parts.

(** ** The descriptor tables and the consoles *)

Section early.
Context {hw : Type} {HW : Hardware hw} {DR : DescriptorRegisters hw} {CL : ConsoleLayout} {TL : TrapLayout}.
Implicit Types s : program hw.

(** The objects of the image that are written before the boot loader's information is
    read: the nodes of the list of consoles and the descriptor tables. *)
Definition written_early (a : Z) : Prop :=
  (∃ p, p ∈ console_nodes ∧ p ≤ a < p + 16) ∨
  idt_table ≤ a < idt_table + 16 * IDT_ENTRIES ∨
  cpu_entry_area ≤ a < cpu_entry_area + gdt_and_tss.

Lemma consoles_changes colour s s' :
  nodes console_nodes → no_console (p_mem s) →
  (on_kernel (porte9_init colour) ;; on_kernel vgacon_init) s = Done tt s' →
  changes written_early s s' ∧ p_traps s' = p_traps s.
Proof.
  intros HN Hc Hr. bind_inv Hr as u s1 H1. apply on_kernel_inv in H1 as (k1 & H1 & ->).
  apply on_kernel_inv in Hr as (k2 & H2 & ->). cbn [p_kernel with_kernel] in *.
  destruct (consoles_frame colour (p_kernel s) k2 tt HN Hc) as [Ho Hm]; [by rewrite (bind_done _ _ _ _ _ H1)|].
  split; [|done]. split; [|done|cbn [p_kernel with_kernel]; rewrite Hm; apply same_vm_refl].
  intros a Ha. apply Ho. intros p Hp'. destruct (decide (a < p ∨ p + 16 ≤ a)); [done|]. exfalso.
  apply Ha. left. exists p. split; [done|lia].
Qed.

Lemma on_tables_inv {A} (c : M trap_state A) p a p' :
  on_tables (hw := hw) c p = Done a p' → ∃ t, c p.1 = Done a t ∧ p' = (t, p.2).
Proof. unfold on_tables. destruct (c p.1) as [b t| |]; [|done..]. intros [= <- <-]. eauto. Qed.

Lemma on_machine_inv {A} (c : M (machine hw) A) p a p' :
  on_machine c p = Done a p' → ∃ x, c p.2 = Done a x ∧ p' = (p.1, x).
Proof. unfold on_machine. destruct (c p.2) as [b t| |]; [|done..]. intros [= <- <-]. eauto. Qed.

(** [trap_init] goes on with the interrupt descriptor table and its register. *)
Record idt_changes (t t' : trap_state) : Prop := {
  ic_gdtr : gdtr t' = gdtr t; ic_tr : task_register t' = task_register t;
  ic_mem : unchanged_outside (t_mem t) (t_mem t') idt_table (16 * IDT_ENTRIES);
}.

Lemma idt_only_changes t t' : idt_only t t' → idt_changes t t'.
Proof. by intros []. Qed.

Definition sets_idt (c : M trap_state unit) : Prop := ∀ t, vectors_ok t →
  ∃ t', c t = Done tt t' ∧ vectors_ok t' ∧ idt_changes t t'.

Lemma sets_idt_traps : sets_idt idt_setup_traps.
Proof.
  intros t Ht. destruct (setup_from_table_ok def_idts true t (proj1 tables_ok) Ht) as (t' & Hr & Hv & Ho & _).
  eexists. split; [unfold idt_setup_traps; by rewrite (bind_done _ _ _ _ _ Hr)|]. split; [exact Hv|]. by destruct Ho.
Qed.

Lemma sets_idt_ist : sets_idt idt_setup_ist_traps.
Proof.
  intros t Ht. destruct (setup_from_table_ok ist_idts true t (proj1 (proj2 tables_ok)) Ht) as (t' & Hr & Hv & Ho & _).
  exists t'. split; [exact Hr|]. split; [exact Hv|]. by apply idt_only_changes.
Qed.

Lemma sets_idt_gates : sets_idt idt_setup_apic_and_irq_gates.
Proof.
  intros t Ht. destruct (setup_from_table_ok apic_idts true t (proj2 (proj2 tables_ok)) Ht) as (t1 & Hr1 & Hv1 & Ho1 & _).
  destruct (clear_vectors_ok t1 Hv1) as (t2 & Hr2 & _ & Hv2 & Ho2 & _).
  exists t2. split; [unfold idt_setup_apic_and_irq_gates; by rewrite (bind_done _ _ _ _ _ Hr1)|]. split; [exact Hv2|].
  exact (idt_only_changes _ _ (idt_only_trans _ _ _ Ho1 Ho2)).
Qed.

Lemma on_tables_idt c t (x : machine hw) u p : sets_idt c → vectors_ok t → on_tables c (t, x) = Done u p →
  ∃ t', p = (t', x) ∧ vectors_ok t' ∧ idt_changes t t'.
Proof.
  intros Hc Ht (t' & Hr & ->)%on_tables_inv. destruct (Hc t Ht) as (t1 & E & H1 & H2). cbn [fst snd] in *.
  rewrite E in Hr. injection Hr as _ <-. by exists t1.
Qed.

Lemma on_machine_vm {A} (c : M (machine hw) A) t x a p : (∀ y, preserves (same_vm y) c) → on_machine c (t, x) = Done a p →
  ∃ x', p = (t, x') ∧ same_vm x x'.
Proof.
  intros Hc (x' & Hr & ->)%on_machine_inv. exists x'. split; [done|].
  exact (preserves_done _ _ _ _ _ (Hc x) (same_vm_refl _) Hr).
Qed.

Lemma trap_init_ok (t : trap_state) (x : machine hw) u t' x' :
  system_vectors t = [0; 0; 0; 0] → trap_init (t, x) = Done u (t', x') →
  (∀ a, ¬ written_early a → rd8 (t_mem t') a = rd8 (t_mem t) a) ∧ same_vm x x'.
Proof.
  intros Hz Hr. unfold trap_init in Hr.
  bind_inv Hr as u1 s1 H1. apply on_tables_inv in H1 as (t1 & H1 & ->).
  destruct (switch_to_new_gdt_ok t) as (m1 & E1 & _ & Hu1). cbn [fst snd] in *. rewrite E1 in H1. injection H1 as _ <-.
  assert (vectors_ok (mk_traps m1 (system_vectors t) (idtr t) (Some (__ENTRY_ADDR cea_gdt, GDT_SIZE - 1)) (GDT_ENTRY_TSS * 8)))
    as Hv1 by (split; cbn [system_vectors]; rewrite Hz; [repeat constructor; lia|done]).
  bind_inv Hr as u2 s2 H2. apply (on_tables_idt _ _ _ _ _ sets_idt_traps Hv1) in H2 as (t2 & -> & Hv2 & Hu2).
  bind_inv Hr as u3 s3 H3. apply (on_tables_idt _ _ _ _ _ sets_idt_ist Hv2) in H3 as (t3 & -> & Hv3 & Hu3).
  bind_inv Hr as u4 s4 H4. apply on_machine_vm in H4 as (x4 & -> & Hx4); [|apply same_vm_i8259].
  bind_inv Hr as u5 s5 H5. apply (on_tables_idt _ _ _ _ _ sets_idt_gates Hv3) in H5 as (t5 & -> & Hv5 & Hu5).
  apply on_machine_vm in Hr as (x6 & [= -> ->] & Hx6); [|apply same_vm_trap_msrs]. split.
  - intros a Ha. unfold written_early in Ha. rewrite (ic_mem _ _ Hu5), (ic_mem _ _ Hu3), (ic_mem _ _ Hu2) by lia. apply Hu1. lia.
  - by eapply same_vm_trans.
Qed.

Lemma trap_init_changes s s' :
  r_vectors (p_traps s) = [0; 0; 0; 0] → on_traps trap_init s = Done tt s' → changes written_early s s'.
Proof.
  intros Hz Hr. unfold on_traps, lift_outcome in Hr.
  destruct (trap_init _) as [u [t x]| |] eqn:E; [|done..]. injection Hr as -> <-. cbn [fst snd] in *.
  apply trap_init_ok in E as [Hm Hv]; [|done]. by split.
Qed.
End early.

(** ** The memory at the start *)

Section entry.
Context {hw : Type} {HW : Hardware hw} {CL : ConsoleLayout} {TL : TrapLayout} {L : Layout} {BL : BootLayout}.
Implicit Types s : program hw.
#[local] Notation gp := guest_params.

Definition in_tables (a : Z) : Prop := ept_pml4 ≤ a < ept_pd_0_4g + 16384.
Definition in_firmware (a : Z) : Prop := FIRMWARE_START ≤ a < FIRMWARE_START + (_binary_firmware_end - _binary_firmware_start).

(** Where the linker puts the objects that the initialisation writes: they are different
    objects of the image, and the firmware is copied to memory below it. *)
Class ImageLayout : Prop := {
  il_nodes : nodes console_nodes;
  il_early a : written_early a →
    _start ≤ a < _end ∧ ¬ in_tables a ∧ ¬ gp ≤ a < gp + sizeof_guest_params ∧
    ¬ _binary_firmware_start ≤ a < _binary_firmware_end;
  il_params a : gp ≤ a < gp + sizeof_guest_params → _start ≤ a < _end ∧ ¬ in_tables a;
  il_firmware : FIRMWARE_START + (_binary_firmware_end - _binary_firmware_start) ≤ _start;
}.

(** The ranges of memory the boot loader fills, besides the modules. *)
Definition loader_ranges (m : bmem) (info : Z) : list (Z * Z) :=
  let mi := multiboot_info_at m info in
  [(info, 52); (mi_mods_addr mi, 32); (mi_mmap_addr mi, mi_mmap_length mi + 24);
   (mod_cmdline (multiboot_mod_at m (mi_mods_addr mi)), CMDLINE_SIZE)].

Definition loader_map (m : bmem) (info : Z) : list e820_entry :=
  let mi := multiboot_info_at m info in
  mmap_entries (Z.to_nat (mi_mmap_length mi)) m (mi_mmap_addr mi) (mi_mmap_length mi).

(** The state in which a multiboot loader starts the program: its information describes
    the memory and at least one module, and is outside the image; the image is in RAM, the
    static objects have their initial values and the ones of [.bss] are zero. *)
Record at_entry (info n : Z) s : Prop := {
  ae_input : boot_input (p_mem s) info n;
  ae_outside r : r ∈ loader_ranges (p_mem s) info → apart r.1 r.2 _start (_end - _start);
  ae_length : (2 ≤ length (loader_map (p_mem s) info) ≤ 63)%nat;
  ae_wraps e : e ∈ loader_map (p_mem s) info → ¬ wraps e;
  ae_image : vmm_image (loader_map (p_mem s) info);
  ae_firmware : firmware_image (p_mem s);
  ae_consoles : no_console (p_mem s);
  ae_tables a : in_tables a → rd8 (p_mem s) a = 0;
  ae_vectors : r_vectors (p_traps s) = [0; 0; 0; 0];
  ae_e820 : e820_ok (p_e820 s) ∧ used (table (p_e820 s)) = [];
  ae_machine : boot_ok (p_mach s);
}.

(** *** The information survives what comes before it is read *)

Lemma mmap_entries_ext k m m' e len :
  (∀ a, e ≤ a < e + len + 24 → rd8 m' a = rd8 m a) → mmap_entries k m' e len = mmap_entries k m e len.
Proof.
  revert e len. induction k as [|k IH]; intros e len Hs; cbn [mmap_entries]; [done|].
  destruct (Z.ltb_spec 0 len); [|done].
  assert (∀ d i, 0 ≤ d → d + Z.of_nat i ≤ 24 → rd_le m' (e + d) i = rd_le m (e + d) i) as Hr.
  { intros d i ? ?. apply rd_le_ext. intros j ?. apply Hs. lia. }
  unfold rd64, rd32 in *. pose proof (Hr 0 4%nat ltac:(lia) ltac:(lia)) as H0. rewrite Z.add_0_r in H0.
  rewrite H0, !Hr by lia. f_equal. apply IH. intros a Ha. apply Hs. pose proof (rd_le_bound m e 4). lia.
Qed.

Context `{!ImageLayout}.

Section transport.
Context (info n : Z) s (Hs : at_entry info n s) (m' : bmem).
Context (Hsame : ∀ a, ¬ written_early a → rd8 m' a = rd8 (p_mem s) a).
#[local] Notation m := (p_mem s).

Lemma outside_image_same a k : apart a k _start (_end - _start) → ∀ b, a ≤ b < a + k → rd8 m' b = rd8 m b.
Proof.
  intros Ha b Hb. apply Hsame. intros He. destruct (il_early b He) as [Hi _]. unfold apart in Ha. lia.
Qed.

Lemma rd_le_same a k r : r ∈ loader_ranges m info → r.1 ≤ a → a + Z.of_nat k ≤ r.1 + r.2 → rd_le m' a k = rd_le m a k.
Proof.
  intros Hr H1 H2. apply rd_le_ext. intros i Hi.
  apply (outside_image_same r.1 r.2); [by apply (ae_outside _ _ _ Hs)|lia].
Qed.

Lemma info_same : multiboot_info_at m' info = multiboot_info_at m info.
Proof. unfold multiboot_info_at, rd32. by rewrite !(rd_le_same _ _ (info, 52)) by (cbn [fst snd]; (lia || left)). Qed.

Lemma mods_same d : 0 ≤ d ≤ 16 →
  multiboot_mod_at m' (mi_mods_addr (multiboot_info_at m info) + d) =
  multiboot_mod_at m (mi_mods_addr (multiboot_info_at m info) + d).
Proof.
  intros Hd. unfold multiboot_mod_at, rd32.
  by rewrite !(rd_le_same _ _ (mi_mods_addr (multiboot_info_at m info), 32)) by (cbn [fst snd]; (lia || right; left)).
Qed.

Lemma mod_same : multiboot_mod_at m' (mi_mods_addr (multiboot_info_at m info)) =
  multiboot_mod_at m (mi_mods_addr (multiboot_info_at m info)).
Proof. pose proof (mods_same 0 ltac:(lia)) as Hm. by rewrite Z.add_0_r in Hm. Qed.

Lemma loader_map_same : loader_map m' info = loader_map m info.
Proof.
  unfold loader_map. rewrite info_same. apply mmap_entries_ext. intros a Ha.
  apply (outside_image_same (mi_mmap_addr (multiboot_info_at m info)) (mi_mmap_length (multiboot_info_at m info) + 24)); [|lia].
  apply (ae_outside _ _ _ Hs (_, _)). do 2 right. left.
Qed.

Lemma text_same i : 0 ≤ i < CMDLINE_SIZE →
  rd8 m' (mod_cmdline (multiboot_mod_at m (mi_mods_addr (multiboot_info_at m info))) + i) =
  rd8 m (mod_cmdline (multiboot_mod_at m (mi_mods_addr (multiboot_info_at m info))) + i).
Proof.
  intros Hi. apply (outside_image_same (mod_cmdline (multiboot_mod_at m (mi_mods_addr (multiboot_info_at m info)))) CMDLINE_SIZE); [|lia].
  apply (ae_outside _ _ _ Hs (_, _)). do 3 right. left.
Qed.

Lemma input_same : boot_input m' info n.
Proof.
  destruct (ae_input _ _ _ Hs) as [Hi Hf Hc (Hn & Hnz & Hz) Hl Ha Hm Ht].
  split; rewrite ?info_same, ?mod_same; try done. split; [done|]. split.
  - intros i ?. rewrite text_same by lia. by apply Hnz.
  - rewrite text_same by lia. done.
Qed.

Lemma params_same a : gp ≤ a < gp + sizeof_guest_params → rd8 m' a = rd8 m a.
Proof. intros Ha. apply Hsame. intros He. by destruct (il_early a He) as (_ & _ & Hg & _). Qed.

Lemma firmware_same : firmware_image m'.
Proof.
  destruct (ae_firmware _ _ _ Hs) as [H1 H2 H3 H4 H5 H6 H7]. unfold sizeof_guest_params in *. split; try done.
  - rewrite <- H6. apply rd_bytes_ext. intros i Hi. apply Hsame. intros He.
    destruct (il_early _ He) as (_ & _ & _ & Hb). lia.
  - rewrite <- H7. apply rd_bytes_ext. intros i Hi. apply params_same. unfold sizeof_guest_params. lia.
Qed.

Lemma passed_same m2 p : modules_passed m' info n m2 p → modules_passed m info n m2 p.
Proof.
  assert (∀ d, 16 ≤ d ≤ 32 → rd_le m' (gp + d) 8 = rd_le m (gp + d) 8) as Hgp.
  { intros d Hd. apply rd_le_ext. intros i Hi. apply params_same. unfold sizeof_guest_params. lia. }
  pose proof (bi_length _ _ _ (ae_input _ _ _ Hs)) as Hl.
  intros [H1 H2 H3 H4 H5]. rewrite info_same, mod_same in *.
  split; try done.
  - intros Hc. rewrite <- (mods_same 16) by lia. by apply H3.
  - intros Hc. unfold rd64 in *. rewrite <- !(Hgp gp_initrd_start), <- !(Hgp gp_initrd_end) by (by vm_compute). by apply H4.
  - intros i Hi. rewrite H5 by lia. apply text_same. lia.
Qed.
End transport.
End entry.

(** ** From [main] to [kvm_loop] *)

Section run.
Context {hw : Type} {HW : Hardware hw} {DR : DescriptorRegisters hw} {GE : GuestExecution hw} {L : Layout} {LO : LayoutOk} {SC : StackContents hw}.
Context {LG : LawfulGuest hw} {CL : ConsoleLayout} {TL : TrapLayout} {BL : BootLayout} {IL : ImageLayout}.
Implicit Types (s : program hw) (x : machine hw).
#[local] Notation gp := guest_params.

(** The hand-over of the memory to the virtual machine. *)
Lemma set_mem_safe x mem :
  vm_safe phase0 x → m_ept_init x = 0 → (∀ a, in_tables a → a mod 8 = 0 → read64 mem a = 0) →
  vm_safe phase0 (set_mem mem x).
Proof.
  intros [_ _ He Hu Hs Hb Hw] Hi Hz. split; try done. exists ∅. unfold lazy_tables.
  cbn [m_mem m_ept_init set_mem]. rewrite Hi. by apply ept_tables_zero.
Qed.

Lemma init_hardware_untouched x0 : preserves (untouched x0) (kvm_init_hardware : M (machine hw) unit).
Proof.
  unfold kvm_init_hardware, vmx_cpu_has_kvm_support, vmx_disabled_by_bios, this_cpu_has.
  preserving; apply hardware_setup_untouched.
Qed.

Lemma boot_ok_same x x' : same_vm x x' → boot_ok x → boot_ok x'.
Proof.
  intros (Hv & Hm & He & Hb) ([Hi Hz] & Hok & Hs & Hbm & Hbz). unfold boot_ok, tables_at_boot. rewrite Hv, Hm, He, Hb. done.
Qed.

Lemma read64_linear m a : a mod 8 = 0 → a < __ENTRY_OFFSET → (∀ i, 0 ≤ i < 8 → rd8 m (a + i) = 0) → read64 (linear m) a = 0.
Proof.
  intros Ha Hb Hz. rewrite read64_aligned by done. change (read_word (linear m) (a / 8) = 0).
  rewrite read_linear by (unfold entry_window, __ENTRY_OFFSET in *; divlia).
  replace (8 * (a / 8)) with a by divlia. unfold rd64, rd_le.
  assert (rd_bytes m a 8 = replicate 8 0) as ->; [|reflexivity].
  apply (rd_bytes_is m a (replicate 8 0)). intros i Hi. rewrite length_replicate in Hi.
  rewrite Hz by lia. by apply lookup_replicate_2.
Qed.

(** Entering the virtual machine writes the revision into the two VMX pages. *)
Definition vmx_word (w : Z) : Prop := w = vmxarea_pa / 8 ∨ w = current_vmcs_pa / 8.

Section start_words.
Context (w : Z) (v : option Z) (Hw : ¬ vmx_word w).
#[local] Notation I := (λ x : machine hw, m_mem x !! w = v).

Lemma start_words_modify (f : machine hw → machine hw) : (∀ x, m_mem (f x) = m_mem x) → preserves I (modify f).
Proof. intros Hf x Hx. cbn. by rewrite Hf. Qed.
#[local] Hint Extern 0 (preserves _ (modify _)) => apply start_words_modify; intros; reflexivity : preserves.

Lemma start_words_write f a : preserves I (__vmcs_write f a : M (machine hw) unit).
Proof. intros y Hy. unfold __vmcs_write. destruct (hw_vmwrite_fails f); exact Hy. Qed.
#[local] Hint Resolve start_words_write : preserves.

Lemma start_words_revision pa : pa = vmxarea_pa ∨ pa = current_vmcs_pa → preserves I (store_revision pa).
Proof.
  intros Hpa x Hx. cbn. unfold write64. rewrite lookup_insert_ne; [exact Hx|]. intros <-. apply Hw. unfold vmx_word.
  destruct Hpa as [-> | ->]; tauto.
Qed.

Lemma start_words_load pa : preserves I (vmcs_load pa : M (machine hw) unit).
Proof. intros x Hx. unfold vmcs_load. unfold mbind, M_bind. destruct (hw_vmptrld (m_hw x) pa) as [[] h]; exact Hx. Qed.
#[local] Hint Resolve start_words_load : preserves.

Lemma start_words_cr0 c : preserves I (vmx_set_cr0 c : M (machine hw) unit).
Proof.
  unfold vmx_set_cr0, enter_lmode, exit_lmode, vmcs_write32, vmcs_write64, vmcs_writel. preserving.
Qed.
Lemma start_words_segment g r : preserves I (vmx_set_segment g r : M (machine hw) unit).
Proof. unfold vmx_set_segment, vmcs_writel, vmcs_write32, vmcs_write16. preserving. Qed.
#[local] Hint Resolve start_words_cr0 start_words_segment : preserves.

Lemma start_words : preserves I (kvm_bsp_start : M (machine hw) unit).
Proof.
  unfold kvm_bsp_start, create_vcpu, run_vcpu_start, vmx_vcpu_enable, vmx_vcpu_setup, kvm_cpu_vmxon,
    cr4_set_bits, setup_controls, setup_host, setup_guest, reset_segment, kvm_set_segment, kvm_rip_write, get_tr_base,
    store_gdt, store_idt, store_tr, read_cr0, read_cr3, read_cr4, vmcs_writel, vmcs_write16, vmcs_write32, vmcs_write64.
  cbn [ops_set_segment ops_set_rip vmx_guest_ops].
  repeat first [apply start_words_revision; tauto | preserving_step].
Qed.
End start_words.

(** [main] up to [kvm_init]. *)
Lemma main_init colour magic info s0 s1 :
  nodes console_nodes → no_console (p_mem s0) → r_vectors (p_traps s0) = [0; 0; 0; 0] →
  main colour magic info s0 = Done tt s1 →
  ∃ s b s', changes written_early s0 s ∧
    multiboot_init magic info (mk_bstate (p_e820 s) (p_mem s)) = Done tt b ∧
    p_mem s' = b_mem b ∧ p_e820 s' = b_e820 b ∧ same_vm (p_mach s0) (p_mach s') ∧
    (kvm_init ;; kvm_bsp_run) s' = Done tt s1.
Proof.
  intros HN Hc Hv Hr. unfold main in Hr.
  bind_inv Hr as u sa Ha. bind_inv Hr as v sb Hb. destruct u, v.
  destruct (consoles_changes colour s0 sb HN Hc) as [H1 Ht1]; [by rewrite (bind_done _ _ _ _ _ Ha)|].
  bind_inv Hr as u sc Hx. apply (processor_changes written_early) in Hx as (H2 & _ & Ht2); [|apply same_vm_cpu_init].
  bind_inv Hr as v sd Hx. apply (processor_changes written_early) in Hx as (H3 & _ & Ht3); [|apply same_vm_tsc_init].
  bind_inv Hr as w se Hx. destruct w. apply trap_init_changes in Hx as H4; [|congruence].
  bind_inv Hr as w sf Hx'. destruct w. apply on_boot_inv in Hx' as (b & Hb' & ->).
  set (sf := mk_program _ _ _) in Hr.
  bind_inv Hr as w sg Hx'. apply (firmware_changes written_early) in Hx' as (H5 & Hm5 & _); [|intros; apply same_vm_acpi_table_init].
  bind_inv Hr as w' sh Hx'. apply (firmware_changes written_early) in Hx' as (H6 & Hm6 & _); [|intros; apply same_vm_apic_init].
  assert (changes written_early s0 se) as He by (do 4 (eapply changes_trans; [eassumption|]); by split).
  exists se, b, sh. split; [done|]. split; [done|]. split; [by rewrite Hm6, Hm5|].
  split; [by rewrite (ch_e820 _ _ _ H6), (ch_e820 _ _ _ H5)|]. split; [|done].
  eapply same_vm_trans; [apply (ch_vm _ _ _ He)|]. apply (same_vm_trans _ (p_mach sf)); [by split_and!|].
  eapply same_vm_trans; [apply (ch_vm _ _ _ H5)|apply (ch_vm _ _ _ H6)].
Qed.

(** [kvm_init] and the entry into the virtual machine. *)
Lemma kvm_start s s1 m2 :
  boot_ok (p_mach s) → kvm_init_guest (mk_bstate (p_e820 s) (p_mem s)) = Done tt (mk_bstate (p_e820 s) m2) →
  (∀ a, in_tables a → rd8 m2 a = 0) →
  (kvm_init ;; kvm_bsp_run) s = Done tt s1 →
  p_mem s1 = m2 ∧ vm_safe (running (m_mem (p_mach s1))) (p_mach s1) ∧
  ∀ w, ¬ vmx_word w → m_mem (p_mach s1) !! w = linear m2 !! w.
Proof.
  intros Hb Hg Hz Hr. bind_inv Hr as u sa Ha. unfold kvm_init in Ha.
  bind_inv Ha as v sb Hx. destruct v. apply on_processor_inv in Hx as (x & Hx & ->).
  apply on_boot_inv in Ha as (b & Hb' & ->). cbn [p_mem p_kernel with_kernel with_mach k_mem k_mach p_e820] in Hb'.
  rewrite Hg in Hb'. injection Hb' as _ <-. unfold kvm_bsp_run in Hr.
  bind_inv Hr as v sc Hc. injection Hc as _ <-. apply on_processor_inv in Hr as (y & Hy & ->).
  split; [done|]. cbn [p_kernel with_kernel k_mach with_mach with_mem enter_words k_mem b_mem] in *.
  split; [|intros w Hw; exact (preserves_done _ _ _ _ _ (start_words w (linear m2 !! w) Hw) eq_refl Hy)].
  apply bsp_start_safe in Hy; [done|]. apply set_mem_safe.
  - by apply (kvm_init_safe (p_mach s)).
  - apply (preserves_done _ _ _ _ _ (init_hardware_untouched (p_mach s))) in Hx as (_ & _ & ->); [|by split_and!].
    apply Hb.
  - intros a Ha Ha8. unfold in_tables in *.
    destruct LO as [_ [[_ A0] _] [_ [_ A1]] _ [A3 A2] _]. change (2 ^ 12) with 4096 in *. unfold SZ_4G in A0.
    apply read64_linear; [done|unfold __ENTRY_OFFSET; lia|]. intros i Hi. apply Hz. divlia.
Qed.

(** The tables are still clear when [kvm_init] ends. *)
Lemma tables_clear info n s0 s m1 m2 :
  at_entry info n s0 → changes written_early s0 s → unchanged_outside (p_mem s) m1 gp sizeof_guest_params →
  (∀ a, (a < FIRMWARE_START ∨ FIRMWARE_START + (_binary_firmware_end - _binary_firmware_start) ≤ a) →
     (a < gp ∨ gp + sizeof_guest_params ≤ a) → rd8 m2 a = rd8 m1 a) →
  ∀ a, in_tables a → rd8 m2 a = 0.
Proof.
  intros Hs0 Hc Hu1 Hu2 a Ha. destruct LO as [_ _ [A1 _] _ _ _].
  assert (a < gp ∨ gp + sizeof_guest_params ≤ a) as Hg.
  { destruct (decide (gp ≤ a < gp + sizeof_guest_params)) as [Hin|]; [|lia]. by destruct (il_params a Hin). }
  pose proof il_firmware as Hf. rewrite Hu2, Hu1 by (unfold in_tables in *; lia).
  rewrite (ch_mem _ _ _ Hc); [by apply (ae_tables _ _ _ Hs0)|]. intros He. by destruct (il_early a He) as (_ & Ht & _).
Qed.

(** The boot loader's information is read, and handed to the guest, when only what is written
    early has changed since the start. *)
Lemma boot_information info n s0 m :
  at_entry info n s0 → (∀ a, ¬ written_early a → rd8 m a = rd8 (p_mem s0) a) →
  ∃ e m1 m2, multiboot_init MULTIBOOT_BOOTLOADER_MAGIC info (mk_bstate (p_e820 s0) m) = Done tt (mk_bstate e m1) ∧
    kvm_init_guest (mk_bstate e m1) = Done tt (mk_bstate e m2) ∧
    modules_passed (p_mem s0) info n m2 FIRMWARE_START ∧ disjoint_map (guest_e820 m2 FIRMWARE_START) ∧
    (∀ a, map_type (guest_e820 m2 FIRMWARE_START) a =
      if (_start <=? a) && (a <? _end) then E820_TYPE_RESERVED else map_type (loader_map (p_mem s0) info) a) ∧
    unchanged_outside m m1 gp sizeof_guest_params ∧
    ∀ a, (a < FIRMWARE_START ∨ FIRMWARE_START + (_binary_firmware_end - _binary_firmware_start) ≤ a) →
      (a < gp ∨ gp + sizeof_guest_params ≤ a) → rd8 m2 a = rd8 m1 a.
Proof.
  intros Hs0 Hsame. pose proof (loader_map_same info n s0 Hs0 _ Hsame) as Hmap.
  pose proof (input_same info n s0 Hs0 _ Hsame) as Hin. destruct (ae_e820 _ _ _ Hs0) as [He1 He2].
  destruct (multiboot_init_ok m info n Hin (p_e820 s0)) as (e & m1 & Hb & He & Hd & Hty & Hmp & H8 & Hu).
  1-5: fold (loader_map m info); rewrite ?Hmap; by apply Hs0.
  destruct (kvm_init_guest_ok m info n Hin e m1) as (m2 & Hg & Hmp2 & Hg2 & _ & Hu2);
    [by apply (firmware_same info n s0 Hs0)|done..|].
  exists e, m1, m2. rewrite Hg2. split_and!; try done; [by apply (passed_same info n s0 Hs0 m Hsame)|].
  intros a. rewrite Hty. fold (loader_map m info). by rewrite Hmap.
Qed.

End run.

(** ** A boot *)

Module MainDemo.
(** A processor with a local APIC and VT-x; the guest executes [cpuid] for ever. *)
Record pc : Type := mk_pc {
  pc_msrs : gmap Z Z; pc_mmio : gmap Z Z; pc_tsc : Z; pc_cr4 : Z; pc_gdt : Z; pc_idt : Z; pc_tr : Z;
}.

#[export] Instance hardware : Hardware pc := {|
  hw_rdmsr := λ c i, default 0 (pc_msrs c !! i);
  hw_wrmsr := λ c i v, mk_pc (<[i := v]> (pc_msrs c)) (pc_mmio c) (pc_tsc c) (pc_cr4 c) (pc_gdt c) (pc_idt c) (pc_tr c);
  hw_cpuid := λ _ a _, if a =? 0 then (1, 0, 0, 0) else if a =? 1 then (0x6f0, 0, 0x20, 0x200) else (0, 0, 0, 0);
  hw_rdtsc := λ c, (pc_tsc c, mk_pc (pc_msrs c) (pc_mmio c) (pc_tsc c + 4000) (pc_cr4 c) (pc_gdt c) (pc_idt c) (pc_tr c));
  hw_mmio_read32 := λ c a, (default 0 (pc_mmio c !! a), c);
  hw_mmio_write32 := λ c a v, mk_pc (pc_msrs c) (<[a := v]> (pc_mmio c)) (pc_tsc c) (pc_cr4 c) (pc_gdt c) (pc_idt c) (pc_tr c);
  hw_inb := λ c _, (0, c);
  hw_outb := λ c _ _, c;
  hw_read_cr0 := λ _, 0x80050033;
  hw_read_cr3 := λ _, 0x10001000;
  hw_read_cr4 := pc_cr4;
  hw_write_cr4 := λ c v, mk_pc (pc_msrs c) (pc_mmio c) (pc_tsc c) v (pc_gdt c) (pc_idt c) (pc_tr c);
  hw_store_gdt := pc_gdt;
  hw_store_idt := pc_idt;
  hw_store_tr := pc_tr;
  hw_vmxon := λ c _, c;
  hw_vmptrld := λ c _, (false, c);
  hw_vmwrite_fails := λ f, (Z.land f 0xc00) =? 0x400;
|}.

#[export] Instance registers : DescriptorRegisters pc := λ r c,
  mk_pc (pc_msrs c) (pc_mmio c) (pc_tsc c) (pc_cr4 c) (default (0, 0) (r_gdtr r)).1 (default (0, 0) (r_idtr r)).1 (r_tr r).

#[export] Instance guest : GuestExecution pc := {|
  guest_run h v b mem ml r c la :=
    {| ge_hw := h; ge_mem := mem; ge_autoload := ml; ge_regs := r;
       ge_vmcs := vmwrite (vmwrite v VM_EXIT_REASON EXIT_REASON_CPUID) VM_EXIT_INSTRUCTION_LEN 2;
       ge_cr2 := c; ge_fail := false |};
  host_stack _ := 0x10380000;
|}.

#[export] Instance lawful_guest : LawfulGuest pc.
Proof.
  split; cbn [guest_run guest ge_vmcs ge_mem].
  - intros h v b mem ml r c la w Hw. done.
  - intros h v b mem ml r c la f Hf. rewrite !elem_of_cons, elem_of_nil in Hf.
    destruct Hf as [->|[->|[->|[]]]]; by rewrite !vmread_vmwrite_ne by field_ne.
  - intros h v b mem ml r c la Hok. by do 2 apply vmcs_ok_vmwrite.
  - intros h v b mem ml r c la _. by rewrite !vmread_vmwrite_ne by field_ne.
Qed.

#[export] Instance stack : StackContents pc := λ _ _, 0.

#[export] Existing Instance Concrete.layout.
#[export] Instance consoles : ConsoleLayout := {|
  console_drivers := 0x10300080; printk_buf := 0x10300400; vgacon_con := 0x10300000; porte9_con := 0x10300040;
  uart_ports := 0x103000c0; vgacon_write_fn := 0x10010000; porte9_write_fn := 0x10010100; uart8250_write_fn := 0x10010200;
|}.
#[export] Instance tables : TrapLayout := {|
  handler_addr := λ _, 0x10020000; idt_table := 0x10301000; cpu_entry_area := 0x10302000; cpu_stacks := 0x10310000;
  do_syscall_64 := 0x10021000; do_syscall_32 := 0x10022000;
|}.
#[export] Instance boot_layout : BootLayout := {|
  guest_params := 0x10320000; _binary_firmware_start := 0x10330000; _binary_firmware_end := 0x10330000 + 0x1000;
|}.

Definition words32 (m : bmem) (l : list (Z * Z)) : bmem := foldl (λ m p, wr32 m p.1 p.2) m l.

(** The byte at [c] that makes the [n] bytes at [a] sum up to 0. *)
Definition checked (a n c : Z) (m : bmem) : bmem := wr8 m c (- foldr Z.add 0 (rd_bytes m a (Z.to_nat n))).

(** The multiboot information at 0x9000, with two regions, a kernel and its command line;
    the root pointer, the RSDT at 0xa000 and the MADT at 0xb000 with one processor; the
    list of consoles and the head of the firmware. *)
Definition memory : bmem :=
  checked 0xb000 52 0xb009 (checked 0xa000 40 0xa009 (checked 0xe0000 20 0xe0008 (words32 ∅ [
    (0x9000, 0x40); (0x9000 + 20, 1); (0x9000 + 24, 0x9200); (0x9000 + 44, 48); (0x9000 + 48, 0x9100);
    (0x9100, 20); (0x9100 + 4, 0); (0x9100 + 12, 0x9fc00); (0x9100 + 20, 1);
    (0x9118, 20); (0x9118 + 4, 0x100000); (0x9118 + 12, 0x3ff00000); (0x9118 + 20, 1);
    (0x9200, 0x1000000); (0x9204, 0x1100000); (0x9208, 0x9300); (0x9300, 0x6f72);
    (0xe0000, 0x20445352); (0xe0004, 0x20525450); (0xe0010, 0xa000);
    (0xa000, 0x54445352); (0xa004, 40); (0xa000 + 36, 0xb000);
    (0xb000, 0x43495041); (0xb004, 52); (0xb000 + 36, 0xfee00000); (0xb000 + 44, 0x00000800); (0xb000 + 48, 1);
    (0x10300080, 0x10300080); (0x10300088, 0x10300080);
    (0x10330000, 0x000e29e9); (0x10330f00, 0xc3)]))).

Definition msrs : gmap Z Z := <[MSR_IA32_APICBASE := 0xfee00900]> (Concrete.cpu_msrs vmx_capable).

Definition machine0 : machine pc :=
  let b := Concrete.boot in
  Build_machine (m_vmcs b) (m_vmx b) (m_config b) (m_cap b) (m_msr_bitmap b) (m_mem b) (m_ept_init b) (m_apic b)
    (m_lapic_addr b) (m_cpu b) (m_boot_apicid b) (m_nr_cpuids b) (m_apicids b) (m_tsc_khz b) (m_current_vcpu b)
    (m_acpi_tables b) (mk_pc msrs ∅ 1 0 0 0 0) (m_log b).

Definition entry : program pc :=
  mk_program (mk_kstate memory machine0 false LOGLEVEL_DEFAULT LOGLEVEL_DEFAULT 0) e820_boot
    (mk_tregs [0; 0; 0; 0] None None 0).

(** That a run ends is evaluated without the state it ends in. *)
Definition returns_now {S A} (o : outcome S A) : bool := match o with Done _ _ => true | _ => false end.

Lemma returned {S} (o : outcome S unit) : returns_now o = true → o = Done tt (final_state o).
Proof. by destruct o as [[] s| |]. Qed.

Definition started : program pc := final_state (main 0 MULTIBOOT_BOOTLOADER_MAGIC 0x9000 entry).

Lemma entry_runs : main 0 MULTIBOOT_BOOTLOADER_MAGIC 0x9000 entry = Done tt started.
Proof. unfold started. apply returned. vm_compute. reflexivity. Qed.

(** What [main] has done: the task register of the VMCS's host is the one of [trap_init], seen
    through the second view of the memory. *)
Lemma started_host : vmread (m_vmcs (p_mach started)) HOST_TR_BASE = __ENTRY_ADDR cea_tss.
Proof. vm_compute. reflexivity. Qed.

#[export] Instance image_layout : ImageLayout.
Proof.
  split.
  - split; [by apply (bool_decide_eq_true_1 _)|..]; intros *; unfold console_nodes; rewrite !elem_of_cons, !elem_of_nil; unfold con_list_offset; cbn; lia.
  - intros a [(p & Hp & Ha)|Ha].
    + unfold console_nodes in Hp. rewrite !elem_of_cons, elem_of_nil in Hp. unfold con_list_offset in Hp.
      unfold in_tables, sizeof_guest_params. cbn in *. lia.
    + unfold in_tables, sizeof_guest_params, IDT_ENTRIES, gdt_and_tss, sizeof_tss in *. change PAGE_SIZE with 4096 in *. cbn in *. lia.
  - intros a Ha. unfold in_tables, sizeof_guest_params in *. cbn in *. lia.
  - vm_compute. discriminate.
Qed.

Lemma memory_empty a : in_tables a → rd8 memory a = 0.
Proof.
  intros Ha. apply rd8_absent. destruct (memory !! a) as [v|] eqn:E; [|done]. exfalso.
  assert (forallb (λ p, (p.1 <? 0x10200000) || (0x10206000 <=? p.1)) (map_to_list memory) = true) as Hk by (vm_compute; reflexivity).
  rewrite forallb_forall in Hk. apply elem_of_map_to_list, list_elem_of_In, Hk in E. cbn [fst] in E.
  unfold in_tables in Ha. cbn in Ha. destruct (Z.ltb_spec a 0x10200000), (Z.leb_spec 0x10206000 a); (lia || done).
Qed.

Lemma entry_ok : at_entry 0x9000 2 entry.
Proof.
  assert (loader_map memory 0x9000 = [mk_entry 0 0x9fc00 1; mk_entry 0x100000 0x3ff00000 1]) as Hl by (vm_compute; reflexivity).
  split; cbn [entry p_kernel k_mem p_traps p_e820 k_mach r_vectors]; rewrite ?Hl; clear Hl.
  - split; [lia|vm_compute; reflexivity|vm_compute; lia|apply cstr_by_eval; vm_compute; reflexivity|
      vm_compute; reflexivity|..]; vm_compute; (left; discriminate) || (right; discriminate).
  - intros r Hr. assert (r ∈ [(0x9000, 52); (0x9200, 32); (0x9100, 72); (0x9300, 1024)]) as Hr'.
    { replace (loader_ranges memory 0x9000) with [(0x9000, 52); (0x9200, 32); (0x9100, 72); (0x9300, 1024)] in Hr
        by (vm_compute; reflexivity). exact Hr. }
    left. rewrite !elem_of_cons, elem_of_nil in Hr'. destruct Hr' as [->|[->|[->|[->|[]]]]]; vm_compute; discriminate.
  - cbn. lia.
  - intros x [->|[->|[]%not_elem_of_nil]%elem_of_cons]%elem_of_cons; by vm_compute.
  - split; [reflexivity|reflexivity|cbn; lia|cbn; lia|].
    cbn [_start _end Concrete.layout]. intros x Hx. unfold map_type, covers. cbn.
    rewrite (proj2 (Z.leb_le 0x100000 x)), (proj2 (Z.ltb_lt x (1048576 + 1072693248))) by lia. by destruct (_ && _).
  - split; try (vm_compute; (reflexivity || discriminate)); vm_compute; (left; discriminate) || (right; discriminate).
  - split; vm_compute; reflexivity.
  - exact memory_empty.
  - reflexivity.
  - split; [|reflexivity]. split; try reflexivity; [cbn; lia|constructor].
  - destruct concrete_boot_ok as ([Hi Hz] & Hok & Hs & Hb & Hbz). split_and!; try assumption.
    split; [reflexivity|]. intros a Ha Ha8. by rewrite read64_aligned.
Qed.

(** The first iteration of the loop: the guest's [cpuid] is emulated. *)
Definition looped : machine pc := final_state (kvm_loop_body (p_mach started)).

Lemma started_loops : rtc kvm_loop (p_mach started) looped.
Proof. apply rtc_once, kvm_loop_step. unfold looped. apply returned. vm_compute. reflexivity. Qed.

End MainDemo.
