(* ===== verification/MainEnds.v ===== *)
(** The program never hangs: [main] comes to an end, in the guest or in a panic, and so does every
    iteration of [kvm_loop] behind it.  Every loop
    on the way there is bounded, also the ones over data of the firmware and the ones that wait for time
    to pass. *)

From stdpp Require Import relations.
From S2P Require Import Prelude Bitops Mem DList CString Hexdump Vmcs Machine Tsc Console ConsoleSpec Cpu Apic Acpi Madt Kvm Vmx VmxState VmxExit Ept.
From S2P Require Import Hypervisor LoopEnds E820 E820Map E820Update Boot BootSpec Traps TrapsSpec Main MainSpec.
#[local] Open Scope Z_scope.
#[local] Open Scope cint_scope.

(** ** The components on the processor *)

Section machine.
Context {hw : Type} {HW : Hardware hw} {now : hw → Z} {tick : Z} {TK : Ticking hw now tick} (Htick : tick ≤ 2 ^ 50).

(** The frequency of the clock is one that [tsc_init] finds, or none yet. *)
Definition clocked (s : machine hw) : Prop := 0 ≤ m_tsc_khz s < 2 ^ 47.

Lemma clocked_modify (f : machine hw → machine hw) : (∀ s, m_tsc_khz (f s) = m_tsc_khz s) → settles clocked (modify f).
Proof. intros Hf. apply settles_modify. intros s Hs. unfold clocked. by rewrite Hf. Qed.
#[local] Hint Extern 0 (settles clocked (modify _)) => apply clocked_modify; intros; reflexivity : settles.

Lemma clocked_rdtsc : settles clocked rdtsc.
Proof. intros s Hs. unfold rdtsc. destruct (hw_rdtsc (m_hw s)). exact Hs. Qed.
Lemma clocked_readl a : settles clocked (readl a).
Proof. intros s Hs. unfold readl. destruct (hw_mmio_read32 (m_hw s) (u64 a)). exact Hs. Qed.
Lemma clocked_write f v : settles clocked (__vmcs_write f v : M (machine hw) unit).
Proof. intros s Hs. unfold __vmcs_write. destruct (hw_vmwrite_fails f); [done|exact Hs]. Qed.
Lemma clocked_printk f a : settles clocked (Machine.printk f a : M (machine hw) unit).
Proof. apply clocked_modify. reflexivity. Qed.
Lemma clocked_has f : settles clocked (this_cpu_has f : M (machine hw) bool).
Proof. apply settles_gets. Qed.
Lemma clocked_wrmsr i l h : settles clocked (wrmsr i l h : M (machine hw) unit).
Proof. apply clocked_modify. reflexivity. Qed.
#[local] Hint Resolve clocked_rdtsc clocked_readl clocked_write clocked_printk clocked_has clocked_wrmsr : settles.

Ltac settle := intros; repeat
  lazymatch goal with
  | |- settles clocked (modify _) => apply clocked_modify; intros; reflexivity
  | |- _ => settling_step
  end.

Lemma cpu_init_settles : settles clocked cpu_init.
Proof.
  unfold cpu_init, cpu_detect, get_cpu_vendor, get_cpu_cap, get_model_name, cpuid_eax, cpuid_ebx, cpuid_ecx,
    cpuid_edx, cpuid_count, cpuid, set_capability, update_cpu, native_cpuid. settle.
Qed.

Lemma tsc_init_settles : settles clocked tsc_init.
Proof. intros s _. destruct (tsc_init_frequency s) as (s' & -> & Hk). unfold settled, clocked. lia. Qed.

Lemma udelay_settles usecs : 0 ≤ usecs ≤ 100 → settles clocked (udelay usecs).
Proof.
  intros Hu s [Hk0 Hk]. assert (usecs * m_tsc_khz s ≤ 100 * 2 ^ 47) by (apply Z.mul_le_mono_nonneg; lia).
  destruct (udelay_ends (now := now) (tick := tick) s usecs) as (h & ->); [lia..|]. done.
Qed.

Lemma outb_settles v port : settles clocked (outb v port : M (machine hw) unit).
Proof. apply clocked_modify. reflexivity. Qed.
Lemma outb_pic_settles v port : settles clocked (outb_pic v port).
Proof. apply settles_bind; [apply outb_settles|]. intros _. apply udelay_settles. lia. Qed.

Lemma i8259_settles : settles clocked i8259_init.
Proof.
  unfold i8259_init.
  repeat first [apply outb_settles | apply outb_pic_settles | apply settles_bind; [|intros _]].
  apply udelay_settles. lia.
Qed.

Lemma trap_msrs_settle : settles clocked trap_init_msrs.
Proof. unfold trap_init_msrs, wrmsrl, rdmsrl. settle. Qed.

(** *** The tables of the firmware *)

Section tables.
Context (fw : bmem).

Lemma print_header_settles a h : settles clocked (acpi_tb_print_table_header fw a h).
Proof. unfold acpi_tb_print_table_header, pr_info, Machine.printk. settle. Qed.
Lemma verify_checksum_settles t n : settles clocked (acpi_tb_verify_checksum fw t n).
Proof. unfold acpi_tb_verify_checksum, pr_err, Machine.printk. settle. Qed.
#[local] Hint Resolve print_header_settles verify_checksum_settles : settles.

Lemma root_table_settles n e z i : settles clocked (root_table_loop fw n e z i).
Proof.
  revert e i. induction n as [|n IH]; intros e i; cbn [root_table_loop]; [apply settles_ret|].
  settle; apply IH.
Qed.
#[local] Hint Resolve root_table_settles : settles.

Lemma acpi_table_init_settles : settles clocked (acpi_table_init fw).
Proof. unfold acpi_table_init, acpi_tb_parse_root_table, pr_err, Machine.printk. settle. Qed.

Lemma madt_entry_settles p : settles clocked (acpi_table_print_madt_entry fw p).
Proof. unfold acpi_table_print_madt_entry, pr_info, Machine.printk. settle. Qed.
Lemma register_settles id e : settles clocked (acpi_register_lapic id e).
Proof. unfold acpi_register_lapic. settle. Qed.
#[local] Hint Resolve madt_entry_settles register_settles : settles.

Definition handlers_settle (l : list (acpi_subtable_proc (hw := hw))) : Prop :=
  Forall (λ p, ∀ e t, settles clocked (proc_handler p e t)) l.

Lemma run_proc_settles l e t s : handlers_settle l → clocked s →
  match run_proc fw l e t s with Done (l', _) s' => handlers_settle l' ∧ clocked s' | o => settled clocked o end.
Proof.
  intros Hl Hs. induction Hl as [|p l Hp Hl IH]; cbn [run_proc]; [by split; [constructor|]|].
  unfold mbind, M_bind, mret, M_ret. destruct (negb _).
  - destruct (run_proc fw l e t s) as [[l' b] s'| |]; [|done..]. cbn [fst snd]. destruct IH. by split; [constructor|].
  - pose proof (Hp e t s Hs) as H1. destruct (proc_handler p e t s) as [r s'| |]; [|done..].
    destruct (truthy r); [done|]. split; [by constructor|exact H1].
Qed.

(** Every round moves on by the length of an entry, which is not 0, towards the end of a
    table of less than 4 GB. *)
Lemma entries_settle id size l n : 0 ≤ size → handlers_settle l →
  settles clocked (acpi_table_parse_entries_array fw id size l n).
Proof.
  intros Hz Hl. unfold acpi_table_parse_entries_array, acpi_find_table. settling_step; [settle|].
  destruct (_ =? 0); [settle|]. cbv zeta. set (table_end := _ + _).
  apply (settles_loop clocked _ (λ x, handlers_settle x.2) (λ x, table_end - x.1.1 + 256)); [|exact Hl|].
  2: { cbn [fst]. pose proof (rd32_bound fw (a + 4)) as Hb. change (th_length _) with (rd32 fw (a + 4)) in *. lia. }
  intros [[e c] l'] s Hl' Hs. cbn [fst snd] in *. unfold entries_step.
  destruct (Z.ltb_spec (e + 2) table_end); cbn [negb]; [|exact Hs]. destruct (_ && _); [exact Hs|].
  pose proof (run_proc_settles l' e table_end s Hl' Hs) as Hr. unfold mbind at 1, M_bind.
  destruct (run_proc fw l' e table_end s) as [[l2 b] s'| |]; [|done..]. destruct Hr as [Hl2 Hs'].
  unfold BUG_ON. destruct (truthy (subtable_length fw e)) eqn:E; cbn [negb]; [|done].
  split; [done|]. split; [done|]. pose proof (rd8_bound fw (e + 1)) as Hb. unfold subtable_length, truthy in *. cbn [fst].
  apply negb_true_iff, Z.eqb_neq in E. lia.
Qed.

Lemma madt_lapics_settle : settles clocked (acpi_parse_madt_lapic_entries fw).
Proof.
  unfold acpi_parse_madt_lapic_entries. settling_step; [|settle].
  apply entries_settle; [vm_compute; discriminate|]. unfold acpi_parse_lapic, acpi_parse_x2apic.
  do 2 (apply Forall_cons; split; [intros; cbn [proc_handler]; settle|]). by constructor.
Qed.
#[local] Hint Resolve madt_lapics_settle : settles.

Lemma apic_init_settles : settles clocked (apic_init fw).
Proof.
  unfold apic_init, verify_apic, acpi_table_parse, acpi_find_table, acpi_parse_madt, clear_local_apic,
    setup_local_apic, lapic_setup_esr, init_apic_ldr, xapic_init_apic_ldr, x2apic_init_apic_ldr, read_apic_id,
    mask_lvt, apic_read, apic_write, xapic_read, xapic_write, x2apic_read, x2apic_write, x2apic_enable,
    no_driver, writel, wrmsrl, rdmsrl, pr_info.
  settle.
Qed.
End tables.

(** *** VT-x *)

Section vmx.
Context {L : Layout} {SC : StackContents hw} {GE : GuestExecution hw}.

Lemma hardware_settles : settles clocked kvm_init_hardware.
Proof.
  unfold kvm_init_hardware, vmx_cpu_has_kvm_support, vmx_disabled_by_bios, vmx_hardware_setup, setup_vmcs_config,
    adjust_vmx_controls, print_vmx_controls, set_msr_interception, cpu_has_vmx_ept_2m_page,
    cpu_has_vmx_ept_4levels, pr_info, pr_cont, rdmsr, rdmsrl.
  settle.
Qed.

Lemma vmcs_load_settles pa : settles clocked (vmcs_load pa : M (machine hw) unit).
Proof. intros s Hs. unfold vmcs_load, mbind, M_bind. destruct (hw_vmptrld (m_hw s) pa) as [[] h]; done. Qed.
Lemma cr0_settles c : settles clocked (vmx_set_cr0 c : M (machine hw) unit).
Proof.
  unfold vmx_set_cr0, enter_lmode, exit_lmode, vmcs_write32, vmcs_write64, vmcs_writel, vmcs_read32, vmcs_read64,
    vmcs_readl, __vmcs_read. settle.
Qed.
Lemma segment_settles g r : settles clocked (vmx_set_segment g r : M (machine hw) unit).
Proof. unfold vmx_set_segment, vmcs_writel, vmcs_write32, vmcs_write16. settle. Qed.
#[local] Hint Resolve vmcs_load_settles cr0_settles segment_settles : settles.

Lemma update_settles f : settles clocked (update_vcpu f : M (machine hw) unit).
Proof. apply clocked_modify. reflexivity. Qed.
Lemma autoload_settles i : settles clocked (autoload_step i).
Proof. unfold autoload_step, rdmsrl. settle. Qed.
#[local] Hint Resolve update_settles autoload_settles : settles.

Lemma bsp_start_settles : settles clocked (kvm_bsp_start : M (machine hw) unit).
Proof.
  unfold kvm_bsp_start, create_vcpu, run_vcpu_start, vmx_vcpu_enable, vmx_vcpu_setup, kvm_cpu_vmxon,
    cr4_set_bits, setup_controls, setup_host, setup_guest, reset_segment, kvm_set_segment, kvm_rip_write, get_tr_base,
    store_gdt, store_idt, store_tr, read_cr0, read_cr3, read_cr4, vmcs_writel, vmcs_write16, vmcs_write32, vmcs_write64,
    store_revision, rdmsrl, wrmsrl, setup_autoload, kvm_set_ept_violation_handler, vmcs_read16, vmcs_read32, vmcs_read64, vmcs_readl, __vmcs_read.
  cbn [ops_set_segment ops_set_rip vmx_guest_ops]. settle.
Qed.
End vmx.
End machine.

(** ** The program *)

Section program.
Context {hw : Type} {HW : Hardware hw} {DR : DescriptorRegisters hw} {GE : GuestExecution hw} {L : Layout} {LO : LayoutOk} {SC : StackContents hw}.
Context {CL : ConsoleLayout} {TL : TrapLayout} {BL : BootLayout} {IL : ImageLayout} {LG : LawfulGuest hw}.
Context {now : hw → Z} {tick : Z} {TK : Ticking hw now tick} (Htick : tick ≤ 2 ^ 50).
Implicit Types s : program hw.

(** Outside the processor the state is the one of [sf]. *)
Definition beside (sf s : program hw) : Prop :=
  clocked (p_mach s) ∧ p_mem s = p_mem sf ∧ p_e820 s = p_e820 sf ∧ p_traps s = p_traps sf.

Lemma processor_settles {A} sf (f : M (machine hw) A) : settles clocked f → settles (beside sf) (on_processor f).
Proof.
  intros Hf s (Hc & Hs). pose proof (Hf _ Hc) as Hr. unfold on_processor, on_kernel, on_mach, lift_outcome.
  by destruct (f (p_mach s)).
Qed.

Lemma firmware_settles {A} sf (f : bmem → M (machine hw) A) :
  (∀ m, settles clocked (f m)) → settles (beside sf) (on_firmware f).
Proof. intros Hf s Hs. by apply processor_settles. Qed.

(** [trap_init] on the tables and the machine. *)
Definition tables_machine (p : trap_state * machine hw) : Prop := vectors_ok p.1 ∧ clocked p.2.

Lemma on_tables_settles c : sets_idt c → settles tables_machine (on_tables c).
Proof. intros Hc [t x] [Ht Hx]. unfold on_tables. cbn [fst snd] in *. by destruct (Hc t Ht) as (t' & -> & Ht' & _). Qed.

Lemma on_machine_settles {A} (c : M (machine hw) A) : settles clocked c → settles tables_machine (on_machine c).
Proof. intros Hc [t x] [Ht Hx]. unfold on_machine. pose proof (Hc x Hx) as Hr. cbn [fst snd] in *. by destruct (c x). Qed.

Lemma trap_init_settles (t : trap_state) (x : machine hw) :
  system_vectors t = [0; 0; 0; 0] → clocked x → settled tables_machine (trap_init (t, x)).
Proof.
  intros Hz Hx. unfold trap_init. destruct (switch_to_new_gdt_ok t) as (m & E & _).
  erewrite bind_done by (unfold on_tables; cbn [fst]; by rewrite E).
  match goal with |- settled _ (?f ?p) => apply (λ H : settles tables_machine f, H p) end.
  - apply settles_bind; [apply on_tables_settles, sets_idt_traps|intros _].
    apply settles_bind; [apply on_tables_settles, sets_idt_ist|intros _].
    apply settles_bind; [apply on_machine_settles, i8259_settles; assumption|intros _].
    apply settles_bind; [apply on_tables_settles, sets_idt_gates|intros _].
    apply on_machine_settles, trap_msrs_settle.
  - split; [|exact Hx]. split; cbn [fst system_vectors]; rewrite Hz; [repeat constructor; lia|done].
Qed.

(** The consoles are registered without a loop. *)
Lemma consoles_done colour s : no_console (p_mem s) →
  ∃ s', (∀ B (k : unit → unit → M (program hw) B), (_ ← on_kernel (porte9_init colour); _ ← on_kernel vgacon_init; k tt tt) s = k tt tt s') ∧
    changes written_early s s' ∧ p_traps s' = p_traps s ∧ p_mach s' = p_mach s.
Proof.
  intros Hc. destruct ((porte9_init colour ;; vgacon_init) (p_kernel s)) as [[] k| |] eqn:E; try discriminate.
  exists (with_kernel k s). split; [intros B c; by injection E as <-|].
  destruct (consoles_frame colour (p_kernel s) k tt il_nodes Hc E) as [_ Hm].
  destruct (consoles_changes colour s (with_kernel k s) il_nodes Hc) as [H1 H2]; [by injection E as <-|].
  by split_and!.
Qed.

(** What comes after the boot loader's information is read. *)
Lemma run_settles sf e m :
  kvm_init_guest (mk_bstate (p_e820 sf) (p_mem sf)) = Done tt (mk_bstate e m) → clocked (p_mach sf) →
  settled (λ s, clocked (p_mach s))
    ((on_firmware acpi_table_init ;; on_firmware apic_init ;; kvm_init ;; kvm_bsp_run) sf).
Proof.
  intros Hg Hc. apply (settled_bind _ (beside sf)); [by apply firmware_settles; [intros; apply acpi_table_init_settles|]|].
  intros _ s1 _ H1. apply (settled_bind _ (beside sf)); [by apply firmware_settles; [intros; apply apic_init_settles|]|].
  intros _ s2 _ H2. apply (settled_bind _ (λ s, clocked (p_mach s))).
  - unfold kvm_init. apply (settled_bind _ (beside sf)); [by apply processor_settles; [apply hardware_settles|]|].
    intros _ s3 _ (H3 & Hm & He & _). unfold on_boot. by rewrite Hm, He, Hg.
  - intros _ s3 _ H3. unfold kvm_bsp_run. erewrite bind_done by reflexivity.
    apply (settled_mono _ (beside (enter_words s3))); [by intros s [? _]|].
    by apply processor_settles; [apply bsp_start_settles|].
Qed.

(** The start settles, whatever the firmware's tables hold. *)
Lemma main_settles colour info n s0 :
  at_entry info n s0 → m_tsc_khz (p_mach s0) = 0 →
  settled (λ s, clocked (p_mach s)) (main colour MULTIBOOT_BOOTLOADER_MAGIC info s0).
Proof.
  intros Hs0 Hz. unfold main.
  destruct (consoles_done colour s0 (ae_consoles _ _ _ Hs0)) as (sb & Hr & Hc & Ht & Hx).
  rewrite (Hr _ (λ _ _, _)). clear Hr.
  apply (settled_bind _ (beside sb)); [apply processor_settles; [apply cpu_init_settles|]; split; [unfold clocked; rewrite Hx, Hz; lia|done]|].
  intros _ sc _ H1. apply (settled_bind _ (beside sb)); [by apply processor_settles; [apply tsc_init_settles|]|].
  intros _ sd _ (H2 & Hm & He & Htr). apply (settled_bind _ (λ s, clocked (p_mach s))).
  { unfold on_traps, lift_outcome. pose proof (trap_init_settles (mk_traps (p_mem sd) (r_vectors (p_traps sd))
      (r_idtr (p_traps sd)) (r_gdtr (p_traps sd)) (r_tr (p_traps sd))) (p_mach sd)) as Hp.
    destruct (trap_init _) as [u p| |]; [apply Hp|done|apply Hp]; try exact H2; cbn [system_vectors];
      rewrite Htr, Ht; apply Hs0. }
  intros [] se Hte H3. apply trap_init_changes in Hte; [|rewrite Htr, Ht; apply Hs0].
  destruct (boot_information info n s0 (p_mem se) Hs0) as (e & m1 & m2 & Hb & Hg & _).
  { intros a Ha. by rewrite (ch_mem _ _ _ Hte), Hm, (ch_mem _ _ _ Hc). }
  erewrite bind_done; [|unfold on_boot; rewrite (ch_e820 _ _ _ Hte), He, (ch_e820 _ _ _ Hc), Hb; reflexivity].
  by eapply run_settles.
Qed.

(** Its last act is to enter the virtual machine. *)
Lemma main_enters colour magic info s0 s1 :
  main colour magic info s0 = Done tt s1 → ∃ x, kvm_bsp_start x = Done tt (p_mach s1).
Proof.
  intros Hr. unfold main in Hr.
  do 9 (let s := fresh "s" in bind_inv Hr as ? s ?). unfold kvm_bsp_run in Hr. bind_inv Hr as u se Hx.
  apply on_processor_inv in Hr as (y & Hy & ->). eauto.
Qed.

(** C2: the hypervisor never hangs.  Started as [main_isolates_guest] says, on a processor
    whose time-stamp counter advances, by at most 2^50 at a time, [main] reaches [kvm_loop] or
    stops in a panic: no delay, no walk over a table of the firmware or of the boot loader and no
    calibration goes on for ever.  And whatever the guest does then, every iteration of
    [kvm_loop] that is begun ends, in the next one or in a panic. *)
Theorem main_ends colour info n s0 :
  at_entry info n s0 → m_tsc_khz (p_mach s0) = 0 →
  (∃ s1, main colour MULTIBOOT_BOOTLOADER_MAGIC info s0 = Done tt s1 ∧
     ∀ x, rtc kvm_loop (p_mach s1) x →
       (∃ x', kvm_loop x x') ∨ ∃ msg x', kvm_loop_body x = Panicked msg x') ∨
  ∃ msg s1, main colour MULTIBOOT_BOOTLOADER_MAGIC info s0 = Panicked msg s1.
Proof.
  intros Hs0 Hz. destruct (settled_ends _ _ (main_settles colour info n s0 Hs0 Hz)) as [[s1 Hr]|Hp]; [|by right].
  left. exists s1. split; [done|]. intros x Hx. destruct (main_enters _ _ _ _ _ Hr) as [x0 H0].
  by apply (loop_iterations_end x0 (p_mach s1)).
Qed.
End program.

Module MainEndsDemo.
Import MainDemo.

Lemma ticking_pc : Ticking pc pc_tsc 4000.
Proof. intros h. eexists. split; [reflexivity|]. cbn. lia. Qed.

Lemma main_ends_witness :
  at_entry 0x9000 2 entry ∧ m_tsc_khz (p_mach entry) = 0 ∧
  ((∃ s1, main 0 MULTIBOOT_BOOTLOADER_MAGIC 0x9000 entry = Done tt s1 ∧
      ∀ x, rtc kvm_loop (p_mach s1) x →
        (∃ x', kvm_loop x x') ∨ ∃ msg x', kvm_loop_body x = Panicked msg x') ∨
   ∃ msg s1, main 0 MULTIBOOT_BOOTLOADER_MAGIC 0x9000 entry = Panicked msg s1).
Proof.
  split; [exact entry_ok|]. split; [reflexivity|].
  exact (main_ends (TK := ticking_pc) ltac:(lia) 0 0x9000 2 entry entry_ok eq_refl).
Defined.
End MainEndsDemo.
