(* ===== verification/TablesApart.v ===== *)
(** The firmware's tables do not change while the program starts: where they are outside the
    hypervisor's image, [kernel/acpi.c] and [kernel/apic.c] find the same in every memory that is the
    same outside of it. *)

From S2P Require Import Prelude Mem CString Hexdump Vmcs Machine Acpi AcpiSpec Madt MadtSpec Ept.
#[local] Open Scope Z_scope.
#[local] Open Scope cint_scope.

Section apart.
Context {L : Layout} {LO : LayoutOk} (m m' : bmem).

(** [m'] has the bytes of [m] from [a] to [a + n]. *)
Definition same_at (a n : Z) : Prop := ∀ b, a ≤ b < a + n → rd8 m' b = rd8 m b.

Lemma same_at_sub a n b k : same_at a n → a ≤ b → b + k ≤ a + n → same_at b k.
Proof. intros Hs ? ? c ?. apply Hs. lia. Qed.

Lemma same_rd_bytes a n k : same_at a n → Z.of_nat k ≤ n → rd_bytes m' a k = rd_bytes m a k.
Proof. intros Hs Hk. apply rd_bytes_ext. intros i Hi. apply Hs. lia. Qed.

Lemma same_rd_le a n b k : same_at a n → a ≤ b → b + Z.of_nat k ≤ a + n → rd_le m' b k = rd_le m b k.
Proof. intros Hs ? ?. apply rd_le_ext. intros i Hi. apply Hs. lia. Qed.

Lemma same_rd8 a n b : same_at a n → a ≤ b < a + n → rd8 m' b = rd8 m b.
Proof. intros Hs ?. by apply Hs. Qed.

Lemma same_byte_sum a n k : same_at a n → k ≤ n → 0 ≤ n → byte_sum m' a k = byte_sum m a k.
Proof. intros Hs Hk Hn. unfold byte_sum. by rewrite (same_rd_bytes a n) by (done || lia). Qed.

(** ** The root pointer *)

Lemma same_rsdp_valid a : same_at a 36 → rsdp_valid m' a ↔ rsdp_valid m a.
Proof.
  intros Hs. unfold rsdp_valid. rewrite (same_rd_bytes a 36 8) by (done || lia). rewrite !(same_byte_sum a 36) by (done || lia).
  by rewrite (same_rd8 a 36 (a + 15)) by (done || lia).
Qed.

Lemma same_root_of a : same_at a 36 → root_of m' a = root_of m a.
Proof.
  intros Hs. unfold root_of, rd64, rd32. by rewrite (same_rd8 a 36 (a + 15)), !(same_rd_le a 36) by (done || lia).
Qed.

(** ** The tables *)

Lemma same_length a n : same_at a n → 8 ≤ n → rd32 m' (a + 4) = rd32 m (a + 4).
Proof. intros Hs Hn. unfold rd32. apply (same_rd_le a n); (done || lia). Qed.

Lemma same_table_ok a n k : same_at a n → 8 ≤ n → k ≤ n → table_ok m' a k ↔ table_ok m a k.
Proof.
  intros Hs Hn Hk. unfold table_ok. by rewrite (same_rd_bytes a n 4), (same_byte_sum a n k) by (done || lia).
Qed.

(** The bytes of a table that are read to check it. *)
Definition table_extent (a : Z) : Z := Z.max 44 (rd32 m (a + 4)).

Lemma same_root_valid rsdp : same_at rsdp 36 → same_at (root_of m rsdp).1 (table_extent (root_of m rsdp).1) →
  root_valid m' rsdp ↔ root_valid m rsdp.
Proof.
  intros H1 H2. unfold root_valid. rewrite (same_root_of rsdp H1). unfold table_extent in *.
  rewrite (same_length _ _ H2) by lia. by rewrite (same_table_ok _ _ _ H2) by lia.
Qed.

Lemma same_root_entries a size n : same_at a (size * Z.of_nat n) → size = 4 ∨ size = 8 →
  root_entries m' a size n = root_entries m a size n.
Proof.
  intros Hs Hsz. unfold root_entries. apply list_fmap_ext. intros i x Hi. apply lookup_seq in Hi as [-> Hi].
  unfold acpi_tb_get_root_table_entry, rd32, rd64. cbn [Nat.add].
  assert (size * Z.of_nat i + size ≤ size * Z.of_nat n) by nia. assert (0 ≤ size * Z.of_nat i) by nia.
  destruct (size =? ACPI_RSDT_ENTRY_SIZE) eqn:E; apply (same_rd_le a (size * Z.of_nat n)); try done; try lia.
  all: unfold ACPI_RSDT_ENTRY_SIZE in E; lia.
Qed.

Lemma filter_same {A} (P Q : A → Prop) `{!∀ x, Decision (P x)} `{!∀ x, Decision (Q x)} (l : list A) :
  (∀ x, x ∈ l → P x ↔ Q x) → filter P l = filter Q l.
Proof.
  intros Hl. induction l as [|x l IH]; [done|]. rewrite !filter_cons, IH by (intros y Hy; apply Hl; by right).
  destruct (Hl x ltac:(by left)). case_decide; case_decide; tauto || done.
Qed.

(** The entries of the root table of [rsdp]. *)
Definition listed (rsdp : Z) : list Z :=
  let '(a, size) := root_of m rsdp in root_entries m (a + 36) size (Z.to_nat ((rd32 m (a + 4) - 36) / size)).

Lemma same_valid_tables rsdp :
  same_at rsdp 36 → same_at (root_of m rsdp).1 (table_extent (root_of m rsdp).1) →
  (∀ a, a ∈ listed rsdp → a ≠ 0 → same_at a (table_extent a)) →
  valid_tables m' rsdp = valid_tables m rsdp.
Proof.
  intros H1 H2 H3. unfold valid_tables, listed in *. rewrite (same_root_of rsdp H1).
  assert ((root_of m rsdp).2 = 4 ∨ (root_of m rsdp).2 = 8) as Hsz by (unfold root_of; case_decide; cbn; tauto).
  destruct (root_of m rsdp) as [a size]. cbn [fst snd] in *. unfold table_extent in H2 at 1.
  rewrite (same_length _ _ H2), same_root_entries; [| |done|lia].
  - apply filter_same. intros x Hx. unfold entry_ok. destruct (decide (x = 0)); [tauto|].
    specialize (H3 x Hx ltac:(done)). unfold table_extent in H3.
    by rewrite (same_length _ _ H3), (same_table_ok _ _ _ H3) by lia.
  - eapply same_at_sub; [exact H2|lia|].
    pose proof (Z.mul_div_le (rd32 m (a + 4) - 36) size ltac:(lia)) as Hq. revert Hq. generalize ((rd32 m (a + 4) - 36) / size).
    intros q Hq. unfold table_extent. destruct (decide (0 ≤ q)); [rewrite Z2Nat.id by done; lia|].
    replace (Z.of_nat (Z.to_nat q)) with 0 by lia. lia.
Qed.

(** ** The subtables of the MADT *)

Section madt.
Context (a n : Z) (Hs : same_at a n).

Lemma same_subtables k e : a ≤ e → subtables m' k e (a + n) = subtables m k e (a + n).
Proof.
  revert e. induction k as [|k IH]; intros e He; cbn [subtables]; [done|].
  destruct (Z.ltb_spec (e + 2) (a + n)); [|done]. unfold subtable_length.
  rewrite (same_rd8 a n (e + 1)) by (done || lia). f_equal. apply IH. pose proof (rd8_bound m (e + 1)). lia.
Qed.

Lemma subtables_inside k e p : a ≤ e → p ∈ subtables m k e (a + n) → a ≤ p ∧ p + 2 < a + n.
Proof.
  revert e. induction k as [|k IH]; intros e He; cbn [subtables]; [by intros ?%not_elem_of_nil|].
  destruct (Z.ltb_spec (e + 2) (a + n)); [|by intros ?%not_elem_of_nil].
  intros [->|Hp]%elem_of_cons; [lia|]. apply (IH (e + subtable_length m e)); [|done].
  pose proof (rd8_bound m (e + 1)). unfold subtable_length. lia.
Qed.

Lemma same_entry_fits p : a ≤ p → p + 2 < a + n → entry_fits m' (a + n) p ↔ entry_fits m (a + n) p.
Proof.
  intros H1 H2. unfold entry_fits, subtable_type, subtable_length.
  by rewrite (same_rd8 a n p), (same_rd8 a n (p + 1)) by (done || lia).
Qed.

Lemma same_lapic_of p : a ≤ p → p + 2 < a + n → entry_fits m (a + n) p → lapic_of m' p = lapic_of m p.
Proof.
  intros H1 H2 (_ & Hl & Hx). unfold lapic_of, local_apic_at, local_x2apic_at, subtable_type in *. cbn [la_id la_lapic_flags lx_local_apic_id lx_lapic_flags].
  rewrite (same_rd8 a n p) by (done || lia). unfold rd32.
  destruct (Z.eqb_spec (rd8 m p) ACPI_MADT_TYPE_LOCAL_APIC) as [E|_].
  - destruct (Hl E) as (_ & ? & _). by rewrite (same_rd8 a n (p + 3)), (same_rd_le a n (p + 4)) by (done || lia).
  - destruct (Z.eqb_spec (rd8 m p) ACPI_MADT_TYPE_LOCAL_X2APIC) as [E|_]; [|done].
    destruct (Hx E) as (_ & ? & _). by rewrite (same_rd_le a n (p + 4)), (same_rd_le a n (p + 8)) by (done || lia).
Qed.

Lemma same_lapics e : a ≤ e → Forall (entry_fits m (a + n)) (walk m (a + n) e) →
  walk m' (a + n) e = walk m (a + n) e ∧ Forall (entry_fits m' (a + n)) (walk m (a + n) e) ∧
  omap (lapic_of m') (walk m (a + n) e) = omap (lapic_of m) (walk m (a + n) e).
Proof.
  intros He Hf. split; [by apply same_subtables|].
  assert (∀ p, p ∈ walk m (a + n) e → a ≤ p ∧ p + 2 < a + n) as Hin by (intros p; by apply subtables_inside).
  revert Hf Hin. generalize (walk m (a + n) e). intros l Hf. induction Hf as [|p l Hp Hf IH]; intros Hin; [done|].
  destruct (Hin p ltac:(by left)) as [H1 H2]. destruct IH as [IH1 IH2]; [intros q Hq; apply Hin; by right|].
  split; [constructor; [by apply same_entry_fits|done]|]. cbn [omap list_omap]. by rewrite same_lapic_of, IH2.
Qed.
End madt.

(** What [acpi_parse_madt_lapic_entries] walks over is the same. *)
Lemma same_madt a b count : same_at a (table_extent a) →
  walkable m b (a + rd32 m (a + 4)) (a + sizeof_acpi_table_madt) count →
  walkable m' b (a + rd32 m' (a + 4)) (a + sizeof_acpi_table_madt) count ∧ madt_lapics m' a = madt_lapics m a.
Proof.
  intros Hs (Hf & Hw). unfold table_extent in Hs. unfold walkable, madt_lapics. rewrite (same_length _ _ Hs) by lia.
  destruct (same_lapics a (rd32 m (a + 4))) with (e := a + sizeof_acpi_table_madt) as (-> & H1 & ->);
    [by eapply same_at_sub; [exact Hs|lia..]|unfold sizeof_acpi_table_madt; lia|done|done].
Qed.
End apart.
