(* ===== verification/Capable.v ===== *)
(** The processors that can run the program: what they report and what they keep while the
    program starts.  On such a processor none of the components that set up the machine panics. *)

From S2P Require Import Prelude Bitops Mem Vmcs Machine Tsc Cpu PerCpu Apic Acpi AcpiSpec Madt MadtSpec Kvm Vmx VmxState VmxExit Ept Hypervisor Traps Main MainSpec MainEnds.
#[local] Open Scope Z_scope.
#[local] Open Scope cint_scope.

(** ** What the processor keeps

    Registers that software reads to find out what the processor can do; the program writes
    one of them, [MSR_IA32_FEATURE_CONTROL], when it has read all of them. *)

Definition configuration_msrs : list Z :=
  [ MSR_IA32_APICBASE; MSR_IA32_FEATURE_CONTROL; MSR_IA32_VMX_BASIC; MSR_IA32_VMX_PINBASED_CTLS;
    MSR_IA32_VMX_PROCBASED_CTLS; MSR_IA32_VMX_PROCBASED_CTLS2; MSR_IA32_VMX_EXIT_CTLS; MSR_IA32_VMX_ENTRY_CTLS;
    MSR_IA32_VMX_EPT_VPID_CAP; APIC_BASE_MSR + (APIC_ID >>> 4) ].

(** Solves a decidable proposition about constants. *)
Ltac by_decision := apply (bool_decide_unpack _); vm_compute; exact I.

Section steady.
Context {hw : Type} `{Hardware hw}.
Implicit Types h : hw.

(** The page of the local APIC's registers, from [IA32_APIC_BASE]; below 4 GB. *)
Definition lapic_page h : Z := hw_rdmsr h MSR_IA32_APICBASE &&& 0xfffff000.

Record same_configuration h h' : Prop := {
  sc_msr i : i ∈ configuration_msrs → hw_rdmsr h' i = hw_rdmsr h i;
  sc_cpuid a c : hw_cpuid h' a c = hw_cpuid h a c;
  sc_vmxe : Z.testbit (hw_read_cr4 h') 13 = Z.testbit (hw_read_cr4 h) 13;
  sc_apic_id : (hw_mmio_read32 h' (lapic_page h + APIC_ID)).1 = (hw_mmio_read32 h (lapic_page h + APIC_ID)).1;
}.

(** [gdtr] and the task register. *)
Definition same_tables h h' : Prop := hw_store_gdt h' = hw_store_gdt h ∧ hw_store_tr h' = hw_store_tr h.

Definition steady h h' : Prop := same_configuration h h' ∧ same_tables h h'.

Lemma lapic_page_same h h' : same_configuration h h' → lapic_page h' = lapic_page h.
Proof. intros Hc. unfold lapic_page. rewrite (sc_msr _ _ Hc); [done|left]. Qed.

#[global] Instance same_configuration_preorder : PreOrder same_configuration.
Proof.
  split; [by split|]. intros h1 h2 h3 H1 H2. pose proof (lapic_page_same _ _ H1) as Hp. destruct H1, H2.
  rewrite Hp in *. split; intros; congruence || (rewrite sc_msr1, sc_msr0; done) || congruence.
Qed.

#[global] Instance same_tables_preorder : PreOrder same_tables.
Proof. split; [by split|]. intros h1 h2 h3 [] []. split; congruence. Qed.

#[global] Instance steady_preorder : PreOrder steady.
Proof. split; [by split|]. intros h1 h2 h3 [H1 H2] [H3 H4]. split; by etransitivity. Qed.

(** The settings under which [vmxon] is not refused. *)
Definition vmxon_allowed h : Prop :=
  Z.testbit (hw_read_cr4 h) 13 = true ∧
  let v := hw_rdmsr h MSR_IA32_FEATURE_CONTROL in Z.testbit v 0 = true ∧ Z.testbit v 2 = true.
End steady.

(** Documented behaviour: which instructions leave the registers above alone; that a task
    register and a [gdtr] read back as they were loaded; that writes to [CR4] and to the
    unlocked feature-control register take effect; and that a VMCS can be loaded after a
    [vmxon] that was allowed, on two different pages which hold the revision. *)
Class SteadyProcessor (hw : Type) `{Hardware hw} `{DescriptorRegisters hw} : Prop := {
  steady_rdtsc h : steady h (hw_rdtsc h).2;
  steady_inb h p : steady h (hw_inb h p).2;
  steady_outb h v p : steady h (hw_outb h v p);
  steady_wrmsr h i v : i ∉ configuration_msrs → steady h (hw_wrmsr h i v);
  steady_mmio_read h a : steady h (hw_mmio_read32 h a).2;
  steady_mmio_write h a v : a ≠ lapic_page h + APIC_ID → steady h (hw_mmio_write32 h a v);
  load_configuration r h : same_configuration h (load_registers r h);
  load_gdt r h base limit : r_gdtr r = Some (base, limit) → hw_store_gdt (load_registers r h) = base;
  load_tr r h : hw_store_tr (load_registers r h) = r_tr r;
  feature_control h v : Z.testbit (hw_rdmsr h MSR_IA32_FEATURE_CONTROL) 0 = false →
    hw_rdmsr (hw_wrmsr h MSR_IA32_FEATURE_CONTROL v) MSR_IA32_FEATURE_CONTROL = v;
  feature_control_else h v :
    same_tables h (hw_wrmsr h MSR_IA32_FEATURE_CONTROL v) ∧
    hw_read_cr4 (hw_wrmsr h MSR_IA32_FEATURE_CONTROL v) = hw_read_cr4 h;
  cr4_write h v : hw_read_cr4 (hw_write_cr4 h v) = v;
  cr4_write_else h v : same_tables h (hw_write_cr4 h v) ∧ ∀ i, hw_rdmsr (hw_write_cr4 h v) i = hw_rdmsr h i;
  vmxon_tables h a : same_tables h (hw_vmxon h a);
  vmptrld_tables h a : same_tables h (hw_vmptrld h a).2;
  vmptrld_succeeds h a b : vmxon_allowed h → a mod 4096 = 0 → b mod 4096 = 0 → a ≠ b →
    (hw_vmptrld (hw_vmxon h a) b).1 = false;
}.

(** ** What the processor has to report *)

(** The capability MSR allows every control in [ctl] to be 1. *)
Definition allows (v ctl : Z) : Prop := ∀ i, 0 ≤ i < 32 → Z.testbit ctl i = true → Z.testbit v (32 + i) = true.

(** What [setup_vmcs_config] requires. *)
Definition required_controls : list (Z * Z) :=
  [ (MSR_IA32_VMX_PROCBASED_CTLS, CPU_BASED_USE_MSR_BITMAPS ||| CPU_BASED_ACTIVATE_SECONDARY_CONTROLS
       ||| CPU_BASED_RDTSC_EXITING ||| CPU_BASED_CR3_LOAD_EXITING);
    (MSR_IA32_VMX_PROCBASED_CTLS2, SECONDARY_EXEC_ENABLE_EPT ||| SECONDARY_EXEC_ENABLE_VPID
       ||| SECONDARY_EXEC_UNRESTRICTED_GUEST);
    (MSR_IA32_VMX_EXIT_CTLS, VM_EXIT_SAVE_DEBUG_CONTROLS ||| VM_EXIT_HOST_ADDR_SPACE_SIZE
       ||| VM_EXIT_SAVE_IA32_EFER ||| VM_EXIT_LOAD_IA32_EFER);
    (MSR_IA32_VMX_ENTRY_CTLS, VM_ENTRY_LOAD_DEBUG_CONTROLS ||| VM_ENTRY_LOAD_IA32_EFER) ].

(** A local APIC and VT-x that are there and not switched off, with the required controls, 2 MB
    pages and four levels in the extended page tables; VMX operation has not been entered.  The size
    and the memory type of a VMCS are fields of [IA32_VMX_BASIC]. *)
Record capable {hw} `{Hardware hw} (h : hw) : Prop := {
  cp_level : 1 ≤ s32 (u32 (hw_cpuid h 0 0).1.1.1);
  cp_vmx : Z.testbit (hw_cpuid h 1 0).1.2 5 = true;
  cp_apic : Z.testbit (hw_cpuid h 1 0).2 9 = true;
  cp_apic_enabled : Z.testbit (hw_rdmsr h MSR_IA32_APICBASE) 11 = true;
  cp_unlocked : let v := hw_rdmsr h MSR_IA32_FEATURE_CONTROL in
    0 ≤ v < 2 ^ 64 ∧ (Z.testbit v 0 = true → Z.testbit v 2 = true);
  cp_controls p : p ∈ required_controls → allows (hw_rdmsr h p.1) p.2;
  cp_vmcs_size : ((u64 (hw_rdmsr h MSR_IA32_VMX_BASIC) >>> 32) &&& 0x1fff) ≤ 4096;
  cp_vmcs_memory : ((u64 (hw_rdmsr h MSR_IA32_VMX_BASIC) >>> 32) >>> 18) &&& 15 = 6;
  cp_ept_2m : truthy (u32 (u64 (hw_rdmsr h MSR_IA32_VMX_EPT_VPID_CAP)) &&& VMX_EPT_2MB_PAGE_BIT) = true;
  cp_ept_4l : truthy (u32 (u64 (hw_rdmsr h MSR_IA32_VMX_EPT_VPID_CAP)) &&& VMX_EPT_PAGE_WALK_4_BIT) = true;
  cp_vmxe : Z.testbit (hw_read_cr4 h) 13 = false;
}.

Lemma capable_same {hw} `{Hardware hw} (h h' : hw) : same_configuration h h' → capable h → capable h'.
Proof.
  intros Hc [? ? ? ? ? Hctl ? ? ? ? ?]. destruct Hc as [Hm Hid Hv _].
  split; rewrite ?Hid, ?Hv, ?Hm by (by_decision); try done.
  intros p Hp. rewrite Hm; [by apply Hctl|]. unfold required_controls in Hp.
  repeat (apply elem_of_cons in Hp as [->|Hp]; [by_decision|]). by apply not_elem_of_nil in Hp.
Qed.

(** ** The components that only use the processor and the log *)

Section advance.
Context {hw : Type} {HW : Hardware hw} {DR : DescriptorRegisters hw} {SP : SteadyProcessor hw}.
Implicit Types s : machine hw.

(** From [s0] to [s] the processor went on, text was logged and the clock was calibrated. *)
Definition advanced s0 s : Prop := ∃ h l k, s = set_tsc_khz k (set_log l (set_hw h s0)) ∧ steady (m_hw s0) h.

Lemma advanced_refl s : advanced s s.
Proof. exists (m_hw s), (m_log s), (m_tsc_khz s). by destruct s. Qed.

Lemma advanced_trans s1 s2 s3 : advanced s1 s2 → advanced s2 s3 → advanced s1 s3.
Proof.
  intros (h & l & k & -> & Hs) (h' & l' & k' & -> & Hs'). exists h', l', k'. split; [done|].
  by etransitivity; [|exact Hs'].
Qed.

Lemma advanced_hw s h : steady (m_hw s) h → advanced s (set_hw h s).
Proof. intros Hs. exists h, (m_log s), (m_tsc_khz s). by destruct s. Qed.
Lemma advanced_log s l : advanced s (set_log l s).
Proof. exists (m_hw s), l, (m_tsc_khz s). by destruct s. Qed.
Lemma advanced_khz s k : advanced s (set_tsc_khz k s).
Proof. exists (m_hw s), (m_log s), k. by destruct s. Qed.

Context (s0 : machine hw).
#[local] Notation I := (advanced s0).

Lemma keeps_advance {A} (m : M (machine hw) A) : (∀ s, ∃ a s', m s = Done a s' ∧ advanced s s') → keeps I m.
Proof. intros Hm s Hs. destruct (Hm s) as (a & s' & Hr & Ha). exists a, s'. split; [done|]. by eapply advanced_trans. Qed.

Lemma keeps_printk f a : keeps I (printk f a).
Proof. apply keeps_advance. intros s. eexists _, _. split; [reflexivity|apply advanced_log]. Qed.
Lemma keeps_rdtsc : keeps I rdtsc.
Proof.
  apply keeps_advance. intros s. unfold rdtsc. pose proof (steady_rdtsc (m_hw s)) as Hs. destruct (hw_rdtsc _) as [t h].
  eexists _, _. split; [reflexivity|]. by apply advanced_hw.
Qed.
Lemma keeps_inb p : keeps I (inb p).
Proof.
  apply keeps_advance. intros s. unfold inb. pose proof (steady_inb (m_hw s) (u16 p)) as Hs. destruct (hw_inb _ _) as [t h].
  eexists _, _. split; [reflexivity|]. by apply advanced_hw.
Qed.
Lemma keeps_outb v p : keeps I (outb v p).
Proof. apply keeps_advance. intros s. eexists _, _. split; [reflexivity|]. apply advanced_hw, steady_outb. Qed.

(** A computation that is known to return keeps what it preserves. *)
Lemma keeps_total {A} (m : M (machine hw) A) s a s' : m s = Done a s' → preserves I m → I s → I s'.
Proof. intros Hr Hm Hs. exact (preserves_done _ _ _ _ _ Hm Hs Hr). Qed.

Lemma preserves_keeps {A} (m : M (machine hw) A) : keeps I m → preserves I m.
Proof. intros Hm s Hs. destruct (Hm s Hs) as (a & s' & -> & Hs'). exact Hs'. Qed.

Lemma preserves_khz k : preserves I (modify (set_tsc_khz k)).
Proof. intros s Hs. eapply advanced_trans; [exact Hs|apply advanced_khz]. Qed.
#[local] Hint Extern 0 (preserves (advanced _) (modify (set_tsc_khz _))) => apply preserves_khz : preserves.
#[local] Hint Extern 0 (preserves (advanced _) (printk _ _)) => apply preserves_keeps, keeps_printk : preserves.
#[local] Hint Extern 0 (preserves (advanced _) rdtsc) => apply preserves_keeps, keeps_rdtsc : preserves.
#[local] Hint Extern 0 (preserves (advanced _) (inb _)) => apply preserves_keeps, keeps_inb : preserves.
#[local] Hint Extern 0 (preserves (advanced _) (outb _ _)) => apply preserves_keeps, keeps_outb : preserves.

Lemma tsc_init_advances : preserves I tsc_init.
Proof.
  unfold tsc_init, native_calibrate_tsc, quick_pit_calibrate, quick_pit_step, pit_expect_msb, pit_expect_step,
    pit_verify_msb, get_cycles, pr_info, cpuid. preserving.
Qed.

Lemma udelay_advances n : preserves I (udelay n).
Proof. unfold udelay, udelay_step, uptime, get_cycles. preserving. Qed.
End advance.

(** ** [cpu_init] *)

Section cpu_init.
Context {hw : Type} `{Hardware hw}.
Implicit Types s : machine hw.

(** Only what is known of the processor and the log differ. *)
Definition identified s0 s : Prop := ∃ c l, s = set_cpu c (set_log l s0).

Lemma identified_refl s : identified s s.
Proof. exists (m_cpu s), (m_log s). by destruct s. Qed.

Lemma identified_step s0 s c l : identified s0 s → identified s0 (set_cpu c (set_log l s)).
Proof. intros (c' & l' & ->). by exists c, l. Qed.

Lemma preserves_update_cpu s0 f : preserves (identified s0) (update_cpu f).
Proof. intros s Hs. apply (identified_step s0 s (f (m_cpu s)) (m_log s)) in Hs. by destruct s. Qed.
Lemma preserves_log s0 f a : preserves (identified s0) (printk f a).
Proof. intros s Hs. apply (identified_step s0 s (m_cpu s) (m_log s ++ [(f, a)])) in Hs. by destruct s. Qed.
#[local] Hint Resolve preserves_update_cpu preserves_log : preserves.

Lemma cpu_init_identifies s0 : preserves (identified s0) cpu_init.
Proof.
  unfold cpu_init, cpu_detect, get_cpu_vendor, get_cpu_cap, get_model_name, cpuid_eax, cpuid_ebx, cpuid_ecx,
    cpuid_edx, cpuid_count, cpuid, set_capability. preserving.
Qed.

(** The array of capabilities is there: [struct cpuinfo_x86 cpu_info] in [.bss]. *)
Definition capabilities_ok s : Prop :=
  caps_ok (x86_capability (m_cpu s)) ∧ length (x86_capability (m_cpu s)) = 19%nat.

Lemma cpuid_done op s : ∃ a b c d, cpuid op s = Done (a, b, c, d) s.
Proof. unfold cpuid, native_cpuid, gets. destruct (hw_cpuid _ _ _) as [[[a b] c] d]. by eexists _, _, _, _. Qed.

Lemma cpu_detect_level s level b c d :
  hw_cpuid (m_hw s) 0 0 = (level, b, c, d) → capabilities_ok s →
  ∃ s', cpu_detect s = Done tt s' ∧ m_hw s' = m_hw s ∧ capabilities_ok s' ∧ cpuid_level (m_cpu s') = u32 level.
Proof.
  intros Hid Hc. unfold cpu_detect.
  assert (cpuid 0 s = Done (u32 level, u32 b, u32 c, u32 d) s) as H0.
  { unfold cpuid, native_cpuid, gets. change (u32 0) with 0. by rewrite Hid. }
  rewrite (bind_done _ _ _ _ _ H0). do 2 (erewrite bind_done by reflexivity). unfold when.
  set (s1 := set_cpu _ _). destruct (1 <=? s32 (u32 level)); [|by exists s1].
  destruct (cpuid_done 1 s1) as (? & ? & ? & ? & Hr). rewrite (bind_done _ _ _ _ _ Hr). by eexists.
Qed.

Lemma get_cpu_vendor_done s : ∃ s', get_cpu_vendor s = Done tt s' ∧ m_hw s' = m_hw s ∧
  x86_capability (m_cpu s') = x86_capability (m_cpu s) ∧ cpuid_level (m_cpu s') = cpuid_level (m_cpu s).
Proof.
  unfold get_cpu_vendor. erewrite bind_done by reflexivity. destruct (find_vendor _ _); [by eexists|].
  erewrite bind_done by reflexivity. by eexists.
Qed.

Lemma get_model_name_done s : ∃ s', get_model_name s = Done tt s' ∧ m_hw s' = m_hw s ∧
  x86_capability (m_cpu s') = x86_capability (m_cpu s).
Proof.
  unfold get_model_name. erewrite bind_done by reflexivity. destruct (_ <? _); [by eexists|].
  do 3 (lazymatch goal with |- context [cpuid ?op ≫= _] =>
    destruct (cpuid_done op s) as (? & ? & ? & ? & Hr); rewrite (bind_done _ _ _ _ _ Hr); clear Hr end). by eexists.
Qed.

Lemma cpu_has_caps c c' bit : x86_capability c' = x86_capability c → cpu_has c' bit = cpu_has c bit.
Proof. intros Hc. unfold cpu_has. by rewrite Hc. Qed.

(** After [cpu_init] a feature of leaf 1 is known if and only if [CPUID] reports it. *)
Lemma cpu_init_done s :
  capabilities_ok s → 1 ≤ s32 (u32 (hw_cpuid (m_hw s) 0 0).1.1.1) →
  ∃ s', cpu_init s = Done tt s' ∧ m_hw s' = m_hw s ∧ identified s s' ∧
    cpu_has (m_cpu s') X86_FEATURE_VMX = Z.testbit (hw_cpuid (m_hw s) 1 0).1.2 5 ∧
    cpu_has (m_cpu s') X86_FEATURE_APIC = Z.testbit (hw_cpuid (m_hw s) 1 0).2 9.
Proof.
  intros Hc Hl. destruct (hw_cpuid (m_hw s) 0 0) as [[[level b] c] d] eqn:E0. cbn [fst] in Hl.
  destruct (cpu_detect_level s level b c d E0 Hc) as (s1 & R1 & H1 & [C1 N1] & L1).
  destruct (get_cpu_vendor_done s1) as (s2 & R2 & H2 & C2 & L2).
  destruct (hw_cpuid (m_hw s) 1 0) as [[[a1 b1] c1] d1] eqn:E1. cbn [fst snd].
  assert (∀ k, 0 ≤ k < 32 → ∃ s', get_cpu_cap s2 = Done tt s' ∧ m_hw s' = m_hw s2 ∧
    cpu_has (m_cpu s') (4 * 32 + k) = Z.testbit c1 k ∧ cpu_has (m_cpu s') (0 * 32 + k) = Z.testbit d1 k) as Hcap.
  { intros k Hk. apply (get_cpu_cap_correct s2 k a1 b1 c1 d1); rewrite ?C2, ?L2, ?L1, ?H2, ?H1.
    all: done. }
  destruct (Hcap 5 ltac:(lia)) as (s3 & R3 & H3 & Hv & _). destruct (Hcap 9 ltac:(lia)) as (s3' & R3' & _ & _ & Ha).
  rewrite R3 in R3'. injection R3' as <-. destruct (get_model_name_done s3) as (s4 & R4 & H4 & C4).
  assert (cpu_init s = Done tt s4) as Hr.
  { unfold cpu_init. rewrite (bind_done _ _ _ _ _ R1), (bind_done _ _ _ _ _ R2), (bind_done _ _ _ _ _ R3). exact R4. }
  exists s4. split; [done|]. split; [congruence|]. split; [exact (preserves_done _ _ _ _ _ (cpu_init_identifies s) (identified_refl s) Hr)|].
  by rewrite !(cpu_has_caps _ _ _ C4).
Qed.
End cpu_init.

(** ** The interrupt controllers *)

Section interrupts.
Context {hw : Type} {HW : Hardware hw} {DR : DescriptorRegisters hw} {SP : SteadyProcessor hw}.
Implicit Types s : machine hw.

Section clock.
Context {now : hw → Z} {tick : Z} {TK : Ticking hw now tick} (Htick : tick ≤ 2 ^ 50).
Context (s0 : machine hw).

(** On the way, with a clock. *)
Definition under_way s : Prop := advanced s0 s ∧ clocked s.

Lemma under_way_hw s h : steady (m_hw s) h → under_way s → under_way (set_hw h s).
Proof. intros Hh [Ha Hc]. split; [|done]. eapply advanced_trans; [exact Ha|by apply advanced_hw]. Qed.

Lemma keeps_udelay usecs : 0 ≤ usecs ≤ 100 → keeps under_way (udelay usecs).
Proof.
  intros Hu s [Ha [Hk0 Hk]]. assert (usecs * m_tsc_khz s ≤ 100 * 2 ^ 47) by (apply Z.mul_le_mono_nonneg; lia).
  destruct (udelay_ends (now := now) (tick := tick) s usecs) as (h & Hr); [lia..|]. exists tt. eexists.
  split; [exact Hr|]. split; [|done]. exact (keeps_total _ _ _ _ _ Hr (udelay_advances s0 usecs) Ha).
Qed.

Lemma keeps_out v port : keeps under_way (outb v port).
Proof. apply keeps_modify. intros s. by apply under_way_hw, steady_outb. Qed.

Lemma keeps_i8259 : keeps under_way i8259_init.
Proof.
  unfold i8259_init, outb_pic.
  repeat lazymatch goal with
  | |- keeps _ (_ ≫= _) => apply keeps_bind; [|intros _]
  | |- keeps _ (outb _ _) => apply keeps_out
  | |- keeps _ (udelay _) => apply keeps_udelay; lia
  end.
Qed.

Lemma keeps_trap_msrs : keeps under_way trap_init_msrs.
Proof.
  unfold trap_init_msrs, rdmsrl.
  repeat lazymatch goal with
  | |- keeps _ (_ ≫= _) => apply keeps_bind; [|intros ?]
  | |- keeps _ (gets _) => apply keeps_gets
  | |- keeps _ (wrmsrl _ _) => apply keeps_modify; intros s; apply under_way_hw, steady_wrmsr; by_decision
  end.
Qed.

Lemma tsc_init_under_way s : advanced s0 s → ∃ s', tsc_init s = Done tt s' ∧ under_way s'.
Proof.
  intros Hs. destruct (tsc_init_frequency s) as (s' & Hr & Hk). exists s'. split; [done|].
  split; [exact (keeps_total _ _ _ _ _ Hr (tsc_init_advances s0) Hs)|unfold clocked; lia].
Qed.
End clock.

(** *** The local APIC *)

Definition lapic_mode (h : hw) : apic_driver :=
  if truthy (u64 (hw_rdmsr h MSR_IA32_APICBASE) &&& MSR_IA32_APICBASE_X2APIC_ENABLE) then x2apic else xapic.

(** The id of the processor, read in the mode it is in. *)
Definition lapic_id (h : hw) : Z :=
  match lapic_mode h with
  | xapic => xapic_get_apic_id (u32 (hw_mmio_read32 h (lapic_page h + APIC_ID)).1)
  | x2apic => u32 (u64 (hw_rdmsr h (APIC_BASE_MSR + (APIC_ID >>> 4))))
  end.

Lemma lapic_page_bound (h : hw) : 0 ≤ lapic_page h < 2 ^ 32.
Proof.
  pose proof (land_bound_r 32 (hw_rdmsr h MSR_IA32_APICBASE) 0xfffff000 ltac:(lia) ltac:(lia)). unfold lapic_page. lia.
Qed.

(** The driver is chosen, and besides it nothing of the virtual machine has changed. *)
Definition driven s0 s : Prop :=
  m_apic s = Some (lapic_mode (m_hw s0)) ∧ m_lapic_addr s = lapic_page (m_hw s0) ∧ steady (m_hw s0) (m_hw s) ∧
  m_vmcs s = m_vmcs s0 ∧ m_vmx s = m_vmx s0 ∧ m_cpu s = m_cpu s0.

Lemma driven_hw s0 s h : steady (m_hw s) h → driven s0 s → driven s0 (set_hw h s).
Proof. intros Hh (? & ? & Hs & ?). split_and!; try tauto. by etransitivity. Qed.

Lemma keeps_apic_read s0 reg : keeps (driven s0) (apic_read reg).
Proof.
  intros s Hs. pose proof Hs as (Hd & _). unfold apic_read. erewrite bind_done by reflexivity. rewrite Hd.
  destruct (lapic_mode _).
  - unfold xapic_read, readl. erewrite bind_done by reflexivity.
    pose proof (steady_mmio_read (m_hw s) (u64 (m_lapic_addr s + reg))) as Hr.
    destruct (hw_mmio_read32 _ _) as [v h]. eexists _, _. split; [reflexivity|]. by apply driven_hw.
  - unfold x2apic_read. destruct (_ =? _); by eexists _, _.
Qed.

(** A register that is not one of the configuration. *)
Definition plain_reg (reg : Z) : Prop :=
  0 ≤ reg < 0x1000 ∧ reg ≠ APIC_ID ∧ u32 (APIC_BASE_MSR + (reg >>> 4)) ∉ configuration_msrs.

Lemma keeps_apic_write s0 reg v : plain_reg reg → keeps (driven s0) (apic_write reg v).
Proof.
  intros (Hr & Hid & Hm) s Hs. pose proof Hs as (Hd & Hp & Hst & _). unfold apic_write.
  erewrite bind_done by reflexivity. rewrite Hd. destruct (lapic_mode _).
  - eexists _, _. split; [reflexivity|]. apply driven_hw; [|done]. apply steady_mmio_write. rewrite Hp.
    rewrite (lapic_page_same _ _ (proj1 Hst)). pose proof (lapic_page_bound (m_hw s0)).
    rewrite wrap_small by lia. lia.
  - unfold x2apic_write. destruct (_ || _); eexists _, _; (split; [reflexivity|]); [done|].
    by apply driven_hw; [apply steady_wrmsr|].
Qed.

Ltac driving :=
  repeat lazymatch goal with
  | |- keeps _ (_ ≫= _) => apply keeps_bind; [|intros ?]
  | |- keeps _ (apic_read _) => apply keeps_apic_read
  | |- keeps _ (apic_write _ _) => apply keeps_apic_write; split_and!; [done|done|done|by_decision]
  | |- keeps _ (mret _) => apply keeps_ret
  | |- keeps _ (gets _) => apply keeps_gets
  | |- keeps _ (when _ _) => apply keeps_when; intros ?
  | |- keeps _ (pr_info _ _) => apply keeps_modify; by intros ?
  end.

Lemma keeps_init_ldr s0 : keeps (driven s0) init_apic_ldr.
Proof.
  intros s Hs. pose proof Hs as (Hd & _). unfold init_apic_ldr. erewrite bind_done by reflexivity. rewrite Hd.
  clear Hd. revert s Hs. change (keeps (driven s0) (match lapic_mode (m_hw s0) with xapic => xapic_init_apic_ldr | x2apic => x2apic_init_apic_ldr end)).
  destruct (lapic_mode _); unfold xapic_init_apic_ldr, x2apic_init_apic_ldr; driving.
Qed.

Lemma lapic_programmed s0 : keeps (driven s0) (clear_local_apic ;; setup_local_apic ;; lapic_setup_esr).
Proof.
  unfold clear_local_apic, mask_lvt, setup_local_apic, lapic_setup_esr.
  repeat lazymatch goal with |- keeps _ (init_apic_ldr) => apply keeps_init_ldr | |- _ => progress driving end.
Qed.

Lemma readl_done a s :
  readl a s = Done (u32 (hw_mmio_read32 (m_hw s) (u64 a)).1) (set_hw (hw_mmio_read32 (m_hw s) (u64 a)).2 s).
Proof. unfold readl. by destruct (hw_mmio_read32 _ _). Qed.

(** The id is read as [lapic_id] says once the driver and the address of its page are known. *)
Lemma read_apic_id_done s :
  m_apic s = Some (lapic_mode (m_hw s)) → m_lapic_addr s = lapic_page (m_hw s) →
  ∃ h, read_apic_id s = Done (lapic_id (m_hw s)) (set_hw h s) ∧ steady (m_hw s) h.
Proof.
  intros Hd Hp. pose proof (lapic_page_bound (m_hw s)) as Hb. set (a := lapic_page (m_hw s) + APIC_ID).
  assert (apic_read APIC_ID s = match lapic_mode (m_hw s) with
    | xapic => Done (u32 (hw_mmio_read32 (m_hw s) a).1) (set_hw (hw_mmio_read32 (m_hw s) a).2 s)
    | x2apic => Done (u32 (u64 (hw_rdmsr (m_hw s) (APIC_BASE_MSR + (APIC_ID >>> 4))))) s end) as Hr.
  { unfold apic_read. erewrite bind_done by reflexivity. rewrite Hd. destruct (lapic_mode _); [|done].
    unfold xapic_read. erewrite bind_done by reflexivity. rewrite Hp, readl_done.
    by rewrite (wrap_small 64) by (unfold APIC_ID; lia). }
  unfold read_apic_id, lapic_id. fold a. destruct (lapic_mode (m_hw s)); rewrite (bind_done _ _ _ _ _ Hr);
    (erewrite bind_done by reflexivity); cbn [m_apic set_hw]; rewrite Hd.
  - eexists. split; [reflexivity|apply steady_mmio_read].
  - exists (m_hw s). split; [|done]. unfold x2apic_get_apic_id. rewrite wrap_wrap by lia. by destruct s.
Qed.

Lemma verify_apic_done s :
  cpu_has (m_cpu s) X86_FEATURE_APIC = true → Z.testbit (hw_rdmsr (m_hw s) MSR_IA32_APICBASE) 11 = true →
  m_apic s = None → verify_apic s = Done tt (set_apic (Some (lapic_mode (m_hw s))) s).
Proof.
  intros Hf He Hn. unfold verify_apic. erewrite bind_done by reflexivity. rewrite Hf.
  erewrite bind_done by reflexivity. erewrite bind_done by reflexivity. unfold MSR_IA32_APICBASE_ENABLE.
  rewrite truthy_land_BIT, testbit_wrap by lia. change (u32 MSR_IA32_APICBASE) with MSR_IA32_APICBASE. rewrite He.
  erewrite bind_done by reflexivity. erewrite bind_done by reflexivity. rewrite Hn.
  unfold lapic_mode. by destruct (truthy _).
Qed.

(** *** The start of the interrupt controller *)

(** The firmware's MADT describes this processor and no other. *)
Record madt_describes (fw : bmem) (h : hw) (madt : Z) : Prop := {
  md_table : madt ≠ 0;
  md_page : rd32 fw (madt + 36) = lapic_page h;
  md_walk : walkable fw (lapic_id h) (madt + rd32 fw (madt + 4)) (madt + sizeof_acpi_table_madt) 0;
  md_self : Forall (boot_lapic (lapic_id h)) (madt_lapics fw madt);
  md_some : madt_lapics fw madt ≠ [];
}.

Lemma madt_describes_same fw (h h' : hw) madt : same_configuration h h' → madt_describes fw h madt → madt_describes fw h' madt.
Proof.
  intros Hc. assert (lapic_id h' = lapic_id h) as E.
  { unfold lapic_id, lapic_mode. rewrite (lapic_page_same _ _ Hc), (sc_apic_id _ _ Hc), !(sc_msr _ _ Hc) by by_decision. done. }
  intros [M1 M2 M3 M4 M5]. split; rewrite ?E, ?(lapic_page_same _ _ Hc); done.
Qed.

(** The static variables of [kernel/apic.c] at the start. *)
Definition no_apic_yet s : Prop :=
  m_apic s = None ∧ m_boot_apicid s = BAD_APICID ∧ m_nr_cpuids s = 1 ∧ m_apicids s = [BAD_APICID].

Lemma apic_init_done fw madt s :
  cpu_has (m_cpu s) X86_FEATURE_APIC = true → Z.testbit (hw_rdmsr (m_hw s) MSR_IA32_APICBASE) 11 = true →
  no_apic_yet s → find_table_loop fw (m_acpi_tables s) ACPI_SIG_MADT = madt → madt_describes fw (m_hw s) madt →
  ∃ s', apic_init fw s = Done tt s' ∧ driven s s'.
Proof.
  intros Hf He (Hn & Hb & Hc & Hi) Ht [M1 M2 M3 M4 M5]. unfold apic_init.
  rewrite (bind_done _ _ _ _ _ (verify_apic_done s Hf He Hn)). set (s1 := set_apic _ s).
  erewrite bind_done by reflexivity. cbn [m_boot_apicid s1 set_apic]. rewrite Hb. change (BAD_APICID =? BAD_APICID) with true.
  cbn [when]. set (s2 := set_lapic_addr (lapic_page (m_hw s)) s1).
  assert (acpi_table_parse fw ACPI_SIG_MADT (acpi_parse_madt fw) s1 = Done 0 s2) as H2.
  { unfold acpi_table_parse, acpi_find_table. erewrite bind_done.
    2: { erewrite bind_done by reflexivity. cbn [m_acpi_tables s1 set_apic]. rewrite Ht. reflexivity. }
    rewrite (proj2 (Z.eqb_neq _ _) M1). unfold acpi_parse_madt. rewrite M2. reflexivity. }
  destruct (read_apic_id_done s2) as (h & H3 & Hh); [done..|]. change (m_hw s2) with (m_hw s) in *.
  set (s4 := set_boot_apicid (lapic_id (m_hw s)) (set_hw h s2)).
  destruct (madt_lapics_outcome fw (lapic_id (m_hw s)) madt s4) as [H5 _]; [done|done| |done|].
  { split; [done|]. split; [done|]. exists BAD_APICID. split; [done|by left]. }
  destruct (H5 M4) as (s5 & R5 & (l & ids & E5) & Hids).
  assert (driven s s5) as Hd by (rewrite E5; by split_and!).
  destruct (lapic_programmed s s5 Hd) as ([] & s6 & R6 & H6). exists s6. split; [|exact H6].
  rewrite <- R6.
  apply (bind_done _ (λ _ : unit, clear_local_apic ;; setup_local_apic ;; lapic_setup_esr) s1 tt s5).
  rewrite (bind_done _ _ _ _ _ H2). unfold BUG_ON. erewrite bind_done by reflexivity.
  rewrite (bind_done _ _ _ _ _ H3). erewrite bind_done by reflexivity. fold s4.
  rewrite (bind_done _ _ _ _ _ R5). rewrite (proj2 (Z.ltb_ge _ _)) by lia.
  do 2 (erewrite bind_done by reflexivity). by rewrite (Hids M5), Z.eqb_refl.
Qed.
End interrupts.

(** ** VT-x *)

Section vtx.
Context {hw : Type} {HW : Hardware hw}.
Implicit Types s : machine hw.

(** What the configuration of VT-x leaves alone, and the capabilities it finds. *)
Definition configured s0 (cap : vmx_capability) s : Prop :=
  m_hw s = m_hw s0 ∧ m_vmcs s = m_vmcs s0 ∧ m_vmx s = m_vmx s0 ∧ m_cap s = cap.

Lemma keeps_configured s0 cap (f : machine hw → machine hw) :
  (∀ s, m_hw (f s) = m_hw s ∧ m_vmcs (f s) = m_vmcs s ∧ m_vmx (f s) = m_vmx s ∧ m_cap (f s) = m_cap s) →
  keeps (configured s0 cap) (modify f).
Proof. intros Hf. apply keeps_modify. intros s (? & ? & ? & ?). destruct (Hf s) as (? & ? & ? & ?). split_and!; congruence. Qed.

Lemma keeps_print_controls s0 cap p c : keeps (configured s0 cap) (print_vmx_controls p c).
Proof.
  unfold print_vmx_controls, pr_info, pr_cont, printk.
  repeat lazymatch goal with
  | |- keeps _ (_ ≫= _) => apply keeps_bind; [|intros ?]
  | |- keeps _ (modify _) => by apply keeps_configured
  | |- keeps _ (for_each _ _) => apply keeps_for_each; intros ? ?
  | |- keeps _ (when _ _) => apply keeps_when; intros ?
  end.
Qed.

Lemma keeps_interception s0 cap m r w : keeps (configured s0 cap) (set_msr_interception m r w).
Proof. by apply keeps_configured. Qed.

Lemma adjust_supported ctl_min ctl_opt msr s :
  0 ≤ ctl_min < 2 ^ 32 → u32 msr = msr → allows (hw_rdmsr (m_hw s) msr) ctl_min →
  ∃ ctl, adjust_vmx_controls ctl_min ctl_opt msr s = Done ctl s.
Proof.
  intros Hmin Hmsr Ha. set (v := u64 (hw_rdmsr (m_hw s) msr)).
  assert (rdmsr msr s = Done (u32 v, v >>> 32) s) as Hr.
  { unfold rdmsr, rdmsrl. erewrite bind_done by reflexivity. by rewrite Hmsr. }
  rewrite (adjust_vmx_controls_done ctl_min ctl_opt _ _ _ _ Hr).
  assert (ctl_min &&& not32 (adjusted (u32 v) (v >>> 32) ctl_min ctl_opt) = 0) as ->; [|by eexists].
  apply Z.bits_inj'. intros i Hi. rewrite Z.testbit_0_l. unfold adjusted. autorewrite with bits.
  destruct (Z.testbit ctl_min i) eqn:E; [|done]. cbn [andb orb].
  assert (i < 32) as Hi'.
  { destruct (decide (i < 32)); [done|]. by rewrite (testbit_high 32) in E by lia. }
  rewrite (Z.add_comm i 32). unfold v. rewrite !testbit_wrap, (Ha i) by (done || lia).
  zbool.
Qed.

Definition ept_capability (h : hw) : vmx_capability :=
  let v := u64 (hw_rdmsr h MSR_IA32_VMX_EPT_VPID_CAP) in {| cap_ept := u32 v; cap_vpid := v >>> 32 |}.

Lemma rdmsr_value msr s : u32 msr = msr →
  rdmsr msr s = Done (u32 (u64 (hw_rdmsr (m_hw s) msr)), u64 (hw_rdmsr (m_hw s) msr) >>> 32) s.
Proof. intros Hm. unfold rdmsr, rdmsrl. erewrite bind_done by reflexivity. by rewrite Hm. Qed.

Lemma allows_none v : allows v 0.
Proof. intros i Hi. by rewrite Z.testbit_0_l. Qed.

(** Runs the next [adjust_vmx_controls], leaving that its controls are allowed. *)
Ltac next_controls :=
  lazymatch goal with
  | |- ∃ s', (adjust_vmx_controls ?min ?opt ?msr ≫= _) ?s = _ ∧ _ =>
      let c := fresh "c" in let R := fresh "R" in
      destruct (adjust_supported min opt msr s) as [c R];
        [vm_compute; split; (discriminate || reflexivity)|done| |rewrite (bind_done _ _ _ _ _ R); clear R]
  end.

Lemma setup_vmcs_config_done s :
  capable (m_hw s) → ∃ s', setup_vmcs_config s = Done tt s' ∧ configured s (ept_capability (m_hw s)) s'.
Proof.
  intros [_ _ _ _ _ Hctl Hsize Hmem _ _ _]. unfold setup_vmcs_config. cbv zeta.
  next_controls; [by apply (Hctl (_, _)); do 0 right; left|].
  next_controls; [by apply (Hctl (_, _)); do 1 right; left|].
  rewrite (bind_done _ _ _ _ _ (rdmsr_value MSR_IA32_VMX_EPT_VPID_CAP s eq_refl)).
  erewrite bind_done by reflexivity. set (s1 := set_cap _ s).
  next_controls; [by apply (Hctl (_, _)); do 2 right; left|].
  next_controls; [by apply allows_none|].
  next_controls; [by apply (Hctl (_, _)); do 3 right; left|].
  rewrite (bind_done _ _ _ _ _ (rdmsr_value MSR_IA32_VMX_BASIC s1 eq_refl)). change (m_hw s1) with (m_hw s).
  change PAGE_SIZE with 4096. rewrite (proj2 (Z.ltb_ge _ _) Hsize). erewrite bind_done by reflexivity.
  rewrite Hmem. erewrite bind_done by reflexivity. erewrite bind_done by reflexivity. set (s2 := set_config _ s1).
  lazymatch goal with |- ∃ s', ?m s2 = _ ∧ _ => assert (keeps (configured s (ept_capability (m_hw s))) m) as Hk end.
  { repeat lazymatch goal with |- keeps _ (_ ≫= _) => apply keeps_bind; [|intros _] | _ => apply keeps_print_controls end. }
  destruct (Hk s2) as ([] & s' & Hr & H'); [done|]. by exists s'.
Qed.

Lemma kvm_init_hardware_done s :
  capable (m_hw s) → cpu_has (m_cpu s) X86_FEATURE_VMX = true →
  ∃ s', kvm_init_hardware s = Done tt s' ∧ m_hw s' = m_hw s ∧ m_vmcs s' = m_vmcs s ∧ m_vmx s' = m_vmx s.
Proof.
  intros Hc Hf. unfold kvm_init_hardware, vmx_cpu_has_kvm_support, this_cpu_has.
  erewrite bind_done by reflexivity. rewrite Hf. erewrite bind_done by reflexivity.
  assert (vmx_disabled_by_bios s = Done 0 s) as Hb.
  { unfold vmx_disabled_by_bios. erewrite bind_done by reflexivity. destruct (cp_unlocked _ Hc) as [Hv Hl].
    change (u32 MSR_IA32_FEATURE_CONTROL) with MSR_IA32_FEATURE_CONTROL.
    change FEATURE_CONTROL_LOCKED with (BIT 0). change FEATURE_CONTROL_VMXON_ENABLED_OUTSIDE_SMX with (BIT 2).
    rewrite !truthy_land_BIT, !testbit_wrap by lia. cbn [Z.leb Z.ltb Z.compare Pos.compare Pos.compare_cont andb].
    rewrite !andb_true_r. destruct (Z.testbit _ 0); [|done]. by rewrite Hl. }
  rewrite (bind_done _ _ _ _ _ Hb). erewrite bind_done by reflexivity. unfold vmx_hardware_setup.
  destruct (setup_vmcs_config_done s Hc) as (s1 & R1 & H1). rewrite (bind_done _ _ _ _ _ R1).
  pose proof H1 as (_ & _ & _ & Hcap). unfold cpu_has_vmx_ept_2m_page, cpu_has_vmx_ept_4levels.
  do 4 (erewrite bind_done; [|unfold gets; rewrite ?Hcap; cbn [cap_ept ept_capability]; rewrite ?(cp_ept_2m _ Hc), ?(cp_ept_4l _ Hc); reflexivity]).
  lazymatch goal with |- ∃ s', ?m s1 = _ ∧ _ => assert (keeps (configured s (ept_capability (m_hw s))) m) as Hk end.
  { repeat lazymatch goal with
    | |- keeps _ (_ ≫= _) => apply keeps_bind; [|intros ?]
    | |- keeps _ (for_each _ _) => apply keeps_for_each; intros ? ?
    | _ => apply keeps_interception end. }
  destruct (Hk s1 H1) as ([] & s' & Hr & ? & ? & ? & _). by exists s'.
Qed.
End vtx.

(** ** Entering VMX operation *)

Section enter.
Context {hw : Type} {HW : Hardware hw} {DR : DescriptorRegisters hw} {SP : SteadyProcessor hw}.
Context {WV : WritableVmcs hw} {L : Layout} {LO : LayoutOk} (Hpages : vmxarea_pa ≠ current_vmcs_pa).
Implicit Types s : machine hw.

(** The feature-control register after [vmx_vcpu_enable] has read it. *)
Definition unlocked (h : hw) : Prop :=
  let v := hw_rdmsr h MSR_IA32_FEATURE_CONTROL in 0 ≤ v < 2 ^ 64 ∧ (Z.testbit v 0 = true → Z.testbit v 2 = true).

Lemma test_bits v : (v &&& (FEATURE_CONTROL_LOCKED ||| FEATURE_CONTROL_VMXON_ENABLED_OUTSIDE_SMX) =?
  (FEATURE_CONTROL_LOCKED ||| FEATURE_CONTROL_VMXON_ENABLED_OUTSIDE_SMX)) = Z.testbit v 0 && Z.testbit v 2.
Proof.
  change (FEATURE_CONTROL_LOCKED ||| FEATURE_CONTROL_VMXON_ENABLED_OUTSIDE_SMX) with (BIT 0 ||| BIT 2).
  destruct (Z.eqb_spec (v &&& (BIT 0 ||| BIT 2)) (BIT 0 ||| BIT 2)) as [E|E].
  - symmetry. apply andb_true_iff. split.
    + assert (Z.testbit (v &&& (BIT 0 ||| BIT 2)) 0 = true) as Hb by (by rewrite E).
      rewrite Z.land_spec in Hb. by apply andb_true_iff in Hb as [? _].
    + assert (Z.testbit (v &&& (BIT 0 ||| BIT 2)) 2 = true) as Hb by (by rewrite E).
      rewrite Z.land_spec in Hb. by apply andb_true_iff in Hb as [? _].
  - symmetry. apply not_true_iff_false. intros [H0 H2]%andb_true_iff. apply E. apply Z.bits_inj'. intros i Hi.
    rewrite Z.land_spec, Z.lor_spec, !testbit_BIT by lia.
    destruct (Z.eqb_spec i 0) as [->|]; [by rewrite H0|]. destruct (Z.eqb_spec i 2) as [->|]; [by rewrite H2|].
    apply andb_false_r.
Qed.

(** [vmx_vcpu_enable] before [vmxon]: the processor allows it. *)
Lemma lock_feature_control s :
  Z.testbit (hw_read_cr4 (m_hw s)) 13 = false → unlocked (m_hw s) →
  ∃ h, (old ← rdmsrl MSR_IA32_FEATURE_CONTROL;
        let test_bits := FEATURE_CONTROL_LOCKED ||| FEATURE_CONTROL_VMXON_ENABLED_OUTSIDE_SMX in
        when (negb ((old &&& test_bits) =? test_bits)) (wrmsrl MSR_IA32_FEATURE_CONTROL (old ||| test_bits))) s =
      Done tt (set_hw h s) ∧ same_tables (m_hw s) h ∧ hw_read_cr4 h = hw_read_cr4 (m_hw s) ∧
      Z.testbit (hw_rdmsr h MSR_IA32_FEATURE_CONTROL) 0 = true ∧ Z.testbit (hw_rdmsr h MSR_IA32_FEATURE_CONTROL) 2 = true.
Proof.
  intros Hc [Hv Hl]. erewrite bind_done by reflexivity. cbv zeta. rewrite test_bits.
  change (u32 MSR_IA32_FEATURE_CONTROL) with MSR_IA32_FEATURE_CONTROL. rewrite (wrap_small 64) by lia.
  set (v := hw_rdmsr (m_hw s) MSR_IA32_FEATURE_CONTROL) in *.
  destruct (Z.testbit v 0) eqn:E0.
  - rewrite Hl by done. exists (m_hw s). split_and!; try done; [by destruct s|]. by apply Hl.
  - eexists. split; [reflexivity|]. destruct (feature_control_else (m_hw s) (u64 (v ||| (FEATURE_CONTROL_LOCKED ||| FEATURE_CONTROL_VMXON_ENABLED_OUTSIDE_SMX)))) as [H1 H2].
    change (u32 MSR_IA32_FEATURE_CONTROL) with MSR_IA32_FEATURE_CONTROL.
    split; [done|]. split; [done|]. rewrite feature_control by done. rewrite !testbit_wrap, !Z.lor_spec by lia.
    by rewrite !orb_true_r.
Qed.

Lemma set_vmxe s : Z.testbit (hw_read_cr4 (m_hw s)) 13 = false →
  cr4_set_bits X86_CR4_VMXE s = Done tt (set_hw (hw_write_cr4 (m_hw s) (u64 (hw_read_cr4 (m_hw s)) ||| X86_CR4_VMXE)) s).
Proof.
  intros Hc. unfold cr4_set_bits. erewrite bind_done by reflexivity.
  set (c := u64 _). destruct (Z.eqb_spec (c ||| X86_CR4_VMXE) c) as [E|]; [|done]. exfalso.
  assert (Z.testbit (c ||| X86_CR4_VMXE) 13 = false) as Hb by (rewrite E; unfold c; by rewrite testbit_wrap, Hc by lia).
  rewrite Z.lor_spec in Hb. by rewrite orb_true_r in Hb.
Qed.

(** Only the two VMX pages are written. *)
Definition entered s0 s : Prop :=
  same_tables (m_hw s0) (m_hw s) ∧ m_vmcs s = m_vmcs s0 ∧ m_vmx s = m_vmx s0 ∧
  ∀ w, ¬ vmx_word w → m_mem s !! w = m_mem s0 !! w.

Lemma store_revision_done pa s : pa = vmxarea_pa ∨ pa = current_vmcs_pa →
  ∃ mem, store_revision pa s = Done tt (set_mem mem s) ∧ ∀ w, ¬ vmx_word w → mem !! w = m_mem s !! w.
Proof.
  intros Hpa. eexists. split; [reflexivity|]. intros w Hw. unfold write64. apply lookup_insert_ne. intros <-.
  apply Hw. unfold vmx_word. destruct Hpa as [-> | ->]; tauto.
Qed.

Lemma vcpu_enable_done s :
  Z.testbit (hw_read_cr4 (m_hw s)) 13 = false → unlocked (m_hw s) →
  ∃ s', vmx_vcpu_enable s = Done tt s' ∧ entered s s'.
Proof.
  intros Hc Hu. unfold vmx_vcpu_enable. erewrite bind_done by reflexivity.
  assert (truthy (u64 (hw_read_cr4 (m_hw s)) &&& X86_CR4_VMXE) = false) as ->.
  { unfold X86_CR4_VMXE. by rewrite truthy_land_BIT, testbit_wrap, Hc by lia. }
  erewrite bind_done by reflexivity.
  destruct (lock_feature_control s Hc Hu) as (h & R & Ht & Hc4 & H0 & H2).
  erewrite bind_done in R by reflexivity. erewrite bind_done by reflexivity. cbv zeta in *.
  rewrite (bind_done _ _ _ _ _ R). clear R. rewrite (bind_done _ _ _ _ _ (set_vmxe (set_hw h s) ltac:(by rewrite <- Hc, <- Hc4))).
  cbn [m_hw set_hw]. set (h1 := hw_write_cr4 _ _).
  assert (vmxon_allowed h1) as Hon.
  { unfold vmxon_allowed, h1. rewrite cr4_write. destruct (cr4_write_else h (u64 (hw_read_cr4 h) ||| X86_CR4_VMXE)) as [_ Hm].
    rewrite !Hm. split; [|done]. rewrite Z.lor_spec. apply orb_true_r. }
  assert (same_tables (m_hw s) h1) as Ht1 by (etransitivity; [exact Ht|apply cr4_write_else]).
  destruct (lo_regions vmxarea_pa) as (_ & A1 & _); [by left|]. destruct (lo_regions current_vmcs_pa) as (_ & A2 & _); [by right|].
  pose proof (vmptrld_succeeds h1 vmxarea_pa current_vmcs_pa Hon A1 A2 Hpages) as Hld.
  pose proof (vmptrld_tables (hw_vmxon h1 vmxarea_pa) current_vmcs_pa) as Ht2.
  destruct (store_revision_done vmxarea_pa (set_hw h1 (set_hw h s))) as (mem1 & R & M1); [by left|]. rewrite (bind_done _ _ _ _ _ R). clear R.
  erewrite bind_done by reflexivity. cbn [m_hw set_hw set_mem].
  match goal with |- ∃ s', (store_revision _ ≫= _) ?x = _ ∧ _ => destruct (store_revision_done current_vmcs_pa x) as (mem2 & R & M2); [by right|] end.
  rewrite (bind_done _ _ _ _ _ R). clear R. unfold vmcs_load, mbind, M_bind. cbn [m_hw set_hw set_mem m_mem] in *.
  destruct (hw_vmptrld (hw_vmxon h1 vmxarea_pa) current_vmcs_pa) as [e h2]. cbn [fst snd] in *. subst e.
  eexists. split; [reflexivity|]. split_and!; try done; cbn [m_hw set_hw set_mem m_mem].
  - etransitivity; [exact Ht1|]. etransitivity; [apply (vmxon_tables h1 vmxarea_pa)|exact Ht2].
  - intros w Hw. by rewrite M2, M1.
Qed.

(** The descriptor of the task-state segment is in a word of its own. *)
Lemma entered_tss s s' : entered s s' → tss_desc_addr s mod 8 = 0 → ¬ vmx_word (tss_desc_addr s / 8) →
  host_tss_ok s → host_tss_ok s'.
Proof.
  intros ([Hg Ht] & _ & _ & Hm) Ha Hw [H1 H2]. assert (tss_desc_addr s' = tss_desc_addr s) as E.
  { unfold tss_desc_addr. by rewrite Hg, Ht. }
  split; [by rewrite Ht|]. rewrite E. rewrite read64_aligned in H2 |- * by done. unfold read_word in *. by rewrite Hm.
Qed.

(** The rest only writes fields that the processor accepts. *)
Lemma create_vcpu_rest : keeps (λ s : machine hw, True)
  ((vmx_set_tdp ept_pml4 ;; kvm_set_ept_violation_handler kvm_handle_ept_violation ;;
    modify (set_current_vcpu true)) ;; run_vcpu_start FIRMWARE_START).
Proof.
  unfold run_vcpu_start, kvm_set_segment, kvm_rip_write, vmx_set_tdp, kvm_set_ept_violation_handler, update_vcpu.
  cbn [ops_set_segment ops_set_rip vmx_guest_ops]. unfold vmx_set_segment, vmx_set_rip, vmcs_writel, vmcs_write64.
  repeat lazymatch goal with
  | |- keeps _ (_ ≫= _) => apply keeps_bind; [|intros _]
  | |- keeps _ (modify _) => by apply keeps_modify
  | |- keeps _ (__vmcs_write _ _) => intros ? _; eexists _, _; split; [apply vmcs_write_done; written|done]
  end.
Qed.

Lemma bsp_start_done s :
  Z.testbit (hw_read_cr4 (m_hw s)) 13 = false → unlocked (m_hw s) →
  host_tss_ok s → tss_desc_addr s mod 8 = 0 → ¬ vmx_word (tss_desc_addr s / 8) →
  lme_clear (m_vmcs s) → length (autoload_guest (m_vmx s)) = 8%nat → length (autoload_host (m_vmx s)) = 8%nat →
  ∃ s', kvm_bsp_start s = Done tt s'.
Proof.
  intros Hc Hu Htss Ha Hw Hl Hg Hh. unfold kvm_bsp_start, create_vcpu.
  destruct (vcpu_enable_done s Hc Hu) as (s1 & R1 & H1). pose proof H1 as (_ & Hv & Hx & _).
  destruct (vcpu_setup_runs s1) as (lc & lh & lg & g & h & R2 & _); [by apply (entered_tss s)|by rewrite ?Hv, ?Hx..|].
  lazymatch type of R2 with _ = Done _ ?x => destruct (create_vcpu_rest x I) as ([] & s3 & R3 & _) end.
  exists s3. by rewrite bind_assoc, (bind_done _ _ _ _ _ R1), bind_assoc, (bind_done _ _ _ _ _ R2).
Qed.
End enter.
