(* ===== verification/MainStarts.v ===== *)
(** On a machine that can run it, [main] gets to the guest: none of the checks on the way to
    [kvm_loop] stops it. *)

From S2P Require Import Prelude Bitops Mem DList CString Hexdump Vmcs Machine Tsc Console ConsoleSpec Cpu PerCpu Apic Acpi AcpiSpec Madt MadtSpec Kvm Vmx VmxState VmxExit Ept.
From S2P Require Import Hypervisor E820 E820Map E820Update Boot BootSpec Traps TrapsSpec Main MainSpec MainEnds TablesApart Capable.
#[local] Open Scope Z_scope.
#[local] Open Scope cint_scope.

(** ** The firmware's tables *)

Section tables.
Context {hw : Type} `{Hardware hw} {L : Layout} {LO : LayoutOk}.

(** In the memory [m], the root pointer and the MADT, which describes the processor [h]. *)
Record firmware_tables (m : bmem) (h : hw) (rsdp madt : Z) : Prop := {
  ft_rsdp : head (filter (rsdp_valid m) rsdp_candidates) = Some rsdp;
  ft_root : root_valid m rsdp;
  ft_madt : head (filter (named m ACPI_SIG_MADT) (take 128 (valid_tables m rsdp))) = Some madt;
  ft_describes : madt_describes m h madt;
}.

(** The root table and the tables it lists are not in the hypervisor's image. *)
Definition tables_apart (m : bmem) (rsdp : Z) : Prop :=
  ∀ a, a = (root_of m rsdp).1 ∨ a ∈ listed m rsdp ∧ a ≠ 0 → apart a (table_extent m a) _start (_end - _start).

Lemma elem_of_head_filter {A} (P : A → Prop) `{!∀ x, Decision (P x)} (l : list A) x :
  head (filter P l) = Some x → x ∈ l ∧ P x.
Proof.
  intros Hh. assert (x ∈ filter P l) as Hx by (destruct (filter P l); [done|injection Hh as ->; left]).
  by apply list_elem_of_filter in Hx as [? ?].
Qed.

Lemma candidates_low a : a ∈ rsdp_candidates → a + 36 ≤ _start.
Proof.
  intros Ha. assert (0x200000 ≤ _start).
  { destruct lo_start as [Hpos Hal]. pose proof (Z.div_mod _start 0x200000 ltac:(lia)) as Hd. change SZ_2M with 0x200000 in Hal. lia. }
  unfold rsdp_candidates in Ha. apply elem_of_app in Ha as [Ha%paragraphs_bound|Ha%paragraphs_bound]; [lia|].
  change (Z.of_nat 8192) with 8192 in Ha. lia.
Qed.

Lemma taken_listed m rsdp a : a ∈ take 128 (valid_tables m rsdp) → a ∈ listed m rsdp ∧ a ≠ 0.
Proof.
  intros (i & Ha & _)%elem_of_take. apply list_elem_of_lookup_2 in Ha. revert Ha. unfold valid_tables, listed.
  destruct (root_of m rsdp) as [? ?]. rewrite list_elem_of_filter. by intros [[? _] ?].
Qed.

(** The same tables are found when the image has changed. *)
Lemma firmware_tables_kept (m m' : bmem) (h : hw) rsdp madt :
  (∀ a, ¬ _start ≤ a < _end → rd8 m' a = rd8 m a) → tables_apart m rsdp →
  firmware_tables m h rsdp madt → firmware_tables m' h rsdp madt.
Proof.
  intros Hsame Hap [F1 F2 F3 F4].
  assert (∀ a, a ∈ rsdp_candidates → same_at m m' a 36) as Hc.
  { intros a Ha b Hb. apply Hsame. pose proof (candidates_low a Ha). lia. }
  assert (∀ a, a = (root_of m rsdp).1 ∨ a ∈ listed m rsdp ∧ a ≠ 0 → same_at m m' a (table_extent m a)) as Ht.
  { intros a Ha b Hb. apply Hsame. specialize (Hap a Ha). unfold apart in Hap. lia. }
  pose proof (elem_of_head_filter _ _ _ F1) as [Hr _]. pose proof (taken_listed _ _ _ (proj1 (elem_of_head_filter _ _ _ F3))) as Hl.
  assert (valid_tables m' rsdp = valid_tables m rsdp) as Hv.
  { apply same_valid_tables; [by apply Hc|by apply Ht; left|]. intros a Ha Hne. apply Ht. by right. }
  split.
  - rewrite (filter_same (rsdp_valid m') (rsdp_valid m)); [done|]. intros a Ha. by apply same_rsdp_valid, Hc.
  - apply (same_root_valid m m'); [by apply Hc|by apply Ht; left|done].
  - rewrite Hv. rewrite (filter_same (named m' ACPI_SIG_MADT) (named m ACPI_SIG_MADT)); [done|].
    intros a Ha. unfold named. apply taken_listed in Ha.
    rewrite (same_rd_bytes m m' a (table_extent m a) 4); [done|apply Ht; by right|unfold table_extent; lia].
  - destruct F4 as [M1 M2 M3 M4 M5]. pose proof (Ht madt (or_intror Hl)) as Hm.
    destruct (same_madt m m' madt (lapic_id h) 0 Hm M3) as [H1 H2].
    split; rewrite ?H2; try done. rewrite <- M2. unfold rd32. apply (same_rd_le m m' madt _ _ _ Hm); [lia|unfold table_extent; lia].
Qed.
End tables.

(** ** The descriptor tables *)

Section traps.
Context {hw : Type} {HW : Hardware hw} {DR : DescriptorRegisters hw} {SP : SteadyProcessor hw}.
Context {now : hw → Z} {tick : Z} {TK : Ticking hw now tick} (Htick : tick ≤ 2 ^ 50).
Context {TL : TrapLayout} (Hapart : apart idt_table (16 * IDT_ENTRIES) cpu_entry_area gdt_and_tss).

Lemma on_tables_done (c : M trap_state unit) t t' (x : machine hw) (k : unit → M (trap_state * machine hw) unit) :
  c t = Done tt t' → (on_tables c ≫= k) (t, x) = k tt (t', x).
Proof. intros Hc. apply bind_done. unfold on_tables. cbn [fst snd]. by rewrite Hc. Qed.

Lemma on_machine_done (c : M (machine hw) unit) t (x x' : machine hw) :
  c x = Done tt x' → on_machine c (t, x) = Done tt (t, x').
Proof. intros Hc. unfold on_machine. cbn [fst snd]. by rewrite Hc. Qed.

(** What [kvm_bsp_run] needs of [trap_init]: the registers, and the present descriptor. *)
Record tss_loaded (t : trap_state) : Prop := {
  tl_gdtr : gdtr t = Some (__ENTRY_ADDR cea_gdt, GDT_SIZE - 1);
  tl_tr : task_register t = GDT_ENTRY_TSS * 8;
  tl_present : Z.testbit (rd64 (t_mem t) (cea_gdt + 8 * GDT_ENTRY_TSS)) 47 = true;
}.

Lemma tss_loaded_kept t t' : idt_changes t t' → tss_loaded t → tss_loaded t'.
Proof.
  intros [Hg Htr Hm] [H1 H2 H3]. split; [congruence..|]. rewrite <- H3. f_equal. apply rd_le_ext. intros i Hi. apply Hm.
  unfold apart, gdt_and_tss, sizeof_tss, cea_gdt, GDT_ENTRY_TSS in *. change PAGE_SIZE with 4096 in *. lia.
Qed.

Lemma trap_init_done s0 (t : trap_state) (x : machine hw) :
  system_vectors t = [0; 0; 0; 0] → under_way s0 x →
  ∃ t' x', trap_init (t, x) = Done tt (t', x') ∧ under_way s0 x' ∧ tss_loaded t'.
Proof.
  intros Hz Hx. unfold trap_init. destruct (switch_to_new_gdt_ok t) as (m & E1 & Hready & _).
  rewrite (on_tables_done _ _ _ _ _ E1). set (t1 := mk_traps _ _ _ _ _).
  assert (vectors_ok t1) as V1 by (split; cbn [t1 system_vectors]; rewrite Hz; [repeat constructor; lia|done]).
  assert (tss_loaded t1) as L1 by (split; [done..|exact (tr_present _ Hready)]).
  destruct (sets_idt_traps t1 V1) as (t2 & E2 & V2 & C2). rewrite (on_tables_done _ _ _ _ _ E2).
  destruct (sets_idt_ist t2 V2) as (t3 & E3 & V3 & C3). rewrite (on_tables_done _ _ _ _ _ E3).
  destruct (keeps_i8259 Htick s0 x Hx) as ([] & x1 & R1 & H1). rewrite (bind_done _ _ _ _ _ (on_machine_done _ _ _ _ R1)).
  destruct (sets_idt_gates t3 V3) as (t4 & E4 & V4 & C4). rewrite (on_tables_done _ _ _ _ _ E4).
  destruct (keeps_trap_msrs s0 x1 H1) as ([] & x2 & R2 & H2). rewrite (on_machine_done _ _ _ _ R2).
  exists t4, x2. split; [done|]. split; [done|]. by do 3 (eapply tss_loaded_kept; [eassumption|]).
Qed.
End traps.

(** ** From [main] to [kvm_loop] *)

(** What the layout of the image has to be, besides [ImageLayout]: the descriptor tables are
    different objects, and so are the two VMX pages. *)
Class StartLayout `{Layout} `{TrapLayout} : Prop := {
  sl_tables : apart idt_table (16 * IDT_ENTRIES) cpu_entry_area gdt_and_tss;
  sl_align : cpu_entry_area mod 8 = 0;
  sl_pages : vmxarea_pa ≠ current_vmcs_pa ∧ vmxarea_pa < SZ_4G ∧ current_vmcs_pa < SZ_4G;
}.

Section start.
Context {hw : Type} {HW : Hardware hw} {DR : DescriptorRegisters hw} {SP : SteadyProcessor hw} {WV : WritableVmcs hw}.
Context {now : hw → Z} {tick : Z} {TK : Ticking hw now tick} (Htick : tick ≤ 2 ^ 50).
Context {L : Layout} {LO : LayoutOk} {CL : ConsoleLayout} {TL : TrapLayout} {BL : BootLayout} {IL : ImageLayout}.
Context {SL : StartLayout}.
Implicit Types (s : program hw) (x : machine hw).

(** The machine and the image at the start: a capable processor, tables of the firmware that
    describe it, and the initial values of the static variables. *)
Record startable info n rsdp madt s : Prop := {
  st_entry : at_entry info n s;
  st_capable : capable (m_hw (p_mach s));
  st_tables : firmware_tables (p_mem s) (m_hw (p_mach s)) rsdp madt;
  st_apart : tables_apart (p_mem s) rsdp;
  st_cpu : capabilities_ok (p_mach s);
  st_apic : no_apic_yet (p_mach s);
  st_lme : lme_clear (m_vmcs (p_mach s));
  st_guest : length (autoload_guest (m_vmx (p_mach s))) = 8%nat;
  st_host : length (autoload_host (m_vmx (p_mach s))) = 8%nat;
}.

Lemma processor_done {A} (f : M (machine hw) A) s a x : f (p_mach s) = Done a x →
  on_processor f s = Done a (with_kernel (with_mach x (p_kernel s)) s).
Proof. intros Hr. unfold on_processor, on_kernel, on_mach, lift_outcome. by rewrite Hr. Qed.

(** The clock and the descriptor tables. *)
Lemma traps_done s x0 : under_way x0 (p_mach s) → r_vectors (p_traps s) = [0; 0; 0; 0] →
  ∃ s', on_traps trap_init s = Done tt s' ∧
    same_configuration (m_hw x0) (m_hw (p_mach s')) ∧ m_vmcs (p_mach s') = m_vmcs x0 ∧ m_vmx (p_mach s') = m_vmx x0 ∧
    m_cpu (p_mach s') = m_cpu x0 ∧ (no_apic_yet x0 → no_apic_yet (p_mach s')) ∧
    hw_store_gdt (m_hw (p_mach s')) = __ENTRY_ADDR cea_gdt ∧ hw_store_tr (m_hw (p_mach s')) = GDT_ENTRY_TSS * 8 ∧
    Z.testbit (rd64 (p_mem s') (cea_gdt + 8 * GDT_ENTRY_TSS)) 47 = true.
Proof.
  intros Hx Hz.
  destruct (trap_init_done Htick sl_tables x0 (mk_traps (p_mem s) (r_vectors (p_traps s)) (r_idtr (p_traps s))
    (r_gdtr (p_traps s)) (r_tr (p_traps s))) (p_mach s) Hz Hx) as (t & y & Hr & [Ha _] & [Hg Htr Hp]).
  eexists. split; [unfold on_traps, lift_outcome; rewrite Hr; reflexivity|]. cbn [p_kernel k_mach with_mem with_mach fst snd set_hw m_hw m_vmcs m_vmx m_cpu k_mem].
  destruct Ha as (h & l & k & -> & Hs & _). cbn [m_hw m_vmcs m_vmx m_cpu set_tsc_khz set_log set_hw]. split_and!; try done.
  - etransitivity; [exact Hs|apply load_configuration].
  - by eapply load_gdt.
  - by rewrite load_tr.
Qed.

Lemma entry_area_bounds i : 0 ≤ i < gdt_and_tss → _start ≤ cpu_entry_area + i < _end.
Proof. intros Hi. destruct (il_early (cpu_entry_area + i)) as [? _]; [|done]. right. right. lia. Qed.

(** The descriptor is where the processor looks for it: in the second view of the memory. *)
Lemma tss_in_window m x :
  m_mem x = linear m → hw_store_gdt (m_hw x) = __ENTRY_ADDR cea_gdt → hw_store_tr (m_hw x) = GDT_ENTRY_TSS * 8 →
  Z.testbit (rd64 m (cea_gdt + 8 * GDT_ENTRY_TSS)) 47 = true →
  host_tss_ok x ∧ tss_desc_addr x mod 8 = 0 ∧ ¬ vmx_word (tss_desc_addr x / 8).
Proof.
  intros Hm Hg Ht Hp. pose proof (entry_area_bounds 0 ltac:(by vm_compute)). pose proof (entry_area_bounds 64 ltac:(by vm_compute)) as Hb.
  destruct lo_start as [Hpos _], lo_end as [[_ Hend] _]. destruct sl_pages as (_ & Hv1 & Hv2). pose proof sl_align as Hal.
  unfold cea_gdt, GDT_ENTRY_TSS, SZ_4G in *.
  assert (tss_desc_addr x = 8 * (entry_window + (cpu_entry_area + 64) / 8)) as E.
  { unfold tss_desc_addr, __ENTRY_ADDR, entry_window, __ENTRY_OFFSET in *. rewrite Hg, Ht. rewrite wrap_wrap by lia.
    change (u64 (8 * 8) / 8) with 8. rewrite (wrap_small 64 (cpu_entry_area + _)), wrap_small by lia. divlia. }
  assert (host_tss_ok x ∧ tss_desc_addr x mod 8 = 0) as [H1 H2].
  { split; [|rewrite E; divlia]. split; [by rewrite Ht|]. rewrite E, Hm. rewrite read64_aligned by divlia.
    replace (8 * (entry_window + (cpu_entry_area + 64) / 8) / 8) with (entry_window + (cpu_entry_area + 64) / 8) by divlia.
    change (default 0 (?m !! ?w)) with (read_word m w).
    assert (8 * ((cpu_entry_area + 64) / 8) = cpu_entry_area + 8 * 8) as E8 by divlia.
    rewrite read_window; rewrite ?E8; [done| |].
    - unfold SZ_4G. divlia.
    - intros Hz. by rewrite Hz in Hp. }
  split_and!; [done..|]. rewrite E. unfold vmx_word, entry_window, __ENTRY_OFFSET.
  destruct (lo_regions vmxarea_pa) as [? _]; [by left|]. destruct (lo_regions current_vmcs_pa) as [? _]; [by right|].
  intros [Hw|Hw]; revert Hw; divlia.
Qed.

(** *** The second half: what comes after the boot loader's information is read *)

(** The machine once the clock runs and the descriptor tables are loaded. *)
Record prepared x0 x : Prop := {
  pr_hw : same_configuration (m_hw x0) (m_hw x);
  pr_vmcs : m_vmcs x = m_vmcs x0;
  pr_vmx : m_vmx x = m_vmx x0;
  pr_apic : cpu_has (m_cpu x) X86_FEATURE_APIC = true;
  pr_has_vmx : cpu_has (m_cpu x) X86_FEATURE_VMX = true;
  pr_no_apic : no_apic_yet x;
  pr_gdt : hw_store_gdt (m_hw x) = __ENTRY_ADDR cea_gdt;
  pr_tr : hw_store_tr (m_hw x) = GDT_ENTRY_TSS * 8;
}.

Lemma run_done x0 s e m2 rsdp madt :
  prepared x0 (p_mach s) → capable (m_hw x0) → firmware_tables (p_mem s) (m_hw x0) rsdp madt →
  lme_clear (m_vmcs x0) → length (autoload_guest (m_vmx x0)) = 8%nat → length (autoload_host (m_vmx x0)) = 8%nat →
  kvm_init_guest (mk_bstate (p_e820 s) (p_mem s)) = Done tt (mk_bstate e m2) →
  Z.testbit (rd64 m2 (cea_gdt + 8 * GDT_ENTRY_TSS)) 47 = true →
  ∃ s1, (on_firmware acpi_table_init ;; on_firmware apic_init ;; kvm_init ;; kvm_bsp_run) s = Done tt s1.
Proof.
  intros [P1 P2 P3 P4 P5 P6 P7 P8] Hcap [F1 F2 F3 F4] Hl Hg Hh Hguest Htss.
  assert (∃ rest, filter (rsdp_valid (p_mem s)) rsdp_candidates = rsdp :: rest) as [rest Hrest].
  { destruct (filter _ _) as [|y rest]; [done|]. injection F1 as ->. by exists rest. }
  destruct (acpi_table_init_finds (p_mem s) rsdp rest (p_mach s) Hrest F2) as [l R1].
  unfold on_firmware at 1. erewrite bind_done by (apply processor_done; exact R1).
  set (x1 := set_log l _) in *. set (s1 := with_kernel _ _).
  assert (madt_describes (p_mem s) (m_hw x1) madt) as F4' by (by eapply madt_describes_same).
  assert (Z.testbit (hw_rdmsr (m_hw x1) MSR_IA32_APICBASE) 11 = true) as Hen.
  { rewrite (sc_msr _ _ P1) by by_decision. apply (cp_apic_enabled _ Hcap). }
  destruct (apic_init_done (p_mem s) madt x1 P4 Hen P6) as (x2 & R2 & _ & _ & [D1 D2] & D3 & D4 & D5); [|done|].
  { cbn [x1 m_acpi_tables set_log set_acpi_tables]. by rewrite find_table_array, F3. }
  unfold on_firmware. erewrite bind_done by (apply processor_done; exact R2).
  assert (same_configuration (m_hw x0) (m_hw x2)) as Hc2 by (etransitivity; [exact P1|exact D1]).
  pose proof (capable_same _ _ Hc2 Hcap) as Hcap2.
  destruct (kvm_init_hardware_done x2 Hcap2) as (x3 & R3 & E1 & E2 & E3); [by rewrite D5|].
  unfold kvm_init. erewrite bind_done.
  2: { erewrite bind_done by (apply processor_done; exact R3). unfold on_boot, s1. cbn [p_kernel p_e820 with_kernel with_mach k_mem]. rewrite Hguest. reflexivity. }
  unfold kvm_bsp_run. erewrite bind_done by reflexivity. set (x4 := set_mem (linear m2) x3).
  destruct D2 as [D6 D7]. change (m_vmcs x1) with (m_vmcs (p_mach s)) in D3. change (m_vmx x1) with (m_vmx (p_mach s)) in D4.
  destruct (tss_in_window m2 x4) as (T1 & T2 & T3); [done|cbn [x4 m_hw set_mem]; rewrite E1, ?D6, ?D7; done..|done|].
  destruct (bsp_start_done (proj1 sl_pages) x4) as (x5 & R5); [..|eexists; by apply processor_done].
  all: cbn [x4 m_hw m_vmcs m_vmx set_mem]; rewrite ?E1, ?E2, ?E3, ?D3, ?D4, ?P2, ?P3.
  - apply (cp_vmxe _ Hcap2).
  - apply (cp_unlocked _ Hcap2).
  - exact T1.
  - exact T2.
  - exact T3.
  - exact Hl.
  - exact Hg.
  - exact Hh.
Qed.

(** Only bytes of the image change before the firmware's tables are read. *)
Lemma image_changes m0 m m1 :
  (∀ a, ¬ written_early a → rd8 m a = rd8 m0 a) → unchanged_outside m m1 guest_params sizeof_guest_params →
  ∀ a, ¬ _start ≤ a < _end → rd8 m1 a = rd8 m0 a.
Proof.
  intros H1 H2 a Ha. rewrite H2, H1; [done| |].
  - intros He. by destruct (il_early a He).
  - destruct (decide (guest_params ≤ a < guest_params + sizeof_guest_params)) as [Hin|]; [|lia].
    by destruct (il_params a Hin).
Qed.

(** The descriptor is not among the parameters of the guest or where its firmware is copied to. *)
Lemma descriptor_kept m m1 m2 :
  unchanged_outside m m1 guest_params sizeof_guest_params →
  (∀ a, (a < FIRMWARE_START ∨ FIRMWARE_START + (_binary_firmware_end - _binary_firmware_start) ≤ a) →
     (a < guest_params ∨ guest_params + sizeof_guest_params ≤ a) → rd8 m2 a = rd8 m1 a) →
  rd64 m2 (cea_gdt + 8 * GDT_ENTRY_TSS) = rd64 m (cea_gdt + 8 * GDT_ENTRY_TSS).
Proof.
  intros H1 H2. apply rd_le_ext. intros i Hi.
  assert (0 ≤ 64 + i < gdt_and_tss) as Hr by (unfold gdt_and_tss, sizeof_tss; change PAGE_SIZE with 4096; lia).
  pose proof (entry_area_bounds (64 + i) Hr) as Hb. pose proof il_firmware as Hf.
  destruct (il_early (cpu_entry_area + (64 + i))) as (_ & _ & Hg & _); [right; right; lia|].
  change (cea_gdt + 8 * GDT_ENTRY_TSS) with (cpu_entry_area + 64). rewrite H2, H1 by lia. done.
Qed.

End start.

(** ** A start *)

Module MainStartsDemo.
Import MainDemo.

Lemma pc_steady (h h' : pc) :
  (∀ i, i ∈ configuration_msrs → pc_msrs h' !! i = pc_msrs h !! i) →
  pc_mmio h' !! (lapic_page h + APIC_ID) = pc_mmio h !! (lapic_page h + APIC_ID) →
  pc_cr4 h' = pc_cr4 h → same_configuration h h'.
Proof.
  intros Hm Hi Hc. split; cbn; [|done|by rewrite Hc|by rewrite Hi]. intros i Hin. by rewrite Hm.
Qed.

#[export] Instance steady_pc : SteadyProcessor pc.
Proof.
  split; try done.
  - intros h i v Hi. split; [|done]. apply pc_steady; [|done..]. intros j Hj. cbn. apply lookup_insert_ne. by intros ->.
  - intros h a v Ha. split; [|done]. apply pc_steady; [done| |done]. cbn. by apply lookup_insert_ne.
  - intros r h base limit Hr. cbn. by rewrite Hr.
  - intros h v _. cbn. by rewrite lookup_insert_eq.
Qed.

#[export] Instance writable_pc : WritableVmcs pc.
Proof.
  intros f Hf. apply negb_true_iff. apply (forallb_elem (λ f, negb (hw_vmwrite_fails f)) written_fields); [|exact Hf].
  vm_compute. reflexivity.
Qed.

#[export] Instance start_layout : StartLayout.
Proof. split; [left; vm_compute; discriminate|reflexivity|by split_and!]. Qed.

Lemma pc_capable : capable (m_hw machine0).
Proof.
  split; try (vm_compute; done).
  intros p Hp i Hi Ht. assert (hw_rdmsr (m_hw machine0) p.1 = 0xffffffff00000000) as ->.
  { unfold required_controls in Hp. repeat (apply elem_of_cons in Hp as [->|Hp]; [vm_compute; reflexivity|]). by apply not_elem_of_nil in Hp. }
  change 0xffffffff00000000 with (Z.ones 32 <<< 32). rewrite Z.shiftl_spec by lia. replace (32 + i - 32) with i by lia.
  apply Z.ones_spec_low. lia.
Qed.

Lemma pc_madt : madt_describes memory (m_hw machine0) 0xb000.
Proof.
  assert (madt_lapics memory 0xb000 = [(0, true)]) as Hl by (vm_compute; reflexivity).
  assert (lapic_id (m_hw machine0) = 0) as Hi by (vm_compute; reflexivity).
  split; rewrite ?Hi, ?Hl; [lia|vm_compute; reflexivity| |by repeat constructor|done].
  assert (walk memory (0xb000 + rd32 memory (0xb000 + 4)) (0xb000 + sizeof_acpi_table_madt) = [0xb02c]) as Hw by (vm_compute; reflexivity).
  unfold walkable. change (omap (lapic_of memory) (walk memory (0xb000 + rd32 memory (0xb000 + 4)) (0xb000 + sizeof_acpi_table_madt)))
    with (madt_lapics memory 0xb000). rewrite Hw, Hl. split; [|split; [apply Forall_singleton; left; by split|split; [lia|vm_compute; discriminate]]].
  apply Forall_singleton. replace (0xb000 + rd32 memory (0xb000 + 4)) with 0xb034 by (vm_compute; reflexivity). unfold MadtSpec.entry_fits.
  replace (subtable_length memory 0xb02c) with 8 by (vm_compute; reflexivity).
  replace (subtable_type memory 0xb02c) with 0 by (vm_compute; reflexivity). split_and!; [lia|lia|discriminate].
Qed.

Lemma pc_tables : firmware_tables memory (m_hw machine0) 0xe0000 0xb000.
Proof. split; [vm_compute; reflexivity|by_decision|vm_compute; reflexivity|exact pc_madt]. Qed.

Lemma pc_apart : tables_apart memory 0xe0000.
Proof.
  assert (root_of memory 0xe0000 = (0xa000, 4)) as Hr by (vm_compute; reflexivity).
  assert (listed memory 0xe0000 = [0xb000]) as Hl by (vm_compute; reflexivity).
  intros a. rewrite Hr, Hl. intros [->|[Ha _]]; [by_decision|]. apply list_elem_of_singleton in Ha as ->. by_decision.
Qed.

Lemma entry_startable : startable 0x9000 2 0xe0000 0xb000 entry.
Proof.
  split; [exact entry_ok|exact pc_capable|exact pc_tables|exact pc_apart| | | |reflexivity|reflexivity].
  - split; [|reflexivity]. apply Forall_replicate. lia.
  - by split_and!.
  - vm_compute. reflexivity.
Qed.

End MainStartsDemo.
