(* ===== verification/FirmwareMain.v ===== *)
(** The firmware as a program: [main] of [firmware/main.c] with [load_linux] of
    [firmware/linux.c], the first code the guest executes.  It has the console code of the
    hypervisor, a prefix of its own, and the loader of file Firmware. *)

From S2P Require Import Prelude Mem DList CString Vsprintf Vmcs Machine Tsc Console ConsoleSpec LogSpec Boot Firmware Panic.
#[local] Open Scope Z_scope.
#[local] Open Scope cint_scope.

Section firmware.
Context {hw : Type} `{Hardware hw} `{ConsoleLayout} `{FirmwareLayout}.

Definition pr_info (fmt args : list Z) : M (kstate hw) unit := pr GuestFirmware LOGLEVEL_INFO fmt args.

(** [load_multiboot] with its message; [None] where it returns.  The message is put out
    between the search for the header and the load, and the search is repeated here. *)
Definition run_multiboot (params : Z) : M (kstate hw) (option (Z * Z)) :=
  m ← gets k_mem;
  match find_multiboot_header m (rd64 m (params + gp_kernel_start)) with
  | None => mret None
  | Some _ =>
      pr_info (textn "multiboot header found") [] ;;
      m ← gets k_mem;
      let '(m, r) := load_multiboot m params in
      modify (with_mem m) ;;
      mret r
  end.

Definition load_linux (params : Z) : M (kstate hw) unit := pr_info (text "Linux bootloader not implemented.") [].

(** The guest kernel's entry point and its argument, if there is a kernel to enter. *)
Definition firmware_main (colour params : Z) : M (kstate hw) (option (Z * Z)) :=
  porte9_init colour ;;
  vgacon_init ;;
  pr_info (textn "Starting firmware...") [] ;;
  kernel ← run_multiboot params;
  match kernel with
  | Some entry => mret (Some entry)
  | None =>
      load_linux params ;;
      pr_err GuestFirmware (textn "Unknown kernel image format.") [] ;;
      die ;;
      mret None
  end.
End firmware.

(** ** A kernel that is none *)

Section header.
Lemma find_header_ext n m m' a : (∀ i, 0 ≤ i < 4 * Z.of_nat n → rd8 m' (a + i) = rd8 m (a + i)) →
  find_header_loop n m' a = find_header_loop n m a.
Proof.
  revert a. induction n as [|n IH]; intros a Hs; cbn [find_header_loop]; [done|].
  assert (rd32 m' a = rd32 m a) as -> by (apply rd_le_ext; intros i Hi; apply Hs; lia).
  destruct (_ =? _); [done|]. apply IH. intros i Hi. rewrite <- !Z.add_assoc. apply Hs. lia.
Qed.
End header.

Section spec.
Context {hw : Type} `{Hardware hw} `{ConsoleLayout} {pv : hw → ports} {busy : hw → Z} `{!ConsolePorts hw pv busy}.
Context `{!ConsoleLayoutOk} `{FirmwareLayout}.
Implicit Types (s : kstate hw) (v : view).

Definition firmware_consoles : list (Z * driver) := [(porte9_con, DebugPort); (vgacon_con, Screen)].

(** [n] bytes at [a] that the console code does not write. *)
Definition untouched_by_log (a n : Z) : Prop := quiet a n ∧ ∀ p, p ∈ console_nodes → off a n p 16.

Lemma untouched_same s s1 s2 a n :
  outside_same console_nodes (k_mem s) (k_mem s1) → log_step s1 s2 → untouched_by_log a n →
  ∀ i, 0 ≤ i < n → rd8 (k_mem s2) (a + i) = rd8 (k_mem s) (a + i).
Proof.
  intros Ho [_ Hq] [Hqa Ha] i Hi. rewrite Hq by (apply (quiet_sub a n); (done || lia)).
  apply Ho. intros p Hp. specialize (Ha p Hp). unfold off in Ha. lia.
Qed.

#[local] Notation ready := (ready (pv := pv) firmware_consoles).

(** The consoles of the firmware start. *)
Lemma firmware_starts colour pre s v :
  log_ok (pv := pv) [] [] s → displays (pv := pv) s v → static_objects colour pre s → k_lock s = false →
  loglevel s = LOGLEVEL_DEFAULT → curlevel s = LOGLEVEL_DEFAULT →
  ∃ s1, (porte9_init colour ;; vgacon_init) s = Done tt s1 ∧ ready pre s1 v ∧
    outside_same console_nodes (k_mem s) (k_mem s1).
Proof.
  intros Hok Hd Hso Hl Hll Hcl. destruct (start_spec (pv := pv) colour pre s v Hok Hd Hso) as (s1 & Hr & Hok1 & Hd1 & Hc).
  destruct Hc as (Hc1 & Hc2 & Hc3 & _). exists s1. split; [done|]. split; [split_and!; [done|done|by rewrite Hc1|by rewrite Hc2|by rewrite Hc3]|].
  apply (consoles_frame colour s s1 tt).
  - destruct Hso as [_ _ _ _ _ HN _]. apply (nodes_subset _ _ HN); [|set_solver +].
    pose proof (nodes_distinct _ HN) as HdN. unfold console_nodes. rewrite !NoDup_cons in *. set_solver + HdN.
  - pose proof (lo_chain _ _ _ Hok) as Hch. unfold chain in Hch. cbn [con_nodes fmap list_fmap app] in Hch.
    apply linked_cons in Hch as (Hn1 & Hn2 & _). by split.
  - exact Hr.
Qed.

(** C26: With an image that has no multiboot header, the firmware says so on every console and
    stops. *)
Theorem firmware_unknown_kernel colour params pre s v :
  log_ok (pv := pv) [] [] s → displays (pv := pv) s v → static_objects colour pre s → k_lock s = false →
  loglevel s = LOGLEVEL_DEFAULT → curlevel s = LOGLEVEL_DEFAULT →
  let image := rd64 (k_mem s) (params + gp_kernel_start) in
  untouched_by_log (params + gp_kernel_start) 8 → untouched_by_log image MULTIBOOT_SEARCH →
  find_multiboot_header (k_mem s) image = None →
  ∃ s1 s' v', (porte9_init colour ;; vgacon_init) s = Done tt s1 ∧
    firmware_main colour params s = OutOfFuel s' ∧ ready pre s' v' ∧
    shows_messages GuestFirmware firmware_consoles pre (k_mem s1)
      [(LOGLEVEL_INFO, textn "Starting firmware...", []);
       (LOGLEVEL_INFO, text "Linux bootloader not implemented.", []);
       (LOGLEVEL_ERR, textn "Unknown kernel image format.", [])] v v'.
Proof.
  intros Hok Hd Hso Hl Hll Hcl image Hp Hi Hnone.
  destruct (firmware_starts colour pre s v Hok Hd Hso Hl Hll Hcl) as (s1 & Hr & Hready & Ho).
  destruct (prints_pr (pv := pv) GuestFirmware firmware_consoles pre LOGLEVEL_INFO (textn "Starting firmware...") [] s1 v Hready)
    as (l1 & s2 & v2 & -> & Hr1 & Hready2 & Hs2 & Hm1); [done|by vm_compute|].
  assert (run_multiboot params s2 = Done None s2) as Hr2.
  { unfold run_multiboot. erewrite bind_done by reflexivity.
    assert (rd64 (k_mem s2) (params + gp_kernel_start) = image) as ->.
    { apply rd_le_ext. apply (untouched_same s s1 s2); done. }
    assert (find_multiboot_header (k_mem s2) image = None) as ->; [|done].
    rewrite <- Hnone. apply find_header_ext. intros i Hb.
    apply (untouched_same s s1 s2 image MULTIBOOT_SEARCH); try done.
    unfold MULTIBOOT_SEARCH, sizeof_multiboot_info in *. revert Hb. vm_compute (4 * _). lia. }
  assert (prints (pv := pv) GuestFirmware firmware_consoles pre
    (load_linux params ;; pr_err GuestFirmware (textn "Unknown kernel image format.") [])
    (λ l, l = [(LOGLEVEL_INFO, text "Linux bootloader not implemented.", []);
       (LOGLEVEL_ERR, textn "Unknown kernel image format.", [])]) s2 v2) as Hp2.
  { eapply prints_weaken.
    - apply prints_cons; [done|done|by vm_compute|]. intros s3 v3 Hready3 _. apply prints_pr; [done|done|by vm_compute].
    - by intros l (l2 & -> & ->). }
  apply prints_die in Hp2 as (l2 & s' & v' & -> & Hr3 & Hready' & _ & Hm2).
  exists s1, s', v'. split; [done|]. split; [|split; [done|]].
  - bind_inv Hr as u sa Ha. unfold firmware_main. rewrite (bind_done _ _ _ _ _ Ha), (bind_done _ _ _ _ _ Hr).
    rewrite (bind_done _ _ _ _ _ Hr1), (bind_done _ _ _ _ _ Hr2). revert Hr3. unfold mbind, M_bind.
    destruct (load_linux params s2) as [a t| |]; [|by intros [=]; subst..].
    destruct (pr_err _ _ _ t) as [b t'| |]; [|by intros [=]; subst..].
    destruct (die t') as [c t''| |]; by intros [=]; subst.
  - apply (shows_messages_app _ _ _ (k_mem s1) [_] _ _ v2); [done|]. by apply (shows_messages_mono _ _ _ _ (k_mem s2)); [apply Hs2|].
Qed.
End spec.

(** ** A start without a kernel *)

Module FirmwareMainDemo.
Import ConsoleDemo LogDemo.
#[local] Existing Instance layout_ok.
#[local] Instance firmware_layout : FirmwareLayout := {|
  multiboot_info_va := 0x50000; mod_list_va := 0x50100; mmap_va := 0x50200; initrd_text_va := 0x51010; elfmag_va := 0x51000;
|}.

Lemma firmware_unknown_kernel_witness :
  ∃ s1 s' v', (porte9_init colour ;; vgacon_init) at_boot = Done tt s1 ∧
    firmware_main colour 0x40000 at_boot = OutOfFuel s' ∧ ready (pv := pv) firmware_consoles BRIGHT_YELLOW s' v' ∧
    shows_messages GuestFirmware firmware_consoles BRIGHT_YELLOW (k_mem s1)
      [(LOGLEVEL_INFO, textn "Starting firmware...", []);
       (LOGLEVEL_INFO, text "Linux bootloader not implemented.", []);
       (LOGLEVEL_ERR, textn "Unknown kernel image format.", [])] boot_view v'.
Proof.
  pose proof (firmware_unknown_kernel (pv := pv) colour 0x40000 BRIGHT_YELLOW at_boot boot_view
    boot_log boot_displays boot_objects eq_refl eq_refl eq_refl) as Hth. cbv zeta in Hth.
  replace (rd64 (k_mem at_boot) (0x40000 + gp_kernel_start)) with 0 in Hth by (vm_compute; reflexivity).
  assert (∀ a n, a + n ≤ 0x10000 ∨ 0x30000 ≤ a ∧ a + n ≤ 0x50000 → untouched_by_log a n) as Ha.
  { intros a n Hr. split; [split|]; unfold off.
    - change vga_vram_base with 0xb8000. lia.
    - change printk_buf with 0x21000. change LOG_LINE_MAX with 1024. lia.
    - intros p Hp. unfold console_nodes in Hp. rewrite !elem_of_cons, elem_of_nil in Hp. unfold con_list_offset in Hp.
      cbn in Hp. lia. }
  apply Hth; [apply Ha; right; by vm_compute|apply Ha; left; by vm_compute|vm_compute; reflexivity].
Defined.
End FirmwareMainDemo.
